(* ===== verification/_CoqProject ===== *)
-Q . S2P
Prelude.v
GoStrings.v
Float64.v
PaceReport.v
Sdk.v
SdkModel.v
RateLimit.v
Chain.v
ClientSetup.v
Payload.v
EthPayload.v
WasmPayload.v
MixedPayload.v
Pipeline.v
Stresser.v
Broadcasting.v
InitialPool.v
TxInfo.v
Fuzzer.v
SeqChain.v
StressRun.v
InitialDelivery.v
Delivery.v
FirstInitial.v
Replay.v
RateAccount.v
UserOp.v
UserOpPayload.v
EthClient.v
JsonRpc.v
JsonNumber.v
Checksum.v
Bundler.v
Genesis.v
Generator.v
Template.v
TemplateTexts.v
Rendering.v
Deployment.v
Cli.v
Commands.v
NativeDelivery.v
EthDelivery.v
WasmDelivery.v
ReplayRun.v
CommandLine.v
Binding.v
ContractAbis.v
Contracts.v
ContractCalls.v
