(* ===== verification/Prelude.v ===== *)
(** * chain-stresser: a verification development

    chain-stresser prepares, signs and broadcasts large numbers of transactions
    against an Injective node, replays blocks of another chain, and generates the
    configuration of the network it stresses.  This library models the program's
    own logic as Rocq functions and step relations, with the names of the source,
    and proves what makes it correct.

    ** The program and the files

    [main.go] reads the flags and an accounts file and calls [Stress],
    [StressReplay] or [GenerateConfigs].  [Stress] fetches every account's number
    and sequence, lets a payload provider make the initial transactions and
    broadcasts them, then generates and signs all transactions in a pipeline of
    goroutines, and finally runs one broadcast loop per account, behind a rate
    limiter.  [StressReplay] takes blocks from a sniffer and broadcasts their
    transactions, some of them with a fuzzed gas limit.

    - [Prelude]: Go's errors, results with panics, machine integers, indexing;
      the tactics [width], [go_cases], [bool_facts] and the hint databases.
    - [GoStrings]: the parts of strings, strconv, fmt and encoding/hex in use,
      with the round trips of decimal and hexadecimal printing.
    - [Float64]: IEEE 754 binary64 as Go computes with it, on the SpecFloat
      library.
    - [Sdk]: the libraries the program calls (Cosmos SDK, go-ethereum, CosmWasm
      queries, x/time/rate, retry-go) as classes; a class [...Laws] states the
      documented behaviour the theorems use.  [SdkModel]: concrete instances of
      these classes, with their laws proved, used by the witnesses.
    - [RateLimit]: pkg/ratelimit: [Config], [limiter], [MultiLimiter].
    - [Chain]: chain/client.go, key.go, types.go: signing ([signTx],
      [buildAndSignTx]), [Broadcast] with its retry loop and the inclusion
      wait, and the parsing of expected sequences out of error logs.
      [ClientSetup]: [NewClient], the query for an account, the bech32 prefixes
      and the key ring.  [PaceReport]: helpers.go.
    - [Payload]: the interface [TxProvider] (class [TxProvider], its contract
      [TxProviderLaws]) and the x/bank and x/exchange providers.  [EthPayload]:
      eth_signer.go and the send, call, deploy and internal-call providers.
      [WasmPayload]: the store, instantiate and execute providers and the
      checksum.  [MixedPayload]: mixed_payload.go, a provider that draws one of
      the others for every call.  [UserOp] and [UserOpPayload]: eth/aa (packing
      and signing of user operations, light accounts, the entry point's call
      data) and eth_userop_stress.go.
    - [Pipeline]: the generate, sign and collect goroutines of stresser.go with
      their channels and worker pool, as a step relation on [Pipe].
    - [Stresser]: the making of the initial transactions, the broadcast client,
      and the per-account loop that resynchronises its sequence.
      [InitialPool]: the pool of workers that broadcasts the initial
      transactions, a step relation on [Pool].  [Broadcasting]: the broadcasting
      phase, a step relation on [Phase] with one loop per account over the shared
      broadcast function.
    - [StressRun]: [Stress] as a whole, from its checks through these three
      stages to its result.  [SeqChain]: the class [SequencedChain] of nodes that
      enforce sequences, with a concrete one.  [InitialDelivery], [Delivery]: what
      a run leaves on such a chain.  [FirstInitial]: runs that begin with a
      transaction of the first account.  [RateAccount]: what its limiter has granted.
    - [TxInfo]: the log fields of replay/fuzzer.go.  [Fuzzer]: the rest of it, with
      [fuzzTransactions].  [Replay]:
      replay/sniffer.go, the replay provider and [StressReplay], as a step
      relation on [Sniff] and a fold over a block's transactions.  [ReplayRun]: the
      tx-replay command and what it makes of the target chain.
    - [EthClient]: eth/client: [TransactFn], in a monad that records the calls to
      the node.  [JsonRpc]: eth/jsonrpc: parameters, single and batch calls,
      decoding and classification of responses.  [JsonNumber]: results read as
      floating-point numbers.  [Checksum]: the JSON form of wasm checksums.
      [Bundler]: the JSON form of user operations, [HandleOps], and
      eth/aa/bundler_client.go.
    - [Genesis]: chain/genesis.go.  [Generator]: generator.go with
      chain/config_node.go, config_app.go and docker.go, over a tree of output
      files.  [Template]: Go's text/template as far as chain/templates use it.
      [TemplateTexts]: these templates, line by line.  [Rendering]: the text each
      configuration renders to.  [Deployment]: what docker-compose and the nodes of
      a generated network read in it.  [Cli]: the generate command, the accounts file and the
      configuration precedence of cmd/chain-stresser/main.go.  [Commands]: the
      stress commands from the accounts file to the exit status.  [NativeDelivery],
      [EthDelivery] and [WasmDelivery]: what the x/bank, x/exchange, code-storing and
      mixed commands, the Ethereum and the CosmWasm ones leave on the chain.
      [CommandLine]: the flags, their precedence over the file of the mixed payload,
      and [main].
    - [Binding]: what the generated bindings of eth/solidity have in common (binding,
      deploying, methods, sessions, iterators, watchers).  [ContractAbis] and
      [Contracts]: the ABIs, the creation code, and the methods and events of each
      binding.  [ContractCalls]: the bindings against their ABIs and the program.

    The client of an interface is proved against it: [Pipeline], [Stresser],
    [InitialPool], [StressRun] and [Delivery] use any [TxProvider] that satisfies
    [TxProviderLaws], and [Payload], [EthPayload], [WasmPayload], [MixedPayload],
    [UserOpPayload], [Replay] and [Commands] give the instances, for which
    [NativeDelivery], [EthDelivery] and [WasmDelivery] discharge the conditions of
    [Delivery] (an invariant [ProviderInv] of the provider's states before and after
    the initial requests, and of what it makes); [Broadcasting] uses any broadcast
    function that keeps the accounts apart, and [Delivery] shows that the
    rate-limited one does on any [SequencedChain]; [RateLimit] uses any limiter with
    [RateLaws]; [Chain] any retry library with [RetryLaws].

    ** What the theorems show

    - Whole runs ([Delivery], [RateAccount], [Commands]): against a node that
      enforces sequences and with a provider that succeeds, [Stress] can return,
      returns nil only, and every account's initial and prepared transactions are
      then on the chain, once each and in order, whatever the interleaving; what
      the shared limiter granted is what was sent; a stress command with the
      accounts of a generated network ends the same way, or panics before it
      touches the chain when the accounts file has too few keys; a mixed payload
      of one section is the command of that section.
    - Ten commands and mixed payloads, without assumptions on the provider
      ([NativeDelivery], [EthDelivery], [WasmDelivery]): a run ends with success only,
      and leaves per account exactly the messages the command stands for, signed, in
      order of sequence, and paid for; the calling commands deploy first, and every
      later transaction uses the deployed code or contract.
    - Preparing transactions ([Pipeline], [Stresser], [InitialPool]): whatever the
      interleaving, when the collector returns the matrix of transactions holds
      for every account and index a transaction generated for that account and
      signed at the matching sequence; the pipeline neither deadlocks nor runs
      forever, and its collector never indexes out of range; the initial requests
      are made once per account, in order, up to the first account that cannot be
      queried, and their pool ends after at most five attempts each, one for a
      transaction the node refuses, with at most eight workers.
    - Broadcasting ([Chain], [Stresser], [Broadcasting]): exactly when [Broadcast] succeeds and
      with which errors it fails; a reported sequence comes back as that
      sequence, and none is ever invented; an account's loop against a node
      that enforces sequences delivers all transactions from wherever the node
      stands, and how it ends otherwise; loops side by side do to each account
      what each does alone, within a bounded number of turns.
    - Rate limiting ([RateLimit]): waiting refines the charge of one
      transaction, its bytes and its gas to three limiters, in chunks that
      terminate, in that order, also when the context is cancelled; over a run
      the grants are the totals.
    - Providers: what each generates and signs (conservation of a multi-send,
      the fee, one deployment per run, the code id after all pages, orders per
      market, consecutive user-operation nonces), the packing round trip of
      user operations, and that the mixed provider keeps its list of providers
      and selects by the running sum of frequencies.
    - Replay ([Fuzzer], [Replay]): fuzzing changes the gas limit and drops extension
      options, and signatures the builder refuses, and keeps all else; blocks are
      replayed in order and at most once, each transaction as itself or fuzzed,
      but the end of the sniffer can drop buffered ones; what the block summary
      counts; verbose logging changes nothing.  A replay takes every account of a
      target chain through the source's transactions of that account, in order
      ([ReplayRun]).
    - Ethereum and bundler clients ([EthClient], [Bundler]): what [TransactFn] asks
      the node and what it sends, at most once and last; user operations survive
      their JSON form, and a bundler that decodes the request executes the
      operation that was submitted.
    - JSON-RPC ([JsonRpc]): the outcomes of a call by status and body (an [HTTPError]
      for every status from 400 on), the
      association of batch responses with requests, the shape of parameters.
    - Generation ([Generator], [Cli]): all nodes get one genesis that funds the
      accounts the stress commands read; peers, exposed ports and distinct
      addresses of the nodes.  No template fails to render, the docker-compose file
      is given line by line, and the ports it publishes are those the rendered
      configurations listen on ([Rendering], [Deployment]).
    - Contract bindings ([ContractCalls]): the calls the payloads and light accounts
      pack are functions of the ABIs with arguments of their types, so packing never
      fails; a reading method calls the function of its name and returns what the
      node answers; an iteration over events sees all of them, whatever the
      interleaving.
    - Command line ([CommandLine]): every setting is what its flags say (the last
      one, or all of them for a list of markets), else the file's, else the default.

    Some theorems record behaviour that is probably not meant: [mixed_sign_mismatch],
    [replay_may_drop], [replay_block_counts], [exchange_orders],
    [account_loop_outcomes], [Params_shape], [fuzz_selection], [Validate_exact],
    [HandleOps_unsigned], [pprof_port_unserved].

    ** Modelling choices

    - A call that may fail returns [go A]: [Ok], [Err] or [Panic].  State is passed
      explicitly; goroutines are steps of a relation, and a provider call is one
      step.  Contexts are live for a whole call or not; theorems about a
      cancelled one say so.
    - Integers are [Z] with [u64], [i64] and [u8] written where the source wraps.
    - Loops that are not structural take fuel, and a theorem gives an amount
      that suffices: the chunk loop of the limiter one unit per chunk
      ([chunks_fuel]), an account's loop one unit per broadcast (the number of
      prepared transactions plus one resynchronisation), the page loop of the
      code query the rank [wq_rank] of the first key, which the laws make
      decrease, decimal and big-endian printing the logarithm of the number.  Runs
      of the pipeline, the pool and the broadcasting phase are bounded by a
      decreasing measure, and [run_to_end] turns such a bound and progress into a
      run that ends.
    - Randomness is a stream of draws indexed by position, and by the seed in the
      fuzzer; the network and the libraries are parameters, [retry.IsRecoverable] and
      pflag's string slices included.

    ** Not modelled

    [Stress] with a number of transactions of zero: the collector then ends its
    group at once and cancels the context that the generator is still using, and
    what the cancelled calls do is not specified here.  [StressRun] starts from
    clients that exist; the panics of [NewClient] ([ClientSetup]) are outcomes of
    the commands ([Commands], [ReplayRun]).  The conditions of
    [Delivery] are not discharged for tx-eth-userop, whose provider shares its map of
    nonces between the generators without a lock.  What a cancelled wait has charged
    to a limiter after another loop of the run failed.  Logging, apart from the
    log fields and the pace reports; pflag's reading of the text of a value and
    YAML decoding; file-system failures, which panic.  The readers of the rendered
    files (docker-compose, CometBFT, the Cosmos SDK's JSON and TOML) and
    go-ethereum's abi and bind packages are outside the repository: the former
    appear as a reader of settings, the latter as a class.  [Sdk] takes the creation
    code and the packing of calls as parameters; [ContractCalls] shows that the
    calls agree with the ABIs.  What the creation code of the contracts does when it
    runs is not modelled. *)

From Stdlib Require Import ZArith Lia Ascii String.
From stdpp Require Import base list strings gmap numbers.

(** ** Scopes and basic automation *)

Declare Scope go_scope.
Delimit Scope go_scope with go.

Create HintDb go.
Create Rewrite HintDb go_rewrite.

Open Scope Z_scope.

#[global] Arguments String.append !_ _ /.

(** ** Go errors

    An [error] value keeps the structure [errors.Is], [errors.As] and
    [Error()] can see: plain messages, the wrapping of [errors.Wrap] and of
    [fmt.Errorf] with [%w], the context package's two errors, and the error
    types the program itself declares. *)

Inductive error :=
| ENew (msg : string)
| EWrap (msg : string) (cause : error)
| EStack (cause : error)
| EJoin (first second : error)
| EUnrecoverable (cause : error)
| ECanceled
| EDeadlineExceeded
| ESequence (expectedSequence : Z) (message : string)
| EHTTP (code : Z) (cause : error)
| ERPC (code : Z) (message : string).

#[export] Instance error_eq_dec : EqDecision error.
Proof. solve_decision. Defined.

(** [errors.Is(err, target)] for a target that is a leaf value. *)
Fixpoint errors_Is (err target : error) : bool :=
  if decide (err = target) then true
  else match err with
       | EWrap _ c | EStack c | EUnrecoverable c => errors_Is c target
       | EJoin a b => errors_Is a target || errors_Is b target
       | _ => false
       end.

(** [errors.Is(err, unrecoverableError{})]: an error that [retry.Unrecoverable]
    marked is somewhere in the tree (the marker's [Is] method compares types). *)
Fixpoint is_unrecoverable (err : error) : bool :=
  match err with
  | EUnrecoverable _ => true
  | EWrap _ c | EStack c => is_unrecoverable c
  | EJoin a b => is_unrecoverable a || is_unrecoverable b
  | _ => false
  end.

(** [errors.As(err, &seqErr)] for [sequenceError]: the first sequence error of
    the tree, in the order [errors.As] walks it. *)
Fixpoint errors_As_sequence (err : error) : option (Z * string) :=
  match err with
  | ESequence n msg => Some (n, msg)
  | EWrap _ c | EStack c | EUnrecoverable c => errors_As_sequence c
  | EJoin a b =>
      match errors_As_sequence a with
      | Some r => Some r
      | None => errors_As_sequence b
      end
  | _ => None
  end.

(** ** Go computations

    A call returns a value, returns an error, or panics. *)

Inductive go (A : Type) :=
| Ok (a : A)
| Err (e : error)
| Panic (msg : string).
Arguments Ok {A} a.
Arguments Err {A} e.
Arguments Panic {A} msg.

Definition go_bind {A B} (m : go A) (k : A -> go B) : go B :=
  match m with
  | Ok a => k a
  | Err e => Err e
  | Panic p => Panic p
  end.

(** [if err != nil { return nil, errors.Wrap(err, msg) }] *)
Definition go_wrap {A} (msg : string) (m : go A) : go A :=
  match m with
  | Err e => Err (EWrap msg e)
  | r => r
  end.

(** [orPanic(err)]: an error becomes a panic. *)
Definition orPanic {A} (m : go A) : go A :=
  match m with
  | Err _ => Panic "error"
  | r => r
  end.

Notation "'let!' x ':=' m 'in' k" := (go_bind m (fun x => k))
  (at level 10, x pattern, m at level 100, k at level 200) : go_scope.
Notation "'when' b 'raise' e ';' k" := (if b then Err e else k)
  (at level 10, b at level 100, e at level 100, k at level 200) : go_scope.

Open Scope go_scope.

Definition is_Ok {A} (m : go A) : bool := match m with Ok _ => true | _ => false end.
Definition is_Panic {A} (m : go A) : bool := match m with Panic _ => true | _ => false end.

Lemma go_bind_Ok {A B} (m : go A) (k : A -> go B) b :
  go_bind m k = Ok b -> exists a, m = Ok a /\ k a = Ok b.
Proof. destruct m; simpl; try discriminate. eauto. Qed.

Lemma go_bind_Err {A B} (m : go A) (k : A -> go B) e :
  go_bind m k = Err e -> m = Err e \/ exists a, m = Ok a /\ k a = Err e.
Proof. destruct m; simpl; intros; simplify_eq; eauto. Qed.

Lemma go_wrap_Ok {A} msg (m : go A) a : go_wrap msg m = Ok a <-> m = Ok a.
Proof. destruct m; simpl; split; congruence. Qed.

(** ** Machine integers

    Go's [uint64], [int64]/[int] (64-bit platforms) and [byte], as integers
    with the wrap-around written out. *)

Definition u64 (z : Z) : Z := z mod 2 ^ 64.
Definition i64 (z : Z) : Z := (z + 2 ^ 63) mod 2 ^ 64 - 2 ^ 63.
Definition u8 (z : Z) : Z := z mod 2 ^ 8.
Definition maxInt : Z := 2 ^ 63 - 1.

Definition is_u64 (z : Z) : Prop := 0 <= z < 2 ^ 64.
Definition is_i64 (z : Z) : Prop := - 2 ^ 63 <= z < 2 ^ 63.
Definition is_byte (z : Z) : Prop := 0 <= z < 2 ^ 8.

Lemma u64_id z : is_u64 z -> u64 z = z.
Proof. apply Z.mod_small. Qed.

Lemma u64_range z : is_u64 (u64 z).
Proof. apply Z.mod_pos_bound. lia. Qed.

Lemma u8_range z : is_byte (u8 z).
Proof. apply Z.mod_pos_bound. lia. Qed.

Lemma i64_id z : is_i64 z -> i64 z = z.
Proof. unfold is_i64, i64. intros. rewrite Z.mod_small; lia. Qed.

Lemma i64_range z : is_i64 (i64 z).
Proof. unfold is_i64, i64. pose proof (Z.mod_pos_bound (z + 2 ^ 63) (2 ^ 64)). lia. Qed.

#[export] Hint Resolve u64_range u8_range i64_range : go.
#[export] Hint Rewrite u64_id i64_id using (unfold is_u64, is_i64; lia) : go_rewrite.

(** Unfold the width predicates and finish with [lia]. *)
Ltac width := unfold is_u64, is_i64, is_byte, maxInt in *; lia.

(** Case analysis on every [match]/[if] scrutinee of the goal or hypotheses. *)
Ltac go_cases :=
  repeat first
    [ progress simplify_eq/=
    | match goal with
      | H : context [match ?x with _ => _ end] |- _ =>
          lazymatch x with context [match _ with _ => _ end] => fail | _ => destruct x eqn:? end
      | |- context [match ?x with _ => _ end] =>
          lazymatch x with context [match _ with _ => _ end] => fail | _ => destruct x eqn:? end
      end ].

(** Turn the boolean comparisons of hypotheses into propositions. *)
Ltac bool_facts :=
  repeat match goal with
    | H : (_ && _)%bool = true |- _ => apply andb_true_iff in H as [??]
    | H : (_ || _)%bool = false |- _ => apply orb_false_iff in H as [??]
    | H : negb _ = true |- _ => apply negb_true_iff in H
    | H : negb _ = false |- _ => apply negb_false_iff in H
    | H : (_ <? _) = true |- _ => apply Z.ltb_lt in H
    | H : (_ <? _) = false |- _ => apply Z.ltb_ge in H
    | H : (_ <=? _) = true |- _ => apply Z.leb_le in H
    | H : (_ <=? _) = false |- _ => apply Z.leb_gt in H
    | H : (_ =? _) = true |- _ => apply Z.eqb_eq in H
    | H : (_ =? _) = false |- _ => apply Z.eqb_neq in H
    end.

(** ** Runs

    When runs are bounded and every state of a run is final or has a successor,
    some run reaches a final state. *)

Lemma run_to_end {S : Type} (run : nat -> S -> Prop) (next : S -> S -> Prop) (final : S -> Prop)
    (s0 : S) (bound : nat) :
  run 0%nat s0 ->
  (forall n s s', run n s -> next s s' -> run (Datatypes.S n) s') ->
  (forall n s, run n s -> n <= bound)%nat ->
  (forall n s, run n s -> final s \/ exists s', next s s') ->
  exists n s, run n s /\ final s.
Proof.
  intros H0 Hnext Hbound Hprog.
  assert (forall k n s, (bound - n <= k)%nat -> run n s -> exists n s, run n s /\ final s) as H;
    [|by apply (H bound 0%nat s0); [lia|]].
  induction k as [|k IH]; intros n s Hk Hr;
    (destruct (Hprog n s Hr) as [Hf|[s' Hs]]; [by exists n, s|]); apply Hnext with (s' := s') in Hr; try done.
  - apply Hbound in Hr. lia.
  - by apply (IH (Datatypes.S n) s'); [lia|].
Qed.

(** ** Lists shared by several components *)

Definition zsum (l : list Z) : Z := foldr Z.add 0 l.

Lemma zsum_app l1 l2 : zsum (l1 ++ l2) = zsum l1 + zsum l2.
Proof. induction l1; simpl; [done|]. rewrite IHl1. lia. Qed.

(** Go's [s[i]] with an [int] index: out of range panics. *)
Definition index {A} (l : list A) (i : Z) : go A :=
  if (0 <=? i) && (i <? Z.of_nat (length l)) then
    match l !! Z.to_nat i with
    | Some a => Ok a
    | None => Panic "index out of range"
    end
  else Panic "index out of range".

Lemma index_Ok {A} (l : list A) i a :
  index l i = Ok a <-> 0 <= i /\ l !! Z.to_nat i = Some a.
Proof.
  unfold index. split.
  - intros H. go_cases. bool_facts. done.
  - intros [? Hl]. pose proof (lookup_lt_Some _ _ _ Hl).
    rewrite (proj2 (Z.leb_le 0 i)) by done.
    rewrite (proj2 (Z.ltb_lt i _)) by lia. simpl. by rewrite Hl.
Qed.

Lemma index_in_range {A} (l : list A) i :
  0 <= i < Z.of_nat (length l) -> exists a, index l i = Ok a.
Proof.
  intros. destruct (lookup_lt_is_Some_2 l (Z.to_nat i)) as [a Ha]; [lia|].
  exists a. apply index_Ok. split; [lia|done].
Qed.

Lemma index_out_of_range {A} (l : list A) i :
  ~ (0 <= i < Z.of_nat (length l)) -> index l i = Panic "index out of range".
Proof.
  intros. unfold index.
  destruct ((0 <=? i) && (i <? Z.of_nat (length l))) eqn:E; [|done].
  bool_facts. lia.
Qed.
