(* ===== verification/GoStrings.v ===== *)
(** * Strings of the Go standard library

    What the sources use of packages [strings], [strconv], [encoding/hex] and
    [fmt] on byte strings: [strings.Contains], [strings.HasPrefix],
    [strings.TrimPrefix], [strings.Join], [strconv.ParseUint] (base 10,
    64 bits), decimal printing, hexadecimal encoding and decoding, and the
    rendering of [error] values by [Error()].  The lemmas are the print/parse
    round trips the components build on. *)

From Stdlib Require Import ZArith Lia Ascii String.
From stdpp Require Import base list strings numbers.
From S2P Require Import Prelude.

Open Scope string_scope.
Open Scope Z_scope.

(** ** Package strings *)

Fixpoint strings_Contains (s substr : string) : bool :=
  String.prefix substr s ||
  match s with
  | EmptyString => false
  | String _ s' => strings_Contains s' substr
  end.

Definition strings_HasPrefix (s prefix : string) : bool := String.prefix prefix s.

Fixpoint string_drop (n : nat) (s : string) : string :=
  match n, s with
  | O, _ => s
  | S n', String _ s' => string_drop n' s'
  | S _, EmptyString => EmptyString
  end.

Definition strings_TrimPrefix (s prefix : string) : string :=
  if strings_HasPrefix s prefix then string_drop (String.length prefix) s else s.

Definition strings_Join (l : list string) (sep : string) : string := String.concat sep l.

Lemma append_nil_r s : s +:+ "" = s.
Proof. induction s; simpl; congruence. Qed.

Lemma append_assoc s1 s2 s3 : (s1 +:+ s2) +:+ s3 = s1 +:+ (s2 +:+ s3).
Proof. induction s1; simpl; congruence. Qed.

Lemma append_cons c s1 s2 : String c s1 +:+ s2 = String c (s1 +:+ s2).
Proof. done. Qed.

Lemma prefix_append p s : String.prefix p (p +:+ s) = true.
Proof.
  induction p as [|c p IH]; simpl; [by destruct s|].
  by destruct (ascii_dec c c).
Qed.

Lemma string_drop_append p s : string_drop (String.length p) (p +:+ s) = s.
Proof. by induction p. Qed.

Lemma prefix_inv p s : String.prefix p s = true -> exists r, s = p +:+ r.
Proof.
  revert s. induction p as [|c p IH]; intros s; [by exists s|].
  destruct s as [|d s]; simpl; [done|].
  destruct (ascii_dec c d) as [->|]; [|done].
  intros [r ->]%IH. by exists r.
Qed.

Lemma contains_append s1 sub s2 : strings_Contains (s1 +:+ sub +:+ s2) sub = true.
Proof.
  induction s1 as [|c s1 IH].
  - change ("" +:+ sub +:+ s2) with (sub +:+ s2).
    destruct (sub +:+ s2) eqn:E; unfold strings_Contains; fold strings_Contains;
      rewrite <- E; by rewrite prefix_append.
  - simpl. rewrite IH. apply orb_true_r.
Qed.

Lemma TrimPrefix_append p s : strings_TrimPrefix (p +:+ s) p = s.
Proof.
  unfold strings_TrimPrefix, strings_HasPrefix. by rewrite prefix_append, string_drop_append.
Qed.

(** ** Digits *)

Definition digit_char (d : Z) : ascii := ascii_of_nat (48 + Z.to_nat d).
Definition char_code (c : ascii) : Z := Z.of_nat (nat_of_ascii c).
Definition is_digit (c : ascii) : bool := (48 <=? char_code c) && (char_code c <=? 57).

#[global] Arguments digit_char : simpl never.
#[global] Arguments char_code : simpl never.
#[global] Arguments is_digit : simpl never.

Lemma char_code_range c : 0 <= char_code c < 256.
Proof.
  unfold char_code. pose proof (nat_ascii_bounded c). lia.
Qed.

Lemma char_code_of_nat n : (n < 256)%nat -> char_code (ascii_of_nat n) = Z.of_nat n.
Proof. intros. unfold char_code. by rewrite nat_ascii_embedding. Qed.

Lemma digit_char_code d : 0 <= d < 10 -> char_code (digit_char d) = 48 + d.
Proof. intros. unfold digit_char. rewrite char_code_of_nat; lia. Qed.

Lemma digit_char_is_digit d : 0 <= d < 10 -> is_digit (digit_char d) = true.
Proof.
  intros. unfold is_digit. rewrite digit_char_code by lia.
  apply andb_true_iff. split; apply Z.leb_le; lia.
Qed.

Fixpoint all_digits (s : string) : bool :=
  match s with
  | EmptyString => true
  | String c s' => is_digit c && all_digits s'
  end.

(** Decimal printing of a non-negative number ([%d], [strconv.Itoa]). *)
Fixpoint itoa_aux (fuel : nat) (n : Z) (acc : string) : string :=
  match fuel with
  | O => acc
  | S fuel' =>
      let acc' := String (digit_char (n mod 10)) acc in
      if n <? 10 then acc' else itoa_aux fuel' (n / 10) acc'
  end.

Definition itoa_nonneg (n : Z) : string := itoa_aux (S (Z.to_nat (Z.log2 n))) n "".

Definition strconv_Itoa (n : Z) : string :=
  if n <? 0 then "-" +:+ itoa_nonneg (- n) else itoa_nonneg n.

(** [strconv.ParseUint(s, 10, 64)]: a syntax error for the empty string and for
    a non-digit, a range error past 2^64-1. *)
Fixpoint parse_digits (s : string) (n : Z) : go Z :=
  match s with
  | EmptyString => Ok n
  | String c s' =>
      if is_digit c then
        let n' := 10 * n + (char_code c - 48) in
        if 2 ^ 64 <=? n' then Err (ENew "value out of range") else parse_digits s' n'
      else Err (ENew "invalid syntax")
  end.

Definition strconv_ParseUint (s : string) : go Z :=
  match s with
  | EmptyString => Err (ENew "invalid syntax")
  | _ => parse_digits s 0
  end.

(** The value of a digit string, with no bound. *)
Fixpoint digits_value (s : string) (n : Z) : Z :=
  match s with
  | EmptyString => n
  | String c s' => digits_value s' (10 * n + (char_code c - 48))
  end.

Lemma itoa_aux_digits fuel n acc :
  0 <= n -> all_digits acc = true -> all_digits (itoa_aux fuel n acc) = true.
Proof.
  revert n acc. induction fuel as [|fuel IH]; intros n acc Hn Hacc; simpl; [done|].
  assert (Hd : is_digit (digit_char (n mod 10)) = true)
    by (apply digit_char_is_digit, Z.mod_pos_bound; lia).
  assert (Hacc' : all_digits (String (digit_char (n mod 10)) acc) = true)
    by (cbn [all_digits]; rewrite Hd; exact Hacc).
  destruct (n <? 10); [exact Hacc'|].
  apply IH; [|exact Hacc']. apply Z.div_pos; lia.
Qed.

Lemma itoa_aux_value fuel n acc :
  0 <= n < 10 ^ Z.of_nat fuel -> fuel <> O ->
  digits_value (itoa_aux fuel n acc) 0 = digits_value acc n.
Proof.
  revert n acc. induction fuel as [|fuel IH]; intros n acc Hn Hf; [done|]. simpl.
  pose proof (Z.mod_pos_bound n 10 ltac:(lia)).
  destruct (n <? 10) eqn:E; bool_facts.
  - simpl. rewrite digit_char_code by lia. rewrite Z.mod_small by lia. f_equal. lia.
  - rewrite Nat2Z.inj_succ, Z.pow_succ_r in Hn by lia.
    assert (fuel <> O) by (intros ->; simpl in Hn; lia).
    rewrite IH; [|split; [apply Z.div_pos; lia|apply Z.div_lt_upper_bound; lia]|done].
    simpl. rewrite digit_char_code by lia. f_equal.
    pose proof (Z.div_mod n 10 ltac:(lia)). lia.
Qed.

Lemma itoa_fuel n : 0 <= n -> n < 10 ^ Z.of_nat (S (Z.to_nat (Z.log2 n))).
Proof.
  intros. destruct (decide (n = 0)) as [->|]; [done|].
  rewrite Nat2Z.inj_succ, Z2Nat.id by apply Z.log2_nonneg.
  apply Z.lt_le_trans with (2 ^ Z.succ (Z.log2 n)); [apply Z.log2_spec; lia|].
  apply Z.pow_le_mono_l. pose proof (Z.log2_nonneg n). lia.
Qed.

Lemma itoa_nonneg_value n : 0 <= n -> digits_value (itoa_nonneg n) 0 = n.
Proof.
  intros. unfold itoa_nonneg. rewrite itoa_aux_value; [done| |done].
  split; [done|by apply itoa_fuel].
Qed.

Lemma itoa_nonneg_digits n : 0 <= n -> all_digits (itoa_nonneg n) = true.
Proof. intros. by apply itoa_aux_digits. Qed.

Lemma itoa_aux_nonempty fuel n acc :
  acc <> "" \/ fuel <> O -> itoa_aux fuel n acc <> "".
Proof.
  revert n acc. induction fuel as [|fuel IH]; intros n acc [H|H]; simpl; try done;
    destruct (n <? 10); try done; apply IH; by left.
Qed.

Lemma itoa_nonneg_cons n : exists c s, itoa_nonneg n = String c s.
Proof.
  destruct (itoa_nonneg n) eqn:E; [|eauto].
  exfalso. revert E. apply itoa_aux_nonempty. by right.
Qed.

(** Parsing accumulates exactly the digit value while it stays below 2^64. *)
Lemma digits_value_ge s n : all_digits s = true -> 0 <= n -> n <= digits_value s n.
Proof.
  revert n. induction s as [|c s IH]; intros n Hd Hn; simpl in *; [lia|].
  bool_facts. unfold is_digit in H. bool_facts.
  specialize (IH (10 * n + (char_code c - 48)) H0 ltac:(lia)). lia.
Qed.

Lemma parse_digits_value s n :
  all_digits s = true -> 0 <= n -> digits_value s n < 2 ^ 64 ->
  parse_digits s n = Ok (digits_value s n).
Proof.
  revert n. induction s as [|c s IH]; intros n Hd Hn Hv; simpl in *; [done|].
  bool_facts. rewrite H. unfold is_digit in H. bool_facts.
  pose proof (digits_value_ge s (10 * n + (char_code c - 48)) H0 ltac:(lia)).
  destruct (2 ^ 64 <=? _) eqn:E; bool_facts; [lia|].
  apply IH; try done. lia.
Qed.

Lemma ParseUint_itoa n : is_u64 n -> strconv_ParseUint (itoa_nonneg n) = Ok n.
Proof.
  intros [? ?]. destruct (itoa_nonneg_cons n) as (c & s & E).
  unfold strconv_ParseUint. rewrite E, <- E.
  rewrite parse_digits_value; rewrite ?itoa_nonneg_value; try done.
  by apply itoa_nonneg_digits.
Qed.

Lemma parse_digits_range s n v :
  parse_digits s n = Ok v -> is_u64 n -> is_u64 v.
Proof.
  revert n. induction s as [|c s IH]; intros n; simpl; [by intros [= ->]|].
  destruct (is_digit c) eqn:Hc; [|done].
  destruct (2 ^ 64 <=? _) eqn:E; [done|]. intros H Hn. eapply IH; [done|].
  unfold is_digit in Hc. bool_facts. width.
Qed.

Lemma ParseUint_range s v : strconv_ParseUint s = Ok v -> is_u64 v.
Proof.
  destruct s; [done|]. intros H. eapply parse_digits_range; [done|width].
Qed.

(** [strconv.ParseInt(s, 10, 64)]: an optional sign, then digits. *)
Definition parse_nonneg_int (s : string) : go Z :=
  let! n := strconv_ParseUint s in
  if 2 ^ 63 <=? n then Err (ENew "value out of range") else Ok n.

Definition strconv_ParseInt (s : string) : go Z :=
  match s with
  | EmptyString => Err (ENew "invalid syntax")
  | String c r =>
      if char_code c =? 45 then
        let! n := strconv_ParseUint r in
        if 2 ^ 63 <? n then Err (ENew "value out of range") else Ok (- n)
      else if char_code c =? 43 then parse_nonneg_int r
      else parse_nonneg_int s
  end.

Lemma ParseInt_Itoa n : is_i64 n -> strconv_ParseInt (strconv_Itoa n) = Ok n.
Proof.
  intros Hn. unfold strconv_Itoa, strconv_ParseInt, parse_nonneg_int.
  destruct (n <? 0) eqn:E; bool_facts.
  - cbn [String.append]. change (char_code "-" =? 45) with true. cbv iota.
    rewrite ParseUint_itoa by width. cbn [go_bind].
    rewrite (proj2 (Z.ltb_ge _ _)) by width. f_equal. lia.
  - destruct (itoa_nonneg_cons n) as (c & s & Hs). rewrite Hs.
    pose proof (itoa_nonneg_digits n E) as Hd. rewrite Hs in Hd. cbn [all_digits] in Hd.
    bool_facts. unfold is_digit in H. bool_facts.
    rewrite (proj2 (Z.eqb_neq _ 45)), (proj2 (Z.eqb_neq _ 43)) by lia.
    rewrite <- Hs, ParseUint_itoa by width. cbn [go_bind].
    by rewrite (proj2 (Z.leb_gt _ _)) by width.
Qed.

(** ** Package encoding/hex *)

Definition hex_char (d : Z) : ascii :=
  if d <? 10 then digit_char d else ascii_of_nat (87 + Z.to_nat d).

(** [fromHexChar]: both cases of the letters are accepted. *)
Definition hex_value (c : ascii) : option Z :=
  let n := char_code c in
  if (48 <=? n) && (n <=? 57) then Some (n - 48)
  else if (97 <=? n) && (n <=? 102) then Some (n - 87)
  else if (65 <=? n) && (n <=? 70) then Some (n - 55)
  else None.

#[global] Arguments hex_char : simpl never.
#[global] Arguments hex_value : simpl never.

Fixpoint hex_EncodeToString (b : list Z) : string :=
  match b with
  | [] => ""
  | x :: b' => String (hex_char (x / 16)) (String (hex_char (x mod 16)) (hex_EncodeToString b'))
  end.

Fixpoint hex_DecodeString (s : string) : go (list Z) :=
  match s with
  | EmptyString => Ok []
  | String c1 (String c2 s') =>
      match hex_value c1, hex_value c2 with
      | Some h, Some l =>
          match hex_DecodeString s' with
          | Ok b => Ok (16 * h + l :: b)
          | r => r
          end
      | _, _ => Err (ENew "encoding/hex: invalid byte")
      end
  | String c1 EmptyString =>
      match hex_value c1 with
      | Some _ => Err (ENew "encoding/hex: odd length hex string")
      | None => Err (ENew "encoding/hex: invalid byte")
      end
  end.

Lemma hex_value_char d : 0 <= d < 16 -> hex_value (hex_char d) = Some d.
Proof.
  intros. unfold hex_value, hex_char. destruct (d <? 10) eqn:E; bool_facts.
  - rewrite digit_char_code by lia.
    rewrite (proj2 (Z.leb_le _ _)) by lia. rewrite (proj2 (Z.leb_le _ _)) by lia.
    cbn [andb]. f_equal. lia.
  - rewrite char_code_of_nat by lia.
    replace (Z.of_nat (87 + Z.to_nat d)) with (87 + d) by lia.
    rewrite (proj2 (Z.leb_gt (87 + d) 57)) by lia. rewrite andb_false_r.
    rewrite (proj2 (Z.leb_le 97 _)) by lia. rewrite (proj2 (Z.leb_le _ 102)) by lia.
    cbn [andb]. f_equal. lia.
Qed.

Lemma hex_roundtrip b : Forall is_byte b -> hex_DecodeString (hex_EncodeToString b) = Ok b.
Proof.
  induction 1 as [|x b Hx Hb IH]; [done|]. cbn [hex_EncodeToString hex_DecodeString].
  unfold is_byte in Hx. pose proof (Z.div_mod x 16 ltac:(lia)).
  rewrite !hex_value_char; [|apply Z.mod_pos_bound; lia|].
  2: { split; [apply Z.div_pos; lia|apply Z.div_lt_upper_bound; lia]. }
  rewrite IH. do 2 f_equal. lia.
Qed.

Lemma hex_EncodeToString_length b : String.length (hex_EncodeToString b) = (2 * length b)%nat.
Proof. induction b; simpl; lia. Qed.

(** ** Case, quoting and hexadecimal formatting *)

Definition lower_char (c : ascii) : ascii :=
  if (65 <=? char_code c) && (char_code c <=? 90) then ascii_of_nat (nat_of_ascii c + 32) else c.

(** [strings.ToLower] on ASCII text. *)
Fixpoint strings_ToLower (s : string) : string :=
  match s with
  | EmptyString => EmptyString
  | String c s' => String (lower_char c) (strings_ToLower s')
  end.

(** One byte as [%q] prints it: the quote and the backslash are escaped, the
    other printable ASCII characters stand for themselves. *)
Definition quote_char (c : ascii) : string :=
  let n := char_code c in
  if n =? 34 then String "092" (String c "")
  else if n =? 92 then String "092" (String c "")
  else if n =? 10 then String "092" "n"
  else if n =? 13 then String "092" "r"
  else if n =? 9 then String "092" "t"
  else if n =? 7 then String "092" "a"
  else if n =? 8 then String "092" "b"
  else if n =? 12 then String "092" "f"
  else if n =? 11 then String "092" "v"
  else if (32 <=? n) && (n <=? 126) then String c ""
  else String "092" ("x" +:+ hex_EncodeToString [n]).

Fixpoint quote_body (s : string) : string :=
  match s with
  | EmptyString => EmptyString
  | String c s' => quote_char c +:+ quote_body s'
  end.

(** [strconv.Quote], the verb [%q], on ASCII text. *)
Definition strconv_Quote (s : string) : string :=
  String "034" (quote_body s +:+ String "034" "").

(** A text written with single quotes for double ones. *)
Fixpoint dquotes (s : string) : string :=
  match s with
  | EmptyString => EmptyString
  | String c s' => String (if char_code c =? 39 then "034"%char else c) (dquotes s')
  end.

Fixpoint hex_digits_aux (fuel : nat) (n : Z) (acc : string) : string :=
  match fuel with
  | O => acc
  | S f =>
      let acc' := String (hex_char (n mod 16)) acc in
      if n / 16 =? 0 then acc' else hex_digits_aux f (n / 16) acc'
  end.

(** [%x] of a non-negative integer. *)
Definition fmt_x (n : Z) : string := hex_digits_aux (S (Z.to_nat (Z.log2 n))) n "".

Fixpoint zeros (n : nat) : string :=
  match n with O => "" | S n' => String "0" (zeros n') end.

(** [%0wx] of a non-negative integer. *)
Definition fmt_0x (width : nat) (n : Z) : string :=
  zeros (width - String.length (fmt_x n)) +:+ fmt_x n.

(** ** [Error()] of an error value

    [errors.Wrap] and a format that ends in [: %w] print the message, a colon
    and the cause; [errors.WithStack] and [retry.Unrecoverable] print the
    cause. *)
Fixpoint Error (e : error) : string :=
  match e with
  | ENew msg => msg
  | EWrap msg c => msg +:+ ": " +:+ Error c
  | EStack c | EUnrecoverable c => Error c
  | EJoin a b => Error a +:+ ": " +:+ Error b
  | ECanceled => "context canceled"
  | EDeadlineExceeded => "context deadline exceeded"
  | ESequence _ msg => msg
  | EHTTP _ c => Error c
  | ERPC code msg => strconv_Itoa code +:+ ": " +:+ msg
  end.
