(* ===== verification/Float64.v ===== *)
(** * Go's float64

    IEEE 754 binary64 as the Standard Library's executable specification
    [spec_float] with precision 53 and maximal exponent 1024: the arithmetic
    and the comparisons of the sources are the specification's, rounding to
    nearest even.  A conversion of a float64 that does not fit the integer
    type is implementation-dependent in Go, so it is a parameter
    ([FloatConv]) of what uses it. *)

From Stdlib Require Import ZArith Lia SpecFloat.
From stdpp Require Import base numbers.
From S2P Require Import Prelude.

Open Scope Z_scope.

Abbreviation float64 := spec_float.
Abbreviation prec := 53%Z.
Abbreviation emax := 1024%Z.

Definition f64_zero : float64 := S754_zero false.
Definition f64_add : float64 -> float64 -> float64 := SFadd prec emax.
Definition f64_sub : float64 -> float64 -> float64 := SFsub prec emax.
Definition f64_mul : float64 -> float64 -> float64 := SFmul prec emax.
Definition f64_div : float64 -> float64 -> float64 := SFdiv prec emax.

(** Go's [==], [<], [<=], [>] on float64: all false when an operand is NaN. *)
Definition f64_eqb (a b : float64) : bool :=
  match SFcompare a b with Some Eq => true | _ => false end.
Definition f64_ltb (a b : float64) : bool :=
  match SFcompare a b with Some Lt => true | _ => false end.
Definition f64_leb (a b : float64) : bool :=
  match SFcompare a b with Some Lt | Some Eq => true | _ => false end.
Definition f64_gtb (a b : float64) : bool := f64_ltb b a.

(** [float64(n)] for an integer. *)
Definition f64_of_Z (n : Z) : float64 := binary_normalize prec emax n 0 false.

(** The float64 nearest to [n / d] (constants of the source such as 0.5). *)
Definition f64_of_ratio (n d : Z) : float64 := f64_div (f64_of_Z n) (f64_of_Z d).

(** The integer part, towards zero; [None] for an infinity or NaN. *)
Definition f64_trunc (f : float64) : option Z :=
  match f with
  | S754_zero _ => Some 0
  | S754_finite s m e =>
      let v := if 0 <=? e then Zpos m * 2 ^ e else Zpos m / 2 ^ (- e) in
      Some (if s then - v else v)
  | _ => None
  end.

(** [math.Ceil]: zeros, infinities and NaN are returned unchanged. *)
Definition f64_ceil (f : float64) : float64 :=
  match f with
  | S754_finite s m e =>
      if 0 <=? e then f
      else
        let z := if s then Zneg m else Zpos m in
        binary_normalize prec emax (- ((- z) / 2 ^ (- e))) 0 s
  | _ => f
  end.

(** The result of an out-of-range conversion is implementation-dependent, but
    it is a value of the integer type. *)
Class FloatConv := {
  int_overflow : float64 -> Z;
  int_overflow_range f : is_i64 (int_overflow f);
  uint64_overflow : float64 -> Z;
  uint64_overflow_range f : is_u64 (uint64_overflow f)
}.

(** [int(f)] *)
Definition f64_to_int `{FloatConv} (f : float64) : Z :=
  match f64_trunc f with
  | Some z => if (- 2 ^ 63 <=? z) && (z <? 2 ^ 63) then z else int_overflow f
  | None => int_overflow f
  end.

(** [uint64(f)] *)
Definition f64_to_uint64 `{FloatConv} (f : float64) : Z :=
  match f64_trunc f with
  | Some z => if (0 <=? z) && (z <? 2 ^ 64) then z else uint64_overflow f
  | None => uint64_overflow f
  end.

(** What amd64 does: 2^63 as the "integer indefinite" value. *)
#[export] Instance amd64_FloatConv : FloatConv.
Proof.
  refine {| int_overflow _ := - 2 ^ 63; uint64_overflow _ := 2 ^ 63 |}; intros; width.
Defined.

Lemma f64_to_int_range `{FloatConv} f : is_i64 (f64_to_int f).
Proof.
  unfold f64_to_int. go_cases; bool_facts; try apply int_overflow_range. width.
Qed.

Lemma f64_to_uint64_range `{FloatConv} f : is_u64 (f64_to_uint64 f).
Proof.
  unfold f64_to_uint64. go_cases; bool_facts; try apply uint64_overflow_range. width.
Qed.

#[export] Hint Resolve f64_to_int_range f64_to_uint64_range : go.

(** ** Comparisons *)

Lemma f64_ltb_leb a b : f64_ltb a b = true -> f64_leb a b = true.
Proof. unfold f64_ltb, f64_leb. by go_cases. Qed.

Lemma f64_not_lt_zero a : f64_gtb a f64_zero = true -> f64_ltb a f64_zero = false.
Proof. unfold f64_gtb, f64_ltb. destruct a; simpl; by repeat case_match. Qed.

Lemma f64_gt_zero_neq a : f64_gtb a f64_zero = true -> f64_eqb a f64_zero = false.
Proof. unfold f64_gtb, f64_ltb, f64_eqb. destruct a; simpl; by repeat case_match. Qed.

Lemma f64_gtb_zero_leb a : f64_gtb a f64_zero = true -> f64_leb a f64_zero = false.
Proof. unfold f64_gtb, f64_ltb, f64_leb. destruct a; simpl; by repeat case_match. Qed.

(** ** Conversion of integers keeps the sign

    The rounding of a positive integer is never zero: what the two right
    shifts of the rounding drop are fewer bits than the mantissa has. *)

Lemma Zdigits2_log2 m : 0 < m -> Zdigits2 m = Z.log2 m + 1.
Proof.
  destruct m as [|p|p]; intros; try lia. unfold Zdigits2.
  assert (digits2_pos p = Pos.size p) as -> by (clear; induction p; simpl; by f_equal).
  destruct p; simpl; lia.
Qed.

Lemma shr_1_half r : 0 <= shr_m r -> shr_m (shr_1 r) = shr_m r / 2.
Proof.
  destruct r as [m ? ?]; simpl. destruct m as [|[p|p|]|p]; simpl; intros; try lia; try done.
  all: rewrite <- Z.div2_div; done.
Qed.

Lemma iter_shr_1 n r :
  0 <= shr_m r -> shr_m (SpecFloat.iter_pos shr_1 n r) = shr_m r / 2 ^ Zpos n.
Proof.
  revert r. induction n as [n IH|n IH|]; intros r Hr; simpl SpecFloat.iter_pos.
  - assert (H1 : 0 <= shr_m (shr_1 r)) by (rewrite shr_1_half by done; apply Z.div_pos; lia).
    assert (H2 : 0 <= shr_m (SpecFloat.iter_pos shr_1 n (shr_1 r)))
      by (rewrite IH by done; apply Z.div_pos; [done|apply Z.pow_pos_nonneg; lia]).
    rewrite IH, IH, shr_1_half by done. rewrite !Z.div_div by (try apply Z.pow_nonzero; try apply Z.mul_pos_pos; try apply Z.pow_pos_nonneg; lia).
    f_equal. change 2 with (2 ^ 1) at 1. rewrite <- !Z.pow_add_r by lia. f_equal; lia.
  - assert (H2 : 0 <= shr_m (SpecFloat.iter_pos shr_1 n r))
      by (rewrite IH by done; apply Z.div_pos; [done|apply Z.pow_pos_nonneg; lia]).
    rewrite IH, IH by done. rewrite Z.div_div by (try apply Z.pow_nonzero; try apply Z.pow_pos_nonneg; lia).
    f_equal. rewrite <- Z.pow_add_r by lia. f_equal; lia.
  - by rewrite shr_1_half.
Qed.

Lemma shr_record_of_loc_m m l : shr_m (shr_record_of_loc m l) = m.
Proof. by destruct l as [|[]]. Qed.

(** A shift of the rounding keeps a positive mantissa positive and does not
    lower the position of its leading bit. *)
Lemma shr_fexp_pos m e l :
  0 < m -> emin prec emax + prec <= Z.log2 m + 1 + e ->
  let '(r, e') := shr_fexp prec emax m e l in
  0 < shr_m r /\ Z.log2 m + 1 + e <= Z.log2 (shr_m r) + 1 + e'.
Proof.
  intros Hm He. unfold shr_fexp. rewrite Zdigits2_log2 by done.
  assert (Hf : fexp prec emax (Z.log2 m + 1 + e) - e = Z.log2 m + 1 - prec)
    by (unfold fexp; lia).
  rewrite Hf. unfold shr. destruct (Z.log2 m + 1 - prec) as [|p|p] eqn:Ep.
  1,3: rewrite shr_record_of_loc_m; lia.
  rewrite iter_shr_1 by (rewrite shr_record_of_loc_m; lia).
  rewrite shr_record_of_loc_m, <- Z.shiftr_div_pow2 by lia.
  rewrite Z.log2_shiftr by lia. split; [|lia].
  rewrite Z.shiftr_div_pow2 by lia. apply Z.div_str_pos. split; [apply Z.pow_pos_nonneg; lia|].
  transitivity (2 ^ Z.log2 m); [apply Z.pow_le_mono_r; lia|apply Z.log2_spec; lia].
Qed.

Lemma round_nearest_even_ge m l : m <= round_nearest_even m l.
Proof. unfold round_nearest_even. repeat case_match; lia. Qed.

Lemma binary_round_aux_pos m e l :
  0 < m -> emin prec emax + prec <= Z.log2 m + 1 + e ->
  f64_gtb (binary_round_aux prec emax false m e l) f64_zero = true.
Proof.
  intros Hm He. unfold binary_round_aux.
  pose proof (shr_fexp_pos m e l Hm He) as H1.
  destruct (shr_fexp prec emax m e l) as [r1 e1]. destruct H1 as [H1 H1'].
  set (m1 := round_nearest_even _ _).
  assert (shr_m r1 <= m1) by apply round_nearest_even_ge.
  pose proof (Z.log2_le_mono (shr_m r1) m1 ltac:(done)).
  pose proof (shr_fexp_pos m1 e1 loc_Exact ltac:(lia) ltac:(lia)) as H2.
  destruct (shr_fexp prec emax m1 e1 loc_Exact) as [r2 e2]. destruct H2 as [H2 _].
  destruct (shr_m r2); try lia. by destruct (e2 <=? _).
Qed.

Lemma log2_iter_xO p d : Z.log2 (Zpos (Pos.iter xO p d)) = Z.log2 (Zpos p) + Zpos d.
Proof.
  induction d as [|d IH] using Pos.peano_ind.
  { change (Pos.iter xO p 1) with (xO p). change (Zpos p~0) with (2 * Zpos p).
    rewrite Z.log2_double by lia. lia. }
  rewrite Pos.iter_succ. set (q := Pos.iter xO p d) in *.
  change (Zpos q~0) with (2 * Zpos q). rewrite Z.log2_double by lia. lia.
Qed.

Lemma f64_of_Z_pos n : 0 < n -> f64_gtb (f64_of_Z n) f64_zero = true.
Proof.
  destruct n as [|p|p]; intros Hn; try lia.
  unfold f64_of_Z, binary_normalize, binary_round.
  change (Zpos (digits2_pos p)) with (Zdigits2 (Zpos p)). rewrite Zdigits2_log2 by lia.
  pose proof (Z.log2_nonneg (Zpos p)). unfold shl_align.
  assert (emin prec emax = -1074) by done.
  assert (Hf : fexp prec emax (Z.log2 (Zpos p) + 1 + 0) - 0 = Z.log2 (Zpos p) + 1 - prec)
    by (unfold fexp; lia).
  rewrite Hf. destruct (Z.log2 (Zpos p) + 1 - prec) as [|q|q] eqn:Eq.
  1,2: apply binary_round_aux_pos; lia.
  apply binary_round_aux_pos; [lia|]. rewrite log2_iter_xO. unfold fexp. lia.
Qed.
