(* ===== verification/PaceReport.v ===== *)
(** * Pace reports (helpers.go)

    The function [NewPaceReporter] returns: what it logs for every measurement of
    a pace, with the two variables it keeps, and the texts of numbers and
    durations it puts into the lines. *)

From Stdlib Require Import ZArith Lia Ascii String SpecFloat.
From stdpp Require Import base list strings numbers.
From S2P Require Import Prelude GoStrings Float64.

Open Scope string_scope.
Open Scope Z_scope.
Open Scope list_scope.

(** ** strconv and time *)

(** The integer nearest to [n / d], ties to even. *)
Definition round_half_even (n d : Z) : Z :=
  let q := n / d in
  let r := n mod d in
  if 2 * r <? d then q
  else if d <? 2 * r then q + 1
  else if Z.even q then q else q + 1.

Definition pad_left (width : nat) (s : string) : string := zeros (width - String.length s) +:+ s.

(** [strconv.FormatFloat(f, 'f', 3, 64)] *)
Definition floatFmt (f : float64) : string :=
  match f with
  | S754_nan => "NaN"
  | S754_infinity s => if s then "-Inf" else "+Inf"
  | S754_zero s => (if s then "-" else "") +:+ "0.000"
  | S754_finite s m e =>
      let n := round_half_even (Zpos m * 1000 * 2 ^ Z.max 0 e) (2 ^ Z.max 0 (- e)) in
      (if s then "-" else "") +:+ itoa_nonneg (n / 1000) +:+ "." +:+ pad_left 3 (itoa_nonneg (n mod 1000))
  end.

Definition nanosecond : Z := 1.
Definition microsecond : Z := 1000.
Definition millisecond : Z := 1000000.
Definition second : Z := 1000000000.
Definition minute : Z := 60 * second.
Definition hour : Z := 60 * minute.

(** The fraction [v / 10^prec] without its trailing zeros. *)
Fixpoint fmtFrac (prec : nat) (v : Z) : string :=
  match prec with
  | O => ""
  | S prec' =>
      if v =? 0 then ""
      else if v mod 10 =? 0 then fmtFrac prec' (v / 10)
      else "." +:+ pad_left prec (itoa_nonneg v)
  end.

Definition with_frac (u unit : Z) (prec : nat) : string := itoa_nonneg (u / unit) +:+ fmtFrac prec (u mod unit).

(** [time.Duration.String] *)
Definition Duration_String (d : Z) : string :=
  let u := Z.abs d in
  let text :=
    if u =? 0 then "0s"
    else if u <? microsecond then itoa_nonneg u +:+ "ns"
    else if u <? millisecond then with_frac u microsecond 3 +:+ "µs"
    else if u <? second then with_frac u millisecond 6 +:+ "ms"
    else
      let s := u / second in
      let seconds := itoa_nonneg (s mod 60) +:+ fmtFrac 9 (u mod second) +:+ "s" in
      let m := s / 60 in
      if m =? 0 then seconds
      else
        let minutes := itoa_nonneg (m mod 60) +:+ "m" +:+ seconds in
        if m / 60 =? 0 then minutes else itoa_nonneg (m / 60) +:+ "h" +:+ minutes in
  (if d <? 0 then "-" else "") +:+ text.

Lemma floatFmt_examples :
  floatFmt (f64_of_ratio 1 3) = "0.333" /\ floatFmt (f64_of_Z 1200) = "1200.000" /\
  floatFmt (f64_of_ratio 1 16) = "0.062" /\ floatFmt (f64_of_ratio 3 16) = "0.188".
Proof. vm_compute. done. Qed.

Lemma Duration_examples :
  Duration_String (10 * second) = "10s" /\ Duration_String (90 * second + 500 * millisecond) = "1m30.5s" /\
  Duration_String (3 * hour) = "3h0m0s" /\ Duration_String (1500 * microsecond) = "1.5ms".
Proof. vm_compute. done. Qed.

(** ** The reporter *)

(** The variables of the closure; the zero time is [None].  Times and durations
    are in nanoseconds. *)
Record Reporter := {
  previous : float64;
  stalled : option Z
}.

Definition NewPaceReporter : Reporter := {| previous := f64_zero; stalled := None |}.

Inductive LogLine :=
| Warning (text : string)
| InfoLine (text : string).

(** How long the pace has been stalled, and since when. *)
Definition stall (r : Reporter) (now timeframe : Z) : go (Z * Z) :=
  match stalled r with
  | Some since =>
      let dur := now - since in
      if timeframe =? 0 then Panic "runtime error: integer divide by zero"
      else
        let n := Z.quot dur timeframe in
        if dur - n * timeframe <? 10 * millisecond then Ok (n * timeframe, since) else Ok (dur, since)
  | None => Ok (timeframe, now - timeframe)
  end.

Definition pace_line (label : string) (timeframe : Z) (value : float64) : string :=
  let per (unit : string) := label +:+ ": " +:+ floatFmt value +:+ unit +:+ " in " +:+ Duration_String timeframe in
  if timeframe =? second then per "/s"
  else if timeframe =? minute then per "/m"
  else if timeframe =? hour then per "/h"
  else if timeframe =? 24 * hour then per "/day"
  else
    floatFmt value +:+ " " +:+ label +:+ " in " +:+ Duration_String timeframe +:+ " (pace: "
    +:+ floatFmt (f64_div value (f64_div (f64_of_Z timeframe) (f64_of_Z second))) +:+ "/s)".

(** A report at time [now]. *)
Definition report (r : Reporter) (now : Z) (label : string) (timeframe : Z) (value : float64)
    : go (Reporter * list LogLine) :=
  if f64_eqb value f64_zero && f64_eqb (previous r) f64_zero then Ok (r, [])
  else if f64_eqb value f64_zero then
    let! s := stall r now timeframe in
    let '(dur, since) := s in
    Ok ({| previous := previous r; stalled := Some since |},
        [Warning (label +:+ ": stalled for " +:+ Duration_String dur)])
  else Ok ({| previous := value; stalled := None |}, [InfoLine (pace_line label timeframe value)]).

(** Reports at the given times. *)
Fixpoint reports (r : Reporter) (label : string) (timeframe : Z) (l : list (Z * float64))
    : go (Reporter * list LogLine) :=
  match l with
  | [] => Ok (r, [])
  | (now, value) :: rest =>
      let! r1 := report r now label timeframe value in
      let! r2 := reports r1.1 label timeframe rest in
      Ok (r2.1, r1.2 ++ r2.2)
  end.

(** ** What is reported *)

(** Nothing, until something happens. *)
Lemma silent_at_first label timeframe l :
  Forall (fun x => f64_eqb x.2 f64_zero = true) l ->
  reports NewPaceReporter label timeframe l = Ok (NewPaceReporter, []).
Proof.
  induction 1 as [|[now value] l Hz _ IH]; [done|]. cbn [reports]. unfold report. cbn in Hz. rewrite Hz.
  change (f64_eqb (previous NewPaceReporter) f64_zero) with true. cbn [andb go_bind fst snd]. by rewrite IH.
Qed.

(** The measurements of a stall: the [k]-th one comes [k] timeframes after the first,
    late by less than ten milliseconds. *)
Definition punctual (start timeframe : Z) (k : nat) (now : Z) : Prop :=
  start + Z.of_nat k * timeframe <= now < start + Z.of_nat k * timeframe + 10 * millisecond.

Lemma stall_punctual r start timeframe k now :
  10 * millisecond <= timeframe -> stalled r = Some (start - timeframe) -> punctual start timeframe k now ->
  stall r now timeframe = Ok (Z.of_nat (S k) * timeframe, start - timeframe).
Proof.
  unfold millisecond. intros Ht Hs [Hlo Hhi]. unfold stall, millisecond in *. rewrite Hs.
  rewrite (proj2 (Z.eqb_neq timeframe 0)) by lia.
  assert (Eq : Z.quot (now - (start - timeframe)) timeframe = Z.of_nat (S k)).
  { symmetry. apply (Z.quot_unique _ _ _ (now - (start - timeframe) - timeframe * Z.of_nat (S k))); lia. }
  rewrite Eq, (proj2 (Z.ltb_lt _ _)) by lia. done.
Qed.

Definition stall_line (label : string) (timeframe : Z) (k : nat) : LogLine :=
  Warning (label +:+ ": stalled for " +:+ Duration_String (Z.of_nat (S k) * timeframe)).

Lemma stalling label timeframe start r k l :
  10 * millisecond <= timeframe -> f64_eqb (previous r) f64_zero = false ->
  stalled r = Some (start - timeframe) ->
  (forall j x, l !! j = Some x -> f64_eqb x.2 f64_zero = true /\ punctual start timeframe (k + j) x.1) ->
  reports r label timeframe l = Ok (r, stall_line label timeframe <$> seq k (length l)).
Proof.
  intros Ht Hp. revert k. induction l as [|[now value] l IH]; intros k Hs Hl; [done|].
  destruct (Hl 0%nat _ eq_refl) as [Hz Hn]. rewrite Nat.add_0_r in Hn. cbn [fst snd] in Hz, Hn.
  cbn [reports]. unfold report. rewrite Hz, Hp. cbn [andb].
  rewrite (stall_punctual r start timeframe k now Ht Hs Hn). cbn [go_bind fst snd].
  assert (Er : {| previous := previous r; stalled := Some (start - timeframe) |} = r)
    by (rewrite <- Hs; by destruct r).
  rewrite Er, (IH (S k)); [done|done|]. intros j x Hj. specialize (Hl (S j) x Hj).
  by replace (S k + j)%nat with (k + S j)%nat by lia.
Qed.

Lemma reports_app r label timeframe l1 l2 r1 o1 r2 o2 :
  reports r label timeframe l1 = Ok (r1, o1) -> reports r1 label timeframe l2 = Ok (r2, o2) ->
  reports r label timeframe (l1 ++ l2) = Ok (r2, o1 ++ o2).
Proof.
  revert r o1. induction l1 as [|[now value] l1 IH]; intros r o1 H1 H2; [cbn in H1; by simplify_eq|].
  cbn [reports app] in *. apply go_bind_Ok in H1 as ([ra oa] & -> & H1). cbn [go_bind fst snd] in *.
  apply go_bind_Ok in H1 as ([rb ob] & Hb & H1). simplify_eq/=. rewrite (IH ra ob Hb H2). cbn.
  by rewrite app_assoc.
Qed.

(** The stall from its first measurement on. *)
Lemma stall_from_first label timeframe v start times :
  10 * millisecond <= timeframe -> f64_eqb v f64_zero = false ->
  (forall j t, times !! j = Some t -> punctual start timeframe j t) -> times !! 0%nat = Some start ->
  reports {| previous := v; stalled := None |} label timeframe ((fun t => (t, f64_zero)) <$> times)
  = Ok ({| previous := v; stalled := Some (start - timeframe) |},
        stall_line label timeframe <$> seq 0 (length times)).
Proof.
  intros Ht Hv Hp H0. destruct times as [|t times]; [done|]. cbn in H0. injection H0 as ->.
  rewrite fmap_cons. change (seq 0 (length (start :: times))) with (0%nat :: seq 1 (length times)).
  rewrite fmap_cons. apply (reports_app _ _ _ [(start, f64_zero)] _
    {| previous := v; stalled := Some (start - timeframe) |} [stall_line label timeframe 0] _
    (stall_line label timeframe <$> seq 1 (length times))).
  - cbn [reports]. unfold report. cbn [previous stalled]. rewrite Hv. cbn [f64_eqb andb].
    change (f64_eqb f64_zero f64_zero) with true. cbn [andb stall stalled go_bind fst snd app].
    unfold stall_line. by rewrite Z.mul_1_l.
  - replace (length times) with (length ((fun t => (t, f64_zero)) <$> times)) by apply length_fmap.
    apply (stalling label timeframe start); [done|done|done|]. intros j x Hj.
    rewrite list_lookup_fmap in Hj. destruct (times !! j) as [t|] eqn:Et; [|done]. injection Hj as <-.
    split; [done|]. by apply (Hp (S j)).
Qed.

Lemma report_value label timeframe r t v :
  f64_eqb v f64_zero = false ->
  reports r label timeframe [(t, v)]
  = Ok ({| previous := v; stalled := None |}, [InfoLine (pace_line label timeframe v)]).
Proof. intros Hv. cbn [reports]. unfold report. rewrite Hv. done. Qed.

(** Reports of a pace that stalls.  Zero measurements before any other are not
    reported.  After a measurement that was not zero, each zero one gives one
    warning, and when the measurements come at the pace's interval, each late by
    less than ten milliseconds, the [k]-th warning says that the pace has been
    stalled for [k] intervals; a measurement that is not zero gives one line with
    that value and ends the stall. *)
Theorem stall_reported label timeframe early v t0 start times v' t' :
  10 * millisecond <= timeframe -> Forall (fun x => f64_eqb x.2 f64_zero = true) early ->
  f64_eqb v f64_zero = false -> f64_eqb v' f64_zero = false ->
  (forall j t, times !! j = Some t -> punctual start timeframe j t) -> times !! 0%nat = Some start ->
  reports NewPaceReporter label timeframe
    (early ++ [(t0, v)] ++ ((fun t => (t, f64_zero)) <$> times) ++ [(t', v')])
  = Ok ({| previous := v'; stalled := None |},
        [InfoLine (pace_line label timeframe v)]
        ++ (stall_line label timeframe <$> seq 0 (length times))
        ++ [InfoLine (pace_line label timeframe v')]).
Proof.
  intros Ht He Hv Hv' Hp H0.
  apply (reports_app _ _ _ early _ NewPaceReporter []); [by apply silent_at_first|].
  eapply (reports_app _ _ _ _ _ _ [InfoLine (pace_line label timeframe v)]); [by apply report_value|].
  eapply reports_app; [by eapply stall_from_first|by apply report_value].
Qed.

(** Ten-second measurements: two transactions, then nothing for three intervals. *)
Lemma stall_reported_witness :
  reports NewPaceReporter "sent tx" (10 * second)
    [(0, f64_zero); (5, f64_of_Z 2); (20 * second, f64_zero); (30 * second + 1000, f64_zero);
     (40 * second + millisecond, f64_zero); (50 * second, f64_of_Z 7)]
  = Ok ({| previous := f64_of_Z 7; stalled := None |},
        [InfoLine "2.000 sent tx in 10s (pace: 0.200/s)"; Warning "sent tx: stalled for 10s";
         Warning "sent tx: stalled for 20s"; Warning "sent tx: stalled for 30s";
         InfoLine "7.000 sent tx in 10s (pace: 0.700/s)"]).
Proof.
  apply (stall_reported "sent tx" (10 * second) [(0, f64_zero)] (f64_of_Z 2) 5 (20 * second)
    [20 * second; 30 * second + 1000; 40 * second + millisecond] (f64_of_Z 7) (50 * second));
    [vm_compute; discriminate|by repeat constructor|reflexivity|reflexivity| |reflexivity].
  intros [|[|[|j]]] t H; simplify_eq/=; split; vm_compute; (discriminate || reflexivity).
Defined.
