(* ===== verification/Sdk.v ===== *)
(** * Interfaces of the libraries the program calls

    The Cosmos SDK, go-ethereum, retry-go and x/time/rate are not part of the
    repository: their values are data types here and their functions are the
    fields of classes, parameters of every definition that calls them.  A class
    [...Laws] states the documented behaviour a theorem relies on.  Each class
    has a small concrete instance (in [SdkModel.v]) so that the theorems can be
    evaluated. *)

From Stdlib Require Import ZArith Lia String.
From stdpp Require Import base list strings gmap numbers.
From S2P Require Import Prelude GoStrings Float64.

Open Scope string_scope.
Open Scope Z_scope.
Open Scope list_scope.

Abbreviation bytes := (list Z).

(** ** context.Context

    [ctx_live]: the context is neither cancelled nor past its deadline, and
    stays so for the duration of the call it is passed to. *)
Record Context := { ctx_live : bool }.

(** ** Cosmos SDK values *)

Record Coin := { Denom : string; Amount : Z }.
Abbreviation Coins := (list Coin).

#[export] Instance Coin_eq_dec : EqDecision Coin.
Proof. solve_decision. Defined.

(** ethtypes.LegacyTx; [To = None] deploys a contract. *)
Record LegacyTx := {
  Nonce : Z;
  To : option bytes;
  Value : Z;
  Gas : Z;
  GasPrice : Z;
  Data : bytes
}.

#[export] Instance LegacyTx_eq_dec : EqDecision LegacyTx.
Proof. solve_decision. Defined.

(** An order of MsgBatchUpdateOrders; decimals are integers scaled by 10^18. *)
Record Order := {
  MarketId : string;
  FeeRecipient : string;
  SubaccountId : string;
  Price : Z;
  Quantity : Z;
  Margin : option Z;
  Cid : string
}.

#[export] Instance Order_eq_dec : EqDecision Order.
Proof. solve_decision. Defined.

(** The messages the payload providers build; [raw] is the transaction pointer of
    a MsgEthereumTx. *)
Inductive Msg :=
| MsgSend (from to : bytes) (amount : Coins)
| MsgMultiSend (input : bytes * Coins) (outputs : list (bytes * Coins))
| MsgEthereumTx (raw : option LegacyTx) (signature : option bytes) (from : option bytes)
| MsgStoreCode (sender : string) (code : bytes)
| MsgInstantiateContract (sender admin : string) (codeID : Z) (label : string) (msg : string)
    (funds : Coins)
| MsgInstantiateContract2 (sender : string) (codeID : Z) (label : string) (msg : string)
    (funds : Coins) (salt : string) (fixMsg : bool)
| MsgExecuteContract (sender contract : string) (msg : string) (funds : Coins)
| MsgBatchUpdateOrders (sender : string) (subaccountId : string)
    (derivativeToCreate spotToCreate : list Order)
    (derivativeToCancelAll spotToCancelAll : list string)
| MsgOther (typeURL : string) (body : bytes).

#[export] Instance Msg_eq_dec : EqDecision Msg.
Proof. solve_decision. Defined.

Record SignatureV2 := { PubKey : bytes; SigData : option bytes; Sequence : Z }.

(** sdk.FeeTx *)
Record FeeTx := {
  GetGas : Z;
  GetFee : Coins;
  FeePayer : bytes;
  FeeGranter : bytes
}.

(** A decoded transaction: its messages, and for each optional interface
    ([sdk.FeeTx], [sdk.TxWithMemo], [sdk.TxWithTimeoutHeight],
    [authsigning.SigVerifiableTx], [ante.HasExtensionOptionsTx]) what it answers
    when it implements it; the error of [GetSignaturesV2] is its message, and the
    extension options are the critical and the non-critical ones. *)
Record sdkTx := {
  GetMsgs : list Msg;
  asFeeTx : option FeeTx;
  asMemo : option string;
  asTimeoutHeight : option Z;
  asSigVerifiable : option (list SignatureV2 + string);
  asExtensionOptions : option (list bytes * list bytes)
}.

Record SignerData := { sd_ChainID : string; sd_AccountNumber : Z; sd_Sequence : Z }.

(** client.TxConfig with its transaction builder. *)
Class TxConfig := {
  Builder : Type;
  NewTxBuilder : Builder;
  SetMsgs : Builder -> list Msg -> go Builder;
  SetGasLimit : Builder -> Z -> Builder;
  SetFeeAmount : Builder -> Coins -> Builder;
  SetMemo : Builder -> string -> Builder;
  SetTimeoutHeight : Builder -> Z -> Builder;
  SetFeeGranter : Builder -> bytes -> Builder;
  SetFeePayer : Builder -> bytes -> Builder;
  SetSignatures : Builder -> list SignatureV2 -> go Builder;
  SetEthExtension : Builder -> go Builder;
  GetTx : Builder -> sdkTx;
  TxEncoder : sdkTx -> go bytes;
  TxDecoder : bytes -> sdkTx + error;
  GetSignBytes : SignerData -> sdkTx -> go bytes
}.

(** Keys and addresses (ethsecp256k1, bech32, secp256k1 ECDSA, Keccak-256). *)
Class Crypto := {
  privKey_PubKey : bytes -> bytes;
  pubKey_Address : bytes -> bytes;
  bech32_AccAddress : bytes -> string;
  privKey_Sign : bytes -> bytes -> go bytes;
  ecdsa_Sign : bytes -> bytes -> go bytes;
  Keccak256 : bytes -> bytes;
  CreateAddress : bytes -> Z -> bytes;
  sha256_Sum256 : bytes -> bytes
}.

(** cosmossdk.io/math and sdk.Coin; a LegacyDec is an integer scaled by 10^18. *)
Class SdkMath := {
  ParseCoinNormalized : string -> go Coin;
  Int_Mul : Z -> Z -> go Z;
  NewCoin : string -> Z -> go Coin;
  NewCoins : Coins -> go Coins;
  Dec_Add : Z -> Z -> go Z;
  Dec_Mul : Z -> Z -> go Z
}.

(** Documented: a parsed coin is valid (its denomination can make coins and its
    amount is not negative); integer products are exact or panic, those within
    256 bits are exact, and so are decimal sums and the decimal products that
    need no rounding; [NewCoins] takes one valid coin and drops a zero one. *)
Class SdkMathLaws `{SdkMath} := {
  ParseCoin_nonneg s c : ParseCoinNormalized s = Ok c -> 0 <= Amount c;
  ParseCoin_denom s c a : ParseCoinNormalized s = Ok c -> 0 <= a ->
    NewCoin (Denom c) a = Ok {| Denom := Denom c; Amount := a |};
  NewCoin_value d a c : NewCoin d a = Ok c -> c = {| Denom := d; Amount := a |};
  Int_Mul_value a b c : Int_Mul a b = Ok c -> c = a * b;
  Int_Mul_small a b : Z.abs (a * b) < 2 ^ 256 -> Int_Mul a b = Ok (a * b);
  NewCoins_one d a c : NewCoin d a = Ok c -> exists cs, NewCoins [c] = Ok cs;
  NewCoins_single c cs : NewCoins [c] = Ok cs -> cs = if Amount c =? 0 then [] else [c];
  Dec_Add_small a b : Z.abs (a + b) < 2 ^ 256 -> Dec_Add a b = Ok (a + b);
  Dec_Mul_small a b c : c * 10 ^ 18 = a * b -> Z.abs c < 2 ^ 256 -> Dec_Mul a b = Ok c
}.

(** go-ethereum: the latest signer of a chain, contract ABIs (by contract
    name), addresses and hashes; and the bindings' creation code. *)
Class EthLib := {
  eth_SignerHash : Z -> LegacyTx -> bytes;
  eth_WithSignature : Z -> LegacyTx -> bytes -> option error;
  abi_Get : string -> option error;
  abi_Pack : string -> string -> list Z -> go bytes;
  contract_Bin : string -> bytes;
  BytesToAddress : bytes -> bytes;
  Address_String : bytes -> string;
  HexToHash : string -> bytes;
  Hash_Hex : bytes -> string
}.

(** [MsgEthereumTx.BuildTx] of sdk-go: the transaction that carries an Ethereum
    message, with its fee in the given denomination; and the error, if any, of
    packing the extension option with [codectypes.NewAnyWithValue]. *)
Class EthBuild `{TxConfig} := {
  EthExtensionAny : option error;
  EthBuildTx : Builder -> Msg -> string -> go sdkTx
}.

(** The x/wasm query service: a page of code infos (their number and the next
    page's key), and the predicted address of a contract.  [wq_rank] bounds the
    number of pages after a key. *)
Class WasmQuery := {
  wq_Codes : bytes -> go (Z * bytes);
  wq_BuildAddress : string -> string -> string -> string -> go string;
  wq_rank : bytes -> nat
}.

(** Documented: a page's next key leads to fewer remaining pages. *)
Class WasmQueryLaws `{WasmQuery} := {
  wq_progress key n next :
    wq_Codes key = Ok (n, next) -> next <> [] -> (wq_rank next < wq_rank key)%nat;
  wq_count key n next : wq_Codes key = Ok (n, next) -> 0 <= n
}.

(** ** golang.org/x/time/rate

    [rate_Granted] counts the events the limiter has permitted so far. *)
Class RateLib := {
  RLimiter : Type;
  rate_NewLimiter : float64 -> Z -> RLimiter;
  rate_WaitN : Context -> RLimiter -> Z -> RLimiter * option error;
  rate_AllowN : Z -> RLimiter -> Z -> RLimiter * bool;
  rate_TokensAt : Z -> RLimiter -> float64;
  rate_SetLimit : RLimiter -> float64 -> RLimiter;
  rate_Burst : RLimiter -> Z;
  rate_Granted : RLimiter -> Z
}.

(** Documented: a new limiter has the given burst; waiting never changes the
    burst; [WaitN] with [n] at most the burst and a live context returns nil;
    a nil result permits exactly [n] events and an error permits none;
    [SetLimit] changes the rate only. *)
Class RateLaws `{RateLib} := {
  NewLimiter_Burst r b : rate_Burst (rate_NewLimiter r b) = b;
  NewLimiter_Granted r b : rate_Granted (rate_NewLimiter r b) = 0;
  WaitN_Burst ctx l n : rate_Burst (rate_WaitN ctx l n).1 = rate_Burst l;
  WaitN_live ctx l n :
    ctx_live ctx = true -> 0 < n <= rate_Burst l -> (rate_WaitN ctx l n).2 = None;
  WaitN_granted ctx l n :
    rate_Granted (rate_WaitN ctx l n).1 =
    match (rate_WaitN ctx l n).2 with None => rate_Granted l + n | Some _ => rate_Granted l end;
  AllowN_granted now l n :
    rate_Granted (rate_AllowN now l n).1 =
    (if (rate_AllowN now l n).2 then rate_Granted l + n else rate_Granted l);
  SetLimit_Burst l r : rate_Burst (rate_SetLimit l r) = rate_Burst l;
  SetLimit_Granted l r : rate_Granted (rate_SetLimit l r) = rate_Granted l
}.

(** ** github.com/avast/retry-go

    The function under [retry.Do] is a closure over variables [S] that talks to
    a node; [R] is what one attempt observes of the node, and the list is what
    the attempts made so far have observed, in order.  The answer is the final
    value of the variables with the returned error, or [None] while the call is
    still retrying.  [IsRecoverable] is the default of [retry.RetryIf]. *)
Class RetryLib := {
  IsRecoverable : error -> bool;
  retry_UntilSucceeded :
    forall {S R : Type}, (S -> R -> S * option error) -> S -> list R -> option (S * option error);
  retry_Attempts :
    forall {S R : Type}, nat -> (S -> R -> S * option error) -> S -> list R ->
      option (S * option error)
}.

(** Two outcomes that differ in the error value only. *)
Definition same_outcome {S : Type} (o1 o2 : option (S * option error)) : Prop :=
  match o1, o2 with
  | None, None => True
  | Some (s1, e1), Some (s2, e2) => s1 = s2 /\ (e1 = None <-> e2 = None)
  | _, _ => False
  end.

(** Documented: an error is recoverable unless [errors.Is] finds an unrecoverable
    one in it, however it was wrapped since; the first success ends the loop; an
    unrecoverable error ends it and is returned; any other error is retried, forever with
    [UntilSucceeded], and [Attempts(n)] times in all otherwise. *)
Class RetryLaws `{RetryLib} := {
  IsRecoverable_Is e : IsRecoverable e = negb (is_unrecoverable e);
  Until_nil {S R} (f : S -> R -> S * option error) s : retry_UntilSucceeded f s [] = None;
  Until_cons {S R} (f : S -> R -> S * option error) s r rs :
    retry_UntilSucceeded f s (r :: rs) =
    match f s r with
    | (s', None) => Some (s', None)
    | (s', Some e) => if IsRecoverable e then retry_UntilSucceeded f s' rs else Some (s', Some e)
    end;
  Attempts_nil {S R} n (f : S -> R -> S * option error) s :
    retry_Attempts (Datatypes.S n) f s [] = None;
  Attempts_cons {S R} n (f : S -> R -> S * option error) s r rs :
    same_outcome (retry_Attempts (Datatypes.S n) f s (r :: rs))
    match f s r with
    | (s', None) => Some (s', None)
    | (s', Some e) =>
        if IsRecoverable e && (0 <? Z.of_nat n) then retry_Attempts n f s' rs
        else Some (s', Some e)
    end
}.

(** ** The transaction builder

    What a transaction with one attribute changed is. *)

Definition with_fee (f : FeeTx -> FeeTx) (tx : sdkTx) : sdkTx :=
  {| GetMsgs := GetMsgs tx; asFeeTx := f <$> asFeeTx tx; asMemo := asMemo tx;
     asTimeoutHeight := asTimeoutHeight tx; asSigVerifiable := asSigVerifiable tx;
     asExtensionOptions := asExtensionOptions tx |}.

Definition set_gas (g : Z) (f : FeeTx) : FeeTx :=
  {| GetGas := g; GetFee := GetFee f; FeePayer := FeePayer f; FeeGranter := FeeGranter f |}.
Definition set_fee (c : Coins) (f : FeeTx) : FeeTx :=
  {| GetGas := GetGas f; GetFee := c; FeePayer := FeePayer f; FeeGranter := FeeGranter f |}.
Definition set_payer (a : bytes) (f : FeeTx) : FeeTx :=
  {| GetGas := GetGas f; GetFee := GetFee f; FeePayer := a; FeeGranter := FeeGranter f |}.
Definition set_granter (a : bytes) (f : FeeTx) : FeeTx :=
  {| GetGas := GetGas f; GetFee := GetFee f; FeePayer := FeePayer f; FeeGranter := a |}.

Definition with_msgs (m : list Msg) (tx : sdkTx) : sdkTx :=
  {| GetMsgs := m; asFeeTx := asFeeTx tx; asMemo := asMemo tx;
     asTimeoutHeight := asTimeoutHeight tx; asSigVerifiable := asSigVerifiable tx;
     asExtensionOptions := asExtensionOptions tx |}.
Definition with_memo (m : string) (tx : sdkTx) : sdkTx :=
  {| GetMsgs := GetMsgs tx; asFeeTx := asFeeTx tx; asMemo := Some m;
     asTimeoutHeight := asTimeoutHeight tx; asSigVerifiable := asSigVerifiable tx;
     asExtensionOptions := asExtensionOptions tx |}.
Definition with_timeout (h : Z) (tx : sdkTx) : sdkTx :=
  {| GetMsgs := GetMsgs tx; asFeeTx := asFeeTx tx; asMemo := asMemo tx;
     asTimeoutHeight := Some h; asSigVerifiable := asSigVerifiable tx;
     asExtensionOptions := asExtensionOptions tx |}.
Definition with_signatures (l : list SignatureV2) (tx : sdkTx) : sdkTx :=
  {| GetMsgs := GetMsgs tx; asFeeTx := asFeeTx tx; asMemo := asMemo tx;
     asTimeoutHeight := asTimeoutHeight tx; asSigVerifiable := Some (inl l);
     asExtensionOptions := asExtensionOptions tx |}.
Definition with_extensions (o : list bytes * list bytes) (tx : sdkTx) : sdkTx :=
  {| GetMsgs := GetMsgs tx; asFeeTx := asFeeTx tx; asMemo := asMemo tx;
     asTimeoutHeight := asTimeoutHeight tx; asSigVerifiable := asSigVerifiable tx;
     asExtensionOptions := Some o |}.

(** The transaction of a fresh builder. *)
Definition empty_tx : sdkTx :=
  {| GetMsgs := []; asFeeTx := Some {| GetGas := 0; GetFee := []; FeePayer := []; FeeGranter := [] |};
     asMemo := Some ""; asTimeoutHeight := Some 0; asSigVerifiable := Some (inl []);
     asExtensionOptions := Some ([], []) |}.

(** Documented: each setter changes its attribute and nothing else (but the
    payer of the fee is, as long as none is set, a signer of the messages, so
    [SetMsgs] may change it), and a transaction that was encoded decodes to
    itself. *)
Class TxConfigLaws `{TxConfig} := {
  NewTxBuilder_tx : exists payer, GetTx NewTxBuilder = with_fee (set_payer payer) empty_tx;
  SetMsgs_tx b m b' :
    SetMsgs b m = Ok b' -> exists payer, GetTx b' = with_fee (set_payer payer) (with_msgs m (GetTx b));
  SetGasLimit_tx b g : GetTx (SetGasLimit b g) = with_fee (set_gas g) (GetTx b);
  SetFeeAmount_tx b c : GetTx (SetFeeAmount b c) = with_fee (set_fee c) (GetTx b);
  SetMemo_tx b m : GetTx (SetMemo b m) = with_memo m (GetTx b);
  SetTimeoutHeight_tx b h : GetTx (SetTimeoutHeight b h) = with_timeout h (GetTx b);
  SetFeeGranter_tx b a : GetTx (SetFeeGranter b a) = with_fee (set_granter a) (GetTx b);
  SetFeePayer_tx b a : a <> [] -> GetTx (SetFeePayer b a) = with_fee (set_payer a) (GetTx b);
  SetEthExtension_tx b b' :
    SetEthExtension b = Ok b' -> exists o, GetTx b' = with_extensions o (GetTx b);
  SetSignatures_tx b l b' : SetSignatures b l = Ok b' -> GetTx b' = with_signatures l (GetTx b);
  Encode_Decode b e : TxEncoder (GetTx b) = Ok e -> TxDecoder e = inl (GetTx b)
}.
