(* ===== verification/SdkModel.v ===== *)
(** * Concrete instances of the library interfaces

    Small executable instances of the classes of [Sdk.v], with their laws
    proved: they show that the laws can hold together, and the witnesses of
    the theorems evaluate the program's definitions with them. *)

From Stdlib Require Import ZArith Lia String.
From stdpp Require Import base list strings numbers countable.
From S2P Require Import Prelude GoStrings Float64 Sdk.

Open Scope string_scope.
Open Scope Z_scope.
Open Scope list_scope.

(** ** A limiter that never has to wait *)

Record model_limiter := { mlim_rate : float64; mlim_burst : Z; mlim_granted : Z }.

Definition model_WaitN (ctx : Context) (l : model_limiter) (n : Z) : model_limiter * option error :=
  if negb (ctx_live ctx) then (l, Some ECanceled)
  else if mlim_burst l <? n then (l, Some (ENew "rate: Wait(n) exceeds limiter's burst"))
  else ({| mlim_rate := mlim_rate l; mlim_burst := mlim_burst l;
           mlim_granted := mlim_granted l + n |}, None).

Definition model_AllowN (now : Z) (l : model_limiter) (n : Z) : model_limiter * bool :=
  if mlim_burst l <? n then (l, false)
  else ({| mlim_rate := mlim_rate l; mlim_burst := mlim_burst l;
           mlim_granted := mlim_granted l + n |}, true).

Definition model_rate : RateLib := {|
  RLimiter := model_limiter;
  rate_NewLimiter r b := {| mlim_rate := r; mlim_burst := b; mlim_granted := 0 |};
  rate_WaitN := model_WaitN;
  rate_AllowN := model_AllowN;
  rate_TokensAt _ l := f64_of_Z (mlim_burst l);
  rate_SetLimit l r :=
    {| mlim_rate := r; mlim_burst := mlim_burst l; mlim_granted := mlim_granted l |};
  rate_Burst := mlim_burst;
  rate_Granted := mlim_granted
|}.

Lemma model_rate_laws : @RateLaws model_rate.
Proof.
  constructor; simpl; unfold model_WaitN, model_AllowN; intros; go_cases; bool_facts; done || congruence || lia.
Qed.

(** ** Retrying over the observed responses *)

Fixpoint model_until {S R : Type} (f : S -> R -> S * option error) (s : S) (l : list R)
    : option (S * option error) :=
  match l with
  | [] => None
  | r :: rs =>
      match f s r with
      | (s', None) => Some (s', None)
      | (s', Some e) => if negb (is_unrecoverable e) then model_until f s' rs else Some (s', Some e)
      end
  end.

Fixpoint model_attempts {S R : Type} (n : nat) (f : S -> R -> S * option error) (s : S) (l : list R)
    : option (S * option error) :=
  match n, l with
  | O, _ => Some (s, Some (ENew "no attempt"))
  | _, [] => None
  | Datatypes.S n', r :: rs =>
      match f s r with
      | (s', None) => Some (s', None)
      | (s', Some e) =>
          if negb (is_unrecoverable e) && (0 <? Z.of_nat n') then model_attempts n' f s' rs
          else Some (s', Some e)
      end
  end.

Definition model_retry : RetryLib := {|
  IsRecoverable e := negb (is_unrecoverable e);
  retry_UntilSucceeded := @model_until;
  retry_Attempts := @model_attempts
|}.

Lemma same_outcome_refl {S} (o : option (S * option error)) : same_outcome o o.
Proof. by destruct o as [[]|]. Qed.

Lemma model_retry_laws : @RetryLaws model_retry.
Proof. constructor; intros; try done. apply same_outcome_refl. Qed.

(** ** A transaction builder that is the transaction itself

    Transactions are countable, so a transaction is encoded by its number. *)

#[export] Instance Coin_countable : Countable Coin.
Proof.
  apply (inj_countable' (fun c => (Denom c, Amount c))
    (fun p => {| Denom := p.1; Amount := p.2 |})). by intros [].
Defined.

#[export] Instance LegacyTx_countable : Countable LegacyTx.
Proof.
  apply (inj_countable' (fun t => (Nonce t, To t, Value t, Gas t, GasPrice t, Data t))
    (fun '(n, t, v, g, p, d) =>
       {| Nonce := n; To := t; Value := v; Gas := g; GasPrice := p; Data := d |})). by intros [].
Defined.

#[export] Instance Order_countable : Countable Order.
Proof.
  apply (inj_countable'
    (fun o => (MarketId o, FeeRecipient o, SubaccountId o, Price o, Quantity o, Margin o, Cid o))
    (fun '(m, f, s, p, q, g, c) =>
       {| MarketId := m; FeeRecipient := f; SubaccountId := s; Price := p; Quantity := q;
          Margin := g; Cid := c |})). by intros [].
Defined.

Definition msg_code (m : Msg) :=
  match m with
  | MsgSend a b c => inl (inl (inl (inl (a, b, c))))
  | MsgMultiSend a b => inl (inl (inl (inr (a, b))))
  | MsgEthereumTx a b c => inl (inl (inr (inl (a, b, c))))
  | MsgStoreCode a b => inl (inl (inr (inr (a, b))))
  | MsgInstantiateContract a b c d e f => inl (inr (inl (inl (a, b, c, d, e, f))))
  | MsgInstantiateContract2 a b c d e f g => inl (inr (inl (inr (a, b, c, d, e, f, g))))
  | MsgExecuteContract a b c d => inl (inr (inr (inl (a, b, c, d))))
  | MsgBatchUpdateOrders a b c d e f => inl (inr (inr (inr (a, b, c, d, e, f))))
  | MsgOther a b => inr (a, b)
  end.

#[export] Instance Msg_countable : Countable Msg.
Proof.
  apply (inj_countable' msg_code (fun x =>
    match x with
    | inl (inl (inl (inl (a, b, c)))) => MsgSend a b c
    | inl (inl (inl (inr (a, b)))) => MsgMultiSend a b
    | inl (inl (inr (inl (a, b, c)))) => MsgEthereumTx a b c
    | inl (inl (inr (inr (a, b)))) => MsgStoreCode a b
    | inl (inr (inl (inl (a, b, c, d, e, f)))) => MsgInstantiateContract a b c d e f
    | inl (inr (inl (inr (a, b, c, d, e, f, g)))) => MsgInstantiateContract2 a b c d e f g
    | inl (inr (inr (inl (a, b, c, d)))) => MsgExecuteContract a b c d
    | inl (inr (inr (inr (a, b, c, d, e, f)))) => MsgBatchUpdateOrders a b c d e f
    | inr (a, b) => MsgOther a b
    end)). by intros [].
Defined.

#[export] Instance SignatureV2_eq_dec : EqDecision SignatureV2.
Proof. solve_decision. Defined.

#[export] Instance SignatureV2_countable : Countable SignatureV2.
Proof.
  apply (inj_countable' (fun s => (PubKey s, SigData s, Sequence s))
    (fun '(p, d, n) => {| PubKey := p; SigData := d; Sequence := n |})). by intros [].
Defined.

#[export] Instance FeeTx_eq_dec : EqDecision FeeTx.
Proof. solve_decision. Defined.

#[export] Instance FeeTx_countable : Countable FeeTx.
Proof.
  apply (inj_countable' (fun f => (GetGas f, GetFee f, FeePayer f, FeeGranter f))
    (fun '(g, c, p, r) => {| GetGas := g; GetFee := c; FeePayer := p; FeeGranter := r |})).
  by intros [].
Defined.

#[export] Instance sdkTx_eq_dec : EqDecision sdkTx.
Proof. solve_decision. Defined.

#[export] Instance sdkTx_countable : Countable sdkTx.
Proof.
  apply (inj_countable'
    (fun t => (GetMsgs t, asFeeTx t, asMemo t, asTimeoutHeight t, asSigVerifiable t, asExtensionOptions t))
    (fun '(m, f, o, h, s, x) =>
       {| GetMsgs := m; asFeeTx := f; asMemo := o; asTimeoutHeight := h; asSigVerifiable := s;
          asExtensionOptions := x |})).
  by intros [].
Defined.

Definition model_decode (b : bytes) : sdkTx + error :=
  match b with
  | [Zpos p] => match decode p with Some tx => inl tx | None => inr (ENew "tx parse error") end
  | _ => inr (ENew "tx parse error")
  end.

(** While nobody else is set to, the sender of the first message pays. *)
Definition model_signer (m : list Msg) : bytes :=
  match m with MsgSend from _ _ :: _ => from | _ => [] end.

Definition model_SetMsgs (m : list Msg) (b : sdkTx) : sdkTx :=
  with_fee (fun f => if decide (FeePayer f = []) then set_payer (model_signer m) f else f) (with_msgs m b).

Lemma model_SetMsgs_tx m b : exists payer, model_SetMsgs m b = with_fee (set_payer payer) (with_msgs m b).
Proof.
  unfold model_SetMsgs, with_fee. destruct b as [ms [f|] o h s x]; cbn; [|by exists []].
  destruct (decide (FeePayer f = [])); [by eexists|]. exists (FeePayer f). by destruct f.
Qed.

Definition model_txconfig : TxConfig := {|
  Builder := sdkTx;
  NewTxBuilder := empty_tx;
  SetMsgs b m := Ok (model_SetMsgs m b);
  SetGasLimit b g := with_fee (set_gas g) b;
  SetFeeAmount b c := with_fee (set_fee c) b;
  SetMemo b m := with_memo m b;
  SetTimeoutHeight b h := with_timeout h b;
  SetFeeGranter b a := with_fee (set_granter a) b;
  SetFeePayer b a := with_fee (set_payer a) b;
  SetSignatures b l := Ok (with_signatures l b);
  SetEthExtension b := Ok (with_extensions ([[1]], []) b);
  GetTx b := b;
  TxEncoder tx := Ok [Zpos (encode tx)];
  TxDecoder := model_decode;
  GetSignBytes d tx := Ok [sd_AccountNumber d; sd_Sequence d; Zpos (encode tx)]
|}.

Lemma model_txconfig_laws : @TxConfigLaws model_txconfig.
Proof.
  constructor; simpl; intros; simplify_eq; try done.
  - by exists [].
  - apply model_SetMsgs_tx.
  - eauto.
  - simpl. by rewrite decode_encode.
Qed.

(** A transaction configuration whose encoder is cheap to evaluate. *)
Definition demo_txconfig : TxConfig := {|
  Builder := sdkTx;
  NewTxBuilder := empty_tx;
  SetMsgs b m := Ok (model_SetMsgs m b);
  SetGasLimit b g := with_fee (set_gas g) b;
  SetFeeAmount b c := with_fee (set_fee c) b;
  SetMemo b m := with_memo m b;
  SetTimeoutHeight b h := with_timeout h b;
  SetFeeGranter b a := with_fee (set_granter a) b;
  SetFeePayer b a := with_fee (set_payer a) b;
  SetSignatures b l := Ok (with_signatures l b);
  SetEthExtension b := Ok (with_extensions ([[1]], []) b);
  GetTx b := b;
  TxEncoder tx := Ok [Z.of_nat (length (GetMsgs tx))];
  TxDecoder _ := inr (ENew "tx parse error");
  GetSignBytes d tx := Ok [sd_AccountNumber d; sd_Sequence d]
|}.

(** ** Keys and coins *)

Definition model_crypto : Crypto := {|
  privKey_PubKey k := 2 :: k;
  pubKey_Address p := 1 :: p;
  bech32_AccAddress a := "inj1" +:+ hex_EncodeToString a;
  privKey_Sign k b := Ok (k ++ b);
  ecdsa_Sign b k := Ok (repeat 0 64 ++ [1]);
  Keccak256 b := repeat 0 31 ++ [Z.of_nat (length b) mod 256];
  CreateAddress a n := repeat 0 19 ++ [1];
  sha256_Sum256 b := repeat 0 31 ++ [Z.of_nat (length b) mod 256]
|}.

Definition model_math : SdkMath := {|
  ParseCoinNormalized s :=
    if decide (s = "") then Err (ENew "invalid coin") else Ok {| Denom := "inj"; Amount := 1 |};
  Int_Mul a b := if Z.abs (a * b) <? 2 ^ 256 then Ok (a * b) else Panic "Int overflow";
  NewCoin d a := if a <? 0 then Panic "negative coin amount" else Ok {| Denom := d; Amount := a |};
  NewCoins c := Ok (filter (fun x => Amount x <> 0) c);
  Dec_Add a b := Ok (a + b);
  Dec_Mul a b := Ok (a * b / 10 ^ 18)
|}.

Lemma model_math_laws : @SdkMathLaws model_math.
Proof.
  constructor; unfold ParseCoinNormalized, NewCoin, Int_Mul, NewCoins, Dec_Add, Dec_Mul, model_math.
  - intros s c. case_decide; [done|]. intros [= <-]. simpl. lia.
  - intros s c a _ Ha. by rewrite (proj2 (Z.ltb_ge a 0)).
  - intros d a c. case_match; [done|]. by intros [= <-].
  - intros a b c. case_match; [|done]. by intros [= <-].
  - intros a b Hs. by rewrite (proj2 (Z.ltb_lt _ _)).
  - eauto.
  - intros c cs [= <-]. destruct (Z.eqb_spec (Amount c) 0).
    + by rewrite filter_cons_False by naive_solver.
    + by rewrite filter_cons_True.
  - done.
  - intros a b c Hc _. by rewrite <- Hc, Z.div_mul.
Qed.

(** ** Ethereum and wasm *)

Definition model_eth : EthLib := {|
  eth_SignerHash id tx := [id; Nonce tx; Value tx; Gas tx];
  eth_WithSignature _ _ s := if decide (length s = 65%nat) then None else Some (ENew "wrong size");
  abi_Get _ := None;
  abi_Pack c m args := Ok (Z.of_nat (String.length m) :: args);
  contract_Bin _ := [96; 128];
  BytesToAddress b := repeat 0 (20 - length b) ++ drop (length b - 20) b;
  Address_String b := "0x" +:+ hex_EncodeToString b;
  HexToHash s := match hex_DecodeString (string_drop 2 s) with Ok b => b | _ => [] end;
  Hash_Hex b := "0x" +:+ hex_EncodeToString b
|}.

Definition model_ethbuild : @EthBuild model_txconfig := {|
  EthExtensionAny := None;
  EthBuildTx := fun (b : @Builder model_txconfig) m denom => Ok (with_msgs [m] (b : sdkTx))
|}.

(** A node with 250 codes, a hundred a page. *)
Definition model_wasm : WasmQuery := {|
  wq_Codes key :=
    if decide (key = []) then Ok (100, [1])
    else if decide (key = [1]) then Ok (100, [2])
    else if decide (key = [2]) then Ok (50, [])
    else Err (ENew "invalid key");
  wq_BuildAddress h c s a := Ok ("inj1" +:+ c);
  wq_rank key := if decide (key = []) then 2%nat else if decide (key = [1]) then 1%nat else 0%nat
|}.

Lemma model_wasm_laws : @WasmQueryLaws model_wasm.
Proof. constructor; cbn; intros key n next; repeat case_decide; intros; simplify_eq; try lia. Qed.
