(* ===== verification/RateLimit.v ===== *)
(** * Package pkg/ratelimit

    [Config] and its accessors (config.go), the [limiter] wrapper of
    x/time/rate and the [MultiLimiter] (bucket.go), the gas extraction
    (gas.go).  [WaitForTransaction] charges one token of the TPS limiter, the
    transaction's size of the bytes limiter and its gas limit of the gas
    limiter, the last two in chunks of at most the burst.

    The theorems: the burst sizes are proper burst sizes for every
    configuration, construction never fails and establishes the invariant
    that the chunk of each loop is the burst of its limiter, and with a live
    context the three charges are made exactly and in full; with any context
    the charges are made in order and never exceed them. *)

From Stdlib Require Import ZArith Lia String.
From stdpp Require Import base list strings numbers.
From S2P Require Import Prelude GoStrings Float64 Sdk SdkModel.

Open Scope string_scope.
Open Scope Z_scope.
Open Scope list_scope.

(** ** errors.go *)

Definition ErrRateMustBePositive : error := ENew "rate must be positive".
Definition ErrBurstSizeMustBePositive : error := ENew "burst size must be positive".
Definition ErrAtLeastOneRateLimitRequired : error :=
  ENew "at least one rate limit must be configured when enabled".
Definition ErrTxPerSecondMustBePositive : error := ENew "tx_per_second must be positive".
Definition ErrTPSRateLimitExceeded : error := ENew "TPS rate limit exceeded".
Definition ErrBytesRateLimitExceeded : error := ENew "bytes rate limit exceeded".
Definition ErrGasRateLimitExceeded : error := ENew "gas rate limit exceeded".

(** ** config.go *)

Definition DefaultBurstMultiplier : Z := 1.

Record BurstConfig := { Size : Z }.

Record Config := {
  TxPerSecond : float64;
  BytesPerSecond : Z;
  GasPerSecond : Z;
  Burst : BurstConfig
}.

(** The field types: two uint64 and an int. *)
Definition Config_typed (c : Config) : Prop :=
  is_u64 (BytesPerSecond c) /\ is_u64 (GasPerSecond c) /\ is_i64 (Size (Burst c)).

Definition IsEnabled (c : Config) : bool :=
  f64_gtb (TxPerSecond c) f64_zero || (0 <? BytesPerSecond c) || (0 <? GasPerSecond c).

Definition Validate (c : Config) : option error :=
  if negb (IsEnabled c) then None
  else if f64_eqb (TxPerSecond c) f64_zero && (BytesPerSecond c =? 0) && (GasPerSecond c =? 0)
  then Some ErrAtLeastOneRateLimitRequired
  else if f64_ltb (TxPerSecond c) f64_zero then Some ErrTxPerSecondMustBePositive
  else None.

Definition HasTxLimit (c : Config) : bool := IsEnabled c && f64_gtb (TxPerSecond c) f64_zero.
Definition HasBytesLimit (c : Config) : bool := IsEnabled c && (0 <? BytesPerSecond c).
Definition HasGasLimit (c : Config) : bool := IsEnabled c && (0 <? GasPerSecond c).

Definition GetTxRate (c : Config) : float64 := TxPerSecond c.
Definition GetBytesRate (c : Config) : float64 := f64_of_Z (BytesPerSecond c).
Definition GetGasRate (c : Config) : float64 := f64_of_Z (GasPerSecond c).

Definition GetTpsBurstSize `{FloatConv} (c : Config) : Z :=
  if 0 <? Size (Burst c) then Size (Burst c)
  else
    let v := f64_to_int
      (f64_ceil (f64_mul (TxPerSecond c) (f64_of_Z DefaultBurstMultiplier))) in
    if v <? 1 then 1 else v.

Definition GetBytesBurstSize (c : Config) : Z :=
  if 0 <? Size (Burst c) then Size (Burst c)
  else
    let b := u64 (BytesPerSecond c * u64 DefaultBurstMultiplier) in
    if b =? 0 then 1
    else if u64 maxInt <? b then maxInt
    else i64 b.

Definition GetGasBurstSize (c : Config) : Z :=
  if 0 <? Size (Burst c) then Size (Burst c)
  else
    let b := u64 (GasPerSecond c * u64 DefaultBurstMultiplier) in
    if b =? 0 then 1
    else if u64 maxInt <? b then maxInt
    else i64 b.

(** ** bucket.go: the limiter *)

Section Limiter.
Context `{RateLib}.

(** The number [%f] prints is left out of the message. *)
Definition NewLimiter (ratePerSecond : float64) (burstSize : Z) : go RLimiter :=
  if f64_leb ratePerSecond f64_zero
  then Err (EJoin ErrRateMustBePositive (ENew "got"))
  else if burstSize <=? 0
  then Err (EJoin ErrBurstSizeMustBePositive (ENew ("got " +:+ strconv_Itoa burstSize)))
  else Ok (rate_NewLimiter ratePerSecond burstSize).

Definition limiter_Wait (ctx : Context) (l : RLimiter) (tokens : Z) : RLimiter * option error :=
  if tokens <=? 0 then (l, None) else rate_WaitN ctx l tokens.

Definition limiter_TryConsume (now : Z) (l : RLimiter) (tokens : Z) : RLimiter * bool :=
  if tokens <=? 0 then (l, true) else rate_AllowN now l tokens.

Definition limiter_Tokens (now : Z) (l : RLimiter) : float64 := rate_TokensAt now l.

Definition limiter_SetRate (l : RLimiter) (ratePerSecond : float64) : RLimiter * option error :=
  if f64_leb ratePerSecond f64_zero
  then (l, Some (EJoin ErrRateMustBePositive (ENew "got")))
  else (rate_SetLimit l ratePerSecond, None).

(** ** bucket.go: the multi-metric limiter *)

Record TxMetrics := { SizeBytes : Z; GasLimit : Z }.

Record MultiLimiter := {
  tpsLimiter : option RLimiter;
  bytesLimiter : option RLimiter;
  gasLimiter : option RLimiter;
  config : Config
}.

Context `{FloatConv}.

(** One field of the constructor: built only for a positive rate. *)
Definition new_if (enabled : bool) (r : float64) (burst : Z) : go (option RLimiter) :=
  if enabled then let! l := NewLimiter r burst in Ok (Some l) else Ok None.

Definition NewMultiLimiter (c : Config) : go MultiLimiter :=
  let! tps := new_if (f64_gtb (TxPerSecond c) f64_zero) (TxPerSecond c) (GetTpsBurstSize c) in
  let! bytes := new_if (0 <? BytesPerSecond c) (GetBytesRate c) (GetBytesBurstSize c) in
  let! gas := new_if (0 <? GasPerSecond c) (GetGasRate c) (GetGasBurstSize c) in
  Ok {| tpsLimiter := tps; bytesLimiter := bytes; gasLimiter := gas; config := c |}.

(** The error a failing [Wait] leaves: a context error as it is, any other one
    under the sentinel of the limit. *)
Definition classify (sentinel err : error) : error :=
  if errors_Is err ECanceled || errors_Is err EDeadlineExceeded then err
  else EJoin sentinel err.

(** [for remaining > 0 { n := chunk; if remaining < uint64(chunk) { n = int(remaining) }; ... }];
    [None] when the fuel does not reach the end of the loop. *)
Fixpoint consume (ctx : Context) (fuel : nat) (l : RLimiter) (remaining chunk : Z)
    : option (RLimiter * option error) :=
  if remaining <=? 0 then Some (l, None)
  else match fuel with
  | O => None
  | S fuel' =>
      let n := if remaining <? u64 chunk then i64 remaining else chunk in
      match limiter_Wait ctx l n with
      | (l', Some err) => Some (l', Some err)
      | (l', None) => consume ctx fuel' l' (u64 (remaining - u64 n)) chunk
      end
  end.

(** Enough fuel for the loop: one pass per chunk. *)
Definition chunks_fuel (amount chunk : Z) : nat := S (Z.to_nat (amount / chunk)).

(** One of the three stages: skipped when there is no limiter or nothing to
    charge. *)
Definition stage (ctx : Context) (sentinel : error) (lim : option RLimiter) (amount chunk : Z)
    : option (option RLimiter * option error) :=
  match lim with
  | None => Some (None, None)
  | Some l =>
      if amount <=? 0 then Some (Some l, None)
      else match consume ctx (chunks_fuel amount chunk) l amount chunk with
      | None => None
      | Some (l', None) => Some (Some l', None)
      | Some (l', Some err) => Some (Some l', Some (classify sentinel err))
      end
  end.

Definition WaitForTransaction (ctx : Context) (ml : MultiLimiter) (m : TxMetrics)
    : option (MultiLimiter * option error) :=
  let tps :=
    match tpsLimiter ml with
    | None => (None, None)
    | Some l =>
        match limiter_Wait ctx l 1 with
        | (l', None) => (Some l', None)
        | (l', Some err) => (Some l', Some (classify ErrTPSRateLimitExceeded err))
        end
    end in
  let ml1 := {| tpsLimiter := tps.1; bytesLimiter := bytesLimiter ml;
                gasLimiter := gasLimiter ml; config := config ml |} in
  match tps.2 with
  | Some err => Some (ml1, Some err)
  | None =>
      match stage ctx ErrBytesRateLimitExceeded (bytesLimiter ml) (SizeBytes m)
              (GetBytesBurstSize (config ml)) with
      | None => None
      | Some (bytes, berr) =>
          let ml2 := {| tpsLimiter := tps.1; bytesLimiter := bytes;
                        gasLimiter := gasLimiter ml; config := config ml |} in
          match berr with
          | Some err => Some (ml2, Some err)
          | None =>
              match stage ctx ErrGasRateLimitExceeded (gasLimiter ml) (GasLimit m)
                      (GetGasBurstSize (config ml)) with
              | None => None
              | Some (gas, gerr) =>
                  Some ({| tpsLimiter := tps.1; bytesLimiter := bytes;
                           gasLimiter := gas; config := config ml |}, gerr)
              end
          end
      end
  end.

(** ** gas.go *)

(** The decoder of the limiter's [client.TxConfig]; [None] stands for nil. *)
Definition ExtractGasLimit (decoder : option (bytes -> sdkTx + error)) (txBytes : bytes)
    : Z + error :=
  match decoder with
  | None => inl 0
  | Some dec =>
      match dec txBytes with
      | inr err => inr err
      | inl tx =>
          match asFeeTx tx with
          | None => inl 0
          | Some feeTx => inl (GetGas feeTx)
          end
      end
  end.

Definition WaitForTransactionBytes (ctx : Context) (decoder : option (bytes -> sdkTx + error))
    (ml : MultiLimiter) (txBytes : bytes) : option (MultiLimiter * option error) :=
  let gasLimit := match ExtractGasLimit decoder txBytes with inl g => g | inr _ => 0 end in
  WaitForTransaction ctx ml
    {| SizeBytes := u64 (Z.of_nat (length txBytes)); GasLimit := gasLimit |}.

(** ** Invariants and accounting *)

(** What each limiter has granted; zero for an absent one. *)
Definition granted (lim : option RLimiter) : Z :=
  match lim with None => 0 | Some l => rate_Granted l end.

(** The limiter's burst is the chunk of its loop. *)
Definition burst_is (lim : option RLimiter) (chunk : Z) : Prop :=
  match lim with None => True | Some l => rate_Burst l = chunk end.

Definition MultiLimiter_wf (ml : MultiLimiter) : Prop :=
  Config_typed (config ml) /\
  burst_is (tpsLimiter ml) (GetTpsBurstSize (config ml)) /\
  burst_is (bytesLimiter ml) (GetBytesBurstSize (config ml)) /\
  burst_is (gasLimiter ml) (GetGasBurstSize (config ml)).

(** The abstract specification: a transaction is charged one TPS token, its
    size in bytes and its gas limit, each by the limiter when there is one. *)
Definition charged (lim lim' : option RLimiter) (amount : Z) : Prop :=
  match lim, lim' with
  | None, None => True
  | Some l, Some l' => rate_Granted l' = rate_Granted l + amount
  | _, _ => False
  end.

Definition MultiLimiter_charged (ml ml' : MultiLimiter) (m : TxMetrics) : Prop :=
  charged (tpsLimiter ml) (tpsLimiter ml') 1 /\
  charged (bytesLimiter ml) (bytesLimiter ml') (SizeBytes m) /\
  charged (gasLimiter ml) (gasLimiter ml') (GasLimit m) /\
  config ml' = config ml.

End Limiter.

(** ** Burst sizes *)

Definition is_burst (b : Z) : Prop := 1 <= b <= maxInt.

Lemma bytes_burst_range c : Config_typed c -> is_burst (GetBytesBurstSize c).
Proof.
  intros (Hb & _ & Hs). unfold is_burst, GetBytesBurstSize.
  rewrite (u64_id maxInt) by width.
  pose proof (u64_range (BytesPerSecond c * u64 DefaultBurstMultiplier)).
  go_cases; bool_facts; try rewrite i64_id; width.
Qed.

Lemma gas_burst_range c : Config_typed c -> is_burst (GetGasBurstSize c).
Proof.
  intros (_ & Hg & Hs). unfold is_burst, GetGasBurstSize.
  rewrite (u64_id maxInt) by width.
  pose proof (u64_range (GasPerSecond c * u64 DefaultBurstMultiplier)).
  go_cases; bool_facts; try rewrite i64_id; width.
Qed.

Lemma tps_burst_range `{FloatConv} c : Config_typed c -> is_burst (GetTpsBurstSize c).
Proof.
  intros (_ & _ & Hs). unfold is_burst, GetTpsBurstSize.
  set (f := f64_ceil _). pose proof (f64_to_int_range f).
  go_cases; bool_facts; width.
Qed.

#[export] Hint Resolve bytes_burst_range gas_burst_range tps_burst_range : go.

(** ** Construction *)

Section Proofs.
Context `{RL : RateLib, RLL : !RateLaws, FC : FloatConv}.

Lemma NewLimiter_ok r b :
  f64_gtb r f64_zero = true -> is_burst b -> NewLimiter r b = Ok (rate_NewLimiter r b).
Proof.
  intros Hr Hb. unfold NewLimiter. rewrite f64_gtb_zero_leb by done.
  destruct (b <=? 0) eqn:E; [|done]. unfold is_burst in Hb. bool_facts. lia.
Qed.

Lemma new_if_ok e r b :
  (e = true -> f64_gtb r f64_zero = true) -> is_burst b ->
  exists o, new_if e r b = Ok o /\ burst_is o b /\ (is_Some o <-> e = true) /\ granted o = 0.
Proof.
  intros Hr Hb. unfold new_if. destruct e.
  - rewrite NewLimiter_ok by auto. eexists; split; [done|]. simpl.
    rewrite NewLimiter_Burst, NewLimiter_Granted. naive_solver.
  - eexists; split; [done|]. simpl. split; [done|]. split; [|done].
    split; [intros []|]; done.
Qed.

(** ** The chunk loop *)

Lemma limiter_Wait_Burst ctx l n : rate_Burst (limiter_Wait ctx l n).1 = rate_Burst l.
Proof. unfold limiter_Wait. destruct (n <=? 0); [done|apply WaitN_Burst]. Qed.

Lemma limiter_Wait_granted ctx l n :
  0 < n ->
  rate_Granted (limiter_Wait ctx l n).1 =
  match (limiter_Wait ctx l n).2 with None => rate_Granted l + n | Some _ => rate_Granted l end.
Proof.
  intros. unfold limiter_Wait. destruct (n <=? 0) eqn:E; bool_facts; [lia|]. apply WaitN_granted.
Qed.

Lemma limiter_Wait_live ctx l n :
  ctx_live ctx = true -> n <= rate_Burst l -> (limiter_Wait ctx l n).2 = None.
Proof.
  intros. unfold limiter_Wait. destruct (n <=? 0) eqn:E; bool_facts; [done|].
  apply WaitN_live; [done|lia].
Qed.

(** The width of one chunk and what is left after it. *)
Lemma chunk_step remaining chunk :
  0 < remaining < 2 ^ 64 -> is_burst chunk ->
  let n := if remaining <? u64 chunk then i64 remaining else chunk in
  n = Z.min remaining chunk /\ u64 (remaining - u64 n) = remaining - n /\ 0 < n <= chunk.
Proof.
  intros Hr Hc. unfold is_burst in Hc. rewrite (u64_id chunk) by width. simpl.
  destruct (remaining <? chunk) eqn:E; bool_facts.
  - rewrite i64_id, (u64_id remaining), u64_id by width. lia.
  - rewrite (u64_id chunk), u64_id by width. lia.
Qed.

Lemma fuel_step remaining chunk fuel :
  0 < remaining -> is_burst chunk -> remaining <= chunk * Z.of_nat (S fuel) ->
  remaining - Z.min remaining chunk <= chunk * Z.of_nat fuel.
Proof. unfold is_burst. nia. Qed.

(** The loop terminates with an answer, keeps the burst, and grants between
    nothing and everything; all of it exactly when it reports no error. *)
Lemma consume_spec ctx fuel l remaining chunk :
  0 <= remaining < 2 ^ 64 -> is_burst chunk -> remaining <= chunk * Z.of_nat fuel ->
  exists l' err, consume ctx fuel l remaining chunk = Some (l', err) /\
    rate_Burst l' = rate_Burst l /\
    0 <= rate_Granted l' - rate_Granted l <= remaining /\
    (err = None <-> rate_Granted l' = rate_Granted l + remaining) /\
    (ctx_live ctx = true -> chunk <= rate_Burst l -> err = None).
Proof.
  revert l remaining. induction fuel as [|fuel IH]; intros l remaining Hr Hc Hf.
  - simpl. assert (remaining = 0) as -> by lia. exists l, None. simpl. naive_solver lia.
  - cbn [consume]. destruct (remaining <=? 0) eqn:E; bool_facts.
    { exists l, None. naive_solver lia. }
    destruct (chunk_step remaining chunk ltac:(lia) Hc) as (Hn & Hu & Hpos). simpl in *.
    set (n := if remaining <? u64 chunk then _ else _) in *.
    pose proof (limiter_Wait_Burst ctx l n) as HB.
    pose proof (limiter_Wait_granted ctx l n ltac:(lia)) as HG.
    pose proof (limiter_Wait_live ctx l n) as HL.
    destruct (limiter_Wait ctx l n) as [l1 [err|]]; simpl in *.
    + exists l1, (Some err). repeat split; try done; try lia.
      intros ? ?. discriminate HL; [done|lia].
    + rewrite Hu. destruct (IH l1 (remaining - n)) as (l' & err & -> & Hb' & Hg' & He' & Hl');
        [lia|done|rewrite Hn; apply fuel_step; (done || lia)|].
      exists l', err. repeat split; try done; try lia; try (intros; apply He'; lia).
      * intros ->%He'. lia.
      * intros ? ?. apply Hl'; [done|lia].
Qed.

Lemma chunks_fuel_enough amount chunk :
  0 <= amount -> is_burst chunk -> amount <= chunk * Z.of_nat (chunks_fuel amount chunk).
Proof.
  intros. unfold chunks_fuel, is_burst in *.
  pose proof (Z.div_mod amount chunk ltac:(lia)).
  pose proof (Z.mod_pos_bound amount chunk ltac:(lia)).
  pose proof (Z.div_pos amount chunk ltac:(lia) ltac:(lia)). nia.
Qed.

(** One stage of [WaitForTransaction]. *)
Lemma stage_spec ctx sentinel lim amount chunk :
  0 <= amount < 2 ^ 64 -> is_burst chunk -> burst_is lim chunk ->
  exists lim' err, stage ctx sentinel lim amount chunk = Some (lim', err) /\
    burst_is lim' chunk /\ (is_Some lim' <-> is_Some lim) /\
    0 <= granted lim' - granted lim <= amount /\
    (err = None -> charged lim lim' amount) /\
    (ctx_live ctx = true -> err = None).
Proof.
  intros Ha Hc Hb. unfold stage. destruct lim as [l|]; [|exists None, None; naive_solver lia].
  destruct (amount <=? 0) eqn:E; bool_facts.
  { assert (amount = 0) as -> by lia. exists (Some l), None. simpl. naive_solver lia. }
  destruct (consume_spec ctx (chunks_fuel amount chunk) l amount chunk)
    as (l' & err & -> & HB & HG & He & HL); [lia|done|by apply chunks_fuel_enough; [lia|]|].
  simpl in Hb. destruct err as [err|].
  - eexists _, _; split; [done|]. simpl. repeat split; try done; try lia; try congruence.
    intros Hl. discriminate (HL Hl ltac:(lia)).
  - eexists _, _; split; [done|]. simpl. repeat split; try done; try lia; try congruence.
    intros _. by apply He.
Qed.

(** The TPS stage of [WaitForTransaction], by itself. *)
Lemma tps_stage_spec ctx l b :
  rate_Burst l = b -> 1 <= b ->
  let r := limiter_Wait ctx l 1 in
  rate_Burst r.1 = b /\ 0 <= rate_Granted r.1 - rate_Granted l <= 1 /\
  (r.2 = None -> rate_Granted r.1 = rate_Granted l + 1) /\
  (ctx_live ctx = true -> r.2 = None).
Proof.
  intros Hb H1. simpl. rewrite limiter_Wait_Burst. pose proof (limiter_Wait_granted ctx l 1 ltac:(lia)).
  pose proof (limiter_Wait_live ctx l 1).
  destruct (limiter_Wait ctx l 1).2; naive_solver lia.
Qed.

(** In any context the call returns, keeps the invariant, and charges in order:
    nothing is taken from a limiter before the one in front of it has been
    charged in full, and no limiter is charged more than its amount. *)
Definition charged_in_order (ml ml' : MultiLimiter) (m : TxMetrics) : Prop :=
  let dt := granted (tpsLimiter ml') - granted (tpsLimiter ml) in
  let db := granted (bytesLimiter ml') - granted (bytesLimiter ml) in
  let dg := granted (gasLimiter ml') - granted (gasLimiter ml) in
  0 <= dt <= 1 /\ 0 <= db <= SizeBytes m /\ 0 <= dg <= GasLimit m /\
  (0 < db -> charged (tpsLimiter ml) (tpsLimiter ml') 1) /\
  (0 < dg -> charged (tpsLimiter ml) (tpsLimiter ml') 1 /\
             charged (bytesLimiter ml) (bytesLimiter ml') (SizeBytes m)).

Lemma WaitForTransaction_spec ctx ml m :
  MultiLimiter_wf ml -> is_u64 (SizeBytes m) -> is_u64 (GasLimit m) ->
  exists ml' err, WaitForTransaction ctx ml m = Some (ml', err) /\
    MultiLimiter_wf ml' /\ charged_in_order ml ml' m /\
    (err = None -> MultiLimiter_charged ml ml' m) /\
    (ctx_live ctx = true -> err = None).
Proof.
  intros (Hc & Ht & Hb & Hg) Hsize Hgas.
  pose proof (bytes_burst_range _ Hc) as Rb. pose proof (gas_burst_range _ Hc) as Rg.
  pose proof (tps_burst_range _ Hc) as Rt. unfold WaitForTransaction.
  set (tps := match tpsLimiter ml with None => _ | Some _ => _ end).
  assert (Htps : burst_is tps.1 (GetTpsBurstSize (config ml)) /\
    0 <= granted tps.1 - granted (tpsLimiter ml) <= 1 /\
    (tps.2 = None -> charged (tpsLimiter ml) tps.1 1) /\
    (ctx_live ctx = true -> tps.2 = None)).
  { unfold tps. destruct (tpsLimiter ml) as [l|]; simpl; [|naive_solver lia].
    destruct (tps_stage_spec ctx l _ Ht) as (?&?&?&?); [unfold is_burst in Rt; lia|].
    destruct (limiter_Wait ctx l 1) as [l' [e|]]; simpl in *; naive_solver. }
  destruct Htps as (Htb & Htg & Htn & Htl). clearbody tps.
  destruct tps as [tps [e|]]; simpl in *.
  { eexists _, _; split; [done|]. unfold MultiLimiter_wf, charged_in_order, MultiLimiter_charged.
    simpl. repeat split; try done; try apply Hc; try lia; try (width). }
  destruct (stage_spec ctx ErrBytesRateLimitExceeded (bytesLimiter ml) (SizeBytes m) _ Hsize Rb Hb)
    as (bl & be & -> & Bb & _ & Bg & Bn & Bl).
  destruct be as [e|].
  { eexists _, _; split; [done|]. unfold MultiLimiter_wf, charged_in_order, MultiLimiter_charged.
    simpl. repeat split; try done; try apply Hc; try lia; try (width); naive_solver lia. }
  destruct (stage_spec ctx ErrGasRateLimitExceeded (gasLimiter ml) (GasLimit m) _ Hgas Rg Hg)
    as (gl & ge & -> & Gb & _ & Gg & Gn & Gl).
  eexists _, _; split; [done|]. unfold MultiLimiter_wf, charged_in_order, MultiLimiter_charged.
  simpl. repeat split; try done; try apply Hc; try lia; try (width); naive_solver lia.
Qed.

(** ** Properties *)

(** C15. With a live context [WaitForTransaction] returns nil and refines the
    abstract charge: one token of the TPS limiter, exactly the transaction's
    size of the bytes limiter and exactly its gas limit of the gas limiter, in
    however many chunks; the chunk loops terminate and never ask for more than
    the burst, and the invariant is kept for the next transaction. *)
Theorem WaitForTransaction_refines ctx ml m :
  MultiLimiter_wf ml -> is_u64 (SizeBytes m) -> is_u64 (GasLimit m) -> ctx_live ctx = true ->
  exists ml', WaitForTransaction ctx ml m = Some (ml', None) /\
    MultiLimiter_charged ml ml' m /\ MultiLimiter_wf ml'.
Proof.
  intros Hwf Hs Hg Hl.
  destruct (WaitForTransaction_spec ctx ml m Hwf Hs Hg) as (ml' & err & E & Hwf' & _ & Hn & Hok).
  rewrite (Hok Hl) in *. eauto.
Qed.

(** In any context, cancelled at any point included, [WaitForTransaction]
    returns; it keeps the invariant, never charges a limiter more than the
    transaction's amount, and charges the limiters in the order TPS, bytes,
    gas, each only after the one before it was charged in full. *)
Theorem WaitForTransaction_in_order ctx ml m :
  MultiLimiter_wf ml -> is_u64 (SizeBytes m) -> is_u64 (GasLimit m) ->
  exists ml' err, WaitForTransaction ctx ml m = Some (ml', err) /\
    MultiLimiter_wf ml' /\ charged_in_order ml ml' m.
Proof.
  intros Hwf Hs Hg.
  destruct (WaitForTransaction_spec ctx ml m Hwf Hs Hg) as (ml' & err & E & Hwf' & Ho & _ & _).
  eauto.
Qed.

Lemma NewMultiLimiter_built c :
  Config_typed c ->
  exists ml, NewMultiLimiter c = Ok ml /\ MultiLimiter_wf ml /\
    (is_Some (tpsLimiter ml) <-> f64_gtb (TxPerSecond c) f64_zero = true) /\
    (is_Some (bytesLimiter ml) <-> 0 < BytesPerSecond c) /\
    (is_Some (gasLimiter ml) <-> 0 < GasPerSecond c).
Proof.
  intros Hc. unfold NewMultiLimiter.
  destruct (new_if_ok (f64_gtb (TxPerSecond c) f64_zero) (TxPerSecond c) (GetTpsBurstSize c))
    as (t & -> & Ht & St & _); [done|auto with go|].
  destruct (new_if_ok (0 <? BytesPerSecond c) (GetBytesRate c) (GetBytesBurstSize c))
    as (b & -> & Hb & Sb & _); [intros ?; bool_facts; by apply f64_of_Z_pos|auto with go|].
  destruct (new_if_ok (0 <? GasPerSecond c) (GetGasRate c) (GetGasBurstSize c))
    as (g & -> & Hg & Sg & _); [intros ?; bool_facts; by apply f64_of_Z_pos|auto with go|].
  simpl. eexists; split; [done|]. rewrite <- !Z.ltb_lt. repeat split; try apply Hc; naive_solver.
Qed.

(** A new limiter has granted nothing. *)
Lemma NewMultiLimiter_fresh c ml :
  NewMultiLimiter c = Ok ml ->
  granted (tpsLimiter ml) = 0 /\ granted (bytesLimiter ml) = 0 /\ granted (gasLimiter ml) = 0.
Proof.
  assert (Hn : forall e r b o, new_if e r b = Ok o -> granted o = 0).
  { intros e r b o. unfold new_if. destruct e; [|by intros [= <-]]. unfold NewLimiter.
    destruct (f64_leb _ _); [done|]. destruct (b <=? 0); [done|]. intros [= <-]. apply NewLimiter_Granted. }
  unfold NewMultiLimiter. intros (t & Ht & H)%go_bind_Ok. apply go_bind_Ok in H as (b & Hb & H).
  apply go_bind_Ok in H as (g & Hg & H). injection H as <-. cbn. split_and!; eauto.
Qed.

(** [NewMultiLimiter] succeeds for every configuration, has a limiter
    exactly for each positive rate, and its limiters' bursts are the chunk
    sizes the loops of [WaitForTransaction] use. *)
Theorem NewMultiLimiter_wf c :
  Config_typed c ->
  exists ml, NewMultiLimiter c = Ok ml /\ MultiLimiter_wf ml /\
    (is_Some (tpsLimiter ml) <-> f64_gtb (TxPerSecond c) f64_zero = true) /\
    (is_Some (bytesLimiter ml) <-> 0 < BytesPerSecond c) /\
    (is_Some (gasLimiter ml) <-> 0 < GasPerSecond c).
Proof. apply NewMultiLimiter_built. Qed.

Lemma charged_trans o1 o2 o3 a b c :
  charged o1 o2 a -> charged o2 o3 b -> c = a + b -> charged o1 o3 c.
Proof. unfold charged. repeat case_match; try done. lia. Qed.

(** The transactions of a run, one after the other. *)
Fixpoint WaitForAll (ctx : Context) (decoder : option (bytes -> sdkTx + error))
    (ml : MultiLimiter) (txs : list bytes) : option (MultiLimiter * option error) :=
  match txs with
  | [] => Some (ml, None)
  | tx :: txs' =>
      match WaitForTransactionBytes ctx decoder ml tx with
      | Some (ml', None) => WaitForAll ctx decoder ml' txs'
      | r => r
      end
  end.

Definition tx_gas (decoder : option (bytes -> sdkTx + error)) (tx : bytes) : Z :=
  match ExtractGasLimit decoder tx with inl g => g | inr _ => 0 end.

(** Over a whole run the limiters grant exactly the run's totals: the
    number of transactions, the sum of their sizes, and the sum of the gas
    limits of those that decode to a fee transaction (an undecodable one
    counts as zero gas). *)
Theorem WaitForAll_totals ctx decoder txs ml :
  MultiLimiter_wf ml -> ctx_live ctx = true ->
  Forall (fun tx => Z.of_nat (length tx) < 2 ^ 64 /\ is_u64 (tx_gas decoder tx)) txs ->
  exists ml', WaitForAll ctx decoder ml txs = Some (ml', None) /\ MultiLimiter_wf ml' /\
    charged (tpsLimiter ml) (tpsLimiter ml') (Z.of_nat (length txs)) /\
    charged (bytesLimiter ml) (bytesLimiter ml') (zsum ((fun tx => Z.of_nat (length tx)) <$> txs)) /\
    charged (gasLimiter ml) (gasLimiter ml') (zsum (tx_gas decoder <$> txs)).
Proof.
  intros Hwf Hl Htx. revert ml Hwf. induction Htx as [|tx txs [Hlen Hgas] _ IH]; intros ml Hwf.
  { exists ml. simpl. repeat split; try apply Hwf; unfold charged; repeat case_match; lia || done. }
  cbn [WaitForAll]. unfold WaitForTransactionBytes. fold (tx_gas decoder tx).
  rewrite u64_id by width.
  destruct (WaitForTransaction_spec ctx ml
    {| SizeBytes := Z.of_nat (length tx); GasLimit := tx_gas decoder tx |})
    as (ml1 & err & -> & Hwf1 & _ & Hn & Hok); [done|simpl; width|done|].
  rewrite (Hok Hl). destruct (IH ml1 Hwf1) as (ml' & -> & Hwf' & T & B & G).
  exists ml'. split; [done|]. split; [done|].
  destruct (Hn (Hok Hl)) as (T1 & B1 & G1 & _). simpl in T1, B1, G1.
  rewrite !fmap_cons.
  split_and!; [eapply (charged_trans _ _ _ _ _ _ T1 T)|eapply (charged_trans _ _ _ _ _ _ B1 B)
    |eapply (charged_trans _ _ _ _ _ _ G1 G)]; unfold zsum; cbn [foldr length]; lia.
Qed.

(** [NewLimiter] and [SetRate] refuse exactly the rates that are zero or
    negative, [NewLimiter] also a burst below one, and [SetRate] changes
    neither the burst nor what has been granted; [TryConsume] and [Wait] of no
    token succeed without touching the limiter. *)
Theorem limiter_guards l r b n now ctx :
  (is_Ok (NewLimiter r b) = negb (f64_leb r f64_zero) && (0 <? b)) /\
  ((limiter_SetRate l r).2 = None <-> f64_leb r f64_zero = false) /\
  rate_Burst (limiter_SetRate l r).1 = rate_Burst l /\
  rate_Granted (limiter_SetRate l r).1 = rate_Granted l /\
  limiter_Wait ctx l (Z.min n 0) = (l, None) /\
  limiter_TryConsume now l (Z.min n 0) = (l, true).
Proof.
  unfold NewLimiter, limiter_SetRate, limiter_Wait, limiter_TryConsume.
  rewrite (proj2 (Z.leb_le (Z.min n 0) 0)) by lia.
  destruct (f64_leb r f64_zero); simpl; rewrite ?SetLimit_Burst, ?SetLimit_Granted;
    destruct (b <=? 0) eqn:E, (0 <? b) eqn:E'; bool_facts; try lia; naive_solver.
Qed.

End Proofs.

(** Every burst size is at least one and fits a Go int, whatever the
    configured rates and burst: a rate past the int range saturates (bytes,
    gas) or converts in an implementation-dependent way (TPS) and is still a
    usable burst, and a positive configured size is used as it is. *)
Theorem burst_sizes_in_range `{FloatConv} c :
  Config_typed c ->
  is_burst (GetTpsBurstSize c) /\ is_burst (GetBytesBurstSize c) /\ is_burst (GetGasBurstSize c) /\
  (0 < Size (Burst c) -> GetTpsBurstSize c = Size (Burst c) /\
     GetBytesBurstSize c = Size (Burst c) /\ GetGasBurstSize c = Size (Burst c)) /\
  (Size (Burst c) <= 0 -> 0 < BytesPerSecond c ->
     GetBytesBurstSize c = Z.min (BytesPerSecond c) maxInt).
Proof.
  intros Hc. split_and!; auto with go.
  - intros Hs%Z.ltb_lt. unfold GetTpsBurstSize, GetBytesBurstSize, GetGasBurstSize. by rewrite Hs.
  - intros Hs%Z.ltb_ge Hb. unfold GetBytesBurstSize. rewrite Hs. destruct Hc as (Hu & _ & _).
    change (u64 DefaultBurstMultiplier) with 1. rewrite Z.mul_1_r.
    rewrite (u64_id (BytesPerSecond c)), (u64_id maxInt) by width.
    go_cases; bool_facts; try rewrite i64_id; width.
Qed.

(** [Validate] reports an error exactly when the TPS rate is negative while
    the bytes or the gas rate is positive: a negative TPS rate by itself passes
    as a disabled limiter, and the "at least one" error is never reported. *)
Theorem Validate_exact c :
  Config_typed c ->
  Validate c =
    if f64_ltb (TxPerSecond c) f64_zero && ((0 <? BytesPerSecond c) || (0 <? GasPerSecond c))
    then Some ErrTxPerSecondMustBePositive else None.
Proof.
  intros (Hb & Hg & _). unfold Validate, IsEnabled.
  destruct (f64_gtb (TxPerSecond c) f64_zero) eqn:E; simpl.
  - by rewrite f64_gt_zero_neq, f64_not_lt_zero.
  - destruct (0 <? BytesPerSecond c) eqn:Eb, (0 <? GasPerSecond c) eqn:Eg,
      (BytesPerSecond c =? 0) eqn:Eb0, (GasPerSecond c =? 0) eqn:Eg0; bool_facts; try width;
      simpl; rewrite ?andb_false_r, ?andb_true_r; by repeat case_match.
Qed.

(** ** Witnesses *)

Definition demo_config : Config :=
  {| TxPerSecond := f64_of_Z 100; BytesPerSecond := 300; GasPerSecond := 0;
     Burst := {| Size := 7 |} |}.

Definition demo_limiter : @MultiLimiter model_rate :=
  match @NewMultiLimiter model_rate amd64_FloatConv demo_config with
  | Ok ml => ml
  | _ => {| tpsLimiter := None; bytesLimiter := None; gasLimiter := None; config := demo_config |}
  end.

Lemma demo_config_typed : Config_typed demo_config.
Proof. unfold Config_typed, demo_config; simpl. repeat split; width. Qed.

Lemma demo_limiter_wf : @MultiLimiter_wf model_rate amd64_FloatConv demo_limiter.
Proof. repeat split; try exact I; try reflexivity; unfold is_u64; vm_compute; congruence. Qed.

(** A 20-byte transaction through a burst of 7: three chunks. *)
Lemma WaitForTransaction_refines_witness :
  exists ml', @WaitForTransaction model_rate {| ctx_live := true |} demo_limiter
      {| SizeBytes := 20; GasLimit := 5 |} = Some (ml', None) /\
    @MultiLimiter_charged model_rate demo_limiter ml' {| SizeBytes := 20; GasLimit := 5 |} /\
    @MultiLimiter_wf model_rate amd64_FloatConv ml'.
Proof.
  apply (@WaitForTransaction_refines model_rate model_rate_laws amd64_FloatConv);
    [exact demo_limiter_wf|split; simpl; lia|split; simpl; lia|reflexivity].
Defined.

Lemma WaitForTransaction_in_order_witness :
  exists ml' err, @WaitForTransaction model_rate {| ctx_live := false |} demo_limiter
      {| SizeBytes := 20; GasLimit := 5 |} = Some (ml', err) /\
    @MultiLimiter_wf model_rate amd64_FloatConv ml' /\
    @charged_in_order model_rate demo_limiter ml' {| SizeBytes := 20; GasLimit := 5 |}.
Proof.
  apply (@WaitForTransaction_in_order model_rate model_rate_laws amd64_FloatConv);
    [exact demo_limiter_wf|split; simpl; lia|split; simpl; lia].
Defined.

Lemma NewMultiLimiter_wf_witness :
  exists ml, @NewMultiLimiter model_rate amd64_FloatConv demo_config = Ok ml /\
    @MultiLimiter_wf model_rate amd64_FloatConv ml /\
    (is_Some (tpsLimiter ml) <-> f64_gtb (TxPerSecond demo_config) f64_zero = true) /\
    (is_Some (bytesLimiter ml) <-> 0 < BytesPerSecond demo_config) /\
    (is_Some (gasLimiter ml) <-> 0 < GasPerSecond demo_config).
Proof.
  apply (@NewMultiLimiter_wf model_rate model_rate_laws amd64_FloatConv).
  exact demo_config_typed.
Defined.

Definition demo_decoder (b : bytes) : sdkTx + error :=
  match b with
  | g :: _ => inl {| GetMsgs := []; asFeeTx := Some {| GetGas := g; GetFee := []; FeePayer := [];
                FeeGranter := [] |}; asMemo := None; asTimeoutHeight := None;
                asSigVerifiable := None; asExtensionOptions := None |}
  | [] => inr (ENew "empty")
  end.

Lemma WaitForAll_totals_witness :
  exists ml', @WaitForAll model_rate {| ctx_live := true |} (Some demo_decoder) demo_limiter
      [[1; 2; 3]; []; [4; 5]] = Some (ml', None) /\
    @MultiLimiter_wf model_rate amd64_FloatConv ml' /\
    @charged model_rate (tpsLimiter demo_limiter) (tpsLimiter ml') 3 /\
    @charged model_rate (bytesLimiter demo_limiter) (bytesLimiter ml') 5 /\
    @charged model_rate (gasLimiter demo_limiter) (gasLimiter ml') 5.
Proof.
  apply (@WaitForAll_totals model_rate model_rate_laws amd64_FloatConv);
    [exact demo_limiter_wf|reflexivity|].
  repeat constructor; vm_compute; congruence.
Defined.

Lemma limiter_guards_witness :
  (is_Ok (@NewLimiter model_rate f64_zero 5) = false) /\
  (is_Ok (@NewLimiter model_rate (f64_of_Z 2) 5) = true).
Proof.
  split.
  - refine (eq_trans (proj1 (@limiter_guards model_rate model_rate_laws
      (@rate_NewLimiter model_rate f64_zero 5) f64_zero 5 0 0 {| ctx_live := true |})) _).
    reflexivity.
  - refine (eq_trans (proj1 (@limiter_guards model_rate model_rate_laws
      (@rate_NewLimiter model_rate f64_zero 5) (f64_of_Z 2) 5 0 0 {| ctx_live := true |})) _).
    reflexivity.
Defined.

Lemma burst_sizes_in_range_witness :
  is_burst (@GetTpsBurstSize amd64_FloatConv demo_config) /\ GetBytesBurstSize demo_config = 7.
Proof.
  destruct (@burst_sizes_in_range amd64_FloatConv demo_config demo_config_typed)
    as (H1 & _ & _ & H2 & _).
  split; [exact H1|]. apply (H2 ltac:(reflexivity)).
Defined.

Lemma Validate_exact_witness :
  Validate {| TxPerSecond := f64_of_Z (-1); BytesPerSecond := 1; GasPerSecond := 0;
              Burst := {| Size := 0 |} |} = Some ErrTxPerSecondMustBePositive.
Proof.
  rewrite Validate_exact; [reflexivity|]. unfold Config_typed; simpl. repeat split; width.
Defined.
