(* ===== verification/Chain.v ===== *)
(** * Package chain: accounts and the node client

    Keys and accounts (key.go, types.go) and [Client] (client.go): building and
    signing a transaction, [Broadcast] with its retry loop and its polling loop,
    and the recognition of sequence errors in a node's answer.

    What the node answers is an argument: one value per [BroadcastTxSync]
    attempt and one event per turn of the polling loop, in the order they
    happen; a call that has not returned after the given answers is [None]. *)

From Stdlib Require Import ZArith Lia Ascii String.
From stdpp Require Import base list strings numbers.
From S2P Require Import Prelude GoStrings Float64 Sdk SdkModel.

Open Scope string_scope.
Open Scope Z_scope.
Open Scope list_scope.

(** ** key.go, types.go *)

Abbreviation Secp256k1PrivateKey := bytes.

Record Account := {
  Name : string;
  Key : Secp256k1PrivateKey;
  Number : Z;
  acc_Sequence : Z
}.

Section Keys.
Context `{Crypto}.

Definition Address (key : Secp256k1PrivateKey) : bytes := pubKey_Address (privKey_PubKey key).

Definition AccAddress (key : Secp256k1PrivateKey) : string := bech32_AccAddress (Address key).

(** [ethcmn.BytesToAddress]: the last 20 bytes, padded with zeros on the left. *)
Definition EthAddress (BytesToAddress : bytes -> bytes) (a : Account) : bytes :=
  BytesToAddress (pubKey_Address (privKey_PubKey (Key a))).

End Keys.

(** ** client.go: building and signing *)

(** chain.Tx *)
Record chain_Tx := {
  tx_Msgs : list Msg;
  tx_Fee : Coins;
  tx_GasLimit : Z;
  tx_Memo : string
}.

Section Signing.
Context `{TxConfig, Crypto}.

(** The part of [Client] that signing reads. *)
Record Client := { ChainID : string }.

Definition signTx (clientCtx : Client) (signerKey : Secp256k1PrivateKey) (accNum accSeq : Z)
    (txBuilder : Builder) : go sdkTx :=
  let signerData :=
    {| sd_ChainID := ChainID clientCtx; sd_AccountNumber := accNum; sd_Sequence := accSeq |} in
  let sig data :=
    {| PubKey := privKey_PubKey signerKey; SigData := data; Sequence := accSeq |} in
  let! b1 := go_wrap "failed to set Tx signatures" (SetSignatures txBuilder [sig None]) in
  let! bytesToSign := orPanic (GetSignBytes signerData (GetTx b1)) in
  let! sigBytes := go_wrap "failed to sign Tx" (privKey_Sign signerKey bytesToSign) in
  let! b2 := go_wrap "failed to set Tx signatures" (SetSignatures b1 [sig (Some sigBytes)]) in
  Ok (GetTx b2).

Definition buildAndSignTx (clientCtx : Client) (signerKey : Secp256k1PrivateKey)
    (accNum accSeq : Z) (fee : Coins) (gasLimit : Z) (memo : string) (msgs : list Msg)
    : go sdkTx :=
  let b := SetFeeAmount (SetGasLimit NewTxBuilder gasLimit) fee in
  let b := if decide (memo = "") then b else SetMemo b memo in
  let! b := go_wrap "failed to set Tx messages" (SetMsgs b msgs) in
  signTx clientCtx signerKey accNum accSeq b.

Definition Client_BuildAndSignTx (c : Client) (signerAccount : Account) (tx : chain_Tx) : go sdkTx :=
  buildAndSignTx c (Key signerAccount) (Number signerAccount) (acc_Sequence signerAccount)
    (tx_Fee tx) (tx_GasLimit tx) (tx_Memo tx) (tx_Msgs tx).

Definition Client_Encode (signedTx : sdkTx) : go bytes := orPanic (TxEncoder signedTx).

End Signing.

(** ** client.go: sequence errors *)

(** A registered SDK error: its codespace and ABCI code. *)
Record SdkError := { Codespace : string; ABCICode : Z }.

(** cosmoserrors *)
Class SdkErrors := {
  ErrWrongSequence : SdkError;
  ErrInvalidSequence : SdkError;
  ErrTxInMempoolCache : SdkError;
  ErrMempoolIsFull : SdkError
}.

Fixpoint span_digits (s : string) : string * string :=
  match s with
  | EmptyString => ("", "")
  | String c s' =>
      if is_digit c then let '(d, r) := span_digits s' in (String c d, r) else ("", s)
  end.

(** A match at the start of [s] of the pattern "l1, digits, l2, digits", with
    the two digit groups.  [l2] starts with no digit, so the first [\d+] can
    only match all the digits that follow [l1]. *)
Definition match_two (l1 l2 s : string) : option (string * string) :=
  if strings_HasPrefix s l1 then
    let '(d1, s1) := span_digits (string_drop (String.length l1) s) in
    if decide (d1 = "") then None
    else if strings_HasPrefix s1 l2 then
      let d2 := (span_digits (string_drop (String.length l2) s1)).1 in
      if decide (d2 = "") then None else Some (d1, d2)
    else None
  else None.

(** The leftmost match. *)
Fixpoint find_two (l1 l2 s : string) : option (string * string) :=
  match match_two l1 l2 s with
  | Some r => Some r
  | None => match s with EmptyString => None | String _ s' => find_two l1 l2 s' end
  end.

(** [`account sequence mismatch, expected (\d+), got \d+`] *)
Definition expectedSequenceRegExp (log : string) : option string :=
  fst <$> find_two "account sequence mismatch, expected " ", got " log.

(** [`invalid nonce; got \d+, expected (\d+)`] *)
Definition expectedNonceRegExp (log : string) : option string :=
  snd <$> find_two "invalid nonce; got " ", expected " log.

Definition isSDKErrorResult (codespace : string) (code : Z) (sdkErr : SdkError) : bool :=
  bool_decide (codespace = Codespace sdkErr) && (code =? ABCICode sdkErr).

Section Sequences.
Context `{SdkErrors}.

Definition checkSequence (codespace : string) (code : Z) (log : string) : option error :=
  if negb (isSDKErrorResult codespace code ErrWrongSequence) then None
  else match expectedSequenceRegExp log with
  | None => Some (ENew ("cosmos sdk hasn't returned expected sequence number, log mesage received: "
                        +:+ log))
  | Some digits =>
      match strconv_ParseUint digits with
      | Ok n => Some (EStack (ESequence n log))
      | Err e => Some (EWrap ("can't parse expected sequence number, log mesage received: " +:+ log) e)
      | Panic _ => None
      end
  end.

Definition checkNonce (codespace : string) (code : Z) (log : string) : option error :=
  if negb (isSDKErrorResult codespace code ErrInvalidSequence) then None
  else match expectedNonceRegExp log with
  | None => Some (ENew ("cosmos sdk hasn't returned expected nonce number, log mesage received: "
                        +:+ log))
  | Some digits =>
      match strconv_ParseUint digits with
      | Ok n => Some (EStack (ESequence n log))
      | Err e => Some (EWrap ("can't parse expected nonce number, log mesage received: " +:+ log) e)
      | Panic _ => None
      end
  end.

Definition IsSequenceError (err : error) : Z * bool :=
  match errors_As_sequence err with
  | Some (n, _) => (n, true)
  | None => (0, false)
  end.

Definition IsMempoolFullError (err : option error) : bool :=
  match err with
  | None => false
  | Some e => strings_Contains (Error e) "mempool is full"
  end.

(** ** client.go: Broadcast *)

(** sdk.TxResponse *)
Record TxResponse := {
  TxHash : string;
  res_Codespace : string;
  res_Code : Z;
  RawLog : string
}.

Definition isTxInMempool (errRes : option TxResponse) : bool :=
  match errRes with
  | None => false
  | Some r => bool_decide (res_Codespace r = Codespace ErrTxInMempoolCache) &&
              (res_Code r =? ABCICode ErrTxInMempoolCache)
  end.

Definition isMempoolFull (errRes : option TxResponse) : bool :=
  match errRes with
  | None => false
  | Some r => bool_decide (res_Codespace r = Codespace ErrMempoolIsFull) &&
              (res_Code r =? ABCICode ErrMempoolIsFull)
  end.

Definition errRetry : error := ENew "retry required".

(** What one [BroadcastTxSync] gives: an error, with what
    [client.CheckCometError] makes of it, or a result. *)
Inductive SyncResult :=
| SyncErr (err : error) (errRes : option TxResponse)
| SyncRes (hash : string) (code : Z) (codespace log : string).

(** The error of a non-zero result code. *)
Definition node_error (hash : string) (code : Z) (codespace log : string) : error :=
  ENew ("node returned non-zero code for tx '" +:+ hash +:+ "' (code: " +:+ strconv_Itoa code
        +:+ ", codespace: " +:+ codespace +:+ "): " +:+ log).

Definition code_error (hash : string) (code : Z) (codespace log : string) : error :=
  match checkSequence codespace code log with
  | Some e => e
  | None =>
      match checkNonce codespace code log with
      | Some e => e
      | None => node_error hash code codespace log
      end
  end.

(** The function under [retry.Do]; its variable is [txHash]. *)
Definition broadcast_attempt (txHash : string) (r : SyncResult) : string * option error :=
  match r with
  | SyncErr err errRes =>
      if isMempoolFull errRes then (txHash, Some errRetry)
      else if negb (isTxInMempool errRes) then (txHash, Some (EUnrecoverable (EStack err)))
      else (match errRes with Some res => TxHash res | None => txHash end, None)
  | SyncRes hash code codespace log =>
      if negb (code =? 0)
      then (hash, Some (EUnrecoverable (code_error hash code codespace log)))
      else (hash, None)
  end.

(** One turn of the polling loop: the confirmation timeout, or a [Tx] query
    that fails (with what CheckCometError makes of it) or gives a result. *)
Inductive PollEvent :=
| PollTimeout
| PollErr (errRes : option TxResponse)
| PollRes (code : Z) (codespace log : string) (height : Z).

Fixpoint await_loop (txHash : string) (events : list PollEvent) : option (string * option error) :=
  match events with
  | [] => None
  | PollTimeout :: _ =>
      Some (txHash, Some (ENew ("transaction timed out while await until included in the block "
                                +:+ txHash)))
  | PollErr (Some errRes) :: _ =>
      Some ("", Some (ENew ("got tendermint error: " +:+ RawLog errRes)))
  | PollErr None :: rest => await_loop txHash rest
  | PollRes code codespace log height :: rest =>
      if negb (code =? 0) then
        match checkSequence codespace code log with
        | Some e => Some ("", Some e)
        | None =>
            match checkNonce codespace code log with
            | Some e => Some ("", Some e)
            | None => Some (txHash, Some (node_error txHash code codespace log))
            end
        end
      else if 0 <? height then Some (txHash, None)
      else await_loop txHash rest
  end.

Context `{RetryLib}.

(** [sync] gives the node's answers to the broadcast of these bytes, [poll] the
    turns of the polling loop for this transaction hash. *)
Definition Broadcast (sync : bytes -> list SyncResult) (poll : bytes -> list PollEvent)
    (encodedTx : bytes) (await : bool) : option (string * option error) :=
  match retry_UntilSucceeded broadcast_attempt "" (sync encodedTx) with
  | None => None
  | Some (txHash, Some finalError) => Some (txHash, Some finalError)
  | Some (txHash, None) =>
      match hex_DecodeString txHash with
      | Ok txHashBytes =>
          if negb await then Some (txHash, None) else await_loop txHash (poll txHashBytes)
      | Err e => Some ("", Some (EWrap "failed to decode tx hash as hex" e))
      | Panic _ => None
      end
  end.

End Sequences.

(** ** Parsing the expected sequence out of a log *)

Lemma span_digits_app d s :
  all_digits d = true -> (span_digits s).1 = "" -> span_digits (d +:+ s) = (d, s).
Proof.
  induction d as [|c d IH]; intros Hd Hs.
  - simpl. destruct s as [|c s]; [done|]. simpl in *. destruct (is_digit c); [|done].
    by destruct (span_digits s).
  - simpl in *. bool_facts. rewrite H. by rewrite IH.
Qed.

Lemma match_two_intro l1 l2 d1 d2 post :
  all_digits d1 = true -> d1 <> "" -> (span_digits l2).1 = "" -> l2 <> "" ->
  all_digits d2 = true -> d2 <> "" -> (span_digits post).1 = "" ->
  match_two l1 l2 (l1 +:+ d1 +:+ l2 +:+ d2 +:+ post) = Some (d1, d2).
Proof.
  intros H1 N1 Hl Nl H2 N2 Hp. unfold match_two, strings_HasPrefix.
  rewrite prefix_append, string_drop_append, span_digits_app; [|done|].
  2: { destruct l2 as [|c l2]; [done|]. simpl in *. destruct (is_digit c); [|done].
       by destruct (span_digits l2). }
  rewrite decide_False by done. rewrite prefix_append, string_drop_append.
  rewrite span_digits_app by done. by rewrite decide_False.
Qed.

(** Nothing before position [pre] starts the pattern's first literal. *)
Definition no_earlier (l1 pre log : string) : Prop :=
  forall k, (k < String.length pre)%nat -> strings_HasPrefix (string_drop k log) l1 = false.

Lemma find_two_skip l1 l2 pre s r :
  no_earlier l1 pre (pre +:+ s) -> match_two l1 l2 s = Some r ->
  find_two l1 l2 (pre +:+ s) = Some r.
Proof.
  induction pre as [|c pre IH]; intros Hn Hm.
  - simpl. destruct s; cbn [find_two]; by rewrite Hm.
  - cbn [String.append find_two]. unfold match_two at 1.
    assert (strings_HasPrefix (String c (pre +:+ s)) l1 = false) as ->
      by (apply (Hn 0%nat); simpl; lia).
    apply IH; [|done].
    intros k Hk. apply (Hn (S k)). simpl. lia.
Qed.

Lemma itoa_nonempty n : itoa_nonneg n <> "".
Proof. destruct (itoa_nonneg_cons n) as (c & s & ->). done. Qed.

Lemma checkSequence_found `{SdkErrors} pre n m post :
  let log := pre +:+ "account sequence mismatch, expected " +:+ itoa_nonneg n +:+ ", got "
             +:+ itoa_nonneg m +:+ post in
  is_u64 n -> 0 <= m -> (span_digits post).1 = "" ->
  no_earlier "account sequence mismatch, expected " pre log ->
  checkSequence (Codespace ErrWrongSequence) (ABCICode ErrWrongSequence) log
  = Some (EStack (ESequence n log)).
Proof.
  intros log [Hn Hn'] Hm Hp Hpre. subst log. unfold checkSequence, isSDKErrorResult.
  rewrite bool_decide_true, Z.eqb_refl by done. cbn [negb andb].
  unfold expectedSequenceRegExp.
  erewrite find_two_skip; [|done|apply match_two_intro; auto using itoa_nonempty, itoa_nonneg_digits].
  cbn [fmap option_fmap option_map fst]. by rewrite ParseUint_itoa.
Qed.

Lemma checkNonce_found `{SdkErrors} pre n m post :
  let log := pre +:+ "invalid nonce; got " +:+ itoa_nonneg m +:+ ", expected "
             +:+ itoa_nonneg n +:+ post in
  is_u64 n -> 0 <= m -> (span_digits post).1 = "" ->
  no_earlier "invalid nonce; got " pre log ->
  checkNonce (Codespace ErrInvalidSequence) (ABCICode ErrInvalidSequence) log
  = Some (EStack (ESequence n log)).
Proof.
  intros log [Hn Hn'] Hm Hp Hpre. subst log. unfold checkNonce, isSDKErrorResult.
  rewrite bool_decide_true, Z.eqb_refl by done. cbn [negb andb].
  unfold expectedNonceRegExp.
  erewrite find_two_skip; [|done|apply match_two_intro; auto using itoa_nonempty, itoa_nonneg_digits].
  cbn [fmap option_fmap option_map snd]. by rewrite ParseUint_itoa.
Qed.

(** What a sequence error found in a node's answer means. *)
Definition reports_sequence `{SdkErrors} (codespace : string) (code : Z) (log : string) (n : Z)
    : Prop :=
  (isSDKErrorResult codespace code ErrWrongSequence = true /\
     exists d, expectedSequenceRegExp log = Some d /\ strconv_ParseUint d = Ok n) \/
  (isSDKErrorResult codespace code ErrInvalidSequence = true /\
     exists d, expectedNonceRegExp log = Some d /\ strconv_ParseUint d = Ok n).

Lemma ParseUint_not_sequence d e : strconv_ParseUint d = Err e -> errors_As_sequence e = None.
Proof.
  assert (forall s n e, parse_digits s n = Err e -> errors_As_sequence e = None) as Hp.
  { clear. induction s as [|c s IH]; intros n e; simpl; [done|].
    destruct (is_digit c); [|by intros [= <-]].
    destruct (2 ^ 64 <=? _); [by intros [= <-]|]. apply IH. }
  destruct d; [by intros [= <-]|apply Hp].
Qed.

Lemma checkSequence_sound `{SdkErrors} codespace code log e n msg :
  checkSequence codespace code log = Some e -> errors_As_sequence e = Some (n, msg) ->
  reports_sequence codespace code log n.
Proof.
  unfold checkSequence. intros Hc He. left.
  destruct (isSDKErrorResult codespace code ErrWrongSequence); [|done]. split; [done|].
  simpl in Hc. destruct (expectedSequenceRegExp log) as [d|]; [|by simplify_eq].
  destruct (strconv_ParseUint d) eqn:E; simplify_eq/=; [eauto|].
  by rewrite (ParseUint_not_sequence _ _ E) in He.
Qed.

Lemma checkNonce_sound `{SdkErrors} codespace code log e n msg :
  checkNonce codespace code log = Some e -> errors_As_sequence e = Some (n, msg) ->
  reports_sequence codespace code log n.
Proof.
  unfold checkNonce. intros Hc He. right.
  destruct (isSDKErrorResult codespace code ErrInvalidSequence); [|done]. split; [done|].
  simpl in Hc. destruct (expectedNonceRegExp log) as [d|]; [|by simplify_eq].
  destruct (strconv_ParseUint d) eqn:E; simplify_eq/=; [eauto|].
  by rewrite (ParseUint_not_sequence _ _ E) in He.
Qed.

Lemma code_error_sound `{SdkErrors} hash code codespace log n msg :
  errors_As_sequence (code_error hash code codespace log) = Some (n, msg) ->
  reports_sequence codespace code log n.
Proof.
  unfold code_error. destruct (checkSequence codespace code log) eqn:E1.
  - intros. by eapply checkSequence_sound.
  - destruct (checkNonce codespace code log) eqn:E2; [|done]. intros. by eapply checkNonce_sound.
Qed.

(** ** The two loops of Broadcast *)

Section BroadcastProofs.
Context `{SE : SdkErrors, RT : RetryLib, RTL : !RetryLaws}.

(** A transport error that says the mempool is full: the attempt is repeated. *)
Definition mempool_full (r : SyncResult) : Prop :=
  match r with SyncErr _ errRes => isMempoolFull errRes = true | _ => False end.

(** The node has the transaction, under this hash. *)
Definition accepted (r : SyncResult) (hash : string) : Prop :=
  match r with
  | SyncErr _ errRes =>
      isMempoolFull errRes = false /\ isTxInMempool errRes = true /\
      exists res, errRes = Some res /\ TxHash res = hash
  | SyncRes h code _ _ => code = 0 /\ h = hash
  end.

Definition pending (e : PollEvent) : Prop :=
  match e with
  | PollErr None => True
  | PollRes code _ _ height => code = 0 /\ height <= 0
  | _ => False
  end.

Definition included (e : PollEvent) : Prop :=
  match e with PollRes code _ _ height => code = 0 /\ 0 < height | _ => False end.

Lemma attempt_full h r : mempool_full r -> broadcast_attempt h r = (h, Some errRetry).
Proof. destruct r as [err errRes|]; simpl; [intros ->|]; done. Qed.

Lemma attempt_accepted h r hash : broadcast_attempt h r = (hash, None) <-> accepted r hash.
Proof.
  destruct r as [err errRes|h' code cs log]; simpl.
  - destruct (isMempoolFull errRes), (isTxInMempool errRes) eqn:E; simpl; try naive_solver.
    destruct errRes as [res|]; [|done]. naive_solver.
  - destruct (code =? 0) eqn:E; bool_facts; simpl; naive_solver.
Qed.

Lemma attempt_recoverable h h' r e :
  broadcast_attempt h r = (h', Some e) -> IsRecoverable e = true -> mempool_full r /\ h' = h.
Proof.
  rewrite IsRecoverable_Is. destruct r as [err errRes|h1 code cs log]; simpl.
  - destruct (isMempoolFull errRes); [naive_solver|].
    destruct (isTxInMempool errRes); simpl; [done|]. intros; by simplify_eq.
  - destruct (code =? 0); simpl; intros; by simplify_eq.
Qed.

(** The retry loop passes over exactly the answers that report a full mempool. *)
Lemma until_skip_full full h rest :
  Forall mempool_full full ->
  retry_UntilSucceeded broadcast_attempt h (full ++ rest)
  = retry_UntilSucceeded broadcast_attempt h rest.
Proof.
  induction 1 as [|r full Hr _ IH]; [done|]. cbn [app]. rewrite Until_cons, attempt_full, IsRecoverable_Is by done.
  exact IH.
Qed.

Lemma until_decided h answers h' oe :
  retry_UntilSucceeded broadcast_attempt h answers = Some (h', oe) ->
  exists full r rest, answers = full ++ r :: rest /\ Forall mempool_full full /\
    broadcast_attempt h r = (h', oe) /\
    match oe with None => True | Some e => IsRecoverable e = false end.
Proof.
  revert h. induction answers as [|r answers IH]; intros h; [by rewrite Until_nil|].
  rewrite Until_cons. destruct (broadcast_attempt h r) as [h1 [e|]] eqn:E.
  - destruct (IsRecoverable e) eqn:Er; [|intros; simplify_eq; by exists [], r, answers].
    intros Hu. destruct (attempt_recoverable _ _ _ _ E Er) as [Hf ->].
    destruct (IH _ Hu) as (full & r' & rest & -> & Hfull & ? & ?).
    exists (r :: full), r', rest. split_and!; try done. by constructor.
  - intros; simplify_eq. by exists [], r, answers.
Qed.

Lemma await_success h events h' :
  await_loop h events = Some (h', None) <->
  h' = h /\ exists pend e rest, events = pend ++ e :: rest /\ Forall pending pend /\ included e.
Proof.
  split.
  - induction events as [|e events IH]; [done|]. destruct e as [|[|]|code cs log height]; simpl; try done.
    + intros (-> & pend & e & rest & -> & ? & ?)%IH. split; [done|].
      exists (PollErr None :: pend), e, rest. split_and!; [done| |done]. by constructor.
    + destruct (code =? 0) eqn:Ec; simpl; bool_facts; [|by repeat case_match].
      destruct (0 <? height) eqn:Eh; bool_facts.
      * intros. simplify_eq. split; [done|].
        exists [], (PollRes 0 cs log height), events. done.
      * intros (-> & pend & e & rest & -> & ? & ?)%IH. split; [done|].
        exists (PollRes code cs log height :: pend), e, rest. split_and!; [done| |done]. by constructor.
  - intros (-> & pend & e & rest & -> & Hp & Hi). induction Hp as [|p pend Hp _ IH]; simpl.
    + destruct e as [| |code cs log height]; try done. destruct Hi as [-> Hh%Z.ltb_lt].
      simpl. by rewrite Hh.
    + destruct p as [|[|]|code cs log height]; try done. destruct Hp as [-> Hh%Z.ltb_ge].
      simpl. by rewrite Hh.
Qed.

(** ** Properties *)

Lemma Broadcast_success sync poll tx await h :
  Broadcast sync poll tx await = Some (h, None) <->
  exists full r rest hb, sync tx = full ++ r :: rest /\ Forall mempool_full full /\ accepted r h /\
    hex_DecodeString h = Ok hb /\
    (await = true ->
       exists pend e more, poll hb = pend ++ e :: more /\ Forall pending pend /\ included e).
Proof.
  unfold Broadcast. split.
  - destruct (retry_UntilSucceeded _ _ _) as [[h' [e|]]|] eqn:Eu; try done.
    destruct (until_decided _ _ _ _ Eu) as (full & r & rest & -> & Hf & Ha & _).
    apply attempt_accepted in Ha. destruct (hex_DecodeString h') as [hb| |] eqn:Eh; try done.
    destruct await; simpl.
    + intros (-> & Hp)%await_success. exists full, r, rest, hb. naive_solver.
    + intros; simplify_eq. exists full, r, rest, hb. naive_solver.
  - intros (full & r & rest & hb & -> & Hf & Ha & Hx & Hw). rewrite until_skip_full by done.
    apply (attempt_accepted "") in Ha. rewrite Until_cons, Ha, Hx.
    destruct await; simpl; [|done]. apply await_success. auto.
Qed.

(** C14. [Broadcast] succeeds exactly when, after any number of answers that
    report a full mempool, the node answers that it has the transaction (a zero
    code, or the transaction already being in the mempool cache) under a hash
    that is hexadecimal, and, when the inclusion is awaited, the polling loop
    sees the transaction at a positive height with a zero code after turns that
    do not know it yet; the returned hash is that of the deciding answer. *)
Theorem Broadcast_success_iff sync poll tx await h :
  Broadcast sync poll tx await = Some (h, None) <->
  exists full r rest hb, sync tx = full ++ r :: rest /\ Forall mempool_full full /\ accepted r h /\
    hex_DecodeString h = Ok hb /\
    (await = true ->
       exists pend e more, poll hb = pend ++ e :: more /\ Forall pending pend /\ included e).
Proof. apply Broadcast_success. Qed.

Lemma Broadcast_complaint sync poll tx await full hash code codespace log rest pre n m post :
  sync tx = full ++ SyncRes hash code codespace log :: rest ->
  Forall mempool_full full -> code <> 0 ->
  is_u64 n -> 0 <= m -> (span_digits post).1 = "" ->
  (codespace = Codespace ErrWrongSequence /\ code = ABCICode ErrWrongSequence /\
   log = pre +:+ "account sequence mismatch, expected " +:+ itoa_nonneg n +:+ ", got "
         +:+ itoa_nonneg m +:+ post /\
   no_earlier "account sequence mismatch, expected " pre log) \/
  (codespace = Codespace ErrInvalidSequence /\ code = ABCICode ErrInvalidSequence /\
   isSDKErrorResult codespace code ErrWrongSequence = false /\
   log = pre +:+ "invalid nonce; got " +:+ itoa_nonneg m +:+ ", expected "
         +:+ itoa_nonneg n +:+ post /\
   no_earlier "invalid nonce; got " pre log) ->
  exists e, Broadcast sync poll tx await = Some (hash, Some e) /\ IsSequenceError e = (n, true).
Proof.
  intros Hs Hf Hc Hn Hm Hp Hlog. unfold Broadcast. rewrite Hs, until_skip_full, Until_cons by done.
  simpl. rewrite (proj2 (Z.eqb_neq code 0)) by done. simpl. rewrite IsRecoverable_Is.
  eexists; split; [done|]. unfold IsSequenceError. simpl. unfold code_error.
  destruct Hlog as [(-> & -> & -> & Hno)|(-> & -> & Hw & -> & Hno)].
  - by rewrite checkSequence_found.
  - unfold checkSequence. rewrite Hw. cbn [negb]. by rewrite checkNonce_found.
Qed.

(** C16. A node's complaint about the account sequence comes back as that very
    sequence: when the deciding answer has the SDK's wrong-sequence (or, for an
    EVM transaction, invalid-sequence) code and its log has the usual message
    with the expected number [n], wherever in the log, [Broadcast] fails with an
    error from which [IsSequenceError] reads [n]. *)
Theorem Broadcast_reports_sequence sync poll tx await full hash code codespace log rest pre n m post :
  sync tx = full ++ SyncRes hash code codespace log :: rest ->
  Forall mempool_full full -> code <> 0 ->
  is_u64 n -> 0 <= m -> (span_digits post).1 = "" ->
  (codespace = Codespace ErrWrongSequence /\ code = ABCICode ErrWrongSequence /\
   log = pre +:+ "account sequence mismatch, expected " +:+ itoa_nonneg n +:+ ", got "
         +:+ itoa_nonneg m +:+ post /\
   no_earlier "account sequence mismatch, expected " pre log) \/
  (codespace = Codespace ErrInvalidSequence /\ code = ABCICode ErrInvalidSequence /\
   isSDKErrorResult codespace code ErrWrongSequence = false /\
   log = pre +:+ "invalid nonce; got " +:+ itoa_nonneg m +:+ ", expected "
         +:+ itoa_nonneg n +:+ post /\
   no_earlier "invalid nonce; got " pre log) ->
  exists e, Broadcast sync poll tx await = Some (hash, Some e) /\ IsSequenceError e = (n, true).
Proof. apply Broadcast_complaint. Qed.

(** The error values a node can cause to be recognised. *)
Definition sync_reports (r : SyncResult) (n : Z) : Prop :=
  match r with
  | SyncRes _ code codespace log => code <> 0 /\ reports_sequence codespace code log n
  | SyncErr _ _ => False
  end.

Definition poll_reports (e : PollEvent) (n : Z) : Prop :=
  match e with
  | PollRes code codespace log _ => code <> 0 /\ reports_sequence codespace code log n
  | _ => False
  end.

(** The errors of the RPC transport are never the package's own sequence error. *)
Definition transport_ok (r : SyncResult) : Prop :=
  match r with SyncErr err _ => errors_As_sequence err = None | _ => True end.

Lemma hex_error_not_sequence s e : hex_DecodeString s = Err e -> errors_As_sequence e = None.
Proof.
  induction s as [s IH] using (induction_ltof1 _ String.length); unfold ltof in IH.
  destruct s as [|c1 [|c2 s]]; simpl; [done| |].
  - destruct (hex_value c1); by intros [= <-].
  - destruct (hex_value c1), (hex_value c2); try by intros [= <-].
    destruct (hex_DecodeString s) eqn:E; try done. intros [= <-].
    eapply IH; [|done]. simpl. lia.
Qed.

Lemma await_reports h events h' e n msg :
  await_loop h events = Some (h', Some e) -> errors_As_sequence e = Some (n, msg) ->
  Exists (fun ev => poll_reports ev n) events.
Proof.
  induction events as [|ev events IH]; [done|].
  destruct ev as [|[|]|code cs log height]; simpl; try (intros; by simplify_eq).
  - intros. apply Exists_cons_tl. auto.
  - destruct (code =? 0) eqn:Ec; simpl; bool_facts.
    + destruct (0 <? height); [done|]. intros. apply Exists_cons_tl. auto.
    + intros H1 H2. apply Exists_cons_hd. simpl. split; [done|].
      destruct (checkSequence cs code log) eqn:E1; simplify_eq; [by eapply checkSequence_sound|].
      destruct (checkNonce cs code log) eqn:E2; simplify_eq; by eapply checkNonce_sound.
Qed.

(** No spurious resynchronisation: when an error of [Broadcast] is
    recognised as a sequence error with expected number [n], the node really
    reported it, in an answer to the broadcast or in the included
    transaction's result, with the SDK's code for it and [n] in the log. *)
Theorem Broadcast_sequence_sound sync poll tx await h e n :
  Forall transport_ok (sync tx) ->
  Broadcast sync poll tx await = Some (h, Some e) -> IsSequenceError e = (n, true) ->
  Exists (fun r => sync_reports r n) (sync tx) \/
  exists hb, Exists (fun ev => poll_reports ev n) (poll hb).
Proof.
  intros Ht Hb He. unfold IsSequenceError in He.
  destruct (errors_As_sequence e) as [[n' msg]|] eqn:Ea; simplify_eq. unfold Broadcast in Hb.
  destruct (retry_UntilSucceeded _ _ _) as [[h' [e'|]]|] eqn:Eu; try done.
  - left. destruct (until_decided _ _ _ _ Eu) as (full & r & rest & Es & Hf & Ha & _).
    simplify_eq. rewrite Es in *. apply Exists_app. right. apply Exists_cons_hd.
    apply Forall_app in Ht as [_ Ht]. pose proof (Forall_inv Ht) as Hr.
    destruct r as [err errRes|h1 code cs log]; simpl in *.
    + destruct (isMempoolFull errRes), (isTxInMempool errRes); simpl in Ha; simplify_eq/=; congruence.
    + destruct (code =? 0) eqn:Ec; simpl in Ha; simplify_eq. bool_facts.
      split; [done|]. simpl in Ea. by eapply code_error_sound.
  - right. destruct (hex_DecodeString h') as [hb| |] eqn:Eh; simplify_eq/=.
    + exists hb. destruct await; simpl in Hb; [|done]. by eapply await_reports.
    + by rewrite (hex_error_not_sequence _ _ Eh) in Ea.
Qed.

(** An error is final: whatever the node would answer later, an answer
    that neither reports a full mempool nor accepts the transaction ends the
    retry loop with an error, and while every answer so far reports a full
    mempool the call has not returned. *)
Theorem Broadcast_error_paths sync poll tx await full r rest :
  sync tx = full ++ r :: rest -> Forall mempool_full full -> ~ mempool_full r ->
  (forall h, ~ accepted r h) ->
  (exists h e, Broadcast sync poll tx await = Some (h, Some e)) /\
  Broadcast (fun _ => full) poll tx await = None.
Proof.
  intros Hs Hf Hr Ha. unfold Broadcast. rewrite Hs, until_skip_full, Until_cons by done. split.
  - destruct (broadcast_attempt "" r) as [h [e|]] eqn:E; [|by apply attempt_accepted, Ha in E].
    destruct (IsRecoverable e) eqn:Er; [|eauto].
    by destruct (attempt_recoverable _ _ _ _ E Er).
  - rewrite <- (app_nil_r full), until_skip_full, Until_nil by done. done.
Qed.

End BroadcastProofs.

(** ** Signing *)

Section SigningProofs.
Context `{TC : TxConfig, TL : !TxConfigLaws, CR : Crypto}.

Lemma signTx_contents c key num seq b stx :
  signTx c key num seq b = Ok stx ->
  exists sb sig b2,
    GetSignBytes {| sd_ChainID := ChainID c; sd_AccountNumber := num; sd_Sequence := seq |}
      (with_signatures [{| PubKey := privKey_PubKey key; SigData := None; Sequence := seq |}] (GetTx b))
      = Ok sb /\
    privKey_Sign key sb = Ok sig /\ stx = GetTx b2 /\
    stx = with_signatures [{| PubKey := privKey_PubKey key; SigData := Some sig; Sequence := seq |}]
            (GetTx b).
Proof.
  unfold signTx. intros (b1 & Hb1%go_wrap_Ok & H)%go_bind_Ok.
  apply go_bind_Ok in H as (sb & Hsb & H). apply go_bind_Ok in H as (sig & Hsig%go_wrap_Ok & H).
  apply go_bind_Ok in H as (b2 & Hb2%go_wrap_Ok & [= <-]).
  exists sb, sig, b2. rewrite (SetSignatures_tx _ _ _ Hb2), (SetSignatures_tx _ _ _ Hb1) in *.
  split_and!; try done. by destruct (GetSignBytes _ _).
Qed.

(** A signed transaction for a request of [acc]: the messages, memo, gas and fee
    asked for, and one signature of the account over the transaction's own sign
    bytes. *)
Definition properly_signed (c : Client) (acc : Account) (tx : chain_Tx) (stx : sdkTx) : Prop :=
  GetMsgs stx = tx_Msgs tx /\ asMemo stx = Some (tx_Memo tx) /\
  (exists payer, asFeeTx stx = Some {| GetGas := tx_GasLimit tx; GetFee := tx_Fee tx;
                                        FeePayer := payer; FeeGranter := [] |}) /\
  asExtensionOptions stx = Some ([], []) /\
  exists sb sig,
    GetSignBytes {| sd_ChainID := ChainID c; sd_AccountNumber := Number acc;
                    sd_Sequence := acc_Sequence acc |}
      (with_signatures [{| PubKey := privKey_PubKey (Key acc); SigData := None;
                           Sequence := acc_Sequence acc |}] stx) = Ok sb /\
    privKey_Sign (Key acc) sb = Ok sig /\
    asSigVerifiable stx = Some (inl [{| PubKey := privKey_PubKey (Key acc); SigData := Some sig;
                                        Sequence := acc_Sequence acc |}]).

Lemma Client_BuildAndSignTx_properly c acc tx stx :
  Client_BuildAndSignTx c acc tx = Ok stx -> properly_signed c acc tx stx /\ exists b, stx = GetTx b.
Proof.
  unfold Client_BuildAndSignTx, buildAndSignTx. cbv zeta.
  intros (b & Hb%go_wrap_Ok & H)%go_bind_Ok.
  destruct (signTx_contents _ _ _ _ _ _ H) as (sb & sig & b2 & Hsb & Hsig & Hg & Hstx).
  apply SetMsgs_tx in Hb as [payer Hb]. destruct NewTxBuilder_tx as [payer0 Hnew]. split; [|eauto].
  assert (Hm : GetTx (if decide (tx_Memo tx = "")
      then SetFeeAmount (SetGasLimit NewTxBuilder (tx_GasLimit tx)) (tx_Fee tx)
      else SetMemo (SetFeeAmount (SetGasLimit NewTxBuilder (tx_GasLimit tx)) (tx_Fee tx)) (tx_Memo tx))
    = with_memo (tx_Memo tx)
        (with_fee (set_fee (tx_Fee tx)) (with_fee (set_gas (tx_GasLimit tx))
           (with_fee (set_payer payer0) empty_tx)))).
  { case_decide as E; [|rewrite SetMemo_tx]; rewrite SetFeeAmount_tx, SetGasLimit_tx, Hnew;
      [|done]. rewrite E. done. }
  rewrite Hm in Hb. rewrite Hb in *. rewrite Hstx. simpl. split_and!; [done|done|by eexists|done|].
  exists sb, sig. rewrite <- Hsb. done.
Qed.

Lemma Client_BuildAndSignTx_signed c acc tx stx enc :
  Client_BuildAndSignTx c acc tx = Ok stx -> Client_Encode stx = Ok enc ->
  TxDecoder enc = inl stx /\ properly_signed c acc tx stx.
Proof.
  intros [Hp [b ->]]%Client_BuildAndSignTx_properly Henc. split; [|done]. apply Encode_Decode.
  unfold Client_Encode in Henc. by destruct (TxEncoder _).
Qed.

(** A signed transaction carries what was asked for and nothing else: the
    messages, the fee, the gas limit and the memo of the request, and one
    signature, with the signer's key and account sequence, over the sign bytes
    of this very transaction for the client's chain and the account's number and
    sequence; the bytes that are broadcast decode to it. *)
Theorem BuildAndSignTx_contents c acc tx stx enc :
  Client_BuildAndSignTx c acc tx = Ok stx -> Client_Encode stx = Ok enc ->
  TxDecoder enc = inl stx /\
  GetMsgs stx = tx_Msgs tx /\ asMemo stx = Some (tx_Memo tx) /\
  (exists payer, asFeeTx stx = Some {| GetGas := tx_GasLimit tx; GetFee := tx_Fee tx;
                                        FeePayer := payer; FeeGranter := [] |}) /\
  asExtensionOptions stx = Some ([], []) /\
  exists sb sig,
    GetSignBytes {| sd_ChainID := ChainID c; sd_AccountNumber := Number acc;
                    sd_Sequence := acc_Sequence acc |}
      (with_signatures [{| PubKey := privKey_PubKey (Key acc); SigData := None;
                           Sequence := acc_Sequence acc |}] stx) = Ok sb /\
    privKey_Sign (Key acc) sb = Ok sig /\
    asSigVerifiable stx = Some (inl [{| PubKey := privKey_PubKey (Key acc); SigData := Some sig;
                                        Sequence := acc_Sequence acc |}]).
Proof. apply Client_BuildAndSignTx_signed. Qed.

End SigningProofs.

(** ** Witnesses *)

Definition model_errors : SdkErrors := {|
  ErrWrongSequence := {| Codespace := "sdk"; ABCICode := 32 |};
  ErrInvalidSequence := {| Codespace := "sdk"; ABCICode := 3 |};
  ErrTxInMempoolCache := {| Codespace := "sdk"; ABCICode := 19 |};
  ErrMempoolIsFull := {| Codespace := "sdk"; ABCICode := 20 |}
|}.

Definition demo_full : SyncResult :=
  SyncErr (ENew "mempool is full")
    (Some {| TxHash := ""; res_Codespace := "sdk"; res_Code := 20; RawLog := "" |}).

Lemma Broadcast_success_iff_witness :
  @Broadcast model_errors model_retry (fun _ => [demo_full; SyncRes "AB12" 0 "" ""])
    (fun _ => [PollErr None; PollRes 0 "" "" 0; PollRes 0 "" "" 77]) [1; 2] true
  = Some ("AB12", None).
Proof.
  apply (@Broadcast_success_iff model_errors model_retry model_retry_laws).
  exists [demo_full], (SyncRes "AB12" 0 "" ""), [], [171; 18].
  split; [reflexivity|]. split; [repeat constructor|]. split; [split; reflexivity|].
  split; [reflexivity|].
  intros _. exists [PollErr None; PollRes 0 "" "" 0], (PollRes 0 "" "" 77), [].
  split; [reflexivity|]. split; [repeat constructor; simpl; lia|simpl; lia].
Defined.

Definition demo_log : string :=
  "failed: account sequence mismatch, expected 41, got 40: incorrect account sequence".

Lemma Broadcast_reports_sequence_witness :
  exists e, @Broadcast model_errors model_retry (fun _ => [demo_full; SyncRes "AB" 32 "sdk" demo_log])
      (fun _ => []) [] true = Some ("AB", Some e) /\ IsSequenceError e = (41, true).
Proof.
  eapply (@Broadcast_reports_sequence model_errors model_retry model_retry_laws _ _ _ _ [demo_full]
            _ _ _ _ [] "failed: " 41 40 ": incorrect account sequence");
    [reflexivity|repeat constructor|done|width|lia|reflexivity|].
  left. split_and!; try reflexivity. intros k Hk.
  do 8 (destruct k as [|k]; [reflexivity|]). simpl in Hk. lia.
Defined.

Lemma Broadcast_sequence_sound_witness :
  Exists (fun r => @sync_reports model_errors r 41) [SyncRes "AB" 32 "sdk" demo_log] \/
  exists hb : bytes, Exists (fun ev => @poll_reports model_errors ev 41) [].
Proof.
  apply (@Broadcast_sequence_sound model_errors model_retry model_retry_laws
    (fun _ => [SyncRes "AB" 32 "sdk" demo_log]) (fun _ => []) [] true "AB"
    (EUnrecoverable (EStack (ESequence 41 demo_log))) 41);
    [repeat constructor|vm_compute; reflexivity|reflexivity].
Defined.

Lemma Broadcast_error_paths_witness :
  (exists h e, @Broadcast model_errors model_retry (fun _ => [demo_full; SyncRes "AB" 5 "sdk" "no"])
      (fun _ => []) [] false = Some (h, Some e)) /\
  @Broadcast model_errors model_retry (fun _ => [demo_full]) (fun _ => []) [] false = None.
Proof.
  apply (@Broadcast_error_paths model_errors model_retry model_retry_laws
    (fun _ => [demo_full; SyncRes "AB" 5 "sdk" "no"]) _ _ _ [demo_full] (SyncRes "AB" 5 "sdk" "no") []);
    [reflexivity|repeat constructor|by intros []|intros h [? ?]; done].
Defined.

Definition demo_account : Account :=
  {| Name := "sender-0"; Key := [7]; Number := 3; acc_Sequence := 41 |}.

Definition demo_tx : chain_Tx :=
  {| tx_Msgs := [MsgSend [1] [2] []]; tx_Fee := [{| Denom := "inj"; Amount := 150000 |}];
     tx_GasLimit := 150000; tx_Memo := "" |}.

Definition demo_signed : sdkTx :=
  match @Client_BuildAndSignTx model_txconfig model_crypto {| ChainID := "c" |} demo_account demo_tx with
  | Ok t => t
  | _ => empty_tx
  end.

Lemma BuildAndSignTx_contents_witness :
  exists enc, @TxDecoder model_txconfig enc = inl demo_signed /\ GetMsgs demo_signed = tx_Msgs demo_tx.
Proof.
  exists [Zpos (countable.encode demo_signed)].
  destruct (@BuildAndSignTx_contents model_txconfig model_txconfig_laws model_crypto
    {| ChainID := "c" |} demo_account demo_tx demo_signed [Zpos (countable.encode demo_signed)])
    as (H1 & H2 & _); [reflexivity|reflexivity|exact (conj H1 H2)].
Defined.
