(* ===== verification/ClientSetup.v ===== *)
(** * Making a chain client (chain/client.go, context.go, init.go, key.go)

    [NewClient] and the context it keeps, the bech32 prefixes of the chain, the
    query for an account's number and sequence, and the key ring made of raw
    keys.  Dialing, bech32 and the key ring are libraries: classes, with what
    they document as laws. *)

From Stdlib Require Import ZArith Lia Ascii String.
From stdpp Require Import base list strings numbers gmap.
From S2P Require Import Prelude GoStrings Sdk SdkModel Chain.

Open Scope string_scope.
Open Scope Z_scope.
Open Scope list_scope.

(** ** NewClient *)

(** cometbft's and gRPC's clients, and sdk-go's client context: its home directory
    and its key ring are left out. *)
Class ConnLib := {
  RpcConn : Type;
  GrpcConn : Type;
  NewClientFromNode : string -> go RpcConn;
  grpc_NewClient : string -> go GrpcConn;
  NewClientContext : string -> string -> go unit;
  AccAddressFromBech32 : string -> go bytes
}.

Section NewClient.
Context `{CL : ConnLib, TC : TxConfig, CR : Crypto}.

(** client.Context, as far as it is set here. *)
Record ClientContext := {
  cc_ChainID : string;
  cc_Client : RpcConn;
  cc_GRPCClient : GrpcConn
}.

Definition NewContext (chainID : string) (rpcClient : RpcConn) (grpcClient : GrpcConn) : go ClientContext :=
  let! _ := orPanic (NewClientContext chainID "") in
  Ok {| cc_ChainID := chainID; cc_Client := rpcClient; cc_GRPCClient := grpcClient |}.

Definition NewClient (chainID addr grpcAddr : string) : go ClientContext :=
  let! rpcClient := orPanic (NewClientFromNode ("tcp://" +:+ addr)) in
  let! grpcClient := orPanic (grpc_NewClient grpcAddr) in
  NewContext chainID rpcClient grpcClient.

(** The part of the client that signing reads. *)
Definition signing_client (c : ClientContext) : Client := {| ChainID := cc_ChainID c |}.

(** [Client.SignTx] *)
Definition Client_SignTx (c : Client) (signerAccount : Account) (txBuilder : Builder) : go sdkTx :=
  signTx c (Key signerAccount) (Number signerAccount) (acc_Sequence signerAccount) txBuilder.

(** [BuildAndSignTx] is [SignTx] of the builder with the fee, the gas limit, the
    memo and the messages. *)
Lemma BuildAndSignTx_SignTx c acc tx stx :
  Client_BuildAndSignTx c acc tx = Ok stx -> exists b, Client_SignTx c acc b = Ok stx.
Proof.
  unfold Client_BuildAndSignTx, buildAndSignTx, Client_SignTx. intros (b & _ & H)%go_bind_Ok. by exists b.
Qed.

(** [Client.GetNumberSequence]; [ask] is the account retriever: what the node says
    of the account with an address. *)
Definition GetNumberSequence (ask : bytes -> go (Z * Z)) (address : string) : go (Z * Z) :=
  let! addr := orPanic (AccAddressFromBech32 address) in
  ask addr.

(** Documented: parsing is the inverse of printing, except for the empty address. *)
Class Bech32Laws := {
  bech32_roundtrip a : a <> [] -> AccAddressFromBech32 (bech32_AccAddress a) = Ok a;
  address_nonempty p : pubKey_Address p <> []
}.

(** What [NewClient] does: it never returns an error; it panics exactly when the
    node's address, the gRPC address or the chain's context is refused, and else
    the client signs for that chain and talks to these addresses. *)
Lemma NewClient_outcomes chainID addr grpcAddr :
  match NewClient chainID addr grpcAddr with
  | Ok c => signing_client c = {| ChainID := chainID |} /\
            NewClientFromNode ("tcp://" +:+ addr) = Ok (cc_Client c) /\
            grpc_NewClient grpcAddr = Ok (cc_GRPCClient c) /\ NewClientContext chainID "" = Ok tt
  | Err _ => False
  | Panic _ => is_Ok (NewClientFromNode ("tcp://" +:+ addr)) = false \/
               is_Ok (grpc_NewClient grpcAddr) = false \/ is_Ok (NewClientContext chainID "") = false
  end.
Proof.
  unfold NewClient, NewContext.
  destruct (NewClientFromNode _) as [r| |], (grpc_NewClient _) as [g| |], (NewClientContext _ _) as [[]| |];
    cbn; auto.
Qed.

(** The query of an account of the program, by its printed address, asks the node
    for the account's address, and does not panic. *)
Lemma GetNumberSequence_own `{BL : !Bech32Laws} ask key :
  GetNumberSequence ask (AccAddress key) = ask (Address key).
Proof.
  unfold GetNumberSequence, AccAddress. rewrite bech32_roundtrip by apply address_nonempty. done.
Qed.
End NewClient.

(** ** init.go: prefixes *)

Record Bech32Prefixes := {
  accountAddressPrefix : string;
  accountPubKeyPrefix : string;
  validatorAddressPrefix : string;
  validatorPubKeyPrefix : string;
  consNodeAddressPrefix : string;
  consNodePubKeyPrefix : string
}.

Definition setAccountPrefixes (prefix : string) : Bech32Prefixes :=
  {| accountAddressPrefix := prefix;
     accountPubKeyPrefix := prefix +:+ "pub";
     validatorAddressPrefix := prefix +:+ "valoper";
     validatorPubKeyPrefix := prefix +:+ "valoperpub";
     consNodeAddressPrefix := prefix +:+ "valcons";
     consNodePubKeyPrefix := prefix +:+ "valconspub" |}.

Definition chain_prefixes : Bech32Prefixes := setAccountPrefixes "inj".

Definition prefix_list (c : Bech32Prefixes) : list string :=
  [accountAddressPrefix c; accountPubKeyPrefix c; validatorAddressPrefix c; validatorPubKeyPrefix c;
   consNodeAddressPrefix c; consNodePubKeyPrefix c].

(** No two kinds of key share a prefix, whatever the chain's. *)
Lemma prefixes_distinct prefix : NoDup (prefix_list (setAccountPrefixes prefix)).
Proof.
  change (prefix_list (setAccountPrefixes prefix))
    with (prefix :: (String.append prefix <$> ["pub"; "valoper"; "valoperpub"; "valcons"; "valconspub"])).
  constructor.
  - rewrite list_elem_of_fmap. intros (x & E & Hx). assert (x = "") as ->.
    { apply (inj (String.append prefix)). rewrite <- E. by rewrite append_nil_r. }
    revert Hx. apply (bool_decide_unpack _). vm_compute. done.
  - apply NoDup_fmap; [intros x y H; by eapply (inj (String.append prefix))|].
    apply (bool_decide_unpack _). vm_compute. done.
Qed.

(** ** key.go: a key ring in memory *)

Class KeyringLib := {
  Keyring : Type;
  NewInMemory : Keyring;
  SupportedAlgorithms : Keyring -> list string;
  NewSigningAlgoFromString : string -> list string -> go unit;
  EncryptArmorPrivKey : bytes -> string -> string -> string;
  ImportPrivKey : Keyring -> string -> string -> string -> go Keyring;
  (** the key stored under a name *)
  ring_key : Keyring -> string -> option bytes
}.

(** Documented: the ring made with an algorithm supports it; importing a key armored
    under the same passphrase, with a name and a key that are not in the ring,
    adds it and changes nothing else. *)
Class KeyringLaws `{KeyringLib} := {
  ring_supported : NewSigningAlgoFromString "eth_secp256k1" (SupportedAlgorithms NewInMemory) = Ok tt;
  ring_empty name : ring_key NewInMemory name = None;
  ring_import r name key pass algo :
    ring_key r name = None -> (forall n, ring_key r n <> Some key) ->
    exists r', ImportPrivKey r name (EncryptArmorPrivKey key pass algo) pass = Ok r' /\
      ring_key r' name = Some key /\ forall n, n <> name -> ring_key r' n = ring_key r n
}.

Section Keystore.
Context `{KL : KeyringLib}.

Fixpoint import_keys (ring : Keyring) (keys : list (string * Secp256k1PrivateKey)) : go Keyring :=
  match keys with
  | [] => Ok ring
  | (name, key) :: rest =>
      let encKey := EncryptArmorPrivKey key "dummy" "eth_secp256k1" in
      let! ring' := orPanic (ImportPrivKey ring name encKey "dummy") in
      import_keys ring' rest
  end.

(** The keys come in some order of the map. *)
Definition WrapKeysInMemKeystore (keys : list (string * Secp256k1PrivateKey)) : go Keyring :=
  let keyringDB := NewInMemory in
  let! _ := orPanic (NewSigningAlgoFromString "eth_secp256k1" (SupportedAlgorithms keyringDB)) in
  import_keys keyringDB keys.

Context `{KLL : !KeyringLaws}.

Lemma import_keys_all ring keys :
  NoDup keys.*1 -> NoDup keys.*2 ->
  (forall name, name ∈ keys.*1 -> ring_key ring name = None) ->
  (forall key n, key ∈ keys.*2 -> ring_key ring n <> Some key) ->
  exists ring', import_keys ring keys = Ok ring' /\
    (forall name key, (name, key) ∈ keys -> ring_key ring' name = Some key) /\
    forall name, name ∉ keys.*1 -> ring_key ring' name = ring_key ring name.
Proof.
  revert ring. induction keys as [|[name key] keys IH]; intros ring Hn Hk Hname Hkey.
  { exists ring. split_and!; [done|by intros ? ? ?%not_elem_of_nil|done]. }
  cbn in Hn, Hk, Hname, Hkey. apply NoDup_cons in Hn as [Hn1 Hn], Hk as [Hk1 Hk].
  destruct (ring_import ring name key "dummy" "eth_secp256k1") as (r1 & E & Hin & Hout);
    [apply Hname; left|intros n; apply Hkey; left|].
  destruct (IH r1) as (r2 & E2 & Hall & Hrest); [done|done| | |].
  - intros n Hnn. rewrite Hout; [|intros ->; done]. apply Hname. by right.
  - intros k n Hkk. destruct (decide (n = name)) as [->|Hne].
    + rewrite Hin. intros [= ->]. done.
    + rewrite Hout by done. apply Hkey. by right.
  - exists r2. cbn [import_keys]. rewrite E. cbn [orPanic go_bind]. split_and!; [done| |].
    + intros n k [[= -> ->]|Hin']%elem_of_cons; [|by apply Hall]. by rewrite Hrest.
    + intros n [Hne Hni]%not_elem_of_cons. rewrite Hrest by done. by apply Hout.
Qed.

(** Of a map of distinct keys a ring is made that holds exactly the map's keys under
    their names, in whatever order the map is iterated. *)
Lemma WrapKeys_exact (keys : gmap string Secp256k1PrivateKey) order :
  order ≡ₚ map_to_list keys ->
  (forall n1 n2 k, keys !! n1 = Some k -> keys !! n2 = Some k -> n1 = n2) ->
  exists ring, WrapKeysInMemKeystore order = Ok ring /\ forall name, ring_key ring name = keys !! name.
Proof.
  intros Ho Hinj. assert (Hin : forall n k, (n, k) ∈ order <-> keys !! n = Some k)
    by (intros n k; by rewrite Ho, elem_of_map_to_list).
  assert (Hn : NoDup order.*1) by (rewrite Ho; apply NoDup_fst_map_to_list).
  destruct (import_keys_all NewInMemory order) as (ring & E & Hall & Hrest); [done| | | |].
  - apply NoDup_fmap_2_strong; [|rewrite Ho; apply NoDup_map_to_list].
    intros [n1 k1] [n2 k2] H1%Hin H2%Hin E. cbn in E. subst k2. by rewrite (Hinj n1 n2 k1 H1 H2).
  - intros n _. apply ring_empty.
  - intros k n _. by rewrite ring_empty.
  - exists ring. unfold WrapKeysInMemKeystore. rewrite ring_supported. cbn [orPanic go_bind].
    split; [done|]. intros name. destruct (keys !! name) as [k|] eqn:Ek; [by apply Hall, Hin|].
    rewrite Hrest, ring_empty; [done|]. intros ([n k] & -> & H%Hin)%list_elem_of_fmap. cbn in Ek. congruence.
Qed.
End Keystore.

(** ** An instance *)

Definition model_conn : ConnLib := {|
  RpcConn := string;
  GrpcConn := string;
  NewClientFromNode a := if decide (a = "tcp://") then Err (ENew "no host") else Ok a;
  grpc_NewClient a := Ok a;
  NewClientContext chainID home := Ok tt;
  AccAddressFromBech32 s := Err (ENew "not used")
|}.
