(* ===== verification/Payload.v ===== *)
(** * Package payload: the transaction providers

    [TxProvider] is the interface the stresser drives.  Each provider is a
    record (its struct) with its constructor and its three methods; a method
    returns the provider's new state beside its result, because some providers
    remember what they deployed.  [BuildAndSignTx] also returns the unsigned
    transaction as it leaves it, since the Ethereum signer writes the signature
    into the message it was given.

    What a call observes besides its arguments (the clock, the random draws) is
    the argument [env]. *)

From Stdlib Require Import ZArith Lia Ascii String.
From stdpp Require Import base list strings numbers.
From S2P Require Import Prelude GoStrings Float64 Sdk SdkModel Chain.

Open Scope string_scope.
Open Scope Z_scope.
Open Scope list_scope.

(** ** payload.go *)

Record TxRequest := {
  Keys : list Secp256k1PrivateKey;
  From : Account;
  FromIdx : Z;
  TxIdx : Z
}.

(** [baseTx]; the [to] fields of the structs that embed it are never read. *)
Record baseTx := {
  from : Account;
  msgs : list Msg;
  txBytes : bytes;
  fromIdx : Z;
  txIdx : Z
}.

Definition WithBytes (t : baseTx) (b : bytes) : baseTx :=
  {| from := from t; msgs := msgs t; txBytes := b; fromIdx := fromIdx t; txIdx := txIdx t |}.

(** The transaction every provider returns for a request. *)
Definition request_tx (req : TxRequest) (m : list Msg) : baseTx :=
  {| from := From req; msgs := m; txBytes := []; fromIdx := FromIdx req; txIdx := TxIdx req |}.

(** The clock's readings, and [rand]'s draws, which are below their bounds. *)
Record Env := {
  clock : nat -> string;
  draw : nat -> Z -> Z;
  draw_below i n : 0 < n -> 0 <= draw i n < n
}.

(** The interface. *)
Class TxProvider (P : Type) := {
  prov_Name : P -> string;
  GenerateInitialTx : Env -> P -> TxRequest -> P * go (option baseTx);
  GenerateTx : Env -> P -> TxRequest -> P * go baseTx;
  BuildAndSignTx : P -> Client -> baseTx -> P * baseTx * go baseTx
}.

(** What the stresser relies on: a transaction generated for a request, and the
    signed transaction made from it, carry the request's queue attributes; an
    initial transaction carries its sender. *)
Class TxProviderLaws (P : Type) `{TxProvider P} := {
  GenerateTx_tags e p req t :
    (GenerateTx e p req).2 = Ok t -> fromIdx t = FromIdx req /\ txIdx t = TxIdx req /\ from t = From req;
  BuildAndSignTx_tags p c t t' :
    (BuildAndSignTx p c t).2 = Ok t' -> fromIdx t' = fromIdx t /\ txIdx t' = txIdx t /\ from t' = from t;
  GenerateInitialTx_from e p req t : (GenerateInitialTx e p req).2 = Ok (Some t) -> from t = From req
}.

(** [toIdx := req.FromIdx + offset; if toIdx >= len(req.Keys) { toIdx = 0 }] *)
Definition receiver_idx (req : TxRequest) (offset : Z) : Z :=
  let toIdx := i64 (FromIdx req + offset) in
  if Z.of_nat (length (Keys req)) <=? toIdx then 0 else toIdx.

(** ** Transactions signed by the chain client *)

Section Cosmos.
Context `{TC : TxConfig, CR : Crypto, SM : SdkMath}.

Definition receiver (req : TxRequest) (offset : Z) : go bytes :=
  let! key := index (Keys req) (receiver_idx req offset) in
  Ok (Address key).

(** The body shared by the [BuildAndSignTx] methods of the x/bank, x/wasm and
    x/exchange providers: the fee is the gas limit at the minimum gas price. *)
Definition feeBuildAndSignTx (minGasPrice : Coin) (maxGasLimit : Z) (memoAttach : string)
    (client : Client) (unsignedTx : baseTx) : go baseTx :=
  let! maxFeeAmount := Int_Mul (Amount minGasPrice) maxGasLimit in
  let! feeCoin := NewCoin (Denom minGasPrice) maxFeeAmount in
  let! fee := NewCoins [feeCoin] in
  let chainTx :=
    {| tx_Msgs := msgs unsignedTx; tx_Fee := fee; tx_GasLimit := maxGasLimit;
       tx_Memo := memoAttach |} in
  let! signedResult := Client_BuildAndSignTx client (from unsignedTx) chainTx in
  let! encoded := Client_Encode signedResult in
  Ok (WithBytes unsignedTx encoded).

(** *** bank_send_stress.go *)

Record bankSendProvider := {
  bs_sendAmount : Coin;
  bs_minGasPrice : Coin;
  bs_maxGasLimit : Z;
  bs_memoAttach : string
}.

Definition NewBankSendProvider (minGasPrice sendAmount : string) : go bankSendProvider :=
  let! parsedAmount := go_wrap "failed to parse amount coin" (ParseCoinNormalized sendAmount) in
  let! parsedMinGasPrice :=
    go_wrap "failed to parse minGasPrice coin" (ParseCoinNormalized minGasPrice) in
  Ok {| bs_sendAmount := parsedAmount; bs_minGasPrice := parsedMinGasPrice;
        bs_maxGasLimit := 150000; bs_memoAttach := hex_EncodeToString [] |}.

Definition bankSend_GenerateTx (p : bankSendProvider) (req : TxRequest) : go baseTx :=
  let! to := receiver req 1 in
  Ok (request_tx req [MsgSend (Address (Key (From req))) to [bs_sendAmount p]]).

Definition bankSend_BuildAndSignTx (p : bankSendProvider) (client : Client) (t : baseTx) : go baseTx :=
  feeBuildAndSignTx (bs_minGasPrice p) (bs_maxGasLimit p) (bs_memoAttach p) client t.

Definition bankSend_GenerateInitialTx (p : bankSendProvider) (req : TxRequest)
    : go (option baseTx) := Ok None.

#[export] Instance bankSend_TxProvider : TxProvider bankSendProvider := {|
  prov_Name _ := "bank_send_stress";
  GenerateInitialTx _ p req := (p, bankSend_GenerateInitialTx p req);
  GenerateTx _ p req := (p, bankSend_GenerateTx p req);
  BuildAndSignTx p c t := (p, t, bankSend_BuildAndSignTx p c t)
|}.

(** *** bank_multi_send_stress.go *)

Record bankMultiSendProvider := {
  bm_sendAmount : Coin;
  bm_minGasPrice : Coin;
  bm_maxGasLimit : Z;
  bm_memoAttach : string;
  bm_numTargets : Z
}.

(** [randRead]: what [rand.Read] of the 128-byte memo gives. *)
Definition NewBankMultiSendProvider (randRead : go bytes) (minGasPrice sendAmount : string)
    (numTargets : Z) : go bankMultiSendProvider :=
  when numTargets <? 1 raise ENew "numTargets must be greater than 0";
  let! parsedAmount := go_wrap "failed to parse amount coin" (ParseCoinNormalized sendAmount) in
  let! parsedMinGasPrice :=
    go_wrap "failed to parse minGasPrice coin" (ParseCoinNormalized minGasPrice) in
  let! randmemo := go_wrap "failed to generate random memo" randRead in
  Ok {| bm_sendAmount := parsedAmount; bm_minGasPrice := parsedMinGasPrice;
        bm_maxGasLimit := 18000000; bm_memoAttach := hex_EncodeToString randmemo;
        bm_numTargets := numTargets |}.

(** [n] more outputs, from [offset] on. *)
Fixpoint multiSend_outputs (p : bankMultiSendProvider) (req : TxRequest) (n : nat) (offset : Z)
    : go (list (bytes * Coins)) :=
  match n with
  | O => Ok []
  | S n' =>
      let! to := receiver req offset in
      let! rest := multiSend_outputs p req n' (offset + 1) in
      Ok ((to, [bm_sendAmount p]) :: rest)
  end.

Definition bankMultiSend_GenerateTx (p : bankMultiSendProvider) (req : TxRequest) : go baseTx :=
  let! totalAmount := Int_Mul (Amount (bm_sendAmount p)) (bm_numTargets p) in
  let! total := NewCoin (Denom (bm_sendAmount p)) totalAmount in
  let input := (Address (Key (From req)), [total]) in
  let! outputs := multiSend_outputs p req (Z.to_nat (bm_numTargets p)) 1 in
  Ok (request_tx req [MsgMultiSend input outputs]).

Definition bankMultiSend_BuildAndSignTx (p : bankMultiSendProvider) (client : Client) (t : baseTx)
    : go baseTx :=
  feeBuildAndSignTx (bm_minGasPrice p) (bm_maxGasLimit p) (bm_memoAttach p) client t.

Definition bankMultiSend_GenerateInitialTx (p : bankMultiSendProvider) (req : TxRequest)
    : go (option baseTx) := Ok None.

#[export] Instance bankMultiSend_TxProvider : TxProvider bankMultiSendProvider := {|
  prov_Name _ := "bank_multi_send_stress";
  GenerateInitialTx _ p req := (p, bankMultiSend_GenerateInitialTx p req);
  GenerateTx _ p req := (p, bankMultiSend_GenerateTx p req);
  BuildAndSignTx p c t := (p, t, bankMultiSend_BuildAndSignTx p c t)
|}.

(** *** exchange_batch_orders_stress.go *)

Context `{EL : EthLib}.

Record exchangeBatchOrdersProvider := {
  ex_spotMarketIDs : list string;
  ex_derivativeMarketIDs : list string;
  ex_minGasPrice : Coin;
  ex_maxGasLimit : Z;
  ex_memoAttach : string
}.

Definition NewExchangeBatchOrdersProvider (minGasPrice : string)
    (spotMarketIDs derivativeMarketIDs : list string) : go exchangeBatchOrdersProvider :=
  let! parsedMinGasPrice :=
    go_wrap "failed to parse minGasPrice coin" (ParseCoinNormalized minGasPrice) in
  Ok {| ex_spotMarketIDs := spotMarketIDs; ex_derivativeMarketIDs := derivativeMarketIDs;
        ex_minGasPrice := parsedMinGasPrice; ex_maxGasLimit := 150000; ex_memoAttach := "" |}.

Definition subaccount (account : bytes) (idx : Z) : bytes :=
  let ethAddress := BytesToAddress account in
  let ethLowerAddress := strings_ToLower (Address_String ethAddress) in
  HexToHash (ethLowerAddress +:+ fmt_0x 24 idx).

(** [math.LegacyNewDecFromInt], [math.LegacyNewDec] *)
Definition dec_of_int (n : Z) : Z := n * 10 ^ 18.
(** [math.LegacyNewDecFromIntWithPrec(n, 2)] *)
Definition dec_of_int_prec2 (n : Z) : Z := n * 10 ^ 16.

(** The state of the two loops: the running price, the orders made, and the
    list of markets to cancel with the subaccount that goes with it. *)
Record OrderLoop := {
  ol_price : Z;
  ol_orders : list Order;
  ol_cancelAll : list string;
  ol_SubaccountId : string
}.

(** One loop of [GenerateTx], over the markets from index [i] on; [margin]: the
    orders are derivative orders; [tick]: the clock readings made before. *)
Fixpoint order_loop (e : Env) (sender subaccountId : string) (quantity : Z) (margin shouldCancel : bool)
    (tick : nat) (i : Z) (markets : list string) (st : OrderLoop) : go OrderLoop :=
  match markets with
  | [] => Ok st
  | marketID :: rest =>
      let! price := Dec_Add (ol_price st) (dec_of_int (i64 (i * 1000))) in
      let! m := (if margin then let! v := Dec_Mul price quantity in Ok (Some v) else Ok None) in
      let order :=
        {| MarketId := marketID; FeeRecipient := sender; SubaccountId := subaccountId;
           Price := price; Quantity := quantity; Margin := m; Cid := clock e tick |} in
      order_loop e sender subaccountId quantity margin shouldCancel (S tick) (i + 1) rest
        {| ol_price := price;
           ol_orders := ol_orders st ++ [order];
           ol_cancelAll := if shouldCancel then [marketID] else ol_cancelAll st;
           ol_SubaccountId := if shouldCancel then subaccountId else ol_SubaccountId st |}
  end.

Definition exchange_GenerateTx (e : Env) (p : exchangeBatchOrdersProvider) (req : TxRequest)
    : go baseTx :=
  let price := dec_of_int ((draw e 0 9 + 1) * 1000) in
  let quantity := dec_of_int_prec2 (draw e 1 10000 + 1) in
  let shouldCancelDerivative := 0 <? draw e 2 2 in
  let sender := AccAddress (Key (From req)) in
  let sub := Hash_Hex (subaccount (Address (Key (From req))) 0) in
  let! d :=
    order_loop e sender sub quantity true shouldCancelDerivative 1 0 (ex_derivativeMarketIDs p)
      {| ol_price := price; ol_orders := []; ol_cancelAll := []; ol_SubaccountId := "" |} in
  let shouldCancelSpot := 0 <? draw e 3 2 in
  let! s :=
    order_loop e sender sub quantity false shouldCancelSpot
      (S (length (ex_derivativeMarketIDs p))) 0 (ex_spotMarketIDs p)
      {| ol_price := ol_price d; ol_orders := []; ol_cancelAll := [];
         ol_SubaccountId := ol_SubaccountId d |} in
  Ok (request_tx req
    [MsgBatchUpdateOrders sender (ol_SubaccountId s) (ol_orders d) (ol_orders s)
       (ol_cancelAll d) (ol_cancelAll s)]).

Definition exchange_BuildAndSignTx (p : exchangeBatchOrdersProvider) (client : Client) (t : baseTx)
    : go baseTx :=
  feeBuildAndSignTx (ex_minGasPrice p) (ex_maxGasLimit p) (ex_memoAttach p) client t.

Definition exchange_GenerateInitialTx (p : exchangeBatchOrdersProvider) (req : TxRequest)
    : go (option baseTx) := Ok None.

#[export] Instance exchange_TxProvider : TxProvider exchangeBatchOrdersProvider := {|
  prov_Name _ := "exchange_batch_orders_stress";
  GenerateInitialTx _ p req := (p, exchange_GenerateInitialTx p req);
  GenerateTx e p req := (p, exchange_GenerateTx e p req);
  BuildAndSignTx p c t := (p, t, exchange_BuildAndSignTx p c t)
|}.
End Cosmos.

(** ** Receivers *)

Section Facts.
Context `{TC : TxConfig, TL : !TxConfigLaws, CR : Crypto, SM : SdkMath, ML : !SdkMathLaws, EL : EthLib}.

(** The key at [FromIdx + offset], or the first one past the end. *)
Definition receiver_key (req : TxRequest) (offset : Z) : option Secp256k1PrivateKey :=
  if FromIdx req + offset <? Z.of_nat (length (Keys req))
  then Keys req !! Z.to_nat (FromIdx req + offset) else Keys req !! 0%nat.

Lemma receiver_index req offset :
  Keys req <> [] -> 0 <= FromIdx req -> 0 <= offset -> FromIdx req + offset <= maxInt ->
  exists key, receiver_key req offset = Some key /\ index (Keys req) (receiver_idx req offset) = Ok key.
Proof.
  intros Hk Hf Ho Hm. unfold receiver_idx, receiver_key.
  rewrite i64_id by width.
  destruct (Keys req) as [|k0 ks] eqn:E; [done|]. rewrite <- E in *.
  destruct (Z.ltb_spec (FromIdx req + offset) (Z.of_nat (length (Keys req)))) as [Hlt|Hge].
  - rewrite (proj2 (Z.leb_gt _ _)) by lia.
    destruct (index_in_range (Keys req) (FromIdx req + offset)) as [key Hi]; [lia|].
    exists key. rewrite Hi. split; [by apply index_Ok in Hi as [_ ?]|done].
  - rewrite (proj2 (Z.leb_le _ _)) by lia. rewrite E. exists k0. done.
Qed.

Lemma receiver_Ok req offset :
  Keys req <> [] -> 0 <= FromIdx req -> 0 <= offset -> FromIdx req + offset <= maxInt ->
  exists key, receiver_key req offset = Some key /\ receiver req offset = Ok (Address key).
Proof.
  intros Hk Hf Ho Hm. destruct (receiver_index req offset Hk Hf Ho Hm) as (key & Hr & Hi).
  exists key. split; [done|]. unfold receiver. by rewrite Hi.
Qed.

Lemma receiver_not_Err req offset e : receiver req offset <> Err e.
Proof. unfold receiver, index. intros H. go_cases. Qed.

(** ** Multi-send *)

Lemma multiSend_outputs_Ok p req n offset :
  Keys req <> [] -> 0 <= FromIdx req -> 0 <= offset -> FromIdx req + offset + Z.of_nat n <= maxInt ->
  exists outs, multiSend_outputs p req n offset = Ok outs /\ length outs = n /\
    forall k out, outs !! k = Some out ->
      exists key, receiver_key req (offset + Z.of_nat k) = Some key /\
                  out = (Address key, [bm_sendAmount p]).
Proof.
  intros Hk Hf. revert offset. induction n as [|n IH]; intros offset Ho Hm.
  - exists []. done.
  - destruct (receiver_Ok req offset) as (key & Hkey & Hr); [done..|lia|].
    destruct (IH (offset + 1)) as (outs & Houts & Hlen & Hall); [lia..|].
    exists ((Address key, [bm_sendAmount p]) :: outs).
    cbn [multiSend_outputs]. rewrite Hr. cbn [go_bind]. rewrite Houts. cbn [go_bind].
    split_and!; [done|simpl; lia|]. intros [|k] out Hout.
    + simplify_eq/=. exists key. by rewrite Z.add_0_r.
    + destruct (Hall k out Hout) as (key' & ? & ?). exists key'.
      by replace (offset + Z.of_nat (S k)) with (offset + 1 + Z.of_nat k) by lia.
Qed.

(** What the outputs of a multi-send pay in all. *)
Definition outputs_total (outs : list (bytes * Coins)) : Z :=
  zsum (map (fun o => zsum (map Amount o.2)) outs).

Lemma outputs_total_const c outs :
  (forall k out, outs !! k = Some out -> exists a, out = (a, [c])) ->
  outputs_total outs = Amount c * Z.of_nat (length outs).
Proof.
  unfold outputs_total. induction outs as [|o outs IH]; intros H; [simpl; lia|].
  destruct (H 0%nat o eq_refl) as [a ->].
  assert (IH' := IH (fun k out Hk => H (S k) out Hk)).
  cbn [map zsum foldr snd length] in *. unfold zsum in *. rewrite IH'. lia.
Qed.

(** What a multi-send provider generates for a request with keys. *)
Lemma multiSend_generates p req :
  (exists s, ParseCoinNormalized s = Ok (bm_sendAmount p)) -> 0 < bm_numTargets p ->
  Keys req <> [] -> 0 <= FromIdx req -> FromIdx req + bm_numTargets p < maxInt ->
  Amount (bm_sendAmount p) * bm_numTargets p < 2 ^ 256 ->
  exists total outs,
    bankMultiSend_GenerateTx p req =
      Ok (request_tx req [MsgMultiSend (Address (Key (From req)), [total]) outs]) /\
    Z.of_nat (length outs) = bm_numTargets p /\
    Denom total = Denom (bm_sendAmount p) /\ Amount total = outputs_total outs /\
    forall k out, outs !! k = Some out ->
      exists key, receiver_key req (1 + Z.of_nat k) = Some key /\
                  out = (Address key, [bm_sendAmount p]).
Proof.
  intros [s Hamt] Hn Hk Hf Hm Hsmall. pose proof (ParseCoin_nonneg _ _ Hamt).
  destruct (multiSend_outputs_Ok p req (Z.to_nat (bm_numTargets p)) 1)
    as (outs & Houts & Hlen & Hall); [done|done|lia|width|].
  unfold bankMultiSend_GenerateTx.
  rewrite Int_Mul_small by (rewrite Z.abs_eq; lia). cbn [go_bind].
  rewrite (ParseCoin_denom _ _ _ Hamt) by lia. cbn [go_bind]. rewrite Houts. cbn [go_bind].
  eexists _, outs. split_and!; [done|lia|done| |done].
  cbn. rewrite (outputs_total_const (bm_sendAmount p)); [rewrite Hlen; f_equal; lia|].
  intros k out Hkout. destruct (Hall k out Hkout) as (key & _ & ->). eauto.
Qed.

(** C35. A multi-send provider made by [NewBankMultiSendProvider] with [n] targets
    generates, for any request with at least one key, a single MsgMultiSend of
    the sender with exactly [n] outputs: each pays the configured amount, the
    [k]-th to the key [k] places after the sender (the first key once past the
    end of the list), and the input is exactly what the outputs pay in all. *)
Theorem multiSend_conserves randRead minGasPrice sendAmount n p req :
  NewBankMultiSendProvider randRead minGasPrice sendAmount n = Ok p ->
  Keys req <> [] -> 0 <= FromIdx req -> FromIdx req + n < maxInt ->
  Amount (bm_sendAmount p) * n < 2 ^ 256 ->
  exists total outs,
    bankMultiSend_GenerateTx p req =
      Ok (request_tx req [MsgMultiSend (Address (Key (From req)), [total]) outs]) /\
    Z.of_nat (length outs) = n /\
    Denom total = Denom (bm_sendAmount p) /\ Amount total = outputs_total outs /\
    forall k out, outs !! k = Some out ->
      exists key, receiver_key req (1 + Z.of_nat k) = Some key /\
                  out = (Address key, [bm_sendAmount p]).
Proof.
  unfold NewBankMultiSendProvider. intros Hp Hk Hf Hm Hsmall.
  destruct (n <? 1) eqn:En; [done|]. bool_facts.
  apply go_bind_Ok in Hp as (amt & Hamt%go_wrap_Ok & Hp).
  apply go_bind_Ok in Hp as (price & _ & Hp). apply go_bind_Ok in Hp as (memo & _ & [= Hp]).
  assert (n = bm_numTargets p /\ bm_sendAmount p = amt) as [-> Ha] by by rewrite <- Hp.
  apply multiSend_generates; rewrite ?Ha in *; eauto; lia.
Qed.

(** ** Signing with a fee *)

Lemma feeBuildAndSignTx_Ok price gas memo c t t' :
  feeBuildAndSignTx price gas memo c t = Ok t' ->
  exists stx enc fee,
    t' = WithBytes t enc /\ TxDecoder enc = inl stx /\
    NewCoins [{| Denom := Denom price; Amount := Amount price * gas |}] = Ok fee /\
    properly_signed c (from t)
      {| tx_Msgs := msgs t; tx_Fee := fee; tx_GasLimit := gas; tx_Memo := memo |} stx.
Proof.
  unfold feeBuildAndSignTx. intros H.
  apply go_bind_Ok in H as (amt & Hamt%Int_Mul_value & H). subst amt.
  apply go_bind_Ok in H as (coin & Hcoin%NewCoin_value & H). subst coin.
  apply go_bind_Ok in H as (fee & Hfee & H). cbv zeta in H.
  apply go_bind_Ok in H as (stx & Hstx & H). apply go_bind_Ok in H as (enc & Henc & [= <-]).
  destruct (Client_BuildAndSignTx_signed _ _ _ _ _ Hstx Henc) as [Hdec Hsig].
  exists stx, enc, fee. done.
Qed.

(** A price, parsed from the configuration, whose fee for [gas] is in range. *)
Definition fee_fits (price : Coin) (gas : Z) : Prop :=
  (exists s, ParseCoinNormalized s = Ok price) /\ is_u64 gas /\ Amount price * gas < 2 ^ 256.

(** Signing with a fee in range fails only if the client does. *)
Lemma feeBuildAndSignTx_succeeds price gas memo c t :
  fee_fits price gas ->
  (forall acc tx, tx_GasLimit tx = gas ->
     exists stx enc, Client_BuildAndSignTx c acc tx = Ok stx /\ Client_Encode stx = Ok enc) ->
  is_Ok (feeBuildAndSignTx price gas memo c t) = true.
Proof.
  intros ([s Hp] & Hg & Hs) Hc. pose proof (ParseCoin_nonneg _ _ Hp). unfold feeBuildAndSignTx.
  rewrite Int_Mul_small by (rewrite Z.abs_eq by (unfold is_u64 in Hg; lia); lia). cbn [go_bind].
  assert (Hn : NewCoin (Denom price) (Amount price * gas) = Ok {| Denom := Denom price; Amount := Amount price * gas |})
    by (apply (ParseCoin_denom _ _ _ Hp); unfold is_u64 in Hg; lia).
  rewrite Hn. cbn [go_bind]. destruct (NewCoins_one _ _ _ Hn) as [fee ->]. cbn [go_bind]. cbv zeta.
  destruct (Hc (from t) {| tx_Msgs := msgs t; tx_Fee := fee; tx_GasLimit := gas; tx_Memo := memo |} eq_refl)
    as (stx & enc & -> & He). cbn [go_bind]. by rewrite He.
Qed.

(** The transaction a native provider signs: its queue attributes and its
    messages are those of the unsigned one, and its bytes decode to a
    transaction of these messages that the sending account signed for its own
    sequence, with the provider's gas limit and a fee of exactly gas limit times
    minimum gas price (no coin when that is zero). *)
Theorem feeBuildAndSignTx_pays price gas memo c t t' :
  feeBuildAndSignTx price gas memo c t = Ok t' ->
  fromIdx t' = fromIdx t /\ txIdx t' = txIdx t /\ from t' = from t /\ msgs t' = msgs t /\
  exists stx fee,
    TxDecoder (txBytes t') = inl stx /\
    properly_signed c (from t)
      {| tx_Msgs := msgs t; tx_Fee := fee; tx_GasLimit := gas; tx_Memo := memo |} stx /\
    fee = if Amount price * gas =? 0 then []
          else [{| Denom := Denom price; Amount := Amount price * gas |}].
Proof.
  intros (stx & enc & fee & -> & Hdec & Hfee & Hsig)%feeBuildAndSignTx_Ok.
  split_and!; try done. exists stx, fee. by apply NewCoins_single in Hfee.
Qed.

(** ** Batch orders *)

(** The price of the [k]-th order of a loop that starts at [base]. *)
Definition order_price (base : Z) (k : Z) : Z := base + 10 ^ 18 * (500 * (k * (k + 1))).

(** The order a loop makes for the [k]-th market. *)
Definition is_order (sender sub : string) (quantity : Z) (margin : bool) (base : Z)
    (k : Z) (market : string) (o : Order) : Prop :=
  MarketId o = market /\ FeeRecipient o = sender /\ SubaccountId o = sub /\
  Price o = order_price base k /\ Quantity o = quantity /\
  match Margin o with
  | Some m => margin = true /\ m * 10 ^ 18 = Price o * Quantity o
  | None => margin = false
  end.

(** What a loop that cancels leaves in its list: the last market only. *)
Definition cancelled (cancel : bool) (markets before : list string) : list string :=
  match list.last markets with
  | Some m => if cancel then [m] else before
  | None => before
  end.

Lemma cancelled_cons cancel m markets before :
  cancelled cancel (m :: markets) before =
  cancelled cancel markets (if cancel then [m] else before).
Proof.
  unfold cancelled. destruct markets as [|m' markets]; [done|].
  rewrite last_cons_cons. destruct (list.last (m' :: markets)) eqn:E; [by destruct cancel|].
  by apply last_None in E.
Qed.

Lemma order_loop_spec e sender sub n margin cancel b0 markets :
  0 <= b0 <= 10 ^ 18 -> 0 <= n <= 10 ^ 4 -> forall tick i st,
  0 <= i -> i + Z.of_nat (length markets) <= 10 ^ 6 ->
  ol_price st = order_price (b0 * 10 ^ 18) (i - 1) ->
  exists st' orders,
    order_loop e sender sub (n * 10 ^ 16) margin cancel tick i markets st = Ok st' /\
    ol_price st' = order_price (b0 * 10 ^ 18) (i + Z.of_nat (length markets) - 1) /\
    ol_orders st' = ol_orders st ++ orders /\ length orders = length markets /\
    (forall k m o, markets !! k = Some m -> orders !! k = Some o ->
       is_order sender sub (n * 10 ^ 16) margin (b0 * 10 ^ 18) (i + Z.of_nat k) m o) /\
    ol_cancelAll st' = cancelled cancel markets (ol_cancelAll st) /\
    ol_SubaccountId st' =
      (if cancel && negb (bool_decide (markets = [])) then sub else ol_SubaccountId st).
Proof.
  intros Hb Hn. induction markets as [|m markets IH]; intros tick i st Hi Hlen Hp.
  - exists st, []. rewrite app_nil_r. cbn [length order_loop].
    rewrite bool_decide_true, andb_false_r, Z.add_0_r by done. split_and!; done.
  - cbn [order_loop length] in *.
    assert (Hprice : ol_price st + dec_of_int (i64 (i * 1000)) = order_price (b0 * 10 ^ 18) i).
    { rewrite Hp, i64_id by width. unfold order_price, dec_of_int. lia. }
    assert (Hb2 : 0 <= 500 * (i * (i + 1)) <= 10 ^ 16) by nia.
    assert (Hr : 0 <= order_price (b0 * 10 ^ 18) i <= 10 ^ 38) by (unfold order_price; lia).
    rewrite Dec_Add_small, Hprice by (rewrite Hprice; lia). cbn [go_bind].
    set (price := order_price (b0 * 10 ^ 18) i) in *.
    set (marg := (b0 + 500 * (i * (i + 1))) * (n * 10 ^ 16)).
    assert (Hmarg : marg * 10 ^ 18 = price * (n * 10 ^ 16)) by (unfold marg, price, order_price; lia).
    assert (Hms : Z.abs marg < 2 ^ 256).
    { rewrite Z.abs_eq by (unfold marg; nia). unfold marg.
      apply Z.le_lt_trans with ((10 ^ 18 + 10 ^ 16) * (10 ^ 4 * 10 ^ 16)); [|lia].
      apply Z.mul_le_mono_nonneg; lia. }
    assert (exists mo, (if margin then let! v := Dec_Mul price (n * 10 ^ 16) in Ok (Some v) else Ok None)
              = Ok mo /\ match mo with Some v => margin = true /\ v = marg | None => margin = false end)
      as (mo & -> & Hmo).
    { destruct margin; [|by exists None]. rewrite (Dec_Mul_small _ _ marg) by done.
      by exists (Some marg). }
    cbn [go_bind]. set (st1 := {| ol_price := price; ol_orders := _; ol_cancelAll := _;
      ol_SubaccountId := _ |}).
    destruct (IH (S tick) (i + 1) st1) as (st' & orders & -> & Hp' & Ho' & Hl' & Hall & Hc' & Hs');
      [lia|lia|by rewrite Z.add_simpl_r|].
    eexists st', (_ :: orders). split_and!; [done| | |simpl; lia| |by rewrite cancelled_cons|].
    + rewrite Hp'. f_equal. lia.
    + rewrite Ho'. cbn [ol_orders st1]. by rewrite <- app_assoc.
    + intros [|k] m' o Hm' Ho.
      * simplify_eq/=. rewrite Z.add_0_r. unfold is_order; cbn.
        destruct mo; [destruct Hmo as [-> ->]|]; split_and!; done.
      * replace (i + Z.of_nat (S k)) with (i + 1 + Z.of_nat k) by lia. eauto.
    + rewrite Hs'. cbn [ol_SubaccountId st1]. rewrite (bool_decide_false (m :: markets = [])) by done.
      destruct cancel, (bool_decide (markets = [])); done.
Qed.

(** For any draw of the random source the exchange provider generates one
    MsgBatchUpdateOrders of the sender, with one derivative order per configured
    derivative market and one spot order per spot market, all for the sender's
    subaccount and the same quantity; the [k]-th price of a list is the starting
    price plus 500 k (k + 1), the spot orders start from the last derivative
    price, and a derivative order's margin is exactly price times quantity.  Of
    the markets of a list, only the last one is ever cancelled. *)
Theorem exchange_orders e p req :
  Z.of_nat (length (ex_derivativeMarketIDs p)) <= 10 ^ 6 ->
  Z.of_nat (length (ex_spotMarketIDs p)) <= 10 ^ 6 ->
  let sender := AccAddress (Key (From req)) in
  let sub := Hash_Hex (subaccount (Address (Key (From req))) 0) in
  let base := dec_of_int ((draw e 0 9 + 1) * 1000) in
  let quantity := dec_of_int_prec2 (draw e 1 10000 + 1) in
  let base' := order_price base (Z.of_nat (length (ex_derivativeMarketIDs p)) - 1) in
  exists derivs spots msgSub,
    exchange_GenerateTx e p req = Ok (request_tx req
      [MsgBatchUpdateOrders sender msgSub derivs spots
         (cancelled (0 <? draw e 2 2) (ex_derivativeMarketIDs p) [])
         (cancelled (0 <? draw e 3 2) (ex_spotMarketIDs p) [])]) /\
    length derivs = length (ex_derivativeMarketIDs p) /\
    length spots = length (ex_spotMarketIDs p) /\
    (forall k m o, ex_derivativeMarketIDs p !! k = Some m -> derivs !! k = Some o ->
       is_order sender sub quantity true base (Z.of_nat k) m o) /\
    (forall k m o, ex_spotMarketIDs p !! k = Some m -> spots !! k = Some o ->
       is_order sender sub quantity false base' (Z.of_nat k) m o).
Proof.
  intros Hd Hs sender sub base quantity base'.
  pose proof (draw_below e 0%nat 9 ltac:(lia)). pose proof (draw_below e 1%nat 10000 ltac:(lia)).
  set (nd := Z.of_nat (length (ex_derivativeMarketIDs p))) in *.
  assert (Hbase : base = (draw e 0 9 + 1) * 1000 * 10 ^ 18) by reflexivity.
  assert (Hbase' : base' = ((draw e 0 9 + 1) * 1000 + 500 * ((nd - 1) * nd)) * 10 ^ 18).
  { unfold base', order_price. rewrite Hbase. lia. }
  unfold exchange_GenerateTx. fold sender sub base quantity.
  change quantity with ((draw e 1 10000 + 1) * 10 ^ 16).
  edestruct (order_loop_spec e sender sub (draw e 1 10000 + 1) true (0 <? draw e 2 2)
    ((draw e 0 9 + 1) * 1000) (ex_derivativeMarketIDs p)) as
    (d & od & -> & Hpd & Hod & Hld & Had & Hcd & Hsd); [lia|lia|reflexivity|lia| |].
  { cbn [ol_price]. unfold order_price. lia. }
  cbn [go_bind].
  edestruct (order_loop_spec e sender sub (draw e 1 10000 + 1) false (0 <? draw e 3 2)
    ((draw e 0 9 + 1) * 1000 + 500 * ((nd - 1) * nd)) (ex_spotMarketIDs p)) as
    (s & os & -> & Hps & Hos & Hls & Has & Hcs & Hss); [nia|lia|reflexivity|lia| |].
  { cbn [ol_price]. rewrite Hpd. unfold order_price. fold nd. lia. }
  cbn [go_bind]. exists od, os, (ol_SubaccountId s).
  rewrite Hod, Hos, Hcd, Hcs. cbn [ol_orders ol_cancelAll app].
  rewrite Hbase'. split_and!; try done.
Qed.
End Facts.

(** ** Initial transactions

    The calls of [GenerateInitialTx] for a list of requests, in order, with
    their results. *)
Fixpoint run_initial {P} `{TxProvider P} (e : Env) (p : P) (reqs : list TxRequest)
    : P * list (go (option baseTx)) :=
  match reqs with
  | [] => (p, [])
  | req :: rest =>
      let '(p1, r) := GenerateInitialTx e p req in
      let '(p2, rs) := run_initial e p1 rest in (p2, r :: rs)
  end.

(** The requests the stresser makes: one per account, by index, with TxIdx 0. *)
Definition account_requests (reqs : list TxRequest) : Prop :=
  forall k req, reqs !! k = Some req -> FromIdx req = Z.of_nat k /\ TxIdx req = 0.

Lemma run_initial_idle {P} `{TxProvider P} e (p : P) reqs :
  (forall req, req ∈ reqs -> GenerateInitialTx e p req = (p, Ok None)) ->
  run_initial e p reqs = (p, repeat (Ok None) (length reqs)).
Proof.
  induction reqs as [|req reqs IH]; intros Hi; [done|]. cbn [run_initial].
  rewrite Hi by left. rewrite IH; [done|]. intros r Hr. apply Hi. by right.
Qed.

Lemma account_requests_rest req reqs r :
  account_requests (req :: reqs) -> r ∈ reqs -> FromIdx r <> 0.
Proof.
  intros Ha [k Hk]%list_elem_of_lookup. destruct (Ha (S k) r Hk). lia.
Qed.

(** ** The interface's laws *)

Definition same_tags (t : baseTx) (req : TxRequest) : Prop :=
  fromIdx t = FromIdx req /\ txIdx t = TxIdx req /\ from t = From req.

Section Laws.
Context `{TC : TxConfig, CR : Crypto, SM : SdkMath, EL : EthLib}.

Lemma feeBuildAndSignTx_WithBytes price gas memo c t t' :
  feeBuildAndSignTx price gas memo c t = Ok t' -> exists enc, t' = WithBytes t enc.
Proof.
  unfold feeBuildAndSignTx. intros H. repeat (apply go_bind_Ok in H as (? & _ & H)).
  simplify_eq. eauto.
Qed.

(** Peels the binds of a provider's [GenerateTx] off its result. *)
Ltac generated H :=
  repeat first
    [ apply go_bind_Ok in H as (? & _ & H)
    | match type of H with (if ?b then _ else _) = _ => destruct b; [done|] end ];
  simplify_eq; done.

#[export] Instance bankSend_laws : TxProviderLaws bankSendProvider.
Proof.
  constructor; cbn.
  - intros e p req t H. unfold bankSend_GenerateTx in H. generated H.
  - intros p c t t' [enc ->]%feeBuildAndSignTx_WithBytes. done.
  - done.
Qed.

#[export] Instance bankMultiSend_laws : TxProviderLaws bankMultiSendProvider.
Proof.
  constructor; cbn.
  - intros e p req t H. unfold bankMultiSend_GenerateTx in H. generated H.
  - intros p c t t' [enc ->]%feeBuildAndSignTx_WithBytes. done.
  - done.
Qed.

#[export] Instance exchange_laws : TxProviderLaws exchangeBatchOrdersProvider.
Proof.
  constructor; cbn.
  - intros e p req t H. unfold exchange_GenerateTx in H. generated H.
  - intros p c t t' [enc ->]%feeBuildAndSignTx_WithBytes. done.
  - done.
Qed.
End Laws.

(** ** Witnesses *)

Lemma demo_draw_below (i : nat) n : 0 < n -> 0 <= n - 1 < n.
Proof. lia. Qed.

Definition demo_env : Env :=
  {| clock _ := "2024-01-01T00:00:00Z"; draw i n := n - 1; draw_below := demo_draw_below |}.

Definition demo_req : TxRequest :=
  {| Keys := [[7]; [8]; [9]]; From := demo_account; FromIdx := 1; TxIdx := 4 |}.

Definition demo_multi : bankMultiSendProvider :=
  {| bm_sendAmount := {| Denom := "inj"; Amount := 1 |}; bm_minGasPrice := {| Denom := "inj"; Amount := 1 |};
     bm_maxGasLimit := 18000000; bm_memoAttach := "00"; bm_numTargets := 3 |}.

Lemma multiSend_conserves_witness :
  @NewBankMultiSendProvider model_math (Ok [0]) "1inj" "1inj" 3 = Ok demo_multi /\
  exists total outs,
    @bankMultiSend_GenerateTx model_crypto model_math demo_multi demo_req =
      Ok (request_tx demo_req [MsgMultiSend (@Address model_crypto [7], [total]) outs]) /\
    Z.of_nat (length outs) = 3.
Proof.
  split; [reflexivity|].
  destruct (@multiSend_conserves model_crypto model_math model_math_laws (Ok [0]) "1inj" "1inj" 3
    demo_multi demo_req) as (total & outs & H1 & H2 & _);
    [reflexivity|done|done|reflexivity|reflexivity|].
  exists total, outs. exact (conj H1 H2).
Defined.

Definition demo_unsigned : baseTx := request_tx demo_req [MsgSend [1] [2] []].

Definition demo_price : Coin := {| Denom := "inj"; Amount := 2 |}.

Definition demo_send_signed : baseTx :=
  match @feeBuildAndSignTx model_txconfig model_crypto model_math demo_price 150000 ""
          {| ChainID := "c" |} demo_unsigned with
  | Ok t => t
  | _ => demo_unsigned
  end.

Lemma feeBuildAndSignTx_pays_witness : msgs demo_send_signed = msgs demo_unsigned.
Proof.
  destruct (@feeBuildAndSignTx_pays model_txconfig model_txconfig_laws model_crypto model_math
    model_math_laws demo_price 150000 "" {| ChainID := "c" |} demo_unsigned demo_send_signed)
    as (_ & _ & _ & H & _); [reflexivity|exact H].
Defined.

Definition demo_exchange : exchangeBatchOrdersProvider :=
  {| ex_spotMarketIDs := ["0x01"]; ex_derivativeMarketIDs := ["0x02"; "0x03"];
     ex_minGasPrice := {| Denom := "inj"; Amount := 1 |}; ex_maxGasLimit := 150000;
     ex_memoAttach := "" |}.

Lemma exchange_orders_witness :
  exists derivs spots : list Order, length derivs = 2%nat /\ length spots = 1%nat.
Proof.
  destruct (@exchange_orders model_crypto model_math model_math_laws model_eth demo_env demo_exchange
    demo_req) as (d & s & _ & _ & H1 & H2 & _); [vm_compute; discriminate..|].
  exists d, s. exact (conj H1 H2).
Defined.
