(* ===== verification/EthPayload.v ===== *)
(** * Package payload: the Ethereum providers

    The shared signer (eth_signer.go) and the providers that send an Ethereum
    transaction per request: value transfers, contract calls, contract
    deployments and the internal-call benchmark. *)

From Stdlib Require Import ZArith Lia Ascii String.
From stdpp Require Import base list strings numbers.
From S2P Require Import Prelude GoStrings Float64 Sdk SdkModel Chain Payload.

Open Scope string_scope.
Open Scope Z_scope.
Open Scope list_scope.

Section Eth.
Context `{TC : TxConfig, CR : Crypto, SM : SdkMath, EL : EthLib, EB : !EthBuild}.

(** ** eth_signer.go *)

(** [ethSigner] is the latest signer of chain [es_chainID]. *)
Record ethTxBuilderAndSigner := { es_chainID : Z; feeDenom : string }.

(** The message pointed to by [Msgs()[0]] after an assignment through it. *)
Definition set_msg0 (t : baseTx) (m : Msg) : baseTx :=
  {| from := from t; msgs := m :: tail (msgs t); txBytes := txBytes t; fromIdx := fromIdx t;
     txIdx := txIdx t |}.

(** What follows the signature: the Cosmos transaction around the message. *)
Definition eth_build (s : ethTxBuilderAndSigner) (m : Msg) (unsignedTx : baseTx) : go baseTx :=
  when bool_decide (is_Some EthExtensionAny)
    raise ENew "failed to init NewAnyWithValue for ExtensionOptionsEthereumTx";
  let! builder :=
    match SetEthExtension NewTxBuilder with
    | Err _ => Err (ENew "txBuilder isn't authtx.ExtensionOptionsTxBuilder")
    | r => r
    end in
  let! tx := go_wrap "failed to build MsgEthereumTx" (EthBuildTx builder m (feeDenom s)) in
  let! encoded := Client_Encode tx in
  Ok (WithBytes unsignedTx encoded).

(** The unsigned transaction as it is left, and the result. *)
Definition eth_BuildAndSignTx (s : ethTxBuilderAndSigner) (client : Client) (unsignedTx : baseTx)
    : baseTx * go baseTx :=
  match index (msgs unsignedTx) 0 with
  | Ok (MsgEthereumTx (Some tx) oldSig oldFrom) =>
      let txHash := eth_SignerHash (es_chainID s) tx in
      match ecdsa_Sign txHash (Key (from unsignedTx)) with
      | Ok sig =>
          match eth_WithSignature (es_chainID s) tx sig with
          | Some e =>
              (set_msg0 unsignedTx (MsgEthereumTx None None oldFrom),
               Err (EWrap "failed to update tx with signature" e))
          | None =>
              let m := MsgEthereumTx (Some tx) (Some sig) (Some (Address (Key (from unsignedTx)))) in
              (set_msg0 unsignedTx m, eth_build s m (set_msg0 unsignedTx m))
          end
      | Err e => (unsignedTx, Err (EWrap "failed to sign tx hash" e))
      | Panic p => (unsignedTx, Panic p)
      end
  | Ok (MsgEthereumTx None _ _) => (unsignedTx, Panic "nil transaction")
  | Ok _ => (unsignedTx, Panic "interface conversion: sdk.Msg is not *evmtypes.MsgEthereumTx")
  | Err e => (unsignedTx, Err e)
  | Panic p => (unsignedTx, Panic p)
  end.

(** ** eth_send_stress.go *)

Definition eip1559InitialBaseFee : Z := 1000000000.
Definition noValue : Z := 0.

(** The gas price of an Ethereum provider: at least the initial base fee. *)
Definition eth_minGasPrice (minGasPrice : string) : go Coin :=
  let! c := go_wrap "failed to parse minGasPrice coin" (ParseCoinNormalized minGasPrice) in
  Ok (if Amount c <? eip1559InitialBaseFee
      then {| Denom := Denom c; Amount := eip1559InitialBaseFee |} else c).

(** The conversion [ethcmn.Address(b)] of a slice to an array of 20 bytes. *)
Definition Address_of_slice (b : bytes) : go bytes :=
  if (length b <? 20)%nat then Panic "cannot convert slice to array" else Ok (take 20 b).

(** [evmtypes.NewTxWithData(&LegacyTx{...})] for a request. *)
Definition eth_msg (req : TxRequest) (to : option bytes) (value gas price : Z) (data : bytes) : Msg :=
  MsgEthereumTx
    (Some {| Nonce := acc_Sequence (From req); To := to; Value := value; Gas := gas;
             GasPrice := price; Data := data |}) None None.

Record ethSendProvider := {
  send_signer : ethTxBuilderAndSigner;
  send_sendAmount : Coin;
  send_minGasPrice : Coin;
  send_maxGasLimit : Z
}.

Definition NewEthSendProvider (ethChainID : Z) (minGasPrice sendAmount : string) : go ethSendProvider :=
  let! parsedAmount := go_wrap "failed to parse amount coin" (ParseCoinNormalized sendAmount) in
  let! price := eth_minGasPrice minGasPrice in
  Ok {| send_signer := {| es_chainID := ethChainID; feeDenom := Denom price |};
        send_sendAmount := parsedAmount; send_minGasPrice := price; send_maxGasLimit := 21000 |}.

Definition ethSend_GenerateTx (p : ethSendProvider) (req : TxRequest) : go baseTx :=
  let! to := receiver req 1 in
  let! toEth := Address_of_slice to in
  Ok (request_tx req
    [eth_msg req (Some toEth) (Amount (send_sendAmount p)) (send_maxGasLimit p)
       (Amount (send_minGasPrice p)) []]).

#[export] Instance ethSend_TxProvider : TxProvider ethSendProvider := {|
  prov_Name _ := "eth_send_stress";
  GenerateInitialTx _ p _ := (p, Ok None);
  GenerateTx _ p req := (p, ethSend_GenerateTx p req);
  BuildAndSignTx p c t := (p, (eth_BuildAndSignTx (send_signer p) c t).1,
                           (eth_BuildAndSignTx (send_signer p) c t).2)
|}.

(** ** eth_call_stress.go *)

Definition zero_address : bytes := repeat 0 20.

Record ethCallProvider := {
  call_signer : ethTxBuilderAndSigner;
  call_minGasPrice : Coin;
  call_maxGasLimit : Z;
  call_maxGasLimitDeployment : Z;
  call_contractAddress : bytes
}.

Definition NewEthCallProvider (ethChainID : Z) (minGasPrice : string) : go ethCallProvider :=
  let! price := eth_minGasPrice minGasPrice in
  match abi_Get "Counter" with
  | Some e => Err (EWrap "failed to parse Counter contract ABI" e)
  | None =>
      Ok {| call_signer := {| es_chainID := ethChainID; feeDenom := Denom price |};
            call_minGasPrice := price; call_maxGasLimit := 50000;
            call_maxGasLimitDeployment := 230000; call_contractAddress := zero_address |}
  end.

Definition ethCall_GenerateTx (p : ethCallProvider) (req : TxRequest) : go baseTx :=
  when bool_decide (call_contractAddress p = zero_address)
    raise ENew "contract address is not set";
  let! callData := go_wrap "failed to pack contract call data" (abi_Pack "Counter" "increase" []) in
  Ok (request_tx req
    [eth_msg req (Some (call_contractAddress p)) noValue (call_maxGasLimit p)
       (Amount (call_minGasPrice p)) callData]).

(** The address the first sender's deployment will have. *)
Definition deployed_address (req : TxRequest) : bytes :=
  CreateAddress (EthAddress BytesToAddress (From req)) (acc_Sequence (From req)).

Definition ethCall_GenerateInitialTx (p : ethCallProvider) (req : TxRequest)
    : ethCallProvider * go (option baseTx) :=
  if negb (FromIdx req =? 0) || negb (TxIdx req =? 0) then (p, Ok None)
  else
    ({| call_signer := call_signer p; call_minGasPrice := call_minGasPrice p;
        call_maxGasLimit := call_maxGasLimit p;
        call_maxGasLimitDeployment := call_maxGasLimitDeployment p;
        call_contractAddress := deployed_address req |},
     Ok (Some (request_tx req
       [eth_msg req None noValue (call_maxGasLimitDeployment p) (Amount (call_minGasPrice p))
          (contract_Bin "Counter")]))).

#[export] Instance ethCall_TxProvider : TxProvider ethCallProvider := {|
  prov_Name _ := "eth_call_stress";
  GenerateInitialTx _ p req := ethCall_GenerateInitialTx p req;
  GenerateTx _ p req := (p, ethCall_GenerateTx p req);
  BuildAndSignTx p c t := (p, (eth_BuildAndSignTx (call_signer p) c t).1,
                           (eth_BuildAndSignTx (call_signer p) c t).2)
|}.

(** ** eth_deploy_stress.go *)

Record ethDeployProvider := {
  dep_signer : ethTxBuilderAndSigner;
  dep_minGasPrice : Coin;
  dep_maxGasLimit : Z
}.

Definition NewEthDeployProvider (ethChainID : Z) (minGasPrice : string) : go ethDeployProvider :=
  let! price := eth_minGasPrice minGasPrice in
  match abi_Get "Counter" with
  | Some e => Err (EWrap "failed to parse Counter contract ABI" e)
  | None =>
      Ok {| dep_signer := {| es_chainID := ethChainID; feeDenom := Denom price |};
            dep_minGasPrice := price; dep_maxGasLimit := 230000 |}
  end.

Definition ethDeploy_GenerateTx (p : ethDeployProvider) (req : TxRequest) : go baseTx :=
  Ok (request_tx req
    [eth_msg req None noValue (dep_maxGasLimit p) (Amount (dep_minGasPrice p))
       (contract_Bin "Counter")]).

#[export] Instance ethDeploy_TxProvider : TxProvider ethDeployProvider := {|
  prov_Name _ := "eth_deploy_stress";
  GenerateInitialTx _ p _ := (p, Ok None);
  GenerateTx _ p req := (p, ethDeploy_GenerateTx p req);
  BuildAndSignTx p c t := (p, (eth_BuildAndSignTx (dep_signer p) c t).1,
                           (eth_BuildAndSignTx (dep_signer p) c t).2)
|}.

(** ** eth_internal_call_stress.go *)

Record ethInternalCallProvider := {
  ic_signer : ethTxBuilderAndSigner;
  ic_minGasPrice : Coin;
  ic_maxGasLimit : Z;
  ic_maxGasLimitDeployment : Z;
  ic_iterations : Z;
  ic_contractAddress : bytes
}.

Definition defaultEthInternalCallIterations : Z := 100.

Definition NewEthInternalCallProvider (ethChainID : Z) (minGasPrice : string) (iterations : Z)
    : go ethInternalCallProvider :=
  let iterations := if iterations =? 0 then defaultEthInternalCallIterations else iterations in
  let! price := eth_minGasPrice minGasPrice in
  match abi_Get "BenchmarkInternalCall" with
  | Some e => Err (EWrap "failed to parse BenchmarkInternalCall contract ABI" e)
  | None =>
      Ok {| ic_signer := {| es_chainID := ethChainID; feeDenom := Denom price |};
            ic_minGasPrice := price; ic_maxGasLimit := u64 (28809 + u64 (2500 * iterations));
            ic_maxGasLimitDeployment := 320000; ic_iterations := iterations;
            ic_contractAddress := zero_address |}
  end.

Definition ethInternalCall_GenerateTx (p : ethInternalCallProvider) (req : TxRequest) : go baseTx :=
  when bool_decide (ic_contractAddress p = zero_address)
    raise ENew "contract address is not set";
  let! callData :=
    go_wrap "failed to pack contract call data"
      (abi_Pack "BenchmarkInternalCall" "benchmarkInternalCall" [i64 (ic_iterations p)]) in
  Ok (request_tx req
    [eth_msg req (Some (ic_contractAddress p)) noValue (ic_maxGasLimit p)
       (Amount (ic_minGasPrice p)) callData]).

Definition ethInternalCall_GenerateInitialTx (p : ethInternalCallProvider) (req : TxRequest)
    : ethInternalCallProvider * go (option baseTx) :=
  if negb (FromIdx req =? 0) || negb (TxIdx req =? 0) then (p, Ok None)
  else
    ({| ic_signer := ic_signer p; ic_minGasPrice := ic_minGasPrice p;
        ic_maxGasLimit := ic_maxGasLimit p;
        ic_maxGasLimitDeployment := ic_maxGasLimitDeployment p;
        ic_iterations := ic_iterations p; ic_contractAddress := deployed_address req |},
     Ok (Some (request_tx req
       [eth_msg req None noValue (ic_maxGasLimitDeployment p) (Amount (ic_minGasPrice p))
          (contract_Bin "BenchmarkInternalCall")]))).

#[export] Instance ethInternalCall_TxProvider : TxProvider ethInternalCallProvider := {|
  prov_Name _ := "eth_internal_call_stress";
  GenerateInitialTx _ p req := ethInternalCall_GenerateInitialTx p req;
  GenerateTx _ p req := (p, ethInternalCall_GenerateTx p req);
  BuildAndSignTx p c t := (p, (eth_BuildAndSignTx (ic_signer p) c t).1,
                           (eth_BuildAndSignTx (ic_signer p) c t).2)
|}.

(** ** Signing *)

(** The first message is an Ethereum one with a transaction. *)
Definition eth_signable (t : baseTx) : bool :=
  match msgs t with MsgEthereumTx (Some _) _ _ :: _ => true | _ => false end.

Lemma index_0 {A} (x : A) l : index (x :: l) 0 = Ok x.
Proof. done. Qed.

Lemma eth_BuildAndSignTx_Ok s c t t1 t' :
  eth_BuildAndSignTx s c t = (t1, Ok t') ->
  exists tx sig0 f0 rest sig enc,
    msgs t = MsgEthereumTx (Some tx) sig0 f0 :: rest /\
    ecdsa_Sign (eth_SignerHash (es_chainID s) tx) (Key (from t)) = Ok sig /\
    eth_WithSignature (es_chainID s) tx sig = None /\
    let m := MsgEthereumTx (Some tx) (Some sig) (Some (Address (Key (from t)))) in
    t1 = set_msg0 t m /\ eth_build s m t1 = Ok t' /\ t' = WithBytes t1 enc.
Proof.
  unfold eth_BuildAndSignTx. intros H.
  destruct (msgs t) as [|m0 rest] eqn:Em; [done|]. rewrite index_0 in H.
  destruct m0 as [| |[tx|] sig0 f0| | | | | |]; try done.
  destruct (ecdsa_Sign _ _) as [sig| |] eqn:Es; try done.
  destruct (eth_WithSignature _ _ _) eqn:Ew; [done|].
  injection H as <- Hb. pose proof Hb as Hb'.
  unfold eth_build in Hb. destruct (bool_decide _); [done|]. repeat (apply go_bind_Ok in Hb as (? & _ & Hb)). injection Hb as <-.
  exists tx, sig0, f0, rest, sig. eexists. eauto 10.
Qed.

Lemma eth_signer_panics s c t :
  eth_signable t = false -> is_Panic (eth_BuildAndSignTx s c t).2 = true.
Proof.
  unfold eth_signable, eth_BuildAndSignTx. intros H. destruct (msgs t) as [|m0 rest]; [done|].
  rewrite index_0. by destruct m0 as [| |[tx|] sig0 f0| | | | | |].
Qed.

Lemma eth_BuildAndSignTx_tags s c t t' :
  (eth_BuildAndSignTx s c t).2 = Ok t' -> fromIdx t' = fromIdx t /\ txIdx t' = txIdx t /\ from t' = from t.
Proof.
  intros H. destruct (eth_BuildAndSignTx s c t) as [t1 r] eqn:E. cbn in H. subst r.
  apply eth_BuildAndSignTx_Ok in E as (tx & s0 & f0 & rest & sig & enc & _ & _ & _ & -> & _ & ->). done.
Qed.

(** The Ethereum signer.  On a transaction whose first message is not an
    Ethereum one it panics, whatever the key.  When it succeeds, the signed
    transaction keeps the queue attributes and carries the same Ethereum
    transaction with the sender's signature of its hash and the sender's
    address; and, since it writes into the message it is given, signing what it
    leaves behind once more gives the same result: a retry is harmless. *)
Theorem eth_BuildAndSignTx_spec s c t :
  (eth_signable t = false -> is_Panic (eth_BuildAndSignTx s c t).2 = true) /\
  forall t1 t', eth_BuildAndSignTx s c t = (t1, Ok t') ->
    eth_BuildAndSignTx s c t1 = (t1, Ok t') /\
    fromIdx t' = fromIdx t /\ txIdx t' = txIdx t /\ from t' = from t /\
    exists tx sig0 f0 rest sig,
      msgs t = MsgEthereumTx (Some tx) sig0 f0 :: rest /\
      ecdsa_Sign (eth_SignerHash (es_chainID s) tx) (Key (from t)) = Ok sig /\
      msgs t' = MsgEthereumTx (Some tx) (Some sig) (Some (Address (Key (from t)))) :: rest.
Proof.
  split.
  - apply eth_signer_panics.
  - intros t1 t' (tx & s0 & f0 & rest & sig & enc & Em & Es & Ew & Ht1 & Hb & ->)%eth_BuildAndSignTx_Ok.
    split.
    + set (m := MsgEthereumTx (Some tx) (Some sig) _) in *.
      assert (Hset : set_msg0 t1 m = t1) by (rewrite Ht1; reflexivity).
      assert (Hf : from t1 = from t) by (rewrite Ht1; reflexivity).
      assert (Hm : msgs t1 = m :: rest) by (rewrite Ht1; cbn; by rewrite Em).
      unfold eth_BuildAndSignTx. rewrite Hm, index_0. unfold m at 1. rewrite Hf, Es, Ew.
      fold m. by rewrite Hset, Hb.
    + subst t1. split_and!; try done. exists tx, s0, f0, rest, sig. cbn. rewrite Em. done.
Qed.

(** ** Deploying once, then calling *)

(** The contract-call providers over the stresser's initial requests (one
    per account, by index): the first account's request yields the only initial
    transaction, a deployment at its current sequence, every other one yields
    none; and from then on every generated transaction calls the address of that
    deployment, with the sender's sequence as its nonce.  Before that, generation
    fails. *)
Theorem ethCall_deploys_once e p req reqs callData r :
  account_requests (req :: reqs) -> deployed_address req <> zero_address ->
  abi_Pack "Counter" "increase" [] = Ok callData ->
  (call_contractAddress p = zero_address -> exists err, ethCall_GenerateTx p r = Err err) /\
  exists p' deploy,
    run_initial e p (req :: reqs) = (p', Ok (Some deploy) :: repeat (Ok None) (length reqs)) /\
    msgs deploy = [eth_msg req None 0 (call_maxGasLimitDeployment p) (Amount (call_minGasPrice p))
                     (contract_Bin "Counter")] /\
    ethCall_GenerateTx p' r = Ok (request_tx r
      [eth_msg r (Some (CreateAddress (EthAddress BytesToAddress (From req)) (acc_Sequence (From req))))
         0 (call_maxGasLimit p) (Amount (call_minGasPrice p)) callData]).
Proof.
  intros Ha Hz Hpack. split.
  { intros Hp. unfold ethCall_GenerateTx. rewrite bool_decide_true by done. eauto. }
  destruct (Ha 0%nat req eq_refl) as [H0 H1].
  cbn [run_initial GenerateInitialTx ethCall_TxProvider]. unfold ethCall_GenerateInitialTx at 1.
  rewrite H0, H1. change (Z.of_nat 0) with 0. cbn [Z.eqb negb orb].
  rewrite run_initial_idle.
  2: { intros r' Hr'. pose proof (account_requests_rest _ _ _ Ha Hr'). cbn.
       unfold ethCall_GenerateInitialTx. by rewrite (proj2 (Z.eqb_neq _ _)). }
  eexists _, _. split_and!; [done|done|].
  unfold ethCall_GenerateTx. cbn [call_contractAddress]. rewrite bool_decide_false by done.
  by rewrite Hpack.
Qed.

(** ** Gas *)

(** Gas of the Ethereum providers: every constructor uses the parsed gas price
    or the initial base fee of 10^9, whichever is higher; the internal-call
    benchmark asks for 28809 gas plus 2500 an iteration (100 iterations by
    default), which wraps around only past 7378697629483809 iterations. *)
Theorem eth_gas_settings chainID minGasPrice amount iterations price :
  ParseCoinNormalized minGasPrice = Ok price ->
  0 <= iterations <= 7378697629483809 ->
  (forall p, NewEthSendProvider chainID minGasPrice amount = Ok p ->
     Amount (send_minGasPrice p) = Z.max (Amount price) 1000000000 /\ send_maxGasLimit p = 21000) /\
  (forall p, NewEthCallProvider chainID minGasPrice = Ok p ->
     Amount (call_minGasPrice p) = Z.max (Amount price) 1000000000 /\
     call_contractAddress p = zero_address) /\
  (forall p, NewEthDeployProvider chainID minGasPrice = Ok p ->
     Amount (dep_minGasPrice p) = Z.max (Amount price) 1000000000) /\
  (forall p, NewEthInternalCallProvider chainID minGasPrice iterations = Ok p ->
     Amount (ic_minGasPrice p) = Z.max (Amount price) 1000000000 /\
     ic_iterations p = (if iterations =? 0 then 100 else iterations) /\
     ic_maxGasLimit p = 28809 + 2500 * ic_iterations p /\ ic_maxGasLimit p < 2 ^ 64).
Proof.
  intros Hp Hi.
  assert (Hprice : exists c, eth_minGasPrice minGasPrice = Ok c /\ Amount c = Z.max (Amount price) 1000000000).
  { unfold eth_minGasPrice, eip1559InitialBaseFee. rewrite Hp. cbn. eexists; split; [done|].
    destruct (Z.ltb_spec (Amount price) 1000000000); cbn; lia. }
  destruct Hprice as (c & Hc & Hmax).
  unfold NewEthSendProvider, NewEthCallProvider, NewEthDeployProvider, NewEthInternalCallProvider.
  rewrite Hc. cbv zeta. split_and!; intros p H.
  - apply go_bind_Ok in H as (amt & _ & [= <-]). done.
  - cbn in H. destruct (abi_Get "Counter"); simplify_eq. done.
  - cbn in H. destruct (abi_Get "Counter"); simplify_eq. done.
  - cbn in H. destruct (abi_Get "BenchmarkInternalCall"); [done|]. injection H as <-.
    cbn [ic_minGasPrice ic_iterations ic_maxGasLimit]. split_and!; [done|done| |];
      unfold defaultEthInternalCallIterations;
      destruct (Z.eqb_spec iterations 0); rewrite !u64_id by (rewrite ?u64_id by width; width); lia.
Qed.

(** ** The interface's laws *)

Ltac eth_provider_laws :=
  constructor; cbn;
  [ intros e p req t H;
    unfold ethSend_GenerateTx, ethCall_GenerateTx, ethDeploy_GenerateTx, ethInternalCall_GenerateTx in H;
    repeat first
      [ apply go_bind_Ok in H as (? & _ & H)
      | match type of H with (if ?b then _ else _) = _ => destruct b; [done|] end ];
    simplify_eq; done
  | intros p c t t'; apply eth_BuildAndSignTx_tags
  | intros e p req t; unfold ethCall_GenerateInitialTx, ethInternalCall_GenerateInitialTx;
    try (destruct (_ || _)); cbn; by intros; simplify_eq ].

#[export] Instance ethSend_laws : TxProviderLaws ethSendProvider.
Proof. eth_provider_laws. Qed.
#[export] Instance ethCall_laws : TxProviderLaws ethCallProvider.
Proof. eth_provider_laws. Qed.
#[export] Instance ethDeploy_laws : TxProviderLaws ethDeployProvider.
Proof. eth_provider_laws. Qed.
#[export] Instance ethInternalCall_laws : TxProviderLaws ethInternalCallProvider.
Proof. eth_provider_laws. Qed.
End Eth.

(** ** Witnesses *)

Definition demo_eth_signer : ethTxBuilderAndSigner := {| es_chainID := 1776; feeDenom := "inj" |}.

Definition demo_eth_tx : baseTx :=
  request_tx demo_req [eth_msg demo_req (Some zero_address) 1 21000 1000000000 []].

Definition demo_eth_result : baseTx * go baseTx :=
  @eth_BuildAndSignTx model_txconfig model_crypto model_eth model_ethbuild demo_eth_signer
    {| ChainID := "c" |} demo_eth_tx.

Definition demo_eth_signed : baseTx := match demo_eth_result.2 with Ok t => t | _ => demo_eth_tx end.

Lemma eth_BuildAndSignTx_spec_witness :
  is_Panic (@eth_BuildAndSignTx model_txconfig model_crypto model_eth model_ethbuild demo_eth_signer
    {| ChainID := "c" |} demo_unsigned).2 = true /\
  @eth_BuildAndSignTx model_txconfig model_crypto model_eth model_ethbuild demo_eth_signer
    {| ChainID := "c" |} demo_eth_result.1 = (demo_eth_result.1, Ok demo_eth_signed).
Proof.
  split.
  - apply (@eth_BuildAndSignTx_spec model_txconfig model_crypto model_eth model_ethbuild). reflexivity.
  - apply (@eth_BuildAndSignTx_spec model_txconfig model_crypto model_eth model_ethbuild
      demo_eth_signer {| ChainID := "c" |} demo_eth_tx). reflexivity.
Defined.

Definition demo_call : ethCallProvider :=
  {| call_signer := demo_eth_signer; call_minGasPrice := {| Denom := "inj"; Amount := 1000000000 |};
     call_maxGasLimit := 50000; call_maxGasLimitDeployment := 230000;
     call_contractAddress := zero_address |}.

Definition demo_initial_reqs : list TxRequest :=
  [{| Keys := [[7]]; From := demo_account; FromIdx := 0; TxIdx := 0 |};
   {| Keys := [[8]]; From := demo_account; FromIdx := 1; TxIdx := 0 |}].

Lemma ethCall_deploys_once_witness :
  exists p' deploy,
    @run_initial _ (@ethCall_TxProvider model_txconfig model_crypto model_eth model_ethbuild) demo_env
      demo_call demo_initial_reqs = (p', [Ok (Some deploy); Ok None]).
Proof.
  destruct (@ethCall_deploys_once model_txconfig model_crypto model_eth model_ethbuild demo_env demo_call
    {| Keys := [[7]]; From := demo_account; FromIdx := 0; TxIdx := 0 |}
    [{| Keys := [[8]]; From := demo_account; FromIdx := 1; TxIdx := 0 |}] [8] demo_req)
    as (_ & p' & d & H & _); [|discriminate|reflexivity|].
  - intros [|[|k]] req Hr; simplify_eq/=; done.
  - exists p', d. exact H.
Defined.

Definition demo_internal : ethInternalCallProvider :=
  {| ic_signer := demo_eth_signer; ic_minGasPrice := {| Denom := "inj"; Amount := 1000000000 |};
     ic_maxGasLimit := 278809; ic_maxGasLimitDeployment := 320000; ic_iterations := 100;
     ic_contractAddress := zero_address |}.

Lemma eth_gas_settings_witness : ic_maxGasLimit demo_internal = 28809 + 2500 * 100.
Proof.
  destruct (@eth_gas_settings model_math model_eth 1776 "1inj" "1inj" 0 {| Denom := "inj"; Amount := 1 |})
    as (_ & _ & _ & H); [reflexivity|lia|].
  destruct (H demo_internal eq_refl) as (_ & _ & Hg & _). exact Hg.
Defined.
