(* ===== verification/WasmPayload.v ===== *)
(** * Package payload: the CosmWasm providers

    Storing code, instantiating and executing a contract
    (wasm_store_stress.go, wasm_init_stress.go, wasm_exec_stress.go), the
    paginated query for the number of codes, and the checksum of a contract
    (wasm_checksum.go, without the JSON methods, which nothing calls).  The embedded byte code is a parameter. *)

From Stdlib Require Import ZArith Lia Ascii String.
From stdpp Require Import base list strings numbers.
From S2P Require Import Prelude GoStrings Float64 Sdk SdkModel Chain Payload.

Open Scope string_scope.
Open Scope Z_scope.
Open Scope list_scope.

(** ** wasm_checksum.go *)

Abbreviation WasmChecksum := bytes.

Section Checksum.
Context `{CR : Crypto}.

Definition WasmChecksum_String (cs : WasmChecksum) : string := hex_EncodeToString cs.

Definition wasm_magic : bytes := [0; 97; 115; 109].

Definition WasmCreateChecksum (wasm : bytes) : go WasmChecksum :=
  when (length wasm =? 0)%nat raise ENew "wasm bytes nil or empty";
  when (length wasm <? 4)%nat raise ENew "wasm bytes shorter than 4 bytes";
  when negb (bool_decide (take 4 wasm = wasm_magic))
    raise ENew "wasm bytes do not start with Wasm magic number";
  Ok (sha256_Sum256 wasm).
End Checksum.

Section Wasm.
Context `{TC : TxConfig, CR : Crypto, SM : SdkMath, WQ : WasmQuery}.
Context (cw20ByteCode : bytes).

Definition defaultMaxGasLimit : Z := 10000000.

(** ** wasm_store_stress.go *)

Record wasmStoreCodeProvider := {
  ws_minGasPrice : Coin;
  ws_maxGasLimit : Z;
  ws_memoAttach : string
}.

Definition NewWasmStoreCodeProvider (minGasPrice : string) : go wasmStoreCodeProvider :=
  let! price := go_wrap "failed to parse minGasPrice coin" (ParseCoinNormalized minGasPrice) in
  Ok {| ws_minGasPrice := price; ws_maxGasLimit := defaultMaxGasLimit; ws_memoAttach := "" |}.

Definition wasmStore_GenerateTx (p : wasmStoreCodeProvider) (req : TxRequest) : go baseTx :=
  let sender := AccAddress (Key (From req)) in
  Ok (request_tx req [MsgStoreCode sender cw20ByteCode]).

Definition wasmStore_BuildAndSignTx (p : wasmStoreCodeProvider) (client : Client) (t : baseTx)
    : go baseTx :=
  feeBuildAndSignTx (ws_minGasPrice p) (ws_maxGasLimit p) (ws_memoAttach p) client t.

Definition wasmStore_TxProvider : TxProvider wasmStoreCodeProvider := {|
  prov_Name _ := "wasm_store_code_stress";
  GenerateInitialTx _ p _ := (p, Ok None);
  GenerateTx _ p req := (p, wasmStore_GenerateTx p req);
  BuildAndSignTx p c t := (p, t, wasmStore_BuildAndSignTx p c t)
|}.

(** ** wasm_init_stress.go *)

(** [fmt.Sprintf(initMsgTemplate, address, minter)] *)
Definition initMsg (address minter : string) : string :=
  dquotes "{
    'name': 'CW20Solana',
    'symbol': 'SOL',
    'decimals': 6,
    'initial_balances': [
        {
            'address': " +:+ strconv_Quote address +:+ dquotes ",
            'amount': '10000000000'
        }
    ],
    'mint': {
        'minter': " +:+ strconv_Quote minter +:+ dquotes "
    },
    'marketing': {}
}".

(** One turn of the pagination loop a unit of fuel. *)
Fixpoint codes_loop (fuel : nat) (totalCodes : Z) (nextKey : bytes) : option (go Z) :=
  match fuel with
  | O => None
  | S fuel' =>
      match wq_Codes nextKey with
      | Err e => Some (Err (EWrap "failed to query CW codes" e))
      | Panic p => Some (Panic p)
      | Ok (n, next) =>
          let totalCodes := i64 (totalCodes + n) in
          if (0 <? length next)%nat then codes_loop fuel' totalCodes next
          else Some (Ok (u64 totalCodes))
      end
  end.

(** The rank of the first page is fuel enough ([codes_loop_total]). *)
Definition queryLastWasmContractID : go Z :=
  match codes_loop (S (wq_rank [])) 0 [] with
  | Some r => r
  | None => Panic "pagination does not end"
  end.

Record wasmInitContractProvider := {
  wi_minGasPrice : Coin;
  wi_maxGasLimit : Z;
  wi_memoAttach : string;
  wi_contractCodeID : Z
}.

Definition NewWasmInitContractProvider (minGasPrice : string) : go wasmInitContractProvider :=
  let! price := go_wrap "failed to parse minGasPrice coin" (ParseCoinNormalized minGasPrice) in
  Ok {| wi_minGasPrice := price; wi_maxGasLimit := defaultMaxGasLimit; wi_memoAttach := "";
        wi_contractCodeID := 0 |}.

Definition one_inj : Coins := [{| Denom := "inj"; Amount := 1 |}].

Definition wasmInit_GenerateTx (e : Env) (p : wasmInitContractProvider) (req : TxRequest) : go baseTx :=
  let sender := AccAddress (Key (From req)) in
  Ok (request_tx req
    [MsgInstantiateContract sender sender (wi_contractCodeID p) (clock e 0) (initMsg sender sender)
       one_inj]).

Definition wasmInit_BuildAndSignTx (p : wasmInitContractProvider) (client : Client) (t : baseTx)
    : go baseTx :=
  feeBuildAndSignTx (wi_minGasPrice p) (wi_maxGasLimit p) (wi_memoAttach p) client t.

Definition wasmInit_GenerateInitialTx (p : wasmInitContractProvider) (req : TxRequest)
    : wasmInitContractProvider * go (option baseTx) :=
  if negb (FromIdx req =? 0) || negb (TxIdx req =? 0) then (p, Ok None)
  else
    let sender := AccAddress (Key (From req)) in
    let tx := request_tx req [MsgStoreCode sender cw20ByteCode] in
    match queryLastWasmContractID with
    | Err e => (p, Err (EWrap "failed to query last CW contract ID" e))
    | Panic m => (p, Panic m)
    | Ok lastID =>
        ({| wi_minGasPrice := wi_minGasPrice p; wi_maxGasLimit := wi_maxGasLimit p;
            wi_memoAttach := wi_memoAttach p; wi_contractCodeID := u64 (lastID + 1) |},
         Ok (Some tx))
    end.

Definition wasmInit_TxProvider : TxProvider wasmInitContractProvider := {|
  prov_Name _ := "wasm_init_contract_stress";
  GenerateInitialTx _ p req := wasmInit_GenerateInitialTx p req;
  GenerateTx e p req := (p, wasmInit_GenerateTx e p req);
  BuildAndSignTx p c t := (p, t, wasmInit_BuildAndSignTx p c t)
|}.

(** ** wasm_exec_stress.go *)

Record wasmExecContractProvider := {
  we_minGasPrice : Coin;
  we_maxGasLimit : Z;
  we_memoAttach : string;
  we_init2Salt : string;
  we_contractCodeHash : string;
  we_contractCodeID : Z;
  we_contractAddress : string
}.

Definition NewWasmExecContractProvider (now : string) (minGasPrice : string)
    : go wasmExecContractProvider :=
  let! price := go_wrap "failed to parse minGasPrice coin" (ParseCoinNormalized minGasPrice) in
  let! codeHash :=
    go_wrap "failed to create wasm checksum for CW20 contract" (WasmCreateChecksum cw20ByteCode) in
  Ok {| we_minGasPrice := price; we_maxGasLimit := defaultMaxGasLimit; we_memoAttach := "";
        we_init2Salt := now; we_contractCodeHash := WasmChecksum_String codeHash;
        we_contractCodeID := 0; we_contractAddress := "" |}.

Definition transferMsg (to : string) (amount : Z) : string :=
  dquotes "{'transfer':{'recipient': " +:+ strconv_Quote to +:+ dquotes ",'amount': '"
  +:+ strconv_Itoa amount +:+ dquotes "'}}".

Definition wasmExec_GenerateTx (p : wasmExecContractProvider) (req : TxRequest) : go baseTx :=
  let! toKey := index (Keys req) (receiver_idx req 1) in
  let to := AccAddress toKey in
  let sender := AccAddress (Key (From req)) in
  Ok (request_tx req [MsgExecuteContract sender (we_contractAddress p) (transferMsg to 0) one_inj]).

Definition wasmExec_BuildAndSignTx (p : wasmExecContractProvider) (client : Client) (t : baseTx)
    : go baseTx :=
  feeBuildAndSignTx (we_minGasPrice p) (we_maxGasLimit p) (we_memoAttach p) client t.

(** [hex.EncodeToString] of the bytes of a string. *)
Fixpoint string_bytes (s : string) : bytes :=
  match s with
  | EmptyString => []
  | String c s' => char_code c :: string_bytes s'
  end.

Definition queryBuildAddress (p : wasmExecContractProvider) (sender codeHash initArgs : string)
    : go string :=
  go_wrap "failed to query build address"
    (wq_BuildAddress codeHash sender (hex_EncodeToString (string_bytes (we_init2Salt p))) initArgs).

Definition with_contract (p : wasmExecContractProvider) (id : Z) (addr : string)
    : wasmExecContractProvider :=
  {| we_minGasPrice := we_minGasPrice p; we_maxGasLimit := we_maxGasLimit p;
     we_memoAttach := we_memoAttach p; we_init2Salt := we_init2Salt p;
     we_contractCodeHash := we_contractCodeHash p; we_contractCodeID := id;
     we_contractAddress := addr |}.

Definition wasmExec_GenerateInitialTx (e : Env) (p : wasmExecContractProvider) (req : TxRequest)
    : wasmExecContractProvider * go (option baseTx) :=
  if negb (FromIdx req =? 0) || negb (TxIdx req =? 0) then (p, Ok None)
  else
    let sender := AccAddress (Key (From req)) in
    let initMsgBytes := initMsg sender sender in
    match queryLastWasmContractID with
    | Err err => (p, Err (EWrap "failed to query last CW contract ID" err))
    | Panic m => (p, Panic m)
    | Ok lastID =>
        let codeID := u64 (lastID + 1) in
        let p1 := with_contract p codeID (we_contractAddress p) in
        match queryBuildAddress p1 sender (we_contractCodeHash p1) initMsgBytes with
        | Err err => (p1, Err (EWrap "failed to query build address" err))
        | Panic m => (p1, Panic m)
        | Ok addr =>
            let p2 := with_contract p1 codeID addr in
            (p2, Ok (Some (request_tx req
              [MsgStoreCode sender cw20ByteCode;
               MsgInstantiateContract2 sender codeID (clock e 0) initMsgBytes one_inj
                 (we_init2Salt p2) true])))
        end
    end.

Definition wasmExec_TxProvider : TxProvider wasmExecContractProvider := {|
  prov_Name _ := "wasm_exec_contract_stress";
  GenerateInitialTx e p req := wasmExec_GenerateInitialTx e p req;
  GenerateTx _ p req := (p, wasmExec_GenerateTx p req);
  BuildAndSignTx p c t := (p, t, wasmExec_BuildAndSignTx p c t)
|}.

(** ** Counting the codes *)

(** The pages from a key on, by the number of codes each lists. *)
Inductive pages : bytes -> list Z -> Prop :=
| pages_last key n : wq_Codes key = Ok (n, []) -> pages key [n]
| pages_next key n next l :
    wq_Codes key = Ok (n, next) -> next <> [] -> pages next l -> pages key (n :: l).

Context `{WL : !WasmQueryLaws}.

Lemma pages_nonneg key l : pages key l -> Forall (fun n => 0 <= n) l.
Proof. induction 1; constructor; eauto using wq_count. Qed.

Lemma zsum_nonneg l : Forall (fun n => 0 <= n) l -> 0 <= zsum l.
Proof. unfold zsum. induction 1; simpl; lia. Qed.

Lemma u64_i64_add x y : u64 (i64 x + y) = u64 (x + y).
Proof.
  unfold u64, i64.
  replace ((x + 2 ^ 63) mod 2 ^ 64 - 2 ^ 63 + y) with ((x + 2 ^ 63) mod 2 ^ 64 + (y - 2 ^ 63)) by lia.
  rewrite Z.add_mod_idemp_l by lia. f_equal. lia.
Qed.

(** The fuel is enough, and the loop returns the error of a failing page or the
    number of codes on all pages. *)
Lemma codes_loop_total fuel total key :
  (wq_rank key < fuel)%nat -> (forall k m, wq_Codes k <> Panic m) ->
  (exists e, codes_loop fuel total key = Some (Err e)) \/
  exists l, pages key l /\ codes_loop fuel total key = Some (Ok (u64 (total + zsum l))).
Proof.
  intros Hr Hnp. revert total key Hr. induction fuel as [|fuel IH]; intros total key Hr; [lia|].
  cbn [codes_loop]. destruct (wq_Codes key) as [[n next]|e|m] eqn:Ec; [|by eauto|by apply Hnp in Ec].
  destruct next as [|x next].
  - right. exists [n]. split; [by constructor|]. cbn [length Nat.ltb Nat.leb zsum foldr].
    by rewrite <- (Z.add_0_r (i64 _)), u64_i64_add, !Z.add_0_r.
  - cbn [length]. rewrite (proj2 (Nat.ltb_lt 0 (S _))) by lia.
    pose proof (wq_progress _ _ _ Ec ltac:(done)).
    destruct (IH (i64 (total + n)) (x :: next)) as [?|(l & Hl & ->)]; [lia|by left|].
    right. exists (n :: l). split; [by eapply pages_next|].
    rewrite u64_i64_add. cbn [zsum foldr]. unfold zsum. do 3 f_equal. lia.
Qed.

Lemma pages_det key l1 l2 : pages key l1 -> pages key l2 -> l1 = l2.
Proof.
  intros H1. revert l2. induction H1 as [key n Hc|key n next l Hc Hn Hp IH]; intros l2 H2;
    inversion H2 as [? ? Hc'|? ? ? ? Hc' Hn' Hp']; subst; rewrite Hc in Hc'; simplify_eq; try done.
  f_equal. eauto.
Qed.

Lemma pages_no_error fuel total key l e :
  pages key l -> codes_loop fuel total key <> Some (Err e).
Proof.
  intros H. revert fuel total. induction H as [key n Hc|key n next l Hc Hn Hp IH]; intros [|fuel] total;
    cbn [codes_loop]; [done| |done|]; rewrite Hc; [done|].
  destruct next; [done|]. apply IH.
Qed.

(** The pagination ends, with an error or the number of codes. *)
Lemma queryLast_total :
  (forall k m, wq_Codes k <> Panic m) ->
  (exists e, queryLastWasmContractID = Err e) \/
  exists l, pages [] l /\ queryLastWasmContractID = Ok (u64 (zsum l)).
Proof.
  intros Hnp. unfold queryLastWasmContractID.
  destruct (codes_loop_total (S (wq_rank [])) 0 [] ltac:(lia) Hnp) as [[e ->]|(l & Hl & ->)]; eauto.
Qed.

(** The number of the last code, when every page can be read. *)
Lemma queryLast_pages counts :
  pages [] counts -> zsum counts < maxInt -> (forall k m, wq_Codes k <> Panic m) ->
  0 <= zsum counts /\ queryLastWasmContractID = Ok (zsum counts).
Proof.
  intros Hp Hs Hnp. pose proof (zsum_nonneg _ (pages_nonneg _ _ Hp)). split; [done|].
  destruct (queryLast_total Hnp) as [[err He]|(l & Hl & ->)].
  - unfold queryLastWasmContractID in He. destruct (codes_loop _ _ _) as [r'|] eqn:El; [|done].
    subst r'. by apply (pages_no_error _ _ _ _ _ Hp) in El.
  - rewrite (pages_det _ _ _ Hl Hp). rewrite u64_id by width. done.
Qed.

(** Provisioning a CosmWasm contract.  For the first account's initial request
    the instantiation provider either reports the failure of a page of the code
    query, and keeps its state, or has read every page: it stores the contract's
    code and every transaction it then generates instantiates code number
    (codes on the chain) + 1, the number the store will give it.  The execution
    provider's initial transaction stores the code and instantiates that same
    number at the address the node predicted, which its transactions then call. *)
Theorem wasm_provisioning e e' p q req r counts addr :
  pages [] counts -> zsum counts < maxInt -> (forall k m, wq_Codes k <> Panic m) ->
  FromIdx req = 0 -> TxIdx req = 0 ->
  let sender := AccAddress (Key (From req)) in
  let id := zsum counts + 1 in
  queryBuildAddress q sender (we_contractCodeHash q) (initMsg sender sender) = Ok addr ->
  (exists p' tx,
     wasmInit_GenerateInitialTx p req = (p', Ok (Some tx)) /\
     msgs tx = [MsgStoreCode sender cw20ByteCode] /\
     wasmInit_GenerateTx e' p' r = Ok (request_tx r
       [MsgInstantiateContract (AccAddress (Key (From r))) (AccAddress (Key (From r))) id (clock e' 0)
          (initMsg (AccAddress (Key (From r))) (AccAddress (Key (From r)))) one_inj])) /\
  (exists q' tx,
     wasmExec_GenerateInitialTx e q req = (q', Ok (Some tx)) /\
     msgs tx = [MsgStoreCode sender cw20ByteCode;
                MsgInstantiateContract2 sender id (clock e 0) (initMsg sender sender) one_inj
                  (we_init2Salt q) true] /\
     forall t, wasmExec_GenerateTx q' r = Ok t ->
       exists to, msgs t = [MsgExecuteContract (AccAddress (Key (From r))) addr (transferMsg to 0) one_inj]).
Proof.
  intros Hp Hs Hnp H0 H1 sender id Hb.
  destruct (queryLast_pages counts Hp Hs Hnp) as [H Hq].
  assert (Hid : u64 (zsum counts + 1) = id) by (apply u64_id; width).
  split.
  - unfold wasmInit_GenerateInitialTx. rewrite H0, H1, Hq. cbn [Z.eqb negb orb]. rewrite Hid.
    eexists _, _. split_and!; done.
  - unfold wasmExec_GenerateInitialTx. rewrite H0, H1, Hq. cbn [Z.eqb negb orb]. rewrite Hid.
    fold sender. unfold queryBuildAddress in *. cbn [with_contract we_init2Salt we_contractCodeHash].
    rewrite Hb. eexists _, _. split_and!; [done|done|].
    unfold wasmExec_GenerateTx. intros t (toKey & _ & [= <-])%go_bind_Ok. eauto.
Qed.

(** [WasmCreateChecksum] answers exactly for byte code that starts with the
    Wasm magic number, and then with its SHA-256; so the execution provider is
    created for such code only, and identifies it by that hash in hexadecimal. *)
Theorem WasmCreateChecksum_exact wasm :
  (forall cs, WasmCreateChecksum wasm = Ok cs <->
     (exists body, wasm = wasm_magic ++ body) /\ cs = sha256_Sum256 wasm) /\
  forall now price p, NewWasmExecContractProvider now price = Ok p ->
    (exists body, cw20ByteCode = wasm_magic ++ body) /\
    we_contractCodeHash p = hex_EncodeToString (sha256_Sum256 cw20ByteCode) /\
    we_contractAddress p = "".
Proof.
  assert (Hiff : forall w cs, WasmCreateChecksum w = Ok cs <->
     (exists body, w = wasm_magic ++ body) /\ cs = sha256_Sum256 w).
  { intros w cs. unfold WasmCreateChecksum. split.
    - intros H. repeat case_match; try done. injection H as <-. bool_facts.
      split; [|done]. exists (drop 4 w). apply bool_decide_eq_true in H2. rewrite <- H2.
      by rewrite take_drop.
    - intros [[body ->] ->]. cbn. done. }
  split; [apply Hiff|]. intros now price p H. unfold NewWasmExecContractProvider in H.
  apply go_bind_Ok in H as (c & _ & H). apply go_bind_Ok in H as (h & Hh%go_wrap_Ok & [= <-]).
  apply Hiff in Hh as [? ->]. done.
Qed.

(** ** The interface's laws *)

Lemma wasmStore_laws : @TxProviderLaws _ wasmStore_TxProvider.
Proof.
  constructor; cbn.
  - by intros e p req t [= <-].
  - by intros p c t t' [enc ->]%feeBuildAndSignTx_WithBytes.
  - done.
Qed.

Lemma wasmInit_laws : @TxProviderLaws _ wasmInit_TxProvider.
Proof.
  constructor; cbn.
  - by intros e p req t [= <-].
  - by intros p c t t' [enc ->]%feeBuildAndSignTx_WithBytes.
  - intros e p req t. unfold wasmInit_GenerateInitialTx. repeat case_match; by intros; simplify_eq/=.
Qed.

Lemma wasmExec_laws : @TxProviderLaws _ wasmExec_TxProvider.
Proof.
  constructor; cbn.
  - by intros e p req t (? & _ & [= <-])%go_bind_Ok.
  - by intros p c t t' [enc ->]%feeBuildAndSignTx_WithBytes.
  - intros e p req t. unfold wasmExec_GenerateInitialTx. repeat case_match; by intros; simplify_eq/=.
Qed.
End Wasm.

(** ** Witnesses *)

Definition demo_wasm : bytes := wasm_magic ++ [1; 0; 0; 0].

Definition demo_init : wasmInitContractProvider :=
  {| wi_minGasPrice := demo_price; wi_maxGasLimit := 10000000; wi_memoAttach := "";
     wi_contractCodeID := 0 |}.

Definition demo_exec : wasmExecContractProvider :=
  {| we_minGasPrice := demo_price; we_maxGasLimit := 10000000; we_memoAttach := "";
     we_init2Salt := "now"; we_contractCodeHash := "ab"; we_contractCodeID := 0;
     we_contractAddress := "" |}.

Definition demo_first_req : TxRequest :=
  {| Keys := [[7]]; From := demo_account; FromIdx := 0; TxIdx := 0 |}.

Lemma model_pages : @pages model_wasm [] [100; 100; 50].
Proof. eapply pages_next; [reflexivity|done|]. eapply pages_next; [reflexivity|done|]. by constructor. Qed.

Lemma wasm_provisioning_witness :
  exists p' tx,
    @wasmInit_GenerateInitialTx model_crypto model_wasm demo_wasm demo_init demo_first_req
      = (p', Ok (Some tx)) /\
    msgs tx = [MsgStoreCode (@AccAddress model_crypto [7]) demo_wasm].
Proof.
  destruct (@wasm_provisioning model_crypto model_wasm demo_wasm model_wasm_laws demo_env demo_env demo_init
    demo_exec demo_first_req demo_req [100; 100; 50]
    ("inj1" +:+ @AccAddress model_crypto [7])) as ((p' & tx & H1 & H2 & _) & _);
    [exact model_pages|reflexivity| |reflexivity|reflexivity|reflexivity|].
  - intros k m. cbn. by repeat case_decide.
  - exists p', tx. exact (conj H1 H2).
Defined.

Lemma WasmCreateChecksum_exact_witness :
  @WasmCreateChecksum model_crypto demo_wasm = Ok (@sha256_Sum256 model_crypto demo_wasm).
Proof.
  apply (@WasmCreateChecksum_exact model_crypto model_math demo_wasm). split; [|reflexivity].
  exists [1; 0; 0; 0]. reflexivity.
Defined.
