(* ===== verification/MixedPayload.v ===== *)
(** * Package payload: the mixed provider

    [MixedPayloadProvider] (mixed_payload.go) holds several providers behind
    the [TxProvider] interface and picks one at random, by frequency, at every
    call.  A provider held behind the interface is a value of [AnyProvider]. *)

From Stdlib Require Import ZArith Lia Ascii String.
From stdpp Require Import base list strings numbers.
From S2P Require Import Prelude GoStrings Float64 Sdk SdkModel Chain Payload EthPayload WasmPayload.

Open Scope string_scope.
Open Scope Z_scope.
Open Scope list_scope.

(** ** Configuration *)

Record BankSendConfig := { bsc_Frequency : float64; bsc_SendAmount : string }.
Record BankMultiSendConfig :=
  { bmc_Frequency : float64; bmc_SendAmount : string; bmc_NumTargets : Z }.
Record EthSendConfig := { esc_Frequency : float64; esc_SendAmount : string }.
Record ExchangeBatchOrdersConfig :=
  { xbc_Frequency : float64; xbc_SpotMarketIDs : list string; xbc_DerivativeMarketIDs : list string }.

(** The provider sections of the configuration; those of EthCall, EthDeploy and
    the three wasm providers hold a frequency only. *)
Record MixedPayloadConfig := {
  BankSend : option BankSendConfig;
  BankMultiSend : option BankMultiSendConfig;
  EthSend : option EthSendConfig;
  EthCall : option float64;
  EthDeploy : option float64;
  ExchangeBatchOrders : option ExchangeBatchOrdersConfig;
  WasmStoreCode : option float64;
  WasmInitContract : option float64;
  WasmExecContract : option float64
}.

Section Mixed.
Context `{TC : TxConfig, CR : Crypto, SM : SdkMath, EL : EthLib, EB : !EthBuild, WQ : WasmQuery}.
Context (cw20ByteCode : bytes).

(** A [TxProvider] value: which provider it is, with its state. *)
Inductive AnyProvider :=
| PBankSend (p : bankSendProvider)
| PBankMultiSend (p : bankMultiSendProvider)
| PEthSend (p : ethSendProvider)
| PEthCall (p : ethCallProvider)
| PEthDeploy (p : ethDeployProvider)
| PExchange (p : exchangeBatchOrdersProvider)
| PWasmStore (p : wasmStoreCodeProvider)
| PWasmInit (p : wasmInitContractProvider)
| PWasmExec (p : wasmExecContractProvider).

(** Method calls through the interface. *)
Definition on_fst {A B C} (f : A -> B) (x : A * C) : B * C := (f x.1, x.2).

Definition any_GenerateInitialTx (e : Env) (a : AnyProvider) (req : TxRequest)
    : AnyProvider * go (option baseTx) :=
  match a with
  | PBankSend p => on_fst PBankSend (GenerateInitialTx e p req)
  | PBankMultiSend p => on_fst PBankMultiSend (GenerateInitialTx e p req)
  | PEthSend p => on_fst PEthSend (GenerateInitialTx e p req)
  | PEthCall p => on_fst PEthCall (GenerateInitialTx e p req)
  | PEthDeploy p => on_fst PEthDeploy (GenerateInitialTx e p req)
  | PExchange p => on_fst PExchange (GenerateInitialTx e p req)
  | PWasmStore p => on_fst PWasmStore (@GenerateInitialTx _ (wasmStore_TxProvider cw20ByteCode) e p req)
  | PWasmInit p => on_fst PWasmInit (@GenerateInitialTx _ (wasmInit_TxProvider cw20ByteCode) e p req)
  | PWasmExec p => on_fst PWasmExec (@GenerateInitialTx _ (wasmExec_TxProvider cw20ByteCode) e p req)
  end.

Definition any_GenerateTx (e : Env) (a : AnyProvider) (req : TxRequest) : AnyProvider * go baseTx :=
  match a with
  | PBankSend p => on_fst PBankSend (GenerateTx e p req)
  | PBankMultiSend p => on_fst PBankMultiSend (GenerateTx e p req)
  | PEthSend p => on_fst PEthSend (GenerateTx e p req)
  | PEthCall p => on_fst PEthCall (GenerateTx e p req)
  | PEthDeploy p => on_fst PEthDeploy (GenerateTx e p req)
  | PExchange p => on_fst PExchange (GenerateTx e p req)
  | PWasmStore p => on_fst PWasmStore (@GenerateTx _ (wasmStore_TxProvider cw20ByteCode) e p req)
  | PWasmInit p => on_fst PWasmInit (@GenerateTx _ (wasmInit_TxProvider cw20ByteCode) e p req)
  | PWasmExec p => on_fst PWasmExec (@GenerateTx _ (wasmExec_TxProvider cw20ByteCode) e p req)
  end.

Definition any_BuildAndSignTx (a : AnyProvider) (c : Client) (t : baseTx)
    : AnyProvider * baseTx * go baseTx :=
  match a with
  | PBankSend p => on_fst (on_fst PBankSend) (BuildAndSignTx p c t)
  | PBankMultiSend p => on_fst (on_fst PBankMultiSend) (BuildAndSignTx p c t)
  | PEthSend p => on_fst (on_fst PEthSend) (BuildAndSignTx p c t)
  | PEthCall p => on_fst (on_fst PEthCall) (BuildAndSignTx p c t)
  | PEthDeploy p => on_fst (on_fst PEthDeploy) (BuildAndSignTx p c t)
  | PExchange p => on_fst (on_fst PExchange) (BuildAndSignTx p c t)
  | PWasmStore p => on_fst (on_fst PWasmStore) (@BuildAndSignTx _ (wasmStore_TxProvider cw20ByteCode) p c t)
  | PWasmInit p => on_fst (on_fst PWasmInit) (@BuildAndSignTx _ (wasmInit_TxProvider cw20ByteCode) p c t)
  | PWasmExec p => on_fst (on_fst PWasmExec) (@BuildAndSignTx _ (wasmExec_TxProvider cw20ByteCode) p c t)
  end.

Definition any_Name (a : AnyProvider) : string :=
  match a with
  | PBankSend _ => "bank_send_stress"
  | PBankMultiSend _ => "bank_multi_send_stress"
  | PEthSend _ => "eth_send_stress"
  | PEthCall _ => "eth_call_stress"
  | PEthDeploy _ => "eth_deploy_stress"
  | PExchange _ => "exchange_batch_orders_stress"
  | PWasmStore _ => "wasm_store_code_stress"
  | PWasmInit _ => "wasm_init_contract_stress"
  | PWasmExec _ => "wasm_exec_contract_stress"
  end.

(** ** The provider *)

(** [rng] gives the draws of [Float64()], [rng_pos] how many were made. *)
Record MixedPayloadProvider := {
  providers : list AnyProvider;
  frequencies : list float64;
  rng : nat -> float64;
  rng_pos : nat
}.

Definition normalizeFrequencies (frequencies : list float64) : list float64 :=
  let total := fold_left f64_add frequencies f64_zero in
  if f64_eqb total f64_zero then frequencies
  else map (fun freq => f64_div freq total) frequencies.

(** One optional section of [NewMixedPayloadProvider]. *)
Definition mixed_section {C} (cfg : option C) (freq : C -> float64) (mk : C -> go AnyProvider)
    (msg : string) (acc : list (AnyProvider * float64)) : go (list (AnyProvider * float64)) :=
  match cfg with
  | Some c =>
      if f64_gtb (freq c) f64_zero then
        let! provider := go_wrap msg (mk c) in
        Ok (acc ++ [(provider, freq c)])
      else Ok acc
  | None => Ok acc
  end.

Definition go_map {A B} (f : A -> B) (m : go A) : go B := let! a := m in Ok (f a).

Definition default_amount (s : string) : string := if decide (s = "") then "1inj" else s.
Definition default_markets (l : list string) : list string :=
  if (length l =? 0)%nat
  then ["0x1422a13427d5eabd4d8de7907c8340f7e58cb15553a9fd4ad5c90406561886f9"] else l.

Definition NewMixedPayloadProvider (randRead : go bytes) (now : string) (seeded : nat -> float64)
    (cfg : MixedPayloadConfig) (minGasPrice : string) (ethChainID : Z) : go MixedPayloadProvider :=
  let! l := mixed_section (BankSend cfg) bsc_Frequency
    (fun c => go_map PBankSend (NewBankSendProvider minGasPrice (default_amount (bsc_SendAmount c))))
    "failed to create bank send provider" [] in
  let! l := mixed_section (BankMultiSend cfg) bmc_Frequency
    (fun c => go_map PBankMultiSend
       (NewBankMultiSendProvider randRead minGasPrice (default_amount (bmc_SendAmount c))
          (if bmc_NumTargets c =? 0 then 50 else bmc_NumTargets c)))
    "failed to create bank multi send provider" l in
  let! l := mixed_section (EthSend cfg) esc_Frequency
    (fun c => go_map PEthSend
       (NewEthSendProvider ethChainID minGasPrice (default_amount (esc_SendAmount c))))
    "failed to create eth send provider" l in
  let! l := mixed_section (EthCall cfg) id
    (fun _ => go_map PEthCall (NewEthCallProvider ethChainID minGasPrice))
    "failed to create eth call provider" l in
  let! l := mixed_section (EthDeploy cfg) id
    (fun _ => go_map PEthDeploy (NewEthDeployProvider ethChainID minGasPrice))
    "failed to create eth deploy provider" l in
  let! l := mixed_section (ExchangeBatchOrders cfg) xbc_Frequency
    (fun c => go_map PExchange
       (NewExchangeBatchOrdersProvider minGasPrice (default_markets (xbc_SpotMarketIDs c))
          (default_markets (xbc_DerivativeMarketIDs c))))
    "failed to create exchange batch orders provider" l in
  let! l := mixed_section (WasmStoreCode cfg) id
    (fun _ => go_map PWasmStore (NewWasmStoreCodeProvider minGasPrice))
    "failed to create wasm store code provider" l in
  let! l := mixed_section (WasmInitContract cfg) id
    (fun _ => go_map PWasmInit (NewWasmInitContractProvider minGasPrice))
    "failed to create wasm init contract provider" l in
  let! l := mixed_section (WasmExecContract cfg) id
    (fun _ => go_map PWasmExec (NewWasmExecContractProvider cw20ByteCode now minGasPrice))
    "failed to create wasm exec contract provider" l in
  when (length l =? 0)%nat raise ENew "no payload providers configured with frequency > 0";
  Ok {| providers := map fst l; frequencies := normalizeFrequencies (map snd l);
        rng := seeded; rng_pos := 0 |}.

(** The index [selectProvider]'s loop stops at, from index [i] on. *)
Fixpoint select_loop (r cumulative : float64) (freqs : list float64) (i : nat) : option nat :=
  match freqs with
  | [] => None
  | freq :: rest =>
      let cumulative := f64_add cumulative freq in
      if f64_leb r cumulative then Some i else select_loop r cumulative rest (S i)
  end.

(** The selected provider's index; an index out of range panics. *)
Definition selectProvider (m : MixedPayloadProvider) : nat :=
  match select_loop (rng m (rng_pos m)) f64_zero (frequencies m) 0 with
  | Some i => i
  | None => length (providers m) - 1
  end.

(** The provider after a draw, with the selected provider's new state. *)
Definition after_call (m : MixedPayloadProvider) (i : nat) (a : AnyProvider) : MixedPayloadProvider :=
  {| providers := <[i := a]> (providers m); frequencies := frequencies m; rng := rng m;
     rng_pos := S (rng_pos m) |}.

Definition mixed_GenerateInitialTx (e : Env) (m : MixedPayloadProvider) (req : TxRequest)
    : MixedPayloadProvider * go (option baseTx) :=
  match providers m !! selectProvider m with
  | Some a => on_fst (after_call m (selectProvider m)) (any_GenerateInitialTx e a req)
  | None => (m, Panic "index out of range")
  end.

Definition mixed_GenerateTx (e : Env) (m : MixedPayloadProvider) (req : TxRequest)
    : MixedPayloadProvider * go baseTx :=
  match providers m !! selectProvider m with
  | Some a => on_fst (after_call m (selectProvider m)) (any_GenerateTx e a req)
  | None => (m, Panic "index out of range")
  end.

Definition mixed_BuildAndSignTx (m : MixedPayloadProvider) (c : Client) (t : baseTx)
    : MixedPayloadProvider * baseTx * go baseTx :=
  match providers m !! selectProvider m with
  | Some a => on_fst (on_fst (after_call m (selectProvider m))) (any_BuildAndSignTx a c t)
  | None => (m, t, Panic "index out of range")
  end.

#[export] Instance mixed_TxProvider : TxProvider MixedPayloadProvider := {|
  prov_Name _ := "mixed-payload";
  GenerateInitialTx := mixed_GenerateInitialTx;
  GenerateTx := mixed_GenerateTx;
  BuildAndSignTx := mixed_BuildAndSignTx
|}.

(** ** Selection *)

(** The running sum the loop compares with at index [k]. *)
Definition cumulative_at (freqs : list float64) (k : nat) : float64 :=
  fold_left f64_add (take (S k) freqs) f64_zero.

Lemma select_loop_spec r cum freqs i :
  match select_loop r cum freqs i with
  | Some j => (i <= j < i + length freqs)%nat /\
      f64_leb r (fold_left f64_add (take (S (j - i)) freqs) cum) = true /\
      forall k, (k < j - i)%nat -> f64_leb r (fold_left f64_add (take (S k) freqs) cum) = false
  | None => forall k, (k < length freqs)%nat ->
      f64_leb r (fold_left f64_add (take (S k) freqs) cum) = false
  end.
Proof.
  revert cum i. induction freqs as [|f freqs IH]; intros cum i; cbn [select_loop length]; [lia|].
  destruct (f64_leb r (f64_add cum f)) eqn:E.
  - split_and!; [lia|lia| |lia]. by rewrite Nat.sub_diag.
  - specialize (IH (f64_add cum f) (S i)). destruct (select_loop _ _ freqs (S i)) as [j|].
    + destruct IH as ([Hl Hu] & Hj & Hk). replace (j - i)%nat with (S (j - S i)) by lia.
      split_and!; [lia|lia|done|]. intros [|k] Hlt; [done|]. apply Hk. lia.
    + intros [|k] Hlt; [done|]. apply IH. lia.
Qed.

Lemma select_in_range m :
  length (providers m) = length (frequencies m) -> providers m <> [] ->
  (selectProvider m < length (providers m))%nat.
Proof.
  intros Hlen Hne. unfold selectProvider.
  assert (0 < length (providers m))%nat by (destruct (providers m); [done|simpl; lia]).
  pose proof (select_loop_spec (rng m (rng_pos m)) f64_zero (frequencies m) 0) as H0.
  destruct (select_loop _ _ _ _); lia.
Qed.

(** [selectProvider] picks, for a draw [r], the first provider whose running sum
    of frequencies reaches [r], and the last provider when rounding leaves every
    sum below [r]: each provider is drawn for exactly the interval of [r] its
    frequency spans.  With as many frequencies as providers, and at least one,
    the choice is always one of them. *)
Theorem selectProvider_exact m :
  length (providers m) = length (frequencies m) -> providers m <> [] ->
  let r := rng m (rng_pos m) in
  let i := selectProvider m in
  (i < length (providers m))%nat /\
  (forall k, (k < i)%nat -> f64_leb r (cumulative_at (frequencies m) k) = false) /\
  (f64_leb r (cumulative_at (frequencies m) i) = true \/ S i = length (providers m)).
Proof.
  intros Hlen Hne r i. subst i. unfold selectProvider, cumulative_at. fold r.
  assert (0 < length (providers m))%nat by (destruct (providers m); [done|simpl; lia]).
  pose proof (select_loop_spec r f64_zero (frequencies m) 0) as H0.
  destruct (select_loop r f64_zero (frequencies m) 0) as [j|].
  - rewrite Nat.sub_0_r in H0. destruct H0 as (Hu & Hj & Hk). split_and!; [lia|done|by left].
  - split_and!; [lia| |right; lia]. intros k Hk. apply H0. lia.
Qed.

(** ** Well-formed providers *)

(** As many frequencies as providers, at least one, and the names in the order
    of the configuration. *)
Definition mixed_wf (names : list string) (m : MixedPayloadProvider) : Prop :=
  length (providers m) = length (frequencies m) /\ providers m <> [] /\
  map any_Name (providers m) = names.

Definition enabled {C} (cfg : option C) (freq : C -> float64) (name : string) : list string :=
  match cfg with Some c => if f64_gtb (freq c) f64_zero then [name] else [] | None => [] end.

(** The providers a configuration asks for. *)
Definition configured (cfg : MixedPayloadConfig) : list string :=
  enabled (BankSend cfg) bsc_Frequency "bank_send_stress" ++
  enabled (BankMultiSend cfg) bmc_Frequency "bank_multi_send_stress" ++
  enabled (EthSend cfg) esc_Frequency "eth_send_stress" ++
  enabled (EthCall cfg) id "eth_call_stress" ++
  enabled (EthDeploy cfg) id "eth_deploy_stress" ++
  enabled (ExchangeBatchOrders cfg) xbc_Frequency "exchange_batch_orders_stress" ++
  enabled (WasmStoreCode cfg) id "wasm_store_code_stress" ++
  enabled (WasmInitContract cfg) id "wasm_init_contract_stress" ++
  enabled (WasmExecContract cfg) id "wasm_exec_contract_stress".

Lemma mixed_section_names {C} (cfg : option C) freq mk msg acc l name :
  mixed_section cfg freq mk msg acc = Ok l ->
  (forall c a, mk c = Ok a -> any_Name a = name) ->
  map any_Name (map fst l) = map any_Name (map fst acc) ++ enabled cfg freq name.
Proof.
  unfold mixed_section, enabled. intros H Hmk.
  destruct cfg as [c|]; [|injection H as <-; by rewrite app_nil_r].
  destruct (f64_gtb _ _); [|injection H as <-; by rewrite app_nil_r].
  apply go_bind_Ok in H as (a & Ha%go_wrap_Ok & [= <-]).
  rewrite !map_app. cbn. by rewrite (Hmk _ _ Ha).
Qed.

Lemma go_map_Ok {A B} (f : A -> B) m b : go_map f m = Ok b -> exists a, b = f a.
Proof. unfold go_map. intros (a & _ & [= <-])%go_bind_Ok. eauto. Qed.

Lemma normalizeFrequencies_length l : length (normalizeFrequencies l) = length l.
Proof. unfold normalizeFrequencies. case_match; [done|]. apply length_map. Qed.

Lemma map_insert_same {A B} (f : A -> B) l i a b :
  l !! i = Some a -> f b = f a -> map f (<[i := b]> l) = map f l.
Proof.
  revert i. induction l as [|x l IH]; intros [|i] Hi Hf; simplify_eq/=; [by rewrite Hf|].
  f_equal. eauto.
Qed.

Lemma after_call_wf names m i a b :
  mixed_wf names m -> providers m !! i = Some a -> any_Name b = any_Name a ->
  mixed_wf names (after_call m i b).
Proof.
  intros (Hl & Hne & Hn) Ha Hb. unfold mixed_wf. cbn [after_call providers frequencies].
  rewrite length_insert. split_and!; [done| |].
  - intros H0%(f_equal length). rewrite length_insert in H0. by destruct (providers m).
  - rewrite <- Hn. by eapply map_insert_same.
Qed.

Lemma any_Name_stable e a req c t :
  any_Name (any_GenerateInitialTx e a req).1 = any_Name a /\
  any_Name (any_GenerateTx e a req).1 = any_Name a /\
  any_Name (any_BuildAndSignTx a c t).1.1 = any_Name a.
Proof. by destruct a. Qed.

(** C18. The mixed provider holds exactly the configured providers with a positive
    frequency, in the order of the configuration, and a configuration with none
    is an error; every call, whichever provider it draws, keeps them: so no call
    ever selects outside the list. *)
Theorem mixed_invariant rr now seeded cfg price chainID m :
  NewMixedPayloadProvider rr now seeded cfg price chainID = Ok m ->
  configured cfg <> [] /\ mixed_wf (configured cfg) m /\
  forall m', mixed_wf (configured cfg) m' ->
    (exists a, providers m' !! selectProvider m' = Some a) /\
    forall e req c t,
      mixed_wf (configured cfg) (GenerateInitialTx e m' req).1 /\
      mixed_wf (configured cfg) (GenerateTx e m' req).1 /\
      mixed_wf (configured cfg) (BuildAndSignTx m' c t).1.1.
Proof.
  intros H. unfold NewMixedPayloadProvider in H.
  repeat match type of H with
    | go_bind _ _ = Ok _ => let l := fresh "l" in let Hl := fresh "Hl" in
        apply go_bind_Ok in H as (l & Hl & H); cbv beta in H;
        eapply mixed_section_names in Hl; [|intros c a [? ->]%go_map_Ok; cbn [any_Name]; reflexivity]
    end.
  destruct (length l7 =? 0)%nat eqn:E; [done|]. injection H as <-. apply Nat.eqb_neq in E.
  assert (Hn : map any_Name (map fst l7) = configured cfg).
  { unfold configured. cbn in *. rewrite Hl7, Hl6, Hl5, Hl4, Hl3, Hl2, Hl1, Hl0, Hl. by rewrite <- !app_assoc. }
  assert (Hne : configured cfg <> []).
  { rewrite <- Hn. destruct l7; [done|]. done. }
  split_and!; [done| |].
  - split_and!; cbn [providers frequencies]; [|by destruct l7|done].
    by rewrite normalizeFrequencies_length, !length_map.
  - intros m' Hwf. destruct (lookup_lt_is_Some_2 (providers m') (selectProvider m')) as [a Ha].
    { destruct Hwf as (Hl' & Hne' & _). apply select_in_range; done. }
    split; [eauto|]. intros e req c t. destruct (any_Name_stable e a req c t) as (H1 & H2 & H3).
    cbn [GenerateInitialTx GenerateTx BuildAndSignTx mixed_TxProvider].
    unfold mixed_GenerateInitialTx, mixed_GenerateTx, mixed_BuildAndSignTx. rewrite Ha.
    split_and!; by eapply after_call_wf.
Qed.

(** ** Generating and signing are drawn apart *)

Definition is_eth (a : AnyProvider) : bool :=
  match a with PEthSend _ | PEthCall _ | PEthDeploy _ => true | _ => false end.

Lemma any_GenerateTx_kind e a req t :
  (any_GenerateTx e a req).2 = Ok t -> eth_signable t = is_eth a.
Proof.
  intros H. destruct a; cbn in H;
    unfold bankSend_GenerateTx, bankMultiSend_GenerateTx, ethSend_GenerateTx, ethCall_GenerateTx,
      ethDeploy_GenerateTx, exchange_GenerateTx, wasmStore_GenerateTx, wasmInit_GenerateTx,
      wasmExec_GenerateTx in H;
    repeat first
      [ apply go_bind_Ok in H as (? & _ & H)
      | match type of H with (if ?b then _ else _) = _ => destruct b; [done|] end ];
    simplify_eq; done.
Qed.

(** [GenerateTx] and [BuildAndSignTx] draw their providers independently: a
    transaction generated by a native provider and then drawn for an Ethereum
    one to sign makes the signer panic, which a mix of the two kinds meets as
    soon as the draws fall that way. *)
Theorem mixed_sign_mismatch e m req m1 t c a b :
  providers m !! selectProvider m = Some a -> is_eth a = false ->
  GenerateTx e m req = (m1, Ok t) ->
  providers m1 !! selectProvider m1 = Some b -> is_eth b = true ->
  is_Panic (BuildAndSignTx m1 c t).2 = true.
Proof.
  cbn [GenerateTx BuildAndSignTx mixed_TxProvider]. unfold mixed_GenerateTx, mixed_BuildAndSignTx.
  intros Ha Hna. rewrite Ha. intros H Hb Heb. injection H as _ Hg.
  rewrite Hb. cbn [on_fst snd]. apply any_GenerateTx_kind in Hg. rewrite Hna in Hg.
  destruct b; try done; cbn; by apply eth_signer_panics.
Qed.

(** ** The interface's laws *)

Lemma any_GenerateTx_tags e a req t :
  (any_GenerateTx e a req).2 = Ok t -> fromIdx t = FromIdx req /\ txIdx t = TxIdx req /\ from t = From req.
Proof.
  destruct a; cbn [any_GenerateTx on_fst snd];
    first [ apply GenerateTx_tags | apply (@GenerateTx_tags _ _ (wasmStore_laws _))
          | apply (@GenerateTx_tags _ _ (wasmInit_laws _))
          | apply (@GenerateTx_tags _ _ (wasmExec_laws _)) ].
Qed.

Lemma any_BuildAndSignTx_tags a c t t' :
  (any_BuildAndSignTx a c t).2 = Ok t' -> fromIdx t' = fromIdx t /\ txIdx t' = txIdx t /\ from t' = from t.
Proof.
  destruct a; cbn [any_BuildAndSignTx on_fst snd];
    first [ apply BuildAndSignTx_tags | apply (@BuildAndSignTx_tags _ _ (wasmStore_laws _))
          | apply (@BuildAndSignTx_tags _ _ (wasmInit_laws _))
          | apply (@BuildAndSignTx_tags _ _ (wasmExec_laws _)) ].
Qed.

Lemma any_GenerateInitialTx_from e a req t :
  (any_GenerateInitialTx e a req).2 = Ok (Some t) -> from t = From req.
Proof.
  destruct a; cbn [any_GenerateInitialTx on_fst snd];
    first [ apply GenerateInitialTx_from | apply (@GenerateInitialTx_from _ _ (wasmStore_laws _))
          | apply (@GenerateInitialTx_from _ _ (wasmInit_laws _))
          | apply (@GenerateInitialTx_from _ _ (wasmExec_laws _)) ].
Qed.

#[export] Instance mixed_laws : TxProviderLaws MixedPayloadProvider.
Proof.
  constructor; cbn [GenerateInitialTx GenerateTx BuildAndSignTx mixed_TxProvider];
    unfold mixed_GenerateInitialTx, mixed_GenerateTx, mixed_BuildAndSignTx.
  - intros e m req t. destruct (providers m !! selectProvider m) as [a|]; [|done].
    apply any_GenerateTx_tags.
  - intros m c t t'. destruct (providers m !! selectProvider m) as [a|]; [|done].
    apply any_BuildAndSignTx_tags.
  - intros e m req t. destruct (providers m !! selectProvider m) as [a|]; [|done].
    apply any_GenerateInitialTx_from.
Qed.
End Mixed.

(** ** Witnesses *)

Definition half : float64 := f64_of_ratio 1 2.

Definition demo_cfg : MixedPayloadConfig :=
  {| BankSend := Some {| bsc_Frequency := half; bsc_SendAmount := "" |};
     BankMultiSend := None; EthSend := None; EthCall := None; EthDeploy := Some half;
     ExchangeBatchOrders := None; WasmStoreCode := Some f64_zero; WasmInitContract := None;
     WasmExecContract := None |}.

(** Draws 0.25, 0.75, 0.25, ... *)
Definition demo_rng (n : nat) : float64 :=
  if Nat.even n then f64_of_ratio 1 4 else f64_of_ratio 3 4.

Definition demo_mixed : MixedPayloadProvider :=
  match @NewMixedPayloadProvider model_crypto model_math model_eth demo_wasm (Ok []) "now" demo_rng demo_cfg
          "1inj" 1776 with
  | Ok m => m
  | _ => {| providers := []; frequencies := []; rng := demo_rng; rng_pos := 0 |}
  end.

Lemma selectProvider_exact_witness : (selectProvider demo_mixed < length (providers demo_mixed))%nat.
Proof. apply (selectProvider_exact demo_mixed); [reflexivity|discriminate]. Defined.

Lemma mixed_invariant_witness :
  configured demo_cfg = ["bank_send_stress"; "eth_deploy_stress"] /\
  mixed_wf (configured demo_cfg) demo_mixed.
Proof.
  split; [reflexivity|].
  apply (@mixed_invariant model_txconfig model_crypto model_math model_eth model_ethbuild model_wasm demo_wasm
    (Ok []) "now" demo_rng demo_cfg "1inj" 1776 demo_mixed). reflexivity.
Defined.

Definition demo_mixed_gen : MixedPayloadProvider * go baseTx :=
  @mixed_GenerateTx model_txconfig model_crypto model_math model_eth model_ethbuild model_wasm demo_wasm demo_env
    demo_mixed demo_req.

Definition demo_mixed_tx : baseTx :=
  match demo_mixed_gen.2 with Ok t => t | _ => demo_unsigned end.

Lemma mixed_sign_mismatch_witness :
  is_Panic (@mixed_BuildAndSignTx model_txconfig model_crypto model_math model_eth model_ethbuild model_wasm
    demo_wasm demo_mixed_gen.1 {| ChainID := "c" |} demo_mixed_tx).2 = true.
Proof.
  destruct (providers demo_mixed !! 0%nat) as [a|] eqn:Ea; [|discriminate Ea].
  destruct (providers demo_mixed !! 1%nat) as [b|] eqn:Eb; [|discriminate Eb].
  apply (@mixed_sign_mismatch model_txconfig model_crypto model_math model_eth model_ethbuild model_wasm demo_wasm
    demo_env demo_mixed demo_req demo_mixed_gen.1 demo_mixed_tx {| ChainID := "c" |} a b).
  - rewrite <- Ea. vm_compute. reflexivity.
  - vm_compute in Ea. injection Ea as <-. reflexivity.
  - vm_compute. reflexivity.
  - rewrite <- Eb. vm_compute. reflexivity.
  - vm_compute in Eb. injection Eb as <-. reflexivity.
Defined.
