(* ===== verification/Pipeline.v ===== *)
(** * The preparation pipeline of [Stress] (stresser.go)

    One generator per account, run by a pool with a worker per CPU, fetches the
    account's number and sequence and sends its transactions, one per index, to
    [txQueue]; a signer per CPU moves transactions from there, signed, to
    [txSignedQueue]; the collector stores each at [signedTxs[FromIdx][TxIdx]] and ends the pipeline after the last.

    The pipeline is a transition system: a state has the shared provider, the
    loop variables of every goroutine, the two bounded channels and the result
    matrix, and a step is one call or channel operation of one goroutine, so a
    run is any interleaving.  [node] is what [getAccountNumberSequence] answers
    for each account.  The context is taken not to end (a context that ends
    stops the program), and a call of the provider is one step.

    The theorems: whatever the interleaving, the pipeline never deadlocks and
    always ends, and what it then holds at [i][j] is the signed transaction of
    account [i] for its sequence + [j]. *)

From Stdlib Require Import ZArith Lia Ascii String.
From stdpp Require Import base list strings numbers sets gmultiset.
From S2P Require Import Prelude GoStrings Sdk SdkModel Chain Payload.

Open Scope string_scope.
Open Scope Z_scope.
Open Scope list_scope.

(** ** Sums over indexed lists *)

Fixpoint msum_from `{Countable K} {A} (f : nat -> A -> gmultiset K) (k : nat) (l : list A)
    : gmultiset K :=
  match l with
  | [] => ∅
  | x :: l' => f k x ⊎ msum_from f (S k) l'
  end.

Lemma msum_insert `{Countable K} {A} (f : nat -> A -> gmultiset K) k l i x y :
  l !! i = Some x ->
  f (k + i)%nat x ⊎ msum_from f k (<[i := y]> l) = f (k + i)%nat y ⊎ msum_from f k l.
Proof.
  revert k i. induction l as [|z l IH]; intros k [|i] Hi; simplify_eq/=.
  - rewrite Nat.add_0_r. multiset_solver.
  - specialize (IH (S k) i Hi). replace (k + S i)%nat with (S k + i)%nat by lia. multiset_solver.
Qed.

Lemma msum_elem `{Countable K} {A} (f : nat -> A -> gmultiset K) k l z :
  z ∈ msum_from f k l -> exists i x, l !! i = Some x /\ z ∈ f (k + i)%nat x.
Proof.
  revert k. induction l as [|x l IH]; intros k Hz; cbn in Hz; [by apply gmultiset_not_elem_of_empty in Hz|].
  apply gmultiset_elem_of_disj_union in Hz as [Hz|Hz].
  - exists 0%nat, x. by rewrite Nat.add_0_r.
  - destruct (IH _ Hz) as (i & y & Hi & Hy). exists (S i), y.
    by replace (k + S i)%nat with (S k + i)%nat by lia.
Qed.

Lemma msum_lookup `{Countable K} {A} (f : nat -> A -> gmultiset K) k l i x z :
  l !! i = Some x -> z ∈ f (k + i)%nat x -> z ∈ msum_from f k l.
Proof.
  revert k i. induction l as [|y l IH]; intros k [|i] Hi Hz; simplify_eq/=.
  - rewrite Nat.add_0_r in Hz. multiset_solver.
  - replace (k + S i)%nat with (S k + i)%nat in Hz by lia. specialize (IH _ _ Hi Hz). multiset_solver.
Qed.

Definition nsum {A} (f : A -> nat) (l : list A) : nat := foldr (fun x n => f x + n)%nat 0%nat l.

Lemma nsum_insert {A} (f : A -> nat) l i x y :
  l !! i = Some x -> (f x + nsum f (<[i := y]> l) = f y + nsum f l)%nat.
Proof.
  unfold nsum. revert i. induction l as [|z l IH]; intros [|i] Hi; simplify_eq/=; [lia|].
  specialize (IH i Hi). lia.
Qed.

Lemma nsum_const {A} c (l : list A) : nsum (fun _ => c) l = (length l * c)%nat.
Proof. unfold nsum. induction l as [|x l IH]; [done|]. cbn [foldr length]. rewrite IH. lia. Qed.

Lemma nsum_le {A} (f : A -> nat) l b : (forall x, x ∈ l -> f x <= b)%nat -> (nsum f l <= b * length l)%nat.
Proof.
  unfold nsum. induction l as [|x l IH]; intros Hb; cbn [foldr length]; [lia|].
  pose proof (Hb x ltac:(left)). pose proof (IH (fun y Hy => Hb y (list_elem_of_further _ _ _ Hy))).
  rewrite Nat.mul_succ_r. lia.
Qed.

Lemma nsum_full {A} (f : A -> nat) l b i x :
  (forall y, y ∈ l -> f y <= b)%nat -> nsum f l = (b * length l)%nat -> l !! i = Some x -> f x = b.
Proof.
  revert i. induction l as [|y l IH]; intros i Hb Hs Hi; [done|].
  assert (Hb' : forall z, z ∈ l -> (f z <= b)%nat) by (intros z Hz; apply Hb; by right).
  pose proof (nsum_le f l b Hb'). pose proof (Hb y ltac:(left)).
  cbn [length] in Hs. rewrite Nat.mul_succ_r in Hs. unfold nsum in *. cbn [foldr] in Hs.
  destruct i as [|i]; simplify_eq/=; [lia|]. eapply IH; [done| |done]. lia.
Qed.

Lemma msum_size `{Countable K} {A} (f : nat -> A -> gmultiset K) (g : A -> nat) k l :
  (forall i x, size (f i x) = g x) -> size (msum_from f k l) = nsum g l.
Proof.
  intros Hf. revert k. induction l as [|x l IH]; intros k; cbn; [by rewrite gmultiset_size_empty|].
  by rewrite gmultiset_size_disj_union, Hf, IH.
Qed.

(** ** States and steps *)

Section Pipeline.
Context {P : Type} {TP : TxProvider P} {TL : TxProviderLaws P}.
Context (client : Client) (Accounts : list Secp256k1PrivateKey) (NumOfTransactions : nat).
Context (node : nat -> Z * Z).

(** The capacity of [txQueue] and [txSignedQueue]. *)
Definition chan_cap : Z := 1000000.

(** The loop of one account's generator: not started, or at [txIdx] with its
    [txRequest.From], and the transaction it is sending, if any. *)
Inductive Generator :=
| GWait
| GLoop (acc : Account) (txIdx : nat) (sending : option baseTx).

Record Pipe := {
  prov : P;
  gens : list Generator;
  initialAccountSequences : list Z;
  txQueue : list baseTx;
  signers : list (option baseTx);
  txSignedQueue : list baseTx;
  signedTxs : list (list (option bytes));
  collected : nat
}.

Definition sender_name (i : nat) : string := "sender-" +:+ strconv_Itoa (Z.of_nat i).

Definition txRequest (i : nat) (acc : Account) (txIdx : nat) : TxRequest :=
  {| Keys := Accounts; From := acc; FromIdx := Z.of_nat i; TxIdx := Z.of_nat txIdx |}.

(** [txRequest.From.Sequence++] *)
Definition next_sequence (acc : Account) : Account :=
  {| Name := Name acc; Key := Key acc; Number := Number acc;
     acc_Sequence := u64 (acc_Sequence acc + 1) |}.

(** [signedTxs[i][j] = b]: [None] when an index is out of range (a panic). *)
Definition store (m : list (list (option bytes))) (i j : Z) (b : bytes)
    : option (list (list (option bytes))) :=
  match index m i with
  | Ok row =>
      match index row j with
      | Ok _ => Some (<[Z.to_nat i := <[Z.to_nat j := Some b]> row]> m)
      | _ => None
      end
  | _ => None
  end.

Definition total_txs : nat := length Accounts * NumOfTransactions.

(** A generator that holds a worker of the pool. *)
Definition gen_active (g : Generator) : bool :=
  match g with
  | GWait => false
  | GLoop _ _ (Some _) => true
  | GLoop _ k None => (k <? NumOfTransactions)%nat
  end.

Definition pool_busy (s : Pipe) : nat := nsum (fun g => if gen_active g then 1 else 0)%nat (gens s).

(** A worker of the pool takes the generators in the order of the accounts; the
    pool has as many workers as there are signers, one per CPU. *)
Inductive step : Pipe -> Pipe -> Prop :=
| step_start s i key acc :
    gens s !! i = Some GWait -> (forall j, (j < i)%nat -> gens s !! j <> Some GWait) ->
    (pool_busy s < length (signers s))%nat -> Accounts !! i = Some key ->
    acc = {| Name := sender_name i; Key := key; Number := (node i).1; acc_Sequence := (node i).2 |} ->
    step s
      {| prov := prov s; gens := <[i := GLoop acc 0 None]> (gens s);
         initialAccountSequences := <[i := (node i).2]> (initialAccountSequences s);
         txQueue := txQueue s; signers := signers s; txSignedQueue := txSignedQueue s;
         signedTxs := signedTxs s; collected := collected s |}
| step_generate s i acc txIdx e p' tx :
    gens s !! i = Some (GLoop acc txIdx None) -> (txIdx < NumOfTransactions)%nat ->
    GenerateTx e (prov s) (txRequest i acc txIdx) = (p', Ok tx) ->
    step s
      {| prov := p'; gens := <[i := GLoop acc txIdx (Some tx)]> (gens s);
         initialAccountSequences := initialAccountSequences s;
         txQueue := txQueue s; signers := signers s; txSignedQueue := txSignedQueue s;
         signedTxs := signedTxs s; collected := collected s |}
| step_enqueue s i acc txIdx tx :
    gens s !! i = Some (GLoop acc txIdx (Some tx)) -> Z.of_nat (length (txQueue s)) < chan_cap ->
    step s
      {| prov := prov s; gens := <[i := GLoop (next_sequence acc) (S txIdx) None]> (gens s);
         initialAccountSequences := initialAccountSequences s;
         txQueue := txQueue s ++ [tx]; signers := signers s; txSignedQueue := txSignedQueue s;
         signedTxs := signedTxs s; collected := collected s |}
| step_sign s k tx rest p' tx' signed :
    signers s !! k = Some None -> txQueue s = tx :: rest ->
    BuildAndSignTx (prov s) client tx = (p', tx', Ok signed) ->
    step s
      {| prov := p'; gens := gens s; initialAccountSequences := initialAccountSequences s;
         txQueue := rest; signers := <[k := Some signed]> (signers s);
         txSignedQueue := txSignedQueue s; signedTxs := signedTxs s; collected := collected s |}
| step_send_signed s k signed :
    signers s !! k = Some (Some signed) -> Z.of_nat (length (txSignedQueue s)) < chan_cap ->
    step s
      {| prov := prov s; gens := gens s; initialAccountSequences := initialAccountSequences s;
         txQueue := txQueue s; signers := <[k := None]> (signers s);
         txSignedQueue := txSignedQueue s ++ [signed]; signedTxs := signedTxs s;
         collected := collected s |}
| step_collect s tx rest m :
    (collected s < total_txs)%nat -> txSignedQueue s = tx :: rest ->
    store (signedTxs s) (fromIdx tx) (txIdx tx) (txBytes tx) = Some m ->
    step s
      {| prov := prov s; gens := gens s; initialAccountSequences := initialAccountSequences s;
         txQueue := txQueue s; signers := signers s; txSignedQueue := rest; signedTxs := m;
         collected := S (collected s) |}.

(** The pipeline has stopped: a provider call failed ([orPanic]) or an index
    was out of range. *)
Inductive crashed : Pipe -> Prop :=
| crash_generate s i acc txIdx e :
    gens s !! i = Some (GLoop acc txIdx None) -> (txIdx < NumOfTransactions)%nat ->
    is_Ok (GenerateTx e (prov s) (txRequest i acc txIdx)).2 = false -> crashed s
| crash_sign s k tx rest :
    signers s !! k = Some None -> txQueue s = tx :: rest ->
    is_Ok (BuildAndSignTx (prov s) client tx).2 = false -> crashed s
| crash_collect s tx rest :
    (collected s < total_txs)%nat -> txSignedQueue s = tx :: rest ->
    store (signedTxs s) (fromIdx tx) (txIdx tx) (txBytes tx) = None -> crashed s.

(** The state [Stress] starts the pipeline in, with [n] CPUs. *)
Definition start (p : P) (n : nat) : Pipe :=
  {| prov := p; gens := repeat GWait (length Accounts);
     initialAccountSequences := repeat 0 (length Accounts);
     txQueue := []; signers := repeat None n; txSignedQueue := [];
     signedTxs := repeat (repeat None NumOfTransactions) (length Accounts); collected := 0 |}.

(** The collector has returned. *)
Definition finished (s : Pipe) : Prop := collected s = total_txs.

Inductive reachable (s0 : Pipe) : Pipe -> Prop :=
| reach_refl : reachable s0 s0
| reach_step s s' : reachable s0 s -> step s s' -> reachable s0 s'.

(** ** Termination *)

(** The steps a generator's transactions still have to make: five a transaction
    not yet generated, and its start. *)
Definition gen_weight (g : Generator) : nat :=
  match g with
  | GWait => 1 + 5 * NumOfTransactions
  | GLoop _ k None => 5 * (NumOfTransactions - k)
  | GLoop _ k (Some _) => 5 * (NumOfTransactions - S k) + 4
  end.

Definition signer_weight (o : option baseTx) : nat := match o with Some _ => 2 | None => 0 end.

Definition measure (s : Pipe) : nat :=
  nsum gen_weight (gens s) + 3 * length (txQueue s) + nsum signer_weight (signers s)
  + length (txSignedQueue s).

Lemma step_measure s s' : step s s' -> (measure s' < measure s)%nat.
Proof.
  unfold measure. destruct 1 as
    [s i key acc Hg _ _ _ _|s i acc k e p' tx Hg Hk _|s i acc k tx Hg _|s k tx rest p' tx' sg Hk Hq _
    |s k sg Hk _|s tx rest m _ Hq _];
    cbn [gens txQueue signers txSignedQueue];
    try (pose proof (nsum_insert gen_weight _ _ _ (GLoop acc 0 None) Hg));
    try (pose proof (nsum_insert gen_weight _ _ _ (GLoop acc k (Some tx)) Hg));
    try (pose proof (nsum_insert gen_weight _ _ _ (GLoop (next_sequence acc) (S k) None) Hg));
    try (pose proof (nsum_insert signer_weight _ _ _ (Some sg) Hk));
    try (pose proof (nsum_insert signer_weight _ _ _ None Hk));
    try rewrite Hq; rewrite ?length_app; cbn [gen_weight signer_weight length] in *; lia.
Qed.

Inductive steps : nat -> Pipe -> Pipe -> Prop :=
| steps_0 s : steps 0 s s
| steps_S n s1 s2 s3 : steps n s1 s2 -> step s2 s3 -> steps (S n) s1 s3.

Lemma steps_measure n s1 s2 : steps n s1 s2 -> (measure s2 + n <= measure s1)%nat.
Proof. induction 1 as [|n s1 s2 s3 _ IH Hs]; [lia|]. apply step_measure in Hs. lia. Qed.

Lemma nsum_repeat {A} (f : A -> nat) x n : nsum f (repeat x n) = (n * f x)%nat.
Proof. unfold nsum. induction n; cbn; lia. Qed.

Lemma start_measure p n : measure (start p n) = (length Accounts * (1 + 5 * NumOfTransactions))%nat.
Proof. unfold measure, start. cbn [gens txQueue signers txSignedQueue length]. rewrite !nsum_repeat. cbn. lia. Qed.

(** ** The invariant *)

(** An invariant of the provider that its methods keep; [True] will do. *)
Context (ok : P -> Prop).

Record provider_keeps : Prop := {
  generate_keeps e p req : ok p -> ok (GenerateTx e p req).1;
  sign_keeps p tx : ok p -> ok (BuildAndSignTx p client tx).1.1
}.

(** Account [i] at its [j]-th transaction. *)
Definition account_at (i : nat) (key : Secp256k1PrivateKey) (j : nat) : Account :=
  {| Name := sender_name i; Key := key; Number := (node i).1;
     acc_Sequence := u64 ((node i).2 + Z.of_nat j) |}.

(** [tx] was generated for the [j]-th transaction of account [i]. *)
Definition generated (i j : nat) (tx : baseTx) : Prop :=
  (j < NumOfTransactions)%nat /\
  exists key e p, ok p /\ Accounts !! i = Some key /\
    (GenerateTx e p (txRequest i (account_at i key j) j)).2 = Ok tx.

(** [tx] is a signed transaction made from such a one. *)
Definition signed_for (i j : nat) (tx : baseTx) : Prop :=
  exists unsigned p, ok p /\ generated i j unsigned /\ (BuildAndSignTx p client unsigned).2 = Ok tx.

Definition tag (tx : baseTx) : Z * Z := (fromIdx tx, txIdx tx).

Lemma generated_tag i j tx : generated i j tx -> tag tx = (Z.of_nat i, Z.of_nat j).
Proof.
  intros (_ & key & e & p & _ & _ & Hg). apply GenerateTx_tags in Hg as (H1 & H2 & _).
  unfold tag. by rewrite H1, H2.
Qed.

Lemma signed_for_tag i j tx : signed_for i j tx -> tag tx = (Z.of_nat i, Z.of_nat j).
Proof.
  intros (u & p & _ & Hu & Hs). apply BuildAndSignTx_tags in Hs as (H1 & H2 & _).
  apply generated_tag in Hu. unfold tag in *. by rewrite H1, H2.
Qed.

(** The tags of what a goroutine or a channel holds. *)
Definition sending_tags (g : Generator) : gmultiset (Z * Z) :=
  match g with GLoop _ _ (Some tx) => {[+ tag tx +]} | _ => ∅ end.
Definition signer_tags (o : option baseTx) : gmultiset (Z * Z) :=
  match o with Some tx => {[+ tag tx +]} | None => ∅ end.
Definition chan_tags (l : list baseTx) : gmultiset (Z * Z) := list_to_set_disj (tag <$> l).

Definition in_flight (s : Pipe) : gmultiset (Z * Z) :=
  msum_from (fun _ => sending_tags) 0 (gens s) ⊎ chan_tags (txQueue s)
  ⊎ msum_from (fun _ => signer_tags) 0 (signers s) ⊎ chan_tags (txSignedQueue s).

(** How many transactions a generator has made. *)
Definition made (g : Generator) : nat :=
  match g with GWait => 0 | GLoop _ k None => k | GLoop _ k (Some _) => S k end.

Fixpoint row_tags (i n : nat) : gmultiset (Z * Z) :=
  match n with
  | O => ∅
  | S n' => row_tags i n' ⊎ {[+ (Z.of_nat i, Z.of_nat n') +]}
  end.

Definition produced (s : Pipe) : gmultiset (Z * Z) :=
  msum_from (fun i g => row_tags i (made g)) 0 (gens s).

Definition gen_ok (s : Pipe) (i : nat) (g : Generator) : Prop :=
  match g with
  | GWait => True
  | GLoop acc k sending =>
      initialAccountSequences s !! i = Some (node i).2 /\
      (exists key, Accounts !! i = Some key /\ acc = account_at i key k) /\
      (k <= NumOfTransactions)%nat /\
      match sending with Some tx => generated i k tx | None => True end
  end.

(** The matrix holds the signed transaction of [i][j]. *)
Definition stored (m : list (list (option bytes))) (i j : nat) : Prop :=
  exists row tx, m !! i = Some row /\ row !! j = Some (Some (txBytes tx)) /\ signed_for i j tx.

Record Inv (s : Pipe) : Prop := {
  inv_prov : ok (prov s);
  inv_gens : length (gens s) = length Accounts;
  inv_inits : length (initialAccountSequences s) = length Accounts;
  inv_gen i g : gens s !! i = Some g -> gen_ok s i g;
  inv_queue tx : tx ∈ txQueue s -> exists i j, generated i j tx;
  inv_signer k tx : signers s !! k = Some (Some tx) -> exists i j, signed_for i j tx;
  inv_signedq tx : tx ∈ txSignedQueue s -> exists i j, signed_for i j tx;
  inv_rows : length (signedTxs s) = length Accounts;
  inv_row i row : signedTxs s !! i = Some row -> length row = NumOfTransactions;
  inv_conserved : exists coll : gmultiset (Z * Z),
    size coll = collected s /\ in_flight s ⊎ coll = produced s /\
    forall z, z ∈ coll -> exists i j, z = (Z.of_nat i, Z.of_nat j) /\ stored (signedTxs s) i j
}.

Hypothesis node_u64 : forall i, is_u64 (node i).2.
Hypothesis keeps : provider_keeps.

Lemma lookup_repeat_eq {A} (x y : A) n i : repeat x n !! i = Some y -> y = x.
Proof. revert i. induction n; intros [|i] H; simplify_eq/=; eauto. Qed.

Lemma msum_repeat {A} (f : nat -> A -> gmultiset (Z * Z)) x n k :
  (forall i, f i x = ∅) -> msum_from f k (repeat x n) = ∅.
Proof. intros Hf. revert k. induction n; intros k; cbn; [done|]. rewrite Hf, IHn. multiset_solver. Qed.

Lemma Inv_start p n : ok p -> Inv (start p n).
Proof.
  intros Hok. constructor; [done|..]; unfold start;
    cbn [gens initialAccountSequences txQueue signers txSignedQueue signedTxs collected].
  - apply repeat_length.
  - apply repeat_length.
  - intros i g ->%lookup_repeat_eq. done.
  - set_solver.
  - intros k tx H. by apply lookup_repeat_eq in H.
  - set_solver.
  - apply repeat_length.
  - intros i row ->%lookup_repeat_eq. apply repeat_length.
  - exists ∅. split; [apply gmultiset_size_empty|]. split; [|multiset_solver].
    unfold in_flight, produced, chan_tags. cbn. rewrite !msum_repeat by done. multiset_solver.
Qed.

Lemma account_at_next i key j : next_sequence (account_at i key j) = account_at i key (S j).
Proof.
  unfold next_sequence, account_at. cbn. f_equal. unfold u64.
  rewrite Z.add_mod_idemp_l by lia. f_equal. lia.
Qed.

Lemma account_at_0 i key :
  account_at i key 0 =
  {| Name := sender_name i; Key := key; Number := (node i).1; acc_Sequence := (node i).2 |}.
Proof. unfold account_at. rewrite Z.add_0_r, u64_id by apply node_u64. done. Qed.

Lemma store_Some m i j b m' :
  store m (Z.of_nat i) (Z.of_nat j) b = Some m' ->
  exists row, m !! i = Some row /\ (j < length row)%nat /\ m' = <[i := <[j := Some b]> row]> m.
Proof.
  unfold store. intros H. destruct (index m _) as [row| |] eqn:Er; try done.
  destruct (index row _) as [o| |] eqn:Eo; try done. injection H as <-.
  apply index_Ok in Er as [_ Hr], Eo as [_ Ho]. rewrite !Nat2Z.id in *.
  exists row. split_and!; [done|by eapply lookup_lt_Some|done].
Qed.

Lemma stored_insert m i j b row i' j' tx :
  m !! i = Some row -> (j < length row)%nat -> signed_for i j tx -> b = txBytes tx ->
  (i' = i /\ j' = j) \/ stored m i' j' -> stored (<[i := <[j := Some b]> row]> m) i' j'.
Proof.
  intros Hr Hj Hs -> H. pose proof (lookup_lt_Some _ _ _ Hr).
  destruct (decide (i' = i)) as [->|Hi].
  - destruct (decide (j' = j)) as [->|Hjj].
    + exists (<[j := Some (txBytes tx)]> row), tx.
      rewrite !list_lookup_insert_eq by done. done.
    + destruct H as [[_ ?]|(row' & tx' & Hr' & Hj' & Hs')]; [done|]. simplify_eq.
      exists (<[j := Some (txBytes tx)]> row), tx'.
      rewrite list_lookup_insert_eq by done. rewrite list_lookup_insert_ne by done. done.
  - destruct H as [[? _]|(row' & tx' & Hr' & Hj' & Hs')]; [done|].
    exists row', tx'. rewrite list_lookup_insert_ne by done. done.
Qed.

Lemma gen_ok_other (s s' : Pipe) i g :
  initialAccountSequences s' !! i = initialAccountSequences s !! i -> gen_ok s i g -> gen_ok s' i g.
Proof. intros Hi. destruct g; [done|]. cbn. by rewrite Hi. Qed.

Lemma chan_tags_cons tx l : chan_tags (tx :: l) = {[+ tag tx +]} ⊎ chan_tags l.
Proof. done. Qed.

Lemma chan_tags_snoc tx l : chan_tags (l ++ [tx]) = chan_tags l ⊎ {[+ tag tx +]}.
Proof.
  unfold chan_tags. rewrite fmap_app, list_to_set_disj_app. cbn [fmap list_fmap list_to_set_disj foldr].
  by rewrite (right_id_L ∅ (⊎)).
Qed.

(** A lookup in an updated list of generators. *)
Lemma gens_insert (s s' : Pipe) i g0 g :
  (forall k h, gens s !! k = Some h -> gen_ok s k h) ->
  gens s' = <[i := g]> (gens s) -> gens s !! i = Some g0 -> gen_ok s' i g ->
  (forall k, k <> i -> initialAccountSequences s' !! k = initialAccountSequences s !! k) ->
  forall k h, gens s' !! k = Some h -> gen_ok s' k h.
Proof.
  intros Hall -> Hi Hg Hinit k h. destruct (decide (k = i)) as [->|Hne].
  - rewrite list_lookup_insert_eq by (by eapply lookup_lt_Some). by intros [= <-].
  - rewrite list_lookup_insert_ne by done. intros Hk.
    apply (gen_ok_other s); [by apply Hinit|by apply Hall].
Qed.

Lemma Inv_start_gen s i key acc :
  Inv s -> gens s !! i = Some GWait -> Accounts !! i = Some key ->
  acc = {| Name := sender_name i; Key := key; Number := (node i).1; acc_Sequence := (node i).2 |} ->
  Inv {| prov := prov s; gens := <[i := GLoop acc 0 None]> (gens s);
         initialAccountSequences := <[i := (node i).2]> (initialAccountSequences s);
         txQueue := txQueue s; signers := signers s; txSignedQueue := txSignedQueue s;
         signedTxs := signedTxs s; collected := collected s |}.
Proof.
  intros [] Hi Hkey Hacc. constructor; try done.
  - cbn. by rewrite length_insert.
  - cbn. by rewrite length_insert.
  - eapply gens_insert; [exact inv_gen0|done|done| |].
    + cbn. split_and!; [|exists key; by rewrite account_at_0|lia|done].
      apply list_lookup_insert_eq. rewrite inv_inits0. by eapply lookup_lt_Some.
    + intros k Hk. cbn. by rewrite list_lookup_insert_ne.
  - destruct inv_conserved0 as (coll & Hc & Heq & Hst). exists coll. split_and!; [done| |done].
    unfold in_flight, produced in *. cbn [gens txQueue signers txSignedQueue].
    pose proof (msum_insert (fun _ => sending_tags) 0 _ _ _ (GLoop acc 0 None) Hi) as E1.
    pose proof (msum_insert (fun i g => row_tags i (made g)) 0 _ _ _ (GLoop acc 0 None) Hi) as E2.
    cbn [sending_tags made row_tags] in E1, E2. multiset_solver.
Qed.

Lemma Inv_generate s i acc k e p' tx :
  Inv s -> gens s !! i = Some (GLoop acc k None) -> (k < NumOfTransactions)%nat ->
  GenerateTx e (prov s) (txRequest i acc k) = (p', Ok tx) ->
  Inv {| prov := p'; gens := <[i := GLoop acc k (Some tx)]> (gens s);
         initialAccountSequences := initialAccountSequences s;
         txQueue := txQueue s; signers := signers s; txSignedQueue := txSignedQueue s;
         signedTxs := signedTxs s; collected := collected s |}.
Proof.
  intros [] Hi Hk Hg. destruct (inv_gen0 _ _ Hi) as (Hinit & (key & Hkey & ->) & Hle & _).
  assert (Hgen : generated i k tx).
  { split; [done|]. exists key, e, (prov s). by rewrite Hg. }
  pose proof (generate_keeps keeps e _ (txRequest i (account_at i key k) k) inv_prov0) as Hkeep.
  rewrite Hg in Hkeep. constructor; try done.
  - cbn. by rewrite length_insert.
  - eapply gens_insert; [exact inv_gen0|done|done| |done]. cbn. eauto 6.
  - destruct inv_conserved0 as (coll & Hc & Heq & Hst). exists coll. split_and!; [done| |done].
    unfold in_flight, produced in *. cbn [gens txQueue signers txSignedQueue].
    pose proof (msum_insert (fun _ => sending_tags) 0 _ _ _ (GLoop (account_at i key k) k (Some tx)) Hi) as E1.
    pose proof (msum_insert (fun i g => row_tags i (made g)) 0 _ _ _
      (GLoop (account_at i key k) k (Some tx)) Hi) as E2.
    cbn [sending_tags made row_tags Nat.add] in E1, E2. rewrite (generated_tag _ _ _ Hgen) in E1.
    multiset_solver.
Qed.

Lemma Inv_enqueue s i acc k tx :
  Inv s -> gens s !! i = Some (GLoop acc k (Some tx)) ->
  Inv {| prov := prov s; gens := <[i := GLoop (next_sequence acc) (S k) None]> (gens s);
         initialAccountSequences := initialAccountSequences s;
         txQueue := txQueue s ++ [tx]; signers := signers s; txSignedQueue := txSignedQueue s;
         signedTxs := signedTxs s; collected := collected s |}.
Proof.
  intros [] Hi. destruct (inv_gen0 _ _ Hi) as (Hinit & (key & Hkey & ->) & Hle & Hgen).
  rewrite account_at_next. constructor; try done.
  - cbn. by rewrite length_insert.
  - eapply gens_insert; [exact inv_gen0|done|done| |done]. cbn. destruct Hgen. eauto 6 with lia.
  - cbn. intros t [Ht| ->%list_elem_of_singleton]%elem_of_app; eauto.
  - destruct inv_conserved0 as (coll & Hc & Heq & Hst). exists coll. split_and!; [done| |done].
    unfold in_flight, produced in *. cbn [gens txQueue signers txSignedQueue].
    pose proof (msum_insert (fun _ => sending_tags) 0 _ _ _ (GLoop (account_at i key (S k)) (S k) None) Hi) as E1.
    pose proof (msum_insert (fun i g => row_tags i (made g)) 0 _ _ _
      (GLoop (account_at i key (S k)) (S k) None) Hi) as E2.
    cbn [sending_tags made row_tags Nat.add] in E1, E2. rewrite chan_tags_snoc. multiset_solver.
Qed.

Lemma Inv_sign s k tx rest p' tx' sg :
  Inv s -> signers s !! k = Some None -> txQueue s = tx :: rest ->
  BuildAndSignTx (prov s) client tx = (p', tx', Ok sg) ->
  Inv {| prov := p'; gens := gens s; initialAccountSequences := initialAccountSequences s;
         txQueue := rest; signers := <[k := Some sg]> (signers s);
         txSignedQueue := txSignedQueue s; signedTxs := signedTxs s; collected := collected s |}.
Proof.
  intros [] Hk Hq Hb. destruct (inv_queue0 tx) as (i & j & Hgen); [rewrite Hq; left|].
  assert (Hs : signed_for i j sg) by (exists tx, (prov s); by rewrite Hb).
  pose proof (sign_keeps keeps _ tx inv_prov0) as Hkeep. rewrite Hb in Hkeep. constructor; try done.
  - cbn. intros t Ht. apply inv_queue0. rewrite Hq. by right.
  - cbn. intros k' t Ht. destruct (decide (k' = k)) as [->|Hne].
    + rewrite list_lookup_insert_eq in Ht by (by eapply lookup_lt_Some). simplify_eq. eauto.
    + rewrite list_lookup_insert_ne in Ht by done. eauto.
  - destruct inv_conserved0 as (coll & Hc & Heq & Hst). exists coll. split_and!; [done| |done].
    unfold in_flight, produced in *. cbn [gens txQueue signers txSignedQueue].
    pose proof (msum_insert (fun _ => signer_tags) 0 _ _ _ (Some sg) Hk) as E1.
    cbn [signer_tags Nat.add] in E1. rewrite Hq, chan_tags_cons in Heq.
    rewrite (signed_for_tag _ _ _ Hs) in E1. rewrite (generated_tag _ _ _ Hgen) in Heq. multiset_solver.
Qed.

Lemma Inv_send_signed s k sg :
  Inv s -> signers s !! k = Some (Some sg) ->
  Inv {| prov := prov s; gens := gens s; initialAccountSequences := initialAccountSequences s;
         txQueue := txQueue s; signers := <[k := None]> (signers s);
         txSignedQueue := txSignedQueue s ++ [sg]; signedTxs := signedTxs s;
         collected := collected s |}.
Proof.
  intros [] Hk. constructor; try done.
  - cbn. intros k' t Ht. destruct (decide (k' = k)) as [->|Hne].
    + rewrite list_lookup_insert_eq in Ht by (by eapply lookup_lt_Some). done.
    + rewrite list_lookup_insert_ne in Ht by done. eauto.
  - cbn. intros t [Ht| ->%list_elem_of_singleton]%elem_of_app; eauto.
  - destruct inv_conserved0 as (coll & Hc & Heq & Hst). exists coll. split_and!; [done| |done].
    unfold in_flight, produced in *. cbn [gens txQueue signers txSignedQueue].
    pose proof (msum_insert (fun _ => signer_tags) 0 _ _ _ None Hk) as E1.
    cbn [signer_tags Nat.add] in E1. rewrite chan_tags_snoc. multiset_solver.
Qed.

Lemma Inv_collect s tx rest m :
  Inv s -> txSignedQueue s = tx :: rest ->
  store (signedTxs s) (fromIdx tx) (txIdx tx) (txBytes tx) = Some m ->
  Inv {| prov := prov s; gens := gens s; initialAccountSequences := initialAccountSequences s;
         txQueue := txQueue s; signers := signers s; txSignedQueue := rest; signedTxs := m;
         collected := S (collected s) |}.
Proof.
  intros [] Hq Hst. destruct (inv_signedq0 tx) as (i & j & Hs); [rewrite Hq; left|].
  pose proof (signed_for_tag _ _ _ Hs) as Htag. unfold tag in Htag. injection Htag as H1 H2.
  rewrite H1, H2 in Hst. destruct (store_Some _ _ _ _ _ Hst) as (row & Hrow & Hj & ->).
  constructor; try done.
  - cbn. intros t Ht. apply inv_signedq0. rewrite Hq. by right.
  - cbn. by rewrite length_insert.
  - cbn. intros i' row'. destruct (decide (i' = i)) as [->|Hne].
    + rewrite list_lookup_insert_eq by (by eapply lookup_lt_Some). intros [= <-].
      rewrite length_insert. eauto.
    + rewrite list_lookup_insert_ne by done. eauto.
  - destruct inv_conserved0 as (coll & Hc & Heq & Hall). exists (coll ⊎ {[+ tag tx +]}).
    split_and!.
    + rewrite gmultiset_size_disj_union, gmultiset_size_singleton. cbn. lia.
    + unfold in_flight, produced in *. cbn [gens txQueue signers txSignedQueue].
      rewrite Hq, chan_tags_cons in Heq. multiset_solver.
    + intros z [Hz|Hz]%gmultiset_elem_of_disj_union.
      * destruct (Hall z Hz) as (i' & j' & -> & Hst'). exists i', j'. split; [done|].
        eapply stored_insert; eauto.
      * apply gmultiset_elem_of_singleton in Hz as ->. exists i, j. unfold tag. rewrite H1, H2.
        split; [done|]. eapply stored_insert; eauto.
Qed.

Lemma Inv_step s s' : Inv s -> step s s' -> Inv s'.
Proof.
  intros HI Hs. destruct Hs.
  - by eapply Inv_start_gen.
  - by eapply Inv_generate.
  - by eapply Inv_enqueue.
  - by eapply Inv_sign.
  - by eapply Inv_send_signed.
  - by eapply Inv_collect.
Qed.

Lemma Inv_reachable p n s : ok p -> reachable (start p n) s -> Inv s.
Proof. intros Hok. induction 1; [by apply Inv_start|by eapply Inv_step]. Qed.

(** ** Results *)

Lemma row_tags_elem i n j : (j < n)%nat -> (Z.of_nat i, Z.of_nat j) ∈ row_tags i n.
Proof.
  induction n as [|n IH]; intros Hj; [lia|]. cbn. apply gmultiset_elem_of_disj_union.
  destruct (decide (j = n)) as [->|]; [right; by apply gmultiset_elem_of_singleton|left; apply IH; lia].
Qed.

Lemma row_tags_size i n : size (row_tags i n) = n.
Proof.
  induction n as [|n IH]; cbn; [apply gmultiset_size_empty|].
  rewrite gmultiset_size_disj_union, IH, gmultiset_size_singleton. lia.
Qed.

Lemma produced_size s : size (produced s) = nsum made (gens s).
Proof. apply msum_size. intros. apply row_tags_size. Qed.

Lemma made_le s g : Inv s -> g ∈ gens s -> (made g <= NumOfTransactions)%nat.
Proof.
  intros HI [i Hi]%list_elem_of_lookup. apply (inv_gen _ HI) in Hi.
  destruct g as [|acc k [tx|]]; cbn in *; [lia|destruct Hi as (_ & _ & _ & Hg & _); lia|naive_solver].
Qed.

Lemma produced_le s : Inv s -> (nsum made (gens s) <= total_txs)%nat.
Proof.
  intros HI. unfold total_txs. rewrite <- (inv_gens _ HI), Nat.mul_comm.
  apply nsum_le. intros g. by apply made_le.
Qed.

Lemma finished_all s : Inv s -> finished s ->
  in_flight s = ∅ /\ forall i j, (i < length Accounts)%nat -> (j < NumOfTransactions)%nat ->
    stored (signedTxs s) i j /\ initialAccountSequences s !! i = Some (node i).2.
Proof.
  intros HI Hf. pose proof (produced_le s HI) as Hle.
  destruct (inv_conserved _ HI) as (coll & Hc & Heq & Hst).
  pose proof (produced_size s) as Hps. rewrite <- Heq, gmultiset_size_disj_union in Hps.
  unfold finished in Hf. split.
  - apply gmultiset_size_empty_inv. lia.
  - intros i j Hi Hj. rewrite <- (inv_gens _ HI) in Hi.
    destruct (lookup_lt_is_Some_2 (gens s) i Hi) as [g Hg].
    assert (Hm : made g = NumOfTransactions).
    { eapply nsum_full; [intros; by eapply made_le| |exact Hg].
      rewrite (inv_gens _ HI), Nat.mul_comm. fold total_txs. lia. }
    assert (Hin : (Z.of_nat i, Z.of_nat j) ∈ in_flight s ⊎ coll).
    { rewrite Heq. eapply msum_lookup; [exact Hg|]. apply row_tags_elem. lia. }
    assert (Hfl : in_flight s = ∅) by (apply gmultiset_size_empty_inv; lia).
    rewrite Hfl in Hin. apply gmultiset_elem_of_disj_union in Hin as [Hin|Hin].
    { by apply gmultiset_not_elem_of_empty in Hin. }
    destruct (Hst _ Hin) as (i' & j' & Hz & Hs). simplify_eq. split; [done|].
    apply (inv_gen _ HI) in Hg. destruct g as [|acc k sd]; [cbn in Hm; lia|by destruct Hg].
Qed.

(** The first element with a property, if any. *)
Lemma list_search {A} (Q : A -> Prop) `{!forall x, Decision (Q x)} (l : list A) :
  (exists i x, l !! i = Some x /\ Q x /\ forall j y, (j < i)%nat -> l !! j = Some y -> ~ Q y) \/
  forall i x, l !! i = Some x -> ~ Q x.
Proof.
  induction l as [|y l IH]; [by right|].
  destruct (decide (Q y)) as [Hy|Hy]; [left; exists 0%nat, y; split_and!; [done|done|lia]|].
  destruct IH as [(i & x & Hi & Hx & Hmin)|Hn]; [left; exists (S i), x|right].
  - split_and!; [done|done|]. intros [|j] z Hj Hz; simplify_eq/=; [done|]. eapply Hmin; [|done]. lia.
  - intros [|i] x Hi; simplify_eq/=; eauto.
Qed.

Lemma msum_empty {A} (f : nat -> A -> gmultiset (Z * Z)) k (l : list A) :
  (forall i x, l !! i = Some x -> f (k + i)%nat x = ∅) -> msum_from f k l = ∅.
Proof.
  intros Hf. apply gmultiset_eq. intros z. rewrite multiplicity_empty.
  destruct (decide (z ∈ msum_from f k l)) as [Hz|Hz].
  - apply msum_elem in Hz as (i & x & Hi & Hz). rewrite (Hf _ _ Hi) in Hz.
    by apply gmultiset_not_elem_of_empty in Hz.
  - by apply not_elem_of_multiplicity.
Qed.

Lemma signers_length p n s : reachable (start p n) s -> length (signers s) = n.
Proof.
  induction 1 as [|s s' _ IH Hs]; [apply repeat_length|].
  destruct Hs; cbn; rewrite ?length_insert; done.
Qed.

Lemma gen_moves s i g :
  txQueue s = [] -> gens s !! i = Some g -> gen_active g = true -> (exists s', step s s') \/ crashed s.
Proof.
  intros Hq Hg Hb. destruct g as [|acc k [tx|]]; [done| |].
  - left. eexists. eapply step_enqueue; [done|]. rewrite Hq. done.
  - apply Nat.ltb_lt in Hb. destruct (GenerateTx demo_env (prov s) (txRequest i acc k)) as [p' r] eqn:Eg.
    destruct (is_Ok r) eqn:Er; [destruct r as [tx| |]; try done; left; eexists; by eapply step_generate|].
    right. eapply crash_generate; [done|done|]. rewrite Eg. done.
Qed.

Lemma nsum_zero {A} (f : A -> nat) l : (forall i x, l !! i = Some x -> f x = 0%nat) -> nsum f l = 0%nat.
Proof.
  unfold nsum. induction l as [|x l IH]; intros H; [done|]. cbn [foldr]. rewrite (H 0%nat x eq_refl).
  apply IH. intros i. apply (H (S i)).
Qed.

(** With an idle worker and nothing to do, all generators have started. *)
Lemma gen_starts s :
  Inv s -> (0 < length (signers s))%nat -> (forall i g, gens s !! i = Some g -> gen_active g <> true) ->
  (exists s', step s s') \/ forall i g, gens s !! i = Some g -> g <> GWait.
Proof.
  intros HI Hn Hidle. assert (pool_busy s = 0%nat) as Hb.
  { apply nsum_zero. intros i g Hg. pose proof (Hidle i g Hg). by destruct (gen_active g). }
  assert (forall g : Generator, Decision (g = GWait)) as Hdec by (intros []; [left; done|right; done]).
  destruct (list_search (fun g => g = GWait) (gens s)) as [(i & g & Hg & -> & Hmin)|Hno]; [left|right; eauto].
  assert (Hi : (i < length Accounts)%nat) by (rewrite <- (inv_gens _ HI); by eapply lookup_lt_Some).
  apply lookup_lt_is_Some_2 in Hi as [key Hkey]. eexists. eapply step_start; [done| |lia|done|done].
  intros j Hj Hw. by apply (Hmin j GWait).
Qed.

Lemma idle_finished s :
  Inv s -> txQueue s = [] -> txSignedQueue s = [] ->
  (forall k o, signers s !! k = Some o -> ~ is_Some o) ->
  (forall i g, gens s !! i = Some g -> gen_active g <> true) ->
  (forall i g, gens s !! i = Some g -> g <> GWait) -> finished s.
Proof.
  intros HI Hq Hsq Hsig Hgen Hw. destruct (inv_conserved _ HI) as (coll & Hc & Heq & _).
  assert (Hfl : in_flight s = ∅).
  { unfold in_flight. rewrite Hq, Hsq, !msum_empty; [done| |].
    - intros i o Ho. destruct o; [|done]. exfalso. eapply Hsig; eauto.
    - intros i g Hg. destruct g as [|acc k [tx|]]; try done. exfalso. by eapply (Hgen i _ Hg). }
  rewrite Hfl in Heq. unfold finished, total_txs.
  rewrite <- Hc, <- (gmultiset_disj_union_left_id coll), Heq, produced_size, <- (inv_gens _ HI).
  assert (Hall : forall g, g ∈ gens s -> made g = NumOfTransactions).
  { intros g Hin. pose proof (made_le s g HI Hin). apply list_elem_of_lookup in Hin as [i Hi].
    pose proof (Hgen i g Hi) as Hnb. pose proof (Hw i g Hi).
    destruct g as [|acc k [tx|]]; cbn in *; [done|done|].
    apply not_true_iff_false, Nat.ltb_ge in Hnb. lia. }
  clear -Hall. unfold nsum. induction (gens s) as [|g l IH]; [done|]. cbn.
  rewrite (Hall g) by left. f_equal. apply IH. intros g' Hg'. apply Hall. by right.
Qed.

Lemma pipe_progress p n s :
  (0 < n)%nat -> ok p -> reachable (start p n) s -> ~ finished s -> (exists s', step s s') \/ crashed s.
Proof.
  intros Hn Hok Hr Hnf. pose proof (signers_length _ _ _ Hr) as Hlen. apply Inv_reachable in Hr as HI; [|done].
  assert (Hlt : (collected s < total_txs)%nat).
  { destruct (inv_conserved _ HI) as (coll & Hc & Heq & _). pose proof (produced_le s HI).
    pose proof (produced_size s) as Hps. rewrite <- Heq, gmultiset_size_disj_union in Hps.
    unfold finished in Hnf. lia. }
  destruct (txSignedQueue s) as [|tx rest] eqn:Esq.
  2: { destruct (store (signedTxs s) (fromIdx tx) (txIdx tx) (txBytes tx)) as [m|] eqn:Em;
       [left; eexists; by eapply step_collect|right; by eapply crash_collect]. }
  destruct (list_search is_Some (signers s)) as [(k & o & Hk & [sg ->] & _)|Hidle].
  { left. eexists. eapply step_send_signed; [done|]. rewrite Esq. done. }
  destruct (txQueue s) as [|tx rest] eqn:Eq.
  2: { destruct (lookup_lt_is_Some_2 (signers s) 0) as [o Ho]; [lia|].
       destruct o as [sg|]; [exfalso; eapply Hidle; eauto|].
       destruct (BuildAndSignTx (prov s) client tx) as [[p' tx'] r] eqn:Eb.
       destruct (is_Ok r) eqn:Er.
       - destruct r; try done. left. eexists. by eapply step_sign.
       - right. eapply crash_sign; [done|done|]. by rewrite Eb. }
  destruct (list_search (fun g => gen_active g = true) (gens s)) as [(i & g & Hg & Hb & _)|Hgen];
    [by eapply gen_moves|].
  destruct (gen_starts s HI ltac:(lia) Hgen) as [|Hw]; [by left|]. exfalso. by apply Hnf, idle_finished.
Qed.

Lemma steps_bound p n k s : steps k (start p n) s -> (k <= length Accounts + 5 * total_txs)%nat.
Proof. intros Hs%steps_measure. rewrite start_measure in Hs. unfold total_txs. lia. Qed.

Lemma steps_reachable k s0 s : steps k s0 s -> reachable s0 s.
Proof. induction 1; [apply reach_refl|by eapply reach_step]. Qed.

(** The provider succeeds on the requests of this run. *)
Record provider_succeeds : Prop := {
  generate_succeeds e p i key j : ok p -> Accounts !! i = Some key -> (j < NumOfTransactions)%nat ->
    is_Ok (GenerateTx e p (txRequest i (account_at i key j) j)).2 = true;
  sign_succeeds p i j tx : ok p -> generated i j tx -> is_Ok (BuildAndSignTx p client tx).2 = true
}.

Lemma store_in_range s i j b :
  Inv s -> (i < length Accounts)%nat -> (j < NumOfTransactions)%nat ->
  is_Some (store (signedTxs s) (Z.of_nat i) (Z.of_nat j) b).
Proof.
  intros HI Hi Hj. unfold store. rewrite <- (inv_rows _ HI) in Hi.
  destruct (lookup_lt_is_Some_2 _ _ Hi) as [row Hr]. pose proof (inv_row _ HI _ _ Hr) as Hlen.
  rewrite (proj2 (index_Ok (signedTxs s) (Z.of_nat i) row)) by (rewrite Nat2Z.id; split; [lia|done]).
  destruct (index_in_range row (Z.of_nat j)) as [o ->]; [lia|]. eauto.
Qed.

(** What a channel or a signer holds. *)
Lemma held_tx s tx :
  Inv s -> tx ∈ txQueue s \/ Some tx ∈ signers s \/ tx ∈ txSignedQueue s ->
  0 <= fromIdx tx < Z.of_nat (length Accounts) /\ 0 <= txIdx tx < Z.of_nat NumOfTransactions /\
  Key (from tx) ∈ Accounts /\ is_u64 (acc_Sequence (from tx)).
Proof.
  intros HI Htx.
  assert (Hg : exists i j u, generated i j u /\ tag tx = tag u /\ from tx = from u).
  { destruct Htx as [H|H].
    - destruct (inv_queue _ HI tx H) as (i & j & Hg). by exists i, j, tx.
    - assert (exists i j, signed_for i j tx) as (i & j & u & p2 & _ & Hg & Hb).
      { destruct H as [[k Hk]%list_elem_of_lookup|H]; [by eapply inv_signer|by eapply inv_signedq]. }
      apply BuildAndSignTx_tags in Hb as (H1 & H2 & H3). exists i, j, u. unfold tag. by rewrite H1, H2. }
  destruct Hg as (i & j & u & Hg & Ht & ->). rewrite (generated_tag _ _ _ Hg) in Ht.
  unfold tag in Ht. injection Ht as -> ->. destruct Hg as (Hj & key & e & p1 & _ & Hkey & Hg).
  apply GenerateTx_tags in Hg as (_ & _ & ->). cbn [From txRequest account_at Key acc_Sequence].
  pose proof (lookup_lt_Some _ _ _ Hkey). split_and!; [lia..|by eapply list_elem_of_lookup_2|].
  apply u64_range.
Qed.

Lemma collect_in_range s tx rest :
  Inv s -> txSignedQueue s = tx :: rest ->
  is_Some (store (signedTxs s) (fromIdx tx) (txIdx tx) (txBytes tx)).
Proof.
  intros HI Hq. destruct (inv_signedq _ HI tx) as (i & j & Ht); [rewrite Hq; left|].
  pose proof (signed_for_tag _ _ _ Ht) as Htag. unfold tag in Htag. injection Htag as -> ->.
  destruct Ht as (u & p2 & _ & (Hj & key & e & p1 & _ & Hkey & _) & _).
  apply store_in_range; [done|by eapply lookup_lt_Some|done].
Qed.

Lemma no_crash s : provider_succeeds -> Inv s -> ~ crashed s.
Proof.
  intros Hp HI Hc. pose proof (inv_prov _ HI) as Ho.
  destruct Hc as [s i acc k e Hgen Hk Hf|s k tx rest Hk Hq Hf|s tx rest Hc Hq Hst].
  - apply (inv_gen _ HI) in Hgen as (_ & (key & Hkey & ->) & _). by rewrite (generate_succeeds Hp) in Hf.
  - destruct (inv_queue _ HI tx) as (i & j & Ht); [rewrite Hq; left|].
    by rewrite (sign_succeeds Hp _ _ _ _ Ho Ht) in Hf.
  - destruct (collect_in_range s tx rest HI Hq) as [m Hm]. by rewrite Hm in Hst.
Qed.

Lemma pipe_finishes p n :
  (0 < n)%nat -> provider_succeeds -> ok p -> exists s, reachable (start p n) s /\ finished s.
Proof.
  intros Hn Hp Hok.
  destruct (run_to_end (fun k s => steps k (start p n) s) step finished (start p n)
    (length Accounts + 5 * total_txs)) as (k & s & Hs & Hf).
  - apply steps_0.
  - intros k s s' H1 H2. by eapply steps_S.
  - apply steps_bound.
  - intros k s Hs%steps_reachable. destruct (decide (collected s = total_txs)) as [|Hnf]; [by left|right].
    destruct (pipe_progress p n s Hn Hok Hs Hnf) as [|Hc]; [done|].
    destruct (no_crash s Hp); [by eapply Inv_reachable|done].
  - exists s. eauto using steps_reachable.
Qed.

End Pipeline.

(** ** The theorems *)

Section Runs.
Context {P : Type} {TP : TxProvider P} {TL : TxProviderLaws P}.
Context (client : Client) (Accounts : list Secp256k1PrivateKey) (NumOfTransactions : nat).
Context (node : nat -> Z * Z).
Hypothesis node_u64 : forall i, is_u64 (node i).2.

Local Notation step := (step client Accounts NumOfTransactions node).
Local Notation steps := (steps client Accounts NumOfTransactions node).
Local Notation reachable := (reachable client Accounts NumOfTransactions node).
Local Notation start := (start Accounts NumOfTransactions).
Local Notation finished := (finished Accounts NumOfTransactions).
Local Notation crashed := (crashed client Accounts NumOfTransactions).

Lemma keeps_True : provider_keeps client (fun _ : P => True).
Proof. done. Qed.

(** C7. What the pipeline leaves when its collector returns, whatever the
    interleaving of generators, signers and collector: for every account [i] and
    index [j] the matrix holds the bytes of a transaction that the provider
    generated for account [i] at sequence (initial sequence + j) and then signed,
    the account's initial sequence is recorded, and nothing is left in a queue or
    a goroutine: no transaction is lost, duplicated or stored elsewhere. *)
Theorem pipeline_result p n s :
  reachable (start p n) s -> finished s ->
  in_flight s = ∅ /\
  forall i j, (i < length Accounts)%nat -> (j < NumOfTransactions)%nat ->
    initialAccountSequences s !! i = Some (node i).2 /\
    exists row key e p1 p2 unsigned signed,
      signedTxs s !! i = Some row /\ row !! j = Some (Some (txBytes signed)) /\
      Accounts !! i = Some key /\
      (GenerateTx e p1 (txRequest Accounts i (account_at node i key j) j)).2 = Ok unsigned /\
      (BuildAndSignTx p2 client unsigned).2 = Ok signed.
Proof.
  intros Hr Hf. apply (Inv_reachable client Accounts NumOfTransactions node _ node_u64 keeps_True) in Hr; [|done].
  destruct (finished_all _ _ _ _ _ s Hr Hf) as [Hfl Hall].
  split; [done|]. intros i j Hi Hj. destruct (Hall i j Hi Hj) as [(row & sg & Hrow & Hj' & Hs) Hin].
  destruct Hs as (u & p2 & _ & (_ & key & e & p1 & _ & Hkey & Hg) & Hb). split; [done|].
  exists row, key, e, p1, p2, u, sg. done.
Qed.

(** C8. The pipeline cannot deadlock and cannot run forever: with at least one CPU,
    every reachable state before the collector's return has a next step, unless a
    provider call failed; and every run takes at most five steps per transaction
    plus one per account.  So as long as the provider succeeds, every maximal run
    reaches the collector's return. *)
Theorem pipeline_live p n :
  (0 < n)%nat ->
  (forall s, reachable (start p n) s -> ~ finished s -> (exists s', step s s') \/ crashed s) /\
  (forall k s, steps k (start p n) s -> (k <= length Accounts + 5 * total_txs Accounts NumOfTransactions)%nat).
Proof.
  intros Hn. split; [|apply steps_bound].
  intros s. by apply (pipe_progress client Accounts NumOfTransactions node _ node_u64 keeps_True).
Qed.

(** C34. The pipeline's state is well formed in every reachable state, whatever the
    interleaving: the matrix has a row per account with a slot per transaction;
    every transaction in a queue or a signer's hands is tagged with an account
    index and a transaction index within the matrix and carries an account of the
    run with a [uint64] sequence; and so the collector's assignment is never out
    of range. *)
Theorem pipeline_well_formed p n s :
  reachable (start p n) s ->
  length (signedTxs s) = length Accounts /\
  (forall row, row ∈ signedTxs s -> length row = NumOfTransactions) /\
  (forall tx, tx ∈ txQueue s \/ Some tx ∈ signers s \/ tx ∈ txSignedQueue s ->
     0 <= fromIdx tx < Z.of_nat (length Accounts) /\ 0 <= txIdx tx < Z.of_nat NumOfTransactions /\
     Key (from tx) ∈ Accounts /\ is_u64 (acc_Sequence (from tx))) /\
  (forall tx rest, txSignedQueue s = tx :: rest ->
     is_Some (store (signedTxs s) (fromIdx tx) (txIdx tx) (txBytes tx))).
Proof.
  intros HI%(Inv_reachable client Accounts NumOfTransactions node _ node_u64 keeps_True); [|done].
  split_and!; [apply HI| |intros tx; by eapply held_tx|intros tx rest; by eapply collect_in_range].
  intros row [i Hi]%list_elem_of_lookup. by eapply inv_row.
Qed.

End Runs.

(** ** Witnesses *)

Definition demo_bank : bankSendProvider :=
  {| bs_sendAmount := demo_price; bs_minGasPrice := demo_price; bs_maxGasLimit := 150000;
     bs_memoAttach := "" |}.

Definition demo_bank_provider : TxProvider bankSendProvider :=
  @bankSend_TxProvider demo_txconfig model_crypto model_math.

Definition demo_node (i : nat) : Z * Z := (3, 41).

Lemma demo_node_u64 i : is_u64 (demo_node i).2.
Proof. cbn. width. Qed.

Definition demo_start : Pipe := start [[7]] 1 demo_bank 1.

Definition demo_acc : Account :=
  {| Name := "sender-0"; Key := [7]; Number := 3; acc_Sequence := 41 |}.

Definition demo_tx0 : baseTx :=
  {| from := demo_acc; msgs := [MsgSend [1; 2; 7] [1; 2; 7] [demo_price]]; txBytes := [];
     fromIdx := 0; txIdx := 0 |}.

Definition demo_state (g : Generator) (q : list baseTx) (sg : option baseTx) (sq : list baseTx)
    (m : option bytes) (c : nat) : Pipe :=
  {| prov := demo_bank; gens := [g]; initialAccountSequences := [41]; txQueue := q;
     signers := [sg]; txSignedQueue := sq; signedTxs := [[m]]; collected := c |}.

(** One account with one transaction, on one CPU. *)
Definition demo_end : Pipe :=
  demo_state (GLoop (next_sequence demo_acc) 1 None) [] None [] (Some [1]) 1.

Lemma demo_run :
  @reachable _ demo_bank_provider {| ChainID := "c" |} [[7]] 1 demo_node demo_start demo_end.
Proof.
  set (sg := WithBytes demo_tx0 [1]). set (g := GLoop (next_sequence demo_acc) 1 None).
  apply (reach_step _ _ _ _ _ (demo_state g [] None [sg] None 0)).
  2: { apply (step_collect _ _ _ _ (demo_state g [] None [sg] None 0) sg [] [[Some [1]]]);
       [cbn; lia|reflexivity|reflexivity]. }
  apply (reach_step _ _ _ _ _ (demo_state g [] (Some sg) [] None 0)).
  2: { by apply (step_send_signed _ _ _ _ (demo_state g [] (Some sg) [] None 0) 0 sg). }
  apply (reach_step _ _ _ _ _ (demo_state g [demo_tx0] None [] None 0)).
  2: { by apply (step_sign _ _ _ _ (demo_state g [demo_tx0] None [] None 0) 0 demo_tx0 [] demo_bank
         demo_tx0 sg). }
  apply (reach_step _ _ _ _ _ (demo_state (GLoop demo_acc 0 (Some demo_tx0)) [] None [] None 0)).
  2: { by apply (step_enqueue _ _ _ _ (demo_state (GLoop demo_acc 0 (Some demo_tx0)) [] None [] None 0)
         0 demo_acc 0 demo_tx0). }
  apply (reach_step _ _ _ _ _ (demo_state (GLoop demo_acc 0 None) [] None [] None 0)).
  2: { apply (step_generate _ _ _ _ (demo_state (GLoop demo_acc 0 None) [] None [] None 0)
         0 demo_acc 0 demo_env demo_bank demo_tx0); [reflexivity|lia|reflexivity]. }
  apply (reach_step _ _ _ _ _ demo_start); [apply reach_refl|].
  apply (step_start {| ChainID := "c" |} [[7]] 1 demo_node demo_start 0 [7] demo_acc); try done; cbn; lia.
Qed.

Lemma pipeline_result_witness :
  exists s : @Pipe bankSendProvider, initialAccountSequences s !! 0%nat = Some 41 /\ in_flight s = ∅.
Proof.
  exists demo_end.
  destruct (@pipeline_result _ demo_bank_provider (@bankSend_laws demo_txconfig model_crypto model_math)
    {| ChainID := "c" |} [[7]] 1 demo_node demo_node_u64 demo_bank 1 demo_end demo_run eq_refl) as [H1 H2].
  destruct (H2 0%nat 0%nat) as [H3 _]; [cbn; lia|lia|]. exact (conj H3 H1).
Defined.

Lemma pipeline_live_witness :
  (exists s', @step _ demo_bank_provider {| ChainID := "c" |} [[7]] 1 demo_node demo_start s') \/
  @crashed _ demo_bank_provider {| ChainID := "c" |} [[7]] 1 demo_start.
Proof.
  apply (@pipeline_live _ demo_bank_provider (@bankSend_laws demo_txconfig model_crypto model_math)
    {| ChainID := "c" |} [[7]] 1 demo_node demo_node_u64 demo_bank 1 ltac:(lia));
    [apply reach_refl|discriminate].
Defined.

Lemma pipeline_well_formed_witness :
  length (signedTxs demo_end) = 1%nat /\ forall row, row ∈ signedTxs demo_end -> length row = 1%nat.
Proof.
  destruct (@pipeline_well_formed _ demo_bank_provider (@bankSend_laws demo_txconfig model_crypto model_math)
    {| ChainID := "c" |} [[7]] 1 demo_node demo_node_u64 demo_bank 1 demo_end demo_run) as (H1 & H2 & _).
  exact (conj H1 H2).
Defined.
