(* ===== verification/Stresser.v ===== *)
(** * The rest of [Stress] (stresser.go)

    Fetching account numbers and sequences, creating and broadcasting the
    initial transactions, the rate-limited broadcast function, and the
    broadcasting loop of an account, which follows the sequence the node says
    it expects. *)

From Stdlib Require Import ZArith Lia Ascii String.
From stdpp Require Import base list strings numbers.
From S2P Require Import Prelude GoStrings Float64 Sdk SdkModel RateLimit Chain Payload EthPayload Pipeline.

Open Scope string_scope.
Open Scope Z_scope.
Open Scope list_scope.

(** ** Account numbers and sequences *)

Section Initial.
Context `{RL : RetryLib}.

(** One attempt: the closure assigns both variables whatever the answer. *)
Definition numseq_attempt (_ : Z * Z) (r : (Z * Z) + error) : (Z * Z) * option error :=
  match r with
  | inl v => (v, None)
  | inr e => ((0, 0), Some (EWrap "querying for account number and sequence failed" e))
  end.

(** [answers]: what the node answers to the attempts; [None] while the call
    has not returned. *)
Definition getAccountNumberSequence (answers : list ((Z * Z) + error)) : option (go (Z * Z)) :=
  match retry_Attempts 10 numseq_attempt (0, 0) answers with
  | None => None
  | Some (_, Some e) => Some (Err e)
  | Some (v, None) => Some (Ok v)
  end.

(** ** Initial transactions *)

Context {P : Type} {TP : TxProvider P}.

Definition initial_request (keyIdx : Z) (key : Secp256k1PrivateKey) (accNum accSeq : Z) : TxRequest :=
  {| Keys := [key];
     From := {| Name := ""; Key := key; Number := accNum; acc_Sequence := accSeq |};
     FromIdx := keyIdx; TxIdx := 0 |}.

(** The first loop of [createAndBroadcastInitialTxs], from key [keyIdx] on:
    the initial transactions, in order, and the provider. *)
Fixpoint create_initial (e : Env) (p : P) (keyIdx : Z) (keys : list Secp256k1PrivateKey)
    (answers : Z -> list ((Z * Z) + error)) : option (P * go (list baseTx)) :=
  match keys with
  | [] => Some (p, Ok [])
  | key :: rest =>
      match getAccountNumberSequence (answers keyIdx) with
      | None => None
      | Some (Err err) =>
          Some (p, Err (EWrap "❌ Fetching initial Tx account number and sequence failed" err))
      | Some (Panic m) => Some (p, Panic m)
      | Some (Ok (accNum, accSeq)) =>
          match GenerateInitialTx e p (initial_request keyIdx key accNum accSeq) with
          | (p', Err err) => Some (p', Err (EWrap "❌ Generating initial Tx failed" err))
          | (p', Panic m) => Some (p', Panic m)
          | (p', Ok o) =>
              match create_initial e p' (keyIdx + 1) rest answers with
              | Some (p'', Ok txs) =>
                  Some (p'', Ok (match o with Some tx => tx :: txs | None => txs end))
              | r => r
              end
          end
      end
  end.

(** One attempt: sign, then broadcast and await; [r] is what [client.Broadcast]
    returns for the signed bytes.  The variables are the provider and the
    unsigned transaction the signer writes into; the boolean is set when a
    panic ends the process. *)
Definition initial_attempt (client : Client) (st : P * baseTx * bool)
    (r : bytes -> string * option error) : (P * baseTx * bool) * option error :=
  let '(p, tx, died) := st in
  match BuildAndSignTx p client tx with
  | (p', tx', Err e) => ((p', tx', died), Some (EWrap "❌ Signing initial Tx failed" e))
  | (p', tx', Panic _) => ((p', tx', true), None)
  | (p', tx', Ok signed) =>
      match r (txBytes signed) with
      | (h, Some e) => ((p', tx', died), Some (EWrap ("❌ Broadcasting initial Tx failed: " +:+ h) e))
      | (_, None) => ((p', tx', died), None)
      end
  end.

(** A task of the pool: its failure is only logged. *)
Definition broadcast_initial (client : Client) (p : P) (tx : baseTx)
    (rs : list (bytes -> string * option error))
    : option (P * baseTx * bool) :=
  match retry_Attempts 5 (initial_attempt client) (p, tx, false) rs with
  | None => None
  | Some (st, _) => Some st
  end.

(** ** Retrying *)

Context `{RLL : !RetryLaws}.

Lemma attempts_success {S R} (f : S -> R -> S * option error) n fails r rest s v :
  (length fails < n)%nat ->
  (forall s r, r ∈ fails -> exists s' e, f s r = (s', Some e) /\ IsRecoverable e = true) ->
  (forall s, f s r = (v, None)) ->
  retry_Attempts n f s (fails ++ r :: rest) = Some (v, None).
Proof.
  revert n s. induction fails as [|r0 fails IH]; intros [|n] s Hn Hf Hr; cbn [length] in *; try lia.
  - pose proof (Attempts_cons n f s r rest) as H. rewrite Hr in H. cbn [app].
    destruct (retry_Attempts _ _ _ _) as [[s1 e1]|]; [|done]. destruct H as [-> He].
    by rewrite (proj2 He eq_refl).
  - cbn [app]. pose proof (Attempts_cons n f s r0 (fails ++ r :: rest)) as H.
    destruct (Hf s r0 ltac:(left)) as (s' & e & Hr0 & He). rewrite Hr0, He in H.
    rewrite (proj2 (Z.ltb_lt 0 _)) in H by lia. cbn [andb] in H.
    rewrite (IH n s') in H; [|lia|intros; apply Hf; by right|done].
    destruct (retry_Attempts _ _ _ _) as [[s1 e1]|]; [|done]. destruct H as [-> He1].
    by rewrite (proj2 He1 eq_refl).
Qed.

Lemma attempts_exhausted {S R} (f : S -> R -> S * option error) n fails rest s :
  length fails = Datatypes.S n ->
  (forall s r, r ∈ fails -> exists s' e, f s r = (s', Some e) /\ IsRecoverable e = true) ->
  exists s' e, retry_Attempts (Datatypes.S n) f s (fails ++ rest) = Some (s', Some e).
Proof.
  revert n s. induction fails as [|r0 fails IH]; intros n s Hn Hf; [done|].
  cbn [app]. pose proof (Attempts_cons n f s r0 (fails ++ rest)) as H.
  destruct (Hf s r0 ltac:(left)) as (s' & e & Hr0 & He). rewrite Hr0, He in H. cbn [length] in Hn.
  destruct n as [|n].
  - cbn in H. destruct (retry_Attempts _ _ _ _) as [[s1 [e1|]]|]; [eauto| |done].
    destruct H as [_ H]. discriminate (proj1 H eq_refl).
  - rewrite (proj2 (Z.ltb_lt 0 _)) in H by lia. cbn [andb] in H.
    destruct (IH n s') as (s2 & e2 & H2); [lia|intros; apply Hf; by right|]. rewrite H2 in H.
    destruct (retry_Attempts _ _ _ _) as [[s1 [e1|]]|]; [eauto| |done].
    destruct H as [_ H]. discriminate (proj1 H eq_refl).
Qed.

(** Only failed queries; the error of a query is not one [retry.Unrecoverable] made. *)
Definition all_failed (l : list ((Z * Z) + error)) : Prop :=
  forall r, r ∈ l -> exists e, r = inr e /\ is_unrecoverable e = false.

Lemma numseq_fails l s r :
  all_failed l -> r ∈ l -> exists s' e, numseq_attempt s r = (s', Some e) /\ IsRecoverable e = true.
Proof.
  intros Hl Hr. destruct (Hl r Hr) as (e & -> & He). cbn. do 2 eexists. split; [done|].
  rewrite IsRecoverable_Is. cbn. by rewrite He.
Qed.

Lemma numseq_success fails v rest :
  all_failed fails -> (length fails < 10)%nat ->
  getAccountNumberSequence (fails ++ inl v :: rest) = Some (Ok v).
Proof.
  intros Hf Hn. unfold getAccountNumberSequence.
  by rewrite (attempts_success numseq_attempt 10 fails (inl v) rest (0, 0) v)
    by eauto using numseq_fails.
Qed.

Lemma numseq_exhausted fails rest :
  all_failed fails -> length fails = 10%nat ->
  exists e, getAccountNumberSequence (fails ++ rest) = Some (Err e).
Proof.
  intros Hf Hn. unfold getAccountNumberSequence.
  destruct (attempts_exhausted numseq_attempt 9 fails rest (0, 0)) as (s & e & ->);
    eauto using numseq_fails.
Qed.

(** The requests for the keys from index [i] on. *)
Fixpoint initial_requests (i : Z) (keys : list Secp256k1PrivateKey) (acc : Z -> Z * Z) : list TxRequest :=
  match keys with
  | [] => []
  | key :: rest => initial_request i key (acc i).1 (acc i).2 :: initial_requests (i + 1) rest acc
  end.

Lemma create_initial_run e p i keys answers acc p' outs :
  (forall k, i <= k < i + Z.of_nat (length keys) ->
     getAccountNumberSequence (answers k) = Some (Ok (acc k))) ->
  run_initial e p (initial_requests i keys acc) = (p', map Ok outs) ->
  create_initial e p i keys answers = Some (p', Ok (omap id outs)).
Proof.
  revert p i outs. induction keys as [|key keys IH]; intros p i outs Hacc Hrun.
  - cbn in *. injection Hrun as <- Hm. by destruct outs.
  - cbn [create_initial initial_requests run_initial length] in *.
    rewrite Hacc by lia. destruct (acc i) as [num seq] eqn:Ei. cbn [fst snd] in *.
    destruct (GenerateInitialTx e p _) as [p1 r] eqn:Eg.
    destruct (run_initial e p1 _) as [p2 rs] eqn:Er. injection Hrun as <- Hm.
    destruct outs as [|o outs]; [done|]. cbn in Hm. injection Hm as -> ->.
    rewrite (IH p1 (i + 1) outs) by (try done; intros; apply Hacc; lia). by destruct o.
Qed.

Lemma initial_requests_lookup i keys acc k req :
  initial_requests i keys acc !! k = Some req -> FromIdx req = i + Z.of_nat k /\ TxIdx req = 0.
Proof.
  revert i k. induction keys as [|key keys IH]; intros i [|k] H; simplify_eq/=; [split; lia|].
  apply IH in H as [-> ->]. split; lia.
Qed.

(** The loop stops at the first account that cannot be queried, with the provider
    as the accounts before it left it. *)
Lemma create_initial_stops e p i keys answers acc k err p' outs :
  (forall j, i <= j < i + Z.of_nat k -> getAccountNumberSequence (answers j) = Some (Ok (acc j))) ->
  getAccountNumberSequence (answers (i + Z.of_nat k)) = Some (Err err) -> (k < length keys)%nat ->
  run_initial e p (initial_requests i keys acc) = (p', map Ok outs) ->
  create_initial e p i keys answers =
    Some ((run_initial e p (take k (initial_requests i keys acc))).1,
          Err (EWrap "❌ Fetching initial Tx account number and sequence failed" err)).
Proof.
  revert p i k outs. induction keys as [|key keys IH]; intros p i k outs Hacc Herr Hk Hrun; [cbn in Hk; lia|].
  cbn [create_initial initial_requests run_initial length] in *. destruct k as [|k].
  { rewrite Z.add_0_r in Herr. by rewrite Herr. }
  rewrite Hacc by lia. destruct (acc i) as [num seq] eqn:Ei. cbn [fst snd take run_initial] in *.
  destruct (GenerateInitialTx e p _) as [p1 r] eqn:Eg.
  destruct (run_initial e p1 (initial_requests _ _ _)) as [p2 rs] eqn:Er. injection Hrun as <- Hm.
  destruct outs as [|o outs]; [done|]. cbn in Hm. injection Hm as -> ->.
  rewrite (IH p1 (i + 1) k outs);
    [|intros; apply Hacc; lia|by replace (i + 1 + Z.of_nat k) with (i + Z.of_nat (S k)) by lia|lia|done].
  by destruct (run_initial e p1 (take _ _)) as [p3 rs3].
Qed.

(** C17. Preparing the initial transactions.  Each account's number and sequence are
    retried: nine failed queries are survived.  When every account is answered
    within that bound, the provider is asked once for each account, in order, with
    TxIdx 0 and the account's current sequence, and the transactions it returned,
    in that order, are the ones that will be broadcast.  When some account's first
    ten queries fail, whichever account it is, the run stops there with an error,
    and the provider has been asked for the accounts before it and no other. *)
Theorem create_initial_exact e p keys acc fails rests p' outs :
  (forall k, 0 <= k < Z.of_nat (length keys) -> all_failed (fails k) /\ (length (fails k) <= 9)%nat) ->
  let reqs := initial_requests 0 keys acc in
  run_initial e p reqs = (p', map Ok outs) ->
  account_requests reqs /\
  create_initial e p 0 keys (fun k => fails k ++ inl (acc k) :: rests k) = Some (p', Ok (omap id outs)) /\
  (forall k answers, (k < length keys)%nat ->
     (forall j, 0 <= j < Z.of_nat k -> answers j = fails j ++ inl (acc j) :: rests j) ->
     all_failed (take 10 (answers (Z.of_nat k))) -> (10 <= length (answers (Z.of_nat k)))%nat ->
     exists err, create_initial e p 0 keys answers = Some ((run_initial e p (take k reqs)).1, Err err)).
Proof.
  intros Hf reqs Hrun.
  assert (Hok : forall k, 0 <= k < Z.of_nat (length keys) ->
    getAccountNumberSequence (fails k ++ inl (acc k) :: rests k) = Some (Ok (acc k))).
  { intros k Hk. destruct (Hf k Hk) as [H1 H2]. apply numseq_success; [done|lia]. }
  split_and!.
  - intros k req H. apply initial_requests_lookup in H as [-> ->]. split; lia.
  - eapply create_initial_run; [|exact Hrun]. intros k Hk. apply Hok. lia.
  - intros k answers Hk Hbefore Ha Hl.
    destruct (numseq_exhausted (take 10 (answers (Z.of_nat k))) (drop 10 (answers (Z.of_nat k)))) as [err He];
      [done|rewrite length_take; lia|]. rewrite take_drop in He.
    eexists. eapply create_initial_stops; [|exact He|done|exact Hrun].
    intros j Hj. rewrite Hbefore by lia. apply Hok. lia.
Qed.
End Initial.

(** ** The broadcast function *)

Section BroadcastClient.
Context `{RL : RetryLib, SE : SdkErrors, RT : RateLib, FC : FloatConv, TC : TxConfig}.

Definition buildBroadcastClient (rateLimit : Config) : go (option MultiLimiter) :=
  if IsEnabled rateLimit then
    let! limiter := go_wrap "failed to create rate limiter" (NewMultiLimiter rateLimit) in
    Ok (Some limiter)
  else Ok None.

(** A call of the function [buildBroadcastClient] returns; [lim] is the limiter
    it closes over. *)
Definition broadcastFunc (sync : bytes -> list SyncResult) (poll : bytes -> list PollEvent)
    (await : bool) (ctx : Context) (lim : option MultiLimiter) (txBytes : bytes)
    : option (option MultiLimiter * (string * option error)) :=
  match lim with
  | None =>
      match Broadcast sync poll txBytes await with
      | None => None
      | Some r => Some (None, r)
      end
  | Some l =>
      match WaitForTransactionBytes ctx (Some TxDecoder) l txBytes with
      | None => None
      | Some (l', Some err) => Some (Some l', ("", Some (EWrap "rate limit wait failed" err)))
      | Some (l', None) =>
          match Broadcast sync poll txBytes await with
          | None => None
          | Some r => Some (Some l', r)
          end
      end
  end.

Context `{RTL : !RateLaws}.

(** Decoded gas limits are [uint64]s. *)
Definition gas_typed : Prop :=
  forall b tx f, TxDecoder b = inl tx -> asFeeTx tx = Some f -> is_u64 (GetGas f).

(** With a live context a call is the client's [Broadcast], once the limiter has
    been charged. *)
Lemma broadcastFunc_live sync poll await ctx l txBytes :
  gas_typed -> MultiLimiter_wf l -> ctx_live ctx = true ->
  exists l' gas,
    gas = match ExtractGasLimit (Some TxDecoder) txBytes with inl g => g | inr _ => 0 end /\
    WaitForTransactionBytes ctx (Some TxDecoder) l txBytes = Some (l', None) /\
    MultiLimiter_wf l' /\
    MultiLimiter_charged l l'
      {| SizeBytes := u64 (Z.of_nat (length txBytes)); GasLimit := gas |} /\
    broadcastFunc sync poll await ctx (Some l) txBytes =
      (fun r => (Some l', r)) <$> Broadcast sync poll txBytes await.
Proof.
  intros Hgas Hwf Hlive.
  set (g := match ExtractGasLimit (Some TxDecoder) txBytes with inl g => g | inr _ => 0 end).
  assert (Hg : is_u64 g).
  { unfold g, ExtractGasLimit. destruct (TxDecoder txBytes) as [tx|] eqn:Ed; [|width].
    destruct (asFeeTx tx) as [f|] eqn:Ef; [by eapply Hgas|width]. }
  destruct (WaitForTransaction_spec ctx l
    {| SizeBytes := u64 (Z.of_nat (length txBytes)); GasLimit := g |} Hwf (u64_range _) Hg)
    as (l' & err & E & Hwf' & _ & Hn & Hok).
  rewrite (Hok Hlive) in *. exists l', g.
  assert (Hw : WaitForTransactionBytes ctx (Some TxDecoder) l txBytes = Some (l', None)) by exact E.
  split_and!; [done|done|done|by apply Hn|]. unfold broadcastFunc. rewrite Hw.
  by destruct (Broadcast _ _ _ _).
Qed.

Lemma broadcastFunc_unlimited sync poll await ctx txBytes :
  broadcastFunc sync poll await ctx None txBytes =
  (fun r => (None, r)) <$> Broadcast sync poll txBytes await.
Proof. unfold broadcastFunc. by destruct (Broadcast _ _ _ _). Qed.

Lemma buildBroadcastClient_Ok cfg :
  Config_typed cfg ->
  exists lim, buildBroadcastClient cfg = Ok lim /\ (is_Some lim <-> IsEnabled cfg = true) /\
    forall l, lim = Some l -> MultiLimiter_wf l.
Proof.
  intros Hc. unfold buildBroadcastClient. destruct (IsEnabled cfg) eqn:En.
  - destruct (NewMultiLimiter_built cfg Hc) as (l & -> & Hwf & _). cbn [go_wrap go_bind].
    exists (Some l). split_and!; [done|split; [done|eauto]|]. by intros ? [= <-].
  - exists None. split_and!; [done|split; [by intros []|done]|done].
Qed.

(** The broadcast function of a run.  It can be built for every configuration
    (so the unthrottled fallback of [Stress] is never taken), with a limiter
    exactly when a rate is configured; with a live context a call then returns
    what [Client.Broadcast] returns for the same bytes, after charging the
    limiter one transaction, the number of bytes and the decoded gas limit; and
    when the limiter refuses, nothing is broadcast and its error is returned. *)
Theorem broadcastFunc_limited cfg sync poll await ctx txBytes :
  Config_typed cfg -> gas_typed ->
  exists lim, buildBroadcastClient cfg = Ok lim /\ (is_Some lim <-> IsEnabled cfg = true) /\
    match lim with
    | None => broadcastFunc sync poll await ctx None txBytes =
              (fun r => (None, r)) <$> Broadcast sync poll txBytes await
    | Some l =>
        (ctx_live ctx = true -> exists l' gas,
           gas = match ExtractGasLimit (Some TxDecoder) txBytes with inl g => g | inr _ => 0 end /\
           MultiLimiter_charged l l'
             {| SizeBytes := u64 (Z.of_nat (length txBytes)); GasLimit := gas |} /\
           broadcastFunc sync poll await ctx lim txBytes =
             (fun r => (Some l', r)) <$> Broadcast sync poll txBytes await) /\
        (forall l' err, WaitForTransactionBytes ctx (Some TxDecoder) l txBytes = Some (l', Some err) ->
           broadcastFunc sync poll await ctx lim txBytes =
             Some (Some l', ("", Some (EWrap "rate limit wait failed" err))))
    end.
Proof.
  intros Hc Hgas. destruct (buildBroadcastClient_Ok cfg Hc) as (lim & Hb & Hiff & Hwf).
  exists lim. split_and!; [done|done..|]. destruct lim as [l|]; [|apply broadcastFunc_unlimited].
  split.
  - intros Hlive. destruct (broadcastFunc_live sync poll await ctx l txBytes Hgas (Hwf l eq_refl) Hlive)
      as (l' & gas & Hg & _ & _ & Hch & E). eauto.
  - intros l' err Hw. unfold broadcastFunc. by rewrite Hw.
Qed.
End BroadcastClient.

(** ** An account's broadcasting loop *)

Section AccountLoop.
(** The broadcast function, with the state it and the node keep. *)
Context {St : Type} (bcast : St -> bytes -> St * option error).
Context (NumOfTransactions : Z) (accountTxs : list bytes) (initialSequence : Z).

(** One broadcast a unit of fuel; [None] when the loop is still running. *)
Fixpoint account_loop (fuel : nat) (st : St) (txIndex : Z) : option (St * go unit) :=
  if txIndex <? NumOfTransactions then
    match fuel with
    | O => None
    | S fuel' =>
        match index accountTxs txIndex with
        | Err e => Some (st, Err e)
        | Panic m => Some (st, Panic m)
        | Ok tx =>
            match bcast st tx with
            | (st', None) => account_loop fuel' st' (txIndex + 1)
            | (st', Some err) =>
                match IsSequenceError err with
                | (expectedAccSeq, true) =>
                    account_loop fuel' st' (i64 (u64 (expectedAccSeq - initialSequence)))
                | (_, false) => Some (st', Err (EWrap "⚠️ Tx broadcasting error" err))
                end
            end
        end
    end
  else Some (st, Ok ()).

(** ** Delivery *)

(** A node that enforces sequences: it accepts exactly the transaction with the
    sequence it expects and otherwise names that sequence in its error. *)
Record SequencedNode := {
  seq_of : bytes -> Z;
  next_seq : St -> Z;
  delivered : St -> list bytes;
  node_accepts st tx : seq_of tx = next_seq st ->
    (bcast st tx).2 = None /\ next_seq (bcast st tx).1 = next_seq st + 1 /\
    delivered (bcast st tx).1 = delivered st ++ [tx];
  node_rejects st tx : seq_of tx <> next_seq st ->
    exists e, bcast st tx = (st, Some e) /\ IsSequenceError e = (next_seq st, true)
}.

Lemma loop_delivers (nd : SequencedNode) k : forall st j,
  (forall i tx, accountTxs !! i = Some tx -> seq_of nd tx = initialSequence + Z.of_nat i) ->
  Z.of_nat (length accountTxs) = NumOfTransactions ->
  (j + k = length accountTxs)%nat -> next_seq nd st = initialSequence + Z.of_nat j ->
  exists st', account_loop k st (Z.of_nat j) = Some (st', Ok ()) /\
    delivered nd st' = delivered nd st ++ drop j accountTxs /\
    next_seq nd st' = initialSequence + NumOfTransactions.
Proof.
  induction k as [|k IH]; intros st j Hseq Hlen Hj Hn.
  - exists st. cbn [account_loop]. rewrite (proj2 (Z.ltb_ge _ _)) by lia.
    rewrite drop_ge by lia. rewrite app_nil_r. split_and!; [done|done|lia].
  - cbn [account_loop]. rewrite (proj2 (Z.ltb_lt _ _)) by lia.
    destruct (lookup_lt_is_Some_2 accountTxs j) as [tx Htx]; [lia|].
    assert (Hi : index accountTxs (Z.of_nat j) = Ok tx) by (apply index_Ok; rewrite Nat2Z.id; split; [lia|done]).
    rewrite Hi. destruct (node_accepts nd st tx) as (H1 & H2 & H3).
    { by rewrite (Hseq _ _ Htx). }
    destruct (bcast st tx) as [st1 r]. cbn [fst snd] in *. subst r.
    destruct (IH st1 (S j)) as (st' & Hrun & Hd & Hns); [done|done|lia|lia|].
    exists st'. replace (Z.of_nat j + 1) with (Z.of_nat (S j)) by lia. split_and!; [done| |done].
    rewrite Hd, H3, <- app_assoc. cbn. by rewrite (drop_S _ _ _ Htx).
Qed.

(** C12. An account's loop against a node that enforces sequences.  Wherever between
    the first and past the last of the account's prepared sequences the node
    stands when the loop starts, the loop ends without error, in at most one
    broadcast per transaction and one to learn the node's sequence, having
    delivered exactly the transactions from that sequence on, once each and in
    order. *)
Theorem account_loop_delivers (nd : SequencedNode) st j :
  (forall i tx, accountTxs !! i = Some tx -> seq_of nd tx = initialSequence + Z.of_nat i) ->
  Z.of_nat (length accountTxs) = NumOfTransactions ->
  0 <= initialSequence -> initialSequence + NumOfTransactions < 2 ^ 63 ->
  (j <= length accountTxs)%nat -> next_seq nd st = initialSequence + Z.of_nat j ->
  exists st', account_loop (S (length accountTxs)) st 0 = Some (st', Ok ()) /\
    delivered nd st' = delivered nd st ++ drop j accountTxs /\
    next_seq nd st' = initialSequence + NumOfTransactions.
Proof.
  intros Hseq Hlen H0 Hmax Hj Hn.
  assert (Hmono : forall n m s i r, account_loop n s i = Some r -> (n <= m)%nat ->
                  account_loop m s i = Some r).
  { clear. induction n as [|n IH]; intros [|m] s i r H Hle; cbn [account_loop] in *; try done; try lia.
    - by destruct (i <? NumOfTransactions).
    - destruct (i <? NumOfTransactions); [|done]. destruct (index accountTxs i); [|done..].
      destruct (bcast s a) as [s' [err|]]; [|apply IH; [done|lia]].
      destruct (IsSequenceError err) as [ex []]; [apply IH; [done|lia]|done]. }
  destruct (decide (j = 0%nat)) as [->|Hj0].
  - destruct (loop_delivers nd (length accountTxs) st 0) as (st' & Hr & ?); [done|done|lia|lia|].
    exists st'. split; [|done]. eapply Hmono; [exact Hr|lia].
  - cbn [account_loop]. rewrite (proj2 (Z.ltb_lt _ _)) by lia.
    destruct (lookup_lt_is_Some_2 accountTxs 0) as [tx Htx]; [lia|].
    assert (Hi : index accountTxs 0 = Ok tx) by (by apply index_Ok).
    rewrite Hi. destruct (node_rejects nd st tx) as (err & -> & ->).
    { rewrite (Hseq _ _ Htx). lia. }
    replace (i64 (u64 (next_seq nd st - initialSequence))) with (Z.of_nat j)
      by (rewrite Hn, u64_id by width; rewrite i64_id by width; lia).
    destruct (loop_delivers nd (length accountTxs - j) st j) as (st' & Hr & ?); [done|done|lia|lia|].
    exists st'. split; [|done]. eapply Hmono; [exact Hr|lia].
Qed.

(** C13. The loop's other outcomes.  An error that names no sequence ends it with
    that error and nothing more is sent.  A sequence behind the account's first
    one (a node that lost state) wraps around to a negative index, and the loop
    panics.  A sequence past the last prepared one ends it normally.  And while
    the node keeps naming the sequence of the transaction it was just sent, the
    loop sends that transaction again, without end. *)
Theorem account_loop_outcomes st i tx err :
  0 <= i < NumOfTransactions -> index accountTxs i = Ok tx ->
  is_u64 initialSequence -> NumOfTransactions < 2 ^ 63 ->
  (forall st', bcast st tx = (st', Some err) ->
    (forall n, IsSequenceError err = (n, false) ->
       account_loop 1 st i = Some (st', Err (EWrap "⚠️ Tx broadcasting error" err))) /\
    (forall n, IsSequenceError err = (n, true) -> initialSequence - 2 ^ 63 <= n < initialSequence ->
       0 <= n -> account_loop 2 st i = Some (st', Panic "index out of range")) /\
    (forall n, IsSequenceError err = (n, true) ->
       initialSequence + NumOfTransactions <= n < 2 ^ 63 -> account_loop 1 st i = Some (st', Ok ()))) /\
  ((forall s, exists s', bcast s tx = (s', Some err)) ->
   IsSequenceError err = (initialSequence + i, true) ->
   forall fuel s, account_loop fuel s i = None).
Proof.
  intros Hi Hx Hs Hm. split.
  - intros st' Hb. split_and!.
    + intros n He. cbn [account_loop]. rewrite (proj2 (Z.ltb_lt _ _)) by lia. by rewrite Hx, Hb, He.
    + intros n He Hn Hn0. cbn [account_loop]. rewrite (proj2 (Z.ltb_lt i _)) by lia. rewrite Hx, Hb, He.
      assert (Hw : i64 (u64 (n - initialSequence)) = n - initialSequence).
      { unfold i64, u64. rewrite Z.add_mod_idemp_l by lia. apply i64_id. width. }
      rewrite Hw, (proj2 (Z.ltb_lt _ _)) by lia. by rewrite index_out_of_range by lia.
    + intros n He Hn. cbn [account_loop]. rewrite (proj2 (Z.ltb_lt i _)) by lia. rewrite Hx, Hb, He.
      rewrite u64_id by width. rewrite i64_id by width. by rewrite (proj2 (Z.ltb_ge _ _)) by lia.
  - intros Hb He. induction fuel as [|fuel IH]; intros s; cbn [account_loop];
      rewrite (proj2 (Z.ltb_lt i _)) by lia; [done|].
    rewrite Hx. destruct (Hb s) as [s' ->]. rewrite He.
    replace (initialSequence + i - initialSequence) with i by lia.
    rewrite u64_id, i64_id by width. apply IH.
Qed.
End AccountLoop.

(** ** Witnesses *)

Lemma create_initial_exact_witness :
  @create_initial model_retry _ demo_bank_provider demo_env demo_bank 0 [[7]]
    (fun _ => [inr (ENew "connection refused")] ++ inl (3, 41) :: []) = Some (demo_bank, Ok []).
Proof.
  apply (@create_initial_exact model_retry _ demo_bank_provider model_retry_laws demo_env demo_bank [[7]]
    (fun _ => (3, 41)) (fun _ => [inr (ENew "connection refused")]) (fun _ => []) demo_bank [None]).
  - intros k _. split; [|cbn; lia]. intros r ->%list_elem_of_singleton. by eexists.
  - reflexivity.
Defined.

Lemma broadcastFunc_limited_witness :
  exists lim, @buildBroadcastClient model_rate amd64_FloatConv demo_config = Ok lim /\ is_Some lim.
Proof.
  destruct (@broadcastFunc_limited model_retry model_errors model_rate amd64_FloatConv demo_txconfig
    model_rate_laws demo_config (fun _ => []) (fun _ => []) false {| ctx_live := true |} [1])
    as (lim & H1 & H2 & _); [exact demo_config_typed|discriminate|].
  exists lim. split; [exact H1|]. apply H2. reflexivity.
Defined.

(** A node that reads a transaction's sequence in its first byte. *)
Definition demo_bcast (st : Z * list bytes) (tx : bytes) : (Z * list bytes) * option error :=
  if hd 0 tx =? st.1 then ((st.1 + 1, st.2 ++ [tx]), None) else (st, Some (ESequence st.1 "")).

Definition demo_seq_node : SequencedNode demo_bcast.
Proof.
  refine {| seq_of tx := hd 0 tx; next_seq := fst; delivered := snd |}.
  - intros st tx H. unfold demo_bcast. by rewrite (proj2 (Z.eqb_eq _ _)).
  - intros st tx H. unfold demo_bcast. rewrite (proj2 (Z.eqb_neq _ _)) by done. eauto.
Defined.

Definition demo_txs : list bytes := [[41]; [42]; [43]].

Lemma account_loop_delivers_witness :
  exists st', account_loop demo_bcast 3 demo_txs 41 4 (42, []) 0 = Some (st', Ok ()) /\
              st'.2 = [[42]; [43]].
Proof.
  destruct (account_loop_delivers demo_bcast 3 demo_txs 41 demo_seq_node (42, []) 1)
    as (st' & H1 & H2 & _); [|reflexivity|lia|reflexivity|cbn; lia|reflexivity|].
  - intros [|[|[|i]]] tx H; cbn in H; simplify_eq; reflexivity.
  - exists st'. exact (conj H1 H2).
Defined.

Lemma account_loop_outcomes_witness :
  account_loop demo_bcast 3 demo_txs 41 2 (40, []) 0 = Some ((40, []), Panic "index out of range").
Proof.
  destruct (account_loop_outcomes demo_bcast 3 demo_txs 41 (40, []) 0 [41] (ESequence 40 ""))
    as [H _]; [lia|reflexivity|width|lia|].
  destruct (H (40, []) eq_refl) as (_ & H2 & _). apply (H2 40); [reflexivity|lia|lia].
Defined.
