(* ===== verification/Broadcasting.v ===== *)
(** * The broadcasting phase of [Stress] (stresser.go)

    One goroutine per account runs the account's broadcasting loop; all of them
    share the broadcast function, with its rate limiter, and the node.  The first
    loop that returns an error cancels the context of the others, and the phase
    returns that error when all have returned.

    The phase is a transition system over the loops: a step is one turn of one
    account's loop, so a run is any interleaving.  The main result is that
    accounts do not interfere: when the node keeps the accounts apart, every
    interleaving ends, and does to each account what its loop alone
    ([account_loop]) would have done. *)

From Stdlib Require Import ZArith Lia Ascii String.
From stdpp Require Import base list strings numbers.
From S2P Require Import Prelude GoStrings Sdk Chain Pipeline Stresser.

Open Scope string_scope.
Open Scope Z_scope.
Open Scope list_scope.

(** ** One turn of an account's loop *)

(** A loop is at an index, has returned, or has panicked. *)
Inductive Loop :=
| LAt (txIndex : Z)
| LReturned (err : option error)
| LPanicked (msg : string).

Section Turn.
(** The shared broadcast function; [None] while a call has not returned. *)
Context {St : Type} (bcast : St -> bytes -> option (St * option error)).
Context (NumOfTransactions : Z).

Definition turn (accountTxs : list bytes) (initialSequence : Z) (st : St) (txIndex : Z)
    : option (St * Loop) :=
  if txIndex <? NumOfTransactions then
    match index accountTxs txIndex with
    | Err e => Some (st, LReturned (Some e))
    | Panic m => Some (st, LPanicked m)
    | Ok tx =>
        match bcast st tx with
        | None => None
        | Some (st', None) => Some (st', LAt (txIndex + 1))
        | Some (st', Some err) =>
            match IsSequenceError err with
            | (expectedAccSeq, true) =>
                Some (st', LAt (i64 (u64 (expectedAccSeq - initialSequence))))
            | (_, false) => Some (st', LReturned (Some (EWrap "⚠️ Tx broadcasting error" err)))
            end
        end
    end
  else Some (st, LReturned None).
End Turn.

(** The loop of one account alone is the iteration of its turns. *)
Lemma account_loop_turn {L} (act : L -> bytes -> L * option error) N txs seq0 fuel st k r :
  account_loop act N txs seq0 fuel st k = Some r ->
  exists st' l, turn (fun s t => Some (act s t)) N txs seq0 st k = Some (st', l) /\
    match l with
    | LAt k' => exists fuel', fuel = S fuel' /\ account_loop act N txs seq0 fuel' st' k' = Some r
    | LReturned None => r = (st', Ok ())
    | LReturned (Some e) => r = (st', Err e)
    | LPanicked m => r = (st', Panic m)
    end.
Proof.
  unfold turn. destruct fuel as [|fuel]; cbn [account_loop];
    (destruct (k <? N); [|intros [= <-]; by eexists _, (LReturned None)]); [done|].
  destruct (index txs k) as [tx|e|m]; [|intros [= <-]; by eexists _, _..].
  destruct (act st tx) as [st' [err|]]; [|intros H; eexists _, (LAt _); eauto].
  destruct (IsSequenceError err) as [ex []]; [intros H; eexists _, (LAt _); eauto|].
  intros [= <-]. by eexists _, (LReturned (Some _)).
Qed.

(** ** The phase *)

Section Phase.
Context {St : Type} (bcast : St -> bytes -> option (St * option error)).
Context (NumOfTransactions : Z) (signedTxs : list (list bytes)) (initialAccountSequences : list Z).

(** [failure] is the first error a loop returned; the context is cancelled from
    then on. *)
Record Phase := {
  world : St;
  loops : list Loop;
  failure : option error
}.

Definition running (l : Loop) : bool := match l with LAt _ => true | _ => false end.
Definition panicked (l : Loop) : bool := match l with LPanicked _ => true | _ => false end.

(** A panic in a goroutine ends the process ([catcher.RecvDie]). *)
Definition died (s : Phase) : bool := existsb panicked (loops s).
(** All goroutines have returned, and [parallel.Run] returns [failure]. *)
Definition ended (s : Phase) : bool := negb (existsb running (loops s)).

Definition first_failure (f : option error) (l : Loop) : option error :=
  match f, l with
  | None, LReturned (Some e) => Some e
  | _, _ => f
  end.

(** A turn of account [i]'s loop; or, once the context is cancelled, the error
    its broadcast gives for that, before or after the node took the
    transaction. *)
Inductive bstep : Phase -> Phase -> Prop :=
| bstep_turn s i k accountTxs initialSequence st' l :
    died s = false -> loops s !! i = Some (LAt k) -> signedTxs !! i = Some accountTxs ->
    initialAccountSequences !! i = Some initialSequence ->
    turn bcast NumOfTransactions accountTxs initialSequence (world s) k = Some (st', l) ->
    bstep s {| world := st'; loops := <[i := l]> (loops s); failure := first_failure (failure s) l |}
| bstep_cancelled s i k e st' err :
    died s = false -> failure s = Some e -> loops s !! i = Some (LAt k) -> k < NumOfTransactions ->
    (st' = world s \/
     exists accountTxs tx r, signedTxs !! i = Some accountTxs /\ index accountTxs k = Ok tx /\
       bcast (world s) tx = Some (st', r)) ->
    bstep s {| world := st'; loops := <[i := LReturned (Some err)]> (loops s); failure := failure s |}.

Inductive bsteps : nat -> Phase -> Phase -> Prop :=
| bsteps_0 s : bsteps 0 s s
| bsteps_S n s1 s2 s3 : bsteps n s1 s2 -> bstep s2 s3 -> bsteps (S n) s1 s3.

Definition phase_start (st : St) : Phase :=
  {| world := st; loops := repeat (LAt 0) (length signedTxs); failure := None |}.

(** ** Accounts kept apart *)

(** Equal results, up to the text of a sequence error. *)
Definition same_result (r1 r2 : option error) : Prop :=
  r1 = r2 \/ exists e1 e2 n, r1 = Some e1 /\ r2 = Some e2 /\
    IsSequenceError e1 = (n, true) /\ IsSequenceError e2 = (n, true).

(** [slice] is what the node keeps for an account and [act] what a broadcast does
    to it: the broadcast of an account's prepared transaction returns, depends on
    that account's slice only and leaves the others alone. *)
Context {L : Type} (act : L -> bytes -> L * option error) (slice : St -> nat -> L) (good : St -> Prop).

Definition independent : Prop :=
  forall i txs tx st, signedTxs !! i = Some txs -> tx ∈ txs -> good st ->
    exists st' r, bcast st tx = Some (st', r) /\ same_result r (act (slice st i) tx).2 /\ good st' /\
      slice st' i = (act (slice st i) tx).1 /\ forall j, j <> i -> slice st' j = slice st j.

Lemma turn_slice i txs seq0 st k :
  independent -> signedTxs !! i = Some txs -> good st ->
  exists st' l, turn bcast NumOfTransactions txs seq0 st k = Some (st', l) /\ good st' /\
    turn (fun s t => Some (act s t)) NumOfTransactions txs seq0 (slice st i) k = Some (slice st' i, l) /\
    forall j, j <> i -> slice st' j = slice st j.
Proof.
  intros Hind Hi Hg. unfold turn. destruct (k <? _); [|by eexists st, _].
  destruct (index txs k) as [tx|e|m] eqn:Hx; [|by eexists st, _..].
  apply index_Ok in Hx as [_ Hx%list_elem_of_lookup_2].
  destruct (Hind i txs tx st Hi Hx Hg) as (st' & r & Hb & Hr & Hg' & Hs & Ho).
  destruct (act (slice st i) tx) as [l' r']. cbn [fst snd] in *. rewrite Hb, <- Hs.
  destruct Hr as [->|(e1 & e2 & q & -> & -> & -> & ->)]; [|by eexists st', _].
  destruct r' as [err|]; [|by eexists st', _].
  destruct (IsSequenceError err) as [ex []]; by eexists st', _.
Qed.

(** What is known of account [i]'s loop when [w] of its turns may still come. *)
Definition loop_ok (final : nat -> L) (s : Phase) (i : nat) (l : Loop) (w : nat) : Prop :=
  match l with
  | LAt k => exists fuel txs seq0, w = S fuel /\ signedTxs !! i = Some txs /\
      initialAccountSequences !! i = Some seq0 /\
      account_loop act NumOfTransactions txs seq0 fuel (slice (world s) i) k = Some (final i, Ok ())
  | LReturned None => slice (world s) i = final i
  | _ => False
  end.

Record PhaseInv (final : nat -> L) (s : Phase) (ws : list nat) : Prop := {
  pi_good : good (world s);
  pi_failure : failure s = None;
  pi_length : length (loops s) = length ws;
  pi_loops i l w : loops s !! i = Some l -> ws !! i = Some w -> loop_ok final s i l w
}.

Lemma PhaseInv_died final s ws : PhaseInv final s ws -> died s = false.
Proof.
  intros HI. apply not_true_is_false. unfold died. rewrite existsb_exists. intros (l & Hl & Hp).
  apply list_elem_of_In, list_elem_of_lookup in Hl as [i Hi].
  destruct (lookup_lt_is_Some_2 ws i) as [w Hw];
    [rewrite <- (pi_length _ _ _ HI); by eapply lookup_lt_Some|].
  pose proof (pi_loops _ _ _ HI i l w Hi Hw) as H. by destruct l.
Qed.

(** A turn of account [i] keeps the invariant and uses up one of its turns. *)
Lemma PhaseInv_step final s ws s' :
  independent -> PhaseInv final s ws -> bstep s s' ->
  exists ws', PhaseInv final s' ws' /\ (nsum id ws' < nsum id ws)%nat.
Proof.
  intros Hind HI Hs.
  destruct Hs as [s i k txs seq0 st' l _ Hl Htx Hsq Ht|s i k e st' err _ Hf _ _ _];
    [|by rewrite (pi_failure _ _ _ HI) in Hf].
  destruct (lookup_lt_is_Some_2 ws i) as [w Hw];
    [rewrite <- (pi_length _ _ _ HI); by eapply lookup_lt_Some|].
  destruct (pi_loops _ _ _ HI i _ w Hl Hw) as (fuel & txs' & seq0' & -> & Htx' & Hsq' & Hal).
  simplify_eq. destruct (turn_slice i txs seq0 (world s) k Hind Htx (pi_good _ _ _ HI))
    as (st1 & l1 & Ht' & Hg & Hact & Ho). rewrite Ht in Ht'. simplify_eq.
  destruct (account_loop_turn _ _ _ _ _ _ _ _ Hal) as (sl & l2 & Hact' & Hl2). rewrite Hact in Hact'.
  simplify_eq. exists (<[i := match l2 with LAt _ => fuel | _ => 0%nat end]> ws). split.
  - constructor; cbn [world loops failure].
    + done.
    + rewrite (pi_failure _ _ _ HI). by destruct l2 as [|[]|].
    + by rewrite !length_insert, (pi_length _ _ _ HI).
    + intros j lj wj. destruct (decide (j = i)) as [->|Hne].
      * rewrite !list_lookup_insert_eq by (by eapply lookup_lt_Some). intros [= <-] [= <-].
        destruct l2 as [k'|[e|]|m]; cbn; [|done|congruence|done].
        destruct Hl2 as (fuel' & -> & H'). eauto 8.
      * rewrite !list_lookup_insert_ne by done. intros Hj Hwj.
        pose proof (pi_loops _ _ _ HI j lj wj Hj Hwj) as H. unfold loop_ok in *. cbn [world].
        by rewrite (Ho j Hne).
  - pose proof (nsum_insert id ws i (S fuel) (match l2 with LAt _ => fuel | _ => 0%nat end) Hw) as E.
    unfold id in E. destruct l2; cbn in *; unfold id in *; lia.
Qed.

Lemma PhaseInv_progress final s ws :
  independent -> length initialAccountSequences = length signedTxs ->
  PhaseInv final s ws -> ended s = true \/ exists s', bstep s s'.
Proof.
  intros Hind Hlen HI. unfold ended. destruct (existsb running (loops s)) eqn:Er; [right|by left].
  apply existsb_exists in Er as (l & Hl & Hr). apply list_elem_of_In, list_elem_of_lookup in Hl as [i Hi].
  destruct l as [k| |]; try done.
  destruct (lookup_lt_is_Some_2 ws i) as [w Hw];
    [rewrite <- (pi_length _ _ _ HI); by eapply lookup_lt_Some|].
  destruct (pi_loops _ _ _ HI i _ w Hi Hw) as (fuel & txs & seq0 & _ & Htx & Hsq & _).
  destruct (turn_slice i txs seq0 (world s) k Hind Htx (pi_good _ _ _ HI)) as (st1 & l1 & Ht & _).
  eexists. eapply bstep_turn; eauto using PhaseInv_died.
Qed.

Lemma PhaseInv_final final s ws i :
  PhaseInv final s ws -> ended s = true -> (i < length (loops s))%nat -> slice (world s) i = final i.
Proof.
  intros HI He Hi. apply lookup_lt_is_Some_2 in Hi as [l Hl].
  destruct (lookup_lt_is_Some_2 ws i) as [w Hw];
    [rewrite <- (pi_length _ _ _ HI); by eapply lookup_lt_Some|].
  pose proof (pi_loops _ _ _ HI i l w Hl Hw) as H. destruct l as [k|[e|]|m]; cbn in H; try done.
  unfold ended in He. apply negb_true_iff in He.
  assert (existsb running (loops s) = true) as E; [|by rewrite E in He].
  apply existsb_exists. exists (LAt k). split; [|done]. by eapply list_elem_of_In, list_elem_of_lookup_2.
Qed.

(** Every account's loop alone, from the slice it finds, ends without error. *)
Definition each_alone (fuel : nat -> nat) (final : nat -> L) (st : St) : Prop :=
  forall i txs seq0, signedTxs !! i = Some txs -> initialAccountSequences !! i = Some seq0 ->
    account_loop act NumOfTransactions txs seq0 (fuel i) (slice st i) 0 = Some (final i, Ok ()).

Definition turns_bound (fuel : nat -> nat) : nat :=
  nsum (fun i => S (fuel i)) (seq 0 (length signedTxs)).

Lemma PhaseInv_start fuel final st :
  length initialAccountSequences = length signedTxs -> good st -> each_alone fuel final st ->
  exists ws, PhaseInv final (phase_start st) ws /\ nsum id ws = turns_bound fuel.
Proof.
  intros Hlen Hg Ha. exists ((fun i => S (fuel i)) <$> seq 0 (length signedTxs)). split.
  - constructor; cbn [phase_start world loops failure]; [done|done| |].
    + by rewrite repeat_length, length_fmap, length_seq.
    + intros i l w Hl Hw. rewrite list_lookup_fmap in Hw.
      destruct (seq 0 (length signedTxs) !! i) as [i'|] eqn:Ei; simplify_eq/=.
      apply lookup_seq in Ei as [-> Hi]. cbn in *.
      assert (l = LAt 0) as ->
        by (apply list_elem_of_lookup_2, list_elem_of_In, repeat_spec in Hl; done).
      destruct (lookup_lt_is_Some_2 signedTxs i Hi) as [txs Htx].
      destruct (lookup_lt_is_Some_2 initialAccountSequences i) as [seq0 Hsq]; [lia|].
      exists (fuel i), txs, seq0. split_and!; try done. by apply Ha.
  - unfold turns_bound, nsum. generalize (seq 0 (length signedTxs)). intros l.
    induction l as [|i l IH]; [done|]. cbn [fmap list_fmap foldr]. rewrite <- IH. done.
Qed.

Lemma phase_runs fuel final st n s :
  independent -> length initialAccountSequences = length signedTxs -> good st ->
  each_alone fuel final st -> bsteps n (phase_start st) s ->
  exists ws, PhaseInv final s ws /\ (n + nsum id ws <= turns_bound fuel)%nat.
Proof.
  intros Hind Hlen Hg Ha Hs.
  destruct (PhaseInv_start fuel final st Hlen Hg Ha) as (ws0 & HI0 & E0). rewrite <- E0. clear Ha.
  remember (phase_start st) as s0. revert ws0 HI0 E0 Heqs0.
  induction Hs as [s1|n s1 s2 s3 Hs IH Hstep]; intros ws0 HI0 E0 ->.
  - exists ws0. split; [done|lia].
  - destruct (IH ws0 HI0 E0 eq_refl) as (ws & HI & E).
    destruct (PhaseInv_step final s2 ws s3 Hind HI Hstep) as (ws' & HI' & E'). exists ws'. split; [done|lia].
Qed.

Lemma bsteps_loops n s1 s2 : bsteps n s1 s2 -> length (loops s2) = length (loops s1).
Proof.
  induction 1 as [|n s1 s2 s3 _ IH Hs]; [done|].
  destruct Hs; cbn [loops]; rewrite length_insert; exact IH.
Qed.

Lemma phase_outcome fuel final st n s :
  independent -> length initialAccountSequences = length signedTxs -> good st ->
  each_alone fuel final st -> bsteps n (phase_start st) s ->
  (n <= turns_bound fuel)%nat /\ died s = false /\ failure s = None /\ good (world s) /\
  (ended s = true \/ exists s', bstep s s') /\
  (ended s = true -> forall i, (i < length signedTxs)%nat -> slice (world s) i = final i).
Proof.
  intros Hind Hlen Hg Ha Hs. destruct (phase_runs fuel final st n s Hind Hlen Hg Ha Hs) as (ws & HI & Hn).
  split_and!; [lia|by eapply PhaseInv_died|by eapply pi_failure|by eapply pi_good| |].
  - by eapply PhaseInv_progress.
  - intros He i Hi. eapply PhaseInv_final; [done..|].
    rewrite (bsteps_loops _ _ _ Hs). cbn. by rewrite repeat_length.
Qed.

(** C9. The accounts of a run do not interfere, and their broadcasting ends.  When
    the node keeps accounts apart (a broadcast depends on, and changes, the
    sender's slice only) and every account's loop alone would end without error,
    then in every interleaving of all the loops, over one shared broadcast
    function: the number of turns is bounded by what the loops alone take; no loop
    panics or fails; while a loop has not returned there is a next turn; and once
    all have returned, every account's slice is exactly what its loop alone would
    have left. *)
Theorem broadcasting_independent fuel final st n s :
  independent -> length initialAccountSequences = length signedTxs -> good st ->
  each_alone fuel final st -> bsteps n (phase_start st) s ->
  (n <= turns_bound fuel)%nat /\ died s = false /\ failure s = None /\
  (ended s = true \/ exists s', bstep s s') /\
  (ended s = true -> forall i, (i < length signedTxs)%nat -> slice (world s) i = final i).
Proof.
  intros Hind Hlen Hg Ha Hs.
  destruct (phase_outcome fuel final st n s Hind Hlen Hg Ha Hs) as (? & ? & ? & _ & ? & ?). done.
Qed.

(** ** Failure *)

Lemma failure_inv n st s (Hs : bsteps n (phase_start st) s) :
  (forall e, failure s = Some e -> exists i : nat, loops s !! i = Some (LReturned (Some e))) /\
  (failure s = None -> forall (i : nat) e, loops s !! i <> Some (LReturned (Some e))).
Proof.
  remember (phase_start st) as s0. induction Hs as [s1|n s1 s2 s3 Hs IH Hstep]; subst.
  - split; [done|]. intros _ i e H. apply list_elem_of_lookup_2, list_elem_of_In, repeat_spec in H. done.
  - destruct (IH eq_refl) as [IH1 IH2]. clear IH.
    destruct Hstep as [s i k txs q st' l _ Hl _ _ _|s i k e0 st' err _ Hf Hl _ _]; cbn [failure loops].
    + destruct (failure s) as [e0|] eqn:Ef.
      * split; [|done]. intros e [= <-]. destruct (IH1 e0 eq_refl) as [j Hj]. exists j.
        rewrite list_lookup_insert_ne; [done|]. intros ->. congruence.
      * split.
        -- intros e He. exists i. rewrite list_lookup_insert_eq by (by eapply lookup_lt_Some).
           destruct l as [|[]|]; cbn in He; congruence.
        -- intros Hn j e Hj. destruct (decide (j = i)) as [->|Hne].
           ++ rewrite list_lookup_insert_eq in Hj by (by eapply lookup_lt_Some). by simplify_eq.
           ++ rewrite list_lookup_insert_ne in Hj by done. by eapply IH2.
    + rewrite Hf. split; [|done]. intros e [= <-]. destruct (IH1 e0 Hf) as [j Hj]. exists j.
      rewrite list_lookup_insert_ne; [done|]. intros ->. congruence.
Qed.

End Phase.

(** ** Witness *)

(** A node with two accounts: a transaction is its sequence and its account. *)
Definition demo_owner (tx : bytes) : nat := Z.to_nat (nth 1 tx 0).

Definition demo_shared (st : nat -> Z * list bytes) (tx : bytes)
    : option ((nat -> Z * list bytes) * option error) :=
  let '(a, r) := demo_bcast (st (demo_owner tx)) tx in
  Some ((fun i => if decide (i = demo_owner tx) then a else st i), r).

Definition demo_rows : list (list bytes) := [[[41; 0]; [42; 0]]; [[7; 1]; [8; 1]]].

Lemma demo_independent :
  independent demo_shared demo_rows demo_bcast (fun st i => st i) (fun _ => True).
Proof.
  intros i txs tx st Hi Htx _.
  assert (demo_owner tx = i) as Ho.
  { destruct i as [|[|i]]; simplify_eq/=; repeat (apply elem_of_cons in Htx as [->|Htx]; [reflexivity|]);
      by apply not_elem_of_nil in Htx. }
  unfold demo_shared. rewrite Ho. destruct (demo_bcast (st i) tx) as [a r] eqn:E.
  eexists _, r. split_and!; [done|by left|done| |].
  - cbv beta. by rewrite decide_True.
  - intros j Hj. cbv beta. by rewrite decide_False.
Qed.

Definition demo_shared_start (i : nat) : Z * list bytes := if decide (i = 0%nat) then (42, []) else (7, []).

Lemma broadcasting_independent_witness : died (phase_start demo_rows demo_shared_start) = false.
Proof.
  apply (broadcasting_independent demo_shared 2 demo_rows [41; 7] demo_bcast (fun st i => st i)
    (fun _ => True) (fun _ => 3%nat)
    (fun i => if decide (i = 0%nat) then (43, [[42; 0]]) else (9, [[7; 1]; [8; 1]])) demo_shared_start 0).
  - exact demo_independent.
  - reflexivity.
  - exact I.
  - intros [|[|i]] txs q H1 H2; simplify_eq/=; reflexivity.
  - apply bsteps_0.
Defined.
