(* ===== verification/InitialPool.v ===== *)
(** * Broadcasting the initial transactions (stresser.go)

    The second half of [createAndBroadcastInitialTxs]: a pool of eight workers
    takes the initial transactions in order; a worker signs its transaction and
    broadcasts it, awaiting its inclusion, and tries again on failure, five
    times in all; a transaction that failed for good is only logged.

    The workers share the provider and the node, so the pool is a transition
    system whose steps are single calls.  [ChainWorld] is the node as the
    program sees it through its client: what it answers, and what a broadcast
    does to it. *)

From Stdlib Require Import ZArith Lia Ascii String.
From stdpp Require Import base list strings numbers.
From S2P Require Import Prelude GoStrings Sdk SdkModel Chain Payload Pipeline Stresser.

Open Scope string_scope.
Open Scope Z_scope.
Open Scope list_scope.

(** ** The node *)

Class ChainWorld (W : Type) := {
  sync_of : W -> bytes -> list SyncResult;
  poll_of : W -> bytes -> list PollEvent;
  query_of : W -> string -> list ((Z * Z) + error);
  after : W -> bytes -> W
}.

(** ** The pool *)

Definition maxParallelInitialTxsBroadcasts : nat := 8.
Definition initialTxAttempts : nat := 5.

(** A task waits for a worker, is about to sign or about to broadcast the signed
    bytes in an attempt (counted from 0), or is over. *)
Inductive Task :=
| TQueued (tx : baseTx)
| TSign (tx : baseTx) (attempt : nat)
| TSend (tx : baseTx) (signed : bytes) (attempt : nat)
| TDone (err : option error).

Definition queued (t : Task) : bool := match t with TQueued _ => true | _ => false end.
Definition busy (t : Task) : bool := match t with TSign _ _ | TSend _ _ _ => true | _ => false end.
Definition over (t : Task) : bool := match t with TDone _ => true | _ => false end.

Section Pool.
Context {P : Type} {TP : TxProvider P} {W : Type} {CW : ChainWorld W}.
Context `{RL : RetryLib, SE : SdkErrors}.
Context (client : Client).

(** [retry.Attempts(5)] after the failure of an attempt: an error marked
    unrecoverable, under whatever wrapping, is not retried. *)
Definition after_attempt (tx : baseTx) (attempt : nat) (err : error) : Task :=
  if IsRecoverable err && (S attempt <? initialTxAttempts)%nat then TSign tx (S attempt)
  else TDone (Some err).

Record Pool := {
  p_prov : P;
  p_world : W;
  tasks : list Task
}.

Definition workers (s : Pool) : nat := nsum (fun t => if busy t then 1 else 0)%nat (tasks s).

Definition set_task (s : Pool) (i : nat) (t : Task) (p : P) (w : W) : Pool :=
  {| p_prov := p; p_world := w; tasks := <[i := t]> (tasks s) |}.

Inductive pool_step : Pool -> Pool -> Prop :=
| pool_take s i tx :
    tasks s !! i = Some (TQueued tx) ->
    (forall j t, (j < i)%nat -> tasks s !! j = Some t -> queued t = false) ->
    (workers s < maxParallelInitialTxsBroadcasts)%nat ->
    pool_step s (set_task s i (TSign tx 0) (p_prov s) (p_world s))
| pool_signed s i tx n p' tx' signed :
    tasks s !! i = Some (TSign tx n) ->
    BuildAndSignTx (p_prov s) client tx = (p', tx', Ok signed) ->
    pool_step s (set_task s i (TSend tx' (txBytes signed) n) p' (p_world s))
| pool_sign_failed s i tx n p' tx' e :
    tasks s !! i = Some (TSign tx n) ->
    BuildAndSignTx (p_prov s) client tx = (p', tx', Err e) ->
    pool_step s (set_task s i (after_attempt tx' n (EWrap "❌ Signing initial Tx failed" e)) p'
      (p_world s))
| pool_sent s i tx signed n h :
    tasks s !! i = Some (TSend tx signed n) ->
    Broadcast (sync_of (p_world s)) (poll_of (p_world s)) signed true = Some (h, None) ->
    pool_step s (set_task s i (TDone None) (p_prov s) (after (p_world s) signed))
| pool_send_failed s i tx signed n h e :
    tasks s !! i = Some (TSend tx signed n) ->
    Broadcast (sync_of (p_world s)) (poll_of (p_world s)) signed true = Some (h, Some e) ->
    pool_step s (set_task s i
      (after_attempt tx n (EWrap ("❌ Broadcasting initial Tx failed: " +:+ h) e)) (p_prov s)
      (after (p_world s) signed)).

(** Signing panicked, which ends the process ([catcher.RecvDie]). *)
Definition pool_died (s : Pool) : Prop :=
  exists i tx n, tasks s !! i = Some (TSign tx n) /\
    is_Panic (BuildAndSignTx (p_prov s) client tx).2 = true.

Definition pool_start (p : P) (w : W) (initialTxs : list baseTx) : Pool :=
  {| p_prov := p; p_world := w; tasks := TQueued <$> initialTxs |}.

(** [pool.StopWait] returns. *)
Definition pool_over (s : Pool) : bool := forallb over (tasks s).

Inductive pool_steps : nat -> Pool -> Pool -> Prop :=
| pool_steps_0 s : pool_steps 0 s s
| pool_steps_S n s1 s2 s3 : pool_steps n s1 s2 -> pool_step s2 s3 -> pool_steps (S n) s1 s3.

(** ** The pool ends *)

(** The calls a task may still make: a sign and a send per attempt left, and its
    start. *)
Definition task_weight (t : Task) : nat :=
  match t with
  | TQueued _ => 1 + 2 * initialTxAttempts
  | TSign _ n => 2 * (initialTxAttempts - n)
  | TSend _ _ n => 2 * (initialTxAttempts - n) - 1
  | TDone _ => 0
  end.

Definition attempt_ok (t : Task) : Prop :=
  match t with TSign _ n | TSend _ _ n => (n < initialTxAttempts)%nat | _ => True end.

Record PoolInv (s : Pool) : Prop := {
  pool_attempts i t : tasks s !! i = Some t -> attempt_ok t;
  pool_workers : (workers s <= maxParallelInitialTxsBroadcasts)%nat
}.

Lemma after_attempt_ok tx n e : attempt_ok (after_attempt tx n e).
Proof.
  unfold after_attempt. destruct (IsRecoverable e); [|done]. cbn [andb].
  destruct (S n <? initialTxAttempts)%nat eqn:E; [|done]. by apply Nat.ltb_lt in E.
Qed.

Lemma after_attempt_weight tx n e :
  (n < initialTxAttempts)%nat -> (task_weight (after_attempt tx n e) < 2 * (initialTxAttempts - n) - 1)%nat.
Proof.
  intros Hn. unfold after_attempt.
  destruct (IsRecoverable e && (S n <? initialTxAttempts)%nat); cbn [task_weight]; lia.
Qed.

Lemma set_task_inv s i t t' p w :
  PoolInv s -> tasks s !! i = Some t -> attempt_ok t' ->
  busy t = true \/ (workers s < maxParallelInitialTxsBroadcasts)%nat ->
  PoolInv (set_task s i t' p w).
Proof.
  intros HI Hi Ht' Hb. constructor; unfold set_task; cbn [tasks].
  - intros j tj. destruct (decide (j = i)) as [->|Hne].
    + rewrite list_lookup_insert_eq by (by eapply lookup_lt_Some). by intros [= <-].
    + rewrite list_lookup_insert_ne by done. apply (pool_attempts _ HI).
  - pose proof (pool_workers _ HI) as Hw. unfold workers in *. cbn [tasks].
    pose proof (nsum_insert (fun t => if busy t then 1 else 0)%nat _ _ _ t' Hi) as E.
    cbn beta in E. destruct Hb as [Hb|Hb]; [rewrite Hb in E|]; destruct (busy t'), (busy t); lia.
Qed.

Definition pool_measure (s : Pool) : nat := nsum task_weight (tasks s).

Lemma set_task_measure s i t t' p w :
  tasks s !! i = Some t -> (task_weight t' < task_weight t)%nat ->
  (pool_measure (set_task s i t' p w) < pool_measure s)%nat.
Proof.
  intros Hi Hw. unfold pool_measure, set_task. cbn [tasks].
  pose proof (nsum_insert task_weight _ _ _ t' Hi). lia.
Qed.

Lemma pool_step_inv s s' :
  PoolInv s -> pool_step s s' -> PoolInv s' /\ (pool_measure s' < pool_measure s)%nat.
Proof.
  intros HI Hs. destruct Hs as
    [s i tx Hi _ Hw|s i tx n p' tx' sg Hi _|s i tx n p' tx' e Hi _|s i tx sg n h Hi _|s i tx sg n h e Hi _];
    pose proof (pool_attempts _ HI _ _ Hi) as Ha; cbn [attempt_ok] in Ha;
    (split; [eapply set_task_inv; [done|done| |by auto]|eapply set_task_measure; [done|]]);
    try apply after_attempt_ok; try (cbn; unfold initialTxAttempts in *; lia).
  - pose proof (after_attempt_weight tx' n (EWrap "❌ Signing initial Tx failed" e) Ha).
    cbn [task_weight]. lia.
  - apply (after_attempt_weight tx n _ Ha).
Qed.

Lemma pool_start_inv p w txs : PoolInv (pool_start p w txs).
Proof.
  constructor; cbn [pool_start tasks].
  - intros i t. rewrite list_lookup_fmap. by destruct (txs !! i); intros; simplify_eq/=.
  - unfold workers. cbn [tasks pool_start]. induction txs; cbn; [unfold maxParallelInitialTxsBroadcasts; lia|done].
Qed.

Lemma pool_start_measure p w txs : pool_measure (pool_start p w txs) = (11 * length txs)%nat.
Proof. unfold pool_measure, nsum. cbn [tasks pool_start]. induction txs as [|tx txs IH]; [done|]. cbn in *. lia. Qed.

Lemma pool_steps_inv p w txs n s :
  pool_steps n (pool_start p w txs) s -> PoolInv s /\ (n + pool_measure s <= 11 * length txs)%nat.
Proof.
  intros Hs. rewrite <- (pool_start_measure p w txs). remember (pool_start p w txs) as s0.
  induction Hs as [s1|n s1 s2 s3 Hs IH Hstep]; subst; [split; [apply pool_start_inv|lia]|].
  destruct (IH eq_refl) as [HI Hn]. destruct (pool_step_inv s2 s3 HI Hstep) as [HI' Hm]. split; [done|lia].
Qed.

(** The first task that satisfies a test. *)
Lemma first_task (f : Task -> bool) (l : list Task) :
  existsb f l = true ->
  exists i t, l !! i = Some t /\ f t = true /\
    forall j t', (j < i)%nat -> l !! j = Some t' -> f t' = false.
Proof.
  induction l as [|t l IH]; [done|]. cbn [existsb]. destruct (f t) eqn:E; intros H.
  - exists 0%nat, t. split_and!; [done|done|lia].
  - destruct (IH H) as (i & t' & Hi & Ht' & Hmin). exists (S i), t'. split_and!; [done|done|].
    intros [|j] t'' Hj H''; simplify_eq/=; [done|]. eapply Hmin; [|done]. lia.
Qed.

Lemma no_workers s : existsb busy (tasks s) = false -> workers s = 0%nat.
Proof.
  unfold workers, nsum. induction (tasks s) as [|t l IH]; [done|]. cbn [existsb foldr].
  intros [-> H]%orb_false_iff. by rewrite IH.
Qed.

(** Every broadcast returns. *)
Definition broadcasts_return : Prop :=
  forall (w : W) b, is_Some (Broadcast (sync_of w) (poll_of w) b true).

Lemma pool_progress s :
  broadcasts_return -> pool_over s = true \/ pool_died s \/ exists s', pool_step s s'.
Proof.
  intros Hret. destruct (existsb busy (tasks s)) eqn:Eb.
  - right. apply first_task in Eb as (i & t & Hi & Hb & _). destruct t as [|tx n|tx sg n|]; try done.
    + destruct (BuildAndSignTx (p_prov s) client tx) as [[p' tx'] [signed|e|m]] eqn:E.
      * right. eexists. by eapply pool_signed.
      * right. eexists. by eapply pool_sign_failed.
      * left. exists i, tx, n. by rewrite E.
    + right. destruct (Hret (p_world s) sg) as [[h [e|]] E]; eexists;
        [by eapply pool_send_failed|by eapply pool_sent].
  - destruct (existsb queued (tasks s)) eqn:Eq.
    + right; right. apply first_task in Eq as (i & t & Hi & Hq & Hmin). destruct t; try done.
      eexists. eapply pool_take; [done|done|]. rewrite no_workers by done.
      unfold maxParallelInitialTxsBroadcasts. lia.
    + left. unfold pool_over. apply forallb_forall. intros t Ht.
      destruct t as [tx|tx n|tx sg n|]; [| | |done]; exfalso.
      * rewrite <- not_true_iff_false, existsb_exists in Eq. apply Eq. by eexists.
      * rewrite <- not_true_iff_false, existsb_exists in Eb. apply Eb. by eexists.
      * rewrite <- not_true_iff_false, existsb_exists in Eb. apply Eb. by eexists.
Qed.

(** With an invariant of the provider and one of its transactions, signing does
    not panic. *)
Definition signing_safe (ok : P -> Prop) (okt : baseTx -> Prop) : Prop :=
  forall p tx, ok p -> okt tx -> ok (BuildAndSignTx p client tx).1.1 /\
    okt (BuildAndSignTx p client tx).1.2 /\ is_Panic (BuildAndSignTx p client tx).2 = false.

(** The transaction of a task that is not over. *)
Definition task_holds (okt : baseTx -> Prop) (t : Task) : Prop :=
  match t with TQueued tx | TSign tx _ | TSend tx _ _ => okt tx | TDone _ => True end.

Lemma after_attempt_holds (okt : baseTx -> Prop) tx n e : okt tx -> task_holds okt (after_attempt tx n e).
Proof. unfold after_attempt. by destruct (_ && _). Qed.

Lemma pool_provider ok okt p w txs n s :
  signing_safe ok okt -> ok p -> Forall okt txs -> pool_steps n (pool_start p w txs) s ->
  ok (p_prov s) /\ Forall (task_holds okt) (tasks s).
Proof.
  intros Hsafe H0 Ht Hs. remember (pool_start p w txs) as s0.
  induction Hs as [s1|n s1 s2 s3 Hs IH Hstep]; subst.
  { split; [done|]. cbn [pool_start tasks]. by apply Forall_fmap. }
  destruct (IH eq_refl) as [Ho HF].
  destruct Hstep as
    [s i tx Hi _ _|s i tx k p' tx' sg Hi Hb|s i tx k p' tx' e Hi Hb|s i tx sg k h Hi _|s i tx sg k h e Hi _];
    pose proof (Forall_lookup_1 _ _ _ _ HF Hi) as Htx; cbn [task_holds] in Htx; cbn [p_prov tasks set_task];
    try (destruct (Hsafe _ tx Ho Htx) as (H1 & H2 & _); rewrite Hb in H1, H2; cbn [fst snd] in H1, H2);
    (split; [done|apply Forall_insert; [done|]]); by try apply after_attempt_holds.
Qed.

Lemma pool_not_died ok okt p w txs n s :
  signing_safe ok okt -> ok p -> Forall okt txs -> pool_steps n (pool_start p w txs) s -> ~ pool_died s.
Proof.
  intros Hsafe H0 Ht Hs (i & tx & m & Hi & Hp).
  destruct (pool_provider ok okt _ _ _ _ _ Hsafe H0 Ht Hs) as [Ho HF].
  destruct (Hsafe _ tx Ho (Forall_lookup_1 _ _ _ _ HF Hi)) as (_ & _ & Hnp). by rewrite Hnp in Hp.
Qed.

Lemma pool_finishes ok okt p w txs :
  broadcasts_return -> signing_safe ok okt -> ok p -> Forall okt txs ->
  exists n s, pool_steps n (pool_start p w txs) s /\ pool_over s = true.
Proof.
  intros Hret Hsafe H0 Ht.
  eapply (run_to_end (fun n s => pool_steps n (pool_start p w txs) s) pool_step
    (fun s => pool_over s = true) (pool_start p w txs) (11 * length txs)).
  - apply pool_steps_0.
  - intros n s s' H1 H2. by eapply pool_steps_S.
  - intros n s Hs. apply pool_steps_inv in Hs as [_ Hn]. lia.
  - intros n s Hs. destruct (pool_progress s Hret) as [|[Hd|]]; [by left| |by right].
    by destruct (pool_not_died ok okt p w txs n s Hsafe H0 Ht Hs).
Qed.

(** ** Refused transactions *)

Context `{RLL : !RetryLaws}.

(** Once its mempool has room, the node answers with an error. *)
Definition refused (w : W) (b : bytes) : Prop :=
  exists full r rest, sync_of w b = full ++ r :: rest /\ Forall mempool_full full /\ ~ mempool_full r /\
    forall h, ~ accepted r h.

Lemma refused_unrecoverable w b h oe :
  refused w b -> Broadcast (sync_of w) (poll_of w) b true = Some (h, oe) ->
  exists e, oe = Some e /\ is_unrecoverable e = true.
Proof.
  intros (full & r & rest & Hs & Hf & Hr & Ha). unfold Broadcast. rewrite Hs, until_skip_full, Until_cons by done.
  destruct (broadcast_attempt "" r) as [h' [e|]] eqn:E; [|by apply attempt_accepted, Ha in E].
  destruct (IsRecoverable e) eqn:Er; [by destruct (attempt_recoverable _ _ _ _ E Er)|].
  intros [= <- <-]. exists e. split; [done|]. rewrite IsRecoverable_Is in Er. by apply negb_false_iff.
Qed.

Lemma after_attempt_final tx n e : is_unrecoverable e = true -> after_attempt tx n e = TDone (Some e).
Proof. intros He. unfold after_attempt. by rewrite IsRecoverable_Is, He. Qed.

Lemma pool_step_refused s s' i tx signed n :
  tasks s !! i = Some (TSend tx signed n) -> refused (p_world s) signed -> pool_step s s' ->
  tasks s' !! i = tasks s !! i \/ exists e, tasks s' !! i = Some (TDone (Some e)).
Proof.
  intros Hi Href Hs. assert (Hset : forall j t p w, j <> i -> tasks (set_task s j t p w) !! i = tasks s !! i)
    by (intros; unfold set_task; cbn [tasks]; by rewrite list_lookup_insert_ne).
  destruct Hs as
    [s j ? Hj _ _|s j ? ? ? ? ? Hj _|s j ? ? ? ? ? Hj _|s j ? ? ? h Hj Hb|s j ? ? ? h e Hj Hb];
    (destruct (decide (j = i)) as [->|Hne]; [|left; by apply Hset]); rewrite Hi in Hj; simplify_eq;
    destruct (refused_unrecoverable _ _ _ _ Href Hb) as (e' & ? & He); simplify_eq.
  right. unfold set_task. cbn [tasks]. rewrite list_lookup_insert_eq by (by eapply lookup_lt_Some).
  rewrite after_attempt_final by done. eauto.
Qed.

(** C11. Broadcasting the initial transactions ends, whatever fails.  In every
    interleaving of the workers, over the shared provider and node: at most eight
    transactions are being worked on at a time; a transaction is signed and sent
    at most five times (no task has an attempt beyond the fifth, and the whole
    pool takes at most eleven steps a transaction); a transaction the node refuses
    is given up at once, because the error of the broadcast is marked unrecoverable
    and stays so under the wrapping; and as long as broadcasts return, a pool that
    is not over has a next step unless signing panicked, so the wait for the pool
    returns. *)
Theorem initial_pool_ends p w txs n s :
  pool_steps n (pool_start p w txs) s ->
  (n <= 11 * length txs)%nat /\ (workers s <= 8)%nat /\
  (forall i t, tasks s !! i = Some t -> attempt_ok t) /\
  (forall i tx signed a s', tasks s !! i = Some (TSend tx signed a) -> refused (p_world s) signed ->
     pool_step s s' -> tasks s' !! i = tasks s !! i \/ exists e, tasks s' !! i = Some (TDone (Some e))) /\
  (broadcasts_return -> pool_over s = true \/ pool_died s \/ exists s', pool_step s s').
Proof.
  intros Hs. apply pool_steps_inv in Hs as [HI Hn].
  split_and!; [lia|apply HI|apply HI| |apply pool_progress].
  intros i tx signed a s'. apply pool_step_refused.
Qed.

(** ** A task is a [retry.Do] *)

Lemma pool_steps_left n s1 s3 :
  pool_steps (S n) s1 s3 -> exists s2, pool_step s1 s2 /\ pool_steps n s2 s3.
Proof.
  revert s3. induction n as [|n IH]; intros s3 H; inversion H as [|? ? s2 ? H1 H2]; subst.
  - inversion H1; subst. exists s3. split; [done|constructor].
  - destruct (IH s2 H1) as (s1' & Ha & Hb). exists s1'. split; [done|]. by eapply pool_steps_S.
Qed.

Definition solo (p : P) (w : W) (t : Task) : Pool := {| p_prov := p; p_world := w; tasks := [t] |}.

Lemma solo_over_steps p w e n s : pool_steps n (solo p w (TDone e)) s -> s = solo p w (TDone e).
Proof.
  destruct n as [|n]; [by inversion 1|]. intros (s2 & Hs & _)%pool_steps_left.
  inversion Hs as [? i ? Hi|? i ? ? ? ? ? Hi|? i ? ? ? ? ? Hi|? i ? ? ? ? Hi|? i ? ? ? ? ? Hi]; subst;
    destruct i as [|[|i]]; simplify_eq/=.
Qed.

(** The step a lone task in an attempt makes. *)
Lemma solo_sign p w tx n s :
  pool_step (solo p w (TSign tx n)) s ->
  exists p' tx', (exists sg, BuildAndSignTx p client tx = (p', tx', Ok sg) /\
                    s = solo p' w (TSend tx' (txBytes sg) n)) \/
    exists e, BuildAndSignTx p client tx = (p', tx', Err e) /\
      s = solo p' w (after_attempt tx' n (EWrap "❌ Signing initial Tx failed" e)).
Proof.
  inversion 1 as [? i ? Hi|? i ? ? p' tx' sg Hi Hb|? i ? ? p' tx' e Hi Hb|? i ? ? ? ? Hi|? i ? ? ? ? ? Hi];
    subst; destruct i as [|[|i]]; simplify_eq/=; exists p', tx'; eauto.
Qed.

Lemma solo_send p w tx sg n s :
  pool_step (solo p w (TSend tx sg n)) s ->
  exists h o, Broadcast (sync_of w) (poll_of w) sg true = Some (h, o) /\
    s = solo p (after w sg)
      match o with
      | None => TDone None
      | Some e => after_attempt tx n (EWrap ("❌ Broadcasting initial Tx failed: " +:+ h) e)
      end.
Proof.
  inversion 1 as [? i ? Hi|? i ? ? p' tx' ? Hi Hb|? i ? ? p' tx' e Hi Hb|? i ? ? ? h Hi Hb|? i ? ? ? h e Hi Hb];
    subst; destruct i as [|[|i]]; simplify_eq/=; eauto.
Qed.

Lemma same_outcome_trans {A} (o1 o2 o3 : option (A * option error)) :
  same_outcome o1 o2 -> same_outcome o2 o3 -> same_outcome o1 o3.
Proof.
  destruct o1 as [[s1 e1]|], o2 as [[s2 e2]|], o3 as [[s3 e3]|]; cbn; try done.
  intros [-> H1] [-> H2]. split; [done|]. by rewrite H1, H2.
Qed.

(** What a failed attempt leaves is what [retry.Attempts] does after it. *)
Lemma solo_retry m n (St : Type) (f : P * baseTx * bool -> St -> (P * baseTx * bool) * option error)
    p tx p' tx' e r rs o :
  (n + S m = initialTxAttempts)%nat -> f (p, tx, false) r = ((p', tx', false), Some e) ->
  match after_attempt tx' n e with
  | TSign tx'' n' => tx'' = tx' /\ n' = S n /\ exists m', m = S m' /\
      same_outcome (retry_Attempts m f (p', tx', false) rs) o
  | _ => rs = [] /\ o = Some ((p', tx', false), Some e)
  end ->
  same_outcome (retry_Attempts (S m) f (p, tx, false) (r :: rs)) o.
Proof.
  intros Hn Hf Ha. pose proof (Attempts_cons m f (p, tx, false) r rs) as H. rewrite Hf in H.
  unfold after_attempt in Ha. destruct (IsRecoverable e); cbn [andb] in *; [|by destruct Ha as [-> ->]].
  destruct (S n <? initialTxAttempts)%nat eqn:E; [apply Nat.ltb_lt in E|apply Nat.ltb_ge in E].
  - destruct Ha as (_ & _ & m' & -> & Ho). rewrite (proj2 (Z.ltb_lt _ _)) in H by lia.
    by eapply same_outcome_trans.
  - rewrite (proj2 (Z.ltb_ge _ _)) in H by lia. by destruct Ha as [-> ->].
Qed.

(** A worker's task on its own does what [broadcast_initial] says: the calls of a
    lone task, from its first attempt to its end, are those [retry.Do] makes of
    the same function with five attempts, with the same outcome. *)
Lemma solo_broadcast m : forall n p w tx k s e,
  (n + m = initialTxAttempts)%nat -> (0 < m)%nat ->
  pool_steps k (solo p w (TSign tx n)) s -> tasks s = [TDone e] ->
  exists rs tx' e', same_outcome (retry_Attempts m (initial_attempt client) (p, tx, false) rs)
      (Some ((p_prov s, tx', false), e')) /\ (e = None <-> e' = None).
Proof.
  induction m as [|m IH]; intros n p w tx k s e Hn Hm Hs He; [lia|].
  destruct k as [|k]; [inversion Hs; subst; simplify_eq/=|].
  apply pool_steps_left in Hs as (s1 & H1 & Hs). apply solo_sign in H1 as (p' & tx' & H1).
  assert (Hfail : forall r k' w' err, pool_steps k' (solo p' w' (after_attempt tx' n err)) s ->
    initial_attempt client (p, tx, false) r = ((p', tx', false), Some err) ->
    exists rs tx'' e', same_outcome (retry_Attempts (S m) (initial_attempt client) (p, tx, false) rs)
      (Some ((p_prov s, tx'', false), e')) /\ (e = None <-> e' = None)).
  { intros r k' w' err Hs' Hf. destruct (after_attempt tx' n err) as [t|t n'|t b n'|e0] eqn:Ea;
      unfold after_attempt in Ea; destruct (IsRecoverable err && (S n <? initialTxAttempts)%nat) eqn:Eb;
      try discriminate Ea.
    - injection Ea as <- <-. destruct (IH (S n) p' w' tx' k' s e) as (rs & tx'' & e' & Ho & Hee); [lia| |done|done|].
      { apply andb_true_iff in Eb as [_ Eb%Nat.ltb_lt]. lia. }
      exists (r :: rs), tx'', e'. split; [|done]. eapply solo_retry; [exact Hn|exact Hf|].
      unfold after_attempt. rewrite Eb. split_and!; [done|done|].
      apply andb_true_iff in Eb as [_ Eb%Nat.ltb_lt]. destruct m as [|m]; [lia|]. eauto.
    - injection Ea as <-. apply solo_over_steps in Hs' as ->. cbn in He. injection He as <-. exists [r], tx', (Some err).
      split; [|done]. eapply solo_retry; [exact Hn|exact Hf|]. unfold after_attempt. by rewrite Eb. }
  destruct H1 as [(sg & Hb & ->)|(err & Hb & ->)].
  - destruct k as [|k]; [inversion Hs; subst; simplify_eq/=|].
    apply pool_steps_left in Hs as (s2 & H2 & Hs). apply solo_send in H2 as (h & [err|] & Hbr & ->).
    + eapply (Hfail (fun _ => (h, Some err))); [exact Hs|]. cbn. by rewrite Hb.
    + apply solo_over_steps in Hs as ->. cbn in He. injection He as <-.
      exists [fun _ => (h, None)], tx', None. split; [|done].
      pose proof (Attempts_cons m (initial_attempt client) (p, tx, false) (fun _ => (h, None)) []) as H.
      cbn in H. by rewrite Hb in H.
  - eapply (Hfail (fun _ => ("", None))); [exact Hs|]. cbn. by rewrite Hb.
Qed.

End Pool.

(** ** Witness *)

(** A node that accepts everything, under one hash. *)
Definition demo_open_world : ChainWorld nat := {|
  sync_of w b := [SyncRes "AB" 0 "" ""];
  poll_of w h := [PollRes 0 "" "" 7];
  query_of w a := [inl (3, 41)];
  after w b := S w
|}.

Lemma initial_pool_ends_witness :
  (@workers bankSendProvider nat (pool_start demo_bank 0%nat [demo_tx0; demo_tx0]) <= 8)%nat.
Proof.
  apply (@initial_pool_ends _ demo_bank_provider _ demo_open_world model_retry model_errors
    {| ChainID := "c" |} model_retry_laws demo_bank 0%nat [demo_tx0; demo_tx0] 0).
  apply pool_steps_0.
Defined.
