(* ===== verification/TxInfo.v ===== *)
(** * Verbose logging of fuzzed transactions (replay/fuzzer.go, stresser.go)

    [ExtractTransactionInfo] decodes a transaction into the fields of a log entry:
    it is total on transactions signed with real keys, and panics on a key shorter
    than the eight bytes it prints. *)

From Stdlib Require Import ZArith Lia Ascii String.
From stdpp Require Import base list strings numbers gmap.
From S2P Require Import Prelude GoStrings Float64 Sdk SdkModel Chain.

Open Scope string_scope.
Open Scope Z_scope.
Open Scope list_scope.

(** The value of a log field. *)
Inductive field :=
| FInt (n : Z)
| FText (s : string).

Abbreviation Fields := (gmap string field).

(** sdk.Coins and sdk.MsgTypeURL: printing, and [Coins.Add] of one coin, which
    panics on an invalid denomination. *)
Class TxInfoLib := {
  Coins_String : Coins -> string;
  Coins_Add1 : Coins -> Coin -> go Coins;
  MsgTypeURL : Msg -> string
}.

Section Info.
Context `{TC : TxConfig, CR : Crypto, TI : TxInfoLib}.

(** The loop that sums the fee. *)
Fixpoint total_fee (totalFee : Coins) (fee : Coins) : go Coins :=
  match fee with
  | [] => Ok totalFee
  | coin :: fee => let! totalFee := Coins_Add1 totalFee coin in total_fee totalFee fee
  end.

Definition fee_fields (tx : sdkTx) (fields : Fields) : go Fields :=
  match asFeeTx tx with
  | Some feeTx =>
      let fields := <["fee_coins" := FText (Coins_String (GetFee feeTx))]>
        (<["gas_limit" := FInt (GetGas feeTx)]> fields) in
      let! totalFee := total_fee [] (GetFee feeTx) in
      let fields := <["total_fee" := FText (Coins_String totalFee)]> fields in
      let fields :=
        if (0 <? length (FeeGranter feeTx))%nat
        then <["fee_granter" := FText (bech32_AccAddress (FeeGranter feeTx))]> fields else fields in
      Ok (if (0 <? length (FeePayer feeTx))%nat
          then <["fee_payer" := FText (bech32_AccAddress (FeePayer feeTx))]> fields else fields)
  | None =>
      Ok (<["total_fee" := FText "unknown (not FeeTx)"]>
            (<["gas_limit" := FText "unknown (not FeeTx)"]> fields))
  end.

Definition msg_fields (tx : sdkTx) (fields : Fields) : Fields :=
  let msgs := GetMsgs tx in
  let fields := <["msg_count" := FInt (Z.of_nat (length msgs))]> fields in
  if (0 <? length msgs)%nat
  then <["msg_types" := FText (strings_Join (map MsgTypeURL msgs) ",")]> fields else fields.

Definition memo_fields (tx : sdkTx) (fields : Fields) : Fields :=
  match asMemo tx with
  | Some memo => if decide (memo = "") then fields else <["memo" := FText memo]> fields
  | None => fields
  end.

(** [pubKey.Bytes()[:8]] panics on a shorter key; an empty one stands for nil. *)
Definition first_eight (b : bytes) : go bytes :=
  if (length b <? 8)%nat then Panic "slice bounds out of range" else Ok (take 8 b).

Definition signature_fields (tx : sdkTx) (fields : Fields) : go Fields :=
  match asSigVerifiable tx with
  | None => Ok (<["signature_count" := FText "unknown (not SigVerifiableTx)"]> fields)
  | Some (inr err) => Ok (<["signature_error" := FText err]> fields)
  | Some (inl signatures) =>
      let fields := <["signature_count" := FInt (Z.of_nat (length signatures))]> fields in
      match signatures with
      | [] => Ok fields
      | sig :: _ =>
          let! fields :=
            if decide (PubKey sig = []) then Ok fields
            else
              let! prefix := first_eight (PubKey sig) in
              Ok (<["first_sig_pubkey" := FText (hex_EncodeToString prefix)]>
                    (<["sender" := FText (bech32_AccAddress (pubKey_Address (PubKey sig)))]> fields)) in
          Ok (<["first_sig_sequence" := FInt (Sequence sig)]> fields)
      end
  end.

(** [None] is the nil map. *)
Definition ExtractTransactionInfo (txBytes : bytes) (txType : string) : go (option Fields) :=
  let base : Fields := <["tx_size" := FInt (Z.of_nat (length txBytes))]> {["tx_type" := FText txType]} in
  if (length txBytes =? 0)%nat then Ok None
  else
    match TxDecoder txBytes with
    | inr err => Ok (Some (<["decode_error" := FText (Error err)]> base))
    | inl tx =>
        let! fields := fee_fields tx base in
        let! fields := signature_fields tx (memo_fields tx (msg_fields tx fields)) in
        Ok (Some (<["tx_hash" := FText (hex_EncodeToString (take 8 (sha256_Sum256 txBytes)))]> fields))
    end.

(** What [fuzzTransactions] computes to log a transaction, with verbose logging. *)
Definition log_info (verbose : bool) (txBytes : bytes) (txType : string) : go unit :=
  if verbose then let! _ := ExtractTransactionInfo txBytes txType in Ok () else Ok ().

(** Transactions whose first signature has a key of at least eight bytes, and whose
    fee is made of coins that can be added. *)
Definition loggable (b : bytes) : Prop :=
  forall tx, TxDecoder b = inl tx ->
    (forall feeTx, asFeeTx tx = Some feeTx -> exists c, total_fee [] (GetFee feeTx) = Ok c) /\
    (forall sig sigs, asSigVerifiable tx = Some (inl (sig :: sigs)) ->
       PubKey sig = [] \/ (8 <= length (PubKey sig))%nat).

Lemma fee_fields_total tx fields :
  (forall feeTx, asFeeTx tx = Some feeTx -> exists c, total_fee [] (GetFee feeTx) = Ok c) ->
  exists fields', fee_fields tx fields = Ok fields'.
Proof.
  intros H. unfold fee_fields. destruct (asFeeTx tx) as [feeTx|]; [|eauto].
  destruct (H feeTx eq_refl) as [c ->]. cbn [go_bind]. eauto.
Qed.

Lemma signature_fields_total tx fields :
  (forall sig sigs, asSigVerifiable tx = Some (inl (sig :: sigs)) ->
     PubKey sig = [] \/ (8 <= length (PubKey sig))%nat) ->
  exists fields', signature_fields tx fields = Ok fields'.
Proof.
  intros H. unfold signature_fields. destruct (asSigVerifiable tx) as [[[|sig sigs]|err]|]; [eauto| |eauto..].
  destruct (H sig sigs eq_refl) as [->|Hl]; [cbn; eauto|]. case_decide as E; [cbn; eauto|].
  unfold first_eight. rewrite (proj2 (Nat.ltb_ge _ _) Hl). cbn. eauto.
Qed.

Lemma ExtractTransactionInfo_total b txType :
  loggable b -> exists info, ExtractTransactionInfo b txType = Ok info.
Proof.
  intros H. unfold ExtractTransactionInfo. destruct (_ =? 0)%nat; [eauto|].
  destruct (TxDecoder b) as [tx|err] eqn:E; [|eauto]. destruct (H tx E) as [Hf Hs].
  edestruct (fee_fields_total tx) as [fields ->]; [done|]. cbn [go_bind].
  edestruct (signature_fields_total tx) as [fields' ->]; [done|]. cbn [go_bind]. eauto.
Qed.

Lemma log_info_total verbose b txType : loggable b -> log_info verbose b txType = Ok ().
Proof.
  intros H. unfold log_info. destruct verbose; [|done].
  by destruct (ExtractTransactionInfo_total b txType H) as [info ->].
Qed.

(** What a logged entry says of a transaction that can be decoded: its gas limit and
    its sender. *)
Lemma ExtractTransactionInfo_gas b txType tx feeTx info :
  TxDecoder b = inl tx -> asFeeTx tx = Some feeTx -> b <> [] ->
  ExtractTransactionInfo b txType = Ok (Some info) ->
  info !! "gas_limit" = Some (FInt (GetGas feeTx)) /\ info !! "tx_size" = Some (FInt (Z.of_nat (length b))).
Proof.
  intros Hd Hf Hb. unfold ExtractTransactionInfo. rewrite Hd. destruct b as [|x b]; [done|].
  cbn [length Nat.eqb]. intros (f1 & H1 & (f2 & H2 & [= <-])%go_bind_Ok)%go_bind_Ok.
  assert (forall k, k = "gas_limit" \/ k = "tx_size" -> f2 !! k = f1 !! k) as Hk.
  { intros k Hk. unfold signature_fields, memo_fields, msg_fields in H2.
    destruct (asSigVerifiable tx) as [[[|sig sigs]|err]|]; simplify_eq/=; [| | |].
    2: apply go_bind_Ok in H2 as (f3 & H3 & [= <-]); case_decide; [|apply go_bind_Ok in H3 as (pre & _ & H3)];
       simplify_eq.
    all: destruct Hk as [-> | ->]; repeat case_match; rewrite ?lookup_insert_ne by done; done. }
  rewrite !lookup_insert_ne, !Hk by auto. unfold fee_fields in H1. rewrite Hf in H1.
  apply go_bind_Ok in H1 as (tot & _ & [= <-]).
  repeat case_match; rewrite ?lookup_insert_ne by done; rewrite ?lookup_insert_eq; done.
Qed.

End Info.

(** ** A concrete instance *)

Definition model_txinfo : TxInfoLib := {|
  Coins_String cs := strings_Join (map (fun c => itoa_nonneg (Amount c) +:+ Denom c) cs) ",";
  Coins_Add1 cs c := Ok (cs ++ [c]);
  MsgTypeURL _ := "/cosmos.bank.v1beta1.MsgSend"
|}.
