(* ===== verification/Fuzzer.v ===== *)
(** * Package replay: gas fuzzing (fuzzer.go)

    [GasFuzzer] rewrites a transaction with another gas limit before it is
    replayed.  Its random source is the sequence of the draws of its seed, of
    which the fuzzer's state counts how many were made. *)

From Stdlib Require Import ZArith Lia Ascii String.
From stdpp Require Import base list strings numbers.
From S2P Require Import Prelude GoStrings Float64 Sdk SdkModel Chain TxInfo.

Open Scope string_scope.
Open Scope Z_scope.
Open Scope list_scope.

Record GasFuzzingConfig := {
  Enabled : bool;
  Strategy : string;
  GasLimitMultiplierMin : float64;
  GasLimitMultiplierMax : float64;
  Seed : Z;
  FuzzPercentage : Z;
  VerboseLogging : bool
}.

(** The draws of a [rand.Rand], by seed and position, and the clock
    ([time.Now().UnixNano()]) when a fuzzer is made. *)
Class Rand := {
  rand_Intn : Z -> nat -> Z -> Z;
  rand_Float64 : Z -> nat -> float64;
  time_UnixNano : Z
}.

Class RandLaws `{Rand} := { rand_Intn_range seed i n : 0 < n -> 0 <= rand_Intn seed i n < n }.

(** [rand.New(rand.NewSource(seed))]: the seed, and the draws made so far. *)
Record Rng := { rng_seed : Z; rng_draws : nat }.

Definition rng_next (r : Rng) : Rng := {| rng_seed := rng_seed r; rng_draws := S (rng_draws r) |}.

Record GasFuzzer := {
  fz_config : GasFuzzingConfig;
  fz_rng : Rng;
  fz_txCounter : Z
}.

(** [None] is the nil pointer of a disabled fuzzer. *)
Definition NewGasFuzzer `{Rand} (config : GasFuzzingConfig) : option GasFuzzer :=
  if negb (Enabled config) then None
  else
    let config :=
      {| Enabled := Enabled config;
         Strategy := if decide (Strategy config = "") then "random" else Strategy config;
         GasLimitMultiplierMin :=
           if f64_eqb (GasLimitMultiplierMin config) f64_zero then f64_of_ratio 1 2
           else GasLimitMultiplierMin config;
         GasLimitMultiplierMax :=
           if f64_eqb (GasLimitMultiplierMax config) f64_zero then f64_of_Z 5
           else GasLimitMultiplierMax config;
         Seed := Seed config;
         FuzzPercentage := if FuzzPercentage config =? 0 then 100 else FuzzPercentage config;
         VerboseLogging := VerboseLogging config |} in
    let seed := if Seed config =? 0 then time_UnixNano else Seed config in
    Some {| fz_config := config; fz_rng := {| rng_seed := seed; rng_draws := 0 |}; fz_txCounter := 0 |}.

Section Fuzzer.
Context `{RD : Rand, FC : FloatConv, TC : TxConfig, CR : Crypto, TI : TxInfoLib}.

Definition randomFuzzing (f : GasFuzzer) (gasLimit : Z) : GasFuzzer * Z :=
  let lo := GasLimitMultiplierMin (fz_config f) in
  let hi := GasLimitMultiplierMax (fz_config f) in
  let gasMultiplier := f64_add lo (f64_mul (rand_Float64 (rng_seed (fz_rng f)) (rng_draws (fz_rng f))) (f64_sub hi lo)) in
  ({| fz_config := fz_config f; fz_rng := rng_next (fz_rng f); fz_txCounter := fz_txCounter f |},
   f64_to_uint64 (f64_mul (f64_of_Z gasLimit) gasMultiplier)).

Definition boundaryFuzzing (f : GasFuzzer) (gasLimit : Z) : GasFuzzer * Z :=
  let useMin := fz_txCounter f mod 2 =? 0 in
  let gasMultiplier :=
    if useMin then GasLimitMultiplierMin (fz_config f) else GasLimitMultiplierMax (fz_config f) in
  (f, f64_to_uint64 (f64_mul (f64_of_Z gasLimit) gasMultiplier)).

Definition applyFuzzingStrategy (f : GasFuzzer) (gasLimit : Z) : GasFuzzer * Z :=
  if decide (Strategy (fz_config f) = "random") then randomFuzzing f gasLimit
  else if decide (Strategy (fz_config f) = "boundary") then boundaryFuzzing f gasLimit
  else randomFuzzing f gasLimit.

(** The signatures part of [createFuzzedTransaction]: a failure is logged and
    the transaction goes on unsigned. *)
Definition copy_signatures (originalTx : sdkTx) (b : Builder) : go Builder :=
  match asSigVerifiable originalTx with
  | Some (inl signatures) =>
      if (0 <? length signatures)%nat then
        match SetSignatures b signatures with Err _ => Ok b | r => r end
      else Ok b
  | _ => Ok b
  end.

Definition createFuzzedTransaction (originalTx : sdkTx) (gasLimit : Z) (fee : Coins) : go sdkTx :=
  let! b := go_wrap "failed to set messages in fuzzed transaction"
    (SetMsgs NewTxBuilder (GetMsgs originalTx)) in
  let b := SetFeeAmount (SetGasLimit b gasLimit) fee in
  let b :=
    match asFeeTx originalTx with
    | Some feeTx =>
        let b := if (0 <? length (FeeGranter feeTx))%nat then SetFeeGranter b (FeeGranter feeTx) else b in
        if (0 <? length (FeePayer feeTx))%nat then SetFeePayer b (FeePayer feeTx) else b
    | None => b
    end in
  let b := match asMemo originalTx with Some m => SetMemo b m | None => b end in
  let b := match asTimeoutHeight originalTx with Some h => SetTimeoutHeight b h | None => b end in
  let! b := copy_signatures originalTx b in
  Ok (GetTx b).

(** The receiver may be nil; the returned error is always nil, so the result is
    the bytes, or a panic of [Encode]. *)
Definition FuzzTransaction (f : option GasFuzzer) (txBytes : bytes) : option GasFuzzer * go bytes :=
  match f with
  | None => (None, Ok txBytes)
  | Some f =>
      if negb (Enabled (fz_config f)) then (Some f, Ok txBytes)
      else
        let skip := FuzzPercentage (fz_config f) <=? rand_Intn (rng_seed (fz_rng f)) (rng_draws (fz_rng f)) 100 in
        let f1 := {| fz_config := fz_config f; fz_rng := rng_next (fz_rng f);
                     fz_txCounter := fz_txCounter f |} in
        if skip then (Some f1, Ok txBytes)
        else
          let f2 := {| fz_config := fz_config f; fz_rng := fz_rng f1;
                       fz_txCounter := u64 (fz_txCounter f + 1) |} in
          match TxDecoder txBytes with
          | inr _ => (Some f2, Ok txBytes)
          | inl tx =>
              match asFeeTx tx with
              | None => (Some f2, Ok txBytes)
              | Some feeTx =>
                  let '(f3, newGasLimit) := applyFuzzingStrategy f2 (GetGas feeTx) in
                  match createFuzzedTransaction tx newGasLimit (GetFee feeTx) with
                  | Ok fuzzedTx => (Some f3, Client_Encode fuzzedTx)
                  | Err _ => (Some f3, Ok txBytes)
                  | Panic m => (Some f3, Panic m)
                  end
              end
          end
  end.

(** ** stresser.go: fuzzTransactions

    The new bytes and whether they differ from the given ones.  The configuration
    that turns on verbose logging is the one the fuzzer was made with. *)
Definition fuzzTransactions (f : option GasFuzzer) (txBytes : bytes) : option GasFuzzer * go (bytes * bool) :=
  match f with
  | None => (None, Ok (txBytes, false))
  | Some fz =>
      let verbose := VerboseLogging (fz_config fz) in
      match log_info verbose txBytes "ORIGINAL" with
      | Ok _ =>
          let '(f', r) := FuzzTransaction f txBytes in
          (f', match r with
               | Ok fuzzed =>
                   if (length fuzzed =? length txBytes)%nat && bool_decide (fuzzed = txBytes)
                   then Ok (txBytes, false)
                   else let! _ := log_info verbose fuzzed "FUZZED" in Ok (fuzzed, true)
               | Err _ => Ok (txBytes, false)
               | Panic m => Panic m
               end)
      | Err e => (f, Err e)
      | Panic m => (f, Panic m)
      end
  end.

(** The fuzzer with its logging turned on or off. *)
Definition set_verbose (v : bool) (f : GasFuzzer) : GasFuzzer :=
  let c := fz_config f in
  {| fz_config := {| Enabled := Enabled c; Strategy := Strategy c;
                     GasLimitMultiplierMin := GasLimitMultiplierMin c;
                     GasLimitMultiplierMax := GasLimitMultiplierMax c; Seed := Seed c;
                     FuzzPercentage := FuzzPercentage c; VerboseLogging := v |};
     fz_rng := fz_rng f; fz_txCounter := fz_txCounter f |}.

Lemma FuzzTransaction_verbose v f b :
  FuzzTransaction (Some (set_verbose v f)) b =
  (set_verbose v <$> (FuzzTransaction (Some f) b).1, (FuzzTransaction (Some f) b).2).
Proof.
  unfold FuzzTransaction, applyFuzzingStrategy, randomFuzzing, boundaryFuzzing.
  cbn [set_verbose fz_config fz_rng fz_txCounter Enabled Strategy GasLimitMultiplierMin GasLimitMultiplierMax
    FuzzPercentage]. repeat (case_decide || case_match); simplify_eq; done.
Qed.

(** Verbose logging is transparent: when the transaction and the one it is fuzzed to
    can be logged, [fuzzTransactions] returns the same bytes with and without it. *)
Theorem logging_transparent v f b :
  loggable b ->
  (forall fuzzed, (FuzzTransaction (Some f) b).2 = Ok fuzzed -> loggable fuzzed) ->
  (fuzzTransactions (Some (set_verbose v f)) b).2 = (fuzzTransactions (Some f) b).2.
Proof.
  intros Hb Hf. unfold fuzzTransactions. rewrite !log_info_total, FuzzTransaction_verbose by done.
  destruct (FuzzTransaction (Some f) b) as [f' [fuzzed|e|m]]; [|done..]. cbn [fst snd] in *.
  destruct (_ && _); [done|]. by rewrite !log_info_total by eauto.
Qed.

(** ** What fuzzing changes *)

Context `{TL : !TxConfigLaws}.

(** The signatures of a transaction, if it can give them. *)
Definition signatures_of (tx : sdkTx) : list SignatureV2 :=
  match asSigVerifiable tx with Some (inl sigs) => sigs | _ => [] end.

(** [tx'] is [tx] with another gas limit: messages, fee, payer, granter, memo and
    timeout are kept; attributes the original's type does not have are those of a
    fresh transaction; the signatures are kept unless the builder refuses them; and
    the extension options are lost. *)
Definition regassed (tx : sdkTx) (gas : Z) (fee : FeeTx) (tx' : sdkTx) : Prop :=
  GetMsgs tx' = GetMsgs tx /\
  (exists payer, asFeeTx tx' = Some {| GetGas := gas; GetFee := GetFee fee; FeePayer := payer;
                                      FeeGranter := FeeGranter fee |} /\
     (FeePayer fee <> [] -> payer = FeePayer fee)) /\
  asMemo tx' = Some (default "" (asMemo tx)) /\
  asTimeoutHeight tx' = Some (default 0 (asTimeoutHeight tx)) /\
  (asSigVerifiable tx' = Some (inl (signatures_of tx)) \/
   asSigVerifiable tx' = Some (inl []) /\
     exists b err, GetMsgs (GetTx b) = GetMsgs tx /\ SetSignatures b (signatures_of tx) = Err err) /\
  asExtensionOptions tx' = Some ([], []).

Lemma copy_signatures_tx tx b b' :
  asSigVerifiable (GetTx b) = Some (inl []) -> copy_signatures tx b = Ok b' ->
  GetTx b' = with_signatures (signatures_of tx) (GetTx b) \/
  GetTx b' = GetTx b /\ exists err, SetSignatures b (signatures_of tx) = Err err.
Proof.
  intros Hb. unfold copy_signatures, signatures_of.
  assert (Hid : GetTx b = with_signatures [] (GetTx b))
    by (unfold with_signatures; destruct (GetTx b); cbn in *; by subst).
  destruct (asSigVerifiable tx) as [[[|s sigs]|]|]; try (intros [= <-]; by left).
  cbn [length Nat.ltb Nat.leb]. destruct (SetSignatures b (s :: sigs)) as [b1|err|] eqn:E; intros; simplify_eq.
  - left. by apply SetSignatures_tx in E.
  - right. eauto.
Qed.

(** The builder once the attributes are copied. *)
Lemma copied_attributes tx gas fee b payer :
  GetTx b = with_fee (set_payer payer) (with_msgs (GetMsgs tx) empty_tx) ->
  let b1 := SetFeeAmount (SetGasLimit b gas) (GetFee fee) in
  let b2 := if (0 <? length (FeeGranter fee))%nat then SetFeeGranter b1 (FeeGranter fee) else b1 in
  let b3 := if (0 <? length (FeePayer fee))%nat then SetFeePayer b2 (FeePayer fee) else b2 in
  let b4 := match asMemo tx with Some m => SetMemo b3 m | None => b3 end in
  let b5 := match asTimeoutHeight tx with Some h => SetTimeoutHeight b4 h | None => b4 end in
  GetTx b5 = {| GetMsgs := GetMsgs tx;
                asFeeTx := Some {| GetGas := gas; GetFee := GetFee fee;
                                   FeePayer := if decide (FeePayer fee = []) then payer else FeePayer fee;
                                   FeeGranter := FeeGranter fee |};
                asMemo := Some (default "" (asMemo tx));
                asTimeoutHeight := Some (default 0 (asTimeoutHeight tx));
                asSigVerifiable := Some (inl []); asExtensionOptions := Some ([], []) |}.
Proof.
  intros Hb. cbv zeta.
  destruct (asTimeoutHeight tx), (asMemo tx), (FeePayer fee) as [|x l] eqn:Ep, (FeeGranter fee);
    cbn [length Nat.ltb Nat.leb]; rewrite ?SetTimeoutHeight_tx, ?SetMemo_tx, ?SetFeePayer_tx, ?SetFeeGranter_tx,
      SetFeeAmount_tx, SetGasLimit_tx, Hb by done; done.
Qed.

Lemma createFuzzedTransaction_spec tx gas fee tx' :
  asFeeTx tx = Some fee -> createFuzzedTransaction tx gas (GetFee fee) = Ok tx' ->
  regassed tx gas fee tx' /\ exists b, tx' = GetTx b.
Proof.
  intros Hfee H. unfold createFuzzedTransaction in H.
  apply go_bind_Ok in H as (b & Hb%go_wrap_Ok & H). apply SetMsgs_tx in Hb as [payer Hb].
  destruct NewTxBuilder_tx as [payer0 Hnew]. rewrite Hnew in Hb.
  cbv zeta in H. rewrite Hfee in H. apply go_bind_Ok in H as (b' & Hc & [= <-]). split; [|eauto].
  pose proof (copied_attributes tx gas fee b payer Hb) as Hall. cbv zeta in Hall.
  unfold regassed. destruct (copy_signatures_tx tx _ _ ltac:(by rewrite Hall) Hc) as [->|[-> [err Herr]]];
    rewrite Hall; cbn [with_signatures GetMsgs asFeeTx asMemo asTimeoutHeight asSigVerifiable asExtensionOptions].
  - split_and!; [done| |done|done|by left|done]. eexists. split; [done|]. intros Hp. by rewrite decide_False.
  - split_and!; [done| |done|done| |done].
    + eexists. split; [done|]. intros Hp. by rewrite decide_False.
    + right. split; [done|]. eexists _, err. split; [|exact Herr]. by rewrite Hall.
Qed.

Lemma encode_fuzzed b enc : Client_Encode (GetTx b) = Ok enc -> TxDecoder enc = inl (GetTx b).
Proof.
  unfold Client_Encode. intros H. apply Encode_Decode. by destruct (TxEncoder (GetTx b)).
Qed.

(** C24. Fuzzing a transaction, with any strategy and any draws, gives back the same
    bytes or the bytes of a transaction with a new gas limit, a 64-bit value, that
    keeps the messages, the fee, the fee payer (when the original has one) and
    granter, the memo and the timeout height of the original: the fee is no longer
    proportional to the gas.  The signatures, which no longer cover the
    transaction, are copied, or dropped when the transaction builder returns an
    error for them.  The extension options are always dropped, critical ones
    included.  Bytes that do not decode are never touched. *)
Theorem FuzzTransaction_regassed f txBytes out :
  (FuzzTransaction f txBytes).2 = Ok out ->
  out = txBytes \/
  exists tx tx' fee gas, TxDecoder txBytes = inl tx /\ asFeeTx tx = Some fee /\
    TxDecoder out = inl tx' /\ regassed tx gas fee tx' /\ is_u64 gas.
Proof.
  unfold FuzzTransaction. destruct f as [f|]; [|intros [= <-]; by left].
  destruct (negb _); [intros [= <-]; by left|]. cbv zeta.
  destruct (_ <=? _); [intros [= <-]; by left|].
  destruct (TxDecoder txBytes) as [tx|] eqn:Ed; [|intros [= <-]; by left].
  destruct (asFeeTx tx) as [fee|] eqn:Ef; [|intros [= <-]; by left].
  set (f2 := {| fz_config := _ |}). destruct (applyFuzzingStrategy f2 (GetGas fee)) as [f3 gas] eqn:Es.
  assert (Hgas : is_u64 gas).
  { unfold applyFuzzingStrategy, randomFuzzing, boundaryFuzzing in Es.
    repeat case_decide; injection Es as <- <-; apply f64_to_uint64_range. }
  destruct (createFuzzedTransaction tx gas (GetFee fee)) as [tx'| |] eqn:Ec;
    [|intros [= <-]; by left|done].
  destruct (createFuzzedTransaction_spec _ _ _ _ Ef Ec) as [Hr [b ->]].
  intros He%encode_fuzzed. right. exists tx, (GetTx b), fee, gas. done.
Qed.

(** ** Which transactions are fuzzed *)

Context `{RDL : !RandLaws}.

Definition fuzzes (f : GasFuzzer) : bool :=
  Enabled (fz_config f) && (rand_Intn (rng_seed (fz_rng f)) (rng_draws (fz_rng f)) 100 <? FuzzPercentage (fz_config f)).

(** The share of fuzzed transactions and the boundary strategy.  A fuzzer comes
    from an enabled configuration only; a percentage of 0 is taken for 100, with
    which every transaction is tried, and a negative one tries none.  With the
    boundary strategy the tried transactions, from the first on, get the maximal
    and the minimal multiplier in turn. *)
Theorem fuzz_selection cfg f :
  NewGasFuzzer cfg = Some f ->
  Enabled cfg = true /\
  (FuzzPercentage cfg = 0 \/ 100 <= FuzzPercentage cfg ->
     forall n c, fuzzes {| fz_config := fz_config f; fz_rng := n; fz_txCounter := c |} = true) /\
  (FuzzPercentage cfg < 0 ->
     forall n c b, (FuzzTransaction (Some {| fz_config := fz_config f; fz_rng := n; fz_txCounter := c |}) b).2
                   = Ok b) /\
  (Strategy cfg = "boundary" -> forall n k gas, 0 <= k < 2 ^ 64 - 1 ->
     let m := if Z.even k then GasLimitMultiplierMax (fz_config f) else GasLimitMultiplierMin (fz_config f) in
     applyFuzzingStrategy {| fz_config := fz_config f; fz_rng := n; fz_txCounter := u64 (k + 1) |} gas =
     ({| fz_config := fz_config f; fz_rng := n; fz_txCounter := u64 (k + 1) |},
      f64_to_uint64 (f64_mul (f64_of_Z gas) m))).
Proof.
  unfold NewGasFuzzer. destruct (Enabled cfg) eqn:En; [|done]. cbn [negb]. cbv zeta. intros [= <-].
  cbn [fz_config]. split_and!; [done|..].
  - intros Hp n c. unfold fuzzes. cbn [fz_config fz_rng Enabled FuzzPercentage andb].
    pose proof (rand_Intn_range (rng_seed n) (rng_draws n) 100 ltac:(lia)). apply Z.ltb_lt.
    destruct (Z.eqb_spec (FuzzPercentage cfg) 0); lia.
  - intros Hp n c b. unfold FuzzTransaction. cbn [fz_config fz_rng Enabled FuzzPercentage].
    cbn [negb]. cbv zeta. pose proof (rand_Intn_range (rng_seed n) (rng_draws n) 100 ltac:(lia)).
    rewrite (proj2 (Z.eqb_neq _ _)) by lia. by rewrite (proj2 (Z.leb_le _ _)) by lia.
  - intros Hs n k gas Hk. unfold applyFuzzingStrategy. cbn [fz_config Strategy]. rewrite Hs.
    destruct (decide ("boundary" = "")) as [|_]; [done|].
    destruct (decide ("boundary" = "random")) as [|_]; [done|].
    destruct (decide ("boundary" = "boundary")) as [_|]; [|done].
    unfold boundaryFuzzing. cbn [fz_config fz_txCounter GasLimitMultiplierMax GasLimitMultiplierMin].
    rewrite u64_id by width. rewrite Zmod_even, Z.even_add.
    by destruct (Z.even k).
Qed.
End Fuzzer.

(** ** Witnesses *)

Definition model_rand : Rand := {|
  rand_Intn seed i n := (seed + Z.of_nat i) mod n;
  rand_Float64 _ _ := f64_zero;
  time_UnixNano := 1700000000000000000
|}.

Lemma model_rand_laws : @RandLaws model_rand.
Proof. constructor. intros seed i n Hn. cbn. by apply Z.mod_pos_bound. Qed.

Definition demo_fuzz_config : GasFuzzingConfig :=
  {| Enabled := true; Strategy := "boundary"; GasLimitMultiplierMin := f64_zero;
     GasLimitMultiplierMax := f64_zero; Seed := 0; FuzzPercentage := 0; VerboseLogging := false |}.

Definition demo_fuzzer : GasFuzzer :=
  match @NewGasFuzzer model_rand demo_fuzz_config with
  | Some f => f
  | None => {| fz_config := demo_fuzz_config; fz_rng := {| rng_seed := 0; rng_draws := 0 |}; fz_txCounter := 0 |}
  end.

(** Five times the gas for the first transaction, half of it for the second. *)
Example demo_boundary :
  (applyFuzzingStrategy (RD := model_rand)
     {| fz_config := fz_config demo_fuzzer; fz_rng := fz_rng demo_fuzzer; fz_txCounter := 1 |} 150000).2 = 750000 /\
  (applyFuzzingStrategy (RD := model_rand)
     {| fz_config := fz_config demo_fuzzer; fz_rng := fz_rng demo_fuzzer; fz_txCounter := 2 |} 150000).2 = 75000.
Proof. split; vm_compute; reflexivity. Qed.

(** A transaction with a critical extension option. *)
Definition demo_fuzz_tx : sdkTx := with_extensions ([[1]], []) (with_fee (set_gas 1000) empty_tx).

Definition demo_fuzz_in : bytes := [Zpos (countable.encode demo_fuzz_tx)].

Definition demo_fuzz_out : bytes :=
  match (@FuzzTransaction model_rand amd64_FloatConv model_txconfig (Some demo_fuzzer) demo_fuzz_in).2 with
  | Ok b => b
  | _ => []
  end.

(** It comes out with another gas limit and without the option. *)
Lemma FuzzTransaction_regassed_witness :
  asExtensionOptions demo_fuzz_tx = Some ([[1]], []) /\
  exists tx' fee gas, asFeeTx demo_fuzz_tx = Some fee /\
    @TxDecoder model_txconfig demo_fuzz_out = inl tx' /\
    @regassed model_txconfig demo_fuzz_tx gas fee tx' /\ is_u64 gas.
Proof.
  split; [reflexivity|].
  destruct (@FuzzTransaction_regassed model_rand amd64_FloatConv model_txconfig model_txconfig_laws
    (Some demo_fuzzer) demo_fuzz_in demo_fuzz_out) as [H|(tx & tx' & fee & gas & Hd & Hf & H)].
  - vm_compute. reflexivity.
  - assert (Hne : demo_fuzz_out <> demo_fuzz_in) by (vm_compute; discriminate). destruct (Hne H).
  - assert (Hin : @TxDecoder model_txconfig demo_fuzz_in = inl demo_fuzz_tx)
      by (vm_compute; reflexivity).
    rewrite Hin in Hd. injection Hd as <-. exists tx', fee, gas. exact (conj Hf H).
Defined.

Lemma fuzz_selection_witness :
  @fuzzes model_rand {| fz_config := fz_config demo_fuzzer; fz_rng := {| rng_seed := 7; rng_draws := 99 |}; fz_txCounter := 7 |} = true.
Proof.
  apply (@fuzz_selection model_rand amd64_FloatConv model_txconfig model_rand_laws demo_fuzz_config demo_fuzzer);
    [reflexivity|by left].
Defined.
