(* ===== verification/SeqChain.v ===== *)
(** * Chains that enforce account sequences

    [ChainWorld] says what the program sees of a node; [SequencedChain] adds what
    the node does: it takes a transaction exactly when it carries its sender's
    next sequence, says which one it expects otherwise, and keeps its accounts
    apart.  The last part is a concrete such chain that reads SDK transactions,
    for the witnesses. *)

From Stdlib Require Import ZArith Lia Ascii String.
From stdpp Require Import base list strings numbers.
From S2P Require Import Prelude GoStrings Float64 Sdk SdkModel RateLimit Chain Payload EthPayload Pipeline Stresser.
From S2P Require Import Broadcasting InitialPool.

Open Scope string_scope.
Open Scope Z_scope.
Open Scope list_scope.

Section Chain.
Context `{SE : SdkErrors} {W : Type} {CW : ChainWorld W}.

(** The node takes the transaction: after any number of answers about a full
    mempool it has it, and the transaction is included. *)
Definition node_takes (w : W) (tx : bytes) : Prop :=
  exists full r rest h hb, sync_of w tx = full ++ r :: rest /\ Forall mempool_full full /\
    accepted r h /\ hex_DecodeString h = Ok hb /\
    exists pend e more, poll_of w hb = pend ++ e :: more /\ Forall pending pend /\ included e.

(** The node complains that it expects sequence [n], not [m], in the words of the
    SDK's ante handler or of the EVM's. *)
Definition node_complains (w : W) (tx : bytes) (n m : Z) : Prop :=
  exists full hash code codespace log rest pre post,
    sync_of w tx = full ++ SyncRes hash code codespace log :: rest /\ Forall mempool_full full /\
    code <> 0 /\ (span_digits post).1 = "" /\
    ((codespace = Codespace ErrWrongSequence /\ code = ABCICode ErrWrongSequence /\
      log = pre +:+ "account sequence mismatch, expected " +:+ itoa_nonneg n +:+ ", got "
            +:+ itoa_nonneg m +:+ post /\
      no_earlier "account sequence mismatch, expected " pre log) \/
     (codespace = Codespace ErrInvalidSequence /\ code = ABCICode ErrInvalidSequence /\
      isSDKErrorResult codespace code ErrWrongSequence = false /\
      log = pre +:+ "invalid nonce; got " +:+ itoa_nonneg m +:+ ", expected "
            +:+ itoa_nonneg n +:+ post /\
      no_earlier "invalid nonce; got " pre log)).

Class SequencedChain := {
  tx_owner : bytes -> string;
  tx_seq : bytes -> Z;
  chain_seq : W -> string -> Z;
  ledger : W -> string -> list bytes;
  tx_seq_nonneg tx : 0 <= tx_seq tx;
  chain_accepts w tx : tx_seq tx = chain_seq w (tx_owner tx) ->
    node_takes w tx /\
    chain_seq (after w tx) (tx_owner tx) = chain_seq w (tx_owner tx) + 1 /\
    ledger (after w tx) (tx_owner tx) = ledger w (tx_owner tx) ++ [tx];
  chain_rejects w tx : tx_seq tx <> chain_seq w (tx_owner tx) ->
    node_complains w tx (chain_seq w (tx_owner tx)) (tx_seq tx) /\
    chain_seq (after w tx) (tx_owner tx) = chain_seq w (tx_owner tx) /\
    ledger (after w tx) (tx_owner tx) = ledger w (tx_owner tx);
  chain_isolated w tx a : a <> tx_owner tx ->
    chain_seq (after w tx) a = chain_seq w a /\ ledger (after w tx) a = ledger w a;
  chain_query w a : exists num fails rest,
    query_of w a = fails ++ inl (num, chain_seq w a) :: rest /\ all_failed fails /\
    (length fails <= 9)%nat
}.

End Chain.

(** ** What the client makes of its answers *)

Section Answers.
Context `{RL : RetryLib, RLL : !RetryLaws, SE : SdkErrors, CR : Crypto}.
Context {W : Type} {CW : ChainWorld W} {SC : @SequencedChain SE W CW}.

Lemma query_truth w key :
  exists num, getAccountNumberSequence (query_of w (AccAddress key)) =
    Some (Ok (num, chain_seq w (AccAddress key))).
Proof.
  destruct (chain_query w (AccAddress key)) as (num & fails & rest & E & Hf & Hn). exists num.
  rewrite E. apply numseq_success; [done|lia].
Qed.

(** What [Broadcast] makes of the chain's answer. *)
Lemma chain_broadcast w tx await :
  is_u64 (chain_seq w (tx_owner tx)) ->
  exists h r, Broadcast (sync_of w) (poll_of w) tx await = Some (h, r) /\
    (tx_seq tx = chain_seq w (tx_owner tx) -> r = None) /\
    (tx_seq tx <> chain_seq w (tx_owner tx) ->
     exists e, r = Some e /\ IsSequenceError e = (chain_seq w (tx_owner tx), true)).
Proof.
  intros Hu. destruct (decide (tx_seq tx = chain_seq w (tx_owner tx))) as [E|E].
  - destruct (chain_accepts w tx E) as [(full & r & rest & h & hb & Hs & Hf & Ha & Hx & Hp) _].
    exists h, None. split_and!; [|done|done]. apply Broadcast_success. exists full, r, rest, hb. done.
  - destruct (chain_rejects w tx E) as
      [(full & hash & code & cs & log & rest & pre & post & Hs & Hf & Hc & Hp & Hl) _].
    destruct (Broadcast_complaint (sync_of w) (poll_of w) tx await full hash code cs log rest pre
      (chain_seq w (tx_owner tx)) (tx_seq tx) post) as (e & He & Hse); eauto using tx_seq_nonneg.
    exists hash, (Some e). split_and!; [done|done|eauto].
Qed.

End Answers.

(** ** A chain that reads SDK transactions *)

(** The sender and the sequence of the first signature of the decoded bytes. *)
Section SdkReads.
Context `{TC : TxConfig, TCL : !TxConfigLaws, CR : Crypto, SM : SdkMath}.

Definition first_signature (b : bytes) : option SignatureV2 :=
  match TxDecoder b with
  | inl tx => match asSigVerifiable tx with Some (inl (sig :: _)) => Some sig | _ => None end
  | inr _ => None
  end.

Definition sdk_owner (b : bytes) : string :=
  match first_signature b with Some sig => bech32_AccAddress (pubKey_Address (PubKey sig)) | None => "" end.

Definition sdk_seq (b : bytes) : Z :=
  match first_signature b with Some sig => u64 (Sequence sig) | None => 0 end.

(** Such a chain reads back what the providers of x/bank, x/wasm and x/exchange
    transactions sign. *)
Lemma fee_reads price gas memo c u sg :
  feeBuildAndSignTx price gas memo c u = Ok sg -> is_u64 (acc_Sequence (from sg)) ->
  sdk_owner (txBytes sg) = AccAddress (Key (from sg)) /\ sdk_seq (txBytes sg) = acc_Sequence (from sg).
Proof.
  unfold feeBuildAndSignTx. intros (fee & _ & H)%go_bind_Ok Hu.
  apply go_bind_Ok in H as (coin & _ & H). apply go_bind_Ok in H as (coins & _ & H).
  apply go_bind_Ok in H as (stx & Hs & H). apply go_bind_Ok in H as (enc & He & [= <-]).
  destruct (Client_BuildAndSignTx_signed _ _ _ _ _ Hs He) as (Hd & _ & _ & _ & _ & sb & sig & _ & _ & Hsig).
  unfold sdk_owner, sdk_seq, first_signature. cbn [txBytes WithBytes from] in *. rewrite Hd, Hsig.
  cbn [PubKey Sequence]. by rewrite u64_id.
Qed.
End SdkReads.

(** The countable encoding, for transactions whose gas limit is a [uint64]. *)
Definition gas_in_range (tx : sdkTx) : bool :=
  match asFeeTx tx with Some f => (0 <=? GetGas f) && (GetGas f <? 2 ^ 64) | None => true end.

Definition typed_txconfig : TxConfig := {|
  Builder := sdkTx;
  NewTxBuilder := @NewTxBuilder model_txconfig;
  SetMsgs := @SetMsgs model_txconfig;
  SetGasLimit := @SetGasLimit model_txconfig;
  SetFeeAmount := @SetFeeAmount model_txconfig;
  SetMemo := @SetMemo model_txconfig;
  SetTimeoutHeight := @SetTimeoutHeight model_txconfig;
  SetFeeGranter := @SetFeeGranter model_txconfig;
  SetFeePayer := @SetFeePayer model_txconfig;
  SetSignatures := @SetSignatures model_txconfig;
  SetEthExtension := @SetEthExtension model_txconfig;
  GetTx := @GetTx model_txconfig;
  TxEncoder tx := if gas_in_range tx then @TxEncoder model_txconfig tx else Err (ENew "gas limit");
  TxDecoder b :=
    match @TxDecoder model_txconfig b with
    | inl tx => if gas_in_range tx then inl tx else inr (ENew "gas limit")
    | inr e => inr e
    end;
  GetSignBytes := @GetSignBytes model_txconfig
|}.

Lemma typed_txconfig_laws : @TxConfigLaws typed_txconfig.
Proof.
  pose proof model_txconfig_laws as L.
  constructor; unfold NewTxBuilder, SetMsgs, SetGasLimit, SetFeeAmount, SetMemo, SetTimeoutHeight,
    SetFeeGranter, SetFeePayer, SetSignatures, GetTx, TxEncoder, TxDecoder, typed_txconfig; try apply L.
  intros b e. destruct (gas_in_range _) eqn:E; [|done]. intros H%(@Encode_Decode _ L).
  change (match @TxDecoder model_txconfig e with
    | inl tx => if gas_in_range tx then inl tx else inr (ENew "gas limit")
    | inr err => inr err
    end = inl (@GetTx model_txconfig b)). rewrite H. cbv beta iota.
  change (gas_in_range (@GetTx model_txconfig b) = true) in E. by rewrite E.
Qed.

Lemma typed_gas : @gas_typed typed_txconfig.
Proof.
  intros b tx f Hd Hf. cbn in Hd. destruct (model_decode b) as [tx'|]; [|done].
  destruct (gas_in_range tx') eqn:E; [|done]. injection Hd as ->. unfold gas_in_range in E. rewrite Hf in E.
  bool_facts. width.
Qed.

(** A chain of SDK accounts: sequence and transactions by address. *)
Definition Ledgers : Type := string -> Z * list bytes.

Section LedgerChain.
#[local] Existing Instances typed_txconfig typed_txconfig_laws model_crypto model_errors.

Definition demo_mismatch (expected got : Z) : string :=
  "account sequence mismatch, expected " +:+ itoa_nonneg expected +:+ ", got " +:+ itoa_nonneg got
  +:+ ": incorrect account sequence".

(** The chain that reads sender and sequence by two given functions. *)
Section Reading.
Context (owner : bytes -> string) (seq : bytes -> Z).

#[local] Instance reading_world : ChainWorld Ledgers := {|
  sync_of w tx :=
    if seq tx =? (w (owner tx)).1 then [SyncRes "AB" 0 "" ""]
    else [SyncRes "AB" 32 "sdk" (demo_mismatch (w (owner tx)).1 (seq tx))];
  poll_of w h := [PollRes 0 "" "" 7];
  query_of w a := [inl (3, (w a).1)];
  after w tx :=
    if seq tx =? (w (owner tx)).1 then
      fun a => if decide (a = owner tx) then ((w a).1 + 1, (w a).2 ++ [tx]) else w a
    else w
|}.

Definition reading_chain (seq_nonneg : forall tx, 0 <= seq tx) : @SequencedChain model_errors Ledgers reading_world.
Proof.
  refine {| tx_owner := owner; tx_seq := seq; chain_seq w a := (w a).1; ledger w a := (w a).2 |};
    [exact seq_nonneg|intros w tx E..| |]; unfold node_takes, node_complains, sync_of, after, reading_world.
  - rewrite (proj2 (Z.eqb_eq _ _) E), decide_True by done. split_and!; [|done..].
    exists [], (SyncRes "AB" 0 "" ""), [], "AB", [171]. split_and!; try done.
    exists [], (PollRes 0 "" "" 7), []. done.
  - rewrite (proj2 (Z.eqb_neq _ _) E). split_and!; [|done..].
    exists [], "AB", 32, "sdk", (demo_mismatch (w (owner tx)).1 (seq tx)), [], "",
      ": incorrect account sequence". split_and!; try done. left. split_and!; try done.
    intros k Hk. cbn in Hk. lia.
  - intros w tx a Ha. destruct (_ =? _); [|done]. by rewrite decide_False.
  - intros w a. exists 3, [], []. split_and!; [done| |cbn; lia]. intros r Hr. by apply not_elem_of_nil in Hr.
Defined.

Lemma reading_returns : @broadcasts_return Ledgers reading_world model_retry model_errors.
Proof.
  intros w b. unfold Broadcast, sync_of, poll_of, reading_world. cbv beta.
  destruct (seq b =? (w (owner b)).1); rewrite (@Until_cons _ model_retry_laws);
    cbn [broadcast_attempt negb Z.eqb IsRecoverable]; eexists; reflexivity.
Qed.
End Reading.

Lemma sdk_seq_nonneg tx : 0 <= sdk_seq tx.
Proof.
  unfold sdk_seq. destruct (first_signature tx) as [sig|]; [|lia].
  pose proof (u64_range (Sequence sig)). width.
Qed.

Definition demo_world : ChainWorld Ledgers := reading_world sdk_owner sdk_seq.
Definition demo_chain : @SequencedChain model_errors Ledgers demo_world :=
  reading_chain sdk_owner sdk_seq sdk_seq_nonneg.

Definition demo_returns : @broadcasts_return Ledgers demo_world model_retry model_errors :=
  reading_returns sdk_owner sdk_seq.

Definition demo_ledgers : Ledgers := fun _ => (41, []).
End LedgerChain.
