(* ===== verification/StressRun.v ===== *)
(** * [Stress] as a whole (stresser.go)

    The function composed of its parts: the checks of the configuration, the
    initial transactions ([Stresser], [InitialPool]), the preparation pipeline
    ([Pipeline]), the broadcast client and the broadcasting phase
    ([Broadcasting]), over a node that answers through its client ([Chain]). *)

From Stdlib Require Import ZArith Lia Ascii String.
From stdpp Require Import base list strings numbers.
From S2P Require Import Prelude GoStrings Float64 Sdk SdkModel RateLimit Chain Payload EthPayload Pipeline Stresser.
From S2P Require Import Broadcasting InitialPool Fuzzer SeqChain.

Open Scope string_scope.
Open Scope Z_scope.
Open Scope list_scope.

(** stresser.StressConfig *)
Record StressConfig := {
  sc_ChainID : string;
  sc_EthChainID : Z;
  sc_MinGasPrice : string;
  sc_NodeAddress : string;
  sc_GRPCAddress : string;
  sc_Accounts : list Secp256k1PrivateKey;
  sc_NumOfTransactions : Z;
  sc_AwaitTxConfirmation : bool;
  sc_GasFuzzing : GasFuzzingConfig;
  sc_RateLimit : Config
}.

(** [Stress] returns, or the process ends (a fatal log or a panic). *)
Inductive Outcome :=
| Returns (err : option error)
| Exits.

(** ** The function *)

Section Stress.
Context `{RL : RetryLib, SE : SdkErrors, RT : RateLib, FC : FloatConv, TC : TxConfig, CR : Crypto}.
Context {W : Type} {CW : ChainWorld W} {P : Type} {TP : TxProvider P}.
Context (cfg : StressConfig).

Definition stress_client : Client := {| ChainID := sc_ChainID cfg |}.
Definition live : Context := {| ctx_live := true |}.
Definition num_txs : nat := Z.to_nat (sc_NumOfTransactions cfg).

(** What the node says of the account with this key. *)
Definition query (w : W) (key : Secp256k1PrivateKey) : option (go (Z * Z)) :=
  getAccountNumberSequence (query_of w (AccAddress key)).

Definition answers (w : W) (keyIdx : Z) : list ((Z * Z) + error) :=
  match sc_Accounts cfg !! Z.to_nat keyIdx with
  | Some key => query_of w (AccAddress key)
  | None => []
  end.

(** The account numbers and sequences the generators start from. *)
Definition fetched (w : W) (i : nat) : Z * Z :=
  match sc_Accounts cfg !! i with
  | Some key => match query w key with Some (Ok v) => v | _ => (0, 0) end
  | None => (0, 0)
  end.

(** The initial transactions are through: the provider and the node then. *)
Definition settled (p : P) (w : W) (p2 : P) (w1 : W) : Prop :=
  exists e p1 txs n s,
    create_initial e p 0 (sc_Accounts cfg) (answers w) = Some (p1, Ok txs) /\
    pool_steps stress_client n (pool_start p1 w txs) s /\ pool_over s = true /\
    p_prov s = p2 /\ p_world s = w1.

(** The function the broadcasting loops share: [buildBroadcastClient]'s, or, should
    it fail, the unthrottled one. *)
Definition stress_limiter : option MultiLimiter :=
  match buildBroadcastClient (sc_RateLimit cfg) with
  | Ok lim => lim
  | _ => None
  end.

(** Nothing reaches the node when the limiter refuses. *)
Definition world_after (lim : option MultiLimiter) (w : W) (tx : bytes) : W :=
  match lim with
  | None => after w tx
  | Some l =>
      match WaitForTransactionBytes live (Some TxDecoder) l tx with
      | Some (_, None) => after w tx
      | _ => w
      end
  end.

(** The function [buildBroadcastClient] returns: the hash and the error. *)
Definition shared_bcast (st : option MultiLimiter * W) (tx : bytes)
    : option ((option MultiLimiter * W) * (string * option error)) :=
  let '(lim, w) := st in
  match broadcastFunc (sync_of w) (poll_of w) (sc_AwaitTxConfirmation cfg) live lim tx with
  | None => None
  | Some (lim', res) => Some ((lim', world_after lim w tx), res)
  end.

(** The account loops use the error only. *)
Definition stress_bcast (st : option MultiLimiter * W) (tx : bytes)
    : option ((option MultiLimiter * W) * option error) :=
  match shared_bcast st tx with
  | None => None
  | Some (st', (_, err)) => Some (st', err)
  end.

(** The prepared transactions; an element never stored is a nil slice. *)
Definition prepared (s : @Pipe P) : list (list bytes) := map (map (default [])) (signedTxs s).

Definition pipe_run (ncpu : nat) (p2 : P) (w1 : W) : @Pipe P -> Prop :=
  reachable stress_client (sc_Accounts cfg) num_txs (fetched w1)
    (start (sc_Accounts cfg) num_txs p2 ncpu).

Definition phase_run (w1 : W) (s : @Pipe P) (n : nat) (s' : Phase) : Prop :=
  bsteps stress_bcast (sc_NumOfTransactions cfg) (prepared s) (initialAccountSequences s) n
    (phase_start (prepared s) (stress_limiter, w1)) s'.

(** [Stress] with a positive number of transactions, after its checks. *)
Inductive stressed (ncpu : nat) (p : P) (w : W) : Outcome -> W -> Prop :=
| stressed_initial_failed e p1 r :
    create_initial e p 0 (sc_Accounts cfg) (answers w) = Some (p1, r) -> is_Ok r = false ->
    stressed ncpu p w Exits w
| stressed_initial_died e p1 txs n s :
    create_initial e p 0 (sc_Accounts cfg) (answers w) = Some (p1, Ok txs) ->
    pool_steps stress_client n (pool_start p1 w txs) s -> pool_died stress_client s ->
    stressed ncpu p w Exits (p_world s)
| stressed_query_failed p2 w1 i key r :
    settled p w p2 w1 -> sc_Accounts cfg !! i = Some key -> query w1 key = Some r -> is_Ok r = false ->
    stressed ncpu p w Exits w1
| stressed_crashed p2 w1 s :
    settled p w p2 w1 ->
    (forall i key, sc_Accounts cfg !! i = Some key -> exists v, query w1 key = Some (Ok v)) ->
    pipe_run ncpu p2 w1 s -> crashed stress_client (sc_Accounts cfg) num_txs s ->
    stressed ncpu p w Exits w1
| stressed_broadcast_died p2 w1 s n s' :
    settled p w p2 w1 ->
    (forall i key, sc_Accounts cfg !! i = Some key -> exists v, query w1 key = Some (Ok v)) ->
    pipe_run ncpu p2 w1 s -> finished (sc_Accounts cfg) num_txs s ->
    phase_run w1 s n s' -> died s' = true ->
    stressed ncpu p w Exits (world s').2
| stressed_broadcast p2 w1 s n s' :
    settled p w p2 w1 ->
    (forall i key, sc_Accounts cfg !! i = Some key -> exists v, query w1 key = Some (Ok v)) ->
    pipe_run ncpu p2 w1 s -> finished (sc_Accounts cfg) num_txs s ->
    phase_run w1 s n s' -> ended s' = true -> died s' = false ->
    stressed ncpu p w (Returns (failure s')) (world s').2.

(** The checks in front.  Without accounts the generator returns an error while
    the collector ends its group with nil, and which of the two the group reports
    is left open; with a negative number of transactions the collector panics.
    A number of zero, for which the collector cancels the context the generator
    is still using, is not covered. *)
Inductive Stress (ncpu : nat) (p : P) (w : W) : Outcome -> W -> Prop :=
| Stress_no_eth_chain :
    sc_EthChainID cfg = 0 -> Stress ncpu p w Exits w
| Stress_no_chain :
    sc_EthChainID cfg <> 0 -> sc_ChainID cfg = "" -> Stress ncpu p w Exits w
| Stress_no_accounts r :
    sc_EthChainID cfg <> 0 -> sc_ChainID cfg <> "" -> sc_Accounts cfg = [] ->
    r = None \/ r = Some (ENew "empty accounts list") -> Stress ncpu p w (Returns r) w
| Stress_negative :
    sc_EthChainID cfg <> 0 -> sc_ChainID cfg <> "" -> sc_Accounts cfg <> [] ->
    sc_NumOfTransactions cfg < 0 -> Stress ncpu p w Exits w
| Stress_positive out w' :
    sc_EthChainID cfg <> 0 -> sc_ChainID cfg <> "" -> sc_Accounts cfg <> [] ->
    0 < sc_NumOfTransactions cfg -> stressed ncpu p w out w' -> Stress ncpu p w out w'.

(** What is known of a provider in a run: of its state before the initial requests
    and after them, and of the initial transactions it makes. *)
Record ProviderInv := {
  fresh : P -> Prop;
  ready : P -> Prop;
  initial : baseTx -> Prop
}.

(** A transaction it makes. *)
Definition made (I : ProviderInv) (u : baseTx) : Prop :=
  (exists e p req, fresh I p /\ (GenerateInitialTx e p req).2 = Ok (Some u)) \/
  (exists e p req, ready I p /\ (GenerateTx e p req).2 = Ok u).

(** The chain reads the sender and the sequence back from what the provider made
    and signed. *)
Definition chain_reads `{SequencedChain} (I : ProviderInv) : Prop :=
  forall p u sg, ready I p -> made I u -> (BuildAndSignTx p stress_client u).2 = Ok sg -> is_u64 (acc_Sequence (from sg)) ->
    tx_owner (txBytes sg) = AccAddress (Key (from sg)) /\ tx_seq (txBytes sg) = acc_Sequence (from sg).

End Stress.

