(* ===== verification/InitialDelivery.v ===== *)
(** * Delivery of the initial transactions

    On a chain that enforces account sequences, the pool of [InitialPool] delivers
    every initial transaction on its first attempt: they belong to different
    accounts, so no broadcast gets in the way of another, whatever the
    interleaving of the workers. *)

From Stdlib Require Import ZArith Lia Ascii String.
From stdpp Require Import base list strings numbers.
From S2P Require Import Prelude GoStrings Float64 Sdk RateLimit Chain Payload Pipeline Stresser.
From S2P Require Import Broadcasting InitialPool SeqChain StressRun.

Open Scope string_scope.
Open Scope Z_scope.
Open Scope list_scope.

Section InitialDelivery.
Context `{RL : RetryLib, RLL : !RetryLaws, SE : SdkErrors, CR : Crypto}.
Context {W : Type} {CW : ChainWorld W} {SC : @SequencedChain SE W CW}.
Context {P : Type} {TP : TxProvider P} {TL : TxProviderLaws P}.
Context (cfg : StressConfig) (I : @ProviderInv P).

(** ** Which transactions are made *)

Definition sender (tx : baseTx) : string := AccAddress (Key (from tx)).

(** [tx] was generated as the initial transaction of account [i], at the sequence
    the chain [w] has for it. *)
Definition is_initial (w : W) (i : nat) (tx : baseTx) : Prop :=
  exists key e p num, sc_Accounts cfg !! i = Some key /\ fresh I p /\
    (GenerateInitialTx e p (initial_request (Z.of_nat i) key num (chain_seq w (AccAddress key)))).2
    = Ok (Some tx).

(** The initial requests keep what each of them keeps. *)
Lemma create_initial_keeps (ok : P -> Prop) e p i keys ans p1 r :
  (forall p req, ok p -> ok (GenerateInitialTx e p req).1) -> ok p ->
  create_initial e p i keys ans = Some (p1, r) -> ok p1.
Proof.
  intros Hk. revert p i p1 r. induction keys as [|key keys IH]; intros p i p1 r Ho E; cbn [create_initial] in E.
  { by simplify_eq. }
  destruct (getAccountNumberSequence _) as [[[num seq]| |]|]; [|by simplify_eq..].
  pose proof (Hk p (initial_request i key num seq) Ho) as Ho'.
  destruct (GenerateInitialTx e p _) as [p' [o| |]]; cbn [fst] in Ho'; [|by simplify_eq..].
  destruct (create_initial e p' (i + 1) keys ans) as [[p2 r2]|] eqn:E2; [|done].
  apply IH in E2; [|done]. destruct r2; by simplify_eq.
Qed.

(** The provider generates and signs the initial transactions. *)
Record provider_starts (w : W) : Prop := {
  starts_generates e p req : fresh I p ->
    is_Ok (GenerateInitialTx e p req).2 = true /\ fresh I (GenerateInitialTx e p req).1;
  starts_makes e p req tx : fresh I p -> (GenerateInitialTx e p req).2 = Ok (Some tx) -> initial I tx;
  starts_ready e p p1 txs : fresh I p ->
    create_initial e p 0 (sc_Accounts cfg) (answers cfg w) = Some (p1, Ok txs) -> ready I p1;
  starts_signs : signing_safe (stress_client cfg) (ready I) (initial I);
  starts_signed p i tx : ready I p -> is_initial w i tx ->
    is_Ok (BuildAndSignTx p (stress_client cfg) tx).2 = true
}.

Lemma initial_from w i tx key :
  is_initial w i tx -> sc_Accounts cfg !! i = Some key ->
  Key (from tx) = key /\ acc_Sequence (from tx) = chain_seq w (AccAddress key).
Proof. intros (k & e & p & num & Hk & _ & Hg) Hi. simplify_eq. by apply GenerateInitialTx_from in Hg as ->. Qed.

(** The keys from index [i] on, with the transactions made for them. *)
Lemma create_initial_made e p i keys w :
  provider_starts w -> fresh I p ->
  (forall k key, keys !! k = Some key -> sc_Accounts cfg !! (i + k)%nat = Some key) ->
  exists p1 txs, create_initial e p (Z.of_nat i) keys (answers cfg w) = Some (p1, Ok txs) /\ fresh I p1 /\
    (sender <$> txs) `sublist_of` (AccAddress <$> keys) /\
    forall tx, tx ∈ txs -> exists j, is_initial w j tx.
Proof.
  intros Hp. revert p i. induction keys as [|key keys IH]; intros p i Ho Hk.
  { exists p, []. split_and!; [done|done|constructor|by intros tx ?%not_elem_of_nil]. }
  pose proof (Hk 0%nat key eq_refl) as Hi. rewrite Nat.add_0_r in Hi.
  cbn [create_initial]. unfold answers at 1. rewrite Nat2Z.id, Hi.
  destruct (query_truth w key) as [num ->].
  destruct (starts_generates _ Hp e p (initial_request (Z.of_nat i) key num (chain_seq w (AccAddress key))) Ho)
    as [Hok Ho']. destruct (GenerateInitialTx e p _) as [p' [o| |]] eqn:Eg; try done.
  destruct (IH p' (S i)) as (p1 & txs & E & Ho1 & Hsub & Hmade); [done| |].
  { intros k key' Hk'. rewrite <- (Hk (S k) key' Hk'). f_equal. lia. }
  replace (Z.of_nat i + 1) with (Z.of_nat (S i)) by lia. rewrite E.
  destruct o as [tx|]; eexists _, _; (split_and!; [done|done| |]);
    [|intros t [->|Ht]%elem_of_cons; [|by apply Hmade]|by constructor|done].
  - assert (Hs : from tx = From (initial_request (Z.of_nat i) key num (chain_seq w (AccAddress key))))
      by (eapply GenerateInitialTx_from; by rewrite Eg).
    assert (Hk' : sender tx = AccAddress key) by (unfold sender; by rewrite Hs).
    rewrite !fmap_cons, Hk'. by constructor.
  - exists i, key, e, p, num. by rewrite Eg.
Qed.

Lemma initial_made e p w :
  provider_starts w -> fresh I p ->
  exists p1 txs, create_initial e p 0 (sc_Accounts cfg) (answers cfg w) = Some (p1, Ok txs) /\ ready I p1 /\
    (sender <$> txs) `sublist_of` (AccAddress <$> sc_Accounts cfg) /\ Forall (initial I) txs /\
    forall tx, tx ∈ txs -> exists j, is_initial w j tx.
Proof.
  intros Hp Ho. destruct (create_initial_made e p 0 (sc_Accounts cfg) w Hp Ho) as (p1 & txs & E & _ & Hs & Hm); [done|].
  exists p1, txs. split_and!; [done|by eapply starts_ready|done| |done].
  apply Forall_forall. intros tx Htx%list_elem_of_In.
  destruct (Hm tx Htx) as (j & key & e' & p' & num & _ & Ho' & Hg). by eapply starts_makes.
Qed.

(** ** What the pool does to the chain *)

(** [b] is the initial transaction [tx], signed. *)
Definition initial_signed (tx : baseTx) (b : bytes) : Prop :=
  exists p sg, ready I p /\ (BuildAndSignTx p (stress_client cfg) tx).2 = Ok sg /\ b = txBytes sg.

Definition untouched (w w1 : W) (a : string) : Prop :=
  chain_seq w1 a = chain_seq w a /\ ledger w1 a = ledger w a.

(** The chain has one more transaction of account [a]: [b]. *)
Definition extended (w w1 : W) (a : string) (b : bytes) : Prop :=
  chain_seq w1 a = chain_seq w a + 1 /\ ledger w1 a = ledger w a ++ [b].

Definition task_on_chain (w w1 : W) (tx : baseTx) (t : Task) : Prop :=
  match t with
  | TQueued u => u = tx /\ untouched w w1 (sender tx)
  | TSign u n => u = tx /\ n = 0%nat /\ untouched w w1 (sender tx)
  | TSend u b n => n = 0%nat /\ initial_signed tx b /\ untouched w w1 (sender tx)
  | TDone r => r = None /\ exists b, initial_signed tx b /\ extended w w1 (sender tx) b
  end.

Record PoolDelivers (w : W) (txs : list baseTx) (s : @Pool P W) : Prop := {
  pd_prov : ready I (p_prov s);
  pd_tasks : Forall2 (task_on_chain w (p_world s)) txs (tasks s);
  pd_others a : a ∉ sender <$> txs -> untouched w (p_world s) a
}.

Lemma task_on_chain_ext w w1 w2 tx t :
  untouched w1 w2 (sender tx) -> task_on_chain w w1 tx t -> task_on_chain w w2 tx t.
Proof. unfold untouched. destruct t; cbn; unfold untouched, extended; intros [-> ->]; done. Qed.

(** A step changes the task of [i] and leaves the chain alone, or extends it for
    the sender of that task's transaction. *)
Lemma set_task_delivers w txs s i tx t p' w' :
  NoDup (sender <$> txs) -> PoolDelivers w txs s -> txs !! i = Some tx -> ready I p' ->
  (forall a, a <> sender tx -> untouched (p_world s) w' a) -> task_on_chain w w' tx t ->
  PoolDelivers w txs (set_task s i t p' w').
Proof.
  intros Hnd HI Hi Ho Hw Ht. constructor; cbn [set_task p_prov p_world tasks]; [done| |].
  - apply Forall2_same_length_lookup. pose proof (Forall2_length (pd_tasks _ _ _ HI)) as Hlen.
    split; [by rewrite length_insert|]. intros j u t' Hu Ht'. destruct (decide (j = i)) as [->|Hne].
    + rewrite list_lookup_insert_eq in Ht' by (rewrite <- Hlen; by eapply lookup_lt_Some). by simplify_eq.
    + rewrite list_lookup_insert_ne in Ht' by done.
      eapply task_on_chain_ext; [|by eapply (Forall2_lookup_lr _ _ _ _ _ _ (pd_tasks _ _ _ HI))].
      apply Hw. intros E. apply Hne. eapply (NoDup_lookup _ j i (sender tx) Hnd); rewrite list_lookup_fmap.
      * rewrite Hu. cbn. by rewrite E.
      * by rewrite Hi.
  - intros a Ha. assert (Hne : a <> sender tx).
    { intros ->. apply Ha. apply list_elem_of_fmap. exists tx. split; [done|]. by eapply list_elem_of_lookup_2. }
    destruct (Hw a Hne) as [E1 E2]. destruct (pd_others _ _ _ HI a Ha) as [E3 E4]. split; congruence.
Qed.

Lemma initial_reads w j tx b :
  chain_reads cfg I -> is_initial w j tx -> is_u64 (chain_seq w (sender tx)) -> initial_signed tx b ->
  tx_owner b = sender tx /\ tx_seq b = chain_seq w (sender tx).
Proof.
  intros Hrd Hi Hu (p & sg & Ho & Hb & ->). pose proof (BuildAndSignTx_tags _ _ _ _ Hb) as (_ & _ & Hf).
  pose proof Hi as (key & e & p0 & num & Hk & Hf0 & Hg). assert (made I tx) as Hmk by (left; eauto). destruct (initial_from w j tx key Hi Hk) as [Hkey Hseq].
  unfold sender in *. rewrite Hkey in *.
  destruct (Hrd p tx sg Ho Hmk Hb) as [Ho' Hq]; rewrite Hf in *; rewrite ?Hkey, ?Hseq in *; done.
Qed.

Lemma pool_step_delivers w txs s s' :
  chain_reads cfg I -> provider_starts w -> NoDup (sender <$> txs) ->
  (forall tx, tx ∈ txs -> (exists j, is_initial w j tx) /\ is_u64 (chain_seq w (sender tx))) ->
  PoolDelivers w txs s -> pool_step (stress_client cfg) s s' -> PoolDelivers w txs s'.
Proof.
  intros Hrd Hp Hnd Hmade HI Hs. pose proof (pd_prov _ _ _ HI) as Ho.
  assert (Hget : forall i t, tasks s !! i = Some t -> exists tx, txs !! i = Some tx /\
    task_on_chain w (p_world s) tx t /\ (exists j, is_initial w j tx) /\ is_u64 (chain_seq w (sender tx))).
  { intros i t Hi. destruct (Forall2_lookup_r _ _ _ _ _ (pd_tasks _ _ _ HI) Hi) as (tx & Htx & Ht).
    exists tx. split_and!; [done|done|apply Hmade; by eapply list_elem_of_lookup_2..]. }
  destruct Hs as
    [s i tx Hi _ _|s i tx n p' tx' sg Hi Hb|s i tx n p' tx' e Hi Hb|s i tx b n h Hi Hb|s i tx b n h e Hi Hb];
    destruct (Hget i _ Hi) as (u & Hu & Ht & [j Hj] & Hu64); cbn [task_on_chain] in Ht.
  - destruct Ht as [-> Ht]. eapply set_task_delivers; [done..|by split|]. by split_and!.
  - destruct Ht as (-> & -> & Ht). pose proof Hj as (k & e & p0 & num & _ & Hf0 & Hg).
    destruct (starts_signs _ Hp (p_prov s) u Ho (starts_makes _ Hp _ _ _ _ Hf0 Hg)) as [Ho' _].
    rewrite Hb in Ho'. eapply set_task_delivers; [done..|by split|]. split_and!; [done| |done].
    exists (p_prov s), sg. by rewrite Hb.
  - destruct Ht as (-> & -> & Ht). pose proof (starts_signed _ Hp (p_prov s) j u Ho Hj) as H.
    by rewrite Hb in H.
  - destruct Ht as (-> & Hsg & Hq & Hl). destruct (initial_reads w j u b Hrd Hj Hu64 Hsg) as [Hown Hseq].
    rewrite <- Hown in Hq, Hl. rewrite <- Hown, <- Hq in Hseq.
    destruct (chain_accepts (p_world s) b Hseq) as (_ & Eq & El).
    eapply set_task_delivers; [done..| |].
    + intros a Ha. rewrite <- Hown in Ha. by apply chain_isolated.
    + split; [done|]. exists b. split; [done|]. rewrite <- Hown. split; congruence.
  - destruct Ht as (-> & Hsg & Hq & Hl). destruct (initial_reads w j u b Hrd Hj Hu64 Hsg) as [Hown Hseq].
    rewrite <- Hown in Hq. rewrite <- Hown, <- Hq in Hseq.
    destruct (chain_broadcast (p_world s) b true) as (h' & r & Hb' & Hr & _); [by rewrite Hq, Hown|].
    rewrite (Hr Hseq) in Hb'. congruence.
Qed.

Lemma pool_steps_deliver w txs p n s :
  chain_reads cfg I -> provider_starts w -> NoDup (sender <$> txs) ->
  (forall tx, tx ∈ txs -> (exists j, is_initial w j tx) /\ is_u64 (chain_seq w (sender tx))) -> ready I p ->
  pool_steps (stress_client cfg) n (pool_start p w txs) s -> PoolDelivers w txs s.
Proof.
  intros Hrd Hp Hnd Hmade Ho Hs. remember (pool_start p w txs) as s0.
  induction Hs as [s1|n s1 s2 s3 Hs IH Hstep]; subst; [|by eapply pool_step_delivers; [..|apply IH|]].
  constructor; cbn [pool_start p_prov p_world tasks]; [done| |by split].
  apply Forall2_fmap_r, Forall_Forall2_diag, Forall_forall. by intros tx _.
Qed.

(** ** Settled chains *)

(** The chain [w1] is [w] with the initial transactions: each that was made for
    the accounts of [w] was signed and delivered, once; nothing else changed. *)
Definition initial_delivered (p : P) (w w1 : W) : Prop :=
  exists e p1 txs, create_initial e p 0 (sc_Accounts cfg) (answers cfg w) = Some (p1, Ok txs) /\
    NoDup (sender <$> txs) /\
    (forall tx, tx ∈ txs -> sender tx ∈ AccAddress <$> sc_Accounts cfg /\
       exists b, initial_signed tx b /\ extended w w1 (sender tx) b) /\
    forall a, a ∉ sender <$> txs -> untouched w w1 a.

Lemma settled_delivered p w p2 w1 :
  chain_reads cfg I -> provider_starts w -> fresh I p -> NoDup (AccAddress <$> sc_Accounts cfg) ->
  (forall key, key ∈ sc_Accounts cfg -> is_u64 (chain_seq w (AccAddress key))) ->
  settled cfg p w p2 w1 -> ready I p2 /\ initial_delivered p w w1.
Proof.
  intros Hrd Hp Ho Hnd Hu (e & p1 & txs & n & s & E & Hs & Hov & <- & <-).
  destruct (initial_made e p w Hp Ho) as (p1' & txs' & E' & Ho1 & Hsub & _ & Hmade).
  rewrite E in E'. injection E' as <- <-.
  assert (Hnd' : NoDup (sender <$> txs)) by (by eapply sublist_NoDup).
  assert (Hin : forall tx, tx ∈ txs -> sender tx ∈ AccAddress <$> sc_Accounts cfg).
  { intros tx Htx. eapply (sublist_subseteq _ _ Hsub). by apply list_elem_of_fmap_2. }
  assert (Hs' : PoolDelivers w txs s).
  { eapply (pool_steps_deliver w txs p1 n); try done. intros tx Htx. split; [by apply Hmade|].
    destruct (list_elem_of_fmap_1 _ _ _ (Hin tx Htx)) as (key & -> & Hkey). by apply Hu. }
  split; [apply Hs'|]. exists e, p1, txs. split_and!; [done|done| |apply Hs'].
  intros tx Htx. split; [by apply Hin|]. apply list_elem_of_lookup in Htx as [k Hk].
  destruct (Forall2_lookup_l _ _ _ _ _ (pd_tasks _ _ _ Hs') Hk) as (t & Ht & Hc).
  unfold pool_over in Hov. rewrite forallb_forall in Hov.
  specialize (Hov t). destruct t as [| | |r];
    try (discriminate Hov; apply list_elem_of_In; by eapply list_elem_of_lookup_2).
  by destruct Hc as [_ Hc].
Qed.

(** The sequences have moved by one at most. *)
Lemma initial_moves p w w1 a :
  initial_delivered p w w1 -> chain_seq w a <= chain_seq w1 a <= chain_seq w a + 1.
Proof.
  intros (e & p1 & txs & _ & _ & Hd & Hn). destruct (decide (a ∈ sender <$> txs)) as [Ha|Ha].
  - destruct (list_elem_of_fmap_1 _ _ _ Ha) as (tx & -> & Htx).
    destruct (Hd tx Htx) as (_ & b & _ & -> & _). lia.
  - destruct (Hn a Ha) as [-> _]. lia.
Qed.

End InitialDelivery.
