(* ===== verification/Delivery.v ===== *)
(** * Delivery: what a run of [Stress] leaves on the chain

    Against a chain that enforces account sequences, every run of [Stress] returns
    without error, and the ledger of every account has grown by exactly the
    transactions made for it, in sequence order. *)

From Stdlib Require Import ZArith Lia Ascii String.
From stdpp Require Import base list strings numbers.
From S2P Require Import Prelude GoStrings Float64 Sdk SdkModel RateLimit Chain Payload EthPayload WasmPayload Pipeline Stresser.
From S2P Require Import Broadcasting InitialPool Fuzzer SeqChain StressRun InitialDelivery.

Open Scope string_scope.
Open Scope Z_scope.
Open Scope list_scope.

(** ** Delivery *)

Section Delivery.
Context `{RL : RetryLib, RLL : !RetryLaws, SE : SdkErrors, RT : RateLib, RTL : !RateLaws, FC : FloatConv,
          TC : TxConfig, CR : Crypto}.
Context {W : Type} {CW : ChainWorld W} {SC : @SequencedChain SE W CW}.
Context {P : Type} {TP : TxProvider P} {TL : TxProviderLaws P}.
Context (cfg : StressConfig) (I : @ProviderInv P).

Lemma query_Ok w key : exists num, query w key = Some (Ok (num, chain_seq w (AccAddress key))).
Proof. apply query_truth. Qed.

Lemma fetched_seq w i key :
  sc_Accounts cfg !! i = Some key -> (fetched cfg w i).2 = chain_seq w (AccAddress key).
Proof. intros Hi. unfold fetched. rewrite Hi. by destruct (query_Ok w key) as [num ->]. Qed.

Definition limiter_wf (lim : option MultiLimiter) : Prop := forall l, lim = Some l -> MultiLimiter_wf l.

Lemma shared_bcast_chain lim w tx :
  gas_typed -> limiter_wf lim -> is_u64 (chain_seq w (tx_owner tx)) ->
  exists lim' h r, shared_bcast cfg (lim, w) tx = Some ((lim', after w tx), (h, r)) /\ limiter_wf lim' /\
    (tx_seq tx = chain_seq w (tx_owner tx) -> r = None) /\
    (tx_seq tx <> chain_seq w (tx_owner tx) ->
     exists e, r = Some e /\ IsSequenceError e = (chain_seq w (tx_owner tx), true)).
Proof.
  intros Hgas Hwf Hu.
  destruct (chain_broadcast w tx (sc_AwaitTxConfirmation cfg) Hu) as (h & r & Hb & Hr).
  unfold shared_bcast, world_after. destruct lim as [l|].
  - destruct (broadcastFunc_live (sync_of w) (poll_of w) (sc_AwaitTxConfirmation cfg) live l tx
      Hgas (Hwf l eq_refl) eq_refl) as (l' & g & _ & Hw & Hwf' & _ & E).
    rewrite E, Hb, Hw. exists (Some l'), h, r. split_and!; [done| |apply Hr..]. by intros ? [= <-].
  - rewrite broadcastFunc_unlimited, Hb. exists None, h, r. split_and!; [done|done|apply Hr..].
Qed.

Lemma stress_bcast_chain lim w tx :
  gas_typed -> limiter_wf lim -> is_u64 (chain_seq w (tx_owner tx)) ->
  exists lim' r, stress_bcast cfg (lim, w) tx = Some ((lim', after w tx), r) /\ limiter_wf lim' /\
    (tx_seq tx = chain_seq w (tx_owner tx) -> r = None) /\
    (tx_seq tx <> chain_seq w (tx_owner tx) ->
     exists e, r = Some e /\ IsSequenceError e = (chain_seq w (tx_owner tx), true)).
Proof.
  intros Hgas Hwf Hu. destruct (shared_bcast_chain lim w tx Hgas Hwf Hu) as (lim' & h & r & E & H).
  unfold stress_bcast. rewrite E. eauto.
Qed.

(** *** The prepared transactions *)

(** The accounts have distinct addresses, and their sequences stay far from the
    end of their range. *)
Record run_ok (w1 : W) : Prop := {
  ro_positive : 0 < sc_NumOfTransactions cfg;
  ro_distinct : NoDup (AccAddress <$> sc_Accounts cfg);
  ro_room i key : sc_Accounts cfg !! i = Some key ->
    0 <= chain_seq w1 (AccAddress key) /\
    chain_seq w1 (AccAddress key) + sc_NumOfTransactions cfg < 2 ^ 63
}.

Lemma fetched_u64 w1 i : run_ok w1 -> is_u64 (fetched cfg w1 i).2.
Proof.
  intros Hok. destruct (sc_Accounts cfg !! i) as [key|] eqn:Hi.
  - rewrite (fetched_seq w1 i key Hi). destruct (ro_room _ Hok i key Hi). pose proof (ro_positive _ Hok). width.
  - unfold fetched. rewrite Hi. cbn. width.
Qed.

(** [tx] is the [j]-th transaction of account [i]: generated by the provider for
    the account at its sequence, and signed. *)
Definition prepared_for (w1 : W) (i j : nat) (tx : bytes) : Prop :=
  exists sg, tx = txBytes sg /\
    signed_for (stress_client cfg) (sc_Accounts cfg) (num_txs cfg) (fetched cfg w1) (ready I) i j sg.

Lemma prepared_rows ncpu p2 w1 s :
  run_ok w1 -> provider_keeps (stress_client cfg) (ready I) -> ready I p2 ->
  pipe_run cfg ncpu p2 w1 s -> finished (sc_Accounts cfg) (num_txs cfg) s ->
  length (prepared s) = length (sc_Accounts cfg) /\
  forall i row, prepared s !! i = Some row -> length row = num_txs cfg /\
    initialAccountSequences s !! i = Some (fetched cfg w1 i).2 /\
    forall j tx, row !! j = Some tx -> prepared_for w1 i j tx.
Proof.
  intros Hok Hk Ho Hr Hf. pose proof (fun i => fetched_u64 w1 i Hok) as Hu.
  apply (Inv_reachable _ _ _ _ _ Hu Hk) in Hr as HI; [|done].
  destruct (finished_all _ _ _ _ _ s HI Hf) as [_ Hall].
  unfold prepared. split; [by rewrite length_map, (inv_rows _ _ _ _ _ _ HI)|].
  intros i row Hrow. rewrite list_lookup_fmap in Hrow.
  destruct (signedTxs s !! i) as [r|] eqn:Er; [|done]. injection Hrow as <-.
  pose proof (inv_row _ _ _ _ _ _ HI _ _ Er) as Hlen.
  assert (Hi : (i < length (sc_Accounts cfg))%nat)
    by (rewrite <- (inv_rows _ _ _ _ _ _ HI); by eapply lookup_lt_Some).
  assert (Hpos : (0 < num_txs cfg)%nat) by (pose proof (ro_positive _ Hok); unfold num_txs; lia).
  split_and!; [by rewrite length_map|by apply (Hall i 0%nat)|].
  intros j tx Hj. rewrite list_lookup_fmap in Hj. destruct (r !! j) as [o|] eqn:Eo; [|done].
  injection Hj as <-. destruct (Hall i j Hi) as [(row' & sg & Hrow' & Hj' & Hs) _].
  { rewrite <- Hlen. by eapply lookup_lt_Some. }
  simplify_eq. cbn. by exists sg.
Qed.

Lemma prepared_reads w1 i j tx :
  run_ok w1 -> chain_reads cfg I -> prepared_for w1 i j tx ->
  exists key, sc_Accounts cfg !! i = Some key /\ tx_owner tx = AccAddress key /\
    tx_seq tx = chain_seq w1 (AccAddress key) + Z.of_nat j /\ Z.of_nat j < sc_NumOfTransactions cfg.
Proof.
  intros Hok Hrd (sg & -> & u & p2 & Ho2 & (Hj & key & e & p1 & Ho1 & Hkey & Hg) & Hb). exists key.
  assert (made I u) as Hu by (right; eauto).
  pose proof (BuildAndSignTx_tags _ _ _ _ Hb) as (_ & _ & Hfrom).
  apply GenerateTx_tags in Hg as (_ & _ & Hfrom'). rewrite Hfrom' in Hfrom.
  destruct (Hrd _ _ _ Ho2 Hu Hb) as [Ho Hq]; [rewrite Hfrom; apply u64_range|]. rewrite Hfrom in Ho, Hq.
  cbn [From txRequest account_at Key acc_Sequence] in Ho, Hq.
  destruct (ro_room _ Hok i key Hkey). unfold num_txs in Hj.
  rewrite (fetched_seq w1 i key Hkey), u64_id in Hq by width. split_and!; [done..|lia].
Qed.

(** *** The chain, an account at a time *)

(** What the chain keeps for an account: its sequence and its transactions. *)
Definition chain_act (l : Z * list bytes) (tx : bytes) : (Z * list bytes) * option error :=
  if tx_seq tx =? l.1 then ((l.1 + 1, l.2 ++ [tx]), None) else (l, Some (ESequence l.1 "")).

Definition chain_node : SequencedNode chain_act.
Proof.
  refine {| seq_of tx := tx_seq tx; next_seq := fst; delivered := snd |}.
  - intros st tx H. unfold chain_act. by rewrite (proj2 (Z.eqb_eq _ _)).
  - intros st tx H. unfold chain_act. rewrite (proj2 (Z.eqb_neq _ _)) by done. eauto.
Defined.

Definition account_slice (st : option MultiLimiter * W) (i : nat) : Z * list bytes :=
  match sc_Accounts cfg !! i with
  | Some key => (chain_seq st.2 (AccAddress key), ledger st.2 (AccAddress key))
  | None => (0, [])
  end.

Record good_state (w1 : W) (st : option MultiLimiter * W) : Prop := {
  gs_limiter : limiter_wf st.1;
  gs_range i key : sc_Accounts cfg !! i = Some key ->
    0 <= chain_seq st.2 (AccAddress key) <= chain_seq w1 (AccAddress key) + sc_NumOfTransactions cfg;
  gs_others a : a ∉ AccAddress <$> sc_Accounts cfg ->
    chain_seq st.2 a = chain_seq w1 a /\ ledger st.2 a = ledger w1 a
}.

Lemma accounts_distinct w1 i j k1 k2 :
  run_ok w1 -> sc_Accounts cfg !! i = Some k1 -> sc_Accounts cfg !! j = Some k2 -> j <> i ->
  AccAddress k2 <> AccAddress k1.
Proof.
  intros Hok H1 H2 Hne He. apply Hne. eapply (NoDup_lookup _ j i (AccAddress k1)); [apply (ro_distinct _ Hok)|..].
  - rewrite list_lookup_fmap, H2. cbn. by rewrite He.
  - by rewrite list_lookup_fmap, H1.
Qed.

Definition rows_ok (w1 : W) (rows : list (list bytes)) : Prop :=
  forall i row j tx, rows !! i = Some row -> row !! j = Some tx -> prepared_for w1 i j tx.

(** One transaction of account [i] on the chain. *)
Lemma after_slice st i key tx w' :
  sc_Accounts cfg !! i = Some key -> tx_owner tx = AccAddress key -> w' = after st.2 tx ->
  (chain_seq w' (AccAddress key), ledger w' (AccAddress key)) = (chain_act (account_slice st i) tx).1.
Proof.
  intros Hkey Ho ->. unfold account_slice, chain_act. rewrite Hkey. cbn [fst snd].
  destruct (tx_seq tx =? chain_seq st.2 (AccAddress key)) eqn:E; bool_facts; rewrite <- Ho in *.
  - destruct (chain_accepts st.2 tx E) as (_ & -> & ->). done.
  - destruct (chain_rejects st.2 tx E) as (_ & -> & ->). done.
Qed.

Lemma chain_independent w1 rows :
  gas_typed -> chain_reads cfg I -> run_ok w1 -> rows_ok w1 rows ->
  independent (stress_bcast cfg) rows chain_act account_slice (good_state w1).
Proof.
  intros Hgas Hrd Hok Hrows i row tx [lim w] Hrow [j Hj]%list_elem_of_lookup Hg.
  destruct (prepared_reads w1 i j tx Hok Hrd (Hrows _ _ _ _ Hrow Hj)) as (key & Hkey & Ho & Hq & Hlt).
  pose proof (gs_range _ _ Hg i key Hkey) as Hrange. cbn [snd] in Hrange.
  destruct (ro_room _ Hok i key Hkey).
  destruct (stress_bcast_chain lim w tx Hgas (gs_limiter _ _ Hg)) as (lim' & r & Hb & Hwf & H1 & H2).
  { rewrite Ho. width. }
  pose proof (after_slice (lim, w) i key tx _ Hkey Ho eq_refl) as Hsl. cbn [snd] in Hsl.
  exists (lim', after w tx), r. split_and!; [done| | | |].
  - unfold account_slice, chain_act. rewrite Hkey. cbn [fst snd]. rewrite <- Ho.
    destruct (tx_seq tx =? _) eqn:E; bool_facts; [left; by apply H1|right].
    destruct (H2 E) as (e & -> & He). eexists e, _, _. done.
  - constructor; cbn [fst snd]; [done| |].
    + intros i' key' Hi'. destruct (decide (i' = i)) as [->|Hne].
      * simplify_eq. apply (f_equal fst) in Hsl. cbn [fst] in Hsl. rewrite Hsl.
        unfold account_slice, chain_act. rewrite Hkey. cbn [fst snd].
        destruct (tx_seq tx =? _) eqn:E; bool_facts; cbn [fst]; lia.
      * destruct (chain_isolated w tx (AccAddress key')) as [-> _];
          [rewrite Ho; by eapply accounts_distinct|]. apply (gs_range _ _ Hg i' key' Hi').
    + intros a Ha. destruct (chain_isolated w tx a) as [-> ->]; [|by apply (gs_others _ _ Hg a Ha)].
      rewrite Ho. intros ->. apply Ha. by eapply list_elem_of_fmap_2, list_elem_of_lookup_2.
  - unfold account_slice at 1. rewrite Hkey. exact Hsl.
  - intros i' Hne. unfold account_slice. destruct (sc_Accounts cfg !! i') as [key'|] eqn:Hi'; [|done].
    cbn [snd]. destruct (chain_isolated w tx (AccAddress key')) as [-> ->]; [|done].
    rewrite Ho. by eapply accounts_distinct.
Qed.

Lemma chain_alone w1 lim rows seqs :
  chain_reads cfg I -> run_ok w1 -> rows_ok w1 rows ->
  (forall i row, rows !! i = Some row -> length row = num_txs cfg /\ seqs !! i = Some (fetched cfg w1 i).2) ->
  each_alone (sc_NumOfTransactions cfg) rows seqs chain_act account_slice (fun _ => num_txs cfg)
    (fun i => ((account_slice (lim, w1) i).1 + sc_NumOfTransactions cfg,
               (account_slice (lim, w1) i).2 ++ default [] (rows !! i))) (lim, w1).
Proof.
  intros Hrd Hok Hrows Hlen i row q0 Hrow Hq0. destruct (Hlen i row Hrow) as [Hl Hs]. simplify_eq.
  pose proof (ro_positive _ Hok) as Hpos.
  destruct (lookup_lt_is_Some_2 row 0) as [tx0 Htx0]; [unfold num_txs in Hl; lia|].
  destruct (prepared_reads w1 i 0 tx0 Hok Hrd (Hrows _ _ _ _ Hrow Htx0)) as (key & Hkey & _).
  pose proof (fetched_seq w1 i key Hkey) as Hf.
  destruct (loop_delivers chain_act (sc_NumOfTransactions cfg) row (fetched cfg w1 i).2 chain_node
    (num_txs cfg) (account_slice (lim, w1) i) 0) as (st' & Hrun & Hd & Hn).
  - intros j tx Hj. cbn. destruct (prepared_reads w1 i j tx Hok Hrd (Hrows _ _ _ _ Hrow Hj))
      as (key' & Hkey' & _ & Hq & _). simplify_eq. by rewrite Hq, Hf.
  - rewrite Hl. unfold num_txs. lia.
  - lia.
  - cbn. unfold account_slice. rewrite Hkey, Hf. cbn. lia.
  - change (Z.of_nat 0) with 0 in Hrun. rewrite Hrun. cbn in Hd, Hn. rewrite drop_0 in Hd. do 2 f_equal.
    cbv beta. rewrite Hrow. cbn [default]. unfold id. rewrite <- Hd.
    replace ((account_slice (lim, w1) i).1) with (fetched cfg w1 i).2
      by (unfold account_slice; rewrite Hkey, Hf; done).
    rewrite <- Hn. by destruct st'.
Qed.

(** *** The broadcasting phase after a finished pipeline *)

Lemma limiter_built : Config_typed (sc_RateLimit cfg) -> limiter_wf (stress_limiter cfg).
Proof.
  intros Hc. unfold stress_limiter.
  destruct (buildBroadcastClient_Ok (sc_RateLimit cfg) Hc) as (lim & -> & _ & Hwf). exact Hwf.
Qed.

Lemma good_start w1 :
  Config_typed (sc_RateLimit cfg) -> run_ok w1 -> good_state w1 (stress_limiter cfg, w1).
Proof.
  intros Hc Hok. constructor; cbn [fst snd]; [by apply limiter_built| |done].
  intros i key Hi. destruct (ro_room _ Hok i key Hi). pose proof (ro_positive _ Hok). lia.
Qed.

(** What the run adds to the chain, account by account. *)
Definition delivered_all (w1 w' : W) (rows : list (list bytes)) : Prop :=
  (forall i key, sc_Accounts cfg !! i = Some key -> exists row,
     rows !! i = Some row /\ Z.of_nat (length row) = sc_NumOfTransactions cfg /\
     ledger w' (AccAddress key) = ledger w1 (AccAddress key) ++ row /\
     chain_seq w' (AccAddress key) = chain_seq w1 (AccAddress key) + sc_NumOfTransactions cfg) /\
  forall a, a ∉ AccAddress <$> sc_Accounts cfg -> ledger w' a = ledger w1 a.

Lemma phase_delivers ncpu p2 w1 s n s' :
  Config_typed (sc_RateLimit cfg) -> gas_typed -> chain_reads cfg I -> run_ok w1 ->
  provider_keeps (stress_client cfg) (ready I) -> ready I p2 -> pipe_run cfg ncpu p2 w1 s ->
  finished (sc_Accounts cfg) (num_txs cfg) s ->
  phase_run cfg w1 s n s' ->
  (n <= length (sc_Accounts cfg) * S (num_txs cfg))%nat /\ died s' = false /\ failure s' = None /\
  rows_ok w1 (prepared s) /\
  (ended s' = true \/
   exists s'', bstep (stress_bcast cfg) (sc_NumOfTransactions cfg) (prepared s)
                 (initialAccountSequences s) s' s'') /\
  (ended s' = true -> delivered_all w1 (world s').2 (prepared s)).
Proof.
  intros Hc Hgas Hrd Hok Hk Ho2 Hr Hf Hp.
  destruct (prepared_rows ncpu p2 w1 s Hok Hk Ho2 Hr Hf) as [Hlen Hrows].
  assert (Hro : rows_ok w1 (prepared s))
    by (intros i row j tx Hi Hj; destruct (Hrows i row Hi) as (_ & _ & H); by apply H).
  pose proof (fun i => fetched_u64 w1 i Hok) as Hu.
  assert (Hinit : length (initialAccountSequences s) = length (prepared s)).
  { apply (Inv_reachable _ _ _ _ _ Hu Hk) in Hr; [|done]. by rewrite Hlen, (inv_inits _ _ _ _ _ _ Hr). }
  assert (Halone : each_alone (sc_NumOfTransactions cfg) (prepared s) (initialAccountSequences s)
    chain_act account_slice (fun _ => num_txs cfg) _ (stress_limiter cfg, w1))
    by (eapply chain_alone; [done..|]; intros i row Hi; destruct (Hrows i row Hi) as (? & ? & _); done).
  destruct (phase_outcome _ _ _ _ _ _ _ _ _ _ n s' (chain_independent w1 _ Hgas Hrd Hok Hro) Hinit
    (good_start w1 Hc Hok) Halone Hp) as (Hn & Hd & Hfl & Hg & Hprog & Hfin).
  split_and!; [|done..|].
  { rewrite <- Hlen. unfold turns_bound in Hn. by rewrite nsum_const, length_seq in Hn. }
  intros He. split; [|intros a Ha; by apply (gs_others _ _ Hg a Ha)].
  intros i key Hkey. assert (Hi : (i < length (prepared s))%nat) by (rewrite Hlen; by eapply lookup_lt_Some).
  destruct (lookup_lt_is_Some_2 _ _ Hi) as [row Hrow]. destruct (Hrows i row Hrow) as (Hl & _ & _).
  specialize (Hfin He i Hi). unfold account_slice in Hfin. rewrite Hkey, Hrow in Hfin. cbn in Hfin.
  injection Hfin as Hq Hled. exists row. split_and!; [done| |done|done].
  rewrite Hl. pose proof (ro_positive _ Hok). unfold num_txs. lia.
Qed.

(** *** Whole runs *)

Lemma settled_exists p w :
  provider_starts cfg I w -> fresh I p -> broadcasts_return (W := W) -> exists p2 w1, settled cfg p w p2 w1.
Proof.
  intros Hp Ho Hret. destruct (initial_made cfg I demo_env p w Hp Ho) as (p1 & txs & E & Ho1 & _ & Htx & _).
  destruct (pool_finishes (stress_client cfg) (ready I) (initial I) p1 w txs Hret (starts_signs _ _ _ Hp) Ho1 Htx)
    as (n & s & Hs & Hov).
  exists (p_prov s), (p_world s), demo_env, p1, txs, n, s. done.
Qed.

(** The conditions of a successful run on the chain [w]: distinct accounts, whose
    sequences stay far from the end of their range, and a provider, with an
    invariant [I], that generates and signs what the run asks for. *)
Record run_conditions (p : P) (w : W) : Prop := {
  rc_eth : sc_EthChainID cfg <> 0;
  rc_chain : sc_ChainID cfg <> "";
  rc_accounts : sc_Accounts cfg <> [];
  rc_positive : 0 < sc_NumOfTransactions cfg;
  rc_rates : Config_typed (sc_RateLimit cfg);
  rc_distinct : NoDup (AccAddress <$> sc_Accounts cfg);
  rc_room key : key ∈ sc_Accounts cfg ->
    0 <= chain_seq w (AccAddress key) /\ chain_seq w (AccAddress key) + 1 + sc_NumOfTransactions cfg < 2 ^ 63;
  rc_provider : fresh I p;
  rc_starts : provider_starts cfg I w;
  rc_keeps : provider_keeps (stress_client cfg) (ready I);
  rc_succeeds p2 w1 : settled cfg p w p2 w1 ->
    provider_succeeds (stress_client cfg) (sc_Accounts cfg) (num_txs cfg) (fetched cfg w1) (ready I)
}.

(** What the initial transactions leave. *)
Lemma settled_ok p w p2 w1 :
  chain_reads cfg I -> run_conditions p w -> settled cfg p w p2 w1 ->
  ready I p2 /\ initial_delivered cfg I p w w1 /\ run_ok w1.
Proof.
  intros Hrd Hrc Hs. pose proof (rc_positive _ _ Hrc) as Hpos.
  destruct (settled_delivered cfg I p w p2 w1 Hrd (rc_starts _ _ Hrc) (rc_provider _ _ Hrc) (rc_distinct _ _ Hrc))
    as [Ho Hd]; [|done|].
  { intros key Hk. destruct (rc_room _ _ Hrc key Hk). width. }
  split_and!; [done|done|]. constructor; [done|apply Hrc|]. intros i key Hk%list_elem_of_lookup_2.
  pose proof (rc_room _ _ Hrc key Hk). pose proof (initial_moves _ _ _ _ _ (AccAddress key) Hd). lia.
Qed.

Definition run_delivers (p : P) (w w' : W) : Prop :=
  exists p2 w1 rows, settled cfg p w p2 w1 /\ initial_delivered cfg I p w w1 /\
    rows_ok w1 rows /\ delivered_all w1 w' rows.

Lemma stressed_delivers ncpu p w out w' :
  gas_typed -> chain_reads cfg I -> run_conditions p w -> stressed cfg ncpu p w out w' ->
  out = Returns None /\ run_delivers p w w'.
Proof.
  intros Hgas Hrd Hrc Hs. pose proof (rc_starts _ _ Hrc) as Hst. pose proof (rc_provider _ _ Hrc) as Ho.
  destruct Hs as
    [e p1 r E Hr|e p1 txs n s E Hs Hd|p2 w1 i key r _ Hi Hq Hr
    |p2 w1 s Hset _ Hrun Hc|p2 w1 s n s' Hset _ Hrun Hf Hph Hd|p2 w1 s n s' Hset _ Hrun Hf Hph He _].
  - destruct (initial_made cfg I e p w Hst Ho) as (p1' & txs & E' & _). rewrite E in E'. by injection E' as _ ->.
  - destruct (initial_made cfg I e p w Hst Ho) as (p1' & txs' & E' & Ho1 & _ & Htx & _). rewrite E in E'. simplify_eq.
    by destruct (pool_not_died _ _ _ _ _ _ _ _ (starts_signs _ _ _ Hst) Ho1 Htx Hs).
  - destruct (query_Ok w1 key) as [num Hq']. rewrite Hq in Hq'. by injection Hq' as ->.
  - destruct (settled_ok p w p2 w1 Hrd Hrc Hset) as (Ho2 & _ & Hok).
    destruct (no_crash _ _ _ _ (ready I) s (rc_succeeds _ _ Hrc p2 w1 Hset)); [|done].
    by apply (Inv_reachable _ _ _ _ _ (fun i => fetched_u64 w1 i Hok) (rc_keeps _ _ Hrc)) in Hrun.
  - destruct (settled_ok p w p2 w1 Hrd Hrc Hset) as (Ho2 & _ & Hok).
    destruct (phase_delivers ncpu p2 w1 s n s' (rc_rates _ _ Hrc) Hgas Hrd Hok (rc_keeps _ _ Hrc)
      Ho2 Hrun Hf Hph) as (_ & Hnd & _). congruence.
  - destruct (settled_ok p w p2 w1 Hrd Hrc Hset) as (Ho2 & Hin & Hok).
    destruct (phase_delivers ncpu p2 w1 s n s' (rc_rates _ _ Hrc) Hgas Hrd Hok (rc_keeps _ _ Hrc)
      Ho2 Hrun Hf Hph) as (_ & _ & -> & Hro & _ & Hdel).
    split; [done|]. exists p2, w1, (prepared s). auto.
Qed.

Lemma phase_finishes ncpu p2 w1 s :
  Config_typed (sc_RateLimit cfg) -> gas_typed -> chain_reads cfg I -> run_ok w1 ->
  provider_keeps (stress_client cfg) (ready I) -> ready I p2 -> pipe_run cfg ncpu p2 w1 s ->
  finished (sc_Accounts cfg) (num_txs cfg) s ->
  exists n s', phase_run cfg w1 s n s' /\ ended s' = true /\ died s' = false.
Proof.
  intros Hc Hgas Hrd Hok Hk Ho2 Hr Hf.
  destruct (run_to_end (phase_run cfg w1 s)
    (bstep (stress_bcast cfg) (sc_NumOfTransactions cfg) (prepared s) (initialAccountSequences s))
    (fun s' => ended s' = true) (phase_start (prepared s) (stress_limiter cfg, w1))
    (length (sc_Accounts cfg) * S (num_txs cfg))) as (n & s' & Hs & He).
  - apply bsteps_0.
  - intros n s1 s2 H1 H2. by eapply bsteps_S.
  - intros n s1 H1. by apply (phase_delivers ncpu p2 w1 s n s1).
  - intros n s1 H1. by apply (phase_delivers ncpu p2 w1 s n s1).
  - exists n, s'. split_and!; [done|done|]. by apply (phase_delivers ncpu p2 w1 s n s').
Qed.

Lemma stressed_exists ncpu p w :
  (0 < ncpu)%nat -> gas_typed -> chain_reads cfg I -> broadcasts_return (W := W) -> run_conditions p w ->
  exists out w', stressed cfg ncpu p w out w'.
Proof.
  intros Hn Hgas Hrd Hret Hrc.
  destruct (settled_exists p w (rc_starts _ _ Hrc) (rc_provider _ _ Hrc) Hret) as (p2 & w1 & Hset).
  pose proof (rc_succeeds _ _ Hrc p2 w1 Hset) as Hsucc.
  destruct (settled_ok p w p2 w1 Hrd Hrc Hset) as (Ho2 & _ & Hok).
  destruct (pipe_finishes (stress_client cfg) (sc_Accounts cfg) (num_txs cfg) (fetched cfg w1)
    (ready I) (fun i => fetched_u64 w1 i Hok) (rc_keeps _ _ Hrc) p2 ncpu Hn Hsucc Ho2) as (s & Hr & Hf).
  destruct (phase_finishes ncpu p2 w1 s (rc_rates _ _ Hrc) Hgas Hrd Hok (rc_keeps _ _ Hrc) Ho2 Hr Hf)
    as (n & s' & Hs & He & Hd).
  eexists _, _. eapply (stressed_broadcast cfg ncpu p w p2 w1 s n s'); try done.
  intros i key _. destruct (query_Ok w1 key) as [num ->]. eauto.
Qed.

Lemma Stress_total ncpu p w :
  (0 < ncpu)%nat -> gas_typed -> chain_reads cfg I -> broadcasts_return (W := W) -> run_conditions p w ->
  (exists w', Stress cfg ncpu p w (Returns None) w') /\
  forall out w', Stress cfg ncpu p w out w' ->
    out = Returns None /\ run_delivers p w w'.
Proof.
  intros Hn Hgas Hrd Hret Hrc. split.
  - destruct (stressed_exists ncpu p w Hn Hgas Hrd Hret Hrc) as (out & w' & Hs).
    destruct (stressed_delivers ncpu p w out w' Hgas Hrd Hrc Hs) as [-> _].
    exists w'. apply Stress_positive; [apply Hrc..|done].
  - intros out w' Hs. destruct Hs as [H|_ H|r _ _ H|_ _ _ H|out w' _ _ _ _ Hs].
    + by destruct (rc_eth _ _ Hrc).
    + by destruct (rc_chain _ _ Hrc).
    + by destruct (rc_accounts _ _ Hrc).
    + pose proof (rc_positive _ _ Hrc). lia.
    + by eapply stressed_delivers.
Qed.

(** C1. [Stress], end to end.  Against a chain that takes a transaction exactly when
    it carries its sender's next sequence and otherwise names that sequence, and
    with a provider that succeeds on the run's requests: the function can run to
    its return, and however signers, generators, collector, pool workers and
    account loops interleave, with or without rate limits and confirmations, it
    returns nil.  Every initial transaction the provider made is then on the
    chain, once, as its sender's next; after it the ledger of each of the run's
    accounts has grown by that account's row of prepared transactions, all of
    them, once each and in order (the [j]-th generated for the account at its
    sequence + j and signed), its sequence by their number; and no other account's
    ledger has changed. *)
Theorem Stress_delivers ncpu p w :
  (0 < ncpu)%nat -> gas_typed -> chain_reads cfg I -> broadcasts_return (W := W) -> run_conditions p w ->
  (exists w', Stress cfg ncpu p w (Returns None) w') /\
  forall out w', Stress cfg ncpu p w out w' ->
    out = Returns None /\ run_delivers p w w'.
Proof. apply Stress_total. Qed.

End Delivery.

(** ** Witness *)

Section DemoChain.
#[local] Existing Instances typed_txconfig typed_txconfig_laws model_crypto model_errors demo_world.

(** Two accounts with two transactions each, with rate limits. *)
Definition demo_stress : StressConfig :=
  {| sc_ChainID := "stressinj-1337"; sc_EthChainID := 1337; sc_MinGasPrice := "1inj";
     sc_NodeAddress := ""; sc_GRPCAddress := ""; sc_Accounts := [[7]; [8]]; sc_NumOfTransactions := 2;
     sc_AwaitTxConfirmation := true; sc_GasFuzzing := demo_fuzz_config; sc_RateLimit := demo_config |}.

#[local] Existing Instances model_math model_wasm model_retry model_retry_laws model_rate model_rate_laws
  amd64_FloatConv demo_chain.

(** The provider that stores a contract before the run and instantiates it. *)
Definition demo_init (id : Z) : wasmInitContractProvider :=
  {| wi_minGasPrice := {| Denom := "inj"; Amount := 1 |}; wi_maxGasLimit := 2000000; wi_memoAttach := "";
     wi_contractCodeID := id |}.

#[local] Instance demo_init_TxProvider : TxProvider wasmInitContractProvider := wasmInit_TxProvider [0; 97].

Definition is_demo_init (p : wasmInitContractProvider) : Prop := exists id, p = demo_init id.

Definition demo_inv : @ProviderInv wasmInitContractProvider :=
  {| fresh := is_demo_init; ready := is_demo_init; initial _ := True |}.

Lemma demo_reads : chain_reads demo_stress demo_inv.
Proof. intros p u sg _ _ H Hu. by apply (fee_reads _ _ _ _ _ _ H). Qed.

Lemma demo_starts : provider_starts demo_stress demo_inv demo_ledgers.
Proof.
  constructor.
  - intros e p req [id ->]. cbn. unfold wasmInit_GenerateInitialTx.
    destruct (_ || _); (split; [reflexivity|eexists; reflexivity]).
  - done.
  - intros e p p1 txs Ho E. apply (create_initial_keeps is_demo_init) in E; [done| |done].
    intros p0 req [id ->]. cbn. unfold wasmInit_GenerateInitialTx. destruct (_ || _); eexists; reflexivity.
  - intros p tx [id ->] _. split_and!; [by exists id|done|reflexivity].
  - intros p i tx [id ->] _. reflexivity.
Qed.

Lemma demo_conditions : run_conditions demo_stress demo_inv (demo_init 0) demo_ledgers.
Proof.
  constructor; try done.
  - apply (bool_decide_unpack _). vm_compute. done.
  - by exists 0.
  - exact demo_starts.
  - intros p2 w1 _. constructor.
    + intros e p i key j [id ->] Hi Hj. destruct i as [|[|i]]; [reflexivity..|done].
    + intros p i j tx [id ->] Hg. reflexivity.
Qed.

(** It makes one initial transaction, for the first account. *)
Lemma demo_has_initial : exists tx, is_initial demo_stress demo_inv demo_ledgers 0 tx.
Proof. eexists _, [7], demo_env, (demo_init 0), 3. split_and!; [reflexivity|by exists 0|reflexivity]. Qed.
End DemoChain.

Lemma Stress_delivers_witness :
  exists w', @Stress model_retry model_errors model_rate amd64_FloatConv typed_txconfig model_crypto
    Ledgers demo_world wasmInitContractProvider demo_init_TxProvider demo_stress 4 (demo_init 0) demo_ledgers
    (Returns None) w'.
Proof.
  apply (@Stress_delivers model_retry model_retry_laws model_errors model_rate model_rate_laws
    amd64_FloatConv typed_txconfig model_crypto Ledgers demo_world demo_chain wasmInitContractProvider _
    (@wasmInit_laws typed_txconfig model_crypto model_math model_wasm [0; 97]) demo_stress
    demo_inv 4 (demo_init 0) demo_ledgers); [lia|exact typed_gas|exact demo_reads
    |exact demo_returns|exact demo_conditions].
Defined.
