(* ===== verification/FirstInitial.v ===== *)
(** * Runs that begin with one transaction of the first account

    The contract-calling and the CosmWasm providers make an initial transaction for
    the first account's request and none for the others.  What such a run leaves:
    per account, the initial transaction if it is the first, then the prepared ones. *)

From Stdlib Require Import ZArith Lia Ascii String.
From stdpp Require Import base list strings numbers gmap.
From S2P Require Import Prelude GoStrings Float64 Sdk SdkModel RateLimit Chain Payload EthPayload WasmPayload Pipeline Stresser.
From S2P Require Import Broadcasting InitialPool Fuzzer SeqChain StressRun InitialDelivery Delivery.

Open Scope string_scope.
Open Scope Z_scope.
Open Scope list_scope.

Section FirstInitial.
Context `{RL : RetryLib, RLL : !RetryLaws, SE : SdkErrors, RT : RateLib, RTL : !RateLaws, FC : FloatConv,
          TC : TxConfig, CR : Crypto}.
Context {W : Type} {CW : ChainWorld W} {SC : @SequencedChain SE W CW}.
Context {P : Type} {TP : TxProvider P} {TL : TxProviderLaws P}.
Context (cfg : StressConfig) (I : @ProviderInv P) (w : W).

(** The request for the first account's initial transaction. *)
Definition first_request (key : Secp256k1PrivateKey) : TxRequest :=
  initial_request 0 key (fetched cfg w 0).1 (chain_seq w (AccAddress key)).

(** The requests for the other accounts change nothing. *)
Definition idle_after_first : Prop :=
  forall e p req, fresh I p -> FromIdx req <> 0 -> GenerateInitialTx e p req = (p, Ok None).

Lemma create_initial_idle e p i keys :
  idle_after_first -> fresh I p -> (0 < i)%nat ->
  (forall k key, keys !! k = Some key -> sc_Accounts cfg !! (i + k)%nat = Some key) ->
  create_initial e p (Z.of_nat i) keys (answers cfg w) = Some (p, Ok []).
Proof.
  intros Hidle Hp. revert i. induction keys as [|key keys IH]; intros i Hi Hk; [done|].
  pose proof (Hk 0%nat key eq_refl) as Hkey. rewrite Nat.add_0_r in Hkey.
  cbn [create_initial]. unfold answers at 1. rewrite Nat2Z.id, Hkey. destruct (query_truth w key) as [num ->].
  rewrite Hidle by (done || (cbn [FromIdx initial_request]; lia)).
  replace (Z.of_nat i + 1) with (Z.of_nat (S i)) by lia. rewrite IH; [done|lia|].
  intros k key' Hk'. rewrite <- (Hk (S k) key' Hk'). f_equal. lia.
Qed.

Lemma first_answer key keys :
  sc_Accounts cfg = key :: keys ->
  getAccountNumberSequence (answers cfg w 0) = Some (Ok ((fetched cfg w 0).1, chain_seq w (AccAddress key))).
Proof.
  intros Ek. unfold answers, fetched, query. rewrite Ek. change ((key :: keys) !! Z.to_nat 0) with (Some key).
  change ((key :: keys) !! 0%nat) with (Some key). cbv iota. by destruct (query_truth w key) as [num ->].
Qed.

(** All initial requests are the first one. *)
Lemma create_initial_first e p p1 key keys o :
  sc_Accounts cfg = key :: keys -> idle_after_first ->
  GenerateInitialTx e p (first_request key) = (p1, Ok o) -> fresh I p1 ->
  create_initial e p 0 (sc_Accounts cfg) (answers cfg w) = Some (p1, Ok (option_list o)).
Proof.
  intros Ek Hidle Hg Hp1. assert (Hrest : create_initial e p1 1 keys (answers cfg w) = Some (p1, Ok [])).
  { apply (create_initial_idle e p1 1); [done|done|lia|]. intros k key' Hk'. by rewrite Ek. }
  rewrite Ek. cbn [create_initial]. rewrite (first_answer key keys Ek). unfold first_request in Hg. rewrite Hg.
  change (0 + 1) with 1. rewrite Hrest. by destruct o.
Qed.

(** The sequence of an account's [j]-th prepared transaction, [x] initial ones after
    [w]. *)
Lemma account_sequence w1 i key j x :
  sc_Accounts cfg !! i = Some key -> (x <= 1)%nat -> (j < num_txs cfg)%nat ->
  0 <= chain_seq w (AccAddress key) -> chain_seq w (AccAddress key) + 1 + sc_NumOfTransactions cfg < 2 ^ 63 ->
  chain_seq w1 (AccAddress key) = chain_seq w (AccAddress key) + Z.of_nat x ->
  acc_Sequence (account_at (fetched cfg w1) i key j) = chain_seq w (AccAddress key) + Z.of_nat (x + j).
Proof.
  intros Hi Hx Hj H0 H1 Hseq. unfold account_at. cbn [acc_Sequence].
  rewrite (fetched_seq cfg w1 i key Hi), Hseq, u64_id; [lia|]. unfold num_txs in Hj. width.
Qed.

(** The initial transactions a run makes: [first e], [n] of them. *)
Context (first : Env -> option baseTx) (n : nat).

(** The number of initial transactions of account [i]. *)
Definition extra (i : nat) : nat := if (i =? 0)%nat then n else 0.

Lemma extra_le i : (extra i <= n)%nat.
Proof. unfold extra. destruct (i =? 0)%nat; lia. Qed.

Lemma first_row p w1 key0 keys i key :
  sc_Accounts cfg = key0 :: keys -> NoDup (AccAddress <$> sc_Accounts cfg) ->
  (forall e, length (option_list (first e)) = n) ->
  (forall e tx, first e = Some tx -> Key (from tx) = key0) ->
  (forall e, exists p1, create_initial e p 0 (sc_Accounts cfg) (answers cfg w) = Some (p1, Ok (option_list (first e)))) ->
  initial_delivered cfg I p w w1 -> sc_Accounts cfg !! i = Some key ->
  exists pre, length pre = extra i /\ ledger w1 (AccAddress key) = ledger w (AccAddress key) ++ pre /\
    chain_seq w1 (AccAddress key) = chain_seq w (AccAddress key) + Z.of_nat (length pre) /\
    forall j b, pre !! j = Some b -> i = 0%nat /\ j = 0%nat /\ exists e tx, first e = Some tx /\ initial_signed cfg I tx b.
Proof.
  intros Ek Hnd Hlen Hkey0 Hmade (e & p1 & txs & E & _ & Hd & Hn) Hi.
  destruct (Hmade e) as [p1' E']. rewrite E in E'. injection E' as _ ->. specialize (Hlen e).
  assert (Hnone : extra i = 0%nat -> AccAddress key ∉ sender <$> option_list (first e) -> exists pre,
    length pre = extra i /\ ledger w1 (AccAddress key) = ledger w (AccAddress key) ++ pre /\
    chain_seq w1 (AccAddress key) = chain_seq w (AccAddress key) + Z.of_nat (length pre) /\
    forall j b, pre !! j = Some b -> i = 0%nat /\ j = 0%nat /\ exists e tx, first e = Some tx /\ initial_signed cfg I tx b).
  { intros -> [-> ->]%Hn. exists []. rewrite app_nil_r. split_and!; [done|done|cbn; lia|done]. }
  unfold extra in *. destruct (first e) as [tx|] eqn:Ef;
    [|apply Hnone; [by destruct (i =? 0)%nat|apply not_elem_of_nil]].
  rewrite Ek in *. pose proof (Hkey0 e tx Ef) as Hs. destruct i as [|i]; cbn [Nat.eqb] in *.
  - injection Hi as <-. destruct (Hd tx) as (_ & b & Hb & Hseq & Hled); [by left|].
    unfold sender in Hseq, Hled. rewrite Hs in Hseq, Hled.
    exists [b]. split_and!; [done|exact Hled|exact Hseq|]. intros [|j] b' Hj; [|done]. injection Hj as <-. eauto 6.
  - apply Hnone; [done|]. cbn. rewrite list_elem_of_singleton. unfold sender. rewrite Hs.
    intros Heq. apply NoDup_cons in Hnd as [Hnd _]. apply Hnd. rewrite <- Heq. apply list_elem_of_fmap_2.
    by eapply list_elem_of_lookup_2.
Qed.

(** What a run leaves, with [tx_at i key j b] for the [j]-th transaction [b] of
    account [i]. *)
Definition rows_left (tx_at : nat -> Secp256k1PrivateKey -> nat -> bytes -> Prop) (w' : W) : Prop :=
  (forall i key, sc_Accounts cfg !! i = Some key -> exists row,
     Z.of_nat (length row) = Z.of_nat (extra i) + sc_NumOfTransactions cfg /\
     ledger w' (AccAddress key) = ledger w (AccAddress key) ++ row /\
     chain_seq w' (AccAddress key) = chain_seq w (AccAddress key) + Z.of_nat (length row) /\
     forall j b, row !! j = Some b -> tx_at i key j b) /\
  forall a, a ∉ AccAddress <$> sc_Accounts cfg -> ledger w' a = ledger w a.

Lemma run_rows p w' key0 keys (tx_at : nat -> Secp256k1PrivateKey -> nat -> bytes -> Prop) :
  sc_Accounts cfg = key0 :: keys -> NoDup (AccAddress <$> sc_Accounts cfg) ->
  (forall e, length (option_list (first e)) = n) ->
  (forall e tx, first e = Some tx -> Key (from tx) = key0) ->
  (forall e, exists p1, create_initial e p 0 (sc_Accounts cfg) (answers cfg w) = Some (p1, Ok (option_list (first e)))) ->
  (forall e tx b, first e = Some tx -> initial_signed cfg I tx b -> tx_at 0%nat key0 0%nat b) ->
  (forall w1 i key j b, sc_Accounts cfg !! i = Some key -> (j < num_txs cfg)%nat ->
     chain_seq w1 (AccAddress key) = chain_seq w (AccAddress key) + Z.of_nat (extra i) ->
     prepared_for cfg I w1 i j b -> tx_at i key (extra i + j)%nat b) ->
  run_delivers cfg I p w w' -> rows_left tx_at w'.
Proof.
  intros Ek Hnd Hlen Hkey0 Hmade Hfirst Hprep (p2 & w1 & rows & _ & Hin & Hro & Hall & Hoth). split.
  - intros i key Hi. destruct (Hall i key Hi) as (row & Hr & Hl & Hled & Hseq).
    destruct (first_row p w1 key0 keys i key Ek Hnd Hlen Hkey0 Hmade Hin Hi) as (pre & Hpl & Hled1 & Hseq1 & Hpre).
    exists (pre ++ row). rewrite length_app, Hpl.
    split_and!; [lia|by rewrite Hled, Hled1, app_assoc|rewrite Hseq, Hseq1, Hpl; lia|].
    intros j b [Hj|[Hge Hj]]%lookup_app_Some.
    + destruct (Hpre j b Hj) as (-> & -> & e & tx & He & Hb). rewrite Ek in Hi. injection Hi as <-. by eapply Hfirst.
    + replace j with (extra i + (j - length pre))%nat by lia. eapply Hprep; [done| |by rewrite Hseq1, Hpl|by eapply Hro].
      apply lookup_lt_Some in Hj. unfold num_txs. lia.
  - intros a Ha. rewrite (Hoth a Ha). destruct Hin as (e & p1 & txs & _ & _ & Hd & Hn). apply Hn.
    intros (tx & -> & Htx)%list_elem_of_fmap_1. by destruct (Hd tx Htx).
Qed.
End FirstInitial.
