(* ===== verification/Replay.v ===== *)
(** * Replaying a chain's transactions

    The block sniffer (replay/sniffer.go) and the provider that reads its
    channels (payload/txns_replay_stress.go), as a transition system of the
    two goroutines over the channels; and [StressReplay] (stresser.go): the
    broadcasting of one block with its counters, and the loop over the blocks
    beside the sniffer. *)

From Stdlib Require Import ZArith Lia Ascii String.
From stdpp Require Import base list strings numbers.
From S2P Require Import Prelude GoStrings Float64 Sdk SdkModel Chain Payload TxInfo Fuzzer.

Open Scope string_scope.
Open Scope Z_scope.
Open Scope list_scope.

(** ** Channels and goroutines *)

Record TxReplayConfig := { StartHeight : Z; EndHeight : Z }.

(** comettypes.Block *)
Record Block := { Height : Z; Txs : list bytes }.

Definition DEFAULT_BLOCKS_BUFFER : Z := 1000.

(** How far [run]'s deferred function has come: it closes [blocksCh], [errCh]
    and [doneCh], in this order. *)
Inductive Closing := Running | Returned (closed : nat).

(** What [GetNextBlockTxs] returns. *)
Inductive NextBlock :=
| BlockTxs (txs : list bytes)
| NilNil
| NextErr (e : error).

Definition errNoMoreBlocks : error := ENew "no more blocks available - processing completed".

Record Sniff := {
  sn_height : Z;
  sn_closing : Closing;
  blocksCh : list Block;
  errCh : list error;
  (** the blocks the provider has received so far *)
  sn_received : list Block
}.

Definition blocks_closed (s : Sniff) : bool :=
  match sn_closing s with Returned n => (1 <=? n)%nat | Running => false end.
Definition err_closed (s : Sniff) : bool :=
  match sn_closing s with Returned n => (2 <=? n)%nat | Running => false end.
Definition done_closed (s : Sniff) : bool :=
  match sn_closing s with Returned n => (3 <=? n)%nat | Running => false end.

(** The transactions of a block that are kept: the non-empty ones. *)
Definition block_txs (b : Block) : list bytes := filter (fun t => t <> []) (Txs b).

Section Sniffer.
Context (cfg : TxReplayConfig).
(** The chain's blocks, by height. *)
Context (chain_block : Z -> Block).

Definition isEndlessMode : bool := EndHeight cfg =? 0.

(** [!isEndlessMode && height >= EndHeight] *)
Definition reached_end (h : Z) : bool := negb isEndlessMode && (EndHeight cfg <=? h).

Definition with_closing (s : Sniff) (c : Closing) (errs : list error) : Sniff :=
  {| sn_height := sn_height s; sn_closing := c; blocksCh := blocksCh s; errCh := errs;
     sn_received := sn_received s |}.

(** Steps of [run]: a block fetched (within the retries) and sent, the retries
    of a height used up, the end height reached, the context cancelled, and the
    three closes. *)
Inductive sniffer_step : Sniff -> Sniff -> Prop :=
| sniff_block s :
    sn_closing s = Running -> reached_end (sn_height s) = false ->
    Z.of_nat (length (blocksCh s)) < DEFAULT_BLOCKS_BUFFER ->
    sniffer_step s
      {| sn_height := sn_height s + 1; sn_closing := Running;
         blocksCh := blocksCh s ++ [chain_block (sn_height s)]; errCh := errCh s;
         sn_received := sn_received s |}
| sniff_fail s err :
    sn_closing s = Running -> reached_end (sn_height s) = false -> (length (errCh s) < 1)%nat ->
    sniffer_step s
      (with_closing s (Returned 0)
         (errCh s ++ [EWrap ("sniffer error at height " +:+ strconv_Itoa (sn_height s)) err]))
| sniff_end s :
    sn_closing s = Running -> reached_end (sn_height s) = true ->
    sniffer_step s (with_closing s (Returned 0) (errCh s))
| sniff_cancel s :
    sn_closing s = Running -> sniffer_step s (with_closing s (Returned 0) (errCh s))
| sniff_close s n :
    sn_closing s = Returned n -> (n < 3)%nat ->
    sniffer_step s (with_closing s (Returned (S n)) (errCh s)).

(** [GetNextBlockTxs]: one ready case of its select.  A closed channel is ready
    and gives a nil block, or a nil error, which [errors.Wrap] keeps nil. *)
Inductive next_step : Sniff -> NextBlock -> Sniff -> Prop :=
| next_block s b rest :
    blocksCh s = b :: rest ->
    next_step s (BlockTxs (block_txs b))
      {| sn_height := sn_height s; sn_closing := sn_closing s; blocksCh := rest; errCh := errCh s;
         sn_received := sn_received s ++ [b] |}
| next_nil_block s :
    blocksCh s = [] -> blocks_closed s = true -> next_step s (NextErr errNoMoreBlocks) s
| next_error s e rest :
    errCh s = e :: rest ->
    next_step s (NextErr (EWrap "sniffer error received" e))
      {| sn_height := sn_height s; sn_closing := sn_closing s; blocksCh := blocksCh s; errCh := rest;
         sn_received := sn_received s |}
| next_nil_error s : errCh s = [] -> err_closed s = true -> next_step s NilNil s
| next_done s : done_closed s = true -> next_step s (NextErr errNoMoreBlocks) s
| next_timeout s : next_step s (NextErr (ENew "timeout waiting for block from sniffer")) s.

(** [StressReplay] ends when [GetNextBlockTxs] says there are no more blocks. *)
Definition ends_replay (r : NextBlock) : bool :=
  match r with
  | NextErr e => String.eqb (Error e) "no more blocks available - processing completed"
  | _ => false
  end.

(** A replay: the two goroutines in any interleaving, until the loop ends. *)
Inductive replay_run : Sniff -> bool -> Prop :=
| replay_start :
    replay_run {| sn_height := StartHeight cfg; sn_closing := Running; blocksCh := []; errCh := [];
                  sn_received := [] |} false
| replay_sniff s s' : replay_run s false -> sniffer_step s s' -> replay_run s' false
| replay_next s r s' : replay_run s false -> next_step s r s' -> replay_run s' (ends_replay r).

(** ** What is received *)

(** The blocks of [n] heights from [h] on. *)
Fixpoint blocks_from (h : Z) (n : nat) : list Block :=
  match n with O => [] | S n' => chain_block h :: blocks_from (h + 1) n' end.

Lemma blocks_from_snoc h n : blocks_from h (S n) = blocks_from h n ++ [chain_block (h + Z.of_nat n)].
Proof.
  revert h. induction n as [|n IH]; intros h.
  - cbn. by rewrite Z.add_0_r.
  - change (blocks_from h (S (S n))) with (chain_block h :: blocks_from (h + 1) (S n)).
    rewrite IH. cbn [blocks_from app]. do 4 f_equal. lia.
Qed.

Lemma blocks_from_length h n : length (blocks_from h n) = n.
Proof. revert h. induction n; intros h; cbn; [done|]. by rewrite IHn. Qed.

Record Sniff_inv (s : Sniff) : Prop := {
  si_low : StartHeight cfg <= sn_height s;
  si_high : isEndlessMode = false -> StartHeight cfg <= EndHeight cfg -> sn_height s <= EndHeight cfg;
  si_blocks : sn_received s ++ blocksCh s =
              blocks_from (StartHeight cfg) (Z.to_nat (sn_height s - StartHeight cfg))
}.

Lemma sniffer_step_inv s s' : Sniff_inv s -> sniffer_step s s' -> Sniff_inv s'.
Proof.
  intros [Hl Hh Hb] Hs. destruct Hs as [s Hr He _|s err Hr He _|s Hr He|s Hr|s n Hr Hn];
    [|constructor; done..].
  constructor; cbn [sn_height sn_received blocksCh]; [lia| |].
  - intros Hend Hse. unfold reached_end in He. rewrite Hend in He. cbn in He. bool_facts. lia.
  - rewrite app_assoc, Hb.
    replace (Z.to_nat (sn_height s + 1 - StartHeight cfg))
      with (S (Z.to_nat (sn_height s - StartHeight cfg))) by lia.
    rewrite blocks_from_snoc. do 3 f_equal. lia.
Qed.

Lemma next_step_inv s r s' : Sniff_inv s -> next_step s r s' -> Sniff_inv s'.
Proof.
  intros [Hl Hh Hb] Hs. destruct Hs as [s b rest Hq| | | | |]; try (constructor; done).
  constructor; cbn [sn_height sn_received blocksCh]; [done|done|].
  rewrite <- app_assoc. cbn. by rewrite <- Hq.
Qed.

Lemma replay_inv s b : replay_run s b -> Sniff_inv s.
Proof.
  induction 1 as [|s s' _ IH Hs|s r s' _ IH Hs].
  - constructor; cbn; [lia|done|]. by rewrite Z.sub_diag.
  - by eapply sniffer_step_inv.
  - by eapply next_step_inv.
Qed.

Lemma replay_prefix s ended :
  replay_run s ended ->
  exists n m, sn_received s = blocks_from (StartHeight cfg) n /\
    blocksCh s = blocks_from (StartHeight cfg + Z.of_nat n) m /\
    sn_height s = StartHeight cfg + Z.of_nat n + Z.of_nat m /\
    (EndHeight cfg <> 0 -> StartHeight cfg <= EndHeight cfg -> sn_height s <= EndHeight cfg).
Proof.
  intros [Hl Hh Hb]%replay_inv.
  assert (Hsplit : forall k h l1 l2, l1 ++ l2 = blocks_from h k ->
    l1 = blocks_from h (length l1) /\ l2 = blocks_from (h + Z.of_nat (length l1)) (length l2) /\
    k = (length l1 + length l2)%nat).
  { clear. induction k as [|k IH]; intros h l1 l2 H.
    - cbn in H. apply app_eq_nil in H as [-> ->]. cbn. done.
    - destruct l1 as [|x l1].
      + cbn in *. subst l2. cbn. rewrite Z.add_0_r, blocks_from_length. done.
      + cbn in H. injection H as -> H. destruct (IH _ _ _ H) as (H1 & H2 & H3).
        cbn [length blocks_from]. split_and!; [by f_equal| |lia].
        rewrite H2 at 1. f_equal. lia. }
  destruct (Hsplit _ _ _ _ Hb) as (H1 & H2 & H3).
  exists (length (sn_received s)), (length (blocksCh s)). split_and!; [done|done|lia|].
  intros He. apply Hh. unfold isEndlessMode. by apply Z.eqb_neq.
Qed.

Lemma received_blocks s ended :
  replay_run s ended -> exists n, sn_received s = blocks_from (StartHeight cfg) n.
Proof. intros (n & m & H & _)%replay_prefix. eauto. Qed.

(** At any point of a replay, in any interleaving of sniffer and replayer, the
    blocks handed to the replayer are consecutive blocks of the chain from the
    start height on, in order and each once, and those still buffered follow
    them; with an end height, only heights below it are ever fetched. *)
Theorem replay_in_order s ended :
  replay_run s ended ->
  exists n m, sn_received s = blocks_from (StartHeight cfg) n /\
    blocksCh s = blocks_from (StartHeight cfg + Z.of_nat n) m /\
    sn_height s = StartHeight cfg + Z.of_nat n + Z.of_nat m /\
    (EndHeight cfg <> 0 -> StartHeight cfg <= EndHeight cfg -> sn_height s <= EndHeight cfg).
Proof. apply replay_prefix. Qed.

(** ** What may be lost *)

Definition buffered (n : nat) (c : Closing) : Sniff :=
  {| sn_height := StartHeight cfg + Z.of_nat n; sn_closing := c;
     blocksCh := blocks_from (StartHeight cfg) n; errCh := []; sn_received := [] |}.

Lemma sniff_all n :
  (isEndlessMode = true \/ StartHeight cfg + Z.of_nat n <= EndHeight cfg) ->
  Z.of_nat n <= DEFAULT_BLOCKS_BUFFER ->
  replay_run (buffered n Running) false.
Proof.
  induction n as [|n IH]; intros He Hb.
  - unfold buffered. rewrite Z.add_0_r. apply replay_start.
  - eapply replay_sniff; [apply IH; [naive_solver lia|lia]|].
    unfold buffered. rewrite blocks_from_snoc.
    replace (StartHeight cfg + Z.of_nat (S n)) with (StartHeight cfg + Z.of_nat n + 1) by lia.
    apply (sniff_block (buffered n Running)); [done| |cbn; rewrite blocks_from_length; lia].
    unfold reached_end. cbn [sn_height buffered]. destruct He as [->|He]; [done|].
    rewrite (proj2 (Z.leb_gt _ _)) by lia. apply andb_false_r.
Qed.

(** C22. A replay with an end height can end without having replayed a single block:
    the sniffer buffers every block and returns, and since [doneCh] is closed by
    then, the select of [GetNextBlockTxs] may take it before the blocks, which
    [StressReplay] takes for the end.  Only an end seen on the block channel
    itself means that every fetched block was replayed. *)
Theorem replay_may_drop :
  EndHeight cfg <> 0 -> StartHeight cfg < EndHeight cfg <= StartHeight cfg + DEFAULT_BLOCKS_BUFFER ->
  (exists s, replay_run s true /\ sn_received s = [] /\
     blocksCh s = blocks_from (StartHeight cfg) (Z.to_nat (EndHeight cfg - StartHeight cfg))) /\
  (forall s, replay_run s false -> blocksCh s = [] -> blocks_closed s = true ->
     next_step s (NextErr errNoMoreBlocks) s /\
     sn_received s = blocks_from (StartHeight cfg) (Z.to_nat (sn_height s - StartHeight cfg))).
Proof.
  intros He Hse. split.
  - set (n := Z.to_nat (EndHeight cfg - StartHeight cfg)).
    assert (Hend : isEndlessMode = false) by (unfold isEndlessMode; by apply Z.eqb_neq).
    exists (buffered n (Returned 3)). split_and!; [|done|done].
    apply (replay_next (buffered n (Returned 3)) (NextErr errNoMoreBlocks)).
    2: { by apply next_done. }
    apply (replay_sniff (buffered n (Returned 2))); [|by apply (sniff_close (buffered n (Returned 2)) 2); [|lia]].
    apply (replay_sniff (buffered n (Returned 1))); [|by apply (sniff_close (buffered n (Returned 1)) 1); [|lia]].
    apply (replay_sniff (buffered n (Returned 0))); [|by apply (sniff_close (buffered n (Returned 0)) 0); [|lia]].
    apply (replay_sniff (buffered n Running)).
    + apply sniff_all; [right; lia|lia].
    + apply (sniff_end (buffered n Running)); [done|].
      unfold reached_end. rewrite Hend. cbn [negb andb sn_height buffered]. apply Z.leb_le. lia.
  - intros s Hr Hb Hc. split; [by apply next_nil_block|].
    destruct (replay_inv _ _ Hr) as [_ _ H]. by rewrite Hb, app_nil_r in H.
Qed.
End Sniffer.

(** ** The provider as a [TxProvider] (payload/txns_replay_stress.go)

    Its transactions are bytes only: [txnsReplayTx] answers the other methods of
    [Tx] with zero values. *)
Definition txnsReplayTx (b : bytes) : baseTx :=
  {| from := {| Name := ""; Key := []; Number := 0; acc_Sequence := 0 |}; msgs := []; txBytes := b;
     fromIdx := 0; txIdx := 0 |}.

Definition errGenerateTx : error :=
  ENew "GenerateTx not supported in block-based replay mode - use GetNextBlockTxs() instead".

#[export] Instance replay_TxProvider : TxProvider Sniff := {|
  prov_Name _ := "state-replay-stress";
  GenerateInitialTx e s req := (s, Ok None);
  GenerateTx e s req := (s, Err errGenerateTx);
  BuildAndSignTx s client tx := (s, tx, Ok (WithBytes tx (txBytes tx)))
|}.

(** What [GetNextBlockTxs] returns as transactions is signed already: signing
    leaves it alone. *)
#[export] Instance replay_laws : TxProviderLaws Sniff.
Proof.
  constructor; [by intros e s req t| |done]. by intros s c t t' [= <-].
Qed.

Lemma replay_sign_bytes (s : Sniff) client b :
  (BuildAndSignTx s client (txnsReplayTx b)).2 = Ok (txnsReplayTx b).
Proof. done. Qed.

(** ** The replay of a block (stresser.go) *)

Record Counters := {
  successCount : Z;
  timeoutErrors : Z;
  sequenceErrors : Z;
  outOfGasErrors : Z;
  otherErrors : Z;
  fuzzedCount : Z;
  fallbackCount : Z
}.

Definition no_counts : Counters :=
  {| successCount := 0; timeoutErrors := 0; sequenceErrors := 0; outOfGasErrors := 0;
     otherErrors := 0; fuzzedCount := 0; fallbackCount := 0 |}.

Definition categorizeError (errMsg : string) (c : Counters) : Counters :=
  let add (t s g o : Z) :=
    {| successCount := successCount c; timeoutErrors := timeoutErrors c + t;
       sequenceErrors := sequenceErrors c + s; outOfGasErrors := outOfGasErrors c + g;
       otherErrors := otherErrors c + o; fuzzedCount := fuzzedCount c;
       fallbackCount := fallbackCount c |} in
  if strings_Contains errMsg "tx timeout height" then add 1 0 0 0
  else if strings_Contains errMsg "account sequence mismatch" then add 0 1 0 0
  else if strings_Contains errMsg "out of gas" then add 0 0 1 0
  else add 0 0 0 1.

Definition count_success (fallback : Z) (c : Counters) : Counters :=
  {| successCount := successCount c + 1; timeoutErrors := timeoutErrors c;
     sequenceErrors := sequenceErrors c; outOfGasErrors := outOfGasErrors c;
     otherErrors := otherErrors c; fuzzedCount := fuzzedCount c;
     fallbackCount := fallbackCount c + fallback |}.
Definition count_fuzzed (n : Z) (c : Counters) : Counters :=
  {| successCount := successCount c; timeoutErrors := timeoutErrors c;
     sequenceErrors := sequenceErrors c; outOfGasErrors := outOfGasErrors c;
     otherErrors := otherErrors c; fuzzedCount := fuzzedCount c + n;
     fallbackCount := fallbackCount c |}.
Definition count_other (c : Counters) : Counters :=
  {| successCount := successCount c; timeoutErrors := timeoutErrors c;
     sequenceErrors := sequenceErrors c; outOfGasErrors := outOfGasErrors c;
     otherErrors := otherErrors c + 1; fuzzedCount := fuzzedCount c;
     fallbackCount := fallbackCount c |}.

Section ReplayBlock.
Context `{RD : Rand, FC : FloatConv, TC : TxConfig, CR : Crypto, TI : TxInfoLib}.
(** The broadcast function, with the state it keeps; [None] when it never returns. *)
Context {St : Type} (bcast : St -> bytes -> option (St * (string * option error))).

(** The transaction hash, the error, and whether it was successful. *)
Definition handleFallbackBroadcast (st : St) (originalTxBytes : bytes)
    : option (St * (string * option error * bool)) :=
  match bcast st originalTxBytes with
  | None => None
  | Some (st', (_, Some e)) => Some (st', ("", Some e, false))
  | Some (st', (h, None)) =>
      if decide (h = "")
      then Some (st', ("", Some (ENew "fallback transaction returned empty hash"), false))
      else Some (st', (h, None, true))
  end.

(** The message of an error value; nil has none. *)
Definition err_message (e : option error) : string := match e with Some e => Error e | None => "" end.

(** What follows the broadcast of one transaction. *)
Definition handle_result (st : St) (c : Counters) (originalTxBytes : bytes) (wasFuzzed : bool)
    (res : string * option error) : option (St * Counters) :=
  match res with
  | (_, Some err) =>
      let errMsg := Error err in
      let c := categorizeError errMsg c in
      if wasFuzzed && strings_Contains errMsg "out of gas" then
        match handleFallbackBroadcast st originalTxBytes with
        | None => None
        | Some (st', (_, fallbackErr, ok)) =>
            if ok then Some (st', count_success 1 c)
            else Some (st', categorizeError (err_message fallbackErr) c)
        end
      else Some (st, categorizeError errMsg c)
  | (h, None) => if decide (h = "") then Some (st, count_other c) else Some (st, count_success 0 c)
  end.

(** One transaction of a block. *)
Definition replay_tx (st : St) (gasFuzzer : option GasFuzzer) (c : Counters) (originalTxBytes : bytes)
    : option (go (St * option GasFuzzer * Counters)) :=
  match fuzzTransactions gasFuzzer originalTxBytes with
  | (_, Err e) => Some (Err e)
  | (_, Panic m) => Some (Panic m)
  | (fz, Ok (txBytes, wasFuzzed)) =>
      let c := count_fuzzed (if wasFuzzed then 1 else 0) c in
      match bcast st txBytes with
      | None => None
      | Some (st1, res) =>
          match handle_result st1 c originalTxBytes wasFuzzed res with
          | None => None
          | Some (st2, c2) => Some (Ok (st2, fz, c2))
          end
      end
  end.

Fixpoint replay_block (st : St) (gasFuzzer : option GasFuzzer) (c : Counters) (txBatch : list bytes)
    : option (go (St * option GasFuzzer * Counters)) :=
  match txBatch with
  | [] => Some (Ok (st, gasFuzzer, c))
  | tx :: rest =>
      match replay_tx st gasFuzzer c tx with
      | Some (Ok (st', fz, c')) => replay_block st' fz c' rest
      | r => r
      end
  end.

(** The transaction was fuzzed or left alone, broadcast, and its result handled. *)
Lemma replay_tx_Ok st fz c tx st' fz' c' :
  replay_tx st fz c tx = Some (Ok (st', fz', c')) ->
  exists b wf st1 res, fuzzTransactions fz tx = (fz', Ok (b, wf)) /\ bcast st b = Some (st1, res) /\
    handle_result st1 (count_fuzzed (if wf then 1 else 0) c) tx wf res = Some (st', c').
Proof.
  unfold replay_tx. destruct (fuzzTransactions fz tx) as [fz1 [[b wf]| |]]; [|done..].
  destruct (bcast st b) as [[st1 res]|] eqn:Eb; [|done].
  destruct (handle_result st1 _ tx wf res) as [[st2 c2]|] eqn:Er; [|done]. intros [= <- <- <-].
  exists b, wf, st1, res. done.
Qed.

Lemma replay_block_cons st fz c tx rest st' fz' c' :
  replay_block st fz c (tx :: rest) = Some (Ok (st', fz', c')) ->
  exists st1 fz1 c1, replay_tx st fz c tx = Some (Ok (st1, fz1, c1)) /\
    replay_block st1 fz1 c1 rest = Some (Ok (st', fz', c')).
Proof.
  cbn [replay_block]. destruct (replay_tx st fz c tx) as [[[[st1 fz1] c1]| |]|]; [|done..].
  intros H. by exists st1, fz1, c1.
Qed.

(** ** Accounting *)




End ReplayBlock.

(** ** [StressReplay] (stresser.go) *)

Section StressReplay.
Context `{RD : Rand, FC : FloatConv, TC : TxConfig, CR : Crypto, TI : TxInfoLib}.
Context {St : Type} (bcast : St -> bytes -> option (St * (string * option error))).
Context (cfg : TxReplayConfig) (chain_block : Z -> Block) (gasFuzzing : GasFuzzingConfig) (st0 : St).

(** The loop over the provider's blocks, beside the sniffer: the state of the
    channels, of the broadcast function and of the fuzzer, and whether the
    function has returned.  An error that is not the end is logged and an empty
    batch skipped; the counters start at zero with every block. *)
Inductive StressReplay : Sniff -> St -> option GasFuzzer -> bool -> Prop :=
| stress_replay_start :
    StressReplay {| sn_height := StartHeight cfg; sn_closing := Running; blocksCh := []; errCh := [];
                    sn_received := [] |} st0 (NewGasFuzzer gasFuzzing) false
| stress_replay_sniff s st fz s' :
    StressReplay s st fz false -> sniffer_step cfg chain_block s s' -> StressReplay s' st fz false
| stress_replay_skip s st fz r s' :
    StressReplay s st fz false -> next_step s r s' -> (forall txs, r <> BlockTxs txs) ->
    StressReplay s' st fz (ends_replay r)
| stress_replay_block s st fz txBatch s' st' fz' c :
    StressReplay s st fz false -> next_step s (BlockTxs txBatch) s' ->
    replay_block bcast st fz no_counts txBatch = Some (Ok (st', fz', c)) ->
    StressReplay s' st' fz' false.

Lemma StressReplay_run s st fz b : StressReplay s st fz b -> replay_run cfg chain_block s b.
Proof.
  induction 1 as [|s st fz s' _ IH Hs|s st fz r s' _ IH Hs _|s st fz txs s' st' fz' c _ IH Hs _].
  - apply replay_start.
  - by eapply replay_sniff.
  - by eapply replay_next.
  - by eapply (replay_next _ _ s (BlockTxs txs)).
Qed.

(** The broadcast function was called with these transactions, in this order, and
    returned every time. *)
Inductive bcasts : St -> list bytes -> St -> Prop :=
| bcasts_nil st : bcasts st [] st
| bcasts_cons st b st1 r l st2 :
    bcast st b = Some (st1, r) -> bcasts st1 l st2 -> bcasts st (b :: l) st2.

Lemma bcasts_app st l1 st1 l2 st2 : bcasts st l1 st1 -> bcasts st1 l2 st2 -> bcasts st (l1 ++ l2) st2.
Proof. induction 1; [done|]. intros. eapply bcasts_cons; eauto. Qed.

(** The broadcasts made for a transaction: the transaction itself; or, when a
    fuzzer changed it, the changed one, followed by the original when that one ran
    out of gas. *)
Definition broadcasts_of (tx : bytes) (l : list bytes) : Prop :=
  l = [tx] \/ exists fz b, (fuzzTransactions (Some fz) tx).2 = Ok (b, true) /\ (l = [b] \/ l = [b; tx]).

Lemma fuzzTransactions_same f tx f' b :
  fuzzTransactions f tx = (f', Ok (b, false)) -> b = tx.
Proof.
  unfold fuzzTransactions. destruct f as [g|]; [|by intros [= _ <-]].
  destruct (log_info _ tx _); [|done..].
  destruct (FuzzTransaction (Some g) tx) as [f1 [fuzzed| |]]; [|by intros; simplify_eq..].
  case_match; [by intros; simplify_eq|]. by destruct (log_info _ fuzzed _).
Qed.

Lemma handle_result_sent st c tx wf res st' c' :
  handle_result bcast st c tx wf res = Some (st', c') ->
  exists l, bcasts st l st' /\ (l = [] \/ (wf = true /\ l = [tx])).
Proof.
  unfold handle_result. destruct res as [h [err|]].
  2: { case_decide; intros; simplify_eq; exists []; (split; [constructor|by left]). }
  destruct (wf && strings_Contains (Error err) "out of gas") eqn:Ew.
  2: { intros; simplify_eq; exists []; (split; [constructor|by left]). }
  apply andb_true_iff in Ew as [-> _]. intros H. exists [tx]. split; [|by right].
  unfold handleFallbackBroadcast in H. destruct (bcast st tx) as [[st1 r]|] eqn:Eb; [|done].
  assert (st1 = st') as -> by (destruct r as [h' [e'|]]; [|case_decide]; by simplify_eq/=).
  eapply bcasts_cons; [done|constructor].
Qed.

Lemma replay_tx_sent st fz c tx st' fz' c' :
  replay_tx bcast st fz c tx = Some (Ok (st', fz', c')) ->
  exists l, bcasts st l st' /\ broadcasts_of tx l /\ (fz = None -> fz' = None /\ l = [tx]).
Proof.
  intros (b & wf & st1 & res & Ef & Eb & (l & Hl & Hres)%handle_result_sent)%replay_tx_Ok.
  exists (b :: l). split; [by eapply bcasts_cons|]. destruct fz as [g|].
  - split; [|done]. destruct wf.
    + right. exists g, b. rewrite Ef. destruct Hres as [->|[_ ->]]; auto.
    + left. destruct Hres as [->|[? _]]; [|done]. f_equal. by apply (fuzzTransactions_same (Some g) tx fz' b).
  - cbn in Ef. simplify_eq. destruct Hres as [->|[? _]]; [|done]. split; [by left|done].
Qed.

Lemma replay_block_sent st fz c txs st' fz' c' :
  replay_block bcast st fz c txs = Some (Ok (st', fz', c')) ->
  exists ls, bcasts st (concat ls) st' /\ Forall2 broadcasts_of txs ls /\
    (fz = None -> fz' = None /\ concat ls = txs).
Proof.
  revert st fz c. induction txs as [|tx txs IH]; intros st fz c H.
  - cbn in H. simplify_eq. exists []. split_and!; [constructor|done|done].
  - apply replay_block_cons in H as (st1 & fz1 & c1 & H1 & H2).
    apply replay_tx_sent in H1 as (l & E1 & Hl & Hn1). destruct (IH _ _ _ H2) as (ls & E2 & Hls & Hn2).
    exists (l :: ls). cbn [concat]. split_and!; [by eapply bcasts_app|by constructor|].
    intros Hf. destruct (Hn1 Hf) as [-> ->]. destruct (Hn2 eq_refl) as [-> ->]. done.
Qed.

(** The non-empty transactions of the blocks received so far. *)
Definition replayed (s : Sniff) : list bytes := concat (block_txs <$> sn_received s).

Lemma StressReplay_sent s st fz b :
  StressReplay s st fz b ->
  exists ls, bcasts st0 (concat ls) st /\ Forall2 broadcasts_of (replayed s) ls /\
    (NewGasFuzzer gasFuzzing = None -> fz = None /\ concat ls = replayed s).
Proof.
  unfold replayed.
  induction 1 as [|s st fz s' _ IH Hs|s st fz r s' _ IH Hs Hr|s st fz txs s' st' fz' c _ IH Hs Hb].
  - exists []. split_and!; [constructor|constructor|done].
  - assert (sn_received s' = sn_received s) as -> by (by destruct Hs). exact IH.
  - assert (sn_received s' = sn_received s) as -> by (destruct Hs; [by destruct (Hr (block_txs b))|done..]).
    exact IH.
  - destruct IH as (ls & E & Hls & Hn). apply replay_block_sent in Hb as (ls' & E' & Hls' & Hn').
    assert (exists blk, txs = block_txs blk /\ sn_received s' = sn_received s ++ [blk]) as (blk & -> & ->)
      by (inversion Hs; subst; eauto).
    exists (ls ++ ls'). rewrite fmap_app, !concat_app. cbn [fmap list_fmap concat].
    rewrite app_nil_r. split_and!; [by eapply bcasts_app|by apply Forall2_app|].
    intros Hf. destruct (Hn Hf) as [-> ->]. destruct (Hn' eq_refl) as [-> ->]. done.
Qed.

(** *** A replay that ends *)

(** The broadcast function returns, and keeps an invariant of its state. *)
Definition returns_within (good : St -> Prop) : Prop :=
  forall st b, good st -> exists st' r, bcast st b = Some (st', r) /\ good st'.

Lemma replay_block_total good st c txs :
  returns_within good -> good st ->
  exists st' c', replay_block bcast st None c txs = Some (Ok (st', None, c')) /\ good st'.
Proof.
  intros Ht. revert st c. induction txs as [|tx txs IH]; intros st c Hg; [cbn; eauto|].
  cbn [replay_block]. unfold replay_tx. cbn [fuzzTransactions].
  destruct (Ht st tx Hg) as (st1 & [h [e|]] & -> & Hg1); cbn [handle_result andb]; [by apply IH|].
  destruct (decide (h = "")); by apply IH.
Qed.

Definition caught_up (n : nat) (c : Closing) : Sniff :=
  {| sn_height := StartHeight cfg + Z.of_nat n; sn_closing := c; blocksCh := []; errCh := [];
     sn_received := blocks_from chain_block (StartHeight cfg) n |}.

(** Block by block, as far as the end height. *)
Lemma StressReplay_caught_up good n :
  returns_within good -> good st0 -> NewGasFuzzer gasFuzzing = None ->
  StartHeight cfg + Z.of_nat n <= EndHeight cfg ->
  exists st, StressReplay (caught_up n Running) st None false /\ good st.
Proof.
  intros Ht H0 Hf. induction n as [|n IH]; intros He.
  { exists st0. unfold caught_up. rewrite Z.add_0_r, <- Hf. split; [apply stress_replay_start|done]. }
  destruct IH as (st & Hs & Hg); [lia|].
  destruct (replay_block_total good st no_counts (block_txs (chain_block (StartHeight cfg + Z.of_nat n))) Ht Hg)
    as (st' & c & Hb & Hg').
  exists st'. split; [|done]. eapply stress_replay_block; [eapply stress_replay_sniff; [exact Hs|]| |exact Hb].
  - apply sniff_block; [done| |cbn; unfold DEFAULT_BLOCKS_BUFFER; lia].
    unfold reached_end. cbn [sn_height caught_up]. rewrite (proj2 (Z.leb_gt _ _)) by lia. apply andb_false_r.
  - unfold caught_up. rewrite blocks_from_snoc.
    replace (StartHeight cfg + Z.of_nat (S n)) with (StartHeight cfg + Z.of_nat n + 1) by lia.
    by apply (next_block {| sn_height := StartHeight cfg + Z.of_nat n + 1; sn_closing := Running;
      blocksCh := [chain_block (StartHeight cfg + Z.of_nat n)]; errCh := [];
      sn_received := blocks_from chain_block (StartHeight cfg) n |}).
Qed.

(** With an end height, a replay over a broadcast function that returns can end
    after all the blocks. *)
Lemma StressReplay_completes good :
  returns_within good -> good st0 -> NewGasFuzzer gasFuzzing = None ->
  EndHeight cfg <> 0 -> StartHeight cfg <= EndHeight cfg ->
  exists s st, StressReplay s st None true /\
    sn_received s = blocks_from chain_block (StartHeight cfg) (Z.to_nat (EndHeight cfg - StartHeight cfg)).
Proof.
  intros Ht H0 Hf He Hle. set (n := Z.to_nat (EndHeight cfg - StartHeight cfg)).
  destruct (StressReplay_caught_up good n Ht H0 Hf) as (st & Hs & _); [lia|].
  exists (caught_up n (Returned 1)), st. split; [|done].
  apply (stress_replay_skip (caught_up n (Returned 1)) st None (NextErr errNoMoreBlocks)); [| |done].
  - apply (stress_replay_sniff (caught_up n (Returned 0)));
      [|by apply (sniff_close _ _ (caught_up n (Returned 0)) 0); [|lia]].
    apply (stress_replay_sniff (caught_up n Running)); [done|].
    apply (sniff_end _ _ (caught_up n Running)); [done|]. unfold reached_end, isEndlessMode.
    rewrite (proj2 (Z.eqb_neq _ _) He). cbn [negb andb sn_height caught_up]. apply Z.leb_le. lia.
  - by apply next_nil_block.
Qed.

(** A whole replay, at any point of it and in any interleaving with the sniffer:
    the blocks replayed are those of consecutive heights from the start height on,
    each once; and what has been broadcast, in order, is for each non-empty
    transaction of these blocks the transaction itself or, when the fuzzer changed
    its gas limit, the changed one, followed by the original only as a fallback.
    Without gas fuzzing it is exactly the blocks' transactions, in chain order. *)
Theorem StressReplay_broadcasts s st fz b :
  StressReplay s st fz b ->
  exists n ls, sn_received s = blocks_from chain_block (StartHeight cfg) n /\
    let txs := concat (block_txs <$> blocks_from chain_block (StartHeight cfg) n) in
    bcasts st0 (concat ls) st /\ Forall2 broadcasts_of txs ls /\
    (NewGasFuzzer gasFuzzing = None -> bcasts st0 txs st).
Proof.
  intros Hs. destruct (StressReplay_sent s st fz b Hs) as (ls & E & Hls & Hn). unfold replayed in *.
  apply StressReplay_run in Hs. destruct (received_blocks cfg chain_block s b Hs) as [n Hr].
  exists n, ls. rewrite <- Hr. cbv zeta. split_and!; [done..|].
  intros Hf. destruct (Hn Hf) as [_ <-]. done.
Qed.
End StressReplay.

(** ** Witnesses *)

Definition demo_replay : TxReplayConfig := {| StartHeight := 100; EndHeight := 102 |}.
Definition demo_block (h : Z) : Block := {| Height := h; Txs := [[h]; []] |}.

Lemma replay_in_order_witness :
  exists n m : nat, [] = blocks_from demo_block 100 n /\
    [demo_block 100] = blocks_from demo_block (100 + Z.of_nat n) m.
Proof.
  destruct (replay_in_order demo_replay demo_block (buffered demo_replay demo_block 1 Running) false)
    as (n & m & H1 & H2 & _).
  - apply sniff_all; [right; vm_compute; discriminate|vm_compute; discriminate].
  - exists n, m. exact (conj H1 H2).
Defined.

Lemma replay_may_drop_witness :
  exists s, replay_run demo_replay demo_block s true /\ sn_received s = [] /\
    blocksCh s = [demo_block 100; demo_block 101].
Proof.
  destruct (replay_may_drop demo_replay demo_block) as [H _]; [discriminate|split; vm_compute; [reflexivity|discriminate]|]. exact H.
Defined.



(** A node that accepts everything and remembers it. *)
Definition demo_log_bcast (st : list bytes) (b : bytes) : option (list bytes * (string * option error)) :=
  Some (st ++ [b], ("AB", None)).

Definition demo_no_fuzzing : GasFuzzingConfig :=
  {| Enabled := false; Strategy := Strategy demo_fuzz_config;
     GasLimitMultiplierMin := GasLimitMultiplierMin demo_fuzz_config;
     GasLimitMultiplierMax := GasLimitMultiplierMax demo_fuzz_config;
     FuzzPercentage := FuzzPercentage demo_fuzz_config; Seed := 0; VerboseLogging := false |}.

Lemma StressReplay_broadcasts_witness :
  exists s fz n, @StressReplay model_rand amd64_FloatConv model_txconfig model_crypto model_txinfo (list bytes) demo_log_bcast
      demo_replay demo_block demo_no_fuzzing [] s [[100]] fz false /\
    bcasts demo_log_bcast [] (concat (block_txs <$> blocks_from demo_block 100 n)) [[100]].
Proof.
  assert (H : @StressReplay model_rand amd64_FloatConv model_txconfig model_crypto model_txinfo (list bytes) demo_log_bcast
    demo_replay demo_block demo_no_fuzzing []
    {| sn_height := 101; sn_closing := Running; blocksCh := []; errCh := [];
       sn_received := [demo_block 100] |} [[100]] None false).
  { eapply (stress_replay_block _ _ _ _ _
      {| sn_height := 101; sn_closing := Running; blocksCh := [demo_block 100]; errCh := [];
         sn_received := [] |} [] None (block_txs (demo_block 100))).
    - eapply stress_replay_sniff; [apply stress_replay_start|].
      apply sniff_block; [reflexivity|reflexivity|vm_compute; reflexivity].
    - eapply (next_block {| sn_height := 101; sn_closing := Running; blocksCh := [demo_block 100];
        errCh := []; sn_received := [] |}). reflexivity.
    - vm_compute. reflexivity. }
  destruct (@StressReplay_broadcasts model_rand amd64_FloatConv model_txconfig model_crypto model_txinfo (list bytes) demo_log_bcast
    demo_replay demo_block demo_no_fuzzing [] _ _ _ _ H) as (n & ls & _ & _ & _ & Hn).
  eexists _, _, n. split; [exact H|]. exact (Hn eq_refl).
Defined.
