(* ===== verification/RateAccount.v ===== *)
(** * Rate limits over a whole run

    All loops of a run share one broadcast function, and it shares one limiter.
    Whatever the node answers and however the loops interleave, the limiter has
    then granted exactly what was sent: so many transactions, their bytes and
    their gas. *)

From Stdlib Require Import ZArith Lia Ascii String.
From stdpp Require Import base list strings numbers.
From S2P Require Import Prelude GoStrings Float64 Sdk SdkModel RateLimit Chain Payload Pipeline Stresser.
From S2P Require Import Broadcasting InitialPool Fuzzer SeqChain StressRun Delivery Replay.

Open Scope string_scope.
Open Scope Z_scope.
Open Scope list_scope.

Section Accounting.
Context `{RL : RetryLib, SE : SdkErrors, RT : RateLib, RTL : !RateLaws, FC : FloatConv, TC : TxConfig}.
Context {W : Type} {CW : ChainWorld W}.
Context (cfg : StressConfig).

Definition sent_bytes (txs : list bytes) : Z := zsum ((fun tx => u64 (Z.of_nat (length tx))) <$> txs).
Definition sent_gas (txs : list bytes) : Z := zsum (tx_gas (Some TxDecoder) <$> txs).

(** From [lim] to [lim'] the transactions [txs] were charged. *)
Definition charged_all (lim lim' : option MultiLimiter) (txs : list bytes) : Prop :=
  match lim, lim' with
  | None, None => True
  | Some l, Some l' =>
      charged (tpsLimiter l) (tpsLimiter l') (Z.of_nat (length txs)) /\
      charged (bytesLimiter l) (bytesLimiter l') (sent_bytes txs) /\
      charged (gasLimiter l) (gasLimiter l') (sent_gas txs)
  | _, _ => False
  end.

Lemma charged_all_nil lim : charged_all lim lim [].
Proof.
  destruct lim as [l|]; [|done]. cbn. unfold sent_bytes, sent_gas, charged. cbn.
  split_and!; case_match; lia || done.
Qed.

Lemma charged_all_cons lim1 lim2 lim3 tx txs :
  charged_all lim1 lim2 [tx] -> charged_all lim2 lim3 txs -> charged_all lim1 lim3 (tx :: txs).
Proof.
  destruct lim1 as [l1|], lim2 as [l2|], lim3 as [l3|]; try done. cbn [charged_all].
  intros (T1 & B1 & G1) (T2 & B2 & G2). unfold sent_bytes, sent_gas in *. cbn [fmap list_fmap] in *.
  split_and!; [by eapply charged_trans; [exact T1|exact T2|]; cbn [length]; lia
    |eapply charged_trans; [exact B1|exact B2|]|eapply charged_trans; [exact G1|exact G2|]];
    unfold zsum; cbn [foldr]; lia.
Qed.

(** A broadcast hands the transaction to the node and charges it, whatever the
    limiter. *)
Lemma shared_bcast_charges lim w tx st' r :
  gas_typed -> limiter_wf lim -> shared_bcast cfg (lim, w) tx = Some (st', r) ->
  limiter_wf st'.1 /\ st'.2 = after w tx /\ charged_all lim st'.1 [tx].
Proof.
  intros Hgas Hwf. unfold shared_bcast, world_after. destruct lim as [l|].
  - destruct (broadcastFunc_live (sync_of w) (poll_of w) (sc_AwaitTxConfirmation cfg) live l tx
      Hgas (Hwf l eq_refl) eq_refl) as (l' & g & -> & Hw & Hwf' & (T & B & G & _) & E).
    rewrite E, Hw. destruct (Broadcast _ _ _ _); [|done]. intros [= <- _].
    split_and!; [by intros ? [= <-]|done|]. unfold charged_all, sent_bytes, sent_gas, zsum. cbn.
    rewrite !Z.add_0_r. done.
  - rewrite broadcastFunc_unlimited. destruct (Broadcast _ _ _ _); [|done]. by intros [= <- _].
Qed.

Lemma shared_bcasts_charge lim w txs st' :
  gas_typed -> limiter_wf lim -> bcasts (shared_bcast cfg) (lim, w) txs st' ->
  limiter_wf st'.1 /\ st'.2 = foldl after w txs /\ charged_all lim st'.1 txs.
Proof.
  intros Hgas Hwf H. remember (lim, w) as st eqn:E. revert lim w Hwf E.
  induction H as [st|st b st1 r l st2 Hb _ IH]; intros lim w Hwf ->; [split_and!; [done..|apply charged_all_nil]|].
  destruct (shared_bcast_charges _ _ _ _ _ Hgas Hwf Hb) as (Hwf1 & E1 & Hc1).
  destruct st1 as [lim1 w1]. cbn [fst snd] in *. destruct (IH lim1 w1 Hwf1 eq_refl) as (Hwf2 & E2 & Hc2).
  split_and!; [done|by rewrite E2, E1|by eapply charged_all_cons].
Qed.

(** The calls of the shared function a phase has made. *)
Lemma phase_calls N rows inits n st s :
  bsteps (stress_bcast cfg) N rows inits n (phase_start rows st) s -> failure s = None ->
  exists log, bcasts (shared_bcast cfg) st log (world s) /\
    Forall (fun tx => exists row, row ∈ rows /\ tx ∈ row) log.
Proof.
  intros Hs. remember (phase_start rows st) as s0. induction Hs as [s1|n s1 s2 s3 Hs IH Hstep]; subst.
  { intros _. exists []. split; constructor. }
  specialize (IH eq_refl). destruct Hstep as [s i k txs q st' l _ Hl Hrow _ Ht|s i k e st' err _ Hf Hl _ _];
    cbn [failure world]; [|by rewrite Hf].
  intros Hff. assert (Hf : failure s = None) by (destruct (failure s); [by destruct l|done]).
  destruct (IH Hf) as (log & Hlog & Hin). unfold turn in Ht.
  destruct (k <? N); [|simplify_eq; by exists log].
  destruct (index txs k) as [tx|e|m] eqn:Ei; [|simplify_eq; by exists log..].
  unfold stress_bcast in Ht. destruct (shared_bcast cfg (world s) tx) as [[st1 [h r]]|] eqn:Eb; [|done].
  assert (st1 = st') as -> by (destruct r as [err|]; [destruct (IsSequenceError err) as [? []]|]; by simplify_eq).
  exists (log ++ [tx]). split.
  - eapply bcasts_app; [exact Hlog|]. eapply bcasts_cons; [exact Eb|constructor].
  - apply Forall_app. split; [done|]. constructor; [|done]. exists txs.
    split; [by eapply list_elem_of_lookup_2|]. apply index_Ok in Ei as [_ Ei]. by eapply list_elem_of_lookup_2.
Qed.

(** What the limiters of a run have granted, when they were made for it. *)
Definition limits_hold (lim : option MultiLimiter) (txs : list bytes) : Prop :=
  forall l, lim = Some l ->
    (forall t, tpsLimiter l = Some t -> rate_Granted t = Z.of_nat (length txs)) /\
    (forall t, bytesLimiter l = Some t -> rate_Granted t = sent_bytes txs) /\
    (forall t, gasLimiter l = Some t -> rate_Granted t = sent_gas txs).

Lemma charged_fresh o o' n t : granted o = 0 -> charged o o' n -> o' = Some t -> rate_Granted t = n.
Proof. intros H1 H2 ->. destruct o as [l|]; cbn in *; [lia|done]. Qed.

Lemma built_limits lim lim' txs :
  buildBroadcastClient (sc_RateLimit cfg) = Ok lim -> charged_all lim lim' txs -> limits_hold lim' txs.
Proof.
  unfold buildBroadcastClient. destruct (IsEnabled (sc_RateLimit cfg)).
  - destruct (NewMultiLimiter (sc_RateLimit cfg)) as [l| |] eqn:E; [|done..]. intros [= <-].
    destruct (NewMultiLimiter_fresh _ _ E) as (T0 & B0 & G0). destruct lim' as [l'|]; [|done].
    intros (T & B & G) ? [= <-]. split_and!; intros t Ht;
      [exact (charged_fresh _ _ _ _ T0 T Ht)|exact (charged_fresh _ _ _ _ B0 B Ht)|exact (charged_fresh _ _ _ _ G0 G Ht)].
  - intros [= <-]. by destruct lim'.
Qed.

Lemma limits_of_run N rows inits n w s :
  gas_typed -> Config_typed (sc_RateLimit cfg) ->
  bsteps (stress_bcast cfg) N rows inits n (phase_start rows (stress_limiter cfg, w)) s -> failure s = None ->
  exists log, bcasts (shared_bcast cfg) (stress_limiter cfg, w) log (world s) /\
    Forall (fun tx => exists row, row ∈ rows /\ tx ∈ row) log /\
    (world s).2 = foldl after w log /\ limits_hold (world s).1 log /\
    (is_Some (world s).1 <-> IsEnabled (sc_RateLimit cfg) = true).
Proof.
  intros Hgas Hc Hs Hf. destruct (phase_calls _ _ _ _ _ _ Hs Hf) as (log & Hlog & Hin). exists log.
  destruct (buildBroadcastClient_Ok (sc_RateLimit cfg) Hc) as (lim & E & Hen & Hwf).
  assert (El : stress_limiter cfg = lim) by (unfold stress_limiter; by rewrite E). rewrite El in *.
  destruct (shared_bcasts_charge lim w log (world s) Hgas Hwf Hlog) as (_ & Ew & Hch).
  split_and!; [done..|by eapply built_limits|]. rewrite <- Hen. unfold charged_all in Hch.
  destruct lim, (world s).1; naive_solver.
Qed.

(** C10. The rate limits of a run.  Whatever the node answers and however the loops of
    the accounts interleave, as long as no loop has failed: everything that went
    to the node went there through the shared broadcast function, as one of the
    prepared transactions; there is a limiter exactly when a rate is configured;
    and then its limiters have granted exactly what was sent so far: the number of
    transactions, the sum of their sizes and the sum of their gas limits. *)
Theorem phase_within_limits N rows inits n w s :
  gas_typed -> Config_typed (sc_RateLimit cfg) ->
  bsteps (stress_bcast cfg) N rows inits n (phase_start rows (stress_limiter cfg, w)) s -> failure s = None ->
  exists log, bcasts (shared_bcast cfg) (stress_limiter cfg, w) log (world s) /\
    Forall (fun tx => exists row, row ∈ rows /\ tx ∈ row) log /\
    (world s).2 = foldl after w log /\ limits_hold (world s).1 log /\
    (is_Some (world s).1 <-> IsEnabled (sc_RateLimit cfg) = true).
Proof. apply limits_of_run. Qed.
End Accounting.

(** ** Witness *)

Section DemoLimits.
#[local] Existing Instances typed_txconfig model_errors model_retry model_rate model_rate_laws amd64_FloatConv
  demo_open_world.

Definition demo_limits_start : @Phase (option MultiLimiter * nat) :=
  phase_start [[[1; 2; 3]]] (stress_limiter demo_stress, 0%nat).

Lemma demo_limits_sent lim :
  limiter_wf lim -> exists lim', stress_bcast demo_stress (lim, 0%nat) [1; 2; 3] = Some ((lim', 1%nat), None).
Proof.
  intros Hwf. unfold stress_bcast, shared_bcast, world_after. destruct lim as [l|].
  - destruct (broadcastFunc_live (sync_of 0%nat) (poll_of 0%nat) true live l [1; 2; 3] typed_gas
      (Hwf l eq_refl) eq_refl) as (l' & g & _ & Hw & _ & _ & E).
    cbn [sc_AwaitTxConfirmation demo_stress]. rewrite E, Hw. by exists (Some l').
  - by exists None.
Qed.

(** The only loop has made its only turn. *)
Lemma demo_limits_run :
  exists s, bsteps (stress_bcast demo_stress) 1 [[[1; 2; 3]]] [0] 1 demo_limits_start s /\
    failure s = None /\ (world s).2 = 1%nat.
Proof.
  destruct (demo_limits_sent (stress_limiter demo_stress)) as [lim' E]; [by apply limiter_built|].
  eexists. split; [eapply bsteps_S; [apply bsteps_0|]|].
  - eapply (bstep_turn _ _ _ _ demo_limits_start 0 0 [[1; 2; 3]] 0 (lim', 1%nat) (LAt 1)); [done..|].
    unfold turn. change (0 <? 1) with true. change (index [[1; 2; 3]] 0) with (@Ok bytes [1; 2; 3]).
    change (world demo_limits_start) with (stress_limiter demo_stress, 0%nat). cbv iota. by rewrite E.
  - done.
Qed.
End DemoLimits.

(** The limiters have granted what one transaction takes. *)
Lemma phase_within_limits_witness :
  exists s log, @bsteps _ (@stress_bcast model_retry model_errors model_rate typed_txconfig nat demo_open_world
      demo_stress) 1 [[[1; 2; 3]]] [0] 1 demo_limits_start s /\
    length log = 1%nat /\ @limits_hold model_rate typed_txconfig (world s).1 log.
Proof.
  destruct demo_limits_run as (s & Hs & Hf & Hw1). exists s.
  destruct (@phase_within_limits model_retry model_errors model_rate model_rate_laws amd64_FloatConv
    typed_txconfig nat demo_open_world demo_stress 1 [[[1; 2; 3]]] [0] 1 0%nat s typed_gas)
    as (log & _ & _ & Hw & Hl & _); [done|exact Hs|exact Hf|].
  exists log. split_and!; [exact Hs| |exact Hl]. rewrite Hw1 in Hw. clear -Hw. cbn in Hw.
  assert (H : forall n, foldl (fun w (_ : bytes) => S w) n log = (n + length log)%nat).
  { clear. induction log as [|tx log IH]; intros n; [cbn; lia|]. cbn [foldl length]. rewrite IH. lia. }
  change (1%nat = foldl (fun w (_ : bytes) => S w) 0%nat log) in Hw. rewrite H in Hw. exact (eq_sym Hw).
Defined.
