(* ===== verification/UserOp.v ===== *)
(** * Package eth/aa: user operations (ERC-4337)

    User operations and their packed form (userop.go), their signing
    (signer.go) and the parts of a light account that build them
    (light_account.go). *)

From Stdlib Require Import ZArith Lia Ascii String.
From stdpp Require Import base list strings numbers.
From S2P Require Import Prelude GoStrings Float64 Sdk SdkModel Chain Payload EthPayload WasmPayload.

Open Scope string_scope.
Open Scope Z_scope.
Open Scope list_scope.

(** ** big.Int *)

Fixpoint be_aux (fuel : nat) (n : Z) (acc : bytes) : bytes :=
  match fuel with
  | O => acc
  | S f => if n =? 0 then acc else be_aux f (n / 256) (n mod 256 :: acc)
  end.

(** [x.Bytes()]: the absolute value, big-endian, without leading zeros. *)
Definition big_Bytes (x : Z) : bytes := be_aux (S (Z.to_nat (Z.log2 (Z.abs x)))) (Z.abs x) [].

(** The integer a big-endian byte string stands for. *)
Definition be_value (b : bytes) : Z := fold_left (fun a x => a * 256 + x) b 0.

#[global] Arguments be_value : simpl never.

(** [res.Uint64()]: the low 64 bits. *)
Definition big_Uint64 (x : Z) : Z := u64 (Z.abs x).

Lemma be_fold a b : fold_left (fun a x => a * 256 + x) b a = a * 256 ^ Z.of_nat (length b) + be_value b.
Proof.
  unfold be_value. revert a. induction b as [|x b IH]; intros a; cbn [fold_left length].
  - change (256 ^ Z.of_nat 0) with 1. lia.
  - rewrite IH, (IH (0 * 256 + x)). rewrite Nat2Z.inj_succ, Z.pow_succ_r by lia. lia.
Qed.

Lemma be_value_app a b : be_value (a ++ b) = be_value a * 256 ^ Z.of_nat (length b) + be_value b.
Proof. unfold be_value at 1. rewrite fold_left_app. apply be_fold. Qed.

Lemma be_value_zeros n b : be_value (repeat 0 n ++ b) = be_value b.
Proof.
  rewrite be_value_app. assert (be_value (repeat 0 n) = 0) as ->; [|lia].
  unfold be_value. induction n; cbn; [done|]. done.
Qed.

Lemma be_aux_spec fuel n acc :
  0 <= n < 256 ^ Z.of_nat fuel ->
  exists l, be_aux fuel n acc = l ++ acc /\ be_value l = n /\ Forall is_byte l /\
    n < 256 ^ Z.of_nat (length l) /\ (n = 0 -> l = []) /\
    (0 < n -> 256 ^ (Z.of_nat (length l) - 1) <= n).
Proof.
  assert (Hz0 : be_value [] = 0) by reflexivity.
  revert n acc. induction fuel as [|fuel IH]; intros n acc Hn.
  - exists []. cbn in *. change (256 ^ 0) with 1. split_and!; try done; lia.
  - cbn [be_aux]. destruct (Z.eqb_spec n 0) as [->|Hz].
    + exists []. change (256 ^ Z.of_nat (length [])) with 1. split_and!; try done; lia.
    + rewrite Nat2Z.inj_succ, Z.pow_succ_r in Hn by lia.
      pose proof (Z.div_mod n 256 ltac:(lia)). pose proof (Z.mod_pos_bound n 256 ltac:(lia)).
      assert (0 <= n / 256 < 256 ^ Z.of_nat fuel) as Hd
        by (split; [apply Z.div_pos; lia|apply Z.div_lt_upper_bound; lia]).
      destruct (IH (n / 256) (n mod 256 :: acc) Hd) as (l & -> & Hv & Hb & Hu & Hnil & Hlo).
      exists (l ++ [n mod 256]). rewrite <- app_assoc, be_value_app, length_app, Hv. cbn [app length].
      rewrite Nat2Z.inj_add. change (Z.of_nat 1) with 1.
      assert (be_value [n mod 256] = n mod 256) as -> by (unfold be_value; cbn; lia).
      change (256 ^ 1) with 256. rewrite Z.pow_add_r by lia. change (256 ^ 1) with 256.
      split_and!; [done|lia| |lia|lia|].
      * apply Forall_app. split; [done|]. constructor; [width|done].
      * intros _. rewrite Z.add_simpl_r.
        destruct (decide (0 < n / 256)) as [Hp|Hp].
        -- specialize (Hlo Hp). assert (0 < length l)%nat.
           { destruct l; [|cbn; lia]. cbn in Hu. change (256 ^ 0) with 1 in Hu. lia. }
           replace (Z.of_nat (length l)) with (1 + (Z.of_nat (length l) - 1)) by lia.
           rewrite Z.pow_add_r by lia. change (256 ^ 1) with 256. lia.
        -- rewrite Hnil by lia. cbn. change (256 ^ 0) with 1. lia.
Qed.

Lemma big_Bytes_spec x :
  be_value (big_Bytes x) = Z.abs x /\ Forall is_byte (big_Bytes x) /\
  forall k, (length (big_Bytes x) <= k)%nat <-> Z.abs x < 256 ^ Z.of_nat k.
Proof.
  unfold big_Bytes. set (f := S (Z.to_nat (Z.log2 (Z.abs x)))).
  assert (Hf : 0 <= Z.abs x < 256 ^ Z.of_nat f).
  { split; [lia|]. destruct (decide (x = 0)) as [->|Hx]; [apply Z.pow_pos_nonneg; lia|].
    pose proof (Z.log2_spec (Z.abs x) ltac:(lia)) as [_ H]. pose proof (Z.log2_nonneg (Z.abs x)).
    eapply Z.lt_le_trans; [exact H|]. unfold f.
    rewrite Nat2Z.inj_succ, Z2Nat.id by done. apply Z.pow_le_mono_l. lia. }
  destruct (be_aux_spec f (Z.abs x) [] Hf) as (l & -> & Hv & Hb & Hu & Hnil & Hlo).
  rewrite app_nil_r. split_and!; [done|done|]. intros k. split.
  - intros Hk. eapply Z.lt_le_trans; [exact Hu|]. apply Z.pow_le_mono_r; lia.
  - intros Hk. destruct (decide (Z.abs x = 0)) as [Hz|Hz]; [rewrite Hnil by done; cbn; lia|].
    specialize (Hlo ltac:(lia)). apply Nat.nlt_ge. intros Hlt.
    assert (256 ^ Z.of_nat k <= 256 ^ (Z.of_nat (length l) - 1)) by (apply Z.pow_le_mono_r; lia). lia.
Qed.

(** go-ethereum's byte helpers, contract ABIs with structured arguments, and the
    JSON-RPC reads of a light account. *)
Inductive AbiValue :=
| AAddress (b : bytes)
| AUint256 (x : Z)
| ABytes32 (b : bytes)
| ABytes (b : bytes).

Class EthBytes := {
  LeftPadBytes : bytes -> nat -> bytes;
  BytesToHash : bytes -> bytes;
  Keccak256Hash : bytes -> bytes;
  abi_Arguments_Pack : list AbiValue -> go bytes;
  abi_Method_Pack : string -> string -> list AbiValue -> go bytes
}.

(** Documented: [LeftPadBytes] pads with zeros on the left up to the length, and
    leaves longer input as it is; [BytesToHash] keeps 32 bytes as they are; a
    hash has 32 bytes. *)
Class EthBytesLaws `{EthBytes} := {
  LeftPadBytes_spec b n : LeftPadBytes b n = repeat 0 (n - length b) ++ b;
  BytesToHash_32 b : length b = 32%nat -> BytesToHash b = b;
  Keccak256Hash_32 b : length (Keccak256Hash b) = 32%nat
}.

Section UserOps.
Context `{EB : EthBytes, EL : EthLib}.

(** ** userop.go *)

Record UserOperation := {
  Sender : bytes;
  uo_Nonce : Z;
  InitCode : bytes;
  CallData : bytes;
  CallGasLimit : Z;
  VerificationGasLimit : Z;
  PreVerificationGas : Z;
  MaxFeePerGas : Z;
  MaxPriorityFeePerGas : Z;
  Paymaster : bytes;
  PaymasterVerificationGasLimit : Z;
  PaymasterPostOpGasLimit : Z;
  PaymasterData : bytes;
  Signature : bytes
}.

Record PackedUserOperation := {
  pk_Sender : bytes;
  pk_Nonce : Z;
  pk_InitCode : bytes;
  pk_CallData : bytes;
  AccountGasLimits : bytes;
  pk_PreVerificationGas : Z;
  GasFees : bytes;
  PaymasterAndData : bytes;
  pk_Signature : bytes
}.

Definition GetFactory (op : UserOperation) : bytes :=
  if (length (InitCode op) <? 20)%nat then zero_address else BytesToAddress (take 20 (InitCode op)).

Definition GetFactoryData (op : UserOperation) : bytes :=
  if (length (InitCode op) <? 20)%nat then [] else drop 20 (InitCode op).

Definition GetMaxGasAvailable (op : UserOperation) : Z :=
  let mul := if decide (Paymaster op = zero_address) then 1 else 3 in
  VerificationGasLimit op * mul + (PreVerificationGas op + CallGasLimit op).

Definition GetMaxPrefund (op : UserOperation) : Z := GetMaxGasAvailable op * MaxFeePerGas op.

Definition GetDynamicGasPrice (op : UserOperation) (basefee : option Z) : Z :=
  let bf := default 0 basefee in
  let gp := bf + MaxPriorityFeePerGas op in
  if MaxFeePerGas op <? gp then MaxFeePerGas op else gp.

Definition packAccountGasLimits (verificationGasLimit callGasLimit : Z) : bytes :=
  LeftPadBytes (big_Bytes verificationGasLimit) 16 ++ LeftPadBytes (big_Bytes callGasLimit) 16.

Definition packGasFees (maxPriorityFeePerGas maxFeePerGas : Z) : bytes :=
  LeftPadBytes (big_Bytes maxPriorityFeePerGas) 16 ++ LeftPadBytes (big_Bytes maxFeePerGas) 16.

Definition packPaymasterData (paymaster : bytes) (paymasterVerificationGasLimit postOpGasLimit : Z)
    (paymasterData : bytes) : bytes :=
  paymaster ++ LeftPadBytes (big_Bytes paymasterVerificationGasLimit) 16
  ++ LeftPadBytes (big_Bytes postOpGasLimit) 16 ++ paymasterData.

Definition Pack (op : UserOperation) : go PackedUserOperation :=
  let accountGasLimits := packAccountGasLimits (VerificationGasLimit op) (CallGasLimit op) in
  if negb (length accountGasLimits =? 32)%nat then Panic "accountGasLimits must be 32 bytes"
  else
    let gasFees := packGasFees (MaxPriorityFeePerGas op) (MaxFeePerGas op) in
    if negb (length gasFees =? 32)%nat then Panic "gasFees must be 32 bytes"
    else
      Ok {| pk_Sender := Sender op; pk_Nonce := uo_Nonce op; pk_InitCode := InitCode op;
            pk_CallData := CallData op; AccountGasLimits := BytesToHash accountGasLimits;
            pk_PreVerificationGas := PreVerificationGas op; GasFees := BytesToHash gasFees;
            PaymasterAndData :=
              if decide (Paymaster op = zero_address) then []
              else packPaymasterData (Paymaster op) (PaymasterVerificationGasLimit op)
                     (PaymasterPostOpGasLimit op) (PaymasterData op);
            pk_Signature := Signature op |}.

(** An error of the ABI encoder leaves no bytes. *)
Definition EncodeForSignature (op : PackedUserOperation) : go bytes :=
  match abi_Arguments_Pack
    [AAddress (pk_Sender op); AUint256 (pk_Nonce op); ABytes32 (Keccak256Hash (pk_InitCode op));
     ABytes32 (Keccak256Hash (pk_CallData op)); ABytes32 (AccountGasLimits op);
     AUint256 (pk_PreVerificationGas op); ABytes32 (GasFees op);
     ABytes32 (Keccak256Hash (PaymasterAndData op))]
  with
  | Err _ => Ok []
  | r => r
  end.

Definition GetUserOpHash (op : PackedUserOperation) (entryPoint : bytes) (chainID : Z) : go bytes :=
  let! opEncodedForSignature := EncodeForSignature op in
  let userOpHash := Keccak256Hash opEncodedForSignature in
  let! packed :=
    orPanic (abi_Arguments_Pack [ABytes32 userOpHash; AAddress entryPoint; AUint256 chainID]) in
  Ok (Keccak256Hash packed).

(** ** signer.go *)

Record signer := {
  sg_entryPointAddress : bytes;
  sg_chainID : Z;
  sg_personalSignFn : bytes -> bytes -> go bytes;
  sg_signerAddress : bytes
}.

Definition NewSigner (entryPointAddress : bytes) (chainID : Z)
    (personalSignFn : bytes -> bytes -> go bytes) (signerAddress : bytes) : signer :=
  {| sg_entryPointAddress := entryPointAddress; sg_chainID := chainID;
     sg_personalSignFn := personalSignFn; sg_signerAddress := signerAddress |}.

Definition LightAccountSignatureTypeEoa : Z := 0.

(** [sig[64] += 27] *)
Definition ecSigToRPC (sig : bytes) : go bytes :=
  let! v := index sig 64 in
  Ok (<[64%nat := u8 (v + 27)]> sig).

(** The bytes of [fmt.Sprintf] of the Ethereum prefix, 32, and the hash. *)
Definition textToSign (opHash : bytes) : bytes :=
  [25] ++ string_bytes "Ethereum Signed Message:" ++ [10] ++ string_bytes "32" ++ take 32 opHash.

Definition SignUserOperation (s : signer) (userOperation : UserOperation)
    : go (PackedUserOperation * bytes) :=
  let! packedUO := Pack userOperation in
  let! opHash := GetUserOpHash packedUO (sg_entryPointAddress s) (sg_chainID s) in
  let! uoSig :=
    go_wrap "failed to sign user operation with personal signer"
      (sg_personalSignFn s (sg_signerAddress s) (textToSign opHash)) in
  let! uoSig := ecSigToRPC uoSig in
  Ok ({| pk_Sender := pk_Sender packedUO; pk_Nonce := pk_Nonce packedUO;
         pk_InitCode := pk_InitCode packedUO; pk_CallData := pk_CallData packedUO;
         AccountGasLimits := AccountGasLimits packedUO;
         pk_PreVerificationGas := pk_PreVerificationGas packedUO; GasFees := GasFees packedUO;
         PaymasterAndData := PaymasterAndData packedUO;
         pk_Signature := [LightAccountSignatureTypeEoa] ++ uoSig |}, opHash).

(** ** light_account.go *)

Record UserOperationGasEstimates := {
  ge_CallGasLimit : Z;
  ge_VerificationGasLimit : Z;
  ge_PreVerificationGas : Z;
  ge_MaxFeePerGas : Z;
  ge_MaxPriorityFeePerGas : Z
}.

Record lightAccount := {
  la_entrypointAddress : bytes;
  la_accountFactoryAddress : bytes;
  la_accountAddress : bytes;
  la_eoaOwner : bytes;
  la_salt : Z;
  la_isDeployed : bool
}.

Definition createAccountCallData (la : lightAccount) : go bytes :=
  let saltBig := if la_salt la =? 0 then 0 else i64 (la_salt la) in
  orPanic (abi_Method_Pack "LightAccountFactory" "createAccount"
    [AAddress (la_eoaOwner la); AUint256 saltBig]).

Definition la_initCode (la : lightAccount) : go bytes :=
  let! factoryCallData := createAccountCallData la in
  Ok (la_accountFactoryAddress la ++ factoryCallData).

Definition executeCallData (la : lightAccount) (contractAddress callData : bytes) : go bytes :=
  orPanic (abi_Method_Pack "LightAccount" "execute"
    [AAddress contractAddress; AUint256 0; ABytes callData]).

Definition newUserOperation (la : lightAccount) (contractAddress callData : bytes) (nonce : Z)
    (gasEstimates : list UserOperationGasEstimates) : go UserOperation :=
  match gasEstimates with
  | [] => Err (ENew "no gas estimates provided")
  | g :: _ =>
      let! execute := executeCallData la contractAddress callData in
      let! initCode :=
        (if negb (la_isDeployed la) && (nonce =? 0) then la_initCode la else Ok []) in
      Ok {| Sender := la_accountAddress la; uo_Nonce := i64 nonce; InitCode := initCode;
            CallData := execute; CallGasLimit := ge_CallGasLimit g;
            VerificationGasLimit := ge_VerificationGasLimit g;
            PreVerificationGas := ge_PreVerificationGas g; MaxFeePerGas := ge_MaxFeePerGas g;
            MaxPriorityFeePerGas := ge_MaxPriorityFeePerGas g; Paymaster := zero_address;
            PaymasterVerificationGasLimit := 300000; PaymasterPostOpGasLimit := 0;
            PaymasterData := []; Signature := [] |}
  end.

(** The address, asked from the factory once and then remembered. *)
Definition la_Address (call : bytes -> bytes -> go bytes) (la : lightAccount)
    : lightAccount * go bytes :=
  if negb (bool_decide (la_accountAddress la = zero_address)) then (la, Ok (la_accountAddress la))
  else
    match (let! data := createAccountCallData la in
           go_wrap "failed to read light account address from factory"
             (call (la_accountFactoryAddress la) data)) with
    | Ok res =>
        let a := BytesToAddress res in
        ({| la_entrypointAddress := la_entrypointAddress la;
            la_accountFactoryAddress := la_accountFactoryAddress la; la_accountAddress := a;
            la_eoaOwner := la_eoaOwner la; la_salt := la_salt la; la_isDeployed := la_isDeployed la |},
         Ok a)
    | Err e => (la, Err e)
    | Panic m => (la, Panic m)
    end.

Definition la_Code (codeAt : bytes -> go bytes) (la : lightAccount) : go bytes :=
  when bool_decide (la_accountAddress la = zero_address)
    raise ENew "light account address is not set (it has to be derived from factory)";
  go_wrap "failed to get code" (codeAt (la_accountAddress la)).

Definition la_IsDeployed (codeAt : bytes -> go bytes) (la : lightAccount) : lightAccount * go bool :=
  if la_isDeployed la then (la, Ok true)
  else
    match la_Code codeAt la with
    | Ok code =>
        let d := (0 <? length code)%nat in
        ({| la_entrypointAddress := la_entrypointAddress la;
            la_accountFactoryAddress := la_accountFactoryAddress la;
            la_accountAddress := la_accountAddress la; la_eoaOwner := la_eoaOwner la;
            la_salt := la_salt la; la_isDeployed := d |}, Ok d)
    | Err e => (la, Err (EStack e))
    | Panic m => (la, Panic m)
    end.

(** ** Packing *)

Context `{EBL : !EthBytesLaws}.

Lemma pad16 x :
  (Z.abs x < 2 ^ 128 -> length (LeftPadBytes (big_Bytes x) 16) = 16%nat /\
                        be_value (LeftPadBytes (big_Bytes x) 16) = Z.abs x) /\
  (2 ^ 128 <= Z.abs x -> (16 < length (LeftPadBytes (big_Bytes x) 16))%nat).
Proof.
  destruct (big_Bytes_spec x) as (Hv & _ & Hl). specialize (Hl 16%nat).
  change (256 ^ Z.of_nat 16) with (2 ^ 128) in Hl. rewrite LeftPadBytes_spec, length_app, repeat_length.
  split; intros H.
  - apply Hl in H. rewrite be_value_zeros. split; [lia|done].
  - assert (~ (length (big_Bytes x) <= 16)%nat) by (rewrite Hl; lia). lia.
Qed.

(** Whether the two halves fit sixteen bytes each. *)
Lemma pad_pair a b :
  length (LeftPadBytes (big_Bytes a) 16 ++ LeftPadBytes (big_Bytes b) 16) = 32%nat <->
  Z.abs a < 2 ^ 128 /\ Z.abs b < 2 ^ 128.
Proof.
  rewrite length_app. destruct (pad16 a) as [Ha Ha'], (pad16 b) as [Hb Hb'].
  split.
  - intros H. destruct (Z.lt_ge_cases (Z.abs a) (2 ^ 128)), (Z.lt_ge_cases (Z.abs b) (2 ^ 128));
      try done; exfalso; try specialize (Ha ltac:(done)); try specialize (Hb ltac:(done));
      try specialize (Ha' ltac:(done)); try specialize (Hb' ltac:(done)); lia.
  - intros [H1 H2]. destruct (Ha H1), (Hb H2). lia.
Qed.

Definition fits128 (x : Z) : Prop := 0 <= x < 2 ^ 128.

Lemma pad_pair_values a b :
  fits128 a -> fits128 b ->
  let w := LeftPadBytes (big_Bytes a) 16 ++ LeftPadBytes (big_Bytes b) 16 in
  be_value (take 16 w) = a /\ be_value (drop 16 w) = b.
Proof.
  intros Ha Hb w. unfold fits128, w in *. clear w.
  destruct (proj1 (pad16 a) ltac:(lia)) as [La Va]. destruct (proj1 (pad16 b) ltac:(lia)) as [Lb Vb].
  rewrite take_app_length', drop_app_length' by done. lia.
Qed.

(** C25. Packing a user operation.  It panics exactly when one of its two gas limits
    or two fees needs more than 128 bits.  When they fit, each packed word has
    32 bytes and its halves are the two values back, big-endian; without a
    paymaster the paymaster field is empty, with one it is the address, the two
    limits (16 bytes each when they fit) and the data; all else is unchanged. *)
Theorem Pack_roundtrip op :
  (is_Panic (Pack op) = true <->
     ~ (Z.abs (VerificationGasLimit op) < 2 ^ 128 /\ Z.abs (CallGasLimit op) < 2 ^ 128 /\
        Z.abs (MaxPriorityFeePerGas op) < 2 ^ 128 /\ Z.abs (MaxFeePerGas op) < 2 ^ 128)) /\
  (fits128 (VerificationGasLimit op) -> fits128 (CallGasLimit op) ->
   fits128 (MaxPriorityFeePerGas op) -> fits128 (MaxFeePerGas op) ->
   exists pk, Pack op = Ok pk /\
     length (AccountGasLimits pk) = 32%nat /\ length (GasFees pk) = 32%nat /\
     be_value (take 16 (AccountGasLimits pk)) = VerificationGasLimit op /\
     be_value (drop 16 (AccountGasLimits pk)) = CallGasLimit op /\
     be_value (take 16 (GasFees pk)) = MaxPriorityFeePerGas op /\
     be_value (drop 16 (GasFees pk)) = MaxFeePerGas op /\
     pk_Nonce pk = uo_Nonce op /\ pk_InitCode pk = InitCode op /\ pk_CallData pk = CallData op /\
     pk_PreVerificationGas pk = PreVerificationGas op /\ pk_Sender pk = Sender op /\
     pk_Signature pk = Signature op /\
     (Paymaster op = zero_address -> PaymasterAndData pk = []) /\
     (Paymaster op <> zero_address -> length (Paymaster op) = 20%nat ->
      fits128 (PaymasterVerificationGasLimit op) -> fits128 (PaymasterPostOpGasLimit op) ->
      take 20 (PaymasterAndData pk) = Paymaster op /\
      be_value (take 16 (drop 20 (PaymasterAndData pk))) = PaymasterVerificationGasLimit op /\
      be_value (take 16 (drop 36 (PaymasterAndData pk))) = PaymasterPostOpGasLimit op /\
      drop 52 (PaymasterAndData pk) = PaymasterData op)).
Proof.
  pose proof (pad_pair (VerificationGasLimit op) (CallGasLimit op)) as P1.
  pose proof (pad_pair (MaxPriorityFeePerGas op) (MaxFeePerGas op)) as P2.
  unfold Pack, packAccountGasLimits, packGasFees. cbv zeta. split.
  - destruct (Nat.eqb_spec (length (LeftPadBytes (big_Bytes (VerificationGasLimit op)) 16 ++
      LeftPadBytes (big_Bytes (CallGasLimit op)) 16)) 32) as [E1|E1]; cbn [negb]; [|naive_solver].
    destruct (Nat.eqb_spec (length (LeftPadBytes (big_Bytes (MaxPriorityFeePerGas op)) 16 ++
      LeftPadBytes (big_Bytes (MaxFeePerGas op)) 16)) 32) as [E2|E2]; cbn [negb]; [|naive_solver].
    cbn [is_Panic]. split; [done|]. intros H. exfalso. apply H. naive_solver.
  - intros Hv Hc Hp Hm.
    assert (L1 := proj2 P1 ltac:(unfold fits128 in *; lia)).
    assert (L2 := proj2 P2 ltac:(unfold fits128 in *; lia)).
    rewrite (proj2 (Nat.eqb_eq _ _) L1), (proj2 (Nat.eqb_eq _ _) L2). cbn [negb].
    eexists. split; [done|]. cbn. rewrite !BytesToHash_32 by done.
    destruct (pad_pair_values _ _ Hv Hc), (pad_pair_values _ _ Hp Hm).
    split_and!; try done; [intros ?; by rewrite decide_True|].
    intros Hne Hlen Hpv Hpo. rewrite decide_False by done. unfold packPaymasterData, fits128 in *.
    destruct (proj1 (pad16 (PaymasterVerificationGasLimit op)) ltac:(lia)) as [Lv Vv].
    destruct (proj1 (pad16 (PaymasterPostOpGasLimit op)) ltac:(lia)) as [Lp Vp].
    replace 52%nat with (20 + (16 + 16))%nat by done. replace 36%nat with (20 + 16)%nat by done.
    rewrite <- !drop_drop, take_app_length', drop_app_length' by done.
    rewrite take_app_length', drop_app_length' by done.
    rewrite take_app_length', drop_app_length' by done. split_and!; try done; lia.
Qed.

(** ** Signing *)

(** Signing a user operation with a personal signer.  The signer is given the
    Ethereum message prefix and the operation's hash for the entry point and
    chain; the packed operation is returned with the byte 0 (an EOA signature)
    and the signature whose recovery byte has 27 added, modulo 256; the
    signature given is not part of what is hashed.  A signature without that
    byte is a panic, an error of the signer is returned. *)
Theorem SignUserOperation_spec s op pk hash sig :
  Pack op = Ok pk -> GetUserOpHash pk (sg_entryPointAddress s) (sg_chainID s) = Ok hash ->
  sg_personalSignFn s (sg_signerAddress s) (textToSign hash) = Ok sig ->
  ((65 <= length sig)%nat -> exists pk' v,
     SignUserOperation s op = Ok (pk', hash) /\ sig !! 64%nat = Some v /\
     pk_Signature pk' = 0 :: take 64 sig ++ (v + 27) mod 256 :: drop 65 sig /\
     GetUserOpHash pk' (sg_entryPointAddress s) (sg_chainID s) = Ok hash /\
     pk_Nonce pk' = uo_Nonce op /\ pk_CallData pk' = CallData op) /\
  ((length sig <= 64)%nat -> is_Panic (SignUserOperation s op) = true).
Proof.
  intros Hp Hh Hs. unfold SignUserOperation. rewrite Hp. cbn [go_bind]. rewrite Hh. cbn [go_bind].
  rewrite Hs. cbn [go_wrap go_bind].
  assert (Hpk : pk_Nonce pk = uo_Nonce op /\ pk_CallData pk = CallData op).
  { unfold Pack in Hp. cbv zeta in Hp. repeat case_match; try done; by injection Hp as <-. }
  split.
  - intros Hl. destruct (lookup_lt_is_Some_2 sig 64) as [v Hv]; [lia|].
    assert (Hi : index sig 64 = Ok v) by (apply index_Ok; done).
    unfold ecSigToRPC. rewrite Hi. cbn [go_bind]. eexists _, v. split; [done|].
    split; [done|]. cbn [pk_Signature]. split.
    + unfold LightAccountSignatureTypeEoa. cbn [app]. f_equal.
      rewrite insert_take_drop by lia. done.
    + split; [|done]. exact Hh.
  - intros Hl. unfold ecSigToRPC. rewrite index_out_of_range by lia. done.
Qed.

(** ** Light accounts *)

(** The operations of a light account.  A user operation carries creation code
    exactly when the account is not deployed and the nonce is 0; the code's
    factory and factory data are then the account's factory and its
    createAccount call.  The account's address is asked from the factory once
    and kept; once deployed, an account is never asked about again. *)
Theorem lightAccount_spec la contractAddress callData nonce g gs op call codeAt :
  (forall b, length b = 20%nat -> BytesToAddress b = b) ->
  length (la_accountFactoryAddress la) = 20%nat ->
  newUserOperation la contractAddress callData nonce (g :: gs) = Ok op ->
  (if la_isDeployed la then InitCode op = []
   else if nonce =? 0 then
     exists data, createAccountCallData la = Ok data /\
       GetFactory op = la_accountFactoryAddress la /\ GetFactoryData op = data
   else InitCode op = []) /\
  uo_Nonce op = i64 nonce /\ Sender op = la_accountAddress la /\
  (forall la' a, la_Address call la = (la', Ok a) -> a <> zero_address ->
     la_accountAddress la' = a /\ forall call', la_Address call' la' = (la', Ok a)) /\
  (forall la', la_IsDeployed codeAt la = (la', Ok true) ->
     forall codeAt', la_IsDeployed codeAt' la' = (la', Ok true)).
Proof.
  intros Hb Hf H. unfold newUserOperation in H.
  apply go_bind_Ok in H as (ex & _ & H). apply go_bind_Ok in H as (ic & Hic & [= <-]). cbn [InitCode].
  split_and!; [|done|done| |].
  - destruct (la_isDeployed la); cbn in Hic; [by simplify_eq|].
    destruct (nonce =? 0); [|by simplify_eq]. unfold la_initCode in Hic.
    apply go_bind_Ok in Hic as (data & Hd & [= <-]). exists data. split; [done|].
    unfold GetFactory, GetFactoryData. cbn [InitCode].
    rewrite (proj2 (Nat.ltb_ge _ _)) by (rewrite length_app; lia).
    rewrite take_app_length', drop_app_length' by done. by rewrite Hb.
  - intros la' a H Ha. unfold la_Address in H.
    destruct (bool_decide (la_accountAddress la = zero_address)) eqn:E; cbn [negb] in H.
    + destruct (go_bind _ _); simplify_eq. split; [done|]. intros call'. unfold la_Address.
      cbn [la_accountAddress]. by rewrite bool_decide_false.
    + simplify_eq. split; [done|]. intros call'. unfold la_Address. by rewrite E.
  - intros la' H codeAt'. unfold la_IsDeployed in *. destruct (la_isDeployed la) eqn:E.
    + simplify_eq. by rewrite E.
    + destruct (la_Code codeAt la); try done. injection H as <- Hd. cbn [la_isDeployed]. by rewrite Hd.
Qed.
End UserOps.

(** ** Witnesses *)

Definition model_ethbytes : EthBytes := {|
  LeftPadBytes b n := repeat 0 (n - length b) ++ b;
  BytesToHash b := b;
  Keccak256Hash b := repeat 0 31 ++ [Z.of_nat (length b) mod 256];
  abi_Arguments_Pack l := Ok (repeat 0 (length l));
  abi_Method_Pack c m l := Ok [Z.of_nat (String.length m)]
|}.

Lemma model_ethbytes_laws : @EthBytesLaws model_ethbytes.
Proof. constructor; cbn; intros; rewrite ?length_app; done. Qed.

Definition demo_op : UserOperation :=
  {| Sender := repeat 7 20; uo_Nonce := 3; InitCode := []; CallData := [1; 2]; CallGasLimit := 22000;
     VerificationGasLimit := 75000; PreVerificationGas := 21000; MaxFeePerGas := 5;
     MaxPriorityFeePerGas := 2; Paymaster := repeat 9 20; PaymasterVerificationGasLimit := 300000;
     PaymasterPostOpGasLimit := 0; PaymasterData := [4]; Signature := [] |}.

Lemma Pack_roundtrip_witness :
  exists pk, @Pack model_ethbytes demo_op = Ok pk /\
    be_value (take 16 (AccountGasLimits pk)) = 75000 /\ be_value (drop 16 (AccountGasLimits pk)) = 22000.
Proof.
  destruct (@Pack_roundtrip model_ethbytes model_ethbytes_laws demo_op) as [_ H].
  destruct H as (pk & H1 & _ & _ & H2 & H3 & _); [split; cbn; lia..|].
  exists pk. exact (conj H1 (conj H2 H3)).
Defined.

Definition demo_packed : PackedUserOperation :=
  match @Pack model_ethbytes demo_op with
  | Ok pk => pk
  | _ => {| pk_Sender := []; pk_Nonce := 0; pk_InitCode := []; pk_CallData := []; AccountGasLimits := [];
            pk_PreVerificationGas := 0; GasFees := []; PaymasterAndData := []; pk_Signature := [] |}
  end.

Definition demo_uo_signer : signer :=
  {| sg_entryPointAddress := repeat 5 20; sg_chainID := 1776;
     sg_personalSignFn _ _ := Ok (repeat 0 64 ++ [1]); sg_signerAddress := zero_address |}.

Lemma SignUserOperation_spec_witness :
  exists pk' hash, @SignUserOperation model_ethbytes demo_uo_signer demo_op = Ok (pk', hash) /\
    pk_Signature pk' = 0 :: repeat 0 64 ++ [28].
Proof.
  destruct (@SignUserOperation_spec model_ethbytes demo_uo_signer demo_op demo_packed (repeat 0 31 ++ [3])
    (repeat 0 64 ++ [1])) as [H _]; [reflexivity|reflexivity|reflexivity|].
  destruct H as (pk' & v & H1 & Hv & H2 & _); [cbn; lia|].
  exists pk', (repeat 0 31 ++ [3]). injection Hv as <-. exact (conj H1 H2).
Defined.

Definition demo_la : lightAccount :=
  {| la_entrypointAddress := repeat 5 20; la_accountFactoryAddress := repeat 6 20;
     la_accountAddress := repeat 7 20; la_eoaOwner := repeat 8 20; la_salt := 1;
     la_isDeployed := false |}.

Definition demo_gas : UserOperationGasEstimates :=
  {| ge_CallGasLimit := 22000; ge_VerificationGasLimit := 75000; ge_PreVerificationGas := 21000;
     ge_MaxFeePerGas := 0; ge_MaxPriorityFeePerGas := 0 |}.

Definition demo_first_op : UserOperation :=
  match @newUserOperation model_ethbytes demo_la (repeat 3 20) [1] 0 [demo_gas] with
  | Ok op => op
  | _ => demo_op
  end.

Lemma lightAccount_spec_witness :
  exists data, @createAccountCallData model_ethbytes demo_la = Ok data /\
    @GetFactory model_eth demo_first_op = repeat 6 20 /\ GetFactoryData demo_first_op = data.
Proof.
  destruct (@lightAccount_spec model_ethbytes model_eth demo_la (repeat 3 20) [1] 0 demo_gas [] demo_first_op
    (fun _ _ => Ok []) (fun _ => Ok [])) as [H _]; [|reflexivity|reflexivity|exact H].
  intros b Hb. cbn [BytesToAddress model_eth]. by rewrite Hb.
Defined.
