(* ===== verification/UserOpPayload.v ===== *)
(** * Package payload: the user-operation provider

    [NewLightAccount] and the entry point's call data (eth/aa), and the
    provider of eth_userop_stress.go, which sends fifty user operations of the
    sender's light account in every transaction. *)

From Stdlib Require Import ZArith Lia Ascii String.
From stdpp Require Import base list strings numbers gmap.
From S2P Require Import Prelude GoStrings Float64 Sdk SdkModel Chain Payload EthPayload UserOp.

Open Scope string_scope.
Open Scope Z_scope.
Open Scope list_scope.

(** What the providers read over Ethereum JSON-RPC, and the ABI encoding of
    [handleOps]. *)
Class EthNode := {
  rpc_Dial : string -> option error;
  rpc_ChainID : go Z;
  rpc_CallContract : bytes -> bytes -> go bytes;
  rpc_CodeAt : bytes -> go bytes;
  rpc_GetNonce : bytes -> Z -> go Z;
  rpc_BalanceOf : bytes -> go Z;
  abi_handleOps : list PackedUserOperation -> bytes -> go bytes
}.

Section UserOpProvider.
Context `{TC : TxConfig, CR : Crypto, SM : SdkMath, EL : EthLib, EBD : !EthBuild, EB : EthBytes, EN : EthNode}.

(** ** light_account.go, entrypoint.go *)

(** [if err != nil { return nil, errors.Wrap(err, msg) }] *)
Definition check (msg : string) (err : option error) : go unit :=
  match err with Some e => Err (EWrap msg e) | None => Ok () end.

Definition NewLightAccount (ethRPCURL : string) (chainID : Z)
    (entrypointAddress accountFactoryAddress eoaOwner : bytes) (salt : Z) : go lightAccount :=
  let la :=
    {| la_entrypointAddress := entrypointAddress; la_accountFactoryAddress := accountFactoryAddress;
       la_accountAddress := zero_address; la_eoaOwner := eoaOwner; la_salt := salt;
       la_isDeployed := false |} in
  let! _ := check "failed to dial eth RPC endpoint" (rpc_Dial ethRPCURL) in
  let! _ := check "failed to wrap LightAccountFactory contract" (abi_Get "LightAccountFactory") in
  let! _ := check "failed to get LightAccountFactory contract ABI bindings"
              (abi_Get "LightAccountFactory") in
  let! _ := check "failed to wrap LightAccount contract" (abi_Get "LightAccount") in
  let! _ := check "failed to get LightAccount contract ABI bindings" (abi_Get "LightAccount") in
  let! _ := check "failed to wrap IEntryPoint contract" (abi_Get "IEntryPoint") in
  let! _ := check "failed to get IEntryPoint contract ABI bindings" (abi_Get "IEntryPoint") in
  let! rpcChainID := go_wrap "failed to get chain ID from RPC" rpc_ChainID in
  when negb (rpcChainID =? chainID)
    raise ENew ("chain ID mismatch: expected " +:+ strconv_Itoa chainID +:+ ", got "
                +:+ strconv_Itoa rpcChainID);
  let '(la1, addr) := la_Address rpc_CallContract la in
  let! _ := go_wrap "post-check after light account init: failed to get address (even optimistically)"
              addr in
  let '(la2, deployed) := la_IsDeployed rpc_CodeAt la1 in
  let! _ := go_wrap "post-check after light account init: failed to check if account is deployed"
              deployed in
  Ok la2.

Definition la_NonceOf (la : lightAccount) (key : Z) : go Z :=
  let! res := go_wrap "failed to get nonce" (rpc_GetNonce (la_accountAddress la) key) in
  Ok (big_Uint64 res).

(** A new operation for the account, at a given nonce or at the entry point's for
    the account's key 0. *)
Definition NewUserOperationWithNonce (la : lightAccount) (contractAddress callData : bytes) (nonce : Z)
    (gasEstimates : list UserOperationGasEstimates) : go UserOperation :=
  newUserOperation la contractAddress callData nonce gasEstimates.

Definition NewUserOperation (la : lightAccount) (contractAddress callData : bytes)
    (gasEstimates : list UserOperationGasEstimates) : go UserOperation :=
  let! dynamicNonce := go_wrap "failed to get account nonce" (la_NonceOf la 0) in
  newUserOperation la contractAddress callData dynamicNonce gasEstimates.

Lemma NewUserOperation_nonce la contractAddress callData gs op :
  NewUserOperation la contractAddress callData gs = Ok op ->
  exists n, la_NonceOf la 0 = Ok n /\ NewUserOperationWithNonce la contractAddress callData n gs = Ok op /\
    uo_Nonce op = i64 n /\ Sender op = la_accountAddress la.
Proof.
  unfold NewUserOperation, NewUserOperationWithNonce. intros (n & Hn & H)%go_bind_Ok.
  exists n. destruct (la_NonceOf la 0); try done. cbn in Hn. injection Hn as ->. split_and!; [done|done|..];
    unfold newUserOperation in H; destruct gs as [|g gs]; try done;
    apply go_bind_Ok in H as (ex & _ & H); apply go_bind_Ok in H as (ic & _ & H); by injection H as <-.
Qed.

Definition la_Balance (la : lightAccount) : go Z :=
  go_wrap "failed to get balance" (rpc_BalanceOf (la_eoaOwner la)).

Definition DepositToEntrypointCallData (la : lightAccount) : go bytes :=
  go_wrap "failed to pack depositToEntrypoint call data"
    (abi_Method_Pack "IEntryPoint" "depositTo" [AAddress (la_eoaOwner la)]).

Record entrypoint := { ep_entrypointAddress : bytes; ep_beneficiaryAddress : bytes }.

Definition NewEntrypoint (ethRPCURL : string) (chainID : Z) (entrypointAddress beneficiaryAddress : bytes)
    : go entrypoint :=
  let! _ := check "failed to dial eth RPC endpoint" (rpc_Dial ethRPCURL) in
  let! _ := check "failed to wrap IEntryPoint contract" (abi_Get "IEntryPoint") in
  let! _ := check "failed to get IEntryPoint contract ABI bindings" (abi_Get "IEntryPoint") in
  let! rpcChainID := go_wrap "failed to get chain ID from RPC" rpc_ChainID in
  when negb (rpcChainID =? chainID)
    raise ENew ("chain ID mismatch: expected " +:+ strconv_Itoa chainID +:+ ", got "
                +:+ strconv_Itoa rpcChainID);
  Ok {| ep_entrypointAddress := entrypointAddress; ep_beneficiaryAddress := beneficiaryAddress |}.

Definition HandleOpsCallData (e : entrypoint) (userOps : list PackedUserOperation) (beneficiary : bytes)
    : go bytes :=
  go_wrap "failed to pack handleOps call data" (abi_handleOps userOps beneficiary).

(** ** eth_userop_stress.go *)

Record ethUserOpProvider := {
  up_signer : ethTxBuilderAndSigner;
  up_minGasPrice : Coin;
  up_maxGasLimitPerUserOp : Z;
  up_maxGasLimitInitialTx : Z;
  up_ethRPCURL : string;
  up_chainID : Z;
  up_entrypoint : entrypoint;
  up_entrypointAddress : bytes;
  up_accountFactoryAddress : bytes;
  lightAccounts : gmap Z lightAccount;
  lightAccountNonces : gmap Z Z;
  up_counterContractAddress : bytes
}.

Definition defaultAccountSalt : Z := 1.

Definition NewEthUserOpProvider (ethRPCURL : string) (ethChainID : Z) (minGasPrice : string)
    (entrypointAddress beneficiaryAddress accountFactoryAddress counterContractAddress : bytes)
    : go ethUserOpProvider :=
  let! price := eth_minGasPrice minGasPrice in
  let! ep := go_wrap "failed to create entrypoint"
    (NewEntrypoint ethRPCURL (i64 ethChainID) accountFactoryAddress beneficiaryAddress) in
  let! _ := check "failed to parse Counter contract ABI" (abi_Get "Counter") in
  Ok {| up_signer := {| es_chainID := ethChainID; feeDenom := Denom price |};
        up_minGasPrice := price; up_maxGasLimitPerUserOp := 42000; up_maxGasLimitInitialTx := 230000;
        up_ethRPCURL := ethRPCURL; up_chainID := i64 ethChainID; up_entrypoint := ep;
        up_entrypointAddress := entrypointAddress;
        up_accountFactoryAddress := accountFactoryAddress;
        lightAccounts := ∅; lightAccountNonces := ∅;
        up_counterContractAddress := counterContractAddress |}.

Definition with_accounts (p : ethUserOpProvider) (accs : gmap Z lightAccount) (nonces : gmap Z Z)
    : ethUserOpProvider :=
  {| up_signer := up_signer p; up_minGasPrice := up_minGasPrice p;
     up_maxGasLimitPerUserOp := up_maxGasLimitPerUserOp p;
     up_maxGasLimitInitialTx := up_maxGasLimitInitialTx p; up_ethRPCURL := up_ethRPCURL p;
     up_chainID := up_chainID p; up_entrypoint := up_entrypoint p;
     up_entrypointAddress := up_entrypointAddress p;
     up_accountFactoryAddress := up_accountFactoryAddress p;
     lightAccounts := accs; lightAccountNonces := nonces;
     up_counterContractAddress := up_counterContractAddress p |}.

(** The gas estimates of every operation. *)
Definition userop_gas : UserOperationGasEstimates :=
  {| ge_CallGasLimit := 22000; ge_VerificationGasLimit := 75000; ge_PreVerificationGas := 21000;
     ge_MaxFeePerGas := 0; ge_MaxPriorityFeePerGas := 0 |}.

Definition userop_signer (p : ethUserOpProvider) (req : TxRequest) : signer :=
  NewSigner (up_entrypointAddress p) (es_chainID (up_signer p))
    (fun _ data => ecdsa_Sign (Keccak256Hash data) (Key (From req))) zero_address.

Definition opsPerTx : nat := 50.

(** [n] more operations; the nonce map is read and advanced for each. *)
Fixpoint userop_loop (p : ethUserOpProvider) (req : TxRequest) (la : lightAccount) (callData : bytes)
    (n : nat) (nonces : gmap Z Z) : gmap Z Z * go (list PackedUserOperation) :=
  match n with
  | O => (nonces, Ok [])
  | S n' =>
      let nonce := default 0 (nonces !! FromIdx req) in
      match newUserOperation la (up_counterContractAddress p) callData nonce [userop_gas] with
      | Err e => (nonces, Err (EWrap "failed to create user operation" e))
      | Panic m => (nonces, Panic m)
      | Ok userOp =>
          let nonces := <[FromIdx req := u64 (nonce + 1)]> nonces in
          match SignUserOperation (userop_signer p req) userOp with
          | Err e =>
              (nonces, Err (EWrap ("failed to sign user operation (idx: "
                 +:+ strconv_Itoa (Z.of_nat (opsPerTx - n)) +:+ ", account: "
                 +:+ strconv_Itoa (FromIdx req) +:+ ", nonce: " +:+ strconv_Itoa nonce +:+ ")") e))
          | Panic m => (nonces, Panic m)
          | Ok (packedUO, _) =>
              let '(nonces', r) := userop_loop p req la callData n' nonces in
              (nonces', let! rest := r in Ok (packedUO :: rest))
          end
      end
  end.

Definition userop_GenerateTx (p : ethUserOpProvider) (req : TxRequest) : ethUserOpProvider * go baseTx :=
  if bool_decide (up_counterContractAddress p = zero_address)
  then (p, Err (ENew "counter contract address is not set"))
  else
    match go_wrap "failed to pack counter call calldata" (abi_Method_Pack "Counter" "increase" []) with
    | Err e => (p, Err e)
    | Panic m => (p, Panic m)
    | Ok callData =>
        match lightAccounts p !! FromIdx req with
        | None =>
            (p, Err (ENew ("light account not found for " +:+ strconv_Itoa (FromIdx req) +:+ " ("
                           +:+ Name (From req) +:+ ")")))
        | Some la =>
            let '(nonces, r) := userop_loop p req la callData opsPerTx (lightAccountNonces p) in
            (with_accounts p (lightAccounts p) nonces,
             let! userOps := r in
             let! data := go_wrap "failed to pack handleOps calldata"
               (HandleOpsCallData (up_entrypoint p) userOps (EthAddress BytesToAddress (From req))) in
             Ok (request_tx req
               [eth_msg req (Some (up_entrypointAddress p)) noValue
                  (u64 (up_maxGasLimitPerUserOp p * Z.of_nat (length userOps)))
                  (Amount (up_minGasPrice p)) data]))
        end
    end.

Definition minAccountBalanceOnEndpoint : Z := 1000000000000000000.
Definition endpointAccountBalanceTopup : Z := 1500000000000000000.

Definition which_account (req : TxRequest) : string :=
  " (idx: " +:+ strconv_Itoa (FromIdx req) +:+ "; account: " +:+ Name (From req) +:+ ")".

Definition userop_GenerateInitialTx (p : ethUserOpProvider) (req : TxRequest)
    : ethUserOpProvider * go (option baseTx) :=
  match NewLightAccount (up_ethRPCURL p) (up_chainID p) (up_entrypointAddress p)
          (up_accountFactoryAddress p) (EthAddress BytesToAddress (From req)) defaultAccountSalt with
  | Err e => (p, Err (EWrap ("failed to create light account" +:+ which_account req) e))
  | Panic m => (p, Panic m)
  | Ok la =>
      let p1 := with_accounts p (<[FromIdx req := la]> (lightAccounts p)) (lightAccountNonces p) in
      match la_NonceOf la 0 with
      | Err e => (p1, Err (EWrap ("failed to sync nonce for light account" +:+ which_account req) e))
      | Panic m => (p1, Panic m)
      | Ok nonce =>
          let p2 := with_accounts p1 (lightAccounts p1)
                      (<[FromIdx req := nonce]> (lightAccountNonces p1)) in
          match la_Balance la with
          | Err e => (p2, Err (EWrap ("failed to get balance for light account" +:+ which_account req) e))
          | Panic m => (p2, Panic m)
          | Ok balance =>
              if minAccountBalanceOnEndpoint <=? balance then (p2, Ok None)
              else
                (p2,
                 let! depositCallData :=
                   go_wrap ("failed to get deposit to entrypoint call data for light account"
                            +:+ which_account req)
                     (DepositToEntrypointCallData la) in
                 Ok (Some (request_tx req
                   [eth_msg req (Some (up_entrypointAddress p)) endpointAccountBalanceTopup
                      (up_maxGasLimitInitialTx p) (Amount (up_minGasPrice p)) depositCallData])))
          end
      end
  end.

#[export] Instance userop_TxProvider : TxProvider ethUserOpProvider := {|
  prov_Name _ := "eth_userop_stress";
  GenerateInitialTx _ p req := userop_GenerateInitialTx p req;
  GenerateTx _ p req := userop_GenerateTx p req;
  BuildAndSignTx p c t := (p, (eth_BuildAndSignTx (up_signer p) c t).1,
                           (eth_BuildAndSignTx (up_signer p) c t).2)
|}.

(** ** Nonces *)

Lemma SignUserOperation_keeps s op pk h :
  SignUserOperation s op = Ok (pk, h) ->
  pk_Sender pk = Sender op /\ pk_CallData pk = CallData op /\ pk_Nonce pk = uo_Nonce op /\
  pk_InitCode pk = InitCode op.
Proof.
  unfold SignUserOperation. intros H. apply go_bind_Ok in H as (pk0 & Hp & H).
  do 3 apply go_bind_Ok in H as (? & _ & H). injection H as <- <-. cbn.
  unfold Pack in Hp. cbv zeta in Hp. repeat case_match; try done; by injection Hp as <-.
Qed.

Lemma newUserOperation_fields la addr data nonce g op :
  newUserOperation la addr data nonce [g] = Ok op ->
  Sender op = la_accountAddress la /\ executeCallData la addr data = Ok (CallData op) /\
  uo_Nonce op = i64 nonce /\ (la_isDeployed la || negb (nonce =? 0) = true -> InitCode op = []).
Proof.
  unfold newUserOperation. intros H. apply go_bind_Ok in H as (ex & Hex & H).
  apply go_bind_Ok in H as (ic & Hic & [= <-]). split_and!; [done|done|done|]. cbn. intros Hd.
  destruct (la_isDeployed la), (nonce =? 0); cbn in *; by simplify_eq.
Qed.

(** The operations of a batch are signed operations of the light account [la] that
    execute the call [callData] of the counter; the [k]-th has the [k]-th nonce
    from [base], and only an operation with nonce 0 of an undeployed account
    creates it. *)
Definition is_batch (p : ethUserOpProvider) (req : TxRequest) (la : lightAccount) (callData : bytes) (base : Z)
    (ops : list PackedUserOperation) : Prop :=
  forall k pk, ops !! k = Some pk ->
    (exists op h, SignUserOperation (userop_signer p req) op = Ok (pk, h)) /\
    pk_Sender pk = la_accountAddress la /\
    executeCallData la (up_counterContractAddress p) callData = Ok (pk_CallData pk) /\
    pk_Nonce pk = i64 (u64 (base + Z.of_nat k)) /\
    (la_isDeployed la || negb (u64 (base + Z.of_nat k) =? 0) = true -> pk_InitCode pk = []).

Lemma userop_loop_spec p req la callData n nonces nonces' r :
  is_u64 (default 0 (nonces !! FromIdx req)) ->
  userop_loop p req la callData n nonces = (nonces', r) ->
  (forall k, k <> FromIdx req -> nonces' !! k = nonces !! k) /\
  is_u64 (default 0 (nonces' !! FromIdx req)) /\
  forall ops, r = Ok ops -> length ops = n /\
    is_batch p req la callData (default 0 (nonces !! FromIdx req)) ops /\
    default 0 (nonces' !! FromIdx req) = u64 (default 0 (nonces !! FromIdx req) + Z.of_nat n).
Proof.
  revert nonces nonces' r. induction n as [|n IH]; intros nonces nonces' r Hu H; cbn [userop_loop] in H.
  - injection H as <- <-. split_and!; [done|done|]. intros ops [= <-]. split_and!; [done|done|].
    rewrite Z.add_0_r. by rewrite u64_id.
  - set (base := default 0 (nonces !! FromIdx req)) in *.
    destruct (newUserOperation la _ callData base [userop_gas]) as [op| |] eqn:En;
      [|injection H as <- <-; done..].
    set (nonces1 := <[FromIdx req := u64 (base + 1)]> nonces) in *.
    assert (Hoth : forall k, k <> FromIdx req -> nonces1 !! k = nonces !! k)
      by (intros k Hk; by apply lookup_insert_ne).
    assert (Hb1 : default 0 (nonces1 !! FromIdx req) = u64 (base + 1)) by (unfold nonces1; by rewrite lookup_insert_eq).
    assert (Hu1 : is_u64 (default 0 (nonces1 !! FromIdx req))) by (rewrite Hb1; apply u64_range).
    destruct (SignUserOperation _ op) as [[pk h]| |] eqn:Es; [|injection H as <- <-; done..].
    destruct (userop_loop p req la callData n nonces1) as [nonces2 r2] eqn:El. injection H as <- <-.
    apply IH in El as (Ho2 & Hu2 & Hr2); [|done].
    split_and!; [intros k Hk; rewrite Ho2 by done; by apply Hoth|done|].
    intros ops Hops. apply go_bind_Ok in Hops as (rest & -> & [= <-]).
    destruct (Hr2 rest eq_refl) as (Hl & Hbatch & Hn). rewrite Hb1 in *.
    assert (Hsh : forall m, u64 (u64 (base + 1) + m) = u64 (base + (1 + m))).
    { intros m. unfold u64. rewrite Z.add_mod_idemp_l by lia. f_equal. lia. }
    split_and!; [cbn; by rewrite Hl| |].
    + intros [|k] pk' Hk; cbn in Hk.
      * injection Hk as <-. rewrite Z.add_0_r, u64_id by done. split; [eauto|].
        destruct (SignUserOperation_keeps _ _ _ _ Es) as (-> & -> & -> & ->). by apply newUserOperation_fields in En.
      * destruct (Hbatch k pk' Hk) as (Hsig & Hs & Hc & H1 & H2). rewrite Hsh in H1, H2.
        replace (base + Z.of_nat (S k)) with (base + (1 + Z.of_nat k)) by lia. done.
    + rewrite Hn, Hsh. f_equal. lia.
Qed.

(** ** The providers of a run *)

Section Provider.
Context (ethRPCURL : string) (ethChainID : Z) (minGasPrice : string).
Context (entrypointAddress beneficiaryAddress accountFactoryAddress counterContractAddress : bytes).

(** What the constructor makes, and what the provider's methods make of it. *)
Inductive userop_provider : ethUserOpProvider -> Prop :=
| userop_new p :
    NewEthUserOpProvider ethRPCURL ethChainID minGasPrice entrypointAddress beneficiaryAddress
      accountFactoryAddress counterContractAddress = Ok p -> userop_provider p
| userop_after_initial p req : userop_provider p -> userop_provider (userop_GenerateInitialTx p req).1
| userop_after_tx p req : userop_provider p -> userop_provider (userop_GenerateTx p req).1.

(** The light account made for an account of this index. *)
Definition light_account_of (i : Z) (la : lightAccount) : Prop :=
  exists req, FromIdx req = i /\
    NewLightAccount ethRPCURL (i64 ethChainID) entrypointAddress accountFactoryAddress
      (EthAddress BytesToAddress (From req)) defaultAccountSalt = Ok la.

Record UserOpInv (p : ethUserOpProvider) : Prop := {
  ui_gas : up_maxGasLimitPerUserOp p = 42000;
  ui_price : eth_minGasPrice minGasPrice = Ok (up_minGasPrice p);
  ui_url : up_ethRPCURL p = ethRPCURL;
  ui_chain : up_chainID p = i64 ethChainID;
  ui_entrypoint : up_entrypointAddress p = entrypointAddress;
  ui_factory : up_accountFactoryAddress p = accountFactoryAddress;
  ui_counter : up_counterContractAddress p = counterContractAddress;
  ui_nonces i : is_u64 (default 0 (lightAccountNonces p !! i));
  ui_accounts i la : lightAccounts p !! i = Some la -> light_account_of i la
}.

Lemma with_accounts_inv p accs nonces :
  UserOpInv p -> (forall i, is_u64 (default 0 (nonces !! i))) ->
  (forall i la, accs !! i = Some la -> light_account_of i la) -> UserOpInv (with_accounts p accs nonces).
Proof. intros [] Hn Ha. by constructor. Qed.

Lemma insert_nonces (nonces : gmap Z Z) i n :
  is_u64 n -> (forall j, is_u64 (default 0 (nonces !! j))) -> forall j, is_u64 (default 0 (<[i := n]> nonces !! j)).
Proof.
  intros Hn Hall j. destruct (decide (i = j)) as [->|]; [by rewrite lookup_insert_eq|]. by rewrite lookup_insert_ne.
Qed.

Lemma initial_inv p req : UserOpInv p -> UserOpInv (userop_GenerateInitialTx p req).1.
Proof.
  intros Hp. unfold userop_GenerateInitialTx. destruct (NewLightAccount _ _ _ _ _ _) as [la| |] eqn:El; [|done..].
  set (p1 := with_accounts p _ _). assert (H1 : UserOpInv p1).
  { apply with_accounts_inv; [done|apply (ui_nonces p Hp)|]. intros i la'.
    destruct (decide (FromIdx req = i)) as [<-|Hne].
    - rewrite lookup_insert_eq. intros [= <-]. exists req. split; [done|].
      by rewrite <- (ui_url p Hp), <- (ui_chain p Hp), <- (ui_entrypoint p Hp), <- (ui_factory p Hp).
    - rewrite lookup_insert_ne by done. apply (ui_accounts p Hp). }
  destruct (la_NonceOf la 0) as [nonce| |] eqn:En; [|done..].
  assert (H2 : UserOpInv (with_accounts p1 (lightAccounts p1) (<[FromIdx req := nonce]> (lightAccountNonces p1)))).
  { apply with_accounts_inv; [done| |apply (ui_accounts p1 H1)]. apply insert_nonces; [|apply (ui_nonces p1 H1)].
    unfold la_NonceOf in En. apply go_bind_Ok in En as (res & _ & [= <-]). apply u64_range. }
  destruct (la_Balance la); [|done..]. by destruct (_ <=? _).
Qed.

Lemma tx_inv p req : UserOpInv p -> UserOpInv (userop_GenerateTx p req).1.
Proof.
  intros Hp. unfold userop_GenerateTx. destruct (bool_decide _); [done|].
  destruct (go_wrap _ _) as [callData| |]; [|done..]. destruct (lightAccounts p !! FromIdx req) as [la|]; [|done].
  destruct (userop_loop p req la callData opsPerTx (lightAccountNonces p)) as [nonces rl] eqn:El.
  destruct (userop_loop_spec _ _ _ _ _ _ _ _ (ui_nonces p Hp _) El) as (Hoth & Hu & _).
  apply with_accounts_inv; [done| |apply (ui_accounts p Hp)].
  intros i. destruct (decide (i = FromIdx req)) as [->|]; [done|]. rewrite Hoth by done. apply (ui_nonces p Hp).
Qed.

Lemma userop_provider_inv p : userop_provider p -> UserOpInv p.
Proof.
  induction 1 as [p H|p req _ IH|p req _ IH]; [|by apply initial_inv|by apply tx_inv].
  unfold NewEthUserOpProvider in H. apply go_bind_Ok in H as (price & Hp & H).
  apply go_bind_Ok in H as (ep & _ & H). apply go_bind_Ok in H as (? & _ & [= <-]).
  by constructor.
Qed.

(** C29. The transactions of a user-operation provider, from its construction on and
    whatever it was asked for before.  Each carries fifty signed operations whose
    sender is the light account made for the account of that index, each of them
    executing the call of [increase] on the counter contract, with consecutive
    nonces that start where the account's previous transaction stopped (so the
    operations of consecutive transactions have distinct, gapless nonces); it goes
    to the entry point with 42000 gas an operation and the minimal gas price; other
    accounts' nonces are untouched whatever happens; and without a light account
    for the sender it is an error. *)
Theorem userop_GenerateTx_nonces p req p' r :
  userop_provider p -> userop_GenerateTx p req = (p', r) ->
  (forall k, k <> FromIdx req -> lightAccountNonces p' !! k = lightAccountNonces p !! k) /\
  lightAccounts p' = lightAccounts p /\
  (lightAccounts p !! FromIdx req = None -> is_Ok r = false) /\
  forall t, r = Ok t -> exists la callData ops data price,
    lightAccounts p !! FromIdx req = Some la /\ light_account_of (FromIdx req) la /\
    abi_Method_Pack "Counter" "increase" [] = Ok callData /\ length ops = 50%nat /\
    is_batch p req la callData (default 0 (lightAccountNonces p !! FromIdx req)) ops /\
    up_counterContractAddress p = counterContractAddress /\
    default 0 (lightAccountNonces p' !! FromIdx req) =
      u64 (default 0 (lightAccountNonces p !! FromIdx req) + 50) /\
    abi_handleOps ops (EthAddress BytesToAddress (From req)) = Ok data /\
    eth_minGasPrice minGasPrice = Ok price /\
    t = request_tx req [eth_msg req (Some entrypointAddress) 0 (42000 * 50) (Amount price) data].
Proof.
  intros Hinv%userop_provider_inv H. unfold userop_GenerateTx in H.
  destruct (bool_decide _); [injection H as <- <-; done|].
  destruct (go_wrap _ _) as [callData| |] eqn:Ecall; [|injection H as <- <-; done..].
  destruct (lightAccounts p !! FromIdx req) as [la|] eqn:Ela; [|injection H as <- <-; done].
  destruct (userop_loop p req la callData opsPerTx (lightAccountNonces p)) as [nonces rl] eqn:El.
  destruct (userop_loop_spec _ _ _ _ _ _ _ _ (ui_nonces p Hinv _) El) as (Hoth & _ & Hok). injection H as <- <-.
  split_and!; [exact Hoth|done|done|]. intros t Ht.
  apply go_bind_Ok in Ht as (ops & -> & Ht). apply go_bind_Ok in Ht as (data & Hd & [= <-]).
  apply go_wrap_Ok in Hd. unfold HandleOpsCallData in Hd. apply go_wrap_Ok in Hd. apply go_wrap_Ok in Ecall.
  destruct (Hok ops eq_refl) as (Hl & Hb & Hn). exists la, callData, ops, data, (up_minGasPrice p).
  rewrite Hl, (ui_gas p Hinv), (ui_entrypoint p Hinv).
  split_and!; [done|by apply (ui_accounts p Hinv)|done|done|done|apply Hinv|done|done|apply Hinv|done].
Qed.
End Provider.

#[export] Instance userop_laws : TxProviderLaws ethUserOpProvider.
Proof.
  constructor; cbn.
  - intros e p req t H. unfold userop_GenerateTx in H.
    destruct (bool_decide _); [done|]. destruct (go_wrap _ _); [|done..].
    destruct (lightAccounts p !! FromIdx req); [|done].
    destruct (userop_loop _ _ _ _ _ _). cbn in H.
    apply go_bind_Ok in H as (? & _ & H). apply go_bind_Ok in H as (? & _ & [= <-]). done.
  - intros p c t t'. apply eth_BuildAndSignTx_tags.
  - intros e p req t. unfold userop_GenerateInitialTx. repeat (case_match; try done). cbn.
    by intros (? & _ & [= <-])%go_bind_Ok.
Qed.
End UserOpProvider.

(** ** Witnesses *)

Definition model_ethnode : EthNode := {|
  rpc_Dial _ := None;
  rpc_ChainID := Ok 1776;
  rpc_CallContract _ _ := Ok (repeat 7 20);
  rpc_CodeAt _ := Ok [];
  rpc_GetNonce _ _ := Ok 0;
  rpc_BalanceOf _ := Ok 0;
  abi_handleOps ops b := Ok [Z.of_nat (length ops)]
|}.

Definition demo_userop : ethUserOpProvider :=
  {| up_signer := demo_eth_signer; up_minGasPrice := {| Denom := "inj"; Amount := 1000000000 |};
     up_maxGasLimitPerUserOp := 42000; up_maxGasLimitInitialTx := 230000; up_ethRPCURL := "";
     up_chainID := 1776;
     up_entrypoint := {| ep_entrypointAddress := []; ep_beneficiaryAddress := [] |};
     up_entrypointAddress := repeat 5 20; up_accountFactoryAddress := repeat 6 20;
     lightAccounts := {[1 := demo_la]}; lightAccountNonces := {[1 := 100]};
     up_counterContractAddress := repeat 3 20 |}.

(** The provider as the constructor makes it, and after its first account. *)
Definition demo_userop_new : go ethUserOpProvider :=
  @NewEthUserOpProvider model_math model_eth model_ethnode "http://127.0.0.1:8545" 1776 "1000000000inj"
    (repeat 5 20) (repeat 4 20) (repeat 6 20) (repeat 3 20).

Definition demo_userop_ready : ethUserOpProvider :=
  match demo_userop_new with
  | Ok p => (@userop_GenerateInitialTx model_crypto model_eth model_ethbytes model_ethnode p demo_req).1
  | _ => demo_userop
  end.

Lemma userop_GenerateTx_nonces_witness :
  exists p' t, @userop_GenerateTx model_crypto model_eth model_ethbytes model_ethnode demo_userop_ready demo_req
                 = (p', Ok t) /\
    default 0 (lightAccountNonces p' !! 1) = 50.
Proof.
  destruct (@userop_GenerateTx model_crypto model_eth model_ethbytes model_ethnode demo_userop_ready demo_req)
    as [p' r] eqn:E.
  destruct (@userop_GenerateTx_nonces model_crypto model_math model_eth model_ethbytes model_ethnode
    "http://127.0.0.1:8545" 1776 "1000000000inj" (repeat 5 20) (repeat 4 20) (repeat 6 20) (repeat 3 20)
    demo_userop_ready demo_req p' r) as (_ & _ & _ & H); [|exact E|].
  - apply userop_after_initial, userop_new. reflexivity.
  - destruct r as [t| |]; [|vm_compute in E; discriminate E..].
    destruct (H t eq_refl) as (la & callData & ops & data & price & _ & _ & _ & _ & _ & _ & Hn & _).
    exists p', t. split; [reflexivity|]. exact Hn.
Defined.
