(* ===== verification/EthClient.v ===== *)
(** * Package eth/client: the Ethereum client (ethclient.go)

    [SendTransactionWithRet] and the transactor [TransactFn] builds: resolving
    nonce, gas price and gas limit, building, signing and sending a transaction.
    What the node answers is a parameter; the calls a transactor makes to it are
    recorded in order, so that the theorem can say which are made. *)

From Stdlib Require Import ZArith Lia Ascii String.
From stdpp Require Import base list strings numbers.
From S2P Require Import Prelude GoStrings Sdk SdkModel UserOp.

Open Scope string_scope.
Open Scope Z_scope.
Open Scope list_scope.

(** ** The node's methods *)

(** ethereum.CallMsg, the fields that are set. *)
Record CallMsg := {
  cm_From : bytes;
  cm_To : option bytes;
  cm_GasPrice : Z;
  cm_Value : Z;
  cm_Data : bytes
}.

(** A signed types.Transaction: its contents and signature. *)
Record SignedTx := { st_tx : LegacyTx; st_sig : bytes }.

(** A call to the node. *)
Inductive NodeCall :=
| CallPendingNonceAt (account : bytes)
| CallSuggestGasPrice
| CallPendingCodeAt (account : bytes)
| CallEstimateGas (msg : CallMsg)
| CallRPC (method : string) (param : string).

(** go-ethereum's hexutil, and the addresses' text. *)
Class HexUtil := {
  hexutil_Encode : bytes -> string;
  hexutil_Decode : string -> go bytes;
  hexutil_EncodeBig : Z -> string;
  hexutil_DecodeBig : string -> go Z;
  HexToAddress : string -> bytes;
  Address_text : bytes -> string
}.

(** Documented: what is encoded decodes to itself; integers up to 256 bits. *)
Class HexUtilLaws `{HexUtil} := {
  hexutil_bytes b : Forall is_byte b -> hexutil_Decode (hexutil_Encode b) = Ok b;
  hexutil_big x : 0 <= x < 2 ^ 256 -> hexutil_DecodeBig (hexutil_EncodeBig x) = Ok x;
  Address_hex a : length a = 20%nat -> Forall is_byte a -> HexToAddress (Address_text a) = a
}.

(** go-ethereum's client and encoders. *)
Class EthBackend := {
  PendingNonceAt : bytes -> go Z;
  SuggestGasPrice : go Z;
  PendingCodeAt : bytes -> go bytes;
  EstimateGas : CallMsg -> go Z;
  rlp_EncodeToBytes : SignedTx -> go bytes;
  (** the hash in the answer to a call of this method with this parameter *)
  rpc_CallHash : string -> string -> go bytes
}.

(** ** Calls in order

    A computation with the calls it made. *)

Definition traced (A : Type) : Type := list NodeCall * go A.

Definition t_ret {A} (m : go A) : traced A := ([], m).
Definition t_call {A} (c : NodeCall) (m : go A) : traced A := ([c], m).
Definition t_bind {A B} (m : traced A) (k : A -> traced B) : traced B :=
  match m with
  | (calls, Ok a) => let '(more, r) := k a in (calls ++ more, r)
  | (calls, Err e) => (calls, Err e)
  | (calls, Panic p) => (calls, Panic p)
  end.

Notation "'let*' x ':=' m 'in' k" := (t_bind m (fun x => k))
  (at level 10, x pattern, m at level 100, k at level 200) : go_scope.

(** [errors.Errorf(msg + ": %v", err)]: a new error with the message of the old. *)
Definition go_errorf {A} (msg : string) (m : go A) : go A :=
  match m with
  | Err e => Err (ENew (msg +:+ Error e))
  | r => r
  end.

Section Client.
Context `{EB : EthBackend, HU : HexUtil}.

Definition SendTransactionWithRet (tx : SignedTx) : traced bytes :=
  let* data := t_ret (rlp_EncodeToBytes tx) in
  t_call (CallRPC "eth_sendRawTransaction" (hexutil_Encode data))
    (rpc_CallHash "eth_sendRawTransaction" (hexutil_Encode data)).

(** bind.TransactOpts, the fields that are read; a nil pointer is [None]. *)
Record TransactOpts := {
  opt_From : bytes;
  opt_Nonce : option Z;
  opt_Signer : option (bytes -> LegacyTx -> go SignedTx);
  opt_Value : option Z;
  opt_GasPrice : option Z;
  opt_GasLimit : Z
}.

Definition errNoCode : error := ENew "no contract code at given address".

Definition transact_nonce (opts : TransactOpts) : traced Z :=
  match opt_Nonce opts with
  | None =>
      t_call (CallPendingNonceAt (opt_From opts))
        (go_errorf "failed to retrieve account nonce: " (PendingNonceAt (opt_From opts)))
  | Some n => t_ret (Ok (big_Uint64 n))
  end.

Definition transact_gasPrice (opts : TransactOpts) : traced Z :=
  match opt_GasPrice opts with
  | None => t_call CallSuggestGasPrice (go_errorf "failed to suggest gas price: " SuggestGasPrice)
  | Some p => t_ret (Ok p)
  end.

(** The code at the contract's address, when a contract is called. *)
Definition transact_code (contractAddress : bytes) (contract : option bytes) : traced unit :=
  match contract with
  | None => t_ret (Ok ())
  | Some _ =>
      let* code := t_call (CallPendingCodeAt contractAddress) (PendingCodeAt contractAddress) in
      t_ret (when bool_decide (code = []) raise errNoCode; Ok ())
  end.

Definition transact_gasLimit (contractAddress : bytes) (opts : TransactOpts) (contract : option bytes)
    (value gasPrice : Z) (input : bytes) : traced Z :=
  if opt_GasLimit opts =? 0 then
    let* _ := transact_code contractAddress contract in
    let msg := {| cm_From := opt_From opts; cm_To := contract; cm_GasPrice := gasPrice;
                  cm_Value := value; cm_Data := input |} in
    t_call (CallEstimateGas msg) (go_errorf "failed to estimate gas needed: " (EstimateGas msg))
  else t_ret (Ok (opt_GasLimit opts)).

Definition transact_raw (contractAddress : bytes) (contract : option bytes)
    (nonce value gasLimit gasPrice : Z) (input : bytes) : LegacyTx :=
  {| Nonce := nonce; To := match contract with None => None | Some _ => Some contractAddress end;
     Value := value; Gas := gasLimit; GasPrice := gasPrice; Data := input |}.

(** The function [TransactFn(p, contractAddress, &txHashOut)] returns, with the
    variable behind the pointer. *)
Definition TransactFn (contractAddress : bytes) (txHashOut : bytes) (opts : TransactOpts)
    (contract : option bytes) (input : bytes) : bytes * traced SignedTx :=
  let value := default 0 (opt_Value opts) in
  let prepared :=
    let* nonce := transact_nonce opts in
    let* gasPrice := transact_gasPrice opts in
    let* gasLimit := transact_gasLimit contractAddress opts contract value gasPrice input in
    let rawTx := transact_raw contractAddress contract nonce value gasLimit gasPrice input in
    match opt_Signer opts with
    | None => t_ret (Err (ENew "no signer to authorize the transaction with"))
    | Some sign =>
        let* signedTx := t_ret (sign (opt_From opts) rawTx) in
        let* txHash := SendTransactionWithRet signedTx in
        t_ret (Ok (signedTx, txHash))
    end in
  match prepared with
  | (calls, Ok (signedTx, txHash)) => (txHash, (calls, Ok signedTx))
  | (calls, Err e) => (txHashOut, (calls, Err e))
  | (calls, Panic p) => (txHashOut, (calls, Panic p))
  end.

(** ** What a transactor does *)

Lemma t_bind_Ok {A B} (m : traced A) (k : A -> traced B) calls b :
  t_bind m k = (calls, Ok b) ->
  exists c1 a c2, m = (c1, Ok a) /\ k a = (c2, Ok b) /\ calls = c1 ++ c2.
Proof.
  destruct m as [c1 [a|e|p]]; cbn; [|done..]. destruct (k a) as [c2 r] eqn:E.
  intros [= <- ->]. eauto 8.
Qed.

Lemma t_ret_Ok {A} (m : go A) calls (a : A) : t_ret m = (calls, Ok a) -> calls = [] /\ m = Ok a.
Proof. by intros [= <- ->]. Qed.

Lemma t_call_Ok {A} c (m : go A) calls (a : A) : t_call c m = (calls, Ok a) -> calls = [c] /\ m = Ok a.
Proof. by intros [= <- ->]. Qed.

Lemma go_errorf_Ok {A} msg (m : go A) a : go_errorf msg m = Ok a -> m = Ok a.
Proof. by destruct m. Qed.

(** A broadcast. *)
Definition is_send (c : NodeCall) : bool := match c with CallRPC _ _ => true | _ => false end.

Definition sends (calls : list NodeCall) : nat := length (List.filter is_send calls).

Lemma sends_app c1 c2 : sends (c1 ++ c2) = (sends c1 + sends c2)%nat.
Proof. unfold sends. by rewrite List.filter_app, length_app. Qed.

Lemma nonce_sends opts : sends (transact_nonce opts).1 = 0%nat.
Proof. unfold transact_nonce. by destruct (opt_Nonce opts). Qed.

Lemma gasPrice_sends opts : sends (transact_gasPrice opts).1 = 0%nat.
Proof. unfold transact_gasPrice. by destruct (opt_GasPrice opts). Qed.

Lemma gasLimit_sends a opts c v p i : sends (transact_gasLimit a opts c v p i).1 = 0%nat.
Proof.
  unfold transact_gasLimit, transact_code. destruct (opt_GasLimit opts =? 0); [|done].
  destruct c as [x|]; [|done]. unfold t_call. cbn [t_bind].
  destruct (PendingCodeAt a) as [code|e|m]; cbn [t_bind]; [|done..]. by destruct (bool_decide _).
Qed.

(** At most one call sends, and it is the last. *)
Definition send_last (calls : list NodeCall) : Prop :=
  sends calls = 0%nat \/ exists before c, calls = before ++ [c] /\ sends before = 0%nat /\ is_send c = true.

Lemma send_last_bind {A B} (m : traced A) (k : A -> traced B) :
  sends m.1 = 0%nat -> (forall a, send_last (k a).1) -> send_last (t_bind m k).1.
Proof.
  destruct m as [c1 [a|e|p]]; cbn [fst t_bind]; intros H0 Hk; [|by left..].
  specialize (Hk a). destruct (k a) as [c2 r]. cbn [fst] in *.
  destruct Hk as [Hz|(before & c & -> & Hb & Hc)]; [left; rewrite sends_app; lia|right].
  exists (c1 ++ before), c. rewrite app_assoc, sends_app. split_and!; [done|lia|done].
Qed.

Lemma send_tx_last tx : send_last (SendTransactionWithRet tx).1.
Proof.
  unfold SendTransactionWithRet. apply send_last_bind; [done|]. intros data. right.
  by exists [], (CallRPC "eth_sendRawTransaction" (hexutil_Encode data)).
Qed.

Lemma send_last_nothing {A B} (m : traced A) (k : A -> go B) :
  send_last m.1 -> send_last (let* a := m in t_ret (k a)).1.
Proof. destruct m as [c [a|e|p]]; cbn; [rewrite app_nil_r|..]; done. Qed.

Lemma no_send_bind {A B} (m : traced A) (k : A -> traced B) :
  sends m.1 = 0%nat -> (forall a, sends (k a).1 = 0%nat /\ is_Ok (k a).2 = false) ->
  sends (t_bind m k).1 = 0%nat /\ is_Ok (t_bind m k).2 = false.
Proof.
  destruct m as [c1 [a|e|p]]; cbn [fst t_bind]; intros H0 Hk; [|done..].
  destruct (Hk a) as [H1 H2]. destruct (k a) as [c2 r]. cbn [fst snd] in *. rewrite sends_app. split; [lia|done].
Qed.

(** Where the nonce, the price and the gas limit of a transaction come from, and the
    calls that takes. *)
Lemma transact_nonce_Ok opts calls nonce :
  transact_nonce opts = (calls, Ok nonce) ->
  match opt_Nonce opts with
  | Some n => calls = [] /\ nonce = big_Uint64 n
  | None => calls = [CallPendingNonceAt (opt_From opts)] /\ PendingNonceAt (opt_From opts) = Ok nonce
  end.
Proof.
  unfold transact_nonce. destruct (opt_Nonce opts); [by intros [-> [= <-]]%t_ret_Ok|].
  by intros [-> H%go_errorf_Ok]%t_call_Ok.
Qed.

Lemma transact_gasPrice_Ok opts calls price :
  transact_gasPrice opts = (calls, Ok price) ->
  match opt_GasPrice opts with
  | Some p => calls = [] /\ price = p
  | None => calls = [CallSuggestGasPrice] /\ SuggestGasPrice = Ok price
  end.
Proof.
  unfold transact_gasPrice. destruct (opt_GasPrice opts); [by intros [-> [= <-]]%t_ret_Ok|].
  by intros [-> H%go_errorf_Ok]%t_call_Ok.
Qed.

Lemma transact_gasLimit_Ok addr opts contract value price input calls gas :
  transact_gasLimit addr opts contract value price input = (calls, Ok gas) ->
  let msg := {| cm_From := opt_From opts; cm_To := contract; cm_GasPrice := price; cm_Value := value;
                cm_Data := input |} in
  (opt_GasLimit opts <> 0 -> calls = [] /\ gas = opt_GasLimit opts) /\
  (opt_GasLimit opts = 0 -> EstimateGas msg = Ok gas /\
     match contract with
     | None => calls = [CallEstimateGas msg]
     | Some _ => calls = [CallPendingCodeAt addr; CallEstimateGas msg] /\
         exists code, PendingCodeAt addr = Ok code /\ code <> []
     end).
Proof.
  unfold transact_gasLimit. destruct (Z.eqb_spec (opt_GasLimit opts) 0) as [E|E].
  - intros (c1 & [] & c2 & Hc & [-> Hg%go_errorf_Ok]%t_call_Ok & ->)%t_bind_Ok. split; [done|].
    intros _. split; [done|]. unfold transact_code in Hc. destruct contract as [a|].
    + apply t_bind_Ok in Hc as (c3 & code & c4 & [-> Hcode]%t_call_Ok & [-> Hne]%t_ret_Ok & ->).
      split; [done|]. exists code. split; [done|]. by intros ->.
    + by apply t_ret_Ok in Hc as [-> _].
  - intros [-> [= <-]]%t_ret_Ok. done.
Qed.

(** C28. A transactor.  Whatever happens, the transaction is broadcast at most once,
    as the last call to the node, and never without a signer.  When it succeeds,
    what was signed and sent has the nonce (its low 64 bits), price and gas limit
    the options give; where an option is missing it has the pending nonce of the
    sender, the node's suggested price, and the node's estimate for this very call,
    made only after a contract that is called is known to have code; no other call
    is made.  It has the value or zero, the input, and as its recipient the address
    the transactor was made for, or none for a creation; the hash variable then
    holds the node's hash.  When it fails, the variable is as before. *)
Theorem TransactFn_spec contractAddress txHashOut opts contract input hash calls r :
  TransactFn contractAddress txHashOut opts contract input = (hash, (calls, r)) ->
  send_last calls /\ (opt_Signer opts = None -> sends calls = 0%nat /\ is_Ok r = false) /\
  (is_Ok r = false -> hash = txHashOut) /\
  (forall tx, r = Ok tx ->
     exists nonce price gas data sign c1 c2 c3,
       match opt_Nonce opts with
       | Some n => c1 = [] /\ nonce = big_Uint64 n
       | None => c1 = [CallPendingNonceAt (opt_From opts)] /\ PendingNonceAt (opt_From opts) = Ok nonce
       end /\
       match opt_GasPrice opts with
       | Some p => c2 = [] /\ price = p
       | None => c2 = [CallSuggestGasPrice] /\ SuggestGasPrice = Ok price
       end /\
       (let msg := {| cm_From := opt_From opts; cm_To := contract; cm_GasPrice := price;
                      cm_Value := default 0 (opt_Value opts); cm_Data := input |} in
        (opt_GasLimit opts <> 0 -> c3 = [] /\ gas = opt_GasLimit opts) /\
        (opt_GasLimit opts = 0 -> EstimateGas msg = Ok gas /\
           match contract with
           | None => c3 = [CallEstimateGas msg]
           | Some _ => c3 = [CallPendingCodeAt contractAddress; CallEstimateGas msg] /\
               exists code, PendingCodeAt contractAddress = Ok code /\ code <> []
           end)) /\
       opt_Signer opts = Some sign /\
       sign (opt_From opts)
         {| Nonce := nonce; To := (fun _ => contractAddress) <$> contract;
            Value := default 0 (opt_Value opts); Gas := gas; GasPrice := price; Data := input |} = Ok tx /\
       rlp_EncodeToBytes tx = Ok data /\
       rpc_CallHash "eth_sendRawTransaction" (hexutil_Encode data) = Ok hash /\
       calls = c1 ++ c2 ++ c3 ++ [CallRPC "eth_sendRawTransaction" (hexutil_Encode data)]).
Proof.
  unfold TransactFn. cbv zeta.
  set (prepared := t_bind (transact_nonce opts) _). intros H.
  assert (Hlast : send_last prepared.1).
  { apply send_last_bind; [apply nonce_sends|]. intros nonce.
    apply send_last_bind; [apply gasPrice_sends|]. intros price.
    apply send_last_bind; [apply gasLimit_sends|]. intros gas.
    destruct (opt_Signer opts) as [sign|]; [|by left].
    apply send_last_bind; [done|]. intros tx. apply send_last_nothing, send_tx_last. }
  assert (Hcalls : calls = prepared.1)
    by (destruct prepared as [c [[tx h]|e|m]]; by simplify_eq).
  rewrite Hcalls. split_and!; [done| | |].
  - intros Hsig.
    assert (Hns : sends prepared.1 = 0%nat /\ is_Ok prepared.2 = false); [|].
    { unfold prepared. rewrite Hsig. apply no_send_bind; [apply nonce_sends|]. intros nonce.
      apply no_send_bind; [apply gasPrice_sends|]. intros price.
      apply no_send_bind; [apply gasLimit_sends|]. done. }
    destruct Hns as [Hns Hok]. split; [done|]. destruct prepared as [c [[tx h]|e|m]]; by simplify_eq.
  - intros Hr. destruct prepared as [c [[tx h]|e|m]]; by simplify_eq.
  - intros tx ->. destruct prepared as [c pr] eqn:Ep.
    assert (pr = Ok (tx, hash)) as -> by (destruct pr as [[tx' h]| |]; by simplify_eq).
    cbn [fst] in *. unfold prepared in Ep. clear Hlast Hcalls H prepared.
    apply t_bind_Ok in Ep as (c1 & nonce & k1 & Hn & Ep & ->).
    apply t_bind_Ok in Ep as (c2 & price & k2 & Hp & Ep & ->).
    apply t_bind_Ok in Ep as (c3 & gas & k3 & Hg & Ep & ->).
    destruct (opt_Signer opts) as [sign|] eqn:Es; [|done].
    apply t_bind_Ok in Ep as (c4 & tx' & k4 & [-> Hsg]%t_ret_Ok & Ep & ->).
    apply t_bind_Ok in Ep as (c5 & h & k5 & Hs & [-> [= -> ->]]%t_ret_Ok & ->).
    apply t_bind_Ok in Hs as (c6 & data & k6 & [-> Hd]%t_ret_Ok & [-> Hh]%t_call_Ok & ->).
    exists nonce, price, gas, data, sign, c1, c2, c3.
    split; [by apply transact_nonce_Ok|]. split; [by apply transact_gasPrice_Ok|].
    split; [by eapply transact_gasLimit_Ok|]. done.
Qed.
End Client.

(** ** Witness *)

(** A node that has code everywhere and hashes by length. *)
Definition demo_backend : EthBackend := {|
  PendingNonceAt a := Ok 7;
  SuggestGasPrice := Ok 5;
  PendingCodeAt a := Ok [96];
  EstimateGas m := Ok 21000;
  rlp_EncodeToBytes tx := Ok (Nonce (st_tx tx) :: st_sig tx);
  rpc_CallHash m p := Ok [Z.of_nat (String.length p)]
|}.

(** The text forms: "0x" and hexadecimal digits; an integer as its bytes. *)
Definition model_hex : HexUtil := {|
  hexutil_Encode b := "0x" +:+ hex_EncodeToString b;
  hexutil_Decode s := hex_DecodeString (strings_TrimPrefix s "0x");
  hexutil_EncodeBig x := "0x" +:+ hex_EncodeToString (big_Bytes x);
  hexutil_DecodeBig s := let! b := hex_DecodeString (strings_TrimPrefix s "0x") in Ok (be_value b);
  HexToAddress s := match hex_DecodeString (strings_TrimPrefix s "0x") with Ok b => b | _ => [] end;
  Address_text b := "0x" +:+ hex_EncodeToString b
|}.

Lemma model_hex_laws : @HexUtilLaws model_hex.
Proof.
  constructor; unfold hexutil_Decode, hexutil_Encode, hexutil_DecodeBig, hexutil_EncodeBig,
    HexToAddress, Address_text, model_hex.
  - intros b Hb. rewrite TrimPrefix_append. by apply hex_roundtrip.
  - intros x Hx. destruct (big_Bytes_spec x) as (Hv & Hb & _). rewrite TrimPrefix_append, hex_roundtrip by done.
    cbn [go_bind]. rewrite Hv. f_equal. lia.
  - intros a _ Ha. by rewrite TrimPrefix_append, hex_roundtrip.
Qed.

Definition demo_transact : TransactOpts :=
  {| opt_From := [1]; opt_Nonce := None; opt_Value := None; opt_GasPrice := Some 9; opt_GasLimit := 0;
     opt_Signer := Some (fun from tx => Ok {| st_tx := tx; st_sig := from |}) |}.

Lemma TransactFn_spec_witness :
  exists calls tx, @TransactFn demo_backend model_hex [3] [] demo_transact (Some [4]) [2] = ([6], (calls, Ok tx)) /\
    To (st_tx tx) = Some [3] /\ send_last calls.
Proof.
  destruct (@TransactFn demo_backend model_hex [3] [] demo_transact (Some [4]) [2]) as [h [calls r]] eqn:E.
  destruct (@TransactFn_spec demo_backend model_hex [3] [] demo_transact (Some [4]) [2] h calls r E) as [Hl _].
  vm_compute in E. injection E as <- <- <-. eexists _, _. split; [reflexivity|]. split; [reflexivity|exact Hl].
Defined.

