(* ===== verification/JsonRpc.v ===== *)
(** * Package eth/jsonrpc: the JSON-RPC 2.0 client

    The parameter rules of [Params], the requests [Call], [CallRaw],
    [CallFor], [CallBatch] and [CallBatchRaw] send, how an HTTP response is
    decoded and classified, and the helpers on batch responses.

    An HTTP body is represented by the JSON document it encodes; a response
    body that is not JSON by the error the decoder reports.  The transport
    ([http.Client.Do]) and URL parsing are parameters.  Batch requests are
    pointers, so [CallBatch] works on a store of requests. *)

From Stdlib Require Import ZArith Lia Ascii String.
From stdpp Require Import base list strings numbers gmap sorting.
From S2P Require Import Prelude GoStrings.

Open Scope string_scope.
Open Scope Z_scope.
Open Scope list_scope.

(** ** JSON documents and Go values *)

(** A JSON document; a number is its literal, an object its members in order. *)
Inductive json :=
| JNull
| JBool (b : bool)
| JNumber (literal : string)
| JString (s : string)
| JArray (l : list json)
| JObject (fields : list (string * json)).

(** The types [reflect] distinguishes by [Kind]. *)
Inductive gotype :=
| TBool | TInt | TFloat64 | TString | TFunc
| TStruct | TArray | TSlice | TMap | TInterface
| TPtr (elem : gotype).

#[export] Instance gotype_eq_dec : EqDecision gotype.
Proof. solve_decision. Defined.

(** Go values as [encoding/json] encodes them: a float by the literal it is
    printed as, a struct by its encoded fields, a byte slice by its base64
    text, [VMarshaler] a value whose type (of the given kind) has a [MarshalJSON]
    or [MarshalText] method, by what the method returns.  [None] is nil. *)
Inductive goval :=
| VBool (b : bool)
| VInt (n : Z)
| VFloat (literal : string)
| VString (s : string)
| VFunc
| VStruct (fields : list (string * goval))
| VArray (l : list goval)
| VSlice (l : option (list goval))
| VBytes (base64 : string)
| VMap (fields : option (list (string * goval)))
| VInterface (v : option goval)
| VPtr (elem : gotype) (v : option goval)
| VMarshaler (kind : gotype) (j : json).

Definition typeOf (v : goval) : gotype :=
  match v with
  | VBool _ => TBool
  | VInt _ => TInt
  | VFloat _ => TFloat64
  | VString _ => TString
  | VFunc => TFunc
  | VStruct _ => TStruct
  | VArray _ => TArray
  | VSlice _ | VBytes _ => TSlice
  | VMap _ => TMap
  | VInterface _ => TInterface
  | VPtr t _ => TPtr t
  | VMarshaler t _ => t
  end.

Definition option_json {A} (f : A -> option json) (o : option A) : option json :=
  match o with Some a => f a | None => Some JNull end.

(** Every element, or nothing when one of them cannot be encoded. *)
Fixpoint all_json {A} (f : A -> option json) (l : list A) : option (list json) :=
  match l with
  | [] => Some []
  | a :: l' =>
      match f a, all_json f l' with
      | Some j, Some js => Some (j :: js)
      | _, _ => None
      end
  end.

(** Insertion of a key in a sorted list of members; an existing key is replaced. *)
Fixpoint insert_key (k : string) (v : json) (l : list (string * json)) : list (string * json) :=
  match l with
  | [] => [(k, v)]
  | (k', v') :: l' =>
      match String.compare k k' with
      | Lt => (k, v) :: l
      | Eq => (k, v) :: l'
      | Gt => (k', v') :: insert_key k v l'
      end
  end.

(** The members of a Go map as they are encoded: sorted by key; of two
    assignments to a key the later one counts. *)
Definition map_fields (l : list (string * json)) : list (string * json) :=
  fold_left (fun acc kv => insert_key kv.1 kv.2 acc) l [].

(** [json.Marshal]: the document, or [None] for a type it does not support. *)
Fixpoint json_Marshal (v : goval) : option json :=
  let fields := fix fields (l : list (string * goval)) : option (list (string * json)) :=
    match l with
    | [] => Some []
    | (k, v) :: l' =>
        match json_Marshal v, fields l' with
        | Some j, Some js => Some ((k, j) :: js)
        | _, _ => None
        end
    end in
  let elems := fix elems (l : list goval) : option (list json) :=
    match l with
    | [] => Some []
    | v :: l' =>
        match json_Marshal v, elems l' with
        | Some j, Some js => Some (j :: js)
        | _, _ => None
        end
    end in
  match v with
  | VBool b => Some (JBool b)
  | VInt n => Some (JNumber (strconv_Itoa n))
  | VFloat lit => Some (JNumber lit)
  | VString s => Some (JString s)
  | VFunc => None
  | VStruct fs => option_map JObject (fields fs)
  | VArray l | VSlice (Some l) => option_map JArray (elems l)
  | VBytes b => Some (JString b)
  | VMap (Some fs) => option_map (fun js => JObject (map_fields js)) (fields fs)
  | VInterface (Some v) | VPtr _ (Some v) => json_Marshal v
  | VSlice None | VMap None | VInterface None | VPtr _ None => Some JNull
  | VMarshaler _ j => Some j
  end.

(** ** Requests *)

(** The [Params] field: nil, one value as it is, or a list of interface values. *)
Inductive rpcParams :=
| PNil
| PValue (v : goval)
| PList (l : list (option goval)).

Fixpoint strip_ptr (t : gotype) : gotype :=
  match t with TPtr e => strip_ptr e | _ => t end.

Definition Params (params : list (option goval)) : rpcParams :=
  match params with
  | [] => PNil
  | [Some v] =>
      match strip_ptr (typeOf v) with
      | TStruct | TArray | TSlice | TInterface | TMap => PValue v
      | _ => PList params
      end
  | [None] => PList params
  | _ => PList params
  end.

(** The JSON of the field; [None] is a value that cannot be encoded, [Some None]
    a field that [omitempty] leaves out. *)
Definition marshal_params (p : rpcParams) : option (option json) :=
  match p with
  | PNil => Some None
  | PValue v => option_map Some (json_Marshal v)
  | PList l => option_map (fun js => Some (JArray js)) (all_json (option_json json_Marshal) l)
  end.

Definition jsonrpcVersion : string := "2.0".

Record RPCRequest := {
  Method : string;
  Params_ : rpcParams;
  ID : Z;
  JSONRPC : string
}.

Definition NewRequest (method : string) (params : list (option goval)) : RPCRequest :=
  {| Method := method; Params_ := Params params; ID := 0; JSONRPC := jsonrpcVersion |}.

Definition NewRequestWithID (id : Z) (method : string) (params : list (option goval)) : RPCRequest :=
  {| Method := method; Params_ := Params params; ID := id; JSONRPC := jsonrpcVersion |}.

(** The request object as [json.Marshal] writes it, fields in struct order. *)
Definition marshal_request (r : RPCRequest) : option json :=
  match marshal_params (Params_ r) with
  | None => None
  | Some ps =>
      Some (JObject ([("method", JString (Method r))]
        ++ match ps with Some j => [("params", j)] | None => [] end
        ++ [("id", JNumber (strconv_Itoa (ID r))); ("jsonrpc", JString (JSONRPC r))]))
  end.

(** ** Responses *)

Record RPCError := { Code : Z; Message : string; Data : option json }.

(** [Result] is nil or the decoded value: numbers are [json.Number] literals,
    objects are maps. *)
Record RPCResponse := {
  r_JSONRPC : string;
  r_Result : option json;
  r_Error : option RPCError;
  r_ID : Z
}.

Definition RPCError_error (e : RPCError) : error := ERPC (Code e) (Message e).

(** [json.Unmarshal] into an interface: null is nil, an object becomes a map. *)
Fixpoint canon (j : json) : json :=
  match j with
  | JArray l => JArray (map canon l)
  | JObject fs => JObject (map_fields (map (fun kv => (kv.1, canon kv.2)) fs))
  | _ => j
  end.

Definition to_interface (j : json) : option json :=
  match j with JNull => None | _ => Some (canon j) end.

Definition json_kind (j : json) : string :=
  match j with
  | JNull => "null"
  | JBool _ => "bool"
  | JNumber _ => "number"
  | JString _ => "string"
  | JArray _ => "array"
  | JObject _ => "object"
  end.

(** [json.UnmarshalTypeError]; [ctx] is the struct and field, if any. *)
Definition type_error (value ctx typ : string) : error :=
  ENew ("json: cannot unmarshal " +:+ value +:+ " into Go "
        +:+ (if bool_decide (ctx = "") then "value" else "struct field " +:+ ctx)
        +:+ " of type " +:+ typ).

(** A field name without its case, as the decoder compares it; the long s
    (two bytes in UTF-8) folds to s. *)
Fixpoint foldName (s : string) : string :=
  match s with
  | EmptyString => EmptyString
  | String c s' =>
      match s' with
      | String d s'' =>
          if (char_code c =? 197) && (char_code d =? 191) then String "s" (foldName s'')
          else String (lower_char c) (foldName s')
      | EmptyString => String (lower_char c) EmptyString
      end
  end.

(** A decoded value and the first error met. *)
Definition dec A : Type := A * option error.

Definition first_err (a b : option error) : option error :=
  match a with Some _ => a | None => b end.

Definition dec_string (ctx cur : string) (j : json) : dec string :=
  match j with
  | JString s => (s, None)
  | JNull => (cur, None)
  | _ => (cur, Some (type_error (json_kind j) ctx "string"))
  end.

Definition dec_int (ctx : string) (cur : Z) (j : json) : dec Z :=
  match j with
  | JNumber lit =>
      match strconv_ParseInt lit with
      | Ok n => (n, None)
      | _ => (cur, Some (type_error ("number " +:+ lit) ctx "int"))
      end
  | JNull => (cur, None)
  | _ => (cur, Some (type_error (json_kind j) ctx "int"))
  end.

(** The members of an object decoded into a struct, one field at a time. *)
Fixpoint dec_fields {A} (field : string -> A -> json -> option (dec A)) (strict : bool)
    (fs : list (string * json)) (cur : A) : dec A :=
  match fs with
  | [] => (cur, None)
  | (k, v) :: fs' =>
      let '(cur', e) :=
        match field (foldName k) cur v with
        | Some r => r
        | None => (cur, if strict then Some (ENew ("json: unknown field " +:+ strconv_Quote k)) else None)
        end in
      let '(res, e') := dec_fields field strict fs' cur' in
      (res, first_err e e')
  end.

Definition set_Code (e : RPCError) (c : Z) : RPCError :=
  {| Code := c; Message := Message e; Data := Data e |}.
Definition set_Message (e : RPCError) (m : string) : RPCError :=
  {| Code := Code e; Message := m; Data := Data e |}.
Definition set_Data (e : RPCError) (d : option json) : RPCError :=
  {| Code := Code e; Message := Message e; Data := d |}.

Definition error_field (k : string) (e : RPCError) (v : json) : option (dec RPCError) :=
  if bool_decide (k = "code") then
    let '(c, err) := dec_int "RPCError.error.code" (Code e) v in Some (set_Code e c, err)
  else if bool_decide (k = "message") then
    let '(m, err) := dec_string "RPCError.error.message" (Message e) v in Some (set_Message e m, err)
  else if bool_decide (k = "data") then Some (set_Data e (to_interface v), None)
  else None.

Definition zeroRPCError : RPCError := {| Code := 0; Message := ""; Data := None |}.

(** The pointer field [error]: null is nil, an object is decoded into the struct
    already pointed to, if any. *)
Definition dec_error (strict : bool) (cur : option RPCError) (v : json) : dec (option RPCError) :=
  match v with
  | JNull => (None, None)
  | JObject fs =>
      let '(e, err) := dec_fields error_field strict fs (default zeroRPCError cur) in (Some e, err)
  | _ => (cur, Some (type_error (json_kind v) "RPCResponse.error" "jsonrpc.RPCError"))
  end.

Definition response_field (strict : bool) (k : string) (r : RPCResponse) (v : json)
    : option (dec RPCResponse) :=
  if bool_decide (k = "jsonrpc") then
    let '(s, err) := dec_string "RPCResponse.jsonrpc" (r_JSONRPC r) v in
    Some ({| r_JSONRPC := s; r_Result := r_Result r; r_Error := r_Error r; r_ID := r_ID r |}, err)
  else if bool_decide (k = "result") then
    Some ({| r_JSONRPC := r_JSONRPC r; r_Result := to_interface v; r_Error := r_Error r;
             r_ID := r_ID r |}, None)
  else if bool_decide (k = "error") then
    let '(e, err) := dec_error strict (r_Error r) v in
    Some ({| r_JSONRPC := r_JSONRPC r; r_Result := r_Result r; r_Error := e; r_ID := r_ID r |}, err)
  else if bool_decide (k = "id") then
    let '(n, err) := dec_int "RPCResponse.id" (r_ID r) v in
    Some ({| r_JSONRPC := r_JSONRPC r; r_Result := r_Result r; r_Error := r_Error r; r_ID := n |}, err)
  else None.

Definition zeroRPCResponse : RPCResponse :=
  {| r_JSONRPC := ""; r_Result := None; r_Error := None; r_ID := 0 |}.

(** [decoder.Decode(&rpcResponse)]: null leaves the pointer nil. *)
Definition decode_response (strict : bool) (j : json) : dec (option RPCResponse) :=
  match j with
  | JNull => (None, None)
  | JObject fs =>
      let '(r, err) := dec_fields (response_field strict) strict fs zeroRPCResponse in (Some r, err)
  | _ => (Some zeroRPCResponse, Some (type_error (json_kind j) "" "jsonrpc.RPCResponse"))
  end.

Fixpoint decode_list (strict : bool) (l : list json) : dec (list (option RPCResponse)) :=
  match l with
  | [] => ([], None)
  | j :: l' =>
      let '(r, e) := decode_response strict j in
      let '(rs, e') := decode_list strict l' in
      (r :: rs, first_err e e')
  end.

(** [decoder.Decode(&rpcResponses)]; nil and an empty list are treated alike. *)
Definition decode_responses (strict : bool) (j : json) : dec (list (option RPCResponse)) :=
  match j with
  | JNull => ([], None)
  | JArray l => decode_list strict l
  | _ => ([], Some (type_error (json_kind j) "" "jsonrpc.RPCResponses"))
  end.

(** ** HTTP *)

Definition is_token_char (c : ascii) : bool :=
  is_digit c || ((65 <=? char_code c) && (char_code c <=? 90))
  || ((97 <=? char_code c) && (char_code c <=? 122))
  || existsb (fun n => char_code c =? n) [33; 35; 36; 37; 38; 39; 42; 43; 45; 46; 94; 95; 96; 124; 126].

Fixpoint all_token (s : string) : bool :=
  match s with EmptyString => true | String c s' => is_token_char c && all_token s' end.

Definition upper_char (c : ascii) : ascii :=
  if (97 <=? char_code c) && (char_code c <=? 122) then ascii_of_nat (nat_of_ascii c - 32) else c.

Fixpoint capitalize (upper : bool) (s : string) : string :=
  match s with
  | EmptyString => EmptyString
  | String c s' =>
      String (if upper then upper_char c else lower_char c) (capitalize (char_code c =? 45) s')
  end.

(** [http.CanonicalHeaderKey]: a name with an invalid byte is left as it is. *)
Definition CanonicalHeaderKey (s : string) : string :=
  if all_token s then capitalize true s else s.

Definition Header_Set (h : gmap string string) (k v : string) : gmap string string :=
  <[CanonicalHeaderKey k := v]> h.

(** [Host] is [None] when the URL's host is used. *)
Record HttpRequest := {
  URL : string;
  Header : gmap string string;
  Host : option string;
  ReqBody : json
}.

(** [read_err]: the error of reading the whole body, if any; [first_doc]: what a
    decoder on the body reads first, a document or an error. *)
Record HttpResponse := {
  StatusCode : Z;
  read_err : option error;
  first_doc : json + error
}.

(** Package net/url, and the transport. *)
Class HttpLib := {
  url_Parse : string -> string + error;
  url_Redacted : string -> string;
  http_Do : HttpRequest -> HttpResponse + error
}.

(** [customHeaders] in the order the loop over the map visits them. *)
Record rpcClient := {
  endpoint : string;
  customHeaders : list (string * string);
  allowUnknownFields : bool;
  defaultRequestID : Z
}.

Record RPCClientOpts := {
  CustomHeaders : list (string * string);
  AllowUnknownFields : bool;
  DefaultRequestID : Z
}.

(** The fields for logging and the choice of HTTP client are left out: the
    transport is [http_Do]. *)
Definition NewClientWithOpts (endpoint : string) (opts : option RPCClientOpts) : rpcClient :=
  match opts with
  | None =>
      {| endpoint := endpoint; customHeaders := []; allowUnknownFields := false; defaultRequestID := 0 |}
  | Some o =>
      {| endpoint := endpoint; customHeaders := CustomHeaders o;
         allowUnknownFields := AllowUnknownFields o; defaultRequestID := DefaultRequestID o |}
  end.

Definition NewClient (endpoint : string) : rpcClient := NewClientWithOpts endpoint None.

(** The headers of a request: the defaults, then the custom ones. *)
Definition set_header (r : gmap string string * option string) (kv : string * string)
    : gmap string string * option string :=
  let '(h, host) := r in
  if bool_decide (kv.1 = "Host") then (h, Some kv.2) else (Header_Set h kv.1 kv.2, host).

Definition default_headers : gmap string string :=
  Header_Set (Header_Set ∅ "Content-Type" "application/json") "Accept" "application/json".

(** The store batch requests live in. *)
Local Notation store := (gmap nat RPCRequest).

Section Client.
Context `{HL : HttpLib}.

(** [body] is what [json.Marshal] returns. *)
Definition newRequest (client : rpcClient) (body : option json) : HttpRequest + error :=
  match body with
  | None => inr (ENew "json: unsupported type")
  | Some body =>
      match url_Parse (endpoint client) with
      | inr err => inr err
      | inl url =>
          let '(h, host) := fold_left set_header (customHeaders client) (default_headers, None) in
          inl {| URL := url; Header := h; Host := host; ReqBody := body |}
      end
  end.

(** What a call returns: the response and the error, both of which may be set. *)
Definition ret A : Type := A * option error.

Definition call_on (method url : string) : string := "rpc call " +:+ method +:+ "() on " +:+ url.

Definition status_text (where_ : string) (code : Z) (rest : string) : string :=
  where_ +:+ " status code: " +:+ strconv_Itoa code +:+ ". " +:+ rest.

(** An error under an HTTP status: an [HTTPError] from 400 on. *)
Definition http_err (code : Z) (err : error) : error :=
  if 400 <=? code then EHTTP code err else err.

Definition classify_response (where_ : string) (code : Z) (d : dec (option RPCResponse))
    : ret (option RPCResponse) :=
  match d with
  | (_, Some err) =>
      (None, Some (http_err code
        (EWrap (status_text where_ code "could not decode body to rpc response") err)))
  | (None, None) => (None, Some (http_err code (ENew (status_text where_ code "rpc response missing"))))
  | (Some r, None) =>
      if 400 <=? code then
        (Some r, Some (EHTTP code (ENew
          match r_Error r with
          | Some e => status_text where_ code ("rpc response error: " +:+ Error (RPCError_error e))
          | None => status_text where_ code "no rpc error available"
          end)))
      else (Some r, None)
  end.

Definition doc_of (strict : bool) {A} (dflt : A) (f : bool -> json -> dec A) (doc : json + error) : dec A :=
  match doc with inl j => f strict j | inr e => (dflt, Some e) end.

Definition doCall (client : rpcClient) (request : RPCRequest) : ret (option RPCResponse) :=
  match newRequest client (marshal_request request) with
  | inr err => (None, Some (EWrap (call_on (Method request) (endpoint client)) err))
  | inl httpRequest =>
      let where_ := call_on (Method request) (url_Redacted (URL httpRequest)) in
      match http_Do httpRequest with
      | inr err => (None, Some (EWrap where_ err))
      | inl httpResponse =>
          match read_err httpResponse with
          | Some err => (None, Some (EWrap where_ err))
          | None =>
              classify_response where_ (StatusCode httpResponse)
                (doc_of (negb (allowUnknownFields client)) None decode_response (first_doc httpResponse))
          end
      end
  end.

Definition Call (client : rpcClient) (method : string) (params : list (option goval))
    : ret (option RPCResponse) :=
  doCall client
    {| Method := method; Params_ := Params params; ID := defaultRequestID client;
       JSONRPC := jsonrpcVersion |}.

Definition CallRaw (client : rpcClient) (request : RPCRequest) : ret (option RPCResponse) :=
  doCall client request.

(** [GetObject]: the result encoded again and decoded into the caller's type;
    [into] is [json.Unmarshal] for that type. *)
Definition GetObject {T} (into : json -> go T) (r : RPCResponse) : go T :=
  into (default JNull (r_Result r)).

(** A nil response next to a nil error would be dereferenced. *)
Definition CallFor {T} (client : rpcClient) (into : json -> go T) (method : string)
    (params : list (option goval)) : go T :=
  match Call client method params with
  | (_, Some err) => Err err
  | (None, None) => Panic "nil pointer dereference"
  | (Some rpcResponse, None) =>
      match r_Error rpcResponse with
      | Some e => Err (RPCError_error e)
      | None => GetObject into rpcResponse
      end
  end.

(** ** Batches

    A list of requests is a list of pointers into a store; a pointer the store
    does not have is nil. *)

Definition marshal_requests (s : store) (requests : list nat) : option json :=
  option_map JArray (all_json (fun l => option_json marshal_request (s !! l)) requests).

Definition batch_on (url : string) : string := "rpc batch call on " +:+ url.

Definition classify_responses (where_ : string) (code : Z) (d : dec (list (option RPCResponse)))
    : ret (list (option RPCResponse)) :=
  match d with
  | (_, Some err) =>
      ([], Some (http_err code
        (EWrap (status_text where_ code "could not decode body to rpc response") err)))
  | ([], None) => ([], Some (http_err code (ENew (status_text where_ code "rpc response missing"))))
  | (rs, None) =>
      if 400 <=? code then
        (rs, Some (EHTTP code (ENew (status_text where_ code "check rpc responses for potential rpc error"))))
      else (rs, None)
  end.

Definition doBatchCall (client : rpcClient) (s : store) (requests : list nat)
    : ret (list (option RPCResponse)) :=
  match newRequest client (marshal_requests s requests) with
  | inr err => ([], Some (EWrap (batch_on (endpoint client)) err))
  | inl httpRequest =>
      let where_ := batch_on (url_Redacted (URL httpRequest)) in
      match http_Do httpRequest with
      | inr err => ([], Some (EWrap where_ err))
      | inl httpResponse =>
          classify_responses where_ (StatusCode httpResponse)
            (doc_of (negb (allowUnknownFields client)) [] decode_responses (first_doc httpResponse))
      end
  end.

Definition with_id (r : RPCRequest) (i : Z) : RPCRequest :=
  {| Method := Method r; Params_ := Params_ r; ID := i; JSONRPC := jsonrpcVersion |}.

(** The loop that numbers the requests. *)
Fixpoint number_requests (s : store) (i : Z) (requests : list nat) : go store :=
  match requests with
  | [] => Ok s
  | l :: rest =>
      match s !! l with
      | None => Panic "nil pointer dereference"
      | Some r => number_requests (<[l := with_id r i]> s) (i + 1) rest
      end
  end.

(** The store after the call, and what it returns. *)
Definition CallBatch (client : rpcClient) (s : store) (requests : list nat)
    : go (store * ret (list (option RPCResponse))) :=
  match requests with
  | [] => Ok (s, ([], Some (ENew "empty request list")))
  | _ => let! s' := number_requests s 0 requests in Ok (s', doBatchCall client s' requests)
  end.

Definition CallBatchRaw (client : rpcClient) (s : store) (requests : list nat)
    : ret (list (option RPCResponse)) :=
  match requests with
  | [] => ([], Some (ENew "empty request list"))
  | _ => doBatchCall client s requests
  end.

End Client.

(** ** Helpers on responses *)

Fixpoint AsMap_from (res : list (option RPCResponse)) (resMap : gmap Z RPCResponse)
    : go (gmap Z RPCResponse) :=
  match res with
  | [] => Ok resMap
  | None :: _ => Panic "nil pointer dereference"
  | Some r :: rest => AsMap_from rest (<[r_ID r := r]> resMap)
  end.

Definition AsMap (res : list (option RPCResponse)) : go (gmap Z RPCResponse) := AsMap_from res ∅.

Fixpoint GetByID (res : list (option RPCResponse)) (id : Z) : go (option RPCResponse) :=
  match res with
  | [] => Ok None
  | None :: _ => Panic "nil pointer dereference"
  | Some r :: rest => if r_ID r =? id then Ok (Some r) else GetByID rest id
  end.

Fixpoint HasError (res : list (option RPCResponse)) : go bool :=
  match res with
  | [] => Ok false
  | None :: _ => Panic "nil pointer dereference"
  | Some r :: rest => if bool_decide (is_Some (r_Error r)) then Ok true else HasError rest
  end.

(** The verb [%s] on a decoded value. *)
Fixpoint fmt_json (j : json) : string :=
  match j with
  | JNull => "%!s(<nil>)"
  | JBool b => "%!s(bool=" +:+ (if b then "true" else "false") +:+ ")"
  | JNumber lit => lit
  | JString s => s
  | JArray l => "[" +:+ String.concat " " (map fmt_json l) +:+ "]"
  | JObject fs => "map[" +:+ String.concat " " (map (fun kv => kv.1 +:+ ":" +:+ fmt_json kv.2) fs) +:+ "]"
  end.

Definition fmt_result (r : RPCResponse) : string := fmt_json (default JNull (r_Result r)).

Definition GetInt (r : RPCResponse) : go Z :=
  match r_Result r with
  | Some (JNumber lit) =>
      go_wrap ("strconv.ParseInt: parsing " +:+ strconv_Quote lit) (strconv_ParseInt lit)
  | _ => Err (ENew ("could not parse int64 from " +:+ fmt_result r))
  end.

Definition GetBool (r : RPCResponse) : go bool :=
  match r_Result r with
  | Some (JBool b) => Ok b
  | _ => Err (ENew ("could not parse bool from " +:+ fmt_result r))
  end.

Definition GetString (r : RPCResponse) : go string :=
  match r_Result r with
  | Some (JString s) => Ok s
  | _ => Err (ENew ("could not parse string from " +:+ fmt_result r))
  end.

(** ** What a call returns *)

Section CallTheorems.
Context `{HL : HttpLib}.

Definition strict (client : rpcClient) : bool := negb (allowUnknownFields client).

Definition call_request (client : rpcClient) (method : string) (params : list (option goval)) : RPCRequest :=
  {| Method := method; Params_ := Params params; ID := defaultRequestID client;
     JSONRPC := jsonrpcVersion |}.

(** The exchange that a call amounts to: the response it gets, with its body read. *)
Definition exchanged (client : rpcClient) (method : string) (params : list (option goval))
    (rs : HttpResponse) : Prop :=
  exists rq, newRequest client (marshal_request (call_request client method params)) = inl rq
    /\ http_Do rq = inl rs /\ read_err rs = None.

Lemma Call_exchanged client method params rs :
  exchanged client method params rs ->
  exists where_, Call client method params
    = classify_response where_ (StatusCode rs) (doc_of (strict client) None decode_response (first_doc rs)).
Proof.
  intros (rq & Hrq & Hdo & Hre). unfold Call, doCall. fold (call_request client method params).
  rewrite Hrq, Hdo, Hre. eauto.
Qed.

Lemma Call_not_exchanged client method params :
  (exists rs, exchanged client method params rs) \/ exists err, Call client method params = (None, Some err).
Proof.
  unfold Call, doCall, exchanged. fold (call_request client method params).
  destruct (newRequest _ _) as [rq|]; [|eauto].
  destruct (http_Do rq) as [rs|] eqn:?; [|eauto].
  destruct (read_err rs) eqn:?; [eauto|]. left. eauto 10.
Qed.

(** The error of a classified response, by status and document. *)
Lemma classify_response_cases where_ code d :
  (exists r, d = (Some r, None) /\ code < 400 /\ classify_response where_ code d = (Some r, None))
  \/ (exists o e, classify_response where_ code d = (o, Some e)
        /\ (code < 400 -> d.2 <> None \/ d.1 = None) /\ (400 <= code -> exists e', e = EHTTP code e')).
Proof.
  unfold classify_response, http_err.
  destruct d as [[r|] [err|]]; destruct (400 <=? code) eqn:E; bool_facts;
    first [left; by eauto 10 | right; do 2 eexists; split_and!; eauto; intros; eauto; lia].
Qed.

Definition decodes (client : rpcClient) (rs : HttpResponse) (r : RPCResponse) : Prop :=
  exists j, first_doc rs = inl j /\ decode_response (strict client) j = (Some r, None).

Lemma doc_of_decodes client rs r :
  doc_of (strict client) None decode_response (first_doc rs) = (Some r, None) <-> decodes client rs r.
Proof.
  unfold decodes, doc_of. destruct (first_doc rs) as [j|]; split.
  - eauto.
  - intros (? & [= <-] & ?). done.
  - done.
  - by intros (? & ? & _).
Qed.

Lemma decodes_fun client rs r r' : decodes client rs r -> decodes client rs r' -> r = r'.
Proof. intros (j & Hj & Hd) (j' & Hj' & Hd'). simplify_eq. congruence. Qed.

Lemma exchanged_fun client method params rs rs' :
  exchanged client method params rs -> exchanged client method params rs' -> rs = rs'.
Proof. intros (? & ? & ? & ?) (? & ? & ? & ?). simplify_eq. congruence. Qed.

Lemma Call_success client method params r :
  Call client method params = (Some r, None) <->
  exists rs, exchanged client method params rs /\ StatusCode rs < 400 /\ decodes client rs r.
Proof.
  split.
  - intros H. destruct (Call_not_exchanged client method params) as [[rs Hx]|[err He]]; [|congruence].
    destruct (Call_exchanged _ _ _ _ Hx) as [w Hc]. rewrite H in Hc.
    destruct (classify_response_cases w (StatusCode rs)
      (doc_of (strict client) None decode_response (first_doc rs))) as [(r' & Hd & ? & E)|(o & e & E & _)];
      [|congruence].
    exists rs. rewrite <- doc_of_decodes. split_and!; [done|done|congruence].
  - intros (rs & Hx & Hs & Hd). destruct (Call_exchanged _ _ _ _ Hx) as [w ->].
    apply doc_of_decodes in Hd. rewrite Hd. cbn. by rewrite (proj2 (Z.leb_gt 400 _)).
Qed.

Lemma Call_nil_nil client method params : Call client method params <> (None, None).
Proof.
  destruct (Call_not_exchanged client method params) as [[rs Hx]|[err ->]]; [|done].
  destruct (Call_exchanged _ _ _ _ Hx) as [w ->].
  destruct (classify_response_cases w (StatusCode rs)
    (doc_of (strict client) None decode_response (first_doc rs)))
    as [(r & _ & _ & ->)|(o & e & -> & _)]; done.
Qed.

Lemma Call_http_error client method params rs r :
  exchanged client method params rs -> 400 <= StatusCode rs -> decodes client rs r ->
  exists e, Call client method params = (Some r, Some (EHTTP (StatusCode rs) e)).
Proof.
  intros Hx Hs Hd%doc_of_decodes. destruct (Call_exchanged _ _ _ _ Hx) as [w ->]. rewrite Hd. cbn.
  rewrite (proj2 (Z.leb_le 400 _)) by done. eauto.
Qed.

(** C37. [CallFor] returns a value exactly when the request was sent, the body
    was read, the status is below 400, the body decodes to a response without
    an error member, and the result unmarshals to that value.  Below 400 a
    server-side error is returned with its code and message.  Once a response was
    read, a status of 400 or more gives an [HTTPError] with that status whatever
    the body is: when the body decodes, also to a response with an error member of
    its own, [Call] returns that response and the [HTTPError] beside it (the
    comment on [HTTPError] says that one is returned only for a body without a
    valid error member), and [CallFor] the [HTTPError] alone.  The nil response is
    never dereferenced: the call panics only if unmarshalling the result does. *)
Theorem CallFor_outcomes {T} (client : rpcClient) (into : json -> go T) method params :
  (forall v, CallFor client into method params = Ok v <->
     exists rs r, exchanged client method params rs /\ StatusCode rs < 400 /\ decodes client rs r
       /\ r_Error r = None /\ into (default JNull (r_Result r)) = Ok v)
  /\ (forall rs, exchanged client method params rs -> 400 <= StatusCode rs ->
       exists e, CallFor client into method params = Err (EHTTP (StatusCode rs) e))
  /\ (forall rs r, exchanged client method params rs -> 400 <= StatusCode rs -> decodes client rs r ->
       exists e, Call client method params = (Some r, Some (EHTTP (StatusCode rs) e)))
  /\ (forall rs r e, exchanged client method params rs -> StatusCode rs < 400 -> decodes client rs r ->
       r_Error r = Some e -> CallFor client into method params = Err (ERPC (Code e) (Message e)))
  /\ (forall m, CallFor client into method params = Panic m -> exists j, into j = Panic m).
Proof.
  unfold CallFor. split_and!.
  - intros v. split.
    + destruct (Call client method params) as [[r|] [err|]] eqn:E; try done.
      apply Call_success in E as (rs & ? & ? & ?).
      destruct (r_Error r) eqn:?; [done|]. unfold GetObject. eauto 10.
    + intros (rs & r & ? & ? & ? & He & Hv).
      rewrite (proj2 (Call_success client method params r)) by eauto. by rewrite He.
  - intros rs Hx Hs. destruct (Call_exchanged _ _ _ _ Hx) as [w ->].
    destruct (classify_response_cases w (StatusCode rs)
      (doc_of (strict client) None decode_response (first_doc rs)))
      as [(r & _ & ? & _)|(o & e & -> & _ & He)]; [lia|].
    destruct (He Hs) as [e' ->]. destruct o; eauto.
  - intros rs r. apply Call_http_error.
  - intros rs r e Hx Hs Hd He. rewrite (proj2 (Call_success client method params r)) by eauto.
    by rewrite He.
  - intros m. pose proof (Call_nil_nil client method params).
    destruct (Call client method params) as [[r|] [err|]]; try done.
    destruct (r_Error r); [done|]. unfold GetObject. eauto.
Qed.

End CallTheorems.

(** ** The shape of the parameters *)

Lemma option_map_Some {A B} (f : A -> B) o b : option_map f o = Some b -> exists a, o = Some a /\ b = f a.
Proof. destruct o; cbn; intros; simplify_eq; eauto. Qed.

(** What a chain of pointers leads to. *)
Fixpoint pointee (v : goval) : goval :=
  match v with VPtr _ (Some w) => pointee w | _ => v end.

(** A pointer's target has the pointer's element type. *)
Fixpoint well_typed (v : goval) : Prop :=
  match v with
  | VPtr t (Some w) => typeOf w = t /\ well_typed w
  | _ => True
  end.

Definition is_container (j : json) : bool :=
  match j with JArray _ | JObject _ => true | _ => false end.

(** Nil values, byte slices, interfaces behind a pointer, and values with an
    encoding of their own. *)
Definition encodes_specially (v : goval) : Prop :=
  match pointee v with
  | VSlice None | VMap None | VPtr _ None | VInterface _ | VBytes _ | VMarshaler _ _ => True
  | _ => False
  end.

Definition is_composite (t : gotype) : bool :=
  match t with TStruct | TArray | TSlice | TInterface | TMap => true | _ => false end.

Lemma Params_single v :
  Params [Some v] = if is_composite (strip_ptr (typeOf v)) then PValue v else PList [Some v].
Proof. cbn. by destruct (strip_ptr (typeOf v)). Qed.

Lemma pointee_type v : well_typed v -> strip_ptr (typeOf (pointee v)) = strip_ptr (typeOf v).
Proof.
  revert v. fix IH 1. intros [] H; try reflexivity. destruct v as [w|]; [|done].
  destruct H as [<- H]. cbn. by apply IH.
Qed.

Lemma pointee_json v : json_Marshal (pointee v) = json_Marshal v.
Proof. revert v. fix IH 1. intros []; try reflexivity. destruct v as [w|]; [|done]. cbn. apply IH. Qed.

Lemma pointee_not_ptr v t w : pointee v <> VPtr t (Some w).
Proof.
  revert v. fix IH 1. intros [| | | | | | | | | | |t' [u|]|]; try discriminate. exact (IH u).
Qed.

Lemma composite_container v j :
  well_typed v -> is_composite (strip_ptr (typeOf v)) = true -> json_Marshal v = Some j ->
  is_container j = true \/ encodes_specially v.
Proof.
  intros Hw. rewrite <- pointee_type, <- pointee_json by done. unfold encodes_specially.
  destruct (pointee v) as [| | | | |fs|l|[l|]| |[fs|]| |t [w|]|] eqn:Hp; cbn;
    intros Hc Hj; try (by right); try done.
  1-4: by apply option_map_Some in Hj as (? & _ & ->); left.
  by apply pointee_not_ptr in Hp.
Qed.

(** The parameter rules.  The field is left out exactly when there are no
    parameters; otherwise what is sent is a JSON array or object, as JSON-RPC
    asks, except when the only parameter is a nil pointer, slice or map, a byte
    slice, an interface behind a pointer, or a value of a composite kind whose
    type has an encoding of its own.  In that last case the value is sent as it
    encodes itself, not wrapped: an Ethereum address, an array kind whose
    [MarshalText] gives a string, is sent as a bare string. *)
Theorem Params_shape (ps : list (option goval)) o :
  Forall (fun p => match p with Some v => well_typed v | None => True end) ps ->
  marshal_params (Params ps) = Some o ->
  (o = None <-> ps = [])
  /\ (forall j, o = Some j -> is_container j = true \/ exists v, ps = [Some v] /\ encodes_specially v)
  /\ (forall t j, ps = [Some (VMarshaler t j)] -> is_composite (strip_ptr t) = true -> o = Some j).
Proof.
  intros Hw. destruct ps as [|[v|] [|p' ps]].
  3-5: cbn [Params marshal_params]; intros (x & Hx & ->)%option_map_Some;
    split_and!; [done|intros ? [= <-]; by left|done].
  - cbn. intros [= <-]. split_and!; done.
  - apply Forall_cons in Hw as [Hv _]. rewrite Params_single.
    destruct (is_composite _) eqn:Hc; cbn [marshal_params]; intros (x & Hx & ->)%option_map_Some.
    + split_and!; [done| |].
      * intros ? [= <-]. destruct (composite_container v x) as [?|?]; eauto.
      * intros t j [= ->] _. cbn in Hx. congruence.
    + split_and!; [done|intros ? [= <-]; by left|].
      intros t j [= ->] ?. cbn in Hc. congruence.
Qed.

(** ** Lookups in a list of responses *)

Lemma GetByID_in rs r :
  NoDup (map r_ID rs) -> r ∈ rs -> GetByID (map Some rs) (r_ID r) = Ok (Some r).
Proof.
  induction rs as [|r' rs IH]; intros Hnd Hin; [by apply not_elem_of_nil in Hin|].
  apply NoDup_cons in Hnd as [Hn Hnd]. cbn [map GetByID].
  destruct (r_ID r' =? r_ID r) eqn:E; bool_facts.
  - apply elem_of_cons in Hin as [->|Hin]; [done|]. exfalso. apply Hn. rewrite E.
    by apply list_elem_of_fmap_2.
  - apply elem_of_cons in Hin as [->|Hin]; [done|]. by apply IH.
Qed.

Lemma AsMap_from_in rs : forall m0 : gmap Z RPCResponse,
  NoDup (map r_ID rs) ->
  exists m, AsMap_from (map Some rs) m0 = Ok m /\ (forall r, r ∈ rs -> m !! r_ID r = Some r)
    /\ forall i, i ∉ map r_ID rs -> m !! i = m0 !! i.
Proof.
  induction rs as [|r' rs IH]; intros m0 Hnd.
  - exists m0. split_and!; [done|by intros ? ?%not_elem_of_nil|done].
  - apply NoDup_cons in Hnd as [Hn Hnd]. cbn [map AsMap_from].
    destruct (IH (<[r_ID r' := r']> m0) Hnd) as (m & Hm & Hin & Hout). exists m. split_and!; [done| |].
    + intros r [->|Hr]%elem_of_cons; [|by apply Hin]. rewrite Hout by done. by rewrite lookup_insert_eq.
    + intros i [Hne Hi]%not_elem_of_cons. rewrite Hout by done. by rewrite lookup_insert_ne.
Qed.

Lemma HasError_spec rs :
  HasError (map Some rs) = Ok (existsb (fun r => bool_decide (is_Some (r_Error r))) rs).
Proof.
  induction rs as [|r rs IH]; [done|]. cbn [map HasError existsb]. by destruct (bool_decide _).
Qed.

Lemma existsb_perm {A} (f : A -> bool) l l' : l ≡ₚ l' -> existsb f l = existsb f l'.
Proof.
  induction 1; cbn [existsb]; [done|congruence| |congruence].
  by destruct (f x), (f y).
Qed.

(** ** Batches against a JSON-RPC server

    [handle] is the server's side: what a method answers to its parameters. *)

Fixpoint member (k : string) (fs : list (string * json)) : option json :=
  match fs with
  | [] => None
  | (k', v) :: fs' => if bool_decide (k' = k) then Some v else member k fs'
  end.

Section Batch.
Context `{HL : HttpLib}.
Variable handle : string -> option json -> json + RPCError.

Definition error_doc (e : RPCError) : json :=
  JObject ([("code", JNumber (strconv_Itoa (Code e))); ("message", JString (Message e))]
    ++ match Data e with Some d => [("data", d)] | None => [] end).

(** The answer to one request object: the same id, and a result or an error. *)
Definition answer (method : string) (params : option json) (id : json) : json :=
  JObject [("jsonrpc", JString jsonrpcVersion);
           match handle method params with inl j => ("result", j) | inr e => ("error", error_doc e) end;
           ("id", id)].

Definition answer_doc (request : json) : json :=
  match request with
  | JObject fs =>
      match member "method" fs with
      | Some (JString method) => answer method (member "params" fs) (default JNull (member "id" fs))
      | _ => JNull
      end
  | _ => JNull
  end.

(** A server that answers every request of a batch, in any order. *)
Definition answers_batches : Prop :=
  forall rq l, ReqBody rq = JArray l ->
    exists l', l' ≡ₚ map answer_doc l
      /\ http_Do rq = inl {| StatusCode := 200; read_err := None; first_doc := inl (JArray l') |}.

(** Error codes are Go integers. *)
Definition codes_in_range : Prop :=
  forall method params e, handle method params = inr e -> is_i64 (Code e).

(** The response to request [r] sent with id [i]. *)
Definition request_params (r : RPCRequest) : option json := default None (marshal_params (Params_ r)).

Definition response_to (i : Z) (r : RPCRequest) : RPCResponse :=
  {| r_JSONRPC := jsonrpcVersion;
     r_Result := match handle (Method r) (request_params r) with
                 | inl j => to_interface j
                 | inr _ => None
                 end;
     r_Error := match handle (Method r) (request_params r) with
                | inl _ => None
                | inr e => Some (set_Data e (Data e ≫= to_interface))
                end;
     r_ID := i |}.

Definition is_error (r : RPCRequest) : bool :=
  match handle (Method r) (request_params r) with inl _ => false | inr _ => true end.

Definition request_doc (r : RPCRequest) : json := default JNull (marshal_request r).

Definition encodable (r : RPCRequest) : Prop := is_Some (marshal_params (Params_ r)).

Lemma marshal_request_doc r : encodable r -> marshal_request r = Some (request_doc r).
Proof. unfold request_doc, marshal_request. by intros [? ->]. Qed.

Lemma answer_request_doc r :
  encodable r ->
  answer_doc (request_doc r) = answer (Method r) (request_params r) (JNumber (strconv_Itoa (ID r))).
Proof.
  unfold request_doc, marshal_request, request_params. intros [[j|] ->]; reflexivity.
Qed.

Lemma dec_int_Itoa ctx cur n : is_i64 n -> dec_int ctx cur (JNumber (strconv_Itoa n)) = (n, None).
Proof. intros. unfold dec_int. by rewrite ParseInt_Itoa. Qed.

Lemma error_field_eqs e v :
  error_field (foldName "code") e v
    = (let '(c, err) := dec_int "RPCError.error.code" (Code e) v in Some (set_Code e c, err))
  /\ error_field (foldName "message") e v
    = (let '(m, err) := dec_string "RPCError.error.message" (Message e) v in Some (set_Message e m, err))
  /\ error_field (foldName "data") e v = Some (set_Data e (to_interface v), None).
Proof. by split_and!. Qed.

Lemma dec_error_doc st e :
  is_i64 (Code e) -> dec_error st None (error_doc e) = (Some (set_Data e (Data e ≫= to_interface)), None).
Proof.
  intros Hc. unfold error_doc, dec_error. destruct e as [c m [d|]]; cbn [Data Code Message app] in *;
    cbn [dec_fields default];
    rewrite (proj1 (error_field_eqs _ _)), dec_int_Itoa by done;
    rewrite (proj1 (proj2 (error_field_eqs _ _))); cbn [dec_string];
    [rewrite (proj2 (proj2 (error_field_eqs _ _)))|]; reflexivity.
Qed.

Lemma response_field_eqs st r v :
  response_field st (foldName "jsonrpc") r v
    = (let '(s, err) := dec_string "RPCResponse.jsonrpc" (r_JSONRPC r) v in
       Some ({| r_JSONRPC := s; r_Result := r_Result r; r_Error := r_Error r; r_ID := r_ID r |}, err))
  /\ response_field st (foldName "result") r v
    = Some ({| r_JSONRPC := r_JSONRPC r; r_Result := to_interface v; r_Error := r_Error r;
               r_ID := r_ID r |}, None)
  /\ response_field st (foldName "error") r v
    = (let '(e, err) := dec_error st (r_Error r) v in
       Some ({| r_JSONRPC := r_JSONRPC r; r_Result := r_Result r; r_Error := e; r_ID := r_ID r |}, err))
  /\ response_field st (foldName "id") r v
    = (let '(n, err) := dec_int "RPCResponse.id" (r_ID r) v in
       Some ({| r_JSONRPC := r_JSONRPC r; r_Result := r_Result r; r_Error := r_Error r; r_ID := n |}, err)).
Proof. by split_and!. Qed.

Lemma decode_answer st i r :
  codes_in_range -> is_i64 i ->
  decode_response st (answer (Method r) (request_params r) (JNumber (strconv_Itoa i)))
  = (Some (response_to i r), None).
Proof.
  intros Hcodes Hi. unfold answer, response_to, decode_response.
  destruct (handle (Method r) (request_params r)) as [j|e] eqn:Hh; cbn [dec_fields];
    rewrite (proj1 (response_field_eqs st _ _)); cbn [dec_string].
  - rewrite (proj1 (proj2 (response_field_eqs st _ _))),
      (proj2 (proj2 (proj2 (response_field_eqs st _ _)))), dec_int_Itoa by done. reflexivity.
  - rewrite (proj1 (proj2 (proj2 (response_field_eqs st _ _)))). cbn [r_Error zeroRPCResponse].
    rewrite dec_error_doc by eauto. cbn [first_err].
    rewrite (proj2 (proj2 (proj2 (response_field_eqs st _ _)))), dec_int_Itoa by done. reflexivity.
Qed.

(** The requests as [CallBatch] numbers them, and the responses to them. *)
Fixpoint numbered (i : Z) (rs : list RPCRequest) : list RPCRequest :=
  match rs with [] => [] | r :: rs' => with_id r i :: numbered (i + 1) rs' end.

Fixpoint responses (i : Z) (rs : list RPCRequest) : list RPCResponse :=
  match rs with [] => [] | r :: rs' => response_to i r :: responses (i + 1) rs' end.

Definition points_to (s : store) : list nat -> list RPCRequest -> Prop :=
  Forall2 (fun l r => s !! l = Some r).

Lemma points_to_insert s l r ls rs :
  l ∉ ls -> points_to s ls rs -> points_to (<[l := r]> s) ls rs.
Proof.
  intros Hl H. induction H as [|l' r' ls rs Hl' H IH]; [constructor|].
  apply not_elem_of_cons in Hl as [Hn Hl]. constructor; [|by apply IH].
  by rewrite lookup_insert_ne.
Qed.

Lemma number_requests_spec ls : forall s i rs,
  NoDup ls -> points_to s ls rs ->
  exists s', number_requests s i ls = Ok s' /\ points_to s' ls (numbered i rs)
    /\ forall l, l ∉ ls -> s' !! l = s !! l.
Proof.
  induction ls as [|l ls IH]; intros s i rs Hnd Hp; apply Forall2_cons_inv_l in Hp || apply Forall2_nil_inv_l in Hp.
  - subst. exists s. split_and!; [done|constructor|done].
  - destruct Hp as (r & rs' & Hl & Hp & ->). apply NoDup_cons in Hnd as [Hn Hnd].
    destruct (IH (<[l := with_id r i]> s) (i + 1) rs') as (s' & Hs' & Hp' & Hout);
      [done|by apply points_to_insert|].
    exists s'. cbn [number_requests numbered]. rewrite Hl. split_and!; [done| |].
    + constructor; [|done]. rewrite Hout by done. by rewrite lookup_insert_eq.
    + intros l' [Hne Hl']%not_elem_of_cons. rewrite Hout by done. by rewrite lookup_insert_ne.
Qed.

Lemma points_to_docs s ls rs :
  points_to s ls rs -> Forall encodable rs -> marshal_requests s ls = Some (JArray (map request_doc rs)).
Proof.
  intros H He. unfold marshal_requests.
  enough (all_json (fun l => option_json marshal_request (s !! l)) ls = Some (map request_doc rs)) as ->
    by done.
  induction H as [|l r ls rs Hl H IH]; [done|]. apply Forall_cons in He as [Hr He].
  cbn [all_json map]. rewrite Hl. cbn [option_json]. by rewrite marshal_request_doc, IH.
Qed.

Lemma numbered_encodable i rs : Forall encodable rs -> Forall encodable (numbered i rs).
Proof. intros H. revert i. induction H; intros i; constructor; [done|auto]. Qed.

(** A list of documents that all decode. *)
Definition decoded (st : bool) (j : json) : RPCResponse := default zeroRPCResponse (decode_response st j).1.

Definition decodable (st : bool) (j : json) : Prop := decode_response st j = (Some (decoded st j), None).

Lemma decode_list_all st l :
  Forall (decodable st) l -> decode_list st l = (map Some (map (decoded st) l), None).
Proof. induction 1 as [|j l Hj H IH]; [done|]. cbn [decode_list map]. by rewrite Hj, IH. Qed.

Lemma answers_decode st i rs :
  codes_in_range -> Forall encodable rs -> 0 <= i -> i + Z.of_nat (length rs) <= 2 ^ 63 ->
  Forall (decodable st) (map answer_doc (map request_doc (numbered i rs)))
  /\ map (decoded st) (map answer_doc (map request_doc (numbered i rs))) = responses i rs.
Proof.
  intros Hc He. revert i. induction He as [|r rs Hr He IH]; intros i Hi Hl; [done|].
  cbn [numbered map responses length] in *. destruct (IH (i + 1)) as [IH1 IH2]; [lia..|].
  rewrite IH2. rewrite (answer_request_doc (with_id r i)) by done.
  pose proof (decode_answer st i r Hc ltac:(width)) as Hd.
  unfold decodable, decoded. cbn [with_id Method ID].
  change (request_params (with_id r i)) with (request_params r).
  split; [constructor; [|exact IH1]|]; by rewrite Hd.
Qed.

Lemma numbered_lookup i rs k r :
  rs !! k = Some r -> numbered i rs !! k = Some (with_id r (i + Z.of_nat k)).
Proof.
  revert i k. induction rs as [|r' rs IH]; intros i [|k] H; [done..| |]; cbn [numbered].
  - injection H as ->. change (Some (with_id r i) = Some (with_id r (i + Z.of_nat 0))).
    do 2 f_equal. lia.
  - change (numbered (i + 1) rs !! k = Some (with_id r (i + Z.of_nat (S k)))).
    rewrite (IH (i + 1) k H). do 2 f_equal. lia.
Qed.

Lemma responses_lookup i rs k r :
  rs !! k = Some r -> responses i rs !! k = Some (response_to (i + Z.of_nat k) r).
Proof.
  revert i k. induction rs as [|r' rs IH]; intros i [|k] H; [done..| |]; cbn [responses].
  - injection H as ->. change (Some (response_to i r) = Some (response_to (i + Z.of_nat 0) r)).
    do 2 f_equal. lia.
  - change (rs !! k = Some r) in H. change (responses (i + 1) rs !! k = Some (response_to (i + Z.of_nat (S k)) r)).
    rewrite (IH (i + 1) k H). do 2 f_equal. lia.
Qed.

Lemma responses_ids i rs k r : responses i rs !! k = Some r -> r_ID r = i + Z.of_nat k.
Proof.
  revert i k. induction rs as [|r' rs IH]; intros i [|k] H; [done..| |]; cbn [responses] in H.
  - injection H as <-. cbn [r_ID response_to]. lia.
  - apply (IH (i + 1) k) in H. lia.
Qed.

Lemma responses_nodup i rs : NoDup (map r_ID (responses i rs)).
Proof.
  apply NoDup_alt. intros a b x Ha Hb.
  apply list_lookup_fmap_Some in Ha as (ra & Ea & Ha), Hb as (rb & Eb & Hb).
  apply responses_ids in Ha, Hb. lia.
Qed.

Lemma responses_length i rs : length (responses i rs) = length rs.
Proof. revert i. induction rs; intros i; cbn; auto. Qed.

Lemma responses_errors i rs :
  existsb (fun r => bool_decide (is_Some (r_Error r))) (responses i rs) = existsb is_error rs.
Proof.
  revert i. induction rs as [|r rs IH]; intros i; [done|]. cbn [responses existsb]. rewrite IH. f_equal.
  unfold response_to, is_error. cbn. by destruct (handle _ _).
Qed.

(** What the server's answer to a numbered batch decodes to. *)
Lemma doBatchCall_answers client s ls rs u :
  answers_batches -> codes_in_range -> url_Parse (endpoint client) = inl u ->
  points_to s ls (numbered 0 rs) -> Forall encodable rs -> rs <> [] ->
  Z.of_nat (length rs) <= 2 ^ 63 ->
  exists E, E ≡ₚ responses 0 rs /\ doBatchCall client s ls = (map Some E, None).
Proof.
  intros Hs Hc Hu Hp He Hne Hlen. unfold doBatchCall, newRequest.
  rewrite (points_to_docs _ _ _ Hp) by (by apply numbered_encodable). rewrite Hu.
  destruct (fold_left set_header (customHeaders client) (default_headers, None)) as [h host].
  destruct (Hs {| URL := u; Header := h; Host := host;
                  ReqBody := JArray (map request_doc (numbered 0 rs)) |} _ eq_refl) as (l' & Hl' & ->).
  destruct (answers_decode (negb (allowUnknownFields client)) 0 rs Hc He) as [Hd Hr]; [lia..|].
  exists (map (decoded (negb (allowUnknownFields client))) l'). split.
  - rewrite Hl'. by rewrite Hr.
  - cbn [first_doc StatusCode doc_of decode_responses]. rewrite decode_list_all by (by rewrite Hl').
    destruct l' as [|j l']; [|done].
    apply Permutation_length in Hl'. rewrite !length_map in Hl'. by destruct rs.
Qed.

(** C38. A batch against a server that answers each request once, in any order,
    echoing its id.  When the pointers are distinct and the parameters can be
    encoded, [CallBatch] succeeds: it has numbered every request by its position,
    there are as many responses as requests, both [GetByID] and [AsMap] give for
    position [i] the response to the [i]-th request, result or error, and
    [HasError] tells whether any request failed. *)
Theorem CallBatch_answers client s ls rs u :
  answers_batches -> codes_in_range -> url_Parse (endpoint client) = inl u ->
  NoDup ls -> points_to s ls rs -> Forall encodable rs -> rs <> [] ->
  Z.of_nat (length rs) <= 2 ^ 63 ->
  exists s' res m, CallBatch client s ls = Ok (s', (res, None))
    /\ length res = length rs /\ AsMap res = Ok m /\ HasError res = Ok (existsb is_error rs)
    /\ forall i l r, ls !! i = Some l -> rs !! i = Some r ->
         s' !! l = Some (with_id r (Z.of_nat i))
         /\ GetByID res (Z.of_nat i) = Ok (Some (response_to (Z.of_nat i) r))
         /\ m !! Z.of_nat i = Some (response_to (Z.of_nat i) r).
Proof.
  intros Hs Hc Hu Hnd Hp He Hne Hlen.
  destruct (number_requests_spec ls s 0 rs Hnd Hp) as (s' & Hn & Hp' & _).
  destruct (doBatchCall_answers client s' ls rs u) as (E & HE & Hcall); try done.
  assert (NoDup (map r_ID E)) as HndE by (rewrite HE; apply responses_nodup).
  destruct (AsMap_from_in E ∅ HndE) as (m & Hm & Hin & _).
  exists s', (map Some E), m. split_and!; [|by rewrite length_map, HE, responses_length|done| |].
  - unfold CallBatch. destruct ls as [|l ls]; [by inversion Hp; subst|]. by rewrite Hn; cbn; rewrite Hcall.
  - rewrite HasError_spec. by rewrite (existsb_perm _ _ _ HE), responses_errors.
  - intros i l r Hl Hr.
    assert (response_to (Z.of_nat i) r ∈ E) as HrE.
    { rewrite HE. apply list_elem_of_lookup. exists i. by rewrite (responses_lookup 0 rs i r Hr). }
    split_and!; [|exact (GetByID_in E _ HndE HrE)|exact (Hin _ HrE)].
    destruct (Forall2_lookup_l _ _ _ _ _ Hp' Hl) as (r' & Hr' & Hs').
    rewrite (numbered_lookup 0 rs i r Hr) in Hr'. by injection Hr' as <-.
Qed.

End Batch.

(** ** A concrete server

    It answers [echo] with its parameters and everything else with an error,
    and answers a batch in reverse. *)

Definition demo_handle (method : string) (params : option json) : json + RPCError :=
  if bool_decide (method = "echo") then inl (default JNull params)
  else inr {| Code := -32601; Message := "method not found"; Data := None |}.

Definition demo_http (status : Z) : HttpLib := {|
  url_Parse s := inl s;
  url_Redacted s := s;
  http_Do rq :=
    inl {| StatusCode := status; read_err := None;
           first_doc := inl match ReqBody rq with
                            | JArray l => JArray (rev (map (answer_doc demo_handle) l))
                            | j => answer_doc demo_handle j
                            end |}
|}.

Definition demo_client : rpcClient := NewClient "http://localhost:8545".

Definition demo_into (j : json) : go json := Ok j.

(** Three requests, at the pointers 5, 3 and 9. *)
Definition demo_requests : list RPCRequest :=
  [NewRequest "echo" [Some (VInt 7)]; NewRequest "nope" []; NewRequest "echo" [Some (VString "a"); None]].

Definition demo_store : gmap nat RPCRequest :=
  list_to_map (zip [5; 3; 9]%nat demo_requests).

Lemma demo_answers : @answers_batches (demo_http 200) demo_handle.
Proof.
  intros rq l Hl. exists (rev (map (answer_doc demo_handle) l)). split.
  - symmetry. apply Permutation_rev.
  - cbn. by rewrite Hl.
Qed.

Lemma CallFor_outcomes_witness :
  (exists rs r, @exchanged (demo_http 200) demo_client "echo" [Some (VInt 7)] rs
     /\ StatusCode rs < 400 /\ decodes demo_client rs r /\ r_Error r = None
     /\ demo_into (default JNull (r_Result r)) = Ok (JArray [JNumber "7"]))
  /\ @CallFor (demo_http 200) _ demo_client demo_into "nope" [] = Err (ERPC (-32601) "method not found")
  /\ exists e, @CallFor (demo_http 503) _ demo_client demo_into "echo" [] = Err (EHTTP 503 e).
Proof.
  split_and!.
  - apply (proj1 (@CallFor_outcomes (demo_http 200) _ demo_client demo_into "echo" [Some (VInt 7)])).
    reflexivity.
  - refine (proj1 (proj2 (proj2 (proj2 (@CallFor_outcomes (demo_http 200) _ demo_client demo_into "nope" []))))
      _ (response_to demo_handle 0 (NewRequest "nope" []))
      {| Code := -32601; Message := "method not found"; Data := None |} _ _ _ _).
    + eexists. split_and!; reflexivity.
    + reflexivity.
    + eexists. split; reflexivity.
    + reflexivity.
  - refine (proj1 (proj2 (@CallFor_outcomes (demo_http 503) _ demo_client demo_into "echo" []))
      {| StatusCode := 503; read_err := None;
         first_doc := inl (answer_doc demo_handle (request_doc (NewRequest "echo" []))) |} _ _).
    + eexists. split_and!; reflexivity.
    + cbn. lia.
Defined.

Lemma Params_shape_witness :
  marshal_params (Params [Some (VMarshaler TArray (JString "0x00"))]) = Some (Some (JString "0x00"))
  /\ encodes_specially (VMarshaler TArray (JString "0x00")).
Proof.
  destruct (Params_shape [Some (VMarshaler TArray (JString "0x00"))] (Some (JString "0x00")))
    as (_ & H & _); [repeat constructor|reflexivity|].
  split; [reflexivity|]. destruct (H _ eq_refl) as [H'|(v & Hv & H')]; [discriminate H'|].
  injection Hv as <-. exact H'.
Defined.

Lemma CallBatch_answers_witness :
  exists s' res m, @CallBatch (demo_http 200) demo_client demo_store [5; 3; 9]%nat = Ok (s', (res, None))
    /\ length res = 3%nat /\ AsMap res = Ok m /\ HasError res = Ok true
    /\ GetByID res 2 = Ok (Some (response_to demo_handle 2 (NewRequest "echo" [Some (VString "a"); None]))).
Proof.
  destruct (@CallBatch_answers (demo_http 200) demo_handle demo_client demo_store [5; 3; 9]%nat demo_requests
    "http://localhost:8545") as (s' & res & m & H1 & H2 & H3 & H4 & H5).
  - exact demo_answers.
  - intros method params e. unfold demo_handle. destruct (bool_decide _); [discriminate|].
    intros [= <-]. cbn. width.
  - reflexivity.
  - repeat constructor; set_solver.
  - repeat constructor.
  - repeat constructor; eexists; reflexivity.
  - discriminate.
  - cbn. lia.
  - exists s', res, m. split_and!; try done. exact (proj1 (proj2 (H5 2%nat 9%nat _ eq_refl eq_refl))).
Defined.

(** A pointer listed twice is numbered twice: both entries are sent with the
    later position. *)
Example aliased_requests_share_an_id :
  number_requests {[5%nat := NewRequest "echo" []]} 0 [5; 5]%nat
  = Ok {[5%nat := with_id (NewRequest "echo" []) 1]}.
Proof. reflexivity. Qed.
