(* ===== verification/JsonNumber.v ===== *)
(** * Numbers of JSON-RPC results as floats (eth/jsonrpc/jsonrpc.go)

    [RPCResponse.GetFloat], with [json.Number.Float64]: [strconv.ParseFloat] of the
    literal a JSON document has, correctly rounded. *)

From Stdlib Require Import ZArith Lia Ascii String SpecFloat.
From stdpp Require Import base list strings numbers.
From S2P Require Import Prelude GoStrings Float64 Chain JsonRpc.

Open Scope string_scope.
Open Scope Z_scope.
Open Scope list_scope.

(** ** The literal *)

(** A number: its sign, and [num_mantissa * 10 ^ num_exp10]. *)
Record Number := {
  num_neg : bool;
  num_mantissa : Z;
  num_exp10 : Z
}.

Definition strip_char (c : ascii) (s : string) : option string :=
  match s with
  | String d s' => if decide (c = d) then Some s' else None
  | EmptyString => None
  end.

(** The digits after a point. *)
Definition read_fraction (s : string) : option (string * string) :=
  match strip_char "." s with
  | None => Some ("", s)
  | Some s' =>
      let '(fp, rest) := span_digits s' in
      if decide (fp = "") then None else Some (fp, rest)
  end.

(** The exponent, up to the end of the literal. *)
Definition read_exponent (s : string) : option Z :=
  if decide (s = "") then Some 0
  else
    match (match strip_char "e" s with Some s' => Some s' | None => strip_char "E" s end) with
    | None => None
    | Some s1 =>
        let '(neg, s2) :=
          match strip_char "-" s1 with
          | Some s' => (true, s')
          | None => (false, default s1 (strip_char "+" s1))
          end in
        let '(d, rest) := span_digits s2 in
        if decide (d = "") then None
        else if decide (rest = "") then Some (if neg then - digits_value d 0 else digits_value d 0)
        else None
    end.

Definition read_number (lit : string) : option Number :=
  let '(neg, s) := match strip_char "-" lit with Some s' => (true, s') | None => (false, lit) end in
  let '(ip, s1) := span_digits s in
  if decide (ip = "") then None
  else
    match read_fraction s1 with
    | None => None
    | Some (fp, s2) =>
        match read_exponent s2 with
        | None => None
        | Some e =>
            Some {| num_neg := neg; num_mantissa := digits_value (ip +:+ fp) 0;
                    num_exp10 := e - Z.of_nat (String.length fp) |}
        end
    end.

(** ** The nearest float64 *)

(** A quotient of integers is divided as such, so it is rounded once. *)
Definition f64_of_number (n : Number) : float64 :=
  match num_mantissa n with
  | Zpos m =>
      if 0 <=? num_exp10 n
      then binary_normalize prec emax ((if num_neg n then -1 else 1) * (Zpos m * 10 ^ num_exp10 n)) 0 (num_neg n)
      else SFdiv prec emax (S754_finite (num_neg n) m 0) (S754_finite false (Z.to_pos (10 ^ (- num_exp10 n))) 0)
  | _ => S754_zero (num_neg n)
  end.

Definition is_finite_f64 (f : float64) : bool :=
  match f with S754_zero _ | S754_finite _ _ _ => true | _ => false end.

(** [strconv.ParseFloat(lit, 64)] of a literal of a JSON document. *)
Definition strconv_ParseFloat (lit : string) : go float64 :=
  match read_number lit with
  | None => Err (EWrap ("strconv.ParseFloat: parsing " +:+ strconv_Quote lit) (ENew "invalid syntax"))
  | Some n =>
      let f := f64_of_number n in
      if is_finite_f64 f then Ok f
      else Err (EWrap ("strconv.ParseFloat: parsing " +:+ strconv_Quote lit) (ENew "value out of range"))
  end.

Definition GetFloat (r : RPCResponse) : go float64 :=
  match r_Result r with
  | Some (JNumber lit) => strconv_ParseFloat lit
  | _ => Err (ENew ("could not parse float64 from " +:+ fmt_result r))
  end.

Lemma ParseFloat_examples :
  strconv_ParseFloat "0.1" = Ok (f64_of_ratio 1 10) /\ strconv_ParseFloat "-12.5e1" = Ok (f64_of_Z (-125)) /\
  strconv_ParseFloat "9007199254740993" = Ok (f64_of_Z 9007199254740992) /\
  is_Ok (strconv_ParseFloat "1e309") = false /\ is_Ok (strconv_ParseFloat "1.") = false.
Proof. vm_compute. done. Qed.

(** ** Integers *)

Lemma read_number_digits (neg : bool) (d : string) :
  all_digits d = true -> d <> "" ->
  read_number ((if neg then "-" else "") +:+ d) =
  Some {| num_neg := neg; num_mantissa := digits_value d 0; num_exp10 := 0 |}.
Proof.
  intros Hd Hne. destruct d as [|c d]; [done|].
  assert (Hc : is_digit c = true) by (cbn in Hd; by apply andb_true_iff in Hd as [? _]).
  assert (Hs : span_digits (String c d) = (String c d, "")).
  { rewrite <- (append_nil_r (String c d)) at 1. by apply span_digits_app. }
  unfold read_number. destruct neg.
  - change ("-" +:+ String c d) with (String "-" (String c d)). cbn [strip_char].
    rewrite decide_True by done. rewrite Hs, decide_False by done. cbn [read_fraction strip_char].
    unfold read_exponent. rewrite decide_True by done. by rewrite append_nil_r.
  - change ("" +:+ String c d) with (String c d). cbn [strip_char]. rewrite decide_False.
    2: { intros <-. discriminate Hc. }
    rewrite Hs, decide_False by done. cbn [read_fraction strip_char].
    unfold read_exponent. rewrite decide_True by done. by rewrite append_nil_r.
Qed.

(** An integer result reads as the float64 nearest to it: for an integral result
    the two getters agree. *)
Lemma GetFloat_GetInt r n :
  is_i64 n -> r_Result r = Some (JNumber (strconv_Itoa n)) ->
  GetInt r = Ok n /\ (is_finite_f64 (f64_of_Z n) = true -> GetFloat r = Ok (f64_of_Z n)).
Proof.
  intros Hn Hr. unfold GetInt, GetFloat. rewrite Hr. split; [by rewrite ParseInt_Itoa|]. intros Hf.
  assert (E : read_number (strconv_Itoa n) =
    Some {| num_neg := n <? 0; num_mantissa := Z.abs n; num_exp10 := 0 |}).
  { unfold strconv_Itoa. destruct (n <? 0) eqn:Es; bool_facts.
    - destruct (itoa_nonneg_cons (- n)) as (c & s & Ec).
      rewrite (read_number_digits true), itoa_nonneg_value; [by rewrite Z.abs_neq by lia|lia| |by rewrite Ec].
      apply itoa_nonneg_digits. lia.
    - destruct (itoa_nonneg_cons n) as (c & s & Ec).
      change (itoa_nonneg n) with ((if false then "-" else "") +:+ itoa_nonneg n) at 1.
      rewrite (read_number_digits false), itoa_nonneg_value; [by rewrite Z.abs_eq by lia|lia| |by rewrite Ec].
      apply itoa_nonneg_digits. lia. }
  unfold strconv_ParseFloat. rewrite E.
  assert (Ev : f64_of_number {| num_neg := n <? 0; num_mantissa := Z.abs n; num_exp10 := 0 |} = f64_of_Z n).
  { destruct n as [|p|p]; [done| |].
    - change (binary_normalize prec emax (1 * (Zpos p * 10 ^ 0)) 0 false = f64_of_Z (Zpos p)).
      by rewrite Z.pow_0_r, Z.mul_1_r, Z.mul_1_l.
    - change (binary_normalize prec emax (-1 * (Zpos p * 10 ^ 0)) 0 true = f64_of_Z (Zneg p)).
      rewrite Z.pow_0_r, Z.mul_1_r. reflexivity. }
  rewrite Ev, Hf. done.
Qed.
