(* ===== verification/Checksum.v ===== *)
(** * Wasm checksums as JSON (payload/wasm_checksum.go)

    The two JSON methods of [WasmChecksum], on JSON documents, and that they are
    inverse to each other on checksums and refuse everything else. *)

From Stdlib Require Import ZArith Lia Ascii String.
From stdpp Require Import base list strings numbers.
From S2P Require Import Prelude GoStrings Sdk SdkModel WasmPayload JsonRpc.

Open Scope string_scope.
Open Scope Z_scope.
Open Scope list_scope.

Definition WasmChecksumLen : Z := 32.

Definition checksum_MarshalJSON (cs : WasmChecksum) : json := JString (hex_EncodeToString cs).

(** [json.Unmarshal] into a string: null leaves it empty. *)
Definition unmarshal_string (input : json) : go string :=
  match input with
  | JString s => Ok s
  | JNull => Ok ""
  | _ => Err (ENew "json: cannot unmarshal into Go value of type string")
  end.

Definition checksum_UnmarshalJSON (input : json) : go WasmChecksum :=
  let! hexString := unmarshal_string input in
  let! data := hex_DecodeString hexString in
  when negb (Z.of_nat (length data) =? WasmChecksumLen)
    raise ENew "got wrong number of bytes for wasm checksum";
  Ok data.

(** A checksum is read back from its JSON form exactly when it has the length of a
    SHA-256 hash; whatever is read has that length. *)
Theorem checksum_json_roundtrip cs :
  Forall is_byte cs ->
  (checksum_UnmarshalJSON (checksum_MarshalJSON cs) = Ok cs <-> Z.of_nat (length cs) = WasmChecksumLen) /\
  forall input cs', checksum_UnmarshalJSON input = Ok cs' -> Z.of_nat (length cs') = WasmChecksumLen.
Proof.
  intros Hb. unfold checksum_UnmarshalJSON, checksum_MarshalJSON. split.
  - cbn [unmarshal_string go_bind]. rewrite (hex_roundtrip cs Hb). cbn [go_bind].
    destruct (_ =? _) eqn:E; bool_facts; cbn [negb]; split; congruence.
  - intros input cs' (s & _ & (data & _ & H)%go_bind_Ok)%go_bind_Ok.
    destruct (_ =? _) eqn:E; bool_facts; [by injection H as <-|done].
Qed.

(** What [WasmCreateChecksum] makes can be stored and read back. *)
Lemma created_checksum_roundtrip `{CR : Crypto} wasm cs :
  (forall b, length (sha256_Sum256 b) = 32%nat /\ Forall is_byte (sha256_Sum256 b)) ->
  WasmCreateChecksum wasm = Ok cs -> checksum_UnmarshalJSON (checksum_MarshalJSON cs) = Ok cs.
Proof.
  intros Hsha H. assert (cs = sha256_Sum256 wasm) as ->.
  { unfold WasmCreateChecksum in H. repeat case_match; by simplify_eq. }
  destruct (Hsha wasm) as [Hl Hb]. apply (checksum_json_roundtrip _ Hb). by rewrite Hl.
Qed.
