(* ===== verification/Bundler.v ===== *)
(** * Package eth/aa: JSON forms and the bundler client

    The JSON encodings of user operations and their conversions to maps
    (userop.go), and the client of an ERC-4337 bundler (bundler_client.go): the
    check of the entry point when the client is made, the requests, and what is
    made of the answers. *)

From Stdlib Require Import ZArith Lia Ascii String.
From stdpp Require Import base list strings numbers gmap.
From S2P Require Import Prelude GoStrings Float64 Sdk SdkModel EthPayload UserOp UserOpPayload EthClient JsonRpc.

Open Scope string_scope.
Open Scope Z_scope.
Open Scope list_scope.

(** ** userop.go: JSON *)

Section Json.
Context `{HU : HexUtil}.

Definition big_json (x : Z) : json := JString (hexutil_EncodeBig x).
Definition bytes_json (b : bytes) : json := JString (hexutil_Encode b).
Definition address_json (a : bytes) : json := JString (Address_text a).

(** [MarshalJSON] of a [*UserOperation]: the members in the order of the struct. *)
Definition op_fields (op : UserOperation) : list (string * json) :=
  [("sender", address_json (Sender op)); ("nonce", big_json (uo_Nonce op));
   ("initCode", bytes_json (InitCode op)); ("callData", bytes_json (CallData op));
   ("callGasLimit", big_json (CallGasLimit op));
   ("verificationGasLimit", big_json (VerificationGasLimit op));
   ("preVerificationGas", big_json (PreVerificationGas op));
   ("maxFeePerGas", big_json (MaxFeePerGas op));
   ("maxPriorityFeePerGas", big_json (MaxPriorityFeePerGas op));
   ("paymaster", address_json (Paymaster op));
   ("paymasterVerificationGasLimit", big_json (PaymasterVerificationGasLimit op));
   ("paymasterPostOpGasLimit", big_json (PaymasterPostOpGasLimit op));
   ("paymasterData", bytes_json (PaymasterData op)); ("signature", bytes_json (Signature op))].

Definition MarshalJSON (op : UserOperation) : json := JObject (op_fields op).

(** [MarshalJSON] of a [*PackedUserOperation]. *)
Definition packed_fields (op : PackedUserOperation) : list (string * json) :=
  [("sender", address_json (pk_Sender op)); ("nonce", big_json (pk_Nonce op));
   ("initCode", bytes_json (pk_InitCode op)); ("callData", bytes_json (pk_CallData op));
   ("accountGasLimits", bytes_json (AccountGasLimits op));
   ("preVerificationGas", big_json (pk_PreVerificationGas op));
   ("gasFees", bytes_json (GasFees op));
   ("paymasterAndData", bytes_json (PaymasterAndData op)); ("signature", bytes_json (pk_Signature op))].

Definition packed_MarshalJSON (op : PackedUserOperation) : json := JObject (packed_fields op).

(** [json.Unmarshal] of a document into a [map[string]any]; a later member
    replaces an earlier one of the same name. *)
Definition unmarshal_map (j : json) : go (gmap string json) :=
  match j with
  | JObject fields => Ok (list_to_map (reverse fields))
  | JNull => Ok ∅
  | _ => Err (ENew "json: cannot unmarshal into Go value of type map[string]interface {}")
  end.

Definition ToMap (op : UserOperation) : go (gmap string json) := unmarshal_map (MarshalJSON op).
Definition packed_ToMap (op : PackedUserOperation) : go (gmap string json) :=
  unmarshal_map (packed_MarshalJSON op).

(** *** Reading an operation back, by the names of the ERC *)

Definition read_string (m : gmap string json) (name : string) : go string :=
  match m !! name with
  | Some (JString s) => Ok s
  | _ => Err (ENew ("missing " +:+ name))
  end.

Definition read_big (m : gmap string json) (name : string) : go Z :=
  let! s := read_string m name in hexutil_DecodeBig s.
Definition read_bytes (m : gmap string json) (name : string) : go bytes :=
  let! s := read_string m name in hexutil_Decode s.
Definition read_address (m : gmap string json) (name : string) : go bytes :=
  let! s := read_string m name in Ok (HexToAddress s).

Definition read_op (m : gmap string json) : go UserOperation :=
  let! sender := read_address m "sender" in
  let! nonce := read_big m "nonce" in
  let! initCode := read_bytes m "initCode" in
  let! callData := read_bytes m "callData" in
  let! callGas := read_big m "callGasLimit" in
  let! verificationGas := read_big m "verificationGasLimit" in
  let! preVerification := read_big m "preVerificationGas" in
  let! maxFee := read_big m "maxFeePerGas" in
  let! maxPriorityFee := read_big m "maxPriorityFeePerGas" in
  let! paymaster := read_address m "paymaster" in
  let! pmVerification := read_big m "paymasterVerificationGasLimit" in
  let! pmPostOp := read_big m "paymasterPostOpGasLimit" in
  let! pmData := read_bytes m "paymasterData" in
  let! sig := read_bytes m "signature" in
  Ok {| Sender := sender; uo_Nonce := nonce; InitCode := initCode; CallData := callData;
        CallGasLimit := callGas; VerificationGasLimit := verificationGas;
        PreVerificationGas := preVerification; MaxFeePerGas := maxFee;
        MaxPriorityFeePerGas := maxPriorityFee; Paymaster := paymaster;
        PaymasterVerificationGasLimit := pmVerification; PaymasterPostOpGasLimit := pmPostOp;
        PaymasterData := pmData; Signature := sig |}.

Definition read_packed (m : gmap string json) : go PackedUserOperation :=
  let! sender := read_address m "sender" in
  let! nonce := read_big m "nonce" in
  let! initCode := read_bytes m "initCode" in
  let! callData := read_bytes m "callData" in
  let! limits := read_bytes m "accountGasLimits" in
  let! preVerification := read_big m "preVerificationGas" in
  let! fees := read_bytes m "gasFees" in
  let! paymaster := read_bytes m "paymasterAndData" in
  let! sig := read_bytes m "signature" in
  Ok {| pk_Sender := sender; pk_Nonce := nonce; pk_InitCode := initCode; pk_CallData := callData;
        AccountGasLimits := limits; pk_PreVerificationGas := preVerification; GasFees := fees;
        PaymasterAndData := paymaster; pk_Signature := sig |}.

(** The widths of the fields. *)
Definition is_u256 (x : Z) : Prop := 0 <= x < 2 ^ 256.
Definition is_address (a : bytes) : Prop := length a = 20%nat /\ Forall is_byte a.

Record op_typed (op : UserOperation) : Prop := {
  ot_addresses : is_address (Sender op) /\ is_address (Paymaster op);
  ot_bytes : Forall is_byte (InitCode op) /\ Forall is_byte (CallData op) /\
             Forall is_byte (PaymasterData op) /\ Forall is_byte (Signature op);
  ot_bigs : Forall is_u256 [uo_Nonce op; CallGasLimit op; VerificationGasLimit op; PreVerificationGas op;
                            MaxFeePerGas op; MaxPriorityFeePerGas op; PaymasterVerificationGasLimit op;
                            PaymasterPostOpGasLimit op]
}.

Record packed_typed (op : PackedUserOperation) : Prop := {
  pt_address : is_address (pk_Sender op);
  pt_bytes : Forall (Forall is_byte) [pk_InitCode op; pk_CallData op; AccountGasLimits op; GasFees op;
                                      PaymasterAndData op; pk_Signature op];
  pt_bigs : Forall is_u256 [pk_Nonce op; pk_PreVerificationGas op]
}.

Context `{HL : !HexUtilLaws}.

Lemma read_big_ok m name x :
  m !! name = Some (big_json x) -> is_u256 x -> read_big m name = Ok x.
Proof. intros H Hx. unfold read_big, read_string. rewrite H. by apply hexutil_big. Qed.

Lemma read_bytes_ok m name b :
  m !! name = Some (bytes_json b) -> Forall is_byte b -> read_bytes m name = Ok b.
Proof. intros H Hb. unfold read_bytes, read_string. rewrite H. by apply hexutil_bytes. Qed.

Lemma read_address_ok m name a :
  m !! name = Some (address_json a) -> is_address a -> read_address m name = Ok a.
Proof.
  intros H [Hl Hb]. unfold read_address, read_string. rewrite H. cbn [address_json go_bind].
  by rewrite Address_hex.
Qed.

(** A member of a document without duplicates is an entry of its map. *)
Lemma unmarshal_lookup fields m i name v :
  unmarshal_map (JObject fields) = Ok m -> NoDup fields.*1 -> fields !! i = Some (name, v) ->
  m !! name = Some v.
Proof.
  intros [= <-] Hd Hi. rewrite <- (list_to_map_proper fields) by (try done; symmetry; apply reverse_Permutation).
  apply elem_of_list_to_map_1; [done|]. by eapply list_elem_of_lookup_2.
Qed.

Ltac fields_nodup := apply (bool_decide_unpack _); vm_compute; exact I.

Lemma op_names op : NoDup (op_fields op).*1.
Proof. cbn [op_fields fmap list_fmap fst]. fields_nodup. Qed.

Lemma packed_names op : NoDup (packed_fields op).*1.
Proof. cbn [packed_fields fmap list_fmap fst]. fields_nodup. Qed.

(** Read the next member: its position in the document gives its entry. *)
Ltac read_next lem H i :=
  erewrite lem; [cbn [go_bind]|by eapply (unmarshal_lookup _ _ i); [exact H|auto using op_names, packed_names|]
                |try done].

Lemma read_op_ToMap op m : op_typed op -> ToMap op = Ok m -> read_op m = Ok op.
Proof.
  intros [[Ha1 Ha2] (Hb1 & Hb2 & Hb3 & Hb4) Hz] H. unfold ToMap, MarshalJSON in H.
  repeat (apply Forall_cons in Hz as [? Hz]). unfold read_op.
  read_next @read_address_ok H 0%nat. read_next @read_big_ok H 1%nat.
  read_next @read_bytes_ok H 2%nat. read_next @read_bytes_ok H 3%nat.
  read_next @read_big_ok H 4%nat. read_next @read_big_ok H 5%nat.
  read_next @read_big_ok H 6%nat. read_next @read_big_ok H 7%nat.
  read_next @read_big_ok H 8%nat. read_next @read_address_ok H 9%nat.
  read_next @read_big_ok H 10%nat. read_next @read_big_ok H 11%nat.
  read_next @read_bytes_ok H 12%nat. read_next @read_bytes_ok H 13%nat. by destruct op.
Qed.

Lemma read_packed_ToMap op m : packed_typed op -> packed_ToMap op = Ok m -> read_packed m = Ok op.
Proof.
  intros [Ha Hb Hz] H. unfold packed_ToMap, packed_MarshalJSON in H.
  repeat (apply Forall_cons in Hz as [? Hz]). repeat (apply Forall_cons in Hb as [? Hb]). unfold read_packed.
  read_next @read_address_ok H 0%nat. read_next @read_big_ok H 1%nat.
  read_next @read_bytes_ok H 2%nat. read_next @read_bytes_ok H 3%nat.
  read_next @read_bytes_ok H 4%nat. read_next @read_big_ok H 5%nat.
  read_next @read_bytes_ok H 6%nat. read_next @read_bytes_ok H 7%nat.
  read_next @read_bytes_ok H 8%nat. by destruct op.
Qed.

(** C26. The JSON forms of user operations lose nothing.  For an operation whose
    fields have their widths, [ToMap] succeeds, and reading the map by the field
    names of the ERC, with hexadecimal numbers and byte strings, gives the
    operation back, packed or not; so no field is swapped, dropped or written
    under another's name. *)
Theorem userop_json_roundtrip op pk :
  op_typed op -> packed_typed pk ->
  (exists m, ToMap op = Ok m /\ read_op m = Ok op /\ dom m = list_to_set (op_fields op).*1) /\
  (exists m, packed_ToMap pk = Ok m /\ read_packed m = Ok pk /\ dom m = list_to_set (packed_fields pk).*1).
Proof.
  intros Ho Hp.
  assert (Hdom : forall fs : list (string * json),
    dom (list_to_map (reverse fs) : gmap string json) = list_to_set fs.*1).
  { intros fs. apply set_eq. intros k. rewrite dom_list_to_map_L, fmap_reverse.
    rewrite !elem_of_list_to_set. by rewrite elem_of_reverse. }
  split; eexists; (split_and!; [reflexivity| |by rewrite Hdom]);
    [by apply (read_op_ToMap op)|by apply (read_packed_ToMap pk)].
Qed.
End Json.

(** ** userop.go: Encode *)

Section Encode.
Context `{EB : EthBytes}.
(** The ABI encoding of the operation's tuple. *)
Context (abi_PackTuple : PackedUserOperation -> go bytes).

(** An error of the ABI encoder leaves no bytes. *)
Definition Encode (op : UserOperation) : go bytes :=
  let! packedUO := Pack op in
  match abi_PackTuple packedUO with
  | Err _ => Ok []
  | r => r
  end.
End Encode.

(** ** entrypoint.go: HandleOps *)

Section HandleOps.
(** The binding's [HandleOps]: the hash of the transaction. *)
Context (bound_HandleOps : TransactOpts -> list PackedUserOperation -> bytes -> go bytes).

(** [&bind.TransactOpts{Context: ctx}] *)
Definition empty_opts : TransactOpts :=
  {| opt_From := zero_address; opt_Nonce := None; opt_Signer := None; opt_Value := None;
     opt_GasPrice := None; opt_GasLimit := 0 |}.

Definition HandleOps (e : entrypoint) (userOps : list PackedUserOperation) : go bytes :=
  go_wrap "failed to handle user operations"
    (bound_HandleOps empty_opts userOps (ep_beneficiaryAddress e)).

(** The options have no signer, without which a bound contract sends nothing. *)
Lemma HandleOps_unsigned e userOps :
  (forall opts ops b, opt_Signer opts = None -> is_Ok (bound_HandleOps opts ops b) = false) ->
  is_Ok (HandleOps e userOps) = false.
Proof.
  intros H. unfold HandleOps. specialize (H empty_opts userOps (ep_beneficiaryAddress e) eq_refl).
  by destruct (bound_HandleOps _ _ _).
Qed.
End HandleOps.

(** ** bundler_client.go: data *)

Record bundlerClient := {
  bc_bundlerUrl : string;
  bc_entrypointAddress : bytes;
  bc_accountFactoryAddress : bytes
}.

Record bundlerUserOperationEstimate := {
  est_Sender : bytes;
  est_Nonce : Z;
  est_Factory : bytes;
  est_FactoryData : bytes;
  est_InitCode : bytes;
  est_CallData : bytes
}.

Record bundlerGasLimitOverrides := {
  ov_MaxFeePerGas : bytes;
  ov_MaxPriorityFeePerGas : Z;
  ov_CallGasLimit : Z;
  ov_VerificationGasLimit : Z;
  ov_PreVerificationGas : Z
}.

Record bundlerRequestGasAndPaymasterAndData := {
  rq_PolicyID : string;
  rq_EntryPoint : bytes;
  rq_DummySignature : string;
  rq_UserOperation : bundlerUserOperationEstimate;
  rq_Overrides : option bundlerGasLimitOverrides
}.

Record bundlerResponseGasAndPaymasterAndData := {
  rs_PaymasterAndData : bytes;
  rs_CallGasLimit : Z;
  rs_VerificationGasLimit : Z;
  rs_MaxPriorityFeePerGas : Z;
  rs_MaxFeePerGas : Z;
  rs_PreVerificationGas : Z
}.

Definition zero_estimates : bundlerResponseGasAndPaymasterAndData :=
  {| rs_PaymasterAndData := []; rs_CallGasLimit := 0; rs_VerificationGasLimit := 0;
     rs_MaxPriorityFeePerGas := 0; rs_MaxFeePerGas := 0; rs_PreVerificationGas := 0 |}.

Record bundlerUserOpResponse := {
  ur_EntryPoint : bytes;
  ur_BlockNumber : Z;
  ur_BlockHash : bytes;
  ur_TxHash : bytes
}.

Record bundlerUserOpReceipt := {
  br_UserOpHash : bytes;
  br_EntryPoint : bytes;
  br_Sender : bytes;
  br_Nonce : Z;
  br_Paymaster : bytes;
  br_ActualGasCost : Z;
  br_ActualGasUsed : Z;
  br_Success : bool;
  br_Reason : string
}.

Definition gasEstimationDummySig : string :=
  "0xfffffffffffffffffffffffffffffff0000000000000000000000000000000007aaaaaaaaaaaaaaaaaaaaaaaaaaaaaaaaaaaaaaaaaaaaaaaaaaaaaaaaaaaaaaa1c".

(** go-ethereum's JSON-RPC client: a call gives the result document, and the
    values it is decoded into; a null document leaves a nil pointer.  And
    uint256's conversion. *)
Class BundlerRpc := {
  ethrpc_Dial : string -> option error;
  ethrpc_CallContext : string -> list json -> go json;
  into_Addresses : json -> go (list bytes);
  into_Bytes : json -> go bytes;
  into_Estimates : json -> go bundlerResponseGasAndPaymasterAndData;
  into_Receipt : json -> go (option json);
  into_UserOpReceipt : json -> go (option bundlerUserOpReceipt);
  into_UserOpResponse : json -> go (option bundlerUserOpResponse);
  uint256_MustFromBig : Z -> go Z
}.

(** ** bundler_client.go: operations *)

Section Bundler.
Context `{HU : HexUtil, EB : EthBytes, BR : BundlerRpc}.

Definition CallContext {T} (into : json -> go T) (method : string) (args : list json) : go T :=
  let! result := ethrpc_CallContext method args in into result.

Definition supportedEntryPoints : go (list bytes) :=
  go_wrap "failed to get supported entry points" (CallContext into_Addresses "eth_supportedEntryPoints" []).

Definition NewBundlerClient (aaBundlerUrl : string) (entrypointAddress accountFactoryAddress : bytes)
    : go bundlerClient :=
  let bc := {| bc_bundlerUrl := aaBundlerUrl; bc_entrypointAddress := entrypointAddress;
               bc_accountFactoryAddress := accountFactoryAddress |} in
  let! _ := check "failed to dial bundler RPC endpoint" (ethrpc_Dial aaBundlerUrl) in
  let! eps := go_wrap "failed to get supported entry points" supportedEntryPoints in
  let isSupported := existsb (fun ep => bool_decide (ep = bc_entrypointAddress bc)) eps in
  when negb isSupported
    raise ENew ("entrypoint address " +:+ Address_text (bc_entrypointAddress bc)
                +:+ " not supported by RPC");
  Ok bc.

(** A stub. *)
Definition SendUserOp (c : bundlerClient) (userOp : PackedUserOperation) : go unit := Ok ().

Definition getTransactionReceipt (txHash : bytes) : go (option json) :=
  go_wrap "failed to call Bundler RPC to fetch Tx receipt"
    (CallContext into_Receipt "eth_getTransactionReceipt" [bytes_json txHash]).

Definition getUserOperationReceipt (opHash : bytes) : go (option bundlerUserOpReceipt) :=
  go_wrap "failed to call Bundler RPC to fetch UserOperation receipt"
    (CallContext into_UserOpReceipt "eth_getUserOperationReceipt" [bytes_json opHash]).

Definition getUserOperationByHash (opHash : bytes) : go (option bundlerUserOpResponse) :=
  go_wrap "failed to call Bundler RPC to fetch UserOperation by hash"
    (CallContext into_UserOpResponse "eth_getUserOperationByHash" [bytes_json opHash]).

(** A member with [omitempty]. *)
Definition omitempty (name : string) (b : bytes) : list (string * json) :=
  if bool_decide (b = []) then [] else [(name, bytes_json b)].

Definition estimate_json (e : bundlerUserOperationEstimate) : json :=
  JObject ([("sender", bytes_json (est_Sender e)); ("nonce", big_json (est_Nonce e))]
           ++ omitempty "factory" (est_Factory e) ++ omitempty "factoryData" (est_FactoryData e)
           ++ [("initCode", bytes_json (est_InitCode e)); ("callData", bytes_json (est_CallData e))]).

Definition overrides_json (o : bundlerGasLimitOverrides) : json :=
  JObject [("maxFeePerGas", bytes_json (ov_MaxFeePerGas o));
           ("maxPriorityFeePerGas", big_json (ov_MaxPriorityFeePerGas o));
           ("callGasLimit", big_json (ov_CallGasLimit o));
           ("verificationGasLimit", big_json (ov_VerificationGasLimit o));
           ("preVerificationGas", big_json (ov_PreVerificationGas o))].

Definition request_json (r : bundlerRequestGasAndPaymasterAndData) : json :=
  JObject ([("policyId", JString (rq_PolicyID r)); ("entryPoint", bytes_json (rq_EntryPoint r));
            ("dummySignature", JString (rq_DummySignature r));
            ("userOperation", estimate_json (rq_UserOperation r))]
           ++ match rq_Overrides r with Some o => [("overrides", overrides_json o)] | None => [] end).

Definition alchemyRequestGasAndPaymasterAndData (bc : bundlerClient) (sender : bytes) (nonce : Z)
    (initCode callData : bytes) : go bundlerResponseGasAndPaymasterAndData :=
  let! nonceU256 := uint256_MustFromBig nonce in
  go_wrap "failed to fetch UO gas esitmates from Bundler RPC"
    (CallContext into_Estimates "alchemy_requestGasAndPaymasterAndData"
       [request_json
          {| rq_PolicyID := "TODO_POLICY_ID"; rq_EntryPoint := bc_entrypointAddress bc;
             rq_DummySignature := gasEstimationDummySig;
             rq_UserOperation :=
               {| est_Sender := sender; est_Nonce := nonceU256; est_Factory := []; est_FactoryData := [];
                  est_InitCode := initCode; est_CallData := callData |};
             rq_Overrides := None |}]).

(** The hash returned, and the error; both when the call fails. *)
Definition sendUserOperation (bc : bundlerClient) (userOperation : PackedUserOperation)
    (userOperationHash : bytes) : bytes * option error + string :=
  match CallContext into_Bytes "eth_sendUserOperation"
          [packed_MarshalJSON userOperation; bytes_json (bc_entrypointAddress bc)] with
  | Err e => inl (userOperationHash, Some (EWrap "failed to send UO via Bundler RPC" e))
  | Ok retUoHash =>
      if negb (bool_decide (retUoHash = userOperationHash)) then inl (BytesToHash retUoHash, None)
      else inl (userOperationHash, None)
  | Panic m => inr m
  end.

Definition isAA25NonceError (err : option error) : bool :=
  match err with
  | None => false
  | Some e => strings_Contains (Error e) "AA25" || strings_Contains (Error e) "invalid account nonce"
  end.

Definition ensureOnly0x (str : string) : string :=
  if strings_HasPrefix str "0x0" then "0x" +:+ strings_TrimPrefix str "0x0" else str.

(** ** Properties *)

Lemma existsb_elem (l : list bytes) a : existsb (fun x => bool_decide (x = a)) l = true <-> a ∈ l.
Proof.
  rewrite existsb_exists. split.
  - intros (x & Hx & ->%bool_decide_eq_true). by apply list_elem_of_In.
  - intros H. exists a. split; [by apply list_elem_of_In|by apply bool_decide_eq_true].
Qed.

(** A bundler client can be made exactly for an entry point the bundler says it
    supports: the endpoint is dialled, the supported entry points are asked for,
    and the given one is among the answer; the client then has the given addresses.
    A failed query is an error, with the query's as its cause. *)
Theorem NewBundlerClient_exact url ep factory bc :
  (NewBundlerClient url ep factory = Ok bc <->
   ethrpc_Dial url = None /\
   (exists doc eps, ethrpc_CallContext "eth_supportedEntryPoints" [] = Ok doc /\
      into_Addresses doc = Ok eps /\ ep ∈ eps) /\
   bc = {| bc_bundlerUrl := url; bc_entrypointAddress := ep; bc_accountFactoryAddress := factory |}) /\
  (forall e, ethrpc_Dial url = None -> ethrpc_CallContext "eth_supportedEntryPoints" [] = Err e ->
     exists e', NewBundlerClient url ep factory = Err e' /\ errors_Is e' e = true).
Proof.
  unfold NewBundlerClient, supportedEntryPoints, CallContext. cbv zeta. split; [split|].
  - intros (u & Hd & H)%go_bind_Ok. apply go_bind_Ok in H as (eps & He & H).
    apply go_wrap_Ok, go_wrap_Ok, go_bind_Ok in He as (doc & Hc & Hi).
    destruct (existsb _ eps) eqn:E; [|done]. cbn [bc_entrypointAddress negb] in *. injection H as <-.
    split_and!; [by destruct (ethrpc_Dial url)| |done]. exists doc, eps. by apply existsb_elem in E.
  - intros (-> & (doc & eps & -> & Hi & Hin%existsb_elem) & ->). cbn [check go_bind].
    rewrite Hi. cbn [go_wrap go_bind bc_entrypointAddress]. by rewrite Hin.
  - intros e -> ->. cbn [check go_bind go_wrap]. eexists. split; [done|].
    cbn [errors_Is]. repeat case_decide; try done.
    destruct e; cbn; repeat case_decide; done.
Qed.

Context `{HL : !HexUtilLaws, EBL : !EthBytesLaws}.

(** A bundler that reads the operation and the entry point of a request by the
    ERC's field names and answers with a hash or an error. *)
Record serves (serve : PackedUserOperation -> bytes -> bytes + error) : Prop := {
  serves_call j m op s ep :
    unmarshal_map j = Ok m -> read_packed m = Ok op -> hexutil_Decode s = Ok ep ->
    ethrpc_CallContext "eth_sendUserOperation" [j; JString s] =
    match serve op ep with inl h => Ok (bytes_json h) | inr e => Err e end;
  serves_hash op ep h : serve op ep = inl h -> into_Bytes (bytes_json h) = Ok h /\ length h = 32%nat
}.

(** C27. Sending a user operation reaches the bundler as that operation.  Whatever the
    bundler does with an operation and an entry point, sending is doing it with the
    given operation and the client's entry point: the hash it answers with is what
    is returned, whether or not it is the one computed here, and its error comes
    back wrapped, beside the hash computed here. *)
Theorem sendUserOperation_served serve bc op hash :
  serves serve -> packed_typed op -> Forall is_byte (bc_entrypointAddress bc) ->
  sendUserOperation bc op hash =
  match serve op (bc_entrypointAddress bc) with
  | inl h => inl (h, None)
  | inr e => inl (hash, Some (EWrap "failed to send UO via Bundler RPC" e))
  end.
Proof.
  intros Hs Ht Hep. unfold sendUserOperation, CallContext.
  change (bytes_json (bc_entrypointAddress bc)) with (JString (hexutil_Encode (bc_entrypointAddress bc))).
  assert (Hm : unmarshal_map (packed_MarshalJSON op) = Ok (list_to_map (reverse (packed_fields op)))) by done.
  rewrite (serves_call _ Hs _ _ op _ (bc_entrypointAddress bc) Hm (read_packed_ToMap op _ Ht Hm)
    (hexutil_bytes _ Hep)).
  destruct (serve op (bc_entrypointAddress bc)) as [h|e] eqn:E; [|done]. cbn [go_bind].
  destruct (serves_hash _ Hs _ _ _ E) as [-> Hl]. destruct (bool_decide (h = hash)) eqn:Eh; cbn [negb].
  - apply bool_decide_eq_true in Eh as ->. done.
  - by rewrite BytesToHash_32.
Qed.
End Bundler.

(** ** Witnesses *)

Definition demo_address : bytes := repeat 1 20.

Definition demo_json_op : UserOperation :=
  {| Sender := demo_address; uo_Nonce := 7; InitCode := []; CallData := [1; 2]; CallGasLimit := 100;
     VerificationGasLimit := 200; PreVerificationGas := 300; MaxFeePerGas := 5; MaxPriorityFeePerGas := 1;
     Paymaster := repeat 0 20; PaymasterVerificationGasLimit := 300000; PaymasterPostOpGasLimit := 0;
     PaymasterData := []; Signature := [255] |}.

Definition demo_json_packed : PackedUserOperation :=
  {| pk_Sender := demo_address; pk_Nonce := 7; pk_InitCode := []; pk_CallData := [1; 2];
     AccountGasLimits := repeat 1 32; pk_PreVerificationGas := 300; GasFees := repeat 2 32;
     PaymasterAndData := []; pk_Signature := [0; 9] |}.

Ltac typed := repeat first [split | constructor]; try (unfold is_byte, is_u256; cbn; lia); try reflexivity.

Lemma demo_op_typed : op_typed demo_json_op.
Proof. typed. Qed.

Lemma demo_packed_typed : packed_typed demo_json_packed.
Proof. typed. Qed.

Lemma userop_json_roundtrip_witness :
  exists m, @packed_ToMap model_hex demo_json_packed = Ok m /\ @read_packed model_hex m = Ok demo_json_packed.
Proof.
  destruct (@userop_json_roundtrip model_hex model_hex_laws demo_json_op demo_json_packed demo_op_typed
    demo_packed_typed) as [_ (m & H1 & H2 & _)]. exists m. exact (conj H1 H2).
Defined.

(** A bundler that supports one entry point and answers with a fixed hash. *)
Definition demo_serve (op : PackedUserOperation) (ep : bytes) : bytes + error :=
  if decide (ep = demo_address) then inl (repeat 3 32) else inr (ENew "AA25 invalid account nonce").

Definition demo_bundler_call (method : string) (args : list json) : go json :=
  if String.eqb method "eth_supportedEntryPoints" then Ok (JArray [@bytes_json model_hex demo_address])
  else
    match args with
    | [j; JString s] =>
        let! m := unmarshal_map j in
        let! op := @read_packed model_hex m in
        let! ep := @hexutil_Decode model_hex s in
        match demo_serve op ep with inl h => Ok (@bytes_json model_hex h) | inr e => Err e end
    | _ => Err (ENew "invalid params")
    end.

Definition demo_bytes (j : json) : go bytes :=
  match j with JString s => @hexutil_Decode model_hex s | _ => Err (ENew "not a string") end.

Definition demo_bundler : BundlerRpc := {|
  ethrpc_Dial u := None;
  ethrpc_CallContext := demo_bundler_call;
  into_Addresses j :=
    match j with JArray [JString s] => let! b := @hexutil_Decode model_hex s in Ok [b] | _ => Ok [] end;
  into_Bytes := demo_bytes;
  into_Estimates j := Ok zero_estimates;
  into_Receipt j := Ok None;
  into_UserOpReceipt j := Ok None;
  into_UserOpResponse j := Ok None;
  uint256_MustFromBig x := if (0 <=? x) && (x <? 2 ^ 256) then Ok x else Panic "overflow"
|}.

Lemma demo_serves : @serves model_hex demo_bundler demo_serve.
Proof.
  constructor.
  - intros j m op s ep H1 H2 H3. cbn -[hexutil_Decode read_packed unmarshal_map].
    rewrite H1. cbn [go_bind]. rewrite H2. cbn [go_bind]. by rewrite H3.
  - intros op ep h. unfold demo_serve. case_decide; [|done]. intros [= <-]. done.
Qed.

Definition demo_bc : bundlerClient :=
  {| bc_bundlerUrl := "http://localhost:3000"; bc_entrypointAddress := demo_address;
     bc_accountFactoryAddress := [] |}.

Lemma NewBundlerClient_exact_witness :
  @NewBundlerClient model_hex demo_bundler "http://localhost:3000" demo_address [] = Ok demo_bc.
Proof.
  apply (@NewBundlerClient_exact model_hex demo_bundler "http://localhost:3000" demo_address [] demo_bc).
  split; [reflexivity|]. split; [|reflexivity].
  exists (JArray [@bytes_json model_hex demo_address]), [demo_address].
  split; [reflexivity|]. split; [reflexivity|left].
Defined.

Lemma sendUserOperation_served_witness :
  @sendUserOperation model_hex model_ethbytes demo_bundler demo_bc demo_json_packed [1] = inl (repeat 3 32, None).
Proof.
  apply (@sendUserOperation_served model_hex model_ethbytes demo_bundler model_hex_laws model_ethbytes_laws
    demo_serve demo_bc demo_json_packed [1] demo_serves demo_packed_typed).
  typed.
Defined.
