(* ===== verification/Genesis.v ===== *)
(** * Package chain: the genesis document (genesis.go)

    [Genesis] with [NewGenesis], [AddAccount], [AddValidator] and [Save].  The
    three genesis templates have no accounts, balances, supply or genesis
    transactions, so these start empty; the rest of the rendered document is
    represented by the configuration it was rendered from.  Coin parsing and
    addition, the validator message and its JSON encoding, and the sanitising
    functions of x/auth and x/bank are parameters. *)

From Stdlib Require Import ZArith Lia Ascii String.
From stdpp Require Import base list strings numbers gmap.
From S2P Require Import Prelude GoStrings Float64 Sdk SdkModel Chain.

Open Scope string_scope.
Open Scope Z_scope.
Open Scope list_scope.

Definition DefaultVersion : string := "v1.13.0".
Definition DefaultBondDenom : string := "inj".
Definition DefaultChainID : string := "stressinj-1337".
Definition DefaultEthChainID : Z := 1337.

Record GenesisConfig := {
  gc_AppVersion : string;
  gc_GenesisTime : string;
  gc_ChainID : string;
  gc_EthChainID : Z;
  gc_BondDenom : string;
  gc_EvmEnabled : bool;
  gc_ProdLike : bool
}.

Inductive template := TplEvm | TplProd | TplDefault.

(** banktypes.Balance *)
Record Balance := { bal_Address : string; bal_Coins : Coins }.

#[export] Instance Balance_eq_dec : EqDecision Balance.
Proof. solve_decision. Defined.

(** stakingtypes.CommissionRates; decimals are integers scaled by 10^18. *)
Record CommissionRates := { Rate : Z; MaxRate : Z; MaxChangeRate : Z }.

Class GenesisLib := {
  (** [time.Now] in RFC3339 *)
  now_RFC3339 : string;
  (** rendering a template and [GenesisDocFromJSON]: the error, if any *)
  genesis_render : template -> GenesisConfig -> option error;
  ParseCoinsNormalized : string -> go Coins;
  Coins_Add : Coins -> Coins -> Coins;
  FromCmtPubKey : bytes -> go bytes;
  ValAddress_String : bytes -> go string;
  NewMsgCreateValidator : string -> bytes -> Coin -> string -> CommissionRates -> Z -> go Msg;
  TxJSONEncoder : sdkTx -> go bytes;
  SanitizeGenesisAccounts : list bytes -> list bytes;
  SanitizeGenesisBalances : list Balance -> go (list Balance)
}.

(** The amount of a denomination in a list of coins. *)
Definition AmountOf (d : string) (cs : Coins) : Z :=
  zsum (map (fun c => if decide (Denom c = d) then Amount c else 0) cs).

(** Documented: coins add up by denomination; sanitising sorts, so it keeps the
    elements, and a sorted list stays as it is. *)
Class GenesisLaws `{GenesisLib} := {
  Coins_Add_amount a b d : AmountOf d (Coins_Add a b) = AmountOf d a + AmountOf d b;
  Sanitize_accounts l : SanitizeGenesisAccounts l ≡ₚ l;
  Sanitize_balances l l' : SanitizeGenesisBalances l = Ok l' -> l' ≡ₚ l;
  Sanitize_idempotent l l' : SanitizeGenesisBalances l = Ok l' -> SanitizeGenesisBalances l' = Ok l'
}.

(** What is saved as genesis.json. *)
Record GenesisDoc := {
  doc_config : GenesisConfig;
  doc_accounts : list bytes;
  doc_balances : list Balance;
  doc_supply : Coins;
  doc_gentxs : list bytes
}.

Record Genesis := {
  g_config : GenesisConfig;
  finalized : bool;
  accountState : list bytes;
  balances : list Balance;
  supply : Coins;
  genTxs : list bytes
}.

Section Genesis.
Context `{TC : TxConfig, CR : Crypto, SM : SdkMath, GL : GenesisLib}.

Definition non_empty (s dflt : string) : string := if decide (s = "") then dflt else s.

(** The configuration with its defaults; [None] is nil. *)
Definition genesis_defaults (genConfig : option GenesisConfig) : GenesisConfig :=
  let c := default {| gc_AppVersion := ""; gc_GenesisTime := ""; gc_ChainID := ""; gc_EthChainID := 0;
                      gc_BondDenom := ""; gc_EvmEnabled := false; gc_ProdLike := false |} genConfig in
  {| gc_AppVersion := non_empty (gc_AppVersion c) DefaultVersion;
     gc_GenesisTime := non_empty (gc_GenesisTime c) now_RFC3339;
     gc_ChainID := non_empty (gc_ChainID c) DefaultChainID;
     gc_EthChainID := if gc_EthChainID c =? 0 then DefaultEthChainID else gc_EthChainID c;
     gc_BondDenom := non_empty (gc_BondDenom c) DefaultBondDenom;
     gc_EvmEnabled := gc_EvmEnabled c; gc_ProdLike := gc_ProdLike c |}.

Definition genesis_template (c : GenesisConfig) : template :=
  if gc_EvmEnabled c then TplEvm else if gc_ProdLike c then TplProd else TplDefault.

Definition NewGenesis (genConfig : option GenesisConfig) : go Genesis :=
  let c := genesis_defaults genConfig in
  match genesis_render (genesis_template c) c with
  | Some _ => Panic "error"
  | None =>
      Ok {| g_config := c; finalized := false; accountState := []; balances := []; supply := [];
            genTxs := [] |}
  end.

Definition verifyNotFinalized (g : Genesis) : go unit :=
  if finalized g then Panic "genesis has been already saved, no more operations are allowed" else Ok ().

Definition AddAccount (g : Genesis) (address : bytes) (balances_ : string) : go Genesis :=
  let! _ := verifyNotFinalized g in
  let! coins := orPanic (ParseCoinsNormalized balances_) in
  Ok {| g_config := g_config g; finalized := finalized g;
        accountState := accountState g ++ [address];
        balances := balances g ++ [{| bal_Address := bech32_AccAddress address; bal_Coins := coins |}];
        supply := Coins_Add (supply g) coins; genTxs := genTxs g |}.

Definition commission : CommissionRates :=
  {| Rate := 10 ^ 17; MaxRate := 2 * 10 ^ 17; MaxChangeRate := 10 ^ 16 |}.

Definition AddValidator (g : Genesis) (tmValPubKey : bytes) (stakerPrivateKey : Secp256k1PrivateKey)
    (stakedBalance : string) : go Genesis :=
  let! _ := verifyNotFinalized g in
  let! amount := orPanic (ParseCoinNormalized stakedBalance) in
  let! valPubKey := orPanic (FromCmtPubKey tmValPubKey) in
  let! valStr := orPanic (ValAddress_String (Address stakerPrivateKey)) in
  let! msg := orPanic (NewMsgCreateValidator valStr valPubKey amount (AccAddress stakerPrivateKey)
                         commission 1) in
  let! signedTx := orPanic (buildAndSignTx {| ChainID := gc_ChainID (g_config g) |} stakerPrivateKey
                              0 0 [] 200000 "" [msg]) in
  let! encodedTx := orPanic (TxJSONEncoder signedTx) in
  Ok {| g_config := g_config g; finalized := finalized g; accountState := accountState g;
        balances := balances g; supply := supply g; genTxs := genTxs g ++ [encodedTx] |}.

(** The document that is written, and the genesis afterwards: it is finalized and
    its balances are the sanitised ones. *)
Definition Genesis_Save (g : Genesis) : go (Genesis * GenesisDoc) :=
  let! bals := SanitizeGenesisBalances (balances g) in
  Ok ({| g_config := g_config g; finalized := true; accountState := accountState g; balances := bals;
         supply := supply g; genTxs := genTxs g |},
      {| doc_config := g_config g; doc_accounts := SanitizeGenesisAccounts (accountState g);
         doc_balances := bals; doc_supply := supply g; doc_gentxs := genTxs g |}).

(** ** Invariant: the supply is the sum of the balances *)

Definition total (d : string) (bs : list Balance) : Z :=
  zsum (map (fun b => AmountOf d (bal_Coins b)) bs).

Definition Genesis_inv (g : Genesis) : Prop :=
  (forall d, AmountOf d (supply g) = total d (balances g))
  /\ map bal_Address (balances g) ≡ₚ map bech32_AccAddress (accountState g).

Lemma total_app d l1 l2 : total d (l1 ++ l2) = total d l1 + total d l2.
Proof. unfold total. by rewrite map_app, zsum_app. Qed.

Lemma total_single d b : total d [b] = AmountOf d (bal_Coins b).
Proof. unfold total, zsum. cbn [map foldr]. lia. Qed.

Lemma zsum_perm l l' : l ≡ₚ l' -> zsum l = zsum l'.
Proof. unfold zsum. induction 1; cbn [foldr]; lia. Qed.

Lemma total_perm d l l' : l ≡ₚ l' -> total d l = total d l'.
Proof. intros H. apply zsum_perm. by rewrite H. Qed.

Lemma NewGenesis_Ok c g :
  NewGenesis c = Ok g ->
  g = {| g_config := genesis_defaults c; finalized := false; accountState := []; balances := [];
         supply := []; genTxs := [] |}.
Proof. unfold NewGenesis. destruct (genesis_render _ _); [done|]. by intros [= <-]. Qed.

Lemma NewGenesis_inv c g : NewGenesis c = Ok g -> Genesis_inv g.
Proof. intros ->%NewGenesis_Ok. by split. Qed.

Lemma AddAccount_Ok g a s g' :
  AddAccount g a s = Ok g' <->
  finalized g = false /\ exists coins, ParseCoinsNormalized s = Ok coins
    /\ g' = {| g_config := g_config g; finalized := finalized g;
               accountState := accountState g ++ [a];
               balances := balances g ++ [{| bal_Address := bech32_AccAddress a; bal_Coins := coins |}];
               supply := Coins_Add (supply g) coins; genTxs := genTxs g |}.
Proof.
  unfold AddAccount, verifyNotFinalized, orPanic.
  destruct (finalized g), (ParseCoinsNormalized s); cbn; split; intros; simplify_eq; eauto; naive_solver.
Qed.

Lemma AddValidator_Ok g pk k s g' :
  AddValidator g pk k s = Ok g' ->
  finalized g = false /\ exists tx,
    g' = {| g_config := g_config g; finalized := finalized g; accountState := accountState g;
            balances := balances g; supply := supply g; genTxs := genTxs g ++ [tx] |}.
Proof.
  unfold AddValidator, verifyNotFinalized. destruct (finalized g); [done|]. cbn [go_bind].
  intros H. repeat (apply go_bind_Ok in H as (? & _ & H)). simplify_eq. eauto.
Qed.

Lemma Genesis_Save_Ok g g' doc :
  Genesis_Save g = Ok (g', doc) <-> exists bals, SanitizeGenesisBalances (balances g) = Ok bals
    /\ g' = {| g_config := g_config g; finalized := true; accountState := accountState g;
               balances := bals; supply := supply g; genTxs := genTxs g |}
    /\ doc = {| doc_config := g_config g; doc_accounts := SanitizeGenesisAccounts (accountState g);
                doc_balances := bals; doc_supply := supply g; doc_gentxs := genTxs g |}.
Proof. unfold Genesis_Save. destruct (SanitizeGenesisBalances _); cbn; naive_solver. Qed.

End Genesis.

Section GenesisLaws.
Context `{TC : TxConfig, CR : Crypto, SM : SdkMath, GL : GenesisLib, LW : !GenesisLaws}.

Lemma AddAccount_inv g a s g' : AddAccount g a s = Ok g' -> Genesis_inv g -> Genesis_inv g'.
Proof.
  intros (_ & coins & _ & ->)%AddAccount_Ok [Hs Ha]. split; cbn [supply balances accountState].
  - intros d. rewrite Coins_Add_amount, total_app, Hs, total_single. done.
  - by rewrite !map_app, Ha.
Qed.

Lemma AddValidator_inv g pk k s g' : AddValidator g pk k s = Ok g' -> Genesis_inv g -> Genesis_inv g'.
Proof. by intros (_ & tx & ->)%AddValidator_Ok. Qed.

Lemma Genesis_Save_inv g g' doc : Genesis_Save g = Ok (g', doc) -> Genesis_inv g -> Genesis_inv g'.
Proof.
  intros (bals & Hb & -> & _)%Genesis_Save_Ok [Hs Ha]. apply Sanitize_balances in Hb.
  split; cbn [supply balances accountState].
  - intros d. by rewrite (total_perm d _ _ Hb).
  - by rewrite Hb.
Qed.

End GenesisLaws.
