(* ===== verification/Generator.v ===== *)
(** * The deployment generator (generator.go, chain/config_app.go,
    chain/config_node.go, chain/docker.go, chain/init.go)

    [GenerateConfigs] with the node, application and docker-compose
    configurations it writes.  The output tree is a map from paths to files; a
    path is the list of its components, as the operating system resolves it.
    Random keys come from two streams, one per kind of key.  A failing file
    operation panics in the program and is not modelled; a rendered
    template is the record it is rendered from ([Rendering] has its text). *)

From Stdlib Require Import ZArith Lia Ascii String.
From stdpp Require Import base list strings numbers gmap.
From S2P Require Import Prelude GoStrings Float64 Sdk SdkModel Chain Genesis.

Open Scope string_scope.
Open Scope Z_scope.
Open Scope list_scope.

(** ** Splitting, paths *)

(** [strings.Split(s, sep)] for a separator of one character. *)
Fixpoint split_on (sep : ascii) (s : string) : list string :=
  match s with
  | EmptyString => [""]
  | String c s' =>
      if decide (c = sep) then "" :: split_on sep s'
      else match split_on sep s' with
           | w :: ws => String c w :: ws
           | [] => [String c ""]
           end
  end.

(** A path as its components; empty ones and [.] mean nothing. *)
Definition path_of (s : string) : list string :=
  filter (fun w => w <> "" /\ w <> ".") (split_on "/" s).

(** ** Addresses (package net) *)

Abbreviation IP := (list Z).

Definition IPv4zero : IP := [0; 0; 0; 0].
Definition localhost : IP := [127; 0; 0; 1].

Definition IP_String (ip : IP) : string := strings_Join (map strconv_Itoa ip) ".".

(** An octet: digits, at most 255, no leading zero. *)
Definition parse_octet (s : string) : option Z :=
  match s with
  | EmptyString => None
  | String c r =>
      if (char_code c =? 48) && negb (bool_decide (r = "")) then None
      else match strconv_ParseUint s with
           | Ok n => if 255 <? n then None else Some n
           | _ => None
           end
  end.

(** The mask byte of octet [k] of a prefix of [n] bits. *)
Definition mask_byte (n : Z) (k : Z) : Z :=
  256 - 2 ^ (8 - Z.min 8 (Z.max 0 (n - 8 * k))).

(** The network address of [net.ParseCIDR] for an IPv4 subnet.  Every other text
    ends in a panic below, whether it is an IPv6 subnet or not a subnet (the
    IPv4-mapped IPv6 notation is not recognised here). *)
Definition ParseCIDR (s : string) : option IP :=
  match split_on "/" s with
  | [addr; mask] =>
      match map parse_octet (split_on "." addr), strconv_ParseUint mask with
      | [Some a; Some b; Some c; Some d], Ok n =>
          if 32 <? n then None
          else Some [Z.land a (mask_byte n 0); Z.land b (mask_byte n 1);
                     Z.land c (mask_byte n 2); Z.land d (mask_byte n 3)]
      | _, _ => None
      end
  | _ => None
  end.

Definition ipInSubnet (subnet : string) (offset : Z) : go IP :=
  match ParseCIDR subnet with
  | Some [a; b; c; d] => Ok [a; b; c; u8 (d + u8 (i64 (offset + 1)))]
  | _ => Panic "only IPv4 subnets supported"
  end.

(** ** Ports (chain/types.go, chain/init.go) *)

Record Ports := {
  RPC : Z; P2P : Z; API : Z; GRPC : Z; GRPCWeb : Z;
  PProf : Z; Prometheus : Z; EVMRPC : Z; EVMWSPort : Z; ProxyApp : Z
}.

Definition DefaultPorts : Ports :=
  {| RPC := 26657; P2P := 26656; API := 10337; GRPC := 9900; GRPCWeb := 9091;
     PProf := 6060; Prometheus := 26660; EVMRPC := 8545; EVMWSPort := 8546; ProxyApp := 26658 |}.

Definition digitOffset : Z := 100.

Definition shiftPorts (ports : Ports) (offset : Z) : Ports :=
  let sh p := i64 (p + i64 (digitOffset * offset)) in
  {| RPC := sh (RPC ports); P2P := sh (P2P ports); API := sh (API ports); GRPC := sh (GRPC ports);
     GRPCWeb := sh (GRPCWeb ports); PProf := sh (PProf ports); Prometheus := sh (Prometheus ports);
     EVMRPC := sh (EVMRPC ports); EVMWSPort := sh (EVMWSPort ports); ProxyApp := sh (ProxyApp ports) |}.

(** ** Configurations *)

Definition TxIndexerKV : string := "kv".
Definition TxIndexerDisabled : string := "null".

(** Keys are bytes; [ValidatorKey = None] is nil. *)
Record NodeConfig := {
  Home : string;
  Moniker : string;
  PeerID : string;
  nc_IPListen : IP;
  IPAddr : IP;
  nc_Ports : Ports;
  PersistentPeers : string;
  PrivatePeerIds : string;
  NodeKey : bytes;
  ValidatorKey : option bytes;
  TxIndexer : string;
  DiscardABCIResponses : bool;
  nc_ProdLike : bool;
  nc_PortsExposed : bool;
  DependsOn : list Z
}.

Record AppConfig := {
  MinimumGasPrices : string;
  EVMEnabled : bool;
  ac_ProdLike : bool;
  ac_IPListen : IP;
  ac_Ports : Ports;
  ac_PortsExposed : bool
}.

(** The fields of the CometBFT configuration that [Save] sets on the default one. *)
Record BftConfig := {
  AddrBookStrict : bool;
  AllowDuplicateIP : bool;
  MaxNumOutboundPeers : Z;
  MaxNumInboundPeers : Z;
  bft_PersistentPeers : string;
  bft_PrivatePeerIDs : string;
  MaxSubscriptionClients : Z;
  MaxOpenConnections : Z;
  MaxSubscriptionsPerClient : Z;
  Mempool_Size : Z;
  Mempool_MaxTxsBytes : Z;
  P2P_ListenAddress : string;
  RPC_ListenAddress : string;
  PrometheusListenAddr : option string;
  bft_Moniker : string;
  Indexer : string;
  bft_DiscardABCIResponses : bool
}.

Record DockerComposeConfig := {
  dc_Image : string;
  dc_Debug : bool;
  dc_LogFile : string;
  dc_ChainID : string;
  dc_Nodes : list NodeConfig;
  dc_Subnet : string
}.

Inductive appTemplate := AppEvm | AppProd | AppDefault.

(** What the generator writes. *)
Inductive File :=
| FNodeKey (key : bytes)
| FValidatorKey (key : bytes)
| FValidatorState
| FConfigProd (c : NodeConfig)
| FConfig (c : BftConfig)
| FApp (t : appTemplate) (c : AppConfig)
| FGenesis (doc : GenesisDoc)
| FIds (ids : list string)
| FAccounts (keys : list Secp256k1PrivateKey)
| FCompose (c : DockerComposeConfig).

Abbreviation FS := (gmap (list string) File).

Definition WriteFile (fs : FS) (path : string) (f : File) : FS := <[path_of path := f]> fs.

Definition JoinHostPort (host : string) (port : string) : string := host +:+ ":" +:+ port.

Definition bft_config (n : NodeConfig) : BftConfig :=
  let listen port := JoinHostPort (IP_String (nc_IPListen n)) (strconv_Itoa port) in
  {| AddrBookStrict := false; AllowDuplicateIP := true; MaxNumOutboundPeers := 100;
     MaxNumInboundPeers := 100; bft_PersistentPeers := PersistentPeers n;
     bft_PrivatePeerIDs := PrivatePeerIds n; MaxSubscriptionClients := 10000;
     MaxOpenConnections := 10000; MaxSubscriptionsPerClient := 10000; Mempool_Size := 50000;
     Mempool_MaxTxsBytes := 671088640; P2P_ListenAddress := "tcp://" +:+ listen (P2P (nc_Ports n));
     RPC_ListenAddress := "tcp://" +:+ listen (RPC (nc_Ports n));
     PrometheusListenAddr :=
       if nc_PortsExposed n then Some (listen (Prometheus (nc_Ports n))) else None;
     bft_Moniker := Moniker n; Indexer := TxIndexerKV; bft_DiscardABCIResponses := false |}.

Definition NodeConfig_Save (fs : FS) (n : NodeConfig) (homeDir : string) : FS :=
  let fs := WriteFile fs (homeDir +:+ "/config/node_key.json") (FNodeKey (NodeKey n)) in
  let fs := match ValidatorKey n with
            | Some k =>
                WriteFile (WriteFile fs (homeDir +:+ "/config/priv_validator_key.json") (FValidatorKey k))
                  (homeDir +:+ "/data/priv_validator_state.json") FValidatorState
            | None => fs
            end in
  WriteFile fs (homeDir +:+ "/config/config.toml")
    (if nc_ProdLike n then FConfigProd n else FConfig (bft_config n)).

Definition AppConfig_Save (fs : FS) (c : AppConfig) (homeDir : string) : FS :=
  let c := {| MinimumGasPrices := non_empty (MinimumGasPrices c) ("0" +:+ DefaultBondDenom);
              EVMEnabled := EVMEnabled c; ac_ProdLike := ac_ProdLike c; ac_IPListen := ac_IPListen c;
              ac_Ports := ac_Ports c; ac_PortsExposed := ac_PortsExposed c |} in
  WriteFile fs (homeDir +:+ "/config/app.toml")
    (FApp (if EVMEnabled c then AppEvm else if ac_ProdLike c then AppProd else AppDefault) c).

Definition GenerateDockerCompose (fs : FS) (chainID image subnet : string) (nodes : list NodeConfig)
    (outDir : string) (debug : bool) : FS :=
  WriteFile fs (outDir +:+ "/docker-compose.yml")
    (FCompose {| dc_Image := image; dc_Debug := debug; dc_LogFile := "injectived.log";
                 dc_ChainID := chainID; dc_Nodes := nodes; dc_Subnet := subnet |}).

(** ** generator.go *)

Record GeneratorEnvironment := {
  env_ChainID : string;
  env_EthChainID : Z;
  EvmEnabled : bool;
  NumOfValidators : Z;
  NumOfSentryNodes : Z;
  NumOfInstances : Z;
  NumOfAccountsPerInstance : Z;
  DockerImage : string;
  DockerSubnet : string;
  OutDirectory : string;
  ProdLike : bool;
  env_Debug : bool;
  LocalNative : bool
}.

Definition initialBalanceStaker : string := "100000000000000000000000" +:+ "inj".
Definition initialBalanceBonded : string := "10000000000000000000000" +:+ "inj".
Definition initialBalanceAccount : string := "1000000000000000000000000" +:+ "inj".
Definition minimumGasPrices : string := "1inj".

Definition filterStringValue (l : list string) (f : string) : list string :=
  filter (fun v => v <> f) l.

Definition makeIntRange (start end_ : Z) : list Z :=
  map (fun i => start + Z.of_nat i) (seq 0 (Z.to_nat (end_ - start))).

(** Ed25519 keys (CometBFT), and the two streams of random keys. *)
Class KeyGen := {
  ed_PubKey : bytes -> bytes;
  ed_Address : bytes -> bytes;
  rand_ed25519 : nat -> bytes;
  rand_secp256k1 : nat -> Secp256k1PrivateKey
}.

(** Documented: an address is a list of bytes. *)
Class KeyGenLaws `{KeyGen} := {
  ed_Address_bytes pk : Forall is_byte (ed_Address pk)
}.

(** The variables of [GenerateConfigs]; the numbers of keys drawn so far. *)
Record GenState := {
  gs_genesis : Genesis;
  gs_fs : FS;
  gs_ed : nat;
  gs_secp : nat;
  persistentValidatorPeers : list string;
  validatorNodeIDs : list string;
  sentryNodeIDs : list string;
  allNodeConfigs : list NodeConfig
}.

(** A Go loop [for i := i0; i < i0+n; i++]: the body may end in a panic. *)
Fixpoint for_loop {St : Type} (n : nat) (i : Z) (body : Z -> St -> go St) (st : St) : go St :=
  match n with
  | O => Ok st
  | S n' => let! st' := body i st in for_loop n' (i + 1) body st'
  end.

Section Generator.
Context `{TC : TxConfig, CR : Crypto, SM : SdkMath, GL : GenesisLib, KG : KeyGen}.

Definition NodeID (pubKey : bytes) : string := hex_EncodeToString (ed_Address pubKey).

Definition rootOutDir (env : GeneratorEnvironment) : string :=
  OutDirectory env +:+ "/chain-stresser-deploy".

(** [fmt.Sprintf("%s@%s:%d", id, ip, port)] *)
Definition peerAddress (id : string) (n : NodeConfig) : string :=
  id +:+ "@" +:+ IP_String (IPAddr n) +:+ ":" +:+ strconv_Itoa (P2P (nc_Ports n)).

Definition validator_dir (i : Z) : string := "validators/" +:+ strconv_Itoa i.
Definition sentry_dir (i : Z) : string := "sentry-nodes/" +:+ strconv_Itoa i.

Definition validator_ip (env : GeneratorEnvironment) (i : Z) : go IP :=
  if LocalNative env then Ok localhost else ipInSubnet (DockerSubnet env) (i64 (i + 1)).

Definition validator_ports (env : GeneratorEnvironment) (i : Z) : Ports :=
  if LocalNative env then shiftPorts DefaultPorts i else DefaultPorts.

Definition validator_exposed (env : GeneratorEnvironment) (i : Z) : bool :=
  (NumOfSentryNodes env =? 0) && (i =? 0).

Definition validator_node (env : GeneratorEnvironment) (i : Z) (ip : IP) (nodeKey valKey : bytes)
    : NodeConfig :=
  {| Home := "./" +:+ validator_dir i; Moniker := "validator-" +:+ strconv_Itoa i;
     PeerID := NodeID (ed_PubKey nodeKey); nc_IPListen := IPv4zero; IPAddr := ip;
     nc_Ports := validator_ports env i; PersistentPeers := ""; PrivatePeerIds := "";
     NodeKey := nodeKey; ValidatorKey := Some valKey;
     TxIndexer := if ProdLike env then TxIndexerDisabled else TxIndexerKV;
     DiscardABCIResponses := ProdLike env; nc_ProdLike := ProdLike env;
     nc_PortsExposed := validator_exposed env i; DependsOn := [] |}.

Definition app_config (env : GeneratorEnvironment) (ports : Ports) (exposed : bool) : AppConfig :=
  {| MinimumGasPrices := minimumGasPrices; EVMEnabled := EvmEnabled env; ac_ProdLike := ProdLike env;
     ac_IPListen := IPv4zero; ac_Ports := ports; ac_PortsExposed := exposed |}.

(** The body of the first loop: one validator. *)
Definition validator_step (env : GeneratorEnvironment) (i : Z) (st : GenState) : go GenState :=
  let nodePrivateKey := rand_ed25519 (gs_ed st) in
  let validatorPrivateKey := rand_ed25519 (S (gs_ed st)) in
  let stakerPrivateKey := rand_secp256k1 (gs_secp st) in
  let valDir := rootOutDir env +:+ "/" +:+ validator_dir i in
  let! ip := validator_ip env i in
  let node := validator_node env i ip nodePrivateKey validatorPrivateKey in
  let fs := NodeConfig_Save (gs_fs st) node valDir in
  let fs := AppConfig_Save fs (app_config env (nc_Ports node) (nc_PortsExposed node)) valDir in
  let! g := AddAccount (gs_genesis st) (Address stakerPrivateKey) initialBalanceStaker in
  let! g := AddValidator g (ed_PubKey validatorPrivateKey) stakerPrivateKey initialBalanceBonded in
  Ok {| gs_genesis := g; gs_fs := fs; gs_ed := S (S (gs_ed st)); gs_secp := S (gs_secp st);
        persistentValidatorPeers := persistentValidatorPeers st ++ [peerAddress (PeerID node) node];
        validatorNodeIDs := validatorNodeIDs st ++ [PeerID node];
        sentryNodeIDs := sentryNodeIDs st;
        allNodeConfigs := allNodeConfigs st ++ [node] |}.

Definition with_fs (st : GenState) (fs : FS) : GenState :=
  {| gs_genesis := gs_genesis st; gs_fs := fs; gs_ed := gs_ed st; gs_secp := gs_secp st;
     persistentValidatorPeers := persistentValidatorPeers st; validatorNodeIDs := validatorNodeIDs st;
     sentryNodeIDs := sentryNodeIDs st; allNodeConfigs := allNodeConfigs st |}.

Definition with_genesis (st : GenState) (g : Genesis) (secp : nat) : GenState :=
  {| gs_genesis := g; gs_fs := gs_fs st; gs_ed := gs_ed st; gs_secp := secp;
     persistentValidatorPeers := persistentValidatorPeers st; validatorNodeIDs := validatorNodeIDs st;
     sentryNodeIDs := sentryNodeIDs st; allNodeConfigs := allNodeConfigs st |}.

(** The inner loop of the second one: an account, its key and its balance. *)
Definition account_step (_ : Z) (s : GenState * list Secp256k1PrivateKey)
    : go (GenState * list Secp256k1PrivateKey) :=
  let '(st, accounts) := s in
  let key := rand_secp256k1 (gs_secp st) in
  let! g := AddAccount (gs_genesis st) (Address key) initialBalanceAccount in
  Ok (with_genesis st g (S (gs_secp st)), accounts ++ [key]).

Definition instance_step (env : GeneratorEnvironment) (i : Z) (st : GenState) : go GenState :=
  if NumOfAccountsPerInstance env <? 0 then Panic "makeslice: cap out of range"
  else
    let! r := for_loop (Z.to_nat (NumOfAccountsPerInstance env)) 0 account_step (st, []) in
    let '(st, accounts) := r in
    let instanceDir := rootOutDir env +:+ "/instances/" +:+ strconv_Itoa i in
    Ok (with_fs st (WriteFile (gs_fs st) (instanceDir +:+ "/accounts.json") (FAccounts accounts))).

(** [genesis.Save(dir)] *)
Definition save_genesis (st : GenState) (dir : string) : go GenState :=
  let! r := Genesis_Save (gs_genesis st) in
  let '(g, doc) := r in
  Ok (with_fs (with_genesis st g (gs_secp st))
        (WriteFile (gs_fs st) (dir +:+ "/config/genesis.json") (FGenesis doc))).

Definition genesis_step (env : GeneratorEnvironment) (i : Z) (st : GenState) : go GenState :=
  save_genesis st (rootOutDir env +:+ "/" +:+ validator_dir i).

Definition sentry_node (env : GeneratorEnvironment) (i : Z) (ip : IP) (nodeKey : bytes)
    (peers ids : list string) : NodeConfig :=
  {| Home := "./" +:+ sentry_dir i; Moniker := "sentry-node-" +:+ strconv_Itoa i;
     PeerID := NodeID (ed_PubKey nodeKey); nc_IPListen := IPv4zero; IPAddr := ip;
     nc_Ports := DefaultPorts; PersistentPeers := strings_Join peers ",";
     PrivatePeerIds := strings_Join ids ","; NodeKey := nodeKey; ValidatorKey := None;
     TxIndexer := TxIndexerKV; DiscardABCIResponses := false; nc_ProdLike := ProdLike env;
     nc_PortsExposed := i =? 0; DependsOn := makeIntRange 0 (NumOfValidators env) |}.

(** The body of the loop over the sentry nodes. *)
Definition sentry_step (env : GeneratorEnvironment) (i : Z) (st : GenState) : go GenState :=
  let nodePrivateKey := rand_ed25519 (gs_ed st) in
  let nodeDir := rootOutDir env +:+ "/" +:+ sentry_dir i in
  let! ip := ipInSubnet (DockerSubnet env) (i64 (i64 (NumOfValidators env + i) + 1)) in
  let node := sentry_node env i ip nodePrivateKey (persistentValidatorPeers st)
                (take (Z.to_nat (NumOfValidators env)) (validatorNodeIDs st)) in
  let fs := NodeConfig_Save (gs_fs st) node nodeDir in
  let fs := AppConfig_Save fs (app_config env DefaultPorts (i =? 0)) nodeDir in
  let st :=
    {| gs_genesis := gs_genesis st; gs_fs := fs; gs_ed := S (gs_ed st); gs_secp := gs_secp st;
       persistentValidatorPeers := persistentValidatorPeers st; validatorNodeIDs := validatorNodeIDs st;
       sentryNodeIDs := sentryNodeIDs st ++ [PeerID node];
       allNodeConfigs := allNodeConfigs st ++ [node] |} in
  save_genesis st nodeDir.

Definition with_peers (n : NodeConfig) (peers ids : string) : NodeConfig :=
  {| Home := Home n; Moniker := Moniker n; PeerID := PeerID n; nc_IPListen := nc_IPListen n;
     IPAddr := IPAddr n; nc_Ports := nc_Ports n; PersistentPeers := peers; PrivatePeerIds := ids;
     NodeKey := NodeKey n; ValidatorKey := ValidatorKey n; TxIndexer := TxIndexer n;
     DiscardABCIResponses := DiscardABCIResponses n; nc_ProdLike := nc_ProdLike n;
     nc_PortsExposed := nc_PortsExposed n; DependsOn := DependsOn n |}.

(** The last loop: the peers of a validator are known now; its configuration is
    saved again under [filepath.Join(rootOutDir, Home)]. *)
Definition peers_step (env : GeneratorEnvironment) (i : Z) (st : GenState) : go GenState :=
  let! nodeConfig := index (allNodeConfigs st) i in
  let! id := index (validatorNodeIDs st) i in
  let n := with_peers nodeConfig
             (strings_Join (filterStringValue (persistentValidatorPeers st) (peerAddress id nodeConfig)) ",")
             (strings_Join (validatorNodeIDs st) ",") in
  Ok {| gs_genesis := gs_genesis st;
        gs_fs := NodeConfig_Save (gs_fs st) n (rootOutDir env +:+ "/" +:+ Home n);
        gs_ed := gs_ed st; gs_secp := gs_secp st;
        persistentValidatorPeers := persistentValidatorPeers st; validatorNodeIDs := validatorNodeIDs st;
        sentryNodeIDs := sentryNodeIDs st;
        allNodeConfigs := <[Z.to_nat i := n]> (allNodeConfigs st) |}.

Definition genesis_config (env : GeneratorEnvironment) : GenesisConfig :=
  {| gc_AppVersion := ""; gc_GenesisTime := ""; gc_ChainID := env_ChainID env;
     gc_EthChainID := env_EthChainID env; gc_BondDenom := ""; gc_EvmEnabled := EvmEnabled env;
     gc_ProdLike := ProdLike env |}.

Definition sentry_nodes (env : GeneratorEnvironment) (st : GenState) : go GenState :=
  if 0 <? NumOfSentryNodes env then
    let! st := for_loop (Z.to_nat (NumOfSentryNodes env)) 0 (sentry_step env) st in
    Ok (with_fs st (WriteFile (gs_fs st) (rootOutDir env +:+ "/sentry-nodes/ids.json")
                      (FIds (sentryNodeIDs st))))
  else Ok st.

(** The state at the end; the output directory is removed first, so its tree
    starts empty. *)
Definition GenerateConfigs (env : GeneratorEnvironment) : go GenState :=
  if NumOfInstances env <=? 0 then Panic "number of instances must be greater than 0"
  else if NumOfValidators env <=? 0 then Panic "number of validators must be greater than 0"
  else
    let! g := NewGenesis (Some (genesis_config env)) in
    if i64 (NumOfValidators env + NumOfSentryNodes env) <? 0 then Panic "makeslice: cap out of range"
    else
      let st := {| gs_genesis := g; gs_fs := ∅; gs_ed := 0; gs_secp := 0; persistentValidatorPeers := [];
                   validatorNodeIDs := []; sentryNodeIDs := []; allNodeConfigs := [] |} in
      let V := Z.to_nat (NumOfValidators env) in
      let! st := for_loop V 0 (validator_step env) st in
      let st := with_fs st (WriteFile (gs_fs st) (rootOutDir env +:+ "/validators/ids.json")
                              (FIds (validatorNodeIDs st))) in
      let! st := for_loop (Z.to_nat (NumOfInstances env)) 0 (instance_step env) st in
      let! st := for_loop V 0 (genesis_step env) st in
      let! st := sentry_nodes env st in
      let! st := for_loop V 0 (peers_step env) st in
      Ok (if LocalNative env then st
          else with_fs st (GenerateDockerCompose (gs_fs st) (env_ChainID env) (DockerImage env)
                             (DockerSubnet env) (allNodeConfigs st) (rootOutDir env) (env_Debug env))).

End Generator.

(** ** Loops and paths *)

Lemma for_loop_inv {St} (P : Z -> St -> Prop) body n i st st' :
  (forall j s s', i <= j < i + Z.of_nat n -> P j s -> body j s = Ok s' -> P (j + 1) s') ->
  P i st -> for_loop n i body st = Ok st' -> P (i + Z.of_nat n) st'.
Proof.
  revert i st. induction n as [|n IH]; intros i st Hstep HP H; cbn [for_loop] in H.
  - simplify_eq. by rewrite Z.add_0_r.
  - apply go_bind_Ok in H as (s1 & H1 & H).
    replace (i + Z.of_nat (S n)) with ((i + 1) + Z.of_nat n) by lia.
    eapply IH; [|eapply Hstep; [|exact HP|exact H1]; lia|exact H].
    intros j s s' Hj. apply Hstep. lia.
Qed.

Lemma split_on_cons sep s : exists w ws, split_on sep s = w :: ws.
Proof. induction s as [|c s (w & ws & E)]; cbn; [eauto|]. rewrite E. case_decide; eauto. Qed.

Lemma split_on_app sep a b : split_on sep (a +:+ String sep b) = split_on sep a ++ split_on sep b.
Proof.
  induction a as [|c a IH]; cbn [String.append split_on].
  - by rewrite decide_True.
  - rewrite IH. case_decide; [done|]. by destruct (split_on_cons sep a) as (w & ws & ->).
Qed.

Lemma path_of_slash a b : path_of (a +:+ String "/" b) = path_of a ++ path_of b.
Proof. unfold path_of. by rewrite split_on_app, filter_app. Qed.

Fixpoint lacks (sep : ascii) (s : string) : bool :=
  match s with EmptyString => true | String c s' => negb (bool_decide (c = sep)) && lacks sep s' end.

Lemma split_on_lacks sep s : lacks sep s = true -> split_on sep s = [s].
Proof.
  induction s as [|c s IH]; cbn [lacks split_on]; [done|]. intros [Hc Hs]%andb_true_iff.
  rewrite decide_False by (intros ->; by rewrite bool_decide_eq_true_2 in Hc). by rewrite IH.
Qed.

Lemma digits_lack sep s : is_digit sep = false -> all_digits s = true -> lacks sep s = true.
Proof.
  intros Hsep. induction s as [|c s IH]; cbn [all_digits lacks]; [done|]. intros [Hc Hs]%andb_true_iff.
  rewrite IH by done. rewrite bool_decide_eq_false_2; [done|]. intros ->. congruence.
Qed.

Lemma Itoa_nonneg i : 0 <= i -> strconv_Itoa i = itoa_nonneg i.
Proof. intros. unfold strconv_Itoa. by rewrite (proj2 (Z.ltb_ge i 0)). Qed.

Lemma Itoa_inj i j : 0 <= i -> 0 <= j -> strconv_Itoa i = strconv_Itoa j -> i = j.
Proof.
  intros Hi Hj. rewrite !Itoa_nonneg by done. intros H.
  by rewrite <- (itoa_nonneg_value i), <- (itoa_nonneg_value j), H.
Qed.

Lemma path_of_Itoa i : 0 <= i -> path_of (strconv_Itoa i) = [strconv_Itoa i].
Proof.
  intros Hi. unfold path_of. rewrite split_on_lacks.
  - rewrite Itoa_nonneg by done. destruct (itoa_nonneg_cons i) as (c & s & E).
    pose proof (itoa_nonneg_digits i Hi) as Hd. rewrite E in *. cbn [all_digits] in Hd.
    rewrite filter_cons_True; [done|]. split; [done|]. intros [= -> ->]. done.
  - apply digits_lack; [done|]. rewrite Itoa_nonneg by done. by apply itoa_nonneg_digits.
Qed.

Section Paths.
Context `{KG : KeyGen}.
Implicit Types env : GeneratorEnvironment.

Definition in_dir env (kind : string) (i : Z) (rest : list string) : list string :=
  path_of (rootOutDir env) ++ kind :: strconv_Itoa i :: rest.

Lemma in_dir_inj env k k' i i' r r' :
  0 <= i -> 0 <= i' -> in_dir env k i r = in_dir env k' i' r' -> k = k' /\ i = i' /\ r = r'.
Proof.
  intros Hi Hi' H. apply app_inv_head in H. injection H as -> H ->. eauto using Itoa_inj.
Qed.

Lemma path_validator env i x :
  0 <= i -> path_of ((rootOutDir env +:+ "/" +:+ validator_dir i) +:+ String "/" x)
  = in_dir env "validators" i (path_of x).
Proof.
  intros Hi. rewrite path_of_slash. unfold in_dir.
  change (rootOutDir env +:+ "/" +:+ validator_dir i)
    with (rootOutDir env +:+ String "/" ("validators" +:+ String "/" (strconv_Itoa i))).
  by rewrite !path_of_slash, path_of_Itoa, <- app_assoc.
Qed.

Lemma path_sentry env i x :
  0 <= i -> path_of ((rootOutDir env +:+ "/" +:+ sentry_dir i) +:+ String "/" x)
  = in_dir env "sentry-nodes" i (path_of x).
Proof.
  intros Hi. rewrite path_of_slash. unfold in_dir.
  change (rootOutDir env +:+ "/" +:+ sentry_dir i)
    with (rootOutDir env +:+ String "/" ("sentry-nodes" +:+ String "/" (strconv_Itoa i))).
  by rewrite !path_of_slash, path_of_Itoa, <- app_assoc.
Qed.

(** The directory a validator is saved in again is the same one. *)
Lemma path_home env i x :
  0 <= i -> path_of ((rootOutDir env +:+ "/" +:+ ("./" +:+ validator_dir i)) +:+ String "/" x)
  = in_dir env "validators" i (path_of x).
Proof.
  intros Hi. rewrite path_of_slash. unfold in_dir.
  change (rootOutDir env +:+ "/" +:+ ("./" +:+ validator_dir i))
    with (rootOutDir env +:+ String "/" ("." +:+ String "/" ("validators" +:+ String "/" (strconv_Itoa i)))).
  by rewrite !path_of_slash, path_of_Itoa, <- app_assoc.
Qed.

Lemma path_instance env i x :
  0 <= i -> path_of ((rootOutDir env +:+ "/instances/" +:+ strconv_Itoa i) +:+ String "/" x)
  = in_dir env "instances" i (path_of x).
Proof.
  intros Hi. rewrite path_of_slash. unfold in_dir.
  change (rootOutDir env +:+ "/instances/" +:+ strconv_Itoa i)
    with (rootOutDir env +:+ String "/" ("instances" +:+ String "/" (strconv_Itoa i))).
  by rewrite !path_of_slash, path_of_Itoa, <- app_assoc.
Qed.

End Paths.

(** A write leaves other paths as they are. *)
Lemma WriteFile_eq fs path f : WriteFile fs path f !! path_of path = Some f.
Proof. apply lookup_insert_eq. Qed.

Lemma WriteFile_ne fs path f q : q <> path_of path -> WriteFile fs path f !! q = fs !! q.
Proof. intros. by apply lookup_insert_ne. Qed.

(** The last component of a path is the file's name. *)
Definition named (x : string) (q : list string) : Prop := list.last q = Some x.

Lemma named_ne x y q p : named x q -> named y p -> x <> y -> q <> p.
Proof. unfold named. congruence. Qed.

Lemma named_slash p x y : path_of x = y :: [] -> named y (path_of (p +:+ String "/" x)).
Proof. intros H. unfold named. by rewrite path_of_slash, H, last_snoc. Qed.

(** [fs'] has the same files as [fs] under the name [x]. *)
Definition same_named (x : string) (fs fs' : FS) : Prop := forall q, named x q -> fs' !! q = fs !! q.

Lemma same_named_refl x fs : same_named x fs fs.
Proof. by intros q. Qed.

Lemma same_named_trans x fs1 fs2 fs3 : same_named x fs1 fs2 -> same_named x fs2 fs3 -> same_named x fs1 fs3.
Proof. intros H1 H2 q Hq. by rewrite H2, H1. Qed.

Lemma WriteFile_named x y fs p z f :
  path_of z = [y] -> x <> y -> same_named x fs (WriteFile fs (p +:+ String "/" z) f).
Proof. intros Hz Hne q Hq. apply WriteFile_ne. eapply named_ne; [done|by apply named_slash|done]. Qed.

(** The four files of a node's configuration. *)
Definition node_files : list string :=
  ["node_key.json"; "priv_validator_key.json"; "priv_validator_state.json"; "config.toml"].

Definition config_file (n : NodeConfig) : File :=
  if nc_ProdLike n then FConfigProd n else FConfig (bft_config n).

Definition dir_file (dir sub name : string) : string := (dir +:+ String "/" sub) +:+ String "/" name.

Lemma dir_file_config dir x : dir +:+ String "/" ("config" +:+ String "/" x) = dir_file dir "config" x.
Proof. unfold dir_file. by rewrite append_assoc. Qed.

Lemma dir_file_data dir x : dir +:+ String "/" ("data" +:+ String "/" x) = dir_file dir "data" x.
Proof. unfold dir_file. by rewrite append_assoc. Qed.

(** [NodeConfig_Save] in terms of [dir_file]. *)
Lemma NodeConfig_Save_eq fs n dir :
  NodeConfig_Save fs n dir =
  let fs := WriteFile fs (dir_file dir "config" "node_key.json") (FNodeKey (NodeKey n)) in
  let fs := match ValidatorKey n with
            | Some k =>
                WriteFile (WriteFile fs (dir_file dir "config" "priv_validator_key.json") (FValidatorKey k))
                  (dir_file dir "data" "priv_validator_state.json") FValidatorState
            | None => fs
            end in
  WriteFile fs (dir_file dir "config" "config.toml") (config_file n).
Proof. rewrite <- !dir_file_config, <- dir_file_data. reflexivity. Qed.

Lemma NodeConfig_Save_named x fs n dir : x ∉ node_files -> same_named x fs (NodeConfig_Save fs n dir).
Proof.
  intros Hx. rewrite NodeConfig_Save_eq. cbv zeta. unfold node_files in Hx.
  repeat apply not_elem_of_cons in Hx as [? Hx].
  destruct (ValidatorKey n); unfold dir_file;
    repeat (eapply same_named_trans; [|by eapply WriteFile_named]); apply same_named_refl.
Qed.

Lemma NodeConfig_Save_config fs n dir :
  NodeConfig_Save fs n dir !! path_of (dir_file dir "config" "config.toml") = Some (config_file n).
Proof. rewrite NodeConfig_Save_eq. apply WriteFile_eq. Qed.

(** The configuration of another directory is left alone. *)
Lemma NodeConfig_Save_other fs n dir q :
  named "config.toml" q -> q <> path_of (dir_file dir "config" "config.toml") ->
  NodeConfig_Save fs n dir !! q = fs !! q.
Proof.
  intros Hq Hne. rewrite NodeConfig_Save_eq. cbv zeta. rewrite WriteFile_ne by done.
  revert q Hq Hne. intros q Hq _. revert q Hq. fold (same_named "config.toml" fs
    (match ValidatorKey n with
     | Some k => WriteFile (WriteFile (WriteFile fs (dir_file dir "config" "node_key.json") (FNodeKey (NodeKey n)))
          (dir_file dir "config" "priv_validator_key.json") (FValidatorKey k))
          (dir_file dir "data" "priv_validator_state.json") FValidatorState
     | None => WriteFile fs (dir_file dir "config" "node_key.json") (FNodeKey (NodeKey n))
     end)).
  destruct (ValidatorKey n); unfold dir_file;
    repeat (eapply same_named_trans; [|by eapply WriteFile_named]); apply same_named_refl.
Qed.

Lemma AppConfig_Save_named x fs c dir : x <> "app.toml" -> same_named x fs (AppConfig_Save fs c dir).
Proof.
  intros Hx. unfold AppConfig_Save. cbv zeta.
  change (dir +:+ "/config/app.toml") with (dir +:+ String "/" ("config" +:+ String "/" "app.toml")).
  rewrite dir_file_config. by eapply WriteFile_named.
Qed.

Lemma Compose_named x fs a b c d dir e :
  x <> "docker-compose.yml" -> same_named x fs (GenerateDockerCompose fs a b c d dir e).
Proof. intros. by eapply (WriteFile_named x "docker-compose.yml"). Qed.

Section Files.
Context `{TC : TxConfig, CR : Crypto, SM : SdkMath, GL : GenesisLib, KG : KeyGen}.
Implicit Types env : GeneratorEnvironment.

Lemma save_genesis_Ok st dir st' :
  save_genesis st dir = Ok st' <-> exists g doc, Genesis_Save (gs_genesis st) = Ok (g, doc)
    /\ st' = with_fs (with_genesis st g (gs_secp st))
               (WriteFile (gs_fs st) (dir_file dir "config" "genesis.json") (FGenesis doc)).
Proof.
  rewrite <- dir_file_config. unfold save_genesis.
  destruct (Genesis_Save (gs_genesis st)) as [[g doc]| |]; cbn; split; intros; simplify_eq; eauto;
    naive_solver.
Qed.

Lemma sentry_step_Ok env i st st' :
  sentry_step env i st = Ok st' ->
  exists ip fs g doc, let dir := rootOutDir env +:+ "/" +:+ sentry_dir i in
    let node := sentry_node env i ip (rand_ed25519 (gs_ed st)) (persistentValidatorPeers st)
                  (take (Z.to_nat (NumOfValidators env)) (validatorNodeIDs st)) in
    ipInSubnet (DockerSubnet env) (i64 (i64 (NumOfValidators env + i) + 1)) = Ok ip
    /\ fs = AppConfig_Save (NodeConfig_Save (gs_fs st) node dir)
              (app_config env DefaultPorts (i =? 0)) dir
    /\ Genesis_Save (gs_genesis st) = Ok (g, doc)
    /\ gs_genesis st' = g
    /\ gs_fs st' = WriteFile fs (dir_file dir "config" "genesis.json") (FGenesis doc)
    /\ persistentValidatorPeers st' = persistentValidatorPeers st
    /\ validatorNodeIDs st' = validatorNodeIDs st
    /\ allNodeConfigs st' = allNodeConfigs st ++ [node].
Proof.
  unfold sentry_step. intros (ip & Hip & H)%go_bind_Ok. apply save_genesis_Ok in H as (g & doc & Hg & ->).
  cbn [gs_genesis gs_fs with_fs with_genesis] in *. do 4 eexists. split_and!; done.
Qed.

Lemma peers_step_Ok env i st st' :
  peers_step env i st = Ok st' ->
  exists n id, allNodeConfigs st !! Z.to_nat i = Some n /\ validatorNodeIDs st !! Z.to_nat i = Some id
    /\ let n' := with_peers n
         (strings_Join (filterStringValue (persistentValidatorPeers st) (peerAddress id n)) ",")
         (strings_Join (validatorNodeIDs st) ",") in
       st' = {| gs_genesis := gs_genesis st;
                gs_fs := NodeConfig_Save (gs_fs st) n' (rootOutDir env +:+ "/" +:+ Home n);
                gs_ed := gs_ed st; gs_secp := gs_secp st;
                persistentValidatorPeers := persistentValidatorPeers st;
                validatorNodeIDs := validatorNodeIDs st; sentryNodeIDs := sentryNodeIDs st;
                allNodeConfigs := <[Z.to_nat i := n']> (allNodeConfigs st) |}.
Proof.
  unfold peers_step. intros (n & Hn & H)%go_bind_Ok. apply go_bind_Ok in H as (id & Hid & H).
  apply index_Ok in Hn as [_ Hn], Hid as [_ Hid]. simplify_eq. eauto.
Qed.

End Files.

(** ** The accounts of the genesis *)

Section Funding.
Context `{TC : TxConfig, CR : Crypto, SM : SdkMath, GL : GenesisLib, LW : !GenesisLaws, KG : KeyGen}.
Implicit Types env : GeneratorEnvironment.

(** What a balance text parses to. *)
Definition coins_of (s : string) : Coins := match ParseCoinsNormalized s with Ok c => c | _ => [] end.

Definition account_balance (key : Secp256k1PrivateKey) : Balance :=
  {| bal_Address := AccAddress key; bal_Coins := coins_of initialBalanceAccount |}.

(** A genesis under construction with [nv] validators and the accounts [keys]. *)
Record funded (nv : Z) (keys : list Secp256k1PrivateKey) (g : Genesis) : Prop := {
  fd_open : finalized g = false;
  fd_inv : Genesis_inv g;
  fd_gentxs : Z.of_nat (length (genTxs g)) = nv;
  fd_supply d : AmountOf d (supply g) =
    nv * AmountOf d (coins_of initialBalanceStaker)
    + Z.of_nat (length keys) * AmountOf d (coins_of initialBalanceAccount);
  fd_keys key : key ∈ keys -> Address key ∈ accountState g /\ account_balance key ∈ balances g
}.

Lemma funded_account nv keys g key g' :
  funded nv keys g -> AddAccount g (Address key) initialBalanceAccount = Ok g' ->
  funded nv (keys ++ [key]) g'.
Proof.
  intros [Ho Hi Hg Hs Hk] H. pose proof (AddAccount_inv _ _ _ _ H Hi) as Hi'.
  apply AddAccount_Ok in H as (_ & coins & Hc & ->).
  assert (coins_of initialBalanceAccount = coins) as Hcoins by (unfold coins_of; by rewrite Hc).
  constructor; cbn [finalized genTxs supply accountState balances]; try done.
  - intros d. rewrite Coins_Add_amount, Hs, length_app, Hcoins. cbn [length]. lia.
  - intros k [Hin| ->%list_elem_of_singleton]%elem_of_app.
    + destruct (Hk k Hin). by rewrite !elem_of_app; auto.
    + rewrite !elem_of_app, !list_elem_of_singleton. unfold account_balance. rewrite Hcoins. by auto.
Qed.

Lemma funded_validator nv keys g key pk g1 g2 :
  funded nv keys g -> AddAccount g (Address key) initialBalanceStaker = Ok g1 ->
  AddValidator g1 pk key initialBalanceBonded = Ok g2 -> funded (nv + 1) keys g2.
Proof.
  intros [Ho Hi Hg Hs Hk] H1 H2. pose proof (AddAccount_inv _ _ _ _ H1 Hi) as Hi1.
  pose proof (AddValidator_inv _ _ _ _ _ H2 Hi1) as Hi2.
  apply AddAccount_Ok in H1 as (_ & coins & Hc & ->). apply AddValidator_Ok in H2 as (_ & tx & ->).
  assert (coins_of initialBalanceStaker = coins) as Hcoins by (unfold coins_of; by rewrite Hc).
  constructor; cbn [finalized genTxs supply accountState balances] in *; try done.
  - rewrite length_app. cbn [length]. lia.
  - intros d. rewrite Coins_Add_amount, Hs, Hcoins. lia.
  - intros k Hin. destruct (Hk k Hin). by rewrite !elem_of_app; auto.
Qed.

Lemma validators_funded env n st st' :
  funded 0 [] (gs_genesis st) -> for_loop n 0 (validator_step env) st = Ok st' ->
  funded (Z.of_nat n) [] (gs_genesis st').
Proof.
  intros H0 H. refine (for_loop_inv (fun j s => funded j [] (gs_genesis s)) _ _ _ _ _ _ H0 H).
  intros j s s' _ Hs (ip & _ & Hb)%go_bind_Ok.
  apply go_bind_Ok in Hb as (g1 & H1 & Hb). apply go_bind_Ok in Hb as (g2 & H2 & Hb). simplify_eq.
  cbn [gs_genesis]. by eapply funded_validator.
Qed.

Lemma accounts_funded nv keys n st st' accs :
  funded nv keys (gs_genesis st) -> for_loop n 0 account_step (st, []) = Ok (st', accs) ->
  length accs = n /\ funded nv (keys ++ accs) (gs_genesis st') /\ gs_fs st' = gs_fs st.
Proof.
  intros H0 H.
  refine (_ (for_loop_inv (fun j s => Z.of_nat (length s.2) = j /\ funded nv (keys ++ s.2) (gs_genesis s.1)
    /\ gs_fs s.1 = gs_fs st) _ _ _ _ _ _ _ H)); cbn [fst snd].
  - intros (Hl & ? & ?). split_and!; [lia|done|done].
  - intros j [s ac] s' _ (Hl & Hf & Hfs) (g & Hg & Hb)%go_bind_Ok. simplify_eq.
    cbn [fst snd with_genesis gs_genesis gs_fs] in *. split_and!.
    + rewrite length_app. cbn [length]. lia.
    + rewrite app_assoc. by eapply funded_account.
    + done.
  - by rewrite app_nil_r.
Qed.

(** The accounts files of the instances done so far. *)
Definition accounts_ok env (fs : FS) (keyss : list (list Secp256k1PrivateKey)) : Prop :=
  forall k ks, keyss !! k = Some ks ->
    fs !! in_dir env "instances" (Z.of_nat k) ["accounts.json"] = Some (FAccounts ks).

Lemma accounts_ok_named env fs fs' keyss :
  same_named "accounts.json" fs fs' -> accounts_ok env fs keyss -> accounts_ok env fs' keyss.
Proof. intros Hs H k ks Hk. rewrite Hs; [by apply H|]. unfold named, in_dir. by rewrite last_app. Qed.

Lemma instances_funded env nv n st st' :
  funded nv [] (gs_genesis st) -> for_loop n 0 (instance_step env) st = Ok st' ->
  exists keyss, length keyss = n
    /\ Forall (fun ks => Z.of_nat (length ks) = Z.max 0 (NumOfAccountsPerInstance env)) keyss
    /\ funded nv (concat keyss) (gs_genesis st') /\ accounts_ok env (gs_fs st') keyss.
Proof.
  intros H0 H.
  refine (_ (for_loop_inv (fun j s => exists keyss, Z.of_nat (length keyss) = j
    /\ Forall (fun ks => Z.of_nat (length ks) = Z.max 0 (NumOfAccountsPerInstance env)) keyss
    /\ funded nv (concat keyss) (gs_genesis s) /\ accounts_ok env (gs_fs s) keyss) _ _ _ _ _ _ _ H)).
  - intros (keyss & Hl & ? & ? & ?). exists keyss. split_and!; [lia|done|done|done].
  - intros j s s' Hj (keyss & Hl & Hlen & Hf & Ha) Hb. unfold instance_step in Hb.
    destruct (_ <? 0) eqn:E; [done|]. bool_facts.
    apply go_bind_Ok in Hb as ([s1 accs] & Hacc & Hb). simplify_eq.
    destruct (accounts_funded _ _ _ _ _ _ Hf Hacc) as (Hn & Hf' & Hfs).
    exists (keyss ++ [accs]). cbn [with_fs gs_genesis gs_fs]. split_and!.
    + rewrite length_app. cbn [length]. lia.
    + apply Forall_app. split; [done|]. repeat constructor. lia.
    + rewrite concat_app. cbn [concat]. by rewrite app_nil_r.
    + intros k ks Hk. pose proof (path_instance env (Z.of_nat (length keyss)) "accounts.json" ltac:(lia)) as Hp.
      apply lookup_snoc_Some in Hk as [[Hlt Hk]|[-> <-]].
      * rewrite WriteFile_ne; [rewrite Hfs; by apply Ha|]. intros Heq.
        setoid_rewrite Hp in Heq. apply in_dir_inj in Heq as (_ & ? & _); lia.
      * change ["accounts.json"] with (path_of "accounts.json"). rewrite <- Hp. apply WriteFile_eq.
  - exists []. split_and!; [done|constructor|done|by intros ? ? ?].
Qed.

(** Saving again writes the same document. *)
Lemma Genesis_Save_stable g g1 doc : Genesis_Save g = Ok (g1, doc) -> Genesis_Save g1 = Ok (g1, doc).
Proof.
  intros (bals & Hb & -> & ->)%Genesis_Save_Ok. apply Genesis_Save_Ok. exists bals.
  cbn [balances g_config accountState supply genTxs]. eauto using Sanitize_idempotent.
Qed.

(** The first [n] nodes of a kind have the genesis document [doc]. *)
Definition genesis_ok env (fs : FS) (kind : string) (n : Z) (doc : GenesisDoc) : Prop :=
  forall k, 0 <= k < n -> fs !! in_dir env kind k ["config"; "genesis.json"] = Some (FGenesis doc).

Lemma genesis_ok_named env fs fs' kind n doc :
  same_named "genesis.json" fs fs' -> genesis_ok env fs kind n doc -> genesis_ok env fs' kind n doc.
Proof. intros Hs H k Hk. rewrite Hs; [by apply H|]. unfold named, in_dir. by rewrite last_app. Qed.

(** Writing node [j]'s genesis. *)
Lemma genesis_ok_write env fs kind j doc dir :
  0 <= j -> (forall x, path_of (dir +:+ String "/" x) = in_dir env kind j (path_of x)) ->
  let fs' := WriteFile fs (dir_file dir "config" "genesis.json") (FGenesis doc) in
  (genesis_ok env fs kind j doc -> genesis_ok env fs' kind (j + 1) doc)
  /\ (forall kind' n, kind' <> kind -> genesis_ok env fs kind' n doc -> genesis_ok env fs' kind' n doc)
  /\ same_named "accounts.json" fs fs'.
Proof.
  intros Hj Hdir fs'. unfold fs'.
  assert (path_of (dir_file dir "config" "genesis.json") = in_dir env kind j ["config"; "genesis.json"]) as Hp.
  { rewrite <- dir_file_config. by rewrite Hdir. }
  split_and!.
  - intros H k Hk. destruct (decide (k = j)) as [->|Hne]; [rewrite <- Hp; apply WriteFile_eq|].
    rewrite WriteFile_ne; [apply H; lia|]. rewrite Hp. intros (_ & ? & _)%in_dir_inj; lia.
  - intros kind' n Hne H k Hk. rewrite WriteFile_ne; [by apply H|]. rewrite Hp.
    intros (? & _)%in_dir_inj; [done|lia|lia].
  - by eapply WriteFile_named.
Qed.

Lemma genesis_saved env n st st' keyss :
  accounts_ok env (gs_fs st) keyss -> for_loop (S n) 0 (genesis_step env) st = Ok st' ->
  exists doc, Genesis_Save (gs_genesis st) = Ok (gs_genesis st', doc)
    /\ genesis_ok env (gs_fs st') "validators" (Z.of_nat (S n)) doc /\ accounts_ok env (gs_fs st') keyss.
Proof.
  intros Ha H. cbn [for_loop] in H. apply go_bind_Ok in H as (s1 & H1 & H).
  apply save_genesis_Ok in H1 as (g1 & doc & Hg & ->). exists doc.
  refine (_ (for_loop_inv (fun j s => gs_genesis s = g1
    /\ genesis_ok env (gs_fs s) "validators" j doc /\ accounts_ok env (gs_fs s) keyss) _ _ _ _ _ _ _ H));
    [|intros j s s' Hj (Hs & Hok & Hac) Hb|]; cbn [gs_genesis gs_fs with_fs with_genesis].
  - intros (-> & Hok & Hac). split_and!; [done| |done]. by replace (Z.of_nat (S n)) with (0 + 1 + Z.of_nat n) by lia.
  - apply save_genesis_Ok in Hb as (g & doc' & Hg' & ->).
    rewrite Hs, (Genesis_Save_stable _ _ _ Hg) in Hg'. simplify_eq.
    cbn [gs_genesis gs_fs with_fs with_genesis].
    destruct (genesis_ok_write env (gs_fs s) "validators" j doc' (rootOutDir env +:+ "/" +:+ validator_dir j))
      as (Hw & _ & Hn); [lia|intros x; apply path_validator; lia|].
    split_and!; [done|by apply Hw|by eapply accounts_ok_named].
  - destruct (genesis_ok_write env (gs_fs st) "validators" 0 doc (rootOutDir env +:+ "/" +:+ validator_dir 0))
      as (Hw & _ & Hn); [lia|intros x; by apply path_validator|].
    split_and!; [done|apply Hw; intros k; lia|by eapply accounts_ok_named].
Qed.

Lemma sentries_saved env n st st' keyss nv doc :
  accounts_ok env (gs_fs st) keyss -> genesis_ok env (gs_fs st) "validators" nv doc ->
  Genesis_Save (gs_genesis st) = Ok (gs_genesis st, doc) ->
  for_loop n 0 (sentry_step env) st = Ok st' ->
  genesis_ok env (gs_fs st') "validators" nv doc /\ genesis_ok env (gs_fs st') "sentry-nodes" (Z.of_nat n) doc
  /\ accounts_ok env (gs_fs st') keyss.
Proof.
  intros Ha Hv Hg H.
  refine (_ (for_loop_inv (fun j s => gs_genesis s = gs_genesis st
    /\ genesis_ok env (gs_fs s) "validators" nv doc /\ genesis_ok env (gs_fs s) "sentry-nodes" j doc
    /\ accounts_ok env (gs_fs s) keyss) _ _ _ _ _ _ _ H)).
  - by intros (_ & ? & ? & ?).
  - intros j s s' Hj (Hs & Hv' & Hn & Hac) (ip & fs & g & doc' & _ & Hfs & Hg' & -> & -> & _)%sentry_step_Ok.
    rewrite Hs, Hg in Hg'. injection Hg' as <- <-.
    set (dir := rootOutDir env +:+ "/" +:+ sentry_dir j) in *.
    assert (forall x, x ∉ "app.toml" :: node_files -> same_named x (gs_fs s) fs) as Hsame.
    { intros x [Hx Hx']%not_elem_of_cons. subst fs.
      eapply same_named_trans; [by apply NodeConfig_Save_named|by apply AppConfig_Save_named]. }
    assert (same_named "genesis.json" (gs_fs s) fs /\ same_named "accounts.json" (gs_fs s) fs) as [Hsg Hsa].
    { split; apply Hsame; refine (bool_decide_unpack _ _); by vm_compute. }
    destruct (genesis_ok_write env fs "sentry-nodes" j doc dir) as (Hw & Hw' & Hna);
      [lia|intros x; apply path_sentry; lia|].
    subst fs. split_and!; [done|apply Hw'; [done|by eapply genesis_ok_named]|
      apply Hw; by eapply genesis_ok_named|eapply accounts_ok_named; [exact Hna|by eapply accounts_ok_named]].
  - split_and!; [done|done|intros k; lia|done].
Qed.

Lemma peers_frame env n i st st' x :
  x ∉ node_files -> for_loop n i (peers_step env) st = Ok st' -> same_named x (gs_fs st) (gs_fs st').
Proof.
  intros Hx H.
  refine (for_loop_inv (fun _ s => same_named x (gs_fs st) (gs_fs s)) _ _ _ _ _ _ (same_named_refl _ _) H).
  intros j s s' _ Hs (nc & id & _ & _ & ->)%peers_step_Ok. cbn [gs_fs].
  eapply same_named_trans; [exact Hs|by apply NodeConfig_Save_named].
Qed.

(** The stages of a successful run: the states after each loop. *)
Lemma GenerateConfigs_stages env st' :
  GenerateConfigs env = Ok st' ->
  0 < NumOfInstances env /\ 0 < NumOfValidators env /\
  exists g s1 s2 s3 s4 s5,
    NewGenesis (Some (genesis_config env)) = Ok g
    /\ for_loop (Z.to_nat (NumOfValidators env)) 0 (validator_step env)
         {| gs_genesis := g; gs_fs := ∅; gs_ed := 0; gs_secp := 0; persistentValidatorPeers := [];
            validatorNodeIDs := []; sentryNodeIDs := []; allNodeConfigs := [] |} = Ok s1
    /\ for_loop (Z.to_nat (NumOfInstances env)) 0 (instance_step env)
         (with_fs s1 (WriteFile (gs_fs s1) (rootOutDir env +:+ "/validators/ids.json")
                        (FIds (validatorNodeIDs s1)))) = Ok s2
    /\ for_loop (Z.to_nat (NumOfValidators env)) 0 (genesis_step env) s2 = Ok s3
    /\ sentry_nodes env s3 = Ok s4
    /\ for_loop (Z.to_nat (NumOfValidators env)) 0 (peers_step env) s4 = Ok s5
    /\ st' = (if LocalNative env then s5
              else with_fs s5 (GenerateDockerCompose (gs_fs s5) (env_ChainID env) (DockerImage env)
                     (DockerSubnet env) (allNodeConfigs s5) (rootOutDir env) (env_Debug env))).
Proof.
  unfold GenerateConfigs. destruct (_ <=? 0) eqn:E1; [done|].
  destruct (NumOfValidators env <=? 0) eqn:E2; [done|]. bool_facts.
  intros (g & Hg & H)%go_bind_Ok. destruct (_ <? 0); [done|]. cbv zeta in H.
  apply go_bind_Ok in H as (s1 & H1 & H). apply go_bind_Ok in H as (s2 & H2 & H).
  apply go_bind_Ok in H as (s3 & H3 & H). apply go_bind_Ok in H as (s4 & H4 & H).
  apply go_bind_Ok in H as (s5 & H5 & H). simplify_eq. split_and!; [lia|lia|].
  exists g, s1, s2, s3, s4, s5. split_and!; done.
Qed.

(** The sentry stage, when there are sentry nodes and when there are none. *)
Lemma sentry_nodes_saved env st st' keyss nv doc :
  accounts_ok env (gs_fs st) keyss -> genesis_ok env (gs_fs st) "validators" nv doc ->
  Genesis_Save (gs_genesis st) = Ok (gs_genesis st, doc) -> sentry_nodes env st = Ok st' ->
  genesis_ok env (gs_fs st') "validators" nv doc
  /\ genesis_ok env (gs_fs st') "sentry-nodes" (NumOfSentryNodes env) doc
  /\ accounts_ok env (gs_fs st') keyss.
Proof.
  intros Ha Hv Hg. unfold sentry_nodes. destruct (0 <? _) eqn:E; bool_facts.
  - intros (s & Hs & H)%go_bind_Ok. simplify_eq. cbn [with_fs gs_fs].
    destruct (sentries_saved _ _ _ _ _ _ _ Ha Hv Hg Hs) as (H1 & H2 & H3).
    rewrite Z2Nat.id in H2 by lia.
    assert (forall x, x <> "ids.json" -> same_named x (gs_fs s)
      (WriteFile (gs_fs s) (rootOutDir env +:+ "/sentry-nodes/ids.json") (FIds (sentryNodeIDs s)))) as Hsame.
    { intros x Hx q Hq. apply WriteFile_ne. intros ->. apply Hx. unfold named in Hq.
      change (rootOutDir env +:+ "/sentry-nodes/ids.json")
        with (rootOutDir env +:+ String "/" "sentry-nodes/ids.json") in Hq.
      rewrite path_of_slash, last_app in Hq. by injection Hq as <-. }
    split_and!; [eapply genesis_ok_named; [by apply Hsame|done]..|].
    eapply accounts_ok_named; [by apply Hsame|done].
  - intros [= <-]. split_and!; [done|intros k; lia|done].
Qed.

(** What a successful run of the generator funds.  Every validator and every
    sentry node gets the same genesis document.  Each instance has an accounts
    file with the requested number of keys, and the address of every such key is
    an account of that document with the initial balance.  The document has one
    genesis transaction per validator, its supply is the sum of its balances,
    and that is the staker balance times the validators plus the account balance
    times the accounts of all instances. *)
Lemma generated_funds env st :
  GenerateConfigs env = Ok st ->
  exists doc,
    genesis_ok env (gs_fs st) "validators" (NumOfValidators env) doc
    /\ genesis_ok env (gs_fs st) "sentry-nodes" (NumOfSentryNodes env) doc
    /\ (forall i, 0 <= i < NumOfInstances env -> exists keys,
          gs_fs st !! in_dir env "instances" i ["accounts.json"] = Some (FAccounts keys)
          /\ Z.of_nat (length keys) = Z.max 0 (NumOfAccountsPerInstance env)
          /\ forall key, key ∈ keys ->
               Address key ∈ doc_accounts doc /\ account_balance key ∈ doc_balances doc)
    /\ Z.of_nat (length (doc_gentxs doc)) = NumOfValidators env
    /\ forall d, AmountOf d (doc_supply doc) = total d (doc_balances doc)
         /\ AmountOf d (doc_supply doc) =
             NumOfValidators env * AmountOf d (coins_of initialBalanceStaker)
             + NumOfInstances env * Z.max 0 (NumOfAccountsPerInstance env)
               * AmountOf d (coins_of initialBalanceAccount).
Proof.
  intros (HI & HV & g & s1 & s2 & s3 & s4 & s5 & Hg & H1 & H2 & H3 & H4 & H5 & Hst)%GenerateConfigs_stages.
  pose proof (NewGenesis_inv _ _ Hg) as Hinv. apply NewGenesis_Ok in Hg.
  assert (funded (NumOfValidators env) [] (gs_genesis s1)) as Hf1.
  { rewrite <- (Z2Nat.id (NumOfValidators env)) by lia. eapply validators_funded; [|exact H1].
    subst g. cbn [gs_genesis]. constructor; try done. by intros ? ?%not_elem_of_nil. }
  destruct (instances_funded env (NumOfValidators env) _ (with_fs s1 _) _ Hf1 H2) as (keyss & Hlen & Hks & Hf2 & Ha2).
  destruct (Z.to_nat (NumOfValidators env)) as [|nv] eqn:Env; [lia|].
  destruct (genesis_saved _ _ _ _ _ Ha2 H3) as (doc & Hsave & Hv3 & Ha3).
  destruct (sentry_nodes_saved _ _ _ _ _ _ Ha3 Hv3 (Genesis_Save_stable _ _ _ Hsave) H4) as (Hv4 & Hs4 & Ha4).
  replace (Z.of_nat (S nv)) with (NumOfValidators env) in * by lia.
  assert (same_named "genesis.json" (gs_fs s4) (gs_fs st) /\ same_named "accounts.json" (gs_fs s4) (gs_fs st))
    as [Hng Hna].
  { subst st. destruct (LocalNative env); cbn [with_fs gs_fs];
      (split; [|]; (eapply same_named_trans;
        [eapply peers_frame; [refine (bool_decide_unpack _ _); by vm_compute|exact H5]|]);
       first [apply same_named_refl|by apply Compose_named]). }
  exists doc. destruct Hf2 as [_ [Hinv2 _] Hgt Hsup Hkeys].
  apply Genesis_Save_Ok in Hsave as (bals & Hb & _ & ->). apply Sanitize_balances in Hb.
  cbn [doc_accounts doc_balances doc_supply doc_gentxs].
  assert (Z.of_nat (length (concat keyss)) = NumOfInstances env * Z.max 0 (NumOfAccountsPerInstance env)) as Hcl.
  { replace (NumOfInstances env) with (Z.of_nat (length keyss)) by lia. clear -Hks.
    induction Hks as [|ks keyss Hk Hks IH]; [done|]. cbn [concat length]. rewrite length_app. lia. }
  split_and!; [by eapply genesis_ok_named|by eapply genesis_ok_named| |done|].
  - intros i Hi. destruct (lookup_lt_is_Some_2 keyss (Z.to_nat i)) as [ks Hk]; [lia|].
    exists ks. split_and!.
    + rewrite <- (Z2Nat.id i) by lia. by apply (accounts_ok_named _ _ _ _ Hna Ha4).
    + exact (Forall_lookup_1 _ _ _ _ Hks Hk).
    + intros key Hin. destruct (Hkeys key) as [Hacc Hbal].
      { apply list_elem_of_In, in_concat. exists ks.
        split; apply list_elem_of_In; [|done]. by eapply list_elem_of_lookup_2. }
      rewrite Sanitize_accounts, Hb. done.
  - intros d. rewrite (total_perm d _ _ Hb). split; [done|]. by rewrite Hsup, Hcl.
Qed.

End Funding.

(** ** The topology *)

Section Topology.
Context `{TC : TxConfig, CR : Crypto, SM : SdkMath, GL : GenesisLib, KG : KeyGen}.
Implicit Types env : GeneratorEnvironment.

(** Validator [k] as the first loop makes it, its id and its peer address. *)
Definition vip env (k : Z) : IP := match validator_ip env k with Ok ip => ip | _ => [] end.

Definition vnode env (k : nat) : NodeConfig :=
  validator_node env (Z.of_nat k) (vip env (Z.of_nat k)) (rand_ed25519 (2 * k)) (rand_ed25519 (S (2 * k))).

Definition vid (k : nat) : string := NodeID (ed_PubKey (rand_ed25519 (2 * k))).

Definition vpeer env (k : nat) : string := peerAddress (vid k) (vnode env k).

Definition nv env : nat := Z.to_nat (NumOfValidators env).
Definition ns env : nat := Z.to_nat (NumOfSentryNodes env).

Definition all_peers env : list string := map (vpeer env) (seq 0 (nv env)).
Definition all_ids env : list string := map vid (seq 0 (nv env)).

(** Validator [k] with its peers, as it is saved in the end. *)
Definition vfinal env (k : nat) : NodeConfig :=
  with_peers (vnode env k) (strings_Join (filterStringValue (all_peers env) (vpeer env k)) ",")
    (strings_Join (all_ids env) ",").

Definition sip env (k : Z) : IP :=
  match ipInSubnet (DockerSubnet env) (i64 (i64 (NumOfValidators env + k) + 1)) with Ok ip => ip | _ => [] end.

Definition snode env (k : nat) : NodeConfig :=
  sentry_node env (Z.of_nat k) (sip env (Z.of_nat k)) (rand_ed25519 (2 * nv env + k))
    (all_peers env) (all_ids env).

Lemma validators_nodes env n st st' :
  gs_ed st = 0%nat -> persistentValidatorPeers st = [] -> validatorNodeIDs st = [] -> allNodeConfigs st = [] ->
  for_loop n 0 (validator_step env) st = Ok st' ->
  gs_ed st' = (2 * n)%nat /\ persistentValidatorPeers st' = map (vpeer env) (seq 0 n)
  /\ validatorNodeIDs st' = map vid (seq 0 n) /\ allNodeConfigs st' = map (vnode env) (seq 0 n).
Proof.
  intros He Hp Hi Hn H.
  refine (_ (for_loop_inv (fun j s => gs_ed s = (2 * Z.to_nat j)%nat
    /\ persistentValidatorPeers s = map (vpeer env) (seq 0 (Z.to_nat j))
    /\ validatorNodeIDs s = map vid (seq 0 (Z.to_nat j))
    /\ allNodeConfigs s = map (vnode env) (seq 0 (Z.to_nat j))) _ _ _ _ _ _ _ H)).
  - by rewrite Z.add_0_l, Nat2Z.id.
  - intros j s s' Hj (He' & Hp' & Hi' & Hn') (ip & Hip & Hb)%go_bind_Ok.
    apply go_bind_Ok in Hb as (g1 & H1 & Hb). apply go_bind_Ok in Hb as (g2 & H2 & Hb). simplify_eq.
    cbn [gs_ed persistentValidatorPeers validatorNodeIDs allNodeConfigs].
    replace (Z.to_nat (j + 1)) with (S (Z.to_nat j)) by lia.
    rewrite seq_S, !map_app, Hp', Hi', Hn', He'. cbn [map Nat.add].
    unfold vpeer, vnode, vid, vip. rewrite !Z2Nat.id, Hip by lia. split_and!; [lia|done..].
  - done.
Qed.

(** The loops in between leave the nodes as they are. *)
Definition core (st : GenState) : nat * list string * list string * list NodeConfig :=
  (gs_ed st, persistentValidatorPeers st, validatorNodeIDs st, allNodeConfigs st).

Lemma for_loop_core {n i body st st'} :
  (forall j s s', body j s = Ok s' -> core s' = core s) -> for_loop n i body st = Ok st' -> core st' = core st.
Proof.
  intros Hb H. refine (for_loop_inv (fun _ s => core s = core st) _ _ _ _ _ _ eq_refl H).
  intros j s s' _ Hs H'. by rewrite (Hb _ _ _ H').
Qed.

Lemma accounts_core n i st accs r : for_loop n i account_step (st, accs) = Ok r -> core r.1 = core st.
Proof.
  intros H.
  refine (for_loop_inv (fun _ s => core s.1 = core st) account_step n i (st, accs) r _ eq_refl H).
  intros j [s a] s' _ Hs (g & _ & Hb)%go_bind_Ok. injection Hb as <-. exact Hs.
Qed.

Lemma instance_core env j s s' : instance_step env j s = Ok s' -> core s' = core s.
Proof.
  unfold instance_step. destruct (_ <? 0); [done|].
  intros ([s1 accs] & Hacc & Hb)%go_bind_Ok. simplify_eq. exact (accounts_core _ _ _ _ _ Hacc).
Qed.

Lemma genesis_core env j s s' : genesis_step env j s = Ok s' -> core s' = core s.
Proof. by intros (g & doc & _ & ->)%save_genesis_Ok. Qed.

(** The configuration files of the first [n] nodes of a kind. *)
Definition config_ok env (fs : FS) (kind : string) (n : nat) (node : nat -> NodeConfig) : Prop :=
  forall k, (k < n)%nat ->
    fs !! in_dir env kind (Z.of_nat k) ["config"; "config.toml"] = Some (config_file (node k)).

Lemma config_ok_named env fs fs' kind n node :
  same_named "config.toml" fs fs' -> config_ok env fs kind n node -> config_ok env fs' kind n node.
Proof. intros Hs H k Hk. rewrite Hs; [by apply H|]. unfold named, in_dir. by rewrite last_app. Qed.

(** Saving node [k] of a kind. *)
Lemma config_ok_save env fs kind k node dir :
  (forall x, path_of (dir +:+ String "/" x) = in_dir env kind (Z.of_nat k) (path_of x)) ->
  let fs' := NodeConfig_Save fs (node k) dir in
  (config_ok env fs kind k node -> config_ok env fs' kind (S k) node)
  /\ (forall kind' n node', kind' <> kind -> config_ok env fs kind' n node' -> config_ok env fs' kind' n node').
Proof.
  intros Hdir fs'. unfold fs'.
  assert (path_of (dir_file dir "config" "config.toml")
    = in_dir env kind (Z.of_nat k) ["config"; "config.toml"]) as Hp.
  { rewrite <- dir_file_config. by rewrite Hdir. }
  assert (forall kd i, named "config.toml" (in_dir env kd i ["config"; "config.toml"])) as Hnm.
  { intros kd i. unfold named, in_dir. by rewrite last_app. }
  split.
  - intros H k' Hk'. destruct (decide (k' = k)) as [->|Hne]; [rewrite <- Hp; apply NodeConfig_Save_config|].
    rewrite NodeConfig_Save_other; [apply H; lia|done|]. rewrite Hp. intros (_ & ? & _)%in_dir_inj; lia.
  - intros kind' n node' Hne H k' Hk'. rewrite NodeConfig_Save_other; [by apply H|done|].
    rewrite Hp. intros (? & _)%in_dir_inj; [done|lia|lia].
Qed.

Lemma sentries_nodes env n st st' :
  (n <= ns env)%nat -> gs_ed st = (2 * nv env)%nat -> persistentValidatorPeers st = all_peers env ->
  validatorNodeIDs st = all_ids env -> allNodeConfigs st = map (vnode env) (seq 0 (nv env)) ->
  for_loop n 0 (sentry_step env) st = Ok st' ->
  persistentValidatorPeers st' = all_peers env /\ validatorNodeIDs st' = all_ids env
  /\ allNodeConfigs st' = map (vnode env) (seq 0 (nv env)) ++ map (snode env) (seq 0 n)
  /\ config_ok env (gs_fs st') "sentry-nodes" n (snode env).
Proof.
  intros Hn He Hp Hi Hnodes H.
  refine (_ (for_loop_inv (fun j s => gs_ed s = (2 * nv env + Z.to_nat j)%nat
    /\ persistentValidatorPeers s = all_peers env /\ validatorNodeIDs s = all_ids env
    /\ allNodeConfigs s = map (vnode env) (seq 0 (nv env)) ++ map (snode env) (seq 0 (Z.to_nat j))
    /\ config_ok env (gs_fs s) "sentry-nodes" (Z.to_nat j) (snode env)) _ _ _ _ _ _ _ H)).
  - rewrite Z.add_0_l, Nat2Z.id. by intros (_ & ?).
  - intros j s s' Hj (He' & Hp' & Hi' & Hn' & Hc') Hb.
    assert (gs_ed s' = S (gs_ed s)) as Hed.
    { unfold sentry_step in Hb. apply go_bind_Ok in Hb as (? & _ & Hb).
      by apply save_genesis_Ok in Hb as (? & ? & _ & ->). }
    apply sentry_step_Ok in Hb as (ip & fs & g & doc & Hip & Hfs & _ & _ & Hfs' & Hp2 & Hi2 & Hn2).
    replace (Z.to_nat (j + 1)) with (S (Z.to_nat j)) by lia.
    assert (take (Z.to_nat (NumOfValidators env)) (validatorNodeIDs s) = all_ids env) as Hids.
    { rewrite Hi'. apply take_ge. unfold all_ids. by rewrite length_map, length_seq. }
    rewrite Hids, Hp', He' in *.
    assert (sentry_node env j ip (rand_ed25519 (2 * nv env + Z.to_nat j)) (all_peers env) (all_ids env)
      = snode env (Z.to_nat j)) as Hsn.
    { unfold snode, sip. by rewrite Z2Nat.id, Hip by lia. }
    rewrite Hsn in *. split_and!; [rewrite Hed; lia|congruence|congruence| |].
    + rewrite Hn2, Hn', seq_S, map_app, app_assoc. done.
    + rewrite Hfs', Hfs.
      destruct (config_ok_save env (gs_fs s) "sentry-nodes" (Z.to_nat j) (snode env)
        (rootOutDir env +:+ "/" +:+ sentry_dir j)) as [Hw _].
      { intros x. rewrite Z2Nat.id by lia. apply path_sentry. lia. }
      eapply config_ok_named; [eapply same_named_trans; [by apply AppConfig_Save_named|by eapply WriteFile_named]|].
      by apply Hw.
  - rewrite He, app_nil_r. split_and!; [lia|done|done|done|intros k; lia].
Qed.

Lemma peers_nodes env st st' m :
  persistentValidatorPeers st = all_peers env -> validatorNodeIDs st = all_ids env ->
  allNodeConfigs st = map (vnode env) (seq 0 (nv env)) ++ map (snode env) (seq 0 m) ->
  config_ok env (gs_fs st) "sentry-nodes" m (snode env) ->
  for_loop (nv env) 0 (peers_step env) st = Ok st' ->
  allNodeConfigs st' = map (vfinal env) (seq 0 (nv env)) ++ map (snode env) (seq 0 m)
  /\ config_ok env (gs_fs st') "validators" (nv env) (vfinal env)
  /\ config_ok env (gs_fs st') "sentry-nodes" m (snode env).
Proof.
  intros Hp Hi Hn Hs H.
  refine (_ (for_loop_inv (fun j s => persistentValidatorPeers s = all_peers env
    /\ validatorNodeIDs s = all_ids env
    /\ allNodeConfigs s = map (vfinal env) (seq 0 (Z.to_nat j))
         ++ map (vnode env) (seq (Z.to_nat j) (nv env - Z.to_nat j)) ++ map (snode env) (seq 0 m)
    /\ config_ok env (gs_fs s) "validators" (Z.to_nat j) (vfinal env)
    /\ config_ok env (gs_fs s) "sentry-nodes" m (snode env)) _ _ _ _ _ _ _ H)).
  - rewrite Z.add_0_l, Nat2Z.id, Nat.sub_diag. by intros (_ & _ & ? & ? & ?).
  - intros j s s' Hj (Hp' & Hi' & Hn' & Hv' & Hs') (n & id & Hnj & Hid & ->)%peers_step_Ok.
    set (k := Z.to_nat j) in *. assert (k < nv env)%nat as Hk by lia.
    replace (Z.to_nat (j + 1)) with (S k) by lia.
    replace (nv env - k)%nat with (S (nv env - S k)) in Hn' by lia. cbn [seq map app] in Hn'.
    assert (n = vnode env k) as ->.
    { rewrite Hn', list_lookup_middle in Hnj; [congruence|]. by rewrite length_map, length_seq. }
    assert (id = vid k) as ->.
    { rewrite Hi' in Hid. unfold all_ids in Hid. rewrite list_lookup_fmap, lookup_seq_lt in Hid by done.
      cbn in Hid. congruence. }
    rewrite Hp', Hi'. fold (vpeer env k). fold (vfinal env k).
    cbn [persistentValidatorPeers validatorNodeIDs allNodeConfigs gs_fs].
    destruct (config_ok_save env (gs_fs s) "validators" k (vfinal env)
      (rootOutDir env +:+ "/" +:+ Home (vnode env k))) as [Hw Hw'].
    { intros x. unfold vnode. cbn [Home validator_node]. apply path_home. lia. }
    split_and!; [done|done| |by apply Hw|by apply Hw'].
    rewrite Hn', seq_S, map_app, <- app_assoc. cbn [map app Nat.add].
    rewrite insert_app_r_alt by (rewrite length_map, length_seq; lia).
    rewrite length_map, length_seq, Nat.sub_diag. done.
  - change (Z.to_nat 0) with 0%nat. rewrite Nat.sub_0_r. cbn [seq map app].
    split_and!; [done|done|done|intros k; lia|done].
Qed.

End Topology.

Lemma hex_lacks_at b : Forall is_byte b -> lacks "@" (hex_EncodeToString b) = true.
Proof.
  induction 1 as [|x b Hx Hb IH]; [done|]. cbn [hex_EncodeToString lacks].
  assert (forall d, 0 <= d < 16 -> bool_decide (hex_char d = "@"%char) = false) as Hd.
  { intros d Hd. apply bool_decide_eq_false_2. intros He. pose proof (hex_value_char d Hd) as Hv.
    rewrite He in Hv. discriminate Hv. }
  rewrite !Hd, IH; [done|..]; unfold is_byte in Hx; Z.to_euclidean_division_equations; lia.
Qed.

Section TopologyTheorem.
Context `{TC : TxConfig, CR : Crypto, SM : SdkMath, GL : GenesisLib, KG : KeyGen, KL : !KeyGenLaws}.
Implicit Types env : GeneratorEnvironment.

Lemma peerAddress_id id id' n n' :
  lacks "@" id = true -> lacks "@" id' = true -> peerAddress id n = peerAddress id' n' -> id = id'.
Proof.
  intros H H' E. apply (f_equal (split_on "@")) in E. unfold peerAddress in E.
  change (id +:+ "@" +:+ ?r) with (id +:+ String "@" r) in E.
  change (id' +:+ "@" +:+ ?r) with (id' +:+ String "@" r) in E.
  rewrite !split_on_app, (split_on_lacks _ id H), (split_on_lacks _ id' H') in E.
  cbn [app] in E. congruence.
Qed.

Lemma filter_others env k n :
  NoDup (map vid (seq 0 (nv env))) -> (k < nv env)%nat -> (n <= nv env)%nat ->
  filterStringValue (map (vpeer env) (seq 0 n)) (vpeer env k)
  = map (vpeer env) (filter (fun j => j <> k) (seq 0 n)).
Proof.
  intros Hnd Hk Hn. unfold filterStringValue.
  assert (forall j, j ∈ seq 0 n -> vpeer env j = vpeer env k -> j = k) as Hinj.
  { intros j Hj%elem_of_seq E. apply peerAddress_id in E; [|apply hex_lacks_at, ed_Address_bytes..].
    eapply (NoDup_lookup (map vid (seq 0 (nv env)))); [done|rewrite list_lookup_fmap, lookup_seq_lt by lia; done|].
    rewrite list_lookup_fmap, lookup_seq_lt by lia. cbn. by f_equal. }
  induction (seq 0 n) as [|j l IH]; [done|]. cbn [map].
  assert (filter (fun v => v <> vpeer env k) (map (vpeer env) l)
    = map (vpeer env) (filter (fun j => j <> k) l)) as IHl.
  { apply IH. intros j' Hj'. apply Hinj. by apply list_elem_of_further. }
  destruct (decide (j = k)) as [->|Hne].
  - rewrite !filter_cons_False by naive_solver. exact IHl.
  - assert (vpeer env j <> vpeer env k) as Hpe
      by (intros E; apply Hne, Hinj; [apply list_elem_of_here|done]).
    rewrite (filter_cons_True (fun v => v <> vpeer env k)) by exact Hpe.
    rewrite (filter_cons_True (fun j => j <> k)) by exact Hne. cbn [map]. by rewrite IHl.
Qed.

(** The stage of the sentry nodes, with and without any. *)
Lemma sentry_stage env st st' :
  0 <= NumOfSentryNodes env ->
  core st = ((2 * nv env)%nat, all_peers env, all_ids env, map (vnode env) (seq 0 (nv env))) ->
  sentry_nodes env st = Ok st' ->
  persistentValidatorPeers st' = all_peers env /\ validatorNodeIDs st' = all_ids env
  /\ allNodeConfigs st' = map (vnode env) (seq 0 (nv env)) ++ map (snode env) (seq 0 (ns env))
  /\ config_ok env (gs_fs st') "sentry-nodes" (ns env) (snode env).
Proof.
  intros HS Hc. unfold core in Hc. injection Hc as He Hp Hi Hn. unfold sentry_nodes.
  destruct (0 <? _) eqn:E; bool_facts.
  - intros (s & Hs & H)%go_bind_Ok.
    destruct (sentries_nodes env (ns env) st s) as (? & ? & ? & Hok); try done.
    injection H as <-. cbn [with_fs persistentValidatorPeers validatorNodeIDs allNodeConfigs gs_fs].
    split_and!; [done..|]. eapply config_ok_named; [|exact Hok].
    intros q Hq. apply WriteFile_ne. intros ->. unfold named in Hq.
    change (rootOutDir env +:+ "/sentry-nodes/ids.json")
      with (rootOutDir env +:+ String "/" "sentry-nodes/ids.json") in Hq.
    rewrite path_of_slash, last_app in Hq. discriminate Hq.
  - intros [= <-]. assert (ns env = 0%nat) as -> by (unfold ns; lia).
    cbn [seq map]. rewrite app_nil_r. split_and!; [done..|intros k; lia].
Qed.

Lemma filter_none {A} (P : A -> Prop) `{forall x, Decision (P x)} (l : list A) :
  (forall x, x ∈ l -> ~ P x) -> filter P l = [].
Proof.
  induction l as [|x l IH]; intros H'; [done|]. rewrite filter_cons_False by (apply H', list_elem_of_here).
  apply IH. intros y Hy. by apply H', list_elem_of_further.
Qed.

(** The nodes with exposed ports. *)
Lemma exposed_one env :
  0 < NumOfValidators env -> 0 <= NumOfSentryNodes env ->
  filter (fun n => nc_PortsExposed n = true)
    (map (vfinal env) (seq 0 (nv env)) ++ map (snode env) (seq 0 (ns env)))
  = [if NumOfSentryNodes env =? 0 then vfinal env 0 else snode env 0].
Proof.
  intros HV HS. rewrite filter_app.
  assert (forall k, nc_PortsExposed (vfinal env k) = validator_exposed env (Z.of_nat k)) as Hv by done.
  assert (forall k, nc_PortsExposed (snode env k) = (Z.of_nat k =? 0)) as Hs by done.
  destruct (Z.eqb_spec (NumOfSentryNodes env) 0) as [H0|H0].
  - assert (ns env = 0%nat) as -> by (unfold ns; lia). cbn [seq map]. rewrite app_nil_r.
    assert (exists n, nv env = S n) as [n ->] by (exists (nv env - 1)%nat; unfold nv; lia). cbn [seq map].
    rewrite filter_cons_True by (rewrite Hv; unfold validator_exposed; by rewrite H0).
    rewrite filter_none; [done|]. intros x (k & -> & Hk%elem_of_seq)%list_elem_of_fmap.
    rewrite Hv. unfold validator_exposed. rewrite (proj2 (Z.eqb_neq (Z.of_nat k) 0)) by lia.
    by rewrite andb_false_r.
  - rewrite filter_none.
    2: { intros x (k & -> & _)%list_elem_of_fmap. rewrite Hv. unfold validator_exposed.
         by rewrite (proj2 (Z.eqb_neq _ 0)) by done. }
    assert (exists n, ns env = S n) as [n ->] by (exists (ns env - 1)%nat; unfold ns; lia). cbn [seq map app].
    rewrite filter_cons_True by done. rewrite filter_none; [done|].
    intros x (k & -> & Hk%elem_of_seq)%list_elem_of_fmap. rewrite Hs.
    by rewrite (proj2 (Z.eqb_neq (Z.of_nat k) 0)) by lia.
Qed.

(** The nodes at the end of a successful run, and their configuration files. *)
Lemma GenerateConfigs_nodes env st :
  GenerateConfigs env = Ok st -> 0 <= NumOfSentryNodes env ->
  allNodeConfigs st = map (vfinal env) (seq 0 (nv env)) ++ map (snode env) (seq 0 (ns env))
  /\ config_ok env (gs_fs st) "validators" (nv env) (vfinal env)
  /\ config_ok env (gs_fs st) "sentry-nodes" (ns env) (snode env).
Proof.
  intros (HI & HV & g & s1 & s2 & s3 & s4 & s5 & Hg & H1 & H2 & H3 & H4 & H5 & Hst)%GenerateConfigs_stages HS.
  pose proof (fun a b c d => validators_nodes env _ _ _ a b c d H1) as Hv1.
  cbn [gs_ed persistentValidatorPeers validatorNodeIDs allNodeConfigs] in Hv1.
  destruct (Hv1 eq_refl eq_refl eq_refl eq_refl) as (He1 & Hp1 & Hi1 & Hn1).
  assert (core s3 = ((2 * nv env)%nat, all_peers env, all_ids env, map (vnode env) (seq 0 (nv env)))) as Hc3.
  { rewrite (for_loop_core (genesis_core env) H3), (for_loop_core (instance_core env) H2).
    unfold core. cbn [with_fs gs_ed persistentValidatorPeers validatorNodeIDs allNodeConfigs].
    by rewrite He1, Hp1, Hi1, Hn1. }
  destruct (sentry_stage env s3 s4 HS Hc3 H4) as (Hp4 & Hi4 & Hn4 & Hs4).
  destruct (peers_nodes env s4 s5 _ Hp4 Hi4 Hn4 Hs4 H5) as (Hn5 & Hv5 & Hs5).
  assert (allNodeConfigs st = allNodeConfigs s5) as Hnodes by (subst st; by destruct (LocalNative env)).
  assert (same_named "config.toml" (gs_fs s5) (gs_fs st)) as Hsame.
  { subst st. destruct (LocalNative env); [apply same_named_refl|by apply Compose_named]. }
  rewrite Hnodes. split_and!; [exact Hn5|by eapply config_ok_named..].
Qed.

(** C39. The network a successful run configures, when the validators' node ids are
    distinct.  The configuration file of every validator lists as persistent
    peers exactly the other validators, in order, and all validator ids as
    private; that of every sentry node lists all validators.  The nodes given to
    docker-compose are these validators followed by these sentry nodes, and
    exactly one of them exposes its ports: the first sentry node, or the first
    validator when there are no sentry nodes. *)
Theorem GenerateConfigs_topology env st :
  GenerateConfigs env = Ok st -> 0 <= NumOfSentryNodes env -> NoDup (all_ids env) ->
  config_ok env (gs_fs st) "validators" (nv env) (fun k =>
    with_peers (vnode env k)
      (strings_Join (map (vpeer env) (filter (fun j => j <> k) (seq 0 (nv env)))) ",")
      (strings_Join (all_ids env) ","))
  /\ config_ok env (gs_fs st) "sentry-nodes" (ns env) (snode env)
  /\ allNodeConfigs st = map (vfinal env) (seq 0 (nv env)) ++ map (snode env) (seq 0 (ns env))
  /\ filter (fun n => nc_PortsExposed n = true) (allNodeConfigs st)
     = [if NumOfSentryNodes env =? 0 then vfinal env 0 else snode env 0].
Proof.
  intros H HS Hnd. destruct (GenerateConfigs_nodes env st H HS) as (Hn & Hv & Hs).
  apply GenerateConfigs_stages in H as (_ & HV & _).
  rewrite Hn. split_and!; [|done|done|by apply exposed_one].
  intros k Hk. rewrite (Hv k Hk). unfold vfinal.
  unfold all_peers at 1. by rewrite (filter_others env k (nv env) Hnd Hk).
Qed.

End TopologyTheorem.

(** ** Addresses and ports *)

Definition port_list (p : Ports) : list Z :=
  [RPC p; P2P p; API p; GRPC p; GRPCWeb p; PProf p; Prometheus p; EVMRPC p; EVMWSPort p; ProxyApp p].

(** The ports of the first [n] nodes on one machine. *)
Definition local_ports (n : nat) : list Z :=
  concat (map (fun i => port_list (shiftPorts DefaultPorts (Z.of_nat i))) (seq 0 n)).

Lemma local_ports_prefix n m : (n <= m)%nat -> exists l, local_ports m = local_ports n ++ l.
Proof.
  intros H. unfold local_ports. replace m with (n + (m - n))%nat by lia.
  rewrite seq_app, map_app, concat_app. eauto.
Qed.

Lemma local_ports_206 : bool_decide (NoDup (local_ports 206)) = true.
Proof. vm_compute. reflexivity. Qed.

Lemma local_ports_207 : bool_decide (NoDup (local_ports 207)) = false.
Proof. vm_compute. reflexivity. Qed.

Lemma local_ports_nodup n : NoDup (local_ports n) <-> (n <= 206)%nat.
Proof.
  split; intros H.
  - destruct (decide (n <= 206)%nat) as [|Hn]; [done|]. exfalso.
    destruct (local_ports_prefix 207 n) as [l Hl]; [lia|]. rewrite Hl in H.
    apply NoDup_app in H as [H _]. pose proof local_ports_207 as Hf.
    by rewrite bool_decide_eq_true_2 in Hf.
  - destruct (local_ports_prefix n 206 H) as [l Hl].
    pose proof (bool_decide_eq_true_1 _ local_ports_206) as Hd. rewrite Hl in Hd.
    by apply NoDup_app in Hd as [? _].
Qed.

Lemma u8_i64 z : u8 (i64 z) = u8 z.
Proof.
  unfold u8, i64. change (2 ^ 64) with (256 * 2 ^ 56). change (2 ^ 63) with (2 ^ 55 * 256). change (2 ^ 8) with 256.
  rewrite Z.rem_mul_r by lia.
  replace (_ + _ - _) with ((z + 2 ^ 55 * 256) mod 256
    + (((z + 2 ^ 55 * 256) / 256) mod 2 ^ 56 - 2 ^ 55) * 256) by lia.
  by rewrite Z.mod_add, Zmod_mod, Z.mod_add by lia.
Qed.

Lemma ipInSubnet_eq subnet o1 o2 ip1 ip2 :
  ipInSubnet subnet o1 = Ok ip1 -> ipInSubnet subnet o2 = Ok ip2 ->
  (ip1 = ip2 <-> (o1 - o2) mod 256 = 0).
Proof.
  unfold ipInSubnet. destruct (ParseCIDR subnet) as [[|a [|b [|c [|d [|? ?]]]]]|]; try done.
  intros [= <-] [= <-]. rewrite !u8_i64. unfold u8.
  rewrite !Zplus_mod_idemp_r. change (2 ^ 8) with 256.
  pose proof (Z.mod_pos_bound (d + (o1 + 1)) 256 ltac:(lia)).
  pose proof (Z.mod_pos_bound (d + (o2 + 1)) 256 ltac:(lia)).
  split.
  - intros [= Hm]. replace (o1 - o2) with ((d + (o1 + 1)) - (d + (o2 + 1))) by lia.
    by rewrite Zminus_mod, Hm, Z.sub_diag.
  - intros Hm. assert ((d + (o1 + 1)) mod 256 = (d + (o2 + 1)) mod 256) as ->; [|done].
    replace (d + (o1 + 1)) with ((d + (o2 + 1)) + (o1 - o2)) by lia.
    by rewrite Zplus_mod, Hm, Z.add_0_r, Zmod_mod.
Qed.

(** ** A concrete deployment *)

Definition model_genesis : GenesisLib := {|
  now_RFC3339 := "2025-01-01T00:00:00Z";
  genesis_render _ _ := None;
  ParseCoinsNormalized s :=
    let '(d, denom) := span_digits s in
    if decide (d = "") then Err (ENew "invalid decimal coin expression")
    else Ok [{| Denom := denom; Amount := digits_value d 0 |}];
  Coins_Add a b := a ++ b;
  FromCmtPubKey k := Ok k;
  ValAddress_String a := Ok ("injvaloper1" +:+ hex_EncodeToString a);
  NewMsgCreateValidator v k c m r s := Ok (MsgOther "/cosmos.staking.v1beta1.MsgCreateValidator" k);
  TxJSONEncoder tx := Ok [Z.of_nat (length (GetMsgs tx))];
  SanitizeGenesisAccounts l := l;
  SanitizeGenesisBalances l := Ok l
|}.

Lemma model_genesis_laws : @GenesisLaws model_genesis.
Proof.
  constructor; cbn.
  - intros a b d. unfold AmountOf. by rewrite map_app, zsum_app.
  - done.
  - by intros l l' [= ->].
  - by intros l l' [= ->].
Qed.

Definition model_keygen : KeyGen := {|
  ed_PubKey k := k;
  ed_Address k := map u8 k;
  rand_ed25519 n := [7; Z.of_nat n];
  rand_secp256k1 n := [Z.of_nat n]
|}.

Lemma model_keygen_laws : @KeyGenLaws model_keygen.
Proof. constructor. intros pk. cbn. apply Forall_fmap, Forall_forall. intros x _. apply u8_range. Qed.

Definition demo_genenv : GeneratorEnvironment :=
  {| env_ChainID := ""; env_EthChainID := 0; EvmEnabled := true; NumOfValidators := 3;
     NumOfSentryNodes := 2; NumOfInstances := 2; NumOfAccountsPerInstance := 2;
     DockerImage := "injective"; DockerSubnet := "172.30.0.0/24"; OutDirectory := "./out";
     ProdLike := false; env_Debug := false; LocalNative := false |}.

Local Notation demo_generate :=
  (@GenerateConfigs demo_txconfig model_crypto model_math model_genesis model_keygen demo_genenv).

Lemma demo_generate_Ok : exists st, demo_generate = Ok st.
Proof.
  assert (is_Ok demo_generate = true) as H by (vm_compute; reflexivity).
  revert H. generalize demo_generate. intros [st| |]; [eauto|discriminate..].
Qed.

Lemma GenerateConfigs_topology_witness :
  exists st, demo_generate = Ok st
    /\ length (allNodeConfigs st) = 5%nat
    /\ gs_fs st !! in_dir demo_genenv "validators" 1 ["config"; "config.toml"]
       = Some (FConfig (bft_config (with_peers (@vnode model_keygen demo_genenv 1)
           "0700@172.30.0.2:26656,0704@172.30.0.4:26656" "0700,0702,0704"))).
Proof.
  destruct demo_generate_Ok as [st E].
  destruct (@GenerateConfigs_topology demo_txconfig model_crypto model_math model_genesis model_keygen
    model_keygen_laws demo_genenv st E) as (Hv & _ & Hn & _); [discriminate| |].
  - apply (bool_decide_unpack _). vm_compute. exact I.
  - exists st. split_and!; [exact E|rewrite Hn; reflexivity|].
    refine (eq_trans (Hv 1%nat _) _); [vm_compute; lia|]. vm_compute. reflexivity.
Defined.
