(* ===== verification/Template.v ===== *)
(** * text/template, as the configuration templates use it

    The part of Go's template language in chain/templates: text, [{{-] trimming,
    fields and variables, [range], [if]/[else] and [eq].  [Parse] and [Execute]
    stand for the two calls of the program; both fail with an error, which the
    program turns into a panic ([template.Must], [orPanic]).  [checks] decides
    whether a parsed template can fail on the values of a type, and
    [checked_executes] shows that it then never does. *)

From Stdlib Require Import ZArith Lia Ascii String.
From stdpp Require Import base list strings numbers.
From S2P Require Import Prelude GoStrings Generator.

Open Scope string_scope.
Open Scope Z_scope.
Open Scope list_scope.

(** ** Values

    What a template can reach by reflection; pointers are followed.  [VIP] is a
    [net.IP], which prints by its method [String]. *)

Inductive value :=
| VString (s : string)
| VInt (n : Z)
| VBool (b : bool)
| VIP (ip : IP)
| VList (l : list value)
| VStruct (fields : list (string * value)).

Definition VPorts (p : Ports) : value :=
  VStruct [("RPC", VInt (RPC p)); ("P2P", VInt (P2P p)); ("API", VInt (API p)); ("GRPC", VInt (GRPC p));
           ("GRPCWeb", VInt (GRPCWeb p)); ("PProf", VInt (PProf p)); ("Prometheus", VInt (Prometheus p));
           ("EVMRPC", VInt (EVMRPC p)); ("EVMWSPort", VInt (EVMWSPort p)); ("ProxyApp", VInt (ProxyApp p))].

(** Text of a field, as [fmt.Fprint] writes it; composite values are never
    printed by the templates. *)
Definition printValue (v : value) : option string :=
  match v with
  | VString s => Some s
  | VInt n => Some (strconv_Itoa n)
  | VBool b => Some (if b then "true" else "false")
  | VIP ip => Some (if decide (ip = []) then "<nil>" else IP_String ip)
  | VList _ | VStruct _ => None
  end.

(** [template.IsTrue] *)
Definition isTrue (v : value) : bool :=
  match v with
  | VString s => negb (bool_decide (s = ""))
  | VInt n => negb (n =? 0)
  | VBool b => b
  | VIP ip => negb (bool_decide (ip = []))
  | VList [] => false
  | VList _ | VStruct _ => true
  end.

(** ** Lexing *)

Inductive item :=
| IText (s : string)
| IAction (s : string).

Definition is_space (c : ascii) : bool :=
  Ascii.eqb c " " || Ascii.eqb c "009" || Ascii.eqb c "010" || Ascii.eqb c "013".

Fixpoint trim_left (l : list ascii) : list ascii :=
  match l with
  | c :: l' => if is_space c then trim_left l' else l
  | [] => []
  end.

(** The text so far is kept reversed, so trimming its right end drops spaces in
    front. *)
Fixpoint lex_from (inside : bool) (acc : list ascii) (s : string) {struct s} : option (list item) :=
  match s with
  | EmptyString =>
      if inside then None else Some [IText (string_of_list_ascii (rev acc))]
  | String c s' =>
      match s' with
      | String d s'' =>
          if inside then
            if Ascii.eqb c "}" && Ascii.eqb d "}" then
              cons (IAction (string_of_list_ascii (rev acc))) <$> lex_from false [] s''
            else lex_from true (c :: acc) s'
          else if Ascii.eqb c "{" && Ascii.eqb d "{" then
            match s'' with
            | String m (String sp r) =>
                if Ascii.eqb m "-" && is_space sp then
                  cons (IText (string_of_list_ascii (rev (trim_left acc)))) <$> lex_from true [] r
                else cons (IText (string_of_list_ascii (rev acc))) <$> lex_from true [] s''
            | _ => cons (IText (string_of_list_ascii (rev acc))) <$> lex_from true [] s''
            end
          else lex_from false (c :: acc) s'
      | EmptyString => lex_from inside (c :: acc) s'
      end
  end.

Definition lex (s : string) : option (list item) := lex_from false [] s.

(** ** Parsing *)

(** [$name.f.g], with [""] for the variable [$], and [.f.g]; [ODot []] would be
    the dot alone, which the templates do not use. *)
Inductive operand :=
| OBool (b : bool)
| OVar (name : string) (fields : list string)
| ODot (fields : list string).

Inductive cond :=
| CTrue (o : operand)
| CEq (o1 o2 : operand).

Inductive action :=
| AOut (o : operand)
| ARange (idx : option string) (elem : string) (o : operand)
| AIf (c : cond)
| AElse
| AEnd.

Inductive node :=
| NText (s : string)
| NOut (o : operand)
| NRange (idx : option string) (elem : string) (o : operand) (body : list node)
| NIf (c : cond) (th el : list node).

Definition words (s : string) : list string := filter (fun w => w <> "") (split_on " " s).

Definition is_name (s : string) : bool := negb (bool_decide (s = "")).

Definition parse_operand (w : string) : option operand :=
  if decide (w = "true") then Some (OBool true)
  else if decide (w = "false") then Some (OBool false)
  else
    match split_on "." w with
    | [] => None
    | first :: fields =>
        if negb (forallb is_name fields) then None
        else if decide (first = "") then
          match fields with [] => None | _ => Some (ODot fields) end
        else
          match first with
          | String c name => if Ascii.eqb c "$" then Some (OVar name fields) else None
          | EmptyString => None
          end
    end.

(** [$x] or [$x,] of a declaration *)
Definition parse_var (w : string) : option string :=
  match w with
  | String c name => if (Ascii.eqb c "$") && is_name name then Some name else None
  | EmptyString => None
  end.

Definition drop_comma (w : string) : option string :=
  let l := rev (list_ascii_of_string w) in
  match l with
  | c :: l' => if Ascii.eqb c "," then Some (string_of_list_ascii (rev l')) else None
  | [] => None
  end.

Definition parse_action (s : string) : option action :=
  match words s with
  | ["end"] => Some AEnd
  | ["else"] => Some AElse
  | ["if"; w] => o ← parse_operand w; Some (AIf (CTrue o))
  | ["if"; "eq"; w1; w2] => o1 ← parse_operand w1; o2 ← parse_operand w2; Some (AIf (CEq o1 o2))
  | ["range"; x; ":="; w] => e ← parse_var x; o ← parse_operand w; Some (ARange None e o)
  | ["range"; xc; y; ":="; w] =>
      x ← drop_comma xc; i ← parse_var x; e ← parse_var y; o ← parse_operand w; Some (ARange (Some i) e o)
  | [w] => o ← parse_operand w; Some (AOut o)
  | _ => None
  end.

(** The open constructs, with the nodes (reversed) that precede each. *)
Inductive frame :=
| FRange (idx : option string) (elem : string) (o : operand) (before : list node)
| FThen (c : cond) (before : list node)
| FElse (c : cond) (th before : list node).

Fixpoint parse_items (items : list item) (stack : list frame) (cur : list node) : option (list node) :=
  match items with
  | [] => match stack with [] => Some (rev cur) | _ => None end
  | IText s :: rest => parse_items rest stack (NText s :: cur)
  | IAction s :: rest =>
      a ← parse_action s;
      match a with
      | AOut o => parse_items rest stack (NOut o :: cur)
      | ARange i e o => parse_items rest (FRange i e o cur :: stack) []
      | AIf c => parse_items rest (FThen c cur :: stack) []
      | AElse =>
          match stack with
          | FThen c before :: stack' => parse_items rest (FElse c (rev cur) before :: stack') []
          | _ => None
          end
      | AEnd =>
          match stack with
          | FRange i e o before :: stack' => parse_items rest stack' (NRange i e o (rev cur) :: before)
          | FThen c before :: stack' => parse_items rest stack' (NIf c (rev cur) [] :: before)
          | FElse c th before :: stack' => parse_items rest stack' (NIf c th (rev cur) :: before)
          | [] => None
          end
      end
  end.

Definition Parse (text : string) : go (list node) :=
  match items ← lex text; parse_items items [] [] with
  | Some t => Ok t
  | None => Err (ENew "template: parse error")
  end.

(** ** Execution *)

Definition assoc {A} (x : string) (l : list (string * A)) : option A :=
  snd <$> head (filter (fun p => p.1 = x) l).

(** The variables in scope, innermost first; [""] names [$], the data. *)
Abbreviation Vars := (list (string * value)).

Fixpoint evalFields (v : value) (fields : list string) : option value :=
  match fields with
  | [] => Some v
  | f :: fs => match v with VStruct l => v' ← assoc f l; evalFields v' fs | _ => None end
  end.

Definition evalOperand (vars : Vars) (dot : value) (o : operand) : option value :=
  match o with
  | OBool b => Some (VBool b)
  | OVar x fs => v ← assoc x vars; evalFields v fs
  | ODot fs => evalFields dot fs
  end.

(** The builtin [eq] on two arguments: basic kinds that agree. *)
Definition evalEq (v1 v2 : value) : option bool :=
  match v1, v2 with
  | VString s1, VString s2 => Some (bool_decide (s1 = s2))
  | VInt n1, VInt n2 => Some (n1 =? n2)
  | VBool b1, VBool b2 => Some (Bool.eqb b1 b2)
  | _, _ => None
  end.

Definition evalCond (vars : Vars) (dot : value) (c : cond) : option bool :=
  match c with
  | CTrue o => isTrue <$> evalOperand vars dot o
  | CEq o1 o2 => v1 ← evalOperand vars dot o1; v2 ← evalOperand vars dot o2; evalEq v1 v2
  end.

(** The variables of an iteration; the dot is the element. *)
Definition bind_vars (idx : option string) (elem : string) (i : Z) (v : value) (vars : Vars) : Vars :=
  (elem, v) :: match idx with Some x => (x, VInt i) :: vars | None => vars end.

Fixpoint walk (n : node) (vars : Vars) (dot : value) : option string :=
  let walks := fix walks (l : list node) (vars : Vars) (dot : value) : option string :=
    match l with
    | [] => Some ""
    | n :: l' => s ← walk n vars dot; r ← walks l' vars dot; Some (s +:+ r)
    end in
  match n with
  | NText s => Some s
  | NOut o => v ← evalOperand vars dot o; printValue v
  | NIf c th el =>
      b ← evalCond vars dot c;
      if b : bool then walks th vars dot else walks el vars dot
  | NRange idx elem o body =>
      v ← evalOperand vars dot o;
      match v with
      | VList l =>
          (fix iterate (i : Z) (l : list value) : option string :=
             match l with
             | [] => Some ""
             | x :: l' =>
                 s ← walks body (bind_vars idx elem i x vars) x;
                 r ← iterate (i + 1) l'; Some (s +:+ r)
             end) 0 l
      | _ => None
      end
  end.

Fixpoint walks (l : list node) (vars : Vars) (dot : value) : option string :=
  match l with
  | [] => Some ""
  | n :: l' => s ← walk n vars dot; r ← walks l' vars dot; Some (s +:+ r)
  end.

Fixpoint iterate (idx : option string) (elem : string) (body : list node) (vars : Vars) (i : Z)
    (l : list value) : option string :=
  match l with
  | [] => Some ""
  | x :: l' =>
      s ← walks body (bind_vars idx elem i x vars) x;
      r ← iterate idx elem body vars (i + 1) l'; Some (s +:+ r)
  end.

Definition Execute (t : list node) (data : value) : go string :=
  match walks t [("", data)] data with
  | Some s => Ok s
  | None => Err (ENew "template: execution error")
  end.

(** [template.Must(template.New(..).Parse(text))] and [orPanic(tpl.Execute(buf, data))] *)
Definition render (text : string) (data : value) : go string :=
  let! t := orPanic (Parse text) in
  orPanic (Execute t data).

(** ** Equations of the executor *)

Lemma walk_if c th el vars dot :
  walk (NIf c th el) vars dot =
  b ← evalCond vars dot c; if b : bool then walks th vars dot else walks el vars dot.
Proof. reflexivity. Qed.

Lemma walk_range idx elem o body vars dot :
  walk (NRange idx elem o body) vars dot =
  v ← evalOperand vars dot o;
  match v with VList l => iterate idx elem body vars 0 l | _ => None end.
Proof.
  cbn [walk]. destruct (evalOperand vars dot o) as [[]|]; try done. cbn [mbind option_bind].
  generalize 0. induction l as [|x l IH]; intros i; [done|]. cbn [iterate].
  rewrite <- IH. reflexivity.
Qed.

Lemma walks_app l1 l2 vars dot :
  walks (l1 ++ l2) vars dot =
  s ← walks l1 vars dot; r ← walks l2 vars dot; Some (s +:+ r).
Proof.
  induction l1 as [|n l1 IH]; cbn [walks app mbind option_bind].
  - by destruct (walks l2 vars dot).
  - destruct (walk n vars dot); [|done]. cbn [mbind option_bind]. rewrite IH.
    destruct (walks l1 vars dot); [|done]. cbn [mbind option_bind].
    destruct (walks l2 vars dot); [|done]. cbn [mbind option_bind]. by rewrite append_assoc.
Qed.

(** ** Static checking *)

Inductive ty :=
| TString | TInt | TBool | TIP
| TList (t : ty)
| TStruct (fields : list (string * ty)).

Inductive has_ty : ty -> value -> Prop :=
| ht_string s : has_ty TString (VString s)
| ht_int n : has_ty TInt (VInt n)
| ht_bool b : has_ty TBool (VBool b)
| ht_ip ip : has_ty TIP (VIP ip)
| ht_list t l : Forall (has_ty t) l -> has_ty (TList t) (VList l)
| ht_struct fts fvs :
    Forall2 (fun ft fv => ft.1 = fv.1 /\ has_ty ft.2 fv.2) fts fvs -> has_ty (TStruct fts) (VStruct fvs).

Abbreviation Scope := (list (string * ty)).

Fixpoint tyFields (t : ty) (fields : list string) : option ty :=
  match fields with
  | [] => Some t
  | f :: fs => match t with TStruct l => t' ← assoc f l; tyFields t' fs | _ => None end
  end.

Definition tyOperand (sc : Scope) (dot : ty) (o : operand) : option ty :=
  match o with
  | OBool _ => Some TBool
  | OVar x fs => t ← assoc x sc; tyFields t fs
  | ODot fs => tyFields dot fs
  end.

Definition printable (t : ty) : bool :=
  match t with TString | TInt | TBool | TIP => true | TList _ | TStruct _ => false end.

Definition tyEq (t1 t2 : ty) : bool :=
  match t1, t2 with TString, TString | TInt, TInt | TBool, TBool => true | _, _ => false end.

Definition checkCond (sc : Scope) (dot : ty) (c : cond) : bool :=
  match c with
  | CTrue o => bool_decide (is_Some (tyOperand sc dot o))
  | CEq o1 o2 =>
      match tyOperand sc dot o1, tyOperand sc dot o2 with
      | Some t1, Some t2 => tyEq t1 t2
      | _, _ => false
      end
  end.

Definition bind_tys (idx : option string) (elem : string) (t : ty) (sc : Scope) : Scope :=
  (elem, t) :: match idx with Some x => (x, TInt) :: sc | None => sc end.

Fixpoint check (sc : Scope) (dot : ty) (n : node) : bool :=
  match n with
  | NText _ => true
  | NOut o => match tyOperand sc dot o with Some t => printable t | None => false end
  | NIf c th el => checkCond sc dot c && forallb (check sc dot) th && forallb (check sc dot) el
  | NRange idx elem o body =>
      match tyOperand sc dot o with
      | Some (TList t) => forallb (check (bind_tys idx elem t sc) t) body
      | _ => false
      end
  end.

(** The whole template, on data of type [t]. *)
Definition checks (t : ty) (nodes : list node) : bool := forallb (check [("", t)] t) nodes.

Fixpoint node_ind' (P : node -> Prop) (Ht : forall s, P (NText s)) (Ho : forall o, P (NOut o))
    (Hr : forall i e o body, Forall P body -> P (NRange i e o body))
    (Hi : forall c th el, Forall P th -> Forall P el -> P (NIf c th el)) (n : node) : P n :=
  let all := fix all (l : list node) : Forall P l :=
    match l with
    | [] => List.Forall_nil P
    | n :: l' => List.Forall_cons P n l' (node_ind' P Ht Ho Hr Hi n) (all l')
    end in
  match n with
  | NText s => Ht s
  | NOut o => Ho o
  | NRange i e o body => Hr i e o body (all body)
  | NIf c th el => Hi c th el (all th) (all el)
  end.

(** Variables of the types in scope. *)
Definition well_scoped (sc : Scope) (vars : Vars) : Prop :=
  Forall2 (fun ft fv => ft.1 = fv.1 /\ has_ty ft.2 fv.2) sc vars.

Lemma assoc_cons {A} x y (a : A) l : assoc x ((y, a) :: l) = if decide (y = x) then Some a else assoc x l.
Proof. unfold assoc. rewrite filter_cons. cbn [fst]. by repeat case_decide. Qed.

Lemma assoc_typed sc vars x t :
  well_scoped sc vars -> assoc x sc = Some t -> exists v, assoc x vars = Some v /\ has_ty t v.
Proof.
  induction 1 as [|[y ty] [z v] sc vars [Hn Hv] _ IH]; [done|]. cbn in Hn; subst z.
  rewrite !assoc_cons. destruct (decide (y = x)); [|done].
  intros [= <-]. eauto.
Qed.

Lemma fields_typed fs t v t' :
  has_ty t v -> tyFields t fs = Some t' -> exists v', evalFields v fs = Some v' /\ has_ty t' v'.
Proof.
  revert t v. induction fs as [|f fs IH]; intros t v Hv; cbn [tyFields evalFields].
  - intros [= <-]. eauto.
  - inversion Hv as [| | | | |fts fvs HF]; subst; try done.
    destruct (assoc f fts) as [t1|] eqn:E; [|done]. cbn [mbind option_bind].
    destruct (assoc_typed _ _ _ _ HF E) as (v1 & -> & H1). by apply IH.
Qed.

Lemma operand_typed sc vars dt dot o t :
  well_scoped sc vars -> has_ty dt dot -> tyOperand sc dt o = Some t ->
  exists v, evalOperand vars dot o = Some v /\ has_ty t v.
Proof.
  intros Hs Hd. destruct o as [b|x fs|fs]; cbn [tyOperand evalOperand].
  - intros [= <-]. eexists; split; [done|constructor].
  - destruct (assoc x sc) as [t1|] eqn:E; [|done]. cbn [mbind option_bind].
    destruct (assoc_typed _ _ _ _ Hs E) as (v1 & -> & H1). by apply fields_typed.
  - by apply fields_typed.
Qed.

Lemma cond_typed sc vars dt dot c :
  well_scoped sc vars -> has_ty dt dot -> checkCond sc dt c = true -> is_Some (evalCond vars dot c).
Proof.
  intros Hs Hd. destruct c as [o|o1 o2]; cbn [checkCond evalCond].
  - intros H%bool_decide_eq_true. destruct H as [t Ht].
    destruct (operand_typed _ _ _ _ _ _ Hs Hd Ht) as (v & -> & _). cbn. eauto.
  - destruct (tyOperand sc dt o1) as [t1|] eqn:E1; [|done].
    destruct (tyOperand sc dt o2) as [t2|] eqn:E2; [|done].
    destruct (operand_typed _ _ _ _ _ _ Hs Hd E1) as (v1 & -> & H1).
    destruct (operand_typed _ _ _ _ _ _ Hs Hd E2) as (v2 & -> & H2).
    destruct H1, H2; try done; cbn; eauto.
Qed.

Lemma print_typed t v : has_ty t v -> printable t = true -> is_Some (printValue v).
Proof. destruct 1; cbn; eauto; done. Qed.

Lemma bind_typed idx elem i t v sc vars :
  well_scoped sc vars -> has_ty t v -> well_scoped (bind_tys idx elem t sc) (bind_vars idx elem i v vars).
Proof.
  intros Hs Hv. unfold bind_tys, bind_vars.
  constructor; [done|]. destruct idx; [|done]. constructor; [|done]. split; [done|constructor].
Qed.

(** A node that checks is executed. *)
Definition executes (n : node) : Prop :=
  forall sc vars dt dot, well_scoped sc vars -> has_ty dt dot -> check sc dt n = true ->
  is_Some (walk n vars dot).

Lemma walks_executes l sc vars dt dot :
  Forall executes l -> well_scoped sc vars -> has_ty dt dot -> forallb (check sc dt) l = true ->
  is_Some (walks l vars dot).
Proof.
  intros HF Hs Hd. induction HF as [|n l Hn _ IH]; cbn [forallb walks]; [eauto|].
  intros [H1 H2]%andb_true_iff.
  destruct (Hn _ _ _ _ Hs Hd H1) as [s ->], (IH H2) as [r ->]. cbn. eauto.
Qed.

Lemma node_executes n : executes n.
Proof.
  induction n as [s|o|idx elem o body IH|c th el IHt IHe] using node_ind'; intros sc vars dt dot Hs Hd;
    cbn [check].
  - cbn. eauto.
  - cbn [walk]. destruct (tyOperand sc dt o) as [t|] eqn:E; [|done]. intros Hp.
    destruct (operand_typed _ _ _ _ _ _ Hs Hd E) as (v & -> & Hv). cbn. by apply (print_typed t).
  - rewrite walk_range. destruct (tyOperand sc dt o) as [t|] eqn:E; [|done].
    destruct (operand_typed _ _ _ _ _ _ Hs Hd E) as (v & -> & Hv). cbn [mbind option_bind].
    destruct t as [| | | |t|]; try done. inversion Hv as [| | | |? l HF|]; subst. intros Hc.
    generalize 0. clear Hv E. induction HF as [|x l Hx _ IHl]; intros i; cbn [iterate]; [eauto|].
    destruct (walks_executes _ _ _ _ _ IH (bind_typed idx elem i _ _ _ _ Hs Hx) Hx Hc) as [s ->].
    destruct (IHl (i + 1)) as [r ->]. cbn. eauto.
  - intros [[H1 H2]%andb_true_iff H3]%andb_true_iff. rewrite walk_if.
    destruct (cond_typed _ _ _ _ _ Hs Hd H1) as [b ->]. cbn [mbind option_bind].
    destruct b; eapply walks_executes; eauto.
Qed.

(** A template that parses and checks against a type renders every value of the
    type. *)
Lemma checked_executes text t nodes v :
  Parse text = Ok nodes -> checks t nodes = true -> has_ty t v -> exists s, render text v = Ok s.
Proof.
  intros Hp Hc Hv. unfold render, Execute. rewrite Hp. cbn [orPanic go_bind].
  assert (Forall executes nodes) as HF by (apply Forall_forall; intros; apply node_executes).
  destruct (walks_executes nodes [("", t)] [("", v)] t v HF) as [s ->]; [|done|done|eauto].
  by repeat constructor.
Qed.
