(* ===== verification/TemplateTexts.v ===== *)
(** * The embedded templates (chain/templates)

    The text of each file, line by line, under the name of the variable that
    [go:embed] fills.  A double quote is written [^], which the files do not
    contain; [embed] puts the quotes and the newlines back. *)

From Stdlib Require Import ZArith Ascii String.
From stdpp Require Import base list strings.
From S2P Require Import Prelude GoStrings.

Open Scope string_scope.
Open Scope Z_scope.
Open Scope list_scope.

Fixpoint quotes (s : string) : string :=
  match s with
  | EmptyString => EmptyString
  | String c s' => String (if Ascii.eqb c "^" then "034"%char else c) (quotes s')
  end.

Definition newline : string := String "010"%char "".

Definition embed (lines : list string) : string := String.concat newline (map quotes lines).

(** templates/docker-compose.yml.tpl (docker.go) *)
Definition dockerComposeTpl : string := embed [
"services:";
"{{- range $i, $node := .Nodes}}";
"  injectived{{$i}}:";
"    container_name: injstress-{{$node.Moniker}}";
"    image: ^{{$.Image}}^";
"    environment:";
"      - DEBUG={{if eq $.Debug true}}1{{else}}0{{end}}";
"      - NODE_HOME=/root/.injectived";
"      - CHAIN_ID={{$.ChainID}}";
"      - MONIKER={{$node.Moniker}}";
"    cap_add:";
"      - SYS_PTRACE";
"    security_opt:";
"      - seccomp:unconfined";
"    {{- if $node.PortsExposed}}";
"    ports:";
"      - ^{{$node.Ports.P2P}}-{{$node.Ports.RPC}}:26656-26657^";
"      - ^{{$node.Ports.API}}:10337^";
"      - ^{{$node.Ports.GRPC}}:9900^";
"      - ^{{$node.Ports.GRPCWeb}}:9091^";
"      - ^{{$node.Ports.PProf}}:2345^";
"      {{- if $node.Ports.EVMRPC}}";
"      - ^{{$node.Ports.EVMRPC}}-{{$node.Ports.EVMWSPort}}:8545-8546^";
"      {{- end}}";
"      {{- if $node.Ports.Prometheus}}";
"      - ^{{$node.Ports.Prometheus}}:26660^";
"      {{- end}}";
"    {{- end}}";
"    volumes:";
"      - {{$node.Home}}:/root/.injectived:Z";
"    networks:";
"      localnet:";
"        ipv4_address: {{$node.IPAddr}}";
"    {{- if $node.DependsOn}}";
"    depends_on:";
"      {{- range $dep := $node.DependsOn}}";
"      - injectived{{$dep}}";
"      {{- end}}";
"    {{- end}}";
"    command: injectived --home=/root/.injectived start";
"{{- end}}";
"";
"networks:";
"  localnet:";
"    driver: bridge";
"    ipam:";
"      driver: default";
"      config:";
"        - subnet: {{.Network.Subnet}}";
""
].

(** templates/app.toml.tpl (config_app.go) *)
Definition appTplTOML : string := embed [
"# This is a TOML config file.";
"# For more information, see https://github.com/toml-lang/toml";
"";
"###############################################################################";
"###                           Base Configuration                            ###";
"###############################################################################";
"";
"# The minimum gas prices a validator is willing to accept for processing a";
"# transaction. A transaction's fees must meet the minimum of any denomination";
"# specified in this config (e.g. 0.25token1;0.0001token2).";
"minimum-gas-prices = ^{{.MinimumGasPrices}}^";
"";
"# default: the last 100 states are kept in addition to every 500th state; pruning at 10 block intervals";
"# nothing: all historic states will be saved, nothing will be deleted (i.e. archiving node)";
"# everything: all saved states will be deleted, storing only the current state; pruning at 10 block intervals";
"# custom: allow pruning options to be manually specified through 'pruning-keep-recent', 'pruning-keep-every', and 'pruning-interval'";
"pruning = ^nothing^";
"";
"# These are applied if and only if the pruning strategy is custom.";
"pruning-keep-recent = ^0^";
"pruning-keep-every = ^0^";
"pruning-interval = ^0^";
"";
"# HaltHeight contains a non-zero block height at which a node will gracefully";
"# halt and shutdown that can be used to assist upgrades and testing.";
"#";
"# Note: Commitment of state will be attempted on the corresponding block.";
"halt-height = 0";
"";
"# HaltTime contains a non-zero minimum block time (in Unix seconds) at which";
"# a node will gracefully halt and shutdown that can be used to assist upgrades";
"# and testing.";
"#";
"# Note: Commitment of state will be attempted on the corresponding block.";
"halt-time = 0";
"";
"# MinRetainBlocks defines the minimum block height offset from the current";
"# block being committed, such that all blocks past this offset are pruned";
"# from Tendermint. It is used as part of the process of determining the";
"# ResponseCommit.RetainHeight value during ABCI Commit. A value of 0 indicates";
"# that no blocks should be pruned.";
"#";
"# This configuration value is only responsible for pruning Tendermint blocks.";
"# It has no bearing on application state pruning which is determined by the";
"# ^pruning-*^ configurations.";
"#";
"# Note: Tendermint block pruning is dependant on this parameter in conunction";
"# with the unbonding (safety threshold) period, state pruning and state sync";
"# snapshot parameters to determine the correct minimum value of";
"# ResponseCommit.RetainHeight.";
"min-retain-blocks = 0";
"";
"# InterBlockCache enables inter-block caching.";
"inter-block-cache = true";
"";
"# IndexEvents defines the set of events in the form {eventType}.{attributeKey},";
"# which informs Tendermint what to index. If empty, all events will be indexed.";
"#";
"# Example:";
"# [^message.sender^, ^message.recipient^]";
"index-events = []";
"";
"###############################################################################";
"###                         Telemetry Configuration                         ###";
"###############################################################################";
"";
"[telemetry]";
"";
"# Prefixed with keys to separate services.";
"service-name = ^^";
"";
"# Enabled enables the application telemetry functionality. When enabled,";
"# an in-memory sink is also enabled by default. Operators may also enabled";
"# other sinks such as Prometheus.";
"enabled = false";
"";
"# Enable prefixing gauge values with hostname.";
"enable-hostname = false";
"";
"# Enable adding hostname to labels.";
"enable-hostname-label = false";
"";
"# Enable adding service to labels.";
"enable-service-label = false";
"";
"# PrometheusRetentionTime, when positive, enables a Prometheus metrics sink.";
"prometheus-retention-time = 0";
"";
"# GlobalLabels defines a global set of name/value label tuples applied to all";
"# metrics emitted using the wrapper functions defined in telemetry package.";
"#";
"# Example:";
"# [[^chain_id^, ^cosmoshub-1^]]";
"global-labels = [";
"]";
"";
"###############################################################################";
"###                           API Configuration                             ###";
"###############################################################################";
"";
"[api]";
"";
"# Enable defines if the API server should be enabled.";
"enable = true";
"";
"# Swagger defines if swagger documentation should automatically be registered.";
"swagger = true";
"";
"# Address defines the API server to listen on.";
"address = ^tcp://{{.IPListen}}:{{.Ports.API}}^";
"";
"# MaxOpenConnections defines the number of maximum open connections.";
"max-open-connections = 1000";
"";
"# RPCReadTimeout defines the Tendermint RPC read timeout (in seconds).";
"rpc-read-timeout = 10";
"";
"# RPCWriteTimeout defines the Tendermint RPC write timeout (in seconds).";
"rpc-write-timeout = 0";
"";
"# RPCMaxBodyBytes defines the Tendermint maximum response body (in bytes).";
"rpc-max-body-bytes = 1000000";
"";
"# EnableUnsafeCORS defines if CORS should be enabled (unsafe - use it at your own risk).";
"enabled-unsafe-cors = false";
"";
"###############################################################################";
"###                           gRPC Configuration                            ###";
"###############################################################################";
"";
"[grpc]";
"";
"# Enable defines if the gRPC server should be enabled.";
"enable = true";
"";
"# Address defines the gRPC server address to bind to.";
"address = ^{{.IPListen}}:{{.Ports.GRPC}}^";
"";
"[grpc-web]";
"";
"# Enable defines if the gRPC Web server should be enabled.";
"enable = true";
"";
"# Address defines the gRPC Web server address to bind to.";
"address = ^{{.IPListen}}:{{.Ports.GRPCWeb}}^";
"";
"###############################################################################";
"###                        State Sync Configuration                         ###";
"###############################################################################";
"";
"# State sync snapshots allow other nodes to rapidly join the network without replaying historical";
"# blocks, instead downloading and applying a snapshot of the application state at a given height.";
"[state-sync]";
"";
"# snapshot-interval specifies the block interval at which local state sync snapshots are";
"# taken (0 to disable). Must be a multiple of pruning-keep-every.";
"snapshot-interval = 0";
"";
"# snapshot-keep-recent specifies the number of recent snapshots to keep and serve (0 to keep all).";
"snapshot-keep-recent = 2"
].

(** templates/app.prod.toml.tpl (config_app.go) *)
Definition appProdTplTOML : string := embed [
"# This is a TOML config file.";
"# For more information, see https://github.com/toml-lang/toml";
"";
"###############################################################################";
"###                           Base Configuration                            ###";
"###############################################################################";
"";
"# The minimum gas prices a validator is willing to accept for processing a";
"# transaction. A transaction's fees must meet the minimum of any denomination";
"# specified in this config (e.g. 0.25token1;0.0001token2).";
"minimum-gas-prices = ^{{.MinimumGasPrices}}^";
"";
"# default: the last 100 states are kept in addition to every 500th state; pruning at 10 block intervals";
"# nothing: all historic states will be saved, nothing will be deleted (i.e. archiving node)";
"# everything: all saved states will be deleted, storing only the current state; pruning at 10 block intervals";
"# custom: allow pruning options to be manually specified through 'pruning-keep-recent', 'pruning-keep-every', and 'pruning-interval'";
"pruning = ^nothing^";
"";
"# These are applied if and only if the pruning strategy is custom.";
"pruning-keep-recent = ^0^";
"pruning-keep-every = ^0^";
"pruning-interval = ^0^";
"";
"# HaltHeight contains a non-zero block height at which a node will gracefully";
"# halt and shutdown that can be used to assist upgrades and testing.";
"#";
"# Note: Commitment of state will be attempted on the corresponding block.";
"halt-height = 0";
"";
"# HaltTime contains a non-zero minimum block time (in Unix seconds) at which";
"# a node will gracefully halt and shutdown that can be used to assist upgrades";
"# and testing.";
"#";
"# Note: Commitment of state will be attempted on the corresponding block.";
"halt-time = 0";
"";
"# MinRetainBlocks defines the minimum block height offset from the current";
"# block being committed, such that all blocks past this offset are pruned";
"# from Tendermint. It is used as part of the process of determining the";
"# ResponseCommit.RetainHeight value during ABCI Commit. A value of 0 indicates";
"# that no blocks should be pruned.";
"#";
"# This configuration value is only responsible for pruning Tendermint blocks.";
"# It has no bearing on application state pruning which is determined by the";
"# ^pruning-*^ configurations.";
"#";
"# Note: Tendermint block pruning is dependant on this parameter in conunction";
"# with the unbonding (safety threshold) period, state pruning and state sync";
"# snapshot parameters to determine the correct minimum value of";
"# ResponseCommit.RetainHeight.";
"min-retain-blocks = 0";
"";
"# InterBlockCache enables inter-block caching.";
"inter-block-cache = true";
"";
"# IndexEvents defines the set of events in the form {eventType}.{attributeKey},";
"# which informs Tendermint what to index. If empty, all events will be indexed.";
"#";
"# Example:";
"# [^message.sender^, ^message.recipient^]";
"index-events = []";
"";
"###############################################################################";
"###                         Telemetry Configuration                         ###";
"###############################################################################";
"";
"[telemetry]";
"";
"# Prefixed with keys to separate services.";
"service-name = ^^";
"";
"# Enabled enables the application telemetry functionality. When enabled,";
"# an in-memory sink is also enabled by default. Operators may also enabled";
"# other sinks such as Prometheus.";
"enabled = false";
"";
"# Enable prefixing gauge values with hostname.";
"enable-hostname = false";
"";
"# Enable adding hostname to labels.";
"enable-hostname-label = false";
"";
"# Enable adding service to labels.";
"enable-service-label = false";
"";
"# PrometheusRetentionTime, when positive, enables a Prometheus metrics sink.";
"prometheus-retention-time = 0";
"";
"# GlobalLabels defines a global set of name/value label tuples applied to all";
"# metrics emitted using the wrapper functions defined in telemetry package.";
"#";
"# Example:";
"# [[^chain_id^, ^cosmoshub-1^]]";
"global-labels = [";
"]";
"";
"###############################################################################";
"###                           API Configuration                             ###";
"###############################################################################";
"";
"[api]";
"";
"# Enable defines if the API server should be enabled.";
"enable = true";
"";
"# Swagger defines if swagger documentation should automatically be registered.";
"swagger = true";
"";
"# Address defines the API server to listen on.";
"address = ^tcp://{{.IPListen}}:{{.Ports.API}}^";
"";
"# MaxOpenConnections defines the number of maximum open connections.";
"max-open-connections = 1000";
"";
"# RPCReadTimeout defines the Tendermint RPC read timeout (in seconds).";
"rpc-read-timeout = 10";
"";
"# RPCWriteTimeout defines the Tendermint RPC write timeout (in seconds).";
"rpc-write-timeout = 0";
"";
"# RPCMaxBodyBytes defines the Tendermint maximum response body (in bytes).";
"rpc-max-body-bytes = 1000000";
"";
"# EnableUnsafeCORS defines if CORS should be enabled (unsafe - use it at your own risk).";
"enabled-unsafe-cors = false";
"";
"###############################################################################";
"###                           gRPC Configuration                            ###";
"###############################################################################";
"";
"[grpc]";
"";
"# Enable defines if the gRPC server should be enabled.";
"enable = true";
"";
"# Address defines the gRPC server address to bind to.";
"address = ^{{.IPListen}}:{{.Ports.GRPC}}^";
"";
"[grpc-web]";
"";
"# Enable defines if the gRPC Web server should be enabled.";
"enable = true";
"";
"# Address defines the gRPC Web server address to bind to.";
"address = ^{{.IPListen}}:{{.Ports.GRPCWeb}}^";
"";
"###############################################################################";
"###                        State Sync Configuration                         ###";
"###############################################################################";
"";
"# State sync snapshots allow other nodes to rapidly join the network without replaying historical";
"# blocks, instead downloading and applying a snapshot of the application state at a given height.";
"[state-sync]";
"";
"# snapshot-interval specifies the block interval at which local state sync snapshots are";
"# taken (0 to disable). Must be a multiple of pruning-keep-every.";
"snapshot-interval = 0";
"";
"# snapshot-keep-recent specifies the number of recent snapshots to keep and serve (0 to keep all).";
"snapshot-keep-recent = 2";
""
].

(** templates/app.evm.toml.tpl (config_app.go) *)
Definition appEvmTplTOML : string := embed [
"# This is a TOML config file.";
"# For more information, see https://github.com/toml-lang/toml";
"";
"###############################################################################";
"###                           Base Configuration                            ###";
"###############################################################################";
"";
"# The minimum gas prices a validator is willing to accept for processing a";
"# transaction. A transaction's fees must meet the minimum of any denomination";
"# specified in this config (e.g. 0.25token1,0.0001token2).";
"minimum-gas-prices = ^{{.MinimumGasPrices}}^";
"";
"# The maximum gas a query coming over rest/grpc may consume.";
"# If this is set to zero, the query can consume an unbounded amount of gas.";
"query-gas-limit = ^0^";
"";
"# default: the last 362880 states are kept, pruning at 10 block intervals";
"# nothing: all historic states will be saved, nothing will be deleted (i.e. archiving node)";
"# everything: 2 latest states will be kept; pruning at 10 block intervals.";
"# custom: allow pruning options to be manually specified through 'pruning-keep-recent', and 'pruning-interval'";
"pruning = ^nothing^";
"";
"# These are applied if and only if the pruning strategy is custom.";
"pruning-keep-recent = ^0^";
"pruning-interval = ^0^";
"";
"# HaltHeight contains a non-zero block height at which a node will gracefully";
"# halt and shutdown that can be used to assist upgrades and testing.";
"#";
"# Note: Commitment of state will be attempted on the corresponding block.";
"halt-height = 0";
"";
"# HaltTime contains a non-zero minimum block time (in Unix seconds) at which";
"# a node will gracefully halt and shutdown that can be used to assist upgrades";
"# and testing.";
"#";
"# Note: Commitment of state will be attempted on the corresponding block.";
"halt-time = 0";
"";
"# MinRetainBlocks defines the minimum block height offset from the current";
"# block being committed, such that all blocks past this offset are pruned";
"# from CometBFT. It is used as part of the process of determining the";
"# ResponseCommit.RetainHeight value during ABCI Commit. A value of 0 indicates";
"# that no blocks should be pruned.";
"#";
"# This configuration value is only responsible for pruning CometBFT blocks.";
"# It has no bearing on application state pruning which is determined by the";
"# ^pruning-*^ configurations.";
"#";
"# Note: CometBFT block pruning is dependant on this parameter in conjunction";
"# with the unbonding (safety threshold) period, state pruning and state sync";
"# snapshot parameters to determine the correct minimum value of";
"# ResponseCommit.RetainHeight.";
"min-retain-blocks = 0";
"";
"# InterBlockCache enables inter-block caching.";
"inter-block-cache = true";
"";
"# IndexEvents defines the set of events in the form {eventType}.{attributeKey},";
"# which informs CometBFT what to index. If empty, all events will be indexed.";
"#";
"# Example:";
"# [^message.sender^, ^message.recipient^]";
"index-events = []";
"";
"# IavlCacheSize set the size of the iavl tree cache (in number of nodes).";
"iavl-cache-size = 781250";
"";
"# IAVLDisableFastNode enables or disables the fast node feature of IAVL.";
"# Default is false.";
"iavl-disable-fastnode = true";
"";
"# AppDBBackend defines the database backend type to use for the application and snapshots DBs.";
"# An empty string indicates that a fallback will be used.";
"# The fallback is the db_backend value set in CometBFT's config.toml.";
"app-db-backend = ^^";
"";
"###############################################################################";
"###                         Telemetry Configuration                         ###";
"###############################################################################";
"";
"[telemetry]";
"";
"# Prefixed with keys to separate services.";
"service-name = ^^";
"";
"# Enabled enables the application telemetry functionality. When enabled,";
"# an in-memory sink is also enabled by default. Operators may also enabled";
"# other sinks such as Prometheus.";
"enabled = false";
"";
"# Enable prefixing gauge values with hostname.";
"enable-hostname = false";
"";
"# Enable adding hostname to labels.";
"enable-hostname-label = false";
"";
"# Enable adding service to labels.";
"enable-service-label = false";
"";
"# PrometheusRetentionTime, when positive, enables a Prometheus metrics sink.";
"prometheus-retention-time = 0";
"";
"# GlobalLabels defines a global set of name/value label tuples applied to all";
"# metrics emitted using the wrapper functions defined in telemetry package.";
"#";
"# Example:";
"# [[^chain_id^, ^cosmoshub-1^]]";
"global-labels = [";
"]";
"";
"# MetricsSink defines the type of metrics sink to use.";
"metrics-sink = ^^";
"";
"# StatsdAddr defines the address of a statsd server to send metrics to.";
"# Only utilized if MetricsSink is set to ^statsd^ or ^dogstatsd^.";
"statsd-addr = ^^";
"";
"# DatadogHostname defines the hostname to use when emitting metrics to";
"# Datadog. Only utilized if MetricsSink is set to ^dogstatsd^.";
"datadog-hostname = ^^";
"";
"###############################################################################";
"###                           API Configuration                             ###";
"###############################################################################";
"";
"[api]";
"";
"# Enable defines if the API server should be enabled.";
"enable = true";
"";
"# Swagger defines if swagger documentation should automatically be registered.";
"swagger = true";
"";
"# Address defines the API server to listen on.";
"address = ^tcp://{{.IPListen}}:{{.Ports.API}}^";
"";
"# MaxOpenConnections defines the number of maximum open connections.";
"max-open-connections = 1000";
"";
"# RPCReadTimeout defines the CometBFT RPC read timeout (in seconds).";
"rpc-read-timeout = 10";
"";
"# RPCWriteTimeout defines the CometBFT RPC write timeout (in seconds).";
"rpc-write-timeout = 0";
"";
"# RPCMaxBodyBytes defines the CometBFT maximum request body (in bytes).";
"rpc-max-body-bytes = 1000000";
"";
"# EnableUnsafeCORS defines if CORS should be enabled (unsafe - use it at your own risk).";
"enabled-unsafe-cors = true";
"";
"###############################################################################";
"###                           gRPC Configuration                            ###";
"###############################################################################";
"";
"[grpc]";
"";
"# Enable defines if the gRPC server should be enabled.";
"enable = true";
"";
"# Address defines the gRPC server address to bind to.";
"address = ^{{.IPListen}}:{{.Ports.GRPC}}^";
"";
"# MaxRecvMsgSize defines the max message size in bytes the server can receive.";
"# The default value is 10MB.";
"max-recv-msg-size = ^10485760^";
"";
"# MaxSendMsgSize defines the max message size in bytes the server can send.";
"# The default value is math.MaxInt32.";
"max-send-msg-size = ^2147483647^";
"";
"###############################################################################";
"###                        gRPC Web Configuration                           ###";
"###############################################################################";
"";
"[grpc-web]";
"";
"# GRPCWebEnable defines if the gRPC-web should be enabled.";
"# NOTE: gRPC must also be enabled, otherwise, this configuration is a no-op.";
"# NOTE: gRPC-Web uses the same address as the API server.";
"enable = true";
"";
"###############################################################################";
"###                             EVM Configuration                           ###";
"###############################################################################";
"";
"[evm]";
"";
"# Tracer defines the 'vm.Tracer' type that the EVM will use when the node is run in";
"# debug mode. To enable tracing use the '--evm.tracer' flag when starting your node.";
"# Valid types are: json|struct|access_list|markdown";
"tracer = ^^";
"";
"# MaxTxGasWanted defines the gas wanted for each eth tx returned in ante handler in check tx mode.";
"max-tx-gas-wanted = 0";
"";
"###############################################################################";
"###                           JSON RPC Configuration                        ###";
"###############################################################################";
"";
"[json-rpc]";
"";
"# Enable defines if the gRPC server should be enabled.";
"enable = true";
"";
"# Address defines the EVM RPC HTTP server address to bind to.";
"address = ^{{.IPListen}}:{{.Ports.EVMRPC}}^";
"";
"# Address defines the EVM WebSocket server address to bind to.";
"ws-address = ^{{.IPListen}}:{{.Ports.EVMWSPort}}^";
"";
"# API defines a list of JSON-RPC namespaces that should be enabled";
"# Example: ^eth,txpool,personal,net,debug,web3^";
"api = ^eth,net,web3^";
"";
"# GasCap sets a cap on gas that can be used in eth_call/estimateGas (0=infinite).";
"gas-cap = 25000000";
"";
"# EVMTimeout is the global timeout for eth_call. Default: 5s.";
"evm-timeout = ^5s^";
"";
"# TxFeeCap is the global tx-fee cap for send transaction. Default: 1eth.";
"txfee-cap = 1";
"";
"# FilterCap sets the global cap for total number of filters that can be created";
"filter-cap = 200";
"";
"# FeeHistoryCap sets the global cap for total number of blocks that can be fetched";
"feehistory-cap = 100";
"";
"# LogsCap defines the max number of results can be returned from single 'eth_getLogs' query.";
"logs-cap = 10000";
"";
"# BlockRangeCap defines the max block range allowed for 'eth_getLogs' query.";
"block-range-cap = 10000";
"";
"# HTTPTimeout is the read/write timeout of http json-rpc server.";
"http-timeout = ^30s^";
"";
"# HTTPIdleTimeout is the idle timeout of http json-rpc server.";
"http-idle-timeout = ^2m0s^";
"";
"# AllowUnprotectedTxs restricts unprotected (non EIP155 signed) transactions to be submitted via";
"# the node's RPC when the global parameter is disabled.";
"allow-unprotected-txs = true";
"";
"# MaxOpenConnections sets the maximum number of simultaneous connections";
"# for the server listener.";
"max-open-connections = 0";
"";
"# EnableIndexer enables the custom transaction indexer for the EVM (ethereum transactions).";
"enable-indexer = true";
"";
"# AllowIndexerGap allow block gap for the custom transaction indexer for the EVM (ethereum transactions).";
"allow-indexer-gap = true";
"";
"# Define if JSON-RPC metrics server should be enabled.";
"metrics = false";
"";
"# MetricsAddress defines the EVM Metrics server address to bind to.";
"# Prometheus metrics path: /debug/metrics/prometheus";
"metrics-address = ^127.0.0.1:6065^";
"";
"# Maximum number of bytes returned from eth_call or similar invocations.";
"return-data-limit = 512000";
"";
"###############################################################################";
"###                        State Sync Configuration                         ###";
"###############################################################################";
"";
"# State sync snapshots allow other nodes to rapidly join the network without replaying historical";
"# blocks, instead downloading and applying a snapshot of the application state at a given height.";
"[state-sync]";
"";
"# snapshot-interval specifies the block interval at which local state sync snapshots are";
"# taken (0 to disable).";
"snapshot-interval = 0";
"";
"# snapshot-keep-recent specifies the number of recent snapshots to keep and serve (0 to keep all).";
"snapshot-keep-recent = 2";
"";
"###############################################################################";
"###                              State Streaming                            ###";
"###############################################################################";
"";
"# Streaming allows nodes to stream state to external systems.";
"[streaming]";
"";
"# streaming.abci specifies the configuration for the ABCI Listener streaming service.";
"[streaming.abci]";
"";
"# List of kv store keys to stream out via gRPC.";
"# The store key names MUST match the module's StoreKey name.";
"#";
"# Example:";
"# [^acc^, ^bank^, ^gov^, ^staking^, ^mint^[,...]]";
"# [^*^] to expose all keys.";
"keys = []";
"";
"# The plugin name used for streaming via gRPC.";
"# Streaming is only enabled if this is set.";
"# Supported plugins: abci";
"plugin = ^^";
"";
"# stop-node-on-err specifies whether to stop the node on message delivery error.";
"stop-node-on-err = true";
"";
"###############################################################################";
"###                         Mempool                                         ###";
"###############################################################################";
"";
"[mempool]";
"# Setting max-txs to 0 will allow for a unbounded amount of transactions in the mempool.";
"# Setting max_txs to negative 1 (-1) will disable transactions from being inserted into the mempool (no-op mempool).";
"# Setting max_txs to a positive number (> 0) will limit the number of transactions in the mempool, by the specified amount.";
"#";
"# Note, this configuration only applies to SDK built-in app-side mempool";
"# implementations.";
"max-txs = 500000"
].

(** templates/config.prod.toml.tpl (config_node.go) *)
Definition configProdTplTOML : string := embed [
"# This is a TOML config file.";
"# For more information, see https://github.com/toml-lang/toml";
"";
"# NOTE: Any path below can be absolute (e.g. ^/var/myawesomeapp/data^) or";
"# relative to the home directory (e.g. ^data^). The home directory is";
"# ^$HOME/.cometbft^ by default, but could be changed via $CMTHOME env variable";
"# or --home cmd flag.";
"";
"# The version of the CometBFT binary that created or";
"# last modified the config file. Do not modify this.";
"version = ^1.0.1^";
"";
"#######################################################################";
"###                   Main Base Config Options                      ###";
"#######################################################################";
"";
"# TCP or UNIX socket address of the ABCI application,";
"# or the name of an ABCI application compiled in with the CometBFT binary";
"proxy_app = ^tcp://127.0.0.1:{{.Ports.ProxyApp}}^";
"";
"# A custom human readable name for this node";
"moniker = ^{{.Moniker}}^";
"";
"# Database backend: badgerdb | goleveldb | pebbledb | rocksdb | cleveldb | boltdb";
"# * badgerdb (uses github.com/dgraph-io/badger)";
"#   - stable";
"#   - pure go";
"#   - use badgerdb build tag (go build -tags badgerdb)";
"# * goleveldb (github.com/syndtr/goleveldb)";
"#   - UNMAINTAINED";
"#   - stable";
"#   - pure go";
"# * pebbledb (uses github.com/cockroachdb/pebble)";
"#   - stable";
"#   - pure go";
"# * rocksdb (uses github.com/linxGnu/grocksdb)";
"#   - requires gcc";
"#   - use rocksdb build tag (go build -tags rocksdb)";
"# * cleveldb (uses levigo wrapper)";
"#   - DEPRECATED";
"#   - requires gcc";
"#   - use cleveldb build tag (go build -tags cleveldb)";
"# * boltdb (uses etcd's fork of bolt - github.com/etcd-io/bbolt)";
"#   - DEPRECATED";
"#   - stable";
"#   - use boltdb build tag (go build -tags boltdb)";
"db_backend = ^goleveldb^";
"";
"# Database directory";
"db_dir = ^data^";
"";
"# Output level for logging, including package level options";
"log_level = ^info^";
"";
"# Output format: 'plain' (colored text) or 'json'";
"log_format = ^plain^";
"";
"##### additional base config options #####";
"";
"# Path to the JSON file containing the initial validator set and other meta data";
"genesis_file = ^config/genesis.json^";
"";
"# Path to the JSON file containing the private key to use as a validator in the consensus protocol";
"priv_validator_key_file = ^config/priv_validator_key.json^";
"";
"# Path to the JSON file containing the last sign state of a validator";
"priv_validator_state_file = ^data/priv_validator_state.json^";
"";
"# TCP or UNIX socket address for CometBFT to listen on for";
"# connections from an external PrivValidator process";
"priv_validator_laddr = ^^";
"";
"# Path to the JSON file containing the private key to use for node authentication in the p2p protocol";
"node_key_file = ^config/node_key.json^";
"";
"# Mechanism to connect to the ABCI application: socket | grpc";
"abci = ^socket^";
"";
"# If true, query the ABCI app on connecting to a new peer";
"# so the app can decide if we should keep the connection or not";
"filter_peers = false";
"";
"";
"#######################################################################";
"###                 Advanced Configuration Options                  ###";
"#######################################################################";
"";
"#######################################################";
"###       RPC Server Configuration Options          ###";
"#######################################################";
"[rpc]";
"";
"# TCP or UNIX socket address for the RPC server to listen on";
"laddr = ^tcp://{{.IPListen}}:{{.Ports.RPC}}^";
"";
"# A list of origins a cross-domain request can be executed from";
"# Default value '[]' disables cors support";
"# Use '[^*^]' to allow any origin";
"cors_allowed_origins = []";
"";
"# A list of methods the client is allowed to use with cross-domain requests";
"cors_allowed_methods = [^HEAD^, ^GET^, ^POST^, ]";
"";
"# A list of non simple headers the client is allowed to use with cross-domain requests";
"cors_allowed_headers = [^Origin^, ^Accept^, ^Content-Type^, ^X-Requested-With^, ^X-Server-Time^, ]";
"";
"# Activate unsafe RPC commands like /dial_seeds and /unsafe_flush_mempool";
"unsafe = false";
"";
"# Maximum number of simultaneous connections (including WebSocket).";
"# If you want to accept a larger number than the default, make sure";
"# you increase your OS limits.";
"# 0 - unlimited.";
"# Should be < {ulimit -Sn} - {MaxNumInboundPeers} - {MaxNumOutboundPeers} - {N of wal, db and other open files}";
"# 1024 - 40 - 10 - 50 = 924 = ~900";
"max_open_connections = 900";
"";
"# Maximum number of unique clientIDs that can /subscribe.";
"# If you're using /broadcast_tx_commit, set to the estimated maximum number";
"# of broadcast_tx_commit calls per block.";
"max_subscription_clients = 100";
"";
"# Maximum number of unique queries a given client can /subscribe to.";
"# If you're using /broadcast_tx_commit, set to the estimated maximum number";
"# of broadcast_tx_commit calls per block.";
"max_subscriptions_per_client = 5";
"";
"# Experimental parameter to specify the maximum number of events a node will";
"# buffer, per subscription, before returning an error and closing the";
"# subscription. Must be set to at least 100, but higher values will accommodate";
"# higher event throughput rates (and will use more memory).";
"experimental_subscription_buffer_size = 200";
"";
"# Experimental parameter to specify the maximum number of RPC responses that";
"# can be buffered per WebSocket client. If clients cannot read from the";
"# WebSocket endpoint fast enough, they will be disconnected, so increasing this";
"# parameter may reduce the chances of them being disconnected (but will cause";
"# the node to use more memory).";
"#";
"# Must be at least the same as ^experimental_subscription_buffer_size^,";
"# otherwise connections could be dropped unnecessarily. This value should";
"# ideally be somewhat higher than ^experimental_subscription_buffer_size^ to";
"# accommodate non-subscription-related RPC responses.";
"experimental_websocket_write_buffer_size = 200";
"";
"# If a WebSocket client cannot read fast enough, at present we may";
"# silently drop events instead of generating an error or disconnecting the";
"# client.";
"#";
"# Enabling this experimental parameter will cause the WebSocket connection to";
"# be closed instead if it cannot read fast enough, allowing for greater";
"# predictability in subscription behavior.";
"experimental_close_on_slow_client = false";
"";
"# How long to wait for a tx to be committed during /broadcast_tx_commit.";
"# WARNING: Using a value larger than 10s will result in increasing the";
"# global HTTP write timeout, which applies to all connections and endpoints.";
"# See https://github.com/tendermint/tendermint/issues/3435";
"timeout_broadcast_tx_commit = ^10s^";
"";
"# Maximum number of requests that can be sent in a batch";
"# If the value is set to '0' (zero-value), then no maximum batch size will be";
"# enforced for a JSON-RPC batch request.";
"max_request_batch_size = 10";
"";
"# Maximum size of request body, in bytes";
"max_body_bytes = 1000000";
"";
"# Maximum size of request header, in bytes";
"max_header_bytes = 1048576";
"";
"# The path to a file containing certificate that is used to create the HTTPS server.";
"# Might be either absolute path or path related to CometBFT's config directory.";
"# If the certificate is signed by a certificate authority,";
"# the certFile should be the concatenation of the server's certificate, any intermediates,";
"# and the CA's certificate.";
"# NOTE: both tls_cert_file and tls_key_file must be present for CometBFT to create HTTPS server.";
"# Otherwise, HTTP server is run.";
"tls_cert_file = ^^";
"";
"# The path to a file containing matching private key that is used to create the HTTPS server.";
"# Might be either absolute path or path related to CometBFT's config directory.";
"# NOTE: both tls_cert_file and tls_key_file must be present for CometBFT to create HTTPS server.";
"# Otherwise, HTTP server is run.";
"tls_key_file = ^^";
"";
"# pprof listen address (https://golang.org/pkg/net/http/pprof)";
"pprof_laddr = ^{{.IPListen}}:{{.Ports.PProf}}^";
"";
"#######################################################";
"###       gRPC Server Configuration Options         ###";
"#######################################################";
"";
"#";
"# Note that the gRPC server is exposed unauthenticated. It is critical that";
"# this server not be exposed directly to the public internet. If this service";
"# must be accessed via the public internet, please ensure that appropriate";
"# precautions are taken (e.g. fronting with a reverse proxy like nginx with TLS";
"# termination and authentication, using DDoS protection services like";
"# CloudFlare, etc.).";
"#";
"";
"[grpc]";
"";
"# TCP or UNIX socket address for the RPC server to listen on. If not specified,";
"# the gRPC server will be disabled.";
"laddr = ^^";
"";
"#";
"# Each gRPC service can be turned on/off, and in some cases configured,";
"# individually. If the gRPC server is not enabled, all individual services'";
"# configurations are ignored.";
"#";
"";
"# The gRPC version service provides version information about the node and the";
"# protocols it uses.";
"[grpc.version_service]";
"enabled = true";
"";
"# The gRPC block service returns block information";
"[grpc.block_service]";
"enabled = true";
"";
"# The gRPC block results service returns block results for a given height. If no height";
"# is given, it will return the block results from the latest height.";
"[grpc.block_results_service]";
"enabled = true";
"";
"#";
"# Configuration for privileged gRPC endpoints, which should **never** be exposed";
"# to the public internet.";
"#";
"[grpc.privileged]";
"# The host/port on which to expose privileged gRPC endpoints.";
"laddr = ^^";
"";
"#";
"# Configuration specifically for the gRPC pruning service, which is considered a";
"# privileged service.";
"#";
"[grpc.privileged.pruning_service]";
"";
"# Only controls whether the pruning service is accessible via the gRPC API - not";
"# whether a previously set pruning service retain height is honored by the";
"# node. See the [storage.pruning] section for control over pruning.";
"#";
"# Disabled by default.";
"enabled = false";
"";
"#######################################################";
"###           P2P Configuration Options             ###";
"#######################################################";
"[p2p]";
"";
"# Address to listen for incoming connections";
"laddr = ^tcp://{{.IPListen}}:{{.Ports.P2P}}^";
"";
"# Address to advertise to peers for them to dial. If empty, will use the same";
"# port as the laddr, and will introspect on the listener to figure out the";
"# address. IP and port are required. Example: 159.89.10.97:26656";
"external_address = ^^";
"";
"# Comma separated list of seed nodes to connect to";
"seeds = ^^";
"";
"# Comma separated list of nodes to keep persistent connections to";
"persistent_peers = ^{{.PersistentPeers}}^";
"";
"# Path to address book";
"addr_book_file = ^config/addrbook.json^";
"";
"# Set true for strict address routability rules";
"# Set false for private or local networks";
"addr_book_strict = true";
"";
"# Maximum number of inbound peers";
"max_num_inbound_peers = 50";
"";
"# Maximum number of outbound peers to connect to, excluding persistent peers";
"max_num_outbound_peers = 50";
"";
"# List of node IDs, to which a connection will be (re)established ignoring any existing limits";
"unconditional_peer_ids = ^^";
"";
"# Maximum pause when redialing a persistent peer (if zero, exponential backoff is used)";
"persistent_peers_max_dial_period = ^0s^";
"";
"# Time to wait before flushing messages out on the connection";
"flush_throttle_timeout = ^10ms^";
"";
"# Maximum size of a message packet payload, in bytes";
"max_packet_msg_payload_size = 1024";
"";
"# Rate at which packets can be sent, in bytes/second";
"send_rate = 5120000";
"";
"# Rate at which packets can be received, in bytes/second";
"recv_rate = 5120000";
"";
"# Set true to enable the peer-exchange reactor";
"pex = true";
"";
"# Seed mode, in which node constantly crawls the network and looks for";
"# peers. If another node asks it for addresses, it responds and disconnects.";
"#";
"# Does not work if the peer-exchange reactor is disabled.";
"seed_mode = false";
"";
"# Comma separated list of peer IDs to keep private (will not be gossiped to other peers)";
"private_peer_ids = ^{{.PrivatePeerIds}}^";
"";
"# Toggle to disable guard against peers connecting from the same ip.";
"allow_duplicate_ip = false";
"";
"# Peer connection configuration.";
"handshake_timeout = ^20s^";
"dial_timeout = ^3s^";
"";
"#######################################################";
"###          Mempool Configuration Options          ###";
"#######################################################";
"[mempool]";
"";
"# The type of mempool for this node to use.";
"#";
"#  Possible types:";
"#  - ^flood^ : concurrent linked list mempool with flooding gossip protocol";
"#  (default)";
"#  - ^nop^   : nop-mempool (short for no operation; the ABCI app is responsible";
"#  for storing, disseminating and proposing txs). ^create_empty_blocks=false^ is";
"#  not supported.";
"type = ^flood^";
"";
"# recheck (default: true) defines whether CometBFT should recheck the";
"# validity for all remaining transaction in the mempool after a block.";
"# Since a block affects the application state, some transactions in the";
"# mempool may become invalid. If this does not apply to your application,";
"# you can disable rechecking.";
"recheck = true";
"";
"# recheck_timeout is the time the application has during the rechecking process";
"# to return CheckTx responses, once all requests have been sent. Responses that";
"# arrive after the timeout expires are discarded. It only applies to";
"# non-local ABCI clients and when recheck is enabled.";
"recheck_timeout = ^1s^";
"";
"# broadcast (default: true) defines whether the mempool should relay";
"# transactions to other peers. Setting this to false will stop the mempool";
"# from relaying transactions to other peers until they are included in a";
"# block. In other words, if Broadcast is disabled, only the peer you send";
"# the tx to will see it until it is included in a block.";
"broadcast = true";
"";
"# wal_dir (default: ^^) configures the location of the Write Ahead Log";
"# (WAL) for the mempool. The WAL is disabled by default. To enable, set";
"# wal_dir to where you want the WAL to be written (e.g.";
"# ^data/mempool.wal^).";
"wal_dir = ^^";
"";
"# Maximum number of transactions in the mempool";
"size = 500";
"";
"# Maximum size in bytes of a single transaction accepted into the mempool.";
"max_tx_bytes = 1048576";
"";
"# The maximum size in bytes of all transactions stored in the mempool.";
"# This is the raw, total transaction size. For example, given 1MB";
"# transactions and a 5MB maximum mempool byte size, the mempool will";
"# only accept five transactions.";
"max_txs_bytes = 67108864";
"";
"# Size of the cache (used to filter transactions we saw earlier) in transactions";
"cache_size = 10000";
"";
"# Do not remove invalid transactions from the cache (default: false)";
"# Set to true if it's not possible for any invalid transaction to become valid";
"# again in the future.";
"keep-invalid-txs-in-cache = false";
"";
"# Experimental parameters to limit gossiping txs to up to the specified number of peers.";
"# We use two independent upper values for persistent and non-persistent peers.";
"# Unconditional peers are not affected by this feature.";
"# If we are connected to more than the specified number of persistent peers, only send txs to";
"# ExperimentalMaxGossipConnectionsToPersistentPeers of them. If one of those";
"# persistent peers disconnects, activate another persistent peer.";
"# Similarly for non-persistent peers, with an upper limit of";
"# ExperimentalMaxGossipConnectionsToNonPersistentPeers.";
"# If set to 0, the feature is disabled for the corresponding group of peers, that is, the";
"# number of active connections to that group of peers is not bounded.";
"# For non-persistent peers, if enabled, a value of 10 is recommended based on experimental";
"# performance results using the default P2P configuration.";
"experimental_max_gossip_connections_to_persistent_peers = 0";
"experimental_max_gossip_connections_to_non_persistent_peers = 0";
"";
"# When using the Flood mempool type, enable the DOG gossip protocol to";
"# reduce network bandwidth on transaction dissemination (for details, see";
"# specs/mempool/gossip/).";
"dog_protocol_enabled = true";
"";
"# Used by the DOG protocol to set the desired transaction redundancy level";
"# for the node. For example, redundancy of 0.5 means that, for every two first-time";
"# transactions received, the node will receive one duplicate transaction.";
"dog_target_redundancy = 1";
"";
"# Used by the DOG protocol to set how often it will attempt to adjust the";
"# redundancy level. The higher the value, the longer it will take the node";
"# to reduce bandwidth and converge to a stable redundancy level.";
"dog_adjust_interval = ^1s^";
"";
"#######################################################";
"###         State Sync Configuration Options        ###";
"#######################################################";
"[statesync]";
"# State sync rapidly bootstraps a new node by discovering, fetching, and restoring a state machine";
"# snapshot from peers instead of fetching and replaying historical blocks. Requires some peers in";
"# the network to take and serve state machine snapshots. State sync is not attempted if the node";
"# has any local state (LastBlockHeight > 0). The node will have a truncated block history,";
"# starting from the height of the snapshot.";
"enable = false";
"";
"# RPC servers (comma-separated) for light client verification of the synced state machine and";
"# retrieval of state data for node bootstrapping. Also needs a trusted height and corresponding";
"# header hash obtained from a trusted source, and a period during which validators can be trusted.";
"#";
"# For Cosmos SDK-based chains, trust_period should usually be about 2/3 of the unbonding time (~2";
"# weeks) during which they can be financially punished (slashed) for misbehavior.";
"rpc_servers = ^^";
"trust_height = 0";
"trust_hash = ^^";
"trust_period = ^168h0m0s^";
"";
"# Time to spend discovering snapshots before initiating a restore.";
"discovery_time = ^15s^";
"";
"# Temporary directory for state sync snapshot chunks, defaults to the OS tempdir (typically /tmp).";
"# Will create a new, randomly named directory within, and remove it when done.";
"temp_dir = ^^";
"";
"# The timeout duration before re-requesting a chunk, possibly from a different";
"# peer (default: 1 minute).";
"chunk_request_timeout = ^10s^";
"";
"# The number of concurrent chunk fetchers to run (default: 1).";
"chunk_fetchers = ^4^";
"";
"#######################################################";
"###       Block Sync Configuration Options          ###";
"#######################################################";
"[blocksync]";
"";
"# Block Sync version to use:";
"#";
"# In v0.37, v1 and v2 of the block sync protocols were deprecated.";
"# Please use v0 instead.";
"#";
"#   1) ^v0^ - the default block sync implementation";
"version = ^v0^";
"";
"#######################################################";
"###         Consensus Configuration Options         ###";
"#######################################################";
"[consensus]";
"";
"wal_file = ^data/cs.wal/wal^";
"";
"# How long we wait for a proposal block before prevoting nil";
"timeout_propose = ^1s^";
"# How much timeout_propose increases with each round";
"timeout_propose_delta = ^100ms^";
"# How long we wait after receiving +2/3 prevotes for “anything” (ie. not a single block or nil)";
"timeout_prevote = ^250ms^";
"# How much the timeout_prevote increases with each round";
"timeout_prevote_delta = ^100ms^";
"# How long we wait after receiving +2/3 precommits for “anything” (ie. not a single block or nil)";
"timeout_precommit = ^250ms^";
"# How much the timeout_precommit increases with each round";
"timeout_precommit_delta = ^100ms^";
"# How long we wait after committing a block, before starting on the new";
"# height (this gives us a chance to receive some more precommits, even";
"# though we already have +2/3).";
"# Set to 0 if you want to make progress as soon as the node has all the precommits.";
"timeout_commit = ^500ms^";
"";
"# Deprecated: set `timeout_commit` to 0 instead.";
"skip_timeout_commit = false";
"";
"# How many blocks to look back to check existence of the node's consensus votes before joining consensus";
"# When non-zero, the node will panic upon restart";
"# if the same consensus key was used to sign {double_sign_check_height} last blocks.";
"# So, validators should stop the state machine, wait for some blocks, and then restart the state machine to avoid panic.";
"double_sign_check_height = 0";
"";
"# EmptyBlocks mode and possible interval between empty blocks";
"create_empty_blocks = true";
"create_empty_blocks_interval = ^0s^";
"";
"# Reactor sleep duration parameters";
"peer_gossip_sleep_duration = ^10ms^";
"peer_gossip_intraloop_sleep_duration = ^0s^";
"peer_query_maj23_sleep_duration = ^2s^";
"";
"#######################################################";
"###         Storage Configuration Options           ###";
"#######################################################";
"[storage]";
"";
"# Set to true to discard ABCI responses from the state store, which can save a";
"# considerable amount of disk space. Set to false to ensure ABCI responses are";
"# persisted. ABCI responses are required for /block_results RPC queries, and to";
"# reindex events in the command-line tool.";
"discard_abci_responses = {{.DiscardABCIResponses}}";
"";
"# The representation of keys in the database.";
"# The current representation of keys in Comet's stores is considered to be v1";
"# Users can experiment with a different layout by setting this field to v2.";
"# Note that this is an experimental feature and switching back from v2 to v1";
"# is not supported by CometBFT.";
"# If the database was initially created with v1, it is necessary to migrate the DB";
"# before switching to v2. The migration is not done automatically.";
"# v1 - the legacy layout existing in Comet prior to v1.";
"# v2 - Order preserving representation ordering entries by height.";
"experimental_db_key_layout = ^v1^";
"";
"# If set to true, CometBFT will force compaction to happen for databases that support this feature.";
"# and save on storage space. Setting this to true is most benefits when used in combination";
"# with pruning as it will physically delete the entries marked for deletion.";
"# false by default (forcing compaction is disabled).";
"compact = false";
"";
"# To avoid forcing compaction every time, this parameter instructs CometBFT to wait";
"# the given amount of blocks to be pruned before triggering compaction.";
"# It should be tuned depending on the number of items. If your retain height is 1 block,";
"# it is too much of an overhead to try compaction every block. But it should also not be a very";
"# large multiple of your retain height as it might occur bigger overheads.";
"compaction_interval = ^1000^";
"";
"[storage.pruning]";
"";
"# The time period between automated background pruning operations.";
"interval = ^10s^";
"";
"#";
"# Storage pruning configuration relating only to the data companion.";
"#";
"[storage.pruning.data_companion]";
"";
"# Whether automatic pruning respects values set by the data companion. Disabled";
"# by default. All other parameters in this section are ignored when this is";
"# disabled.";
"#";
"# If disabled, only the application retain height will influence block pruning";
"# (but not block results pruning). Only enabling this at a later stage will";
"# potentially mean that blocks below the application-set retain height at the";
"# time will not be available to the data companion.";
"enabled = false";
"";
"# The initial value for the data companion block retain height if the data";
"# companion has not yet explicitly set one. If the data companion has already";
"# set a block retain height, this is ignored.";
"initial_block_retain_height = 0";
"";
"# The initial value for the data companion block results retain height if the";
"# data companion has not yet explicitly set one. If the data companion has";
"# already set a block results retain height, this is ignored.";
"initial_block_results_retain_height = 0";
"";
"#######################################################";
"###   Transaction Indexer Configuration Options     ###";
"#######################################################";
"[tx_index]";
"";
"# What indexer to use for transactions";
"#";
"# The application will set which txs to index. In some cases a node operator will be able";
"# to decide which txs to index based on configuration set in the application.";
"#";
"# Options:";
"#   1) ^null^";
"#   2) ^kv^ (default) - the simplest possible indexer, backed by key-value storage (defaults to levelDB; see DBBackend).";
"# 		- When ^kv^ is chosen ^tx.height^ and ^tx.hash^ will always be indexed.";
"#   3) ^psql^ - the indexer services backed by PostgreSQL.";
"# When ^kv^ or ^psql^ is chosen ^tx.height^ and ^tx.hash^ will always be indexed.";
"indexer = ^{{.TxIndexer}}^";
"";
"# The PostgreSQL connection configuration, the connection format:";
"#   postgresql://<user>:<password>@<host>:<port>/<db>?<opts>";
"psql-conn = ^^";
"";
"#######################################################";
"###       Instrumentation Configuration Options     ###";
"#######################################################";
"[instrumentation]";
"";
"# When true, Prometheus metrics are served under /metrics on";
"# PrometheusListenAddr.";
"# Check out the documentation for the list of available metrics.";
"prometheus = false";
"";
"# Address to listen for Prometheus collector(s) connections";
"prometheus_listen_addr = ^{{.IPListen}}:{{.Ports.Prometheus}}^";
"";
"# Maximum number of simultaneous connections.";
"# If you want to accept a larger number than the default, make sure";
"# you increase your OS limits.";
"# 0 - unlimited.";
"max_open_connections = 3";
"";
"# Instrumentation namespace";
"namespace = ^cometbft^";
""
].

(** templates/genesis.json.tpl (genesis.go) *)
Definition genesisTplJSON : string := embed [
"{";
"  ^genesis_time^: ^{{.GenesisTime}}^,";
"  ^chain_id^: ^{{.ChainID}}^,";
"  ^initial_height^: ^1^,";
"  ^consensus_params^: {";
"    ^block^: {";
"      ^max_bytes^: ^4194304^,";
"      ^max_gas^: ^10000000000^";
"    },";
"    ^evidence^: {";
"      ^max_age_num_blocks^: ^100000^,";
"      ^max_age_duration^: ^172800000000000^,";
"      ^max_bytes^: ^1048576^";
"    },";
"    ^validator^: {";
"      ^pub_key_types^: [";
"        ^ed25519^";
"      ]";
"    },";
"    ^version^: {";
"      ^app^: ^0^";
"    },";
"    ^synchrony^: {";
"      ^precision^: ^505000000^,";
"      ^message_delay^: ^15000000000^";
"    },";
"    ^feature^: {";
"      ^vote_extensions_enable_height^: ^0^,";
"      ^pbts_enable_height^: ^0^";
"    }";
"  },";
"  ^app_hash^: ^^,";
"  ^app_state^: {";
"    ^07-tendermint^: null,";
"    ^auction^: {";
"      ^params^: {";
"        ^auction_period^: ^604800^,";
"        ^min_next_bid_increment_rate^: ^0.002500000000000000^";
"      },";
"      ^auction_round^: ^0^,";
"      ^highest_bid^: null,";
"      ^auction_ending_timestamp^: ^0^,";
"      ^last_auction_result^: null";
"    },";
"    ^auth^: {";
"      ^params^: {";
"        ^max_memo_characters^: ^256^,";
"        ^tx_sig_limit^: ^7^,";
"        ^tx_size_cost_per_byte^: ^10^,";
"        ^sig_verify_cost_ed25519^: ^590^,";
"        ^sig_verify_cost_secp256k1^: ^1000^";
"      },";
"      ^accounts^: []";
"    },";
"    ^authz^: {";
"      ^authorization^: []";
"    },";
"    ^bank^: {";
"      ^params^: {";
"        ^send_enabled^: [],";
"        ^default_send_enabled^: true";
"      },";
"      ^balances^: [],";
"      ^supply^: [],";
"      ^denom_metadata^: [],";
"      ^send_enabled^: []";
"    },";
"    ^capability^: {";
"      ^index^: ^1^,";
"      ^owners^: []";
"    },";
"    ^chainlink^: {";
"      ^params^: {";
"        ^link_denom^: ^peggy0x514910771AF9Ca656af840dff83E8264EcF986CA^,";
"        ^payout_block_interval^: ^100000^,";
"        ^module_admin^: ^^";
"      },";
"      ^feed_configs^: [],";
"      ^latest_epoch_and_rounds^: [],";
"      ^feed_transmissions^: [],";
"      ^latest_aggregator_round_ids^: [],";
"      ^reward_pools^: [],";
"      ^feed_observation_counts^: [],";
"      ^feed_transmission_counts^: [],";
"      ^pending_payeeships^: []";
"    },";
"    ^consensus^: null,";
"    ^crisis^: {";
"      ^constant_fee^: {";
"        ^denom^: ^{{.BondDenom}}^,";
"        ^amount^: ^1000^";
"      }";
"    },";
"    ^distribution^: {";
"      ^params^: {";
"        ^community_tax^: ^0.020000000000000000^,";
"        ^base_proposer_reward^: ^0.000000000000000000^,";
"        ^bonus_proposer_reward^: ^0.000000000000000000^,";
"        ^withdraw_addr_enabled^: true";
"      },";
"      ^fee_pool^: {";
"        ^community_pool^: []";
"      },";
"      ^delegator_withdraw_infos^: [],";
"      ^previous_proposer^: ^^,";
"      ^outstanding_rewards^: [],";
"      ^validator_accumulated_commissions^: [],";
"      ^validator_historical_rewards^: [],";
"      ^validator_current_rewards^: [],";
"      ^delegator_starting_infos^: [],";
"      ^validator_slash_events^: []";
"    },";
"    ^evidence^: {";
"      ^evidence^: []";
"    },";
"    ^exchange^: {";
"      ^params^: {";
"        ^spot_market_instant_listing_fee^: {";
"          ^denom^: ^{{.BondDenom}}^,";
"          ^amount^: ^20000000000000000000^";
"        },";
"        ^derivative_market_instant_listing_fee^: {";
"          ^denom^: ^{{.BondDenom}}^,";
"          ^amount^: ^20000000000000000000^";
"        },";
"        ^default_spot_maker_fee_rate^: ^-0.000100000000000000^,";
"        ^default_spot_taker_fee_rate^: ^0.001000000000000000^,";
"        ^default_derivative_maker_fee_rate^: ^-0.000100000000000000^,";
"        ^default_derivative_taker_fee_rate^: ^0.001000000000000000^,";
"        ^default_initial_margin_ratio^: ^0.050000000000000000^,";
"        ^default_maintenance_margin_ratio^: ^0.020000000000000000^,";
"        ^default_funding_interval^: ^3600^,";
"        ^funding_multiple^: ^3600^,";
"        ^relayer_fee_share_rate^: ^0.400000000000000000^,";
"        ^default_hourly_funding_rate_cap^: ^0.000625000000000000^,";
"        ^default_hourly_interest_rate^: ^0.000004166660000000^,";
"        ^max_derivative_order_side_count^: 20,";
"        ^inj_reward_staked_requirement_threshold^: ^100000000000000000000^,";
"        ^trading_rewards_vesting_duration^: ^604800^,";
"        ^liquidator_reward_share_rate^: ^0.050000000000000000^,";
"        ^binary_options_market_instant_listing_fee^: {";
"          ^denom^: ^{{.BondDenom}}^,";
"          ^amount^: ^100000000000000000000^";
"        },";
"        ^atomic_market_order_access_level^: ^SmartContractsOnly^,";
"        ^spot_atomic_market_order_fee_multiplier^: ^2.500000000000000000^,";
"        ^derivative_atomic_market_order_fee_multiplier^: ^2.500000000000000000^,";
"        ^binary_options_atomic_market_order_fee_multiplier^: ^2.500000000000000000^,";
"        ^minimal_protocol_fee_rate^: ^0.000050000000000000^,";
"        ^is_instant_derivative_market_launch_enabled^: false,";
"        ^post_only_mode_height_threshold^: ^0^,";
"        ^margin_decrease_price_timestamp_threshold_seconds^: ^0^,";
"        ^exchange_admins^: [],";
"        ^inj_auction_max_cap^: ^0^";
"      },";
"      ^spot_markets^: [],";
"      ^derivative_markets^: [],";
"      ^spot_orderbook^: [],";
"      ^derivative_orderbook^: [],";
"      ^balances^: [],";
"      ^positions^: [],";
"      ^subaccount_trade_nonces^: [],";
"      ^expiry_futures_market_info_state^: [],";
"      ^perpetual_market_info^: [],";
"      ^perpetual_market_funding_state^: [],";
"      ^derivative_market_settlement_scheduled^: [],";
"      ^is_spot_exchange_enabled^: true,";
"      ^is_derivatives_exchange_enabled^: true,";
"      ^trading_reward_campaign_info^: null,";
"      ^trading_reward_pool_campaign_schedule^: [],";
"      ^trading_reward_campaign_account_points^: [],";
"      ^fee_discount_schedule^: null,";
"      ^fee_discount_account_tier_ttl^: [],";
"      ^fee_discount_bucket_volume_accounts^: [],";
"      ^is_first_fee_cycle_finished^: false,";
"      ^pending_trading_reward_pool_campaign_schedule^: [],";
"      ^pending_trading_reward_campaign_account_points^: [],";
"      ^rewards_opt_out_addresses^: [],";
"      ^historical_trade_records^: [],";
"      ^binary_options_markets^: [],";
"      ^binary_options_market_ids_scheduled_for_settlement^: [],";
"      ^spot_market_ids_scheduled_to_force_close^: [],";
"      ^conditional_derivative_orderbooks^: [],";
"      ^market_fee_multipliers^: [],";
"      ^orderbook_sequences^: [],";
"      ^subaccount_volumes^: [],";
"      ^market_volumes^: [],";
"      ^grant_authorizations^: [],";
"      ^active_grants^: []";
"    },";
"    ^downtimedetector^: {";
"      ^last_block_time^: ^2025-08-26T00:00:00Z^";
"    },";
"    ^feegrant^: {";
"      ^allowances^: []";
"    },";
"    ^feeibc^: {";
"      ^identified_fees^: [],";
"      ^fee_enabled_channels^: [],";
"      ^registered_payees^: [],";
"      ^registered_counterparty_payees^: [],";
"      ^forward_relayers^: []";
"    },";
"    ^genutil^: {";
"      ^gen_txs^: []";
"    },";
"    ^gov^: {";
"      ^starting_proposal_id^: ^1^,";
"      ^deposits^: [],";
"      ^votes^: [],";
"      ^proposals^: [],";
"      ^deposit_params^: null,";
"      ^voting_params^: null,";
"      ^tally_params^: null,";
"      ^params^: {";
"        ^min_deposit^: [";
"          {";
"            ^denom^: ^{{.BondDenom}}^,";
"            ^amount^: ^10000000^";
"          }";
"        ],";
"        ^max_deposit_period^: ^172800s^,";
"        ^voting_period^: ^172800s^,";
"        ^quorum^: ^0.334000000000000000^,";
"        ^threshold^: ^0.500000000000000000^,";
"        ^veto_threshold^: ^0.334000000000000000^,";
"        ^min_initial_deposit_ratio^: ^0.000000000000000000^,";
"        ^proposal_cancel_ratio^: ^0.500000000000000000^,";
"        ^proposal_cancel_dest^: ^^,";
"        ^expedited_voting_period^: ^86400s^,";
"        ^expedited_threshold^: ^0.667000000000000000^,";
"        ^expedited_min_deposit^: [";
"          {";
"            ^denom^: ^{{.BondDenom}}^,";
"            ^amount^: ^50000000^";
"          }";
"        ],";
"        ^burn_vote_quorum^: false,";
"        ^burn_proposal_deposit_prevote^: false,";
"        ^burn_vote_veto^: true,";
"        ^min_deposit_ratio^: ^0.010000000000000000^";
"      },";
"      ^constitution^: ^^";
"    },";
"    ^ibc^: {";
"      ^client_genesis^: {";
"        ^clients^: [],";
"        ^clients_consensus^: [],";
"        ^clients_metadata^: [],";
"        ^params^: {";
"          ^allowed_clients^: [";
"            ^*^";
"          ]";
"        },";
"        ^create_localhost^: false,";
"        ^next_client_sequence^: ^0^";
"      },";
"      ^connection_genesis^: {";
"        ^connections^: [],";
"        ^client_connection_paths^: [],";
"        ^next_connection_sequence^: ^0^,";
"        ^params^: {";
"          ^max_expected_time_per_block^: ^30000000000^";
"        }";
"      },";
"      ^channel_genesis^: {";
"        ^channels^: [],";
"        ^acknowledgements^: [],";
"        ^commitments^: [],";
"        ^receipts^: [],";
"        ^send_sequences^: [],";
"        ^recv_sequences^: [],";
"        ^ack_sequences^: [],";
"        ^next_channel_sequence^: ^0^,";
"        ^params^: {";
"          ^upgrade_timeout^: {";
"            ^height^: {";
"              ^revision_number^: ^0^,";
"              ^revision_height^: ^0^";
"            },";
"            ^timestamp^: ^600000000000^";
"          }";
"        }";
"      }";
"    },";
"    ^ibchooks^: null,";
"    ^insurance^: {";
"      ^params^: {";
"        ^default_redemption_notice_period_duration^: ^1209600s^";
"      },";
"      ^insurance_funds^: [],";
"      ^redemption_schedule^: [],";
"      ^next_share_denom_id^: ^1^,";
"      ^next_redemption_schedule_id^: ^1^";
"    },";
"    ^interchainaccounts^: {";
"      ^controller_genesis_state^: {";
"        ^active_channels^: [],";
"        ^interchain_accounts^: [],";
"        ^ports^: [],";
"        ^params^: {";
"          ^controller_enabled^: true";
"        }";
"      },";
"      ^host_genesis_state^: {";
"        ^active_channels^: [],";
"        ^interchain_accounts^: [],";
"        ^port^: ^icahost^,";
"        ^params^: {";
"          ^host_enabled^: true,";
"          ^allow_messages^: [";
"            ^*^";
"          ]";
"        }";
"      }";
"    },";
"    ^mint^: {";
"      ^minter^: {";
"        ^inflation^: ^0.130000000000000000^,";
"        ^annual_provisions^: ^0.000000000000000000^";
"      },";
"      ^params^: {";
"        ^mint_denom^: ^{{.BondDenom}}^,";
"        ^inflation_rate_change^: ^0.130000000000000000^,";
"        ^inflation_max^: ^0.200000000000000000^,";
"        ^inflation_min^: ^0.070000000000000000^,";
"        ^goal_bonded^: ^0.670000000000000000^,";
"        ^blocks_per_year^: ^6311520^";
"      }";
"    },";
"    ^oracle^: {";
"      ^params^: {";
"        ^pyth_contract^: ^^";
"      },";
"      ^band_relayers^: [],";
"      ^band_price_states^: [],";
"      ^price_feed_price_states^: [],";
"      ^coinbase_price_states^: [],";
"      ^band_ibc_price_states^: [],";
"      ^band_ibc_oracle_requests^: [],";
"      ^band_ibc_params^: {";
"        ^band_ibc_enabled^: false,";
"        ^ibc_request_interval^: ^7^,";
"        ^ibc_source_channel^: ^^,";
"        ^ibc_version^: ^bandchain-1^,";
"        ^ibc_port_id^: ^oracle^,";
"        ^legacy_oracle_ids^: []";
"      },";
"      ^band_ibc_latest_client_id^: ^0^,";
"      ^calldata_records^: [],";
"      ^band_ibc_latest_request_id^: ^0^,";
"      ^chainlink_price_states^: [],";
"      ^historical_price_records^: [],";
"      ^provider_states^: [],";
"      ^pyth_price_states^: [],";
"      ^stork_price_states^: [],";
"      ^stork_publishers^: []";
"    },";
"    ^packetfowardmiddleware^: {";
"      ^in_flight_packets^: {}";
"    },";
"    ^params^: null,";
"    ^peggy^: {";
"      ^params^: {";
"        ^peggy_id^: ^injective-peggyid^,";
"        ^contract_source_hash^: ^^,";
"        ^bridge_ethereum_address^: ^^,";
"        ^bridge_chain_id^: ^0^,";
"        ^signed_valsets_window^: ^10000^,";
"        ^signed_batches_window^: ^10000^,";
"        ^signed_claims_window^: ^10000^,";
"        ^target_batch_timeout^: ^43200000^,";
"        ^average_block_time^: ^5000^,";
"        ^average_ethereum_block_time^: ^15000^,";
"        ^slash_fraction_valset^: ^0.001000000000000000^,";
"        ^slash_fraction_batch^: ^0.001000000000000000^,";
"        ^slash_fraction_claim^: ^0.001000000000000000^,";
"        ^slash_fraction_conflicting_claim^: ^0.001000000000000000^,";
"        ^unbond_slashing_valsets_window^: ^10000^,";
"        ^slash_fraction_bad_eth_signature^: ^0.001000000000000000^,";
"        ^cosmos_coin_denom^: ^{{.BondDenom}}^,";
"        ^cosmos_coin_erc20_contract^: ^^,";
"        ^claim_slashing_enabled^: false,";
"        ^bridge_contract_start_height^: ^0^,";
"        ^valset_reward^: {";
"          ^denom^: ^^,";
"          ^amount^: ^0^";
"        },";
"        ^admins^: []";
"      },";
"      ^last_observed_nonce^: ^0^,";
"      ^valsets^: [],";
"      ^valset_confirms^: [],";
"      ^batches^: [],";
"      ^batch_confirms^: [],";
"      ^attestations^: [],";
"      ^orchestrator_addresses^: [],";
"      ^erc20_to_denoms^: [],";
"      ^unbatched_transfers^: [],";
"      ^last_observed_ethereum_height^: ^0^,";
"      ^last_outgoing_batch_id^: ^0^,";
"      ^last_outgoing_pool_id^: ^0^,";
"      ^last_observed_valset^: {";
"        ^nonce^: ^0^,";
"        ^members^: [],";
"        ^height^: ^0^,";
"        ^reward_amount^: ^0^,";
"        ^reward_token^: ^^";
"      },";
"      ^ethereum_blacklist^: []";
"    },";
"    ^permissions^: {";
"      ^params^: {";
"        ^wasm_hook_query_max_gas^: ^200000^";
"      },";
"      ^namespaces^: []";
"    },";
"    ^slashing^: {";
"      ^params^: {";
"        ^signed_blocks_window^: ^100^,";
"        ^min_signed_per_window^: ^0.500000000000000000^,";
"        ^downtime_jail_duration^: ^600s^,";
"        ^slash_fraction_double_sign^: ^0.050000000000000000^,";
"        ^slash_fraction_downtime^: ^0.010000000000000000^";
"      },";
"      ^signing_infos^: [],";
"      ^missed_blocks^: []";
"    },";
"    ^staking^: {";
"      ^params^: {";
"        ^unbonding_time^: ^1814400s^,";
"        ^max_validators^: 100,";
"        ^max_entries^: 7,";
"        ^historical_entries^: 10000,";
"        ^bond_denom^: ^{{.BondDenom}}^,";
"        ^min_commission_rate^: ^0.000000000000000000^";
"      },";
"      ^last_total_power^: ^0^,";
"      ^last_validator_powers^: [],";
"      ^validators^: [],";
"      ^delegations^: [],";
"      ^unbonding_delegations^: [],";
"      ^redelegations^: [],";
"      ^exported^: false";
"    },";
"    ^tokenfactory^: {";
"      ^params^: {";
"        ^denom_creation_fee^: [";
"          {";
"            ^denom^: ^{{.BondDenom}}^,";
"            ^amount^: ^10000000000000000000^";
"          }";
"        ]";
"      },";
"      ^factory_denoms^: []";
"    },";
"    ^transfer^: {";
"      ^port_id^: ^transfer^,";
"      ^denom_traces^: [],";
"      ^params^: {";
"        ^send_enabled^: true,";
"        ^receive_enabled^: true";
"      },";
"      ^total_escrowed^: []";
"    },";
"    ^upgrade^: {},";
"    ^wasm^: {";
"      ^params^: {";
"        ^code_upload_access^: {";
"          ^permission^: ^Everybody^,";
"          ^addresses^: []";
"        },";
"        ^instantiate_default_permission^: ^Everybody^";
"      },";
"      ^codes^: [],";
"      ^contracts^: [],";
"      ^sequences^: []";
"    },";
"    ^xwasm^: {";
"      ^params^: {";
"        ^is_execution_enabled^: true,";
"        ^max_begin_block_total_gas^: ^42000000^,";
"        ^max_contract_gas_limit^: ^3500000^,";
"        ^min_gas_price^: ^1000000000^,";
"        ^register_contract_access^: {";
"          ^permission^: ^Unspecified^,";
"          ^addresses^: []";
"        }";
"      },";
"      ^registered_contracts^: []";
"    }";
"  }";
"}"
].

(** templates/genesis.prod.json.tpl (genesis.go) *)
Definition genesisProdTplJSON : string := embed [
"{";
"  ^genesis_time^: ^{{.GenesisTime}}^,";
"  ^chain_id^: ^{{.ChainID}}^,";
"  ^initial_height^: ^1^,";
"  ^consensus_params^: {";
"    ^block^: {";
"      ^max_bytes^: ^4194304^,";
"      ^max_gas^: ^150000000^";
"    },";
"    ^evidence^: {";
"      ^max_age_num_blocks^: ^100000^,";
"      ^max_age_duration^: ^172800000000000^,";
"      ^max_bytes^: ^1048576^";
"    },";
"    ^validator^: {";
"      ^pub_key_types^: [";
"        ^ed25519^";
"      ]";
"    },";
"    ^version^: {";
"      ^app^: ^0^";
"    },";
"    ^synchrony^: {";
"      ^precision^: ^505000000^,";
"      ^message_delay^: ^15000000000^";
"    },";
"    ^feature^: {";
"      ^vote_extensions_enable_height^: ^0^,";
"      ^pbts_enable_height^: ^0^";
"    }";
"  },";
"  ^app_hash^: ^^,";
"  ^app_state^: {";
"    ^07-tendermint^: null,";
"    ^auction^: {";
"      ^params^: {";
"        ^auction_period^: ^604800^,";
"        ^min_next_bid_increment_rate^: ^0.002500000000000000^";
"      },";
"      ^auction_round^: ^0^,";
"      ^highest_bid^: null,";
"      ^auction_ending_timestamp^: ^0^,";
"      ^last_auction_result^: null";
"    },";
"    ^auth^: {";
"      ^params^: {";
"        ^max_memo_characters^: ^256^,";
"        ^tx_sig_limit^: ^7^,";
"        ^tx_size_cost_per_byte^: ^10^,";
"        ^sig_verify_cost_ed25519^: ^590^,";
"        ^sig_verify_cost_secp256k1^: ^1000^";
"      },";
"      ^accounts^: []";
"    },";
"    ^authz^: {";
"      ^authorization^: []";
"    },";
"    ^bank^: {";
"      ^params^: {";
"        ^send_enabled^: [],";
"        ^default_send_enabled^: true";
"      },";
"      ^balances^: [],";
"      ^supply^: [],";
"      ^denom_metadata^: [],";
"      ^send_enabled^: []";
"    },";
"    ^capability^: {";
"      ^index^: ^1^,";
"      ^owners^: []";
"    },";
"    ^chainlink^: {";
"      ^params^: {";
"        ^link_denom^: ^peggy0x514910771AF9Ca656af840dff83E8264EcF986CA^,";
"        ^payout_block_interval^: ^100000^,";
"        ^module_admin^: ^^";
"      },";
"      ^feed_configs^: [],";
"      ^latest_epoch_and_rounds^: [],";
"      ^feed_transmissions^: [],";
"      ^latest_aggregator_round_ids^: [],";
"      ^reward_pools^: [],";
"      ^feed_observation_counts^: [],";
"      ^feed_transmission_counts^: [],";
"      ^pending_payeeships^: []";
"    },";
"    ^consensus^: null,";
"    ^crisis^: {";
"      ^constant_fee^: {";
"        ^denom^: ^{{.BondDenom}}^,";
"        ^amount^: ^1000^";
"      }";
"    },";
"    ^distribution^: {";
"      ^params^: {";
"        ^community_tax^: ^0.020000000000000000^,";
"        ^base_proposer_reward^: ^0.000000000000000000^,";
"        ^bonus_proposer_reward^: ^0.000000000000000000^,";
"        ^withdraw_addr_enabled^: true";
"      },";
"      ^fee_pool^: {";
"        ^community_pool^: []";
"      },";
"      ^delegator_withdraw_infos^: [],";
"      ^previous_proposer^: ^^,";
"      ^outstanding_rewards^: [],";
"      ^validator_accumulated_commissions^: [],";
"      ^validator_historical_rewards^: [],";
"      ^validator_current_rewards^: [],";
"      ^delegator_starting_infos^: [],";
"      ^validator_slash_events^: []";
"    },";
"    ^evidence^: {";
"      ^evidence^: []";
"    },";
"    ^exchange^: {";
"      ^params^: {";
"        ^spot_market_instant_listing_fee^: {";
"          ^denom^: ^{{.BondDenom}}^,";
"          ^amount^: ^20000000000000000000^";
"        },";
"        ^derivative_market_instant_listing_fee^: {";
"          ^denom^: ^{{.BondDenom}}^,";
"          ^amount^: ^20000000000000000000^";
"        },";
"        ^default_spot_maker_fee_rate^: ^-0.000100000000000000^,";
"        ^default_spot_taker_fee_rate^: ^0.001000000000000000^,";
"        ^default_derivative_maker_fee_rate^: ^-0.000100000000000000^,";
"        ^default_derivative_taker_fee_rate^: ^0.001000000000000000^,";
"        ^default_initial_margin_ratio^: ^0.050000000000000000^,";
"        ^default_maintenance_margin_ratio^: ^0.020000000000000000^,";
"        ^default_funding_interval^: ^3600^,";
"        ^funding_multiple^: ^3600^,";
"        ^relayer_fee_share_rate^: ^0.400000000000000000^,";
"        ^default_hourly_funding_rate_cap^: ^0.000625000000000000^,";
"        ^default_hourly_interest_rate^: ^0.000004166660000000^,";
"        ^max_derivative_order_side_count^: 20,";
"        ^inj_reward_staked_requirement_threshold^: ^100000000000000000000^,";
"        ^trading_rewards_vesting_duration^: ^604800^,";
"        ^liquidator_reward_share_rate^: ^0.050000000000000000^,";
"        ^binary_options_market_instant_listing_fee^: {";
"          ^denom^: ^{{.BondDenom}}^,";
"          ^amount^: ^100000000000000000000^";
"        },";
"        ^atomic_market_order_access_level^: ^SmartContractsOnly^,";
"        ^spot_atomic_market_order_fee_multiplier^: ^2.500000000000000000^,";
"        ^derivative_atomic_market_order_fee_multiplier^: ^2.500000000000000000^,";
"        ^binary_options_atomic_market_order_fee_multiplier^: ^2.500000000000000000^,";
"        ^minimal_protocol_fee_rate^: ^0.000050000000000000^,";
"        ^is_instant_derivative_market_launch_enabled^: false,";
"        ^post_only_mode_height_threshold^: ^0^,";
"        ^margin_decrease_price_timestamp_threshold_seconds^: ^0^,";
"        ^exchange_admins^: [],";
"        ^inj_auction_max_cap^: ^0^";
"      },";
"      ^spot_markets^: [],";
"      ^derivative_markets^: [],";
"      ^spot_orderbook^: [],";
"      ^derivative_orderbook^: [],";
"      ^balances^: [],";
"      ^positions^: [],";
"      ^subaccount_trade_nonces^: [],";
"      ^expiry_futures_market_info_state^: [],";
"      ^perpetual_market_info^: [],";
"      ^perpetual_market_funding_state^: [],";
"      ^derivative_market_settlement_scheduled^: [],";
"      ^is_spot_exchange_enabled^: true,";
"      ^is_derivatives_exchange_enabled^: true,";
"      ^trading_reward_campaign_info^: null,";
"      ^trading_reward_pool_campaign_schedule^: [],";
"      ^trading_reward_campaign_account_points^: [],";
"      ^fee_discount_schedule^: null,";
"      ^fee_discount_account_tier_ttl^: [],";
"      ^fee_discount_bucket_volume_accounts^: [],";
"      ^is_first_fee_cycle_finished^: false,";
"      ^pending_trading_reward_pool_campaign_schedule^: [],";
"      ^pending_trading_reward_campaign_account_points^: [],";
"      ^rewards_opt_out_addresses^: [],";
"      ^historical_trade_records^: [],";
"      ^binary_options_markets^: [],";
"      ^binary_options_market_ids_scheduled_for_settlement^: [],";
"      ^spot_market_ids_scheduled_to_force_close^: [],";
"      ^conditional_derivative_orderbooks^: [],";
"      ^market_fee_multipliers^: [],";
"      ^orderbook_sequences^: [],";
"      ^subaccount_volumes^: [],";
"      ^market_volumes^: [],";
"      ^grant_authorizations^: [],";
"      ^active_grants^: []";
"    },";
"    ^feegrant^: {";
"      ^allowances^: []";
"    },";
"    ^feeibc^: {";
"      ^identified_fees^: [],";
"      ^fee_enabled_channels^: [],";
"      ^registered_payees^: [],";
"      ^registered_counterparty_payees^: [],";
"      ^forward_relayers^: []";
"    },";
"    ^genutil^: {";
"      ^gen_txs^: []";
"    },";
"    ^gov^: {";
"      ^starting_proposal_id^: ^1^,";
"      ^deposits^: [],";
"      ^votes^: [],";
"      ^proposals^: [],";
"      ^deposit_params^: null,";
"      ^voting_params^: null,";
"      ^tally_params^: null,";
"      ^params^: {";
"        ^min_deposit^: [";
"          {";
"            ^denom^: ^{{.BondDenom}}^,";
"            ^amount^: ^10000000^";
"          }";
"        ],";
"        ^max_deposit_period^: ^172800s^,";
"        ^voting_period^: ^172800s^,";
"        ^quorum^: ^0.334000000000000000^,";
"        ^threshold^: ^0.500000000000000000^,";
"        ^veto_threshold^: ^0.334000000000000000^,";
"        ^min_initial_deposit_ratio^: ^0.000000000000000000^,";
"        ^proposal_cancel_ratio^: ^0.500000000000000000^,";
"        ^proposal_cancel_dest^: ^^,";
"        ^expedited_voting_period^: ^86400s^,";
"        ^expedited_threshold^: ^0.667000000000000000^,";
"        ^expedited_min_deposit^: [";
"          {";
"            ^denom^: ^{{.BondDenom}}^,";
"            ^amount^: ^50000000^";
"          }";
"        ],";
"        ^burn_vote_quorum^: false,";
"        ^burn_proposal_deposit_prevote^: false,";
"        ^burn_vote_veto^: true,";
"        ^min_deposit_ratio^: ^0.010000000000000000^";
"      },";
"      ^constitution^: ^^";
"    },";
"    ^ibc^: {";
"      ^client_genesis^: {";
"        ^clients^: [],";
"        ^clients_consensus^: [],";
"        ^clients_metadata^: [],";
"        ^params^: {";
"          ^allowed_clients^: [";
"            ^*^";
"          ]";
"        },";
"        ^create_localhost^: false,";
"        ^next_client_sequence^: ^0^";
"      },";
"      ^connection_genesis^: {";
"        ^connections^: [],";
"        ^client_connection_paths^: [],";
"        ^next_connection_sequence^: ^0^,";
"        ^params^: {";
"          ^max_expected_time_per_block^: ^30000000000^";
"        }";
"      },";
"      ^channel_genesis^: {";
"        ^channels^: [],";
"        ^acknowledgements^: [],";
"        ^commitments^: [],";
"        ^receipts^: [],";
"        ^send_sequences^: [],";
"        ^recv_sequences^: [],";
"        ^ack_sequences^: [],";
"        ^next_channel_sequence^: ^0^,";
"        ^params^: {";
"          ^upgrade_timeout^: {";
"            ^height^: {";
"              ^revision_number^: ^0^,";
"              ^revision_height^: ^0^";
"            },";
"            ^timestamp^: ^600000000000^";
"          }";
"        }";
"      }";
"    },";
"    ^ibchooks^: null,";
"    ^insurance^: {";
"      ^params^: {";
"        ^default_redemption_notice_period_duration^: ^1209600s^";
"      },";
"      ^insurance_funds^: [],";
"      ^redemption_schedule^: [],";
"      ^next_share_denom_id^: ^1^,";
"      ^next_redemption_schedule_id^: ^1^";
"    },";
"    ^interchainaccounts^: {";
"      ^controller_genesis_state^: {";
"        ^active_channels^: [],";
"        ^interchain_accounts^: [],";
"        ^ports^: [],";
"        ^params^: {";
"          ^controller_enabled^: true";
"        }";
"      },";
"      ^host_genesis_state^: {";
"        ^active_channels^: [],";
"        ^interchain_accounts^: [],";
"        ^port^: ^icahost^,";
"        ^params^: {";
"          ^host_enabled^: true,";
"          ^allow_messages^: [";
"            ^*^";
"          ]";
"        }";
"      }";
"    },";
"    ^mint^: {";
"      ^minter^: {";
"        ^inflation^: ^0.130000000000000000^,";
"        ^annual_provisions^: ^0.000000000000000000^";
"      },";
"      ^params^: {";
"        ^mint_denom^: ^{{.BondDenom}}^,";
"        ^inflation_rate_change^: ^0.130000000000000000^,";
"        ^inflation_max^: ^0.200000000000000000^,";
"        ^inflation_min^: ^0.070000000000000000^,";
"        ^goal_bonded^: ^0.670000000000000000^,";
"        ^blocks_per_year^: ^6311520^";
"      }";
"    },";
"    ^oracle^: {";
"      ^params^: {";
"        ^pyth_contract^: ^^";
"      },";
"      ^band_relayers^: [],";
"      ^band_price_states^: [],";
"      ^price_feed_price_states^: [],";
"      ^coinbase_price_states^: [],";
"      ^band_ibc_price_states^: [],";
"      ^band_ibc_oracle_requests^: [],";
"      ^band_ibc_params^: {";
"        ^band_ibc_enabled^: false,";
"        ^ibc_request_interval^: ^7^,";
"        ^ibc_source_channel^: ^^,";
"        ^ibc_version^: ^bandchain-1^,";
"        ^ibc_port_id^: ^oracle^,";
"        ^legacy_oracle_ids^: []";
"      },";
"      ^band_ibc_latest_client_id^: ^0^,";
"      ^calldata_records^: [],";
"      ^band_ibc_latest_request_id^: ^0^,";
"      ^chainlink_price_states^: [],";
"      ^historical_price_records^: [],";
"      ^provider_states^: [],";
"      ^pyth_price_states^: [],";
"      ^stork_price_states^: [],";
"      ^stork_publishers^: []";
"    },";
"    ^packetfowardmiddleware^: {";
"      ^in_flight_packets^: {}";
"    },";
"    ^params^: null,";
"    ^peggy^: {";
"      ^params^: {";
"        ^peggy_id^: ^injective-peggyid^,";
"        ^contract_source_hash^: ^^,";
"        ^bridge_ethereum_address^: ^^,";
"        ^bridge_chain_id^: ^0^,";
"        ^signed_valsets_window^: ^10000^,";
"        ^signed_batches_window^: ^10000^,";
"        ^signed_claims_window^: ^10000^,";
"        ^target_batch_timeout^: ^43200000^,";
"        ^average_block_time^: ^5000^,";
"        ^average_ethereum_block_time^: ^15000^,";
"        ^slash_fraction_valset^: ^0.001000000000000000^,";
"        ^slash_fraction_batch^: ^0.001000000000000000^,";
"        ^slash_fraction_claim^: ^0.001000000000000000^,";
"        ^slash_fraction_conflicting_claim^: ^0.001000000000000000^,";
"        ^unbond_slashing_valsets_window^: ^10000^,";
"        ^slash_fraction_bad_eth_signature^: ^0.001000000000000000^,";
"        ^cosmos_coin_denom^: ^{{.BondDenom}}^,";
"        ^cosmos_coin_erc20_contract^: ^^,";
"        ^claim_slashing_enabled^: false,";
"        ^bridge_contract_start_height^: ^0^,";
"        ^valset_reward^: {";
"          ^denom^: ^^,";
"          ^amount^: ^0^";
"        },";
"        ^admins^: []";
"      },";
"      ^last_observed_nonce^: ^0^,";
"      ^valsets^: [],";
"      ^valset_confirms^: [],";
"      ^batches^: [],";
"      ^batch_confirms^: [],";
"      ^attestations^: [],";
"      ^orchestrator_addresses^: [],";
"      ^erc20_to_denoms^: [],";
"      ^unbatched_transfers^: [],";
"      ^last_observed_ethereum_height^: ^0^,";
"      ^last_outgoing_batch_id^: ^0^,";
"      ^last_outgoing_pool_id^: ^0^,";
"      ^last_observed_valset^: {";
"        ^nonce^: ^0^,";
"        ^members^: [],";
"        ^height^: ^0^,";
"        ^reward_amount^: ^0^,";
"        ^reward_token^: ^^";
"      },";
"      ^ethereum_blacklist^: []";
"    },";
"    ^permissions^: {";
"      ^params^: {";
"        ^wasm_hook_query_max_gas^: ^200000^";
"      },";
"      ^namespaces^: []";
"    },";
"    ^slashing^: {";
"      ^params^: {";
"        ^signed_blocks_window^: ^100^,";
"        ^min_signed_per_window^: ^0.500000000000000000^,";
"        ^downtime_jail_duration^: ^600s^,";
"        ^slash_fraction_double_sign^: ^0.050000000000000000^,";
"        ^slash_fraction_downtime^: ^0.010000000000000000^";
"      },";
"      ^signing_infos^: [],";
"      ^missed_blocks^: []";
"    },";
"    ^staking^: {";
"      ^params^: {";
"        ^unbonding_time^: ^1814400s^,";
"        ^max_validators^: 100,";
"        ^max_entries^: 7,";
"        ^historical_entries^: 10000,";
"        ^bond_denom^: ^{{.BondDenom}}^,";
"        ^min_commission_rate^: ^0.000000000000000000^";
"      },";
"      ^last_total_power^: ^0^,";
"      ^last_validator_powers^: [],";
"      ^validators^: [],";
"      ^delegations^: [],";
"      ^unbonding_delegations^: [],";
"      ^redelegations^: [],";
"      ^exported^: false";
"    },";
"    ^tokenfactory^: {";
"      ^params^: {";
"        ^denom_creation_fee^: [";
"          {";
"            ^denom^: ^{{.BondDenom}}^,";
"            ^amount^: ^10000000000000000000^";
"          }";
"        ]";
"      },";
"      ^factory_denoms^: []";
"    },";
"    ^transfer^: {";
"      ^port_id^: ^transfer^,";
"      ^denom_traces^: [],";
"      ^params^: {";
"        ^send_enabled^: true,";
"        ^receive_enabled^: true";
"      },";
"      ^total_escrowed^: []";
"    },";
"    ^upgrade^: {},";
"    ^wasm^: {";
"      ^params^: {";
"        ^code_upload_access^: {";
"          ^permission^: ^Everybody^,";
"          ^addresses^: []";
"        },";
"        ^instantiate_default_permission^: ^Everybody^";
"      },";
"      ^codes^: [],";
"      ^contracts^: [],";
"      ^sequences^: []";
"    },";
"    ^xwasm^: {";
"      ^params^: {";
"        ^is_execution_enabled^: true,";
"        ^max_begin_block_total_gas^: ^42000000^,";
"        ^max_contract_gas_limit^: ^3500000^,";
"        ^min_gas_price^: ^1000000000^,";
"        ^register_contract_access^: {";
"          ^permission^: ^Unspecified^,";
"          ^addresses^: []";
"        }";
"      },";
"      ^registered_contracts^: []";
"    }";
"  }";
"}"
].

(** templates/genesis.evm.json.tpl (genesis.go) *)
Definition genesisEvmTplJSON : string := embed [
"{";
"  ^genesis_time^: ^{{.GenesisTime}}^,";
"  ^chain_id^: ^{{.ChainID}}^,";
"  ^initial_height^: ^1^,";
"  ^consensus_params^: {";
"    ^block^: {";
"      ^max_bytes^: ^4194304^,";
"      ^max_gas^: ^10000000000^";
"    },";
"    ^evidence^: {";
"      ^max_age_num_blocks^: ^100000^,";
"      ^max_age_duration^: ^172800000000000^,";
"      ^max_bytes^: ^1048576^";
"    },";
"    ^validator^: {";
"      ^pub_key_types^: [";
"        ^ed25519^";
"      ]";
"    },";
"    ^version^: {";
"      ^app^: ^0^";
"    },";
"    ^synchrony^: {";
"      ^precision^: ^505000000^,";
"      ^message_delay^: ^15000000000^";
"    },";
"    ^feature^: {";
"      ^vote_extensions_enable_height^: ^0^,";
"      ^pbts_enable_height^: ^0^";
"    }";
"  },";
"  ^app_hash^: ^^,";
"  ^app_state^: {";
"    ^07-tendermint^: null,";
"    ^auction^: {";
"      ^params^: {";
"        ^auction_period^: ^604800^,";
"        ^min_next_bid_increment_rate^: ^0.002500000000000000^";
"      },";
"      ^auction_round^: ^0^,";
"      ^highest_bid^: null,";
"      ^auction_ending_timestamp^: ^0^,";
"      ^last_auction_result^: null";
"    },";
"    ^auth^: {";
"      ^params^: {";
"        ^max_memo_characters^: ^256^,";
"        ^tx_sig_limit^: ^7^,";
"        ^tx_size_cost_per_byte^: ^10^,";
"        ^sig_verify_cost_ed25519^: ^590^,";
"        ^sig_verify_cost_secp256k1^: ^1000^";
"      },";
"      ^accounts^: []";
"    },";
"    ^authz^: {";
"      ^authorization^: []";
"    },";
"    ^bank^: {";
"      ^params^: {";
"        ^send_enabled^: [],";
"        ^default_send_enabled^: true";
"      },";
"      ^balances^: [],";
"      ^supply^: [],";
"      ^denom_metadata^: [],";
"      ^send_enabled^: []";
"    },";
"    ^capability^: {";
"      ^index^: ^1^,";
"      ^owners^: []";
"    },";
"    ^chainlink^: {";
"      ^params^: {";
"        ^link_denom^: ^peggy0x514910771AF9Ca656af840dff83E8264EcF986CA^,";
"        ^payout_block_interval^: ^100000^,";
"        ^module_admin^: ^^";
"      },";
"      ^feed_configs^: [],";
"      ^latest_epoch_and_rounds^: [],";
"      ^feed_transmissions^: [],";
"      ^latest_aggregator_round_ids^: [],";
"      ^reward_pools^: [],";
"      ^feed_observation_counts^: [],";
"      ^feed_transmission_counts^: [],";
"      ^pending_payeeships^: []";
"    },";
"    ^consensus^: null,";
"    ^crisis^: {";
"      ^constant_fee^: {";
"        ^denom^: ^{{.BondDenom}}^,";
"        ^amount^: ^1000^";
"      }";
"    },";
"    ^distribution^: {";
"      ^params^: {";
"        ^community_tax^: ^0.020000000000000000^,";
"        ^base_proposer_reward^: ^0.000000000000000000^,";
"        ^bonus_proposer_reward^: ^0.000000000000000000^,";
"        ^withdraw_addr_enabled^: true";
"      },";
"      ^fee_pool^: {";
"        ^community_pool^: []";
"      },";
"      ^delegator_withdraw_infos^: [],";
"      ^previous_proposer^: ^^,";
"      ^outstanding_rewards^: [],";
"      ^validator_accumulated_commissions^: [],";
"      ^validator_historical_rewards^: [],";
"      ^validator_current_rewards^: [],";
"      ^delegator_starting_infos^: [],";
"      ^validator_slash_events^: []";
"    },";
"    ^evidence^: {";
"      ^evidence^: []";
"    },";
"    ^evm^: {";
"      ^accounts^: [],";
"      ^params^: {";
"        ^evm_denom^: ^{{.BondDenom}}^,";
"        ^enable_create^: true,";
"        ^enable_call^: true,";
"        ^extra_eips^: [],";
"        ^chain_config^: {";
"          ^eip155_chain_id^: ^{{.EthChainID}}^,";
"          ^homestead_block^: ^0^,";
"          ^dao_fork_block^: ^0^,";
"          ^dao_fork_support^: true,";
"          ^eip150_block^: ^0^,";
"          ^eip150_hash^: ^0x0000000000000000000000000000000000000000000000000000000000000000^,";
"          ^eip155_block^: ^0^,";
"          ^eip158_block^: ^0^,";
"          ^byzantium_block^: ^0^,";
"          ^constantinople_block^: ^0^,";
"          ^petersburg_block^: ^0^,";
"          ^istanbul_block^: ^0^,";
"          ^muir_glacier_block^: ^0^,";
"          ^berlin_block^: ^0^,";
"          ^london_block^: ^0^,";
"          ^arrow_glacier_block^: ^0^,";
"          ^gray_glacier_block^: ^0^,";
"          ^merge_netsplit_block^: ^0^,";
"          ^shanghai_time^: ^0^,";
"          ^cancun_time^: ^0^,";
"          ^prague_time^: ^0^,";
"          ^blob_schedule_config^: {";
"            ^cancun^: {";
"              ^target^: ^3^,";
"              ^max^: ^6^,";
"              ^base_fee_update_fraction^: ^3338477^";
"            },";
"            ^prague^: {";
"              ^target^: ^6^,";
"              ^max^: ^9^,";
"              ^base_fee_update_fraction^: ^5007716^";
"            },";
"            ^osaka^: {";
"              ^target^: ^6^,";
"              ^max^: ^9^,";
"              ^base_fee_update_fraction^: ^5007716^";
"            },";
"            ^verkle^: null";
"          }";
"        },";
"        ^allow_unprotected_txs^: true";
"      }";
"    },";
"    ^exchange^: {";
"      ^params^: {";
"        ^spot_market_instant_listing_fee^: {";
"          ^denom^: ^{{.BondDenom}}^,";
"          ^amount^: ^20000000000000000000^";
"        },";
"        ^derivative_market_instant_listing_fee^: {";
"          ^denom^: ^{{.BondDenom}}^,";
"          ^amount^: ^20000000000000000000^";
"        },";
"        ^default_spot_maker_fee_rate^: ^-0.000100000000000000^,";
"        ^default_spot_taker_fee_rate^: ^0.001000000000000000^,";
"        ^default_derivative_maker_fee_rate^: ^-0.000100000000000000^,";
"        ^default_derivative_taker_fee_rate^: ^0.001000000000000000^,";
"        ^default_initial_margin_ratio^: ^0.050000000000000000^,";
"        ^default_maintenance_margin_ratio^: ^0.020000000000000000^,";
"        ^default_funding_interval^: ^3600^,";
"        ^funding_multiple^: ^3600^,";
"        ^relayer_fee_share_rate^: ^0.400000000000000000^,";
"        ^default_hourly_funding_rate_cap^: ^0.000625000000000000^,";
"        ^default_hourly_interest_rate^: ^0.000004166660000000^,";
"        ^max_derivative_order_side_count^: 20,";
"        ^inj_reward_staked_requirement_threshold^: ^100000000000000000000^,";
"        ^trading_rewards_vesting_duration^: ^604800^,";
"        ^liquidator_reward_share_rate^: ^0.050000000000000000^,";
"        ^binary_options_market_instant_listing_fee^: {";
"          ^denom^: ^{{.BondDenom}}^,";
"          ^amount^: ^100000000000000000000^";
"        },";
"        ^atomic_market_order_access_level^: ^SmartContractsOnly^,";
"        ^spot_atomic_market_order_fee_multiplier^: ^2.500000000000000000^,";
"        ^derivative_atomic_market_order_fee_multiplier^: ^2.500000000000000000^,";
"        ^binary_options_atomic_market_order_fee_multiplier^: ^2.500000000000000000^,";
"        ^minimal_protocol_fee_rate^: ^0.000050000000000000^,";
"        ^is_instant_derivative_market_launch_enabled^: false,";
"        ^post_only_mode_height_threshold^: ^0^,";
"        ^margin_decrease_price_timestamp_threshold_seconds^: ^0^,";
"        ^exchange_admins^: [],";
"        ^inj_auction_max_cap^: ^0^";
"      },";
"      ^spot_markets^: [],";
"      ^derivative_markets^: [],";
"      ^spot_orderbook^: [],";
"      ^derivative_orderbook^: [],";
"      ^balances^: [],";
"      ^positions^: [],";
"      ^subaccount_trade_nonces^: [],";
"      ^expiry_futures_market_info_state^: [],";
"      ^perpetual_market_info^: [],";
"      ^perpetual_market_funding_state^: [],";
"      ^derivative_market_settlement_scheduled^: [],";
"      ^is_spot_exchange_enabled^: true,";
"      ^is_derivatives_exchange_enabled^: true,";
"      ^trading_reward_campaign_info^: null,";
"      ^trading_reward_pool_campaign_schedule^: [],";
"      ^trading_reward_campaign_account_points^: [],";
"      ^fee_discount_schedule^: null,";
"      ^fee_discount_account_tier_ttl^: [],";
"      ^fee_discount_bucket_volume_accounts^: [],";
"      ^is_first_fee_cycle_finished^: false,";
"      ^pending_trading_reward_pool_campaign_schedule^: [],";
"      ^pending_trading_reward_campaign_account_points^: [],";
"      ^rewards_opt_out_addresses^: [],";
"      ^historical_trade_records^: [],";
"      ^binary_options_markets^: [],";
"      ^binary_options_market_ids_scheduled_for_settlement^: [],";
"      ^spot_market_ids_scheduled_to_force_close^: [],";
"      ^conditional_derivative_orderbooks^: [],";
"      ^market_fee_multipliers^: [],";
"      ^orderbook_sequences^: [],";
"      ^subaccount_volumes^: [],";
"      ^market_volumes^: [],";
"      ^grant_authorizations^: [],";
"      ^active_grants^: []";
"    },";
"    ^downtimedetector^: {";
"      ^last_block_time^: ^2025-08-26T00:00:00Z^";
"    },";
"    ^feegrant^: {";
"      ^allowances^: []";
"    },";
"    ^feeibc^: {";
"      ^identified_fees^: [],";
"      ^fee_enabled_channels^: [],";
"      ^registered_payees^: [],";
"      ^registered_counterparty_payees^: [],";
"      ^forward_relayers^: []";
"    },";
"    ^feemarket^: {";
"      ^params^: {";
"        ^no_base_fee^: true,";
"        ^base_fee_change_denominator^: 8,";
"        ^elasticity_multiplier^: 2,";
"        ^enable_height^: ^0^,";
"        ^base_fee^: ^1000000000^,";
"        ^min_gas_price^: ^0.000000000000000000^,";
"        ^min_gas_multiplier^: ^0.500000000000000000^";
"      },";
"      ^block_gas^: ^10000000000^";
"    },";
"    ^genutil^: {";
"      ^gen_txs^: []";
"    },";
"    ^gov^: {";
"      ^starting_proposal_id^: ^1^,";
"      ^deposits^: [],";
"      ^votes^: [],";
"      ^proposals^: [],";
"      ^deposit_params^: null,";
"      ^voting_params^: null,";
"      ^tally_params^: null,";
"      ^params^: {";
"        ^min_deposit^: [";
"          {";
"            ^denom^: ^{{.BondDenom}}^,";
"            ^amount^: ^10000000^";
"          }";
"        ],";
"        ^max_deposit_period^: ^172800s^,";
"        ^voting_period^: ^172800s^,";
"        ^quorum^: ^0.334000000000000000^,";
"        ^threshold^: ^0.500000000000000000^,";
"        ^veto_threshold^: ^0.334000000000000000^,";
"        ^min_initial_deposit_ratio^: ^0.000000000000000000^,";
"        ^proposal_cancel_ratio^: ^0.500000000000000000^,";
"        ^proposal_cancel_dest^: ^^,";
"        ^expedited_voting_period^: ^86400s^,";
"        ^expedited_threshold^: ^0.667000000000000000^,";
"        ^expedited_min_deposit^: [";
"          {";
"            ^denom^: ^{{.BondDenom}}^,";
"            ^amount^: ^50000000^";
"          }";
"        ],";
"        ^burn_vote_quorum^: false,";
"        ^burn_proposal_deposit_prevote^: false,";
"        ^burn_vote_veto^: true,";
"        ^min_deposit_ratio^: ^0.010000000000000000^";
"      },";
"      ^constitution^: ^^";
"    },";
"    ^ibc^: {";
"      ^client_genesis^: {";
"        ^clients^: [],";
"        ^clients_consensus^: [],";
"        ^clients_metadata^: [],";
"        ^params^: {";
"          ^allowed_clients^: [";
"            ^*^";
"          ]";
"        },";
"        ^create_localhost^: false,";
"        ^next_client_sequence^: ^0^";
"      },";
"      ^connection_genesis^: {";
"        ^connections^: [],";
"        ^client_connection_paths^: [],";
"        ^next_connection_sequence^: ^0^,";
"        ^params^: {";
"          ^max_expected_time_per_block^: ^30000000000^";
"        }";
"      },";
"      ^channel_genesis^: {";
"        ^channels^: [],";
"        ^acknowledgements^: [],";
"        ^commitments^: [],";
"        ^receipts^: [],";
"        ^send_sequences^: [],";
"        ^recv_sequences^: [],";
"        ^ack_sequences^: [],";
"        ^next_channel_sequence^: ^0^,";
"        ^params^: {";
"          ^upgrade_timeout^: {";
"            ^height^: {";
"              ^revision_number^: ^0^,";
"              ^revision_height^: ^0^";
"            },";
"            ^timestamp^: ^600000000000^";
"          }";
"        }";
"      }";
"    },";
"    ^ibchooks^: null,";
"    ^insurance^: {";
"      ^params^: {";
"        ^default_redemption_notice_period_duration^: ^1209600s^";
"      },";
"      ^insurance_funds^: [],";
"      ^redemption_schedule^: [],";
"      ^next_share_denom_id^: ^1^,";
"      ^next_redemption_schedule_id^: ^1^";
"    },";
"    ^interchainaccounts^: {";
"      ^controller_genesis_state^: {";
"        ^active_channels^: [],";
"        ^interchain_accounts^: [],";
"        ^ports^: [],";
"        ^params^: {";
"          ^controller_enabled^: true";
"        }";
"      },";
"      ^host_genesis_state^: {";
"        ^active_channels^: [],";
"        ^interchain_accounts^: [],";
"        ^port^: ^icahost^,";
"        ^params^: {";
"          ^host_enabled^: true,";
"          ^allow_messages^: [";
"            ^*^";
"          ]";
"        }";
"      }";
"    },";
"    ^mint^: {";
"      ^minter^: {";
"        ^inflation^: ^0.130000000000000000^,";
"        ^annual_provisions^: ^0.000000000000000000^";
"      },";
"      ^params^: {";
"        ^mint_denom^: ^{{.BondDenom}}^,";
"        ^inflation_rate_change^: ^0.130000000000000000^,";
"        ^inflation_max^: ^0.200000000000000000^,";
"        ^inflation_min^: ^0.070000000000000000^,";
"        ^goal_bonded^: ^0.670000000000000000^,";
"        ^blocks_per_year^: ^6311520^";
"      }";
"    },";
"    ^oracle^: {";
"      ^params^: {";
"        ^pyth_contract^: ^^";
"      },";
"      ^band_relayers^: [],";
"      ^band_price_states^: [],";
"      ^price_feed_price_states^: [],";
"      ^coinbase_price_states^: [],";
"      ^band_ibc_price_states^: [],";
"      ^band_ibc_oracle_requests^: [],";
"      ^band_ibc_params^: {";
"        ^band_ibc_enabled^: false,";
"        ^ibc_request_interval^: ^7^,";
"        ^ibc_source_channel^: ^^,";
"        ^ibc_version^: ^bandchain-1^,";
"        ^ibc_port_id^: ^oracle^,";
"        ^legacy_oracle_ids^: []";
"      },";
"      ^band_ibc_latest_client_id^: ^0^,";
"      ^calldata_records^: [],";
"      ^band_ibc_latest_request_id^: ^0^,";
"      ^chainlink_price_states^: [],";
"      ^historical_price_records^: [],";
"      ^provider_states^: [],";
"      ^pyth_price_states^: [],";
"      ^stork_price_states^: [],";
"      ^stork_publishers^: []";
"    },";
"    ^packetfowardmiddleware^: {";
"      ^in_flight_packets^: {}";
"    },";
"    ^params^: null,";
"    ^peggy^: {";
"      ^params^: {";
"        ^peggy_id^: ^injective-peggyid^,";
"        ^contract_source_hash^: ^^,";
"        ^bridge_ethereum_address^: ^^,";
"        ^bridge_chain_id^: ^0^,";
"        ^signed_valsets_window^: ^10000^,";
"        ^signed_batches_window^: ^10000^,";
"        ^signed_claims_window^: ^10000^,";
"        ^target_batch_timeout^: ^43200000^,";
"        ^average_block_time^: ^5000^,";
"        ^average_ethereum_block_time^: ^15000^,";
"        ^slash_fraction_valset^: ^0.001000000000000000^,";
"        ^slash_fraction_batch^: ^0.001000000000000000^,";
"        ^slash_fraction_claim^: ^0.001000000000000000^,";
"        ^slash_fraction_conflicting_claim^: ^0.001000000000000000^,";
"        ^unbond_slashing_valsets_window^: ^10000^,";
"        ^slash_fraction_bad_eth_signature^: ^0.001000000000000000^,";
"        ^cosmos_coin_denom^: ^{{.BondDenom}}^,";
"        ^cosmos_coin_erc20_contract^: ^^,";
"        ^claim_slashing_enabled^: false,";
"        ^bridge_contract_start_height^: ^0^,";
"        ^valset_reward^: {";
"          ^denom^: ^^,";
"          ^amount^: ^0^";
"        },";
"        ^admins^: []";
"      },";
"      ^last_observed_nonce^: ^0^,";
"      ^valsets^: [],";
"      ^valset_confirms^: [],";
"      ^batches^: [],";
"      ^batch_confirms^: [],";
"      ^attestations^: [],";
"      ^orchestrator_addresses^: [],";
"      ^erc20_to_denoms^: [],";
"      ^unbatched_transfers^: [],";
"      ^last_observed_ethereum_height^: ^0^,";
"      ^last_outgoing_batch_id^: ^0^,";
"      ^last_outgoing_pool_id^: ^0^,";
"      ^last_observed_valset^: {";
"        ^nonce^: ^0^,";
"        ^members^: [],";
"        ^height^: ^0^,";
"        ^reward_amount^: ^0^,";
"        ^reward_token^: ^^";
"      },";
"      ^ethereum_blacklist^: []";
"    },";
"    ^permissions^: {";
"      ^params^: {";
"        ^wasm_hook_query_max_gas^: ^200000^";
"      },";
"      ^namespaces^: []";
"    },";
"    ^slashing^: {";
"      ^params^: {";
"        ^signed_blocks_window^: ^100^,";
"        ^min_signed_per_window^: ^0.500000000000000000^,";
"        ^downtime_jail_duration^: ^600s^,";
"        ^slash_fraction_double_sign^: ^0.050000000000000000^,";
"        ^slash_fraction_downtime^: ^0.010000000000000000^";
"      },";
"      ^signing_infos^: [],";
"      ^missed_blocks^: []";
"    },";
"    ^staking^: {";
"      ^params^: {";
"        ^unbonding_time^: ^1814400s^,";
"        ^max_validators^: 100,";
"        ^max_entries^: 7,";
"        ^historical_entries^: 10000,";
"        ^bond_denom^: ^{{.BondDenom}}^,";
"        ^min_commission_rate^: ^0.000000000000000000^";
"      },";
"      ^last_total_power^: ^0^,";
"      ^last_validator_powers^: [],";
"      ^validators^: [],";
"      ^delegations^: [],";
"      ^unbonding_delegations^: [],";
"      ^redelegations^: [],";
"      ^exported^: false";
"    },";
"    ^tokenfactory^: {";
"      ^params^: {";
"        ^denom_creation_fee^: [";
"          {";
"            ^denom^: ^{{.BondDenom}}^,";
"            ^amount^: ^10000000000000000000^";
"          }";
"        ]";
"      },";
"      ^factory_denoms^: []";
"    },";
"    ^transfer^: {";
"      ^port_id^: ^transfer^,";
"      ^denom_traces^: [],";
"      ^params^: {";
"        ^send_enabled^: true,";
"        ^receive_enabled^: true";
"      },";
"      ^total_escrowed^: []";
"    },";
"    ^upgrade^: {},";
"    ^wasm^: {";
"      ^params^: {";
"        ^code_upload_access^: {";
"          ^permission^: ^Everybody^,";
"          ^addresses^: []";
"        },";
"        ^instantiate_default_permission^: ^Everybody^";
"      },";
"      ^codes^: [],";
"      ^contracts^: [],";
"      ^sequences^: []";
"    },";
"    ^xwasm^: {";
"      ^params^: {";
"        ^is_execution_enabled^: true,";
"        ^max_begin_block_total_gas^: ^42000000^,";
"        ^max_contract_gas_limit^: ^3500000^,";
"        ^min_gas_price^: ^1000000000^,";
"        ^register_contract_access^: {";
"          ^permission^: ^Unspecified^,";
"          ^addresses^: []";
"        }";
"      },";
"      ^registered_contracts^: []";
"    }";
"  }";
"}"
].
