(* ===== verification/Rendering.v ===== *)
(** * The rendered configuration files (chain/docker.go, config_app.go,
    config_node.go, genesis.go with chain/templates)

    The data each template is executed on, the text it renders to, and what that
    text says: the docker-compose file line by line, and the settings a reader of
    the application and node configurations finds. *)

From Stdlib Require Import ZArith Lia Ascii String.
From stdpp Require Import base list strings numbers gmap.
From S2P Require Import Prelude GoStrings Float64 Sdk SdkModel Chain Genesis Generator.
From S2P Require Import Template TemplateTexts.

Open Scope string_scope.
Open Scope Z_scope.
Open Scope list_scope.

(** ** The data of the templates

    Fields that no template mentions (the two private keys) are left out. *)

Definition VNodeConfig (n : NodeConfig) : value :=
  VStruct [("Home", VString (Home n)); ("Moniker", VString (Moniker n)); ("PeerID", VString (PeerID n));
           ("IPListen", VIP (nc_IPListen n)); ("IPAddr", VIP (IPAddr n)); ("Ports", VPorts (nc_Ports n));
           ("PersistentPeers", VString (PersistentPeers n)); ("PrivatePeerIds", VString (PrivatePeerIds n));
           ("TxIndexer", VString (TxIndexer n)); ("DiscardABCIResponses", VBool (DiscardABCIResponses n));
           ("ProdLike", VBool (nc_ProdLike n)); ("PortsExposed", VBool (nc_PortsExposed n));
           ("DependsOn", VList (map VInt (DependsOn n)))].

Definition VAppConfig (c : AppConfig) : value :=
  VStruct [("MinimumGasPrices", VString (MinimumGasPrices c)); ("EVMEnabled", VBool (EVMEnabled c));
           ("ProdLike", VBool (ac_ProdLike c)); ("IPListen", VIP (ac_IPListen c));
           ("Ports", VPorts (ac_Ports c)); ("PortsExposed", VBool (ac_PortsExposed c))].

Definition VGenesisConfig (c : GenesisConfig) : value :=
  VStruct [("AppVersion", VString (gc_AppVersion c)); ("GenesisTime", VString (gc_GenesisTime c));
           ("ChainID", VString (gc_ChainID c)); ("EthChainID", VInt (gc_EthChainID c));
           ("BondDenom", VString (gc_BondDenom c)); ("EvmEnabled", VBool (gc_EvmEnabled c));
           ("ProdLike", VBool (gc_ProdLike c))].

Definition VDockerComposeConfig (c : DockerComposeConfig) : value :=
  VStruct [("Image", VString (dc_Image c)); ("Debug", VBool (dc_Debug c)); ("LogFile", VString (dc_LogFile c));
           ("ChainID", VString (dc_ChainID c)); ("Nodes", VList (map VNodeConfig (dc_Nodes c)));
           ("Network", VStruct [("Subnet", VString (dc_Subnet c))])].

Definition ty_ports : ty :=
  TStruct [("RPC", TInt); ("P2P", TInt); ("API", TInt); ("GRPC", TInt); ("GRPCWeb", TInt); ("PProf", TInt);
           ("Prometheus", TInt); ("EVMRPC", TInt); ("EVMWSPort", TInt); ("ProxyApp", TInt)].

Definition ty_node : ty :=
  TStruct [("Home", TString); ("Moniker", TString); ("PeerID", TString); ("IPListen", TIP); ("IPAddr", TIP);
           ("Ports", ty_ports); ("PersistentPeers", TString); ("PrivatePeerIds", TString);
           ("TxIndexer", TString); ("DiscardABCIResponses", TBool); ("ProdLike", TBool);
           ("PortsExposed", TBool); ("DependsOn", TList TInt)].

Definition ty_app : ty :=
  TStruct [("MinimumGasPrices", TString); ("EVMEnabled", TBool); ("ProdLike", TBool); ("IPListen", TIP);
           ("Ports", ty_ports); ("PortsExposed", TBool)].

Definition ty_genesis : ty :=
  TStruct [("AppVersion", TString); ("GenesisTime", TString); ("ChainID", TString); ("EthChainID", TInt);
           ("BondDenom", TString); ("EvmEnabled", TBool); ("ProdLike", TBool)].

Definition ty_compose : ty :=
  TStruct [("Image", TString); ("Debug", TBool); ("LogFile", TString); ("ChainID", TString);
           ("Nodes", TList ty_node); ("Network", TStruct [("Subnet", TString)])].

(** ** The texts *)

Definition app_template_text (t : appTemplate) : string :=
  match t with AppEvm => appEvmTplTOML | AppProd => appProdTplTOML | AppDefault => appTplTOML end.

Definition genesis_template_text (t : template) : string :=
  match t with TplEvm => genesisEvmTplJSON | TplProd => genesisProdTplJSON | TplDefault => genesisTplJSON end.

Definition app_text (t : appTemplate) (c : AppConfig) : go string :=
  render (app_template_text t) (VAppConfig c).

Definition config_prod_text (n : NodeConfig) : go string := render configProdTplTOML (VNodeConfig n).

Definition genesis_text (c : GenesisConfig) : go string :=
  render (genesis_template_text (genesis_template c)) (VGenesisConfig c).

Definition compose_text (c : DockerComposeConfig) : go string :=
  render dockerComposeTpl (VDockerComposeConfig c).

(** ** Rendering never fails *)

Lemma VPorts_typed p : has_ty ty_ports (VPorts p).
Proof. by repeat constructor. Qed.

Lemma VNodeConfig_typed n : has_ty ty_node (VNodeConfig n).
Proof.
  constructor. repeat (apply Forall2_cons; split); try apply Forall2_nil; try done;
    (split; [done|cbn [snd]]); try apply VPorts_typed; constructor.
  apply Forall_fmap, Forall_forall. constructor.
Qed.

Lemma VAppConfig_typed c : has_ty ty_app (VAppConfig c).
Proof. by repeat constructor. Qed.

Lemma VGenesisConfig_typed c : has_ty ty_genesis (VGenesisConfig c).
Proof. by repeat constructor. Qed.

Lemma VDockerComposeConfig_typed c : has_ty ty_compose (VDockerComposeConfig c).
Proof.
  constructor. repeat (apply Forall2_cons; split); try apply Forall2_nil; try done;
    (split; [done|cbn [snd]]); repeat constructor.
  apply Forall_fmap, Forall_forall. intros n _. apply VNodeConfig_typed.
Qed.

(** A template parses, and checks against a type. *)
Definition template_ok (t : ty) (text : string) : bool :=
  match Parse text with Ok nodes => checks t nodes | _ => false end.

Lemma template_ok_renders t text v : template_ok t text = true -> has_ty t v -> exists s, render text v = Ok s.
Proof.
  unfold template_ok. destruct (Parse text) as [nodes| |] eqn:E; try done. by apply checked_executes.
Qed.

Lemma app_template_ok t : template_ok ty_app (app_template_text t) = true.
Proof. destruct t; vm_compute; reflexivity. Qed.

Lemma node_template_ok : template_ok ty_node configProdTplTOML = true.
Proof. vm_compute. reflexivity. Qed.

Lemma genesis_template_ok t : template_ok ty_genesis (genesis_template_text t) = true.
Proof. destruct t; vm_compute; reflexivity. Qed.

Lemma compose_template_ok : template_ok ty_compose dockerComposeTpl = true.
Proof. vm_compute. reflexivity. Qed.

(** ** The docker-compose file *)

Definition dq (s : string) : string := quotes "^" +:+ s +:+ quotes "^".

(** [host:container], or two ranges *)
Definition port_line (host container : string) : string := "      - " +:+ dq (host +:+ ":" +:+ container).
Definition range_line (h1 h2 : Z) (container : string) : string :=
  port_line (strconv_Itoa h1 +:+ "-" +:+ strconv_Itoa h2) container.

Definition port_lines (p : Ports) : list string :=
  ["    ports:"; range_line (P2P p) (RPC p) "26656-26657"; port_line (strconv_Itoa (API p)) "10337";
   port_line (strconv_Itoa (GRPC p)) "9900"; port_line (strconv_Itoa (GRPCWeb p)) "9091";
   port_line (strconv_Itoa (PProf p)) "2345"]
  ++ (if EVMRPC p =? 0 then [] else [range_line (EVMRPC p) (EVMWSPort p) "8545-8546"])
  ++ (if Prometheus p =? 0 then [] else [port_line (strconv_Itoa (Prometheus p)) "26660"]).

Definition ip_text (ip : IP) : string := if decide (ip = []) then "<nil>" else IP_String ip.

Definition service_name (i : Z) : string := "injectived" +:+ strconv_Itoa i.

Definition depends_lines (deps : list Z) : list string :=
  match deps with
  | [] => []
  | _ => "    depends_on:" :: map (fun d => "      - " +:+ service_name d) deps
  end.

Definition service_head (c : DockerComposeConfig) (i : Z) (n : NodeConfig) : list string :=
  ["  " +:+ service_name i +:+ ":"; "    container_name: injstress-" +:+ Moniker n;
   "    image: " +:+ dq (dc_Image c); "    environment:";
   "      - DEBUG=" +:+ (if dc_Debug c then "1" else "0"); "      - NODE_HOME=/root/.injectived";
   "      - CHAIN_ID=" +:+ dc_ChainID c; "      - MONIKER=" +:+ Moniker n; "    cap_add:";
   "      - SYS_PTRACE"; "    security_opt:"; "      - seccomp:unconfined"].

Definition volume_lines (n : NodeConfig) : list string :=
  ["    volumes:"; "      - " +:+ Home n +:+ ":/root/.injectived:Z"; "    networks:"; "      localnet:";
   "        ipv4_address: " +:+ ip_text (IPAddr n)].

(** The service of node [i]. *)
Definition service_lines (c : DockerComposeConfig) (i : Z) (n : NodeConfig) : list string :=
  service_head c i n ++ (if nc_PortsExposed n then port_lines (nc_Ports n) else [])
  ++ volume_lines n ++ depends_lines (DependsOn n)
  ++ ["    command: injectived --home=/root/.injectived start"].

Fixpoint services (c : DockerComposeConfig) (i : Z) (nodes : list NodeConfig) : list string :=
  match nodes with
  | [] => []
  | n :: ns => service_lines c i n ++ services c (i + 1) ns
  end.

Definition compose_lines (c : DockerComposeConfig) : list string :=
  ["services:"] ++ services c 0 (dc_Nodes c)
  ++ [""; "networks:"; "  localnet:"; "    driver: bridge"; "    ipam:"; "      driver: default";
      "      config:"; "        - subnet: " +:+ dc_Subnet c].

(** Lines, each ended or each begun by a newline. *)
Definition unlines (l : list string) : string := String.concat "" (map (fun s => s +:+ newline) l).
Definition after_newline (l : list string) : string := String.concat "" (map (fun s => newline +:+ s) l).

Lemma concat_cons_empty s l : String.concat "" (s :: l) = s +:+ String.concat "" l.
Proof. destruct l; cbn [String.concat]; [by rewrite append_nil_r|done]. Qed.

Lemma after_newline_cons s l : after_newline (s :: l) = newline +:+ s +:+ after_newline l.
Proof. unfold after_newline. cbn [map]. by rewrite concat_cons_empty, append_assoc. Qed.

Lemma after_newline_app l1 l2 : after_newline (l1 ++ l2) = after_newline l1 +:+ after_newline l2.
Proof.
  induction l1 as [|s l1 IH]; [done|]. cbn [app]. by rewrite !after_newline_cons, IH, !append_assoc.
Qed.

Lemma unlines_after s l : unlines (s :: l) = s +:+ after_newline l +:+ newline.
Proof.
  revert s. induction l as [|x l IH]; intros s; unfold unlines in *; cbn [map] in *;
    rewrite concat_cons_empty.
  - by rewrite append_nil_r.
  - rewrite IH, after_newline_cons, !append_assoc. done.
Qed.

(** The parsed template. *)
Definition service_nodes : list node :=
  match Parse dockerComposeTpl with Ok [_; NRange _ _ _ body; _; _; _] => body | _ => [] end.

Lemma parse_compose :
  Parse dockerComposeTpl =
  Ok [NText "services:"; NRange (Some "i") "node" (ODot ["Nodes"]) service_nodes;
      NText (newline +:+ newline +:+ "networks:" +:+ newline +:+ "  localnet:" +:+ newline
             +:+ "    driver: bridge" +:+ newline +:+ "    ipam:" +:+ newline +:+ "      driver: default"
             +:+ newline +:+ "      config:" +:+ newline +:+ "        - subnet: ");
      NOut (ODot ["Network"; "Subnet"]); NText newline].
Proof. vm_compute. reflexivity. Qed.

(** The nodes of a service up to its dependencies, and these. *)
Definition depends_node : node :=
  NIf (CTrue (OVar "node" ["DependsOn"]))
    [NText (newline +:+ "    depends_on:");
     NRange None "dep" (OVar "node" ["DependsOn"])
       [NText (newline +:+ "      - injectived"); NOut (OVar "dep" []); NText ""]; NText ""] [].

Definition command_text : string := newline +:+ "    command: injectived --home=/root/.injectived start".

(** Both sides as one right-nested concatenation. *)
Ltac texts :=
  cbv -[String.append strconv_Itoa IP_String]; cbn [String.append];
  repeat (rewrite !append_assoc; cbn [String.append]); rewrite ?append_nil_r; reflexivity.

Section Service.
Context (c : DockerComposeConfig) (i : Z) (n : NodeConfig).

(** The variables while the service is written. *)
Let vars : Vars := bind_vars (Some "i") "node" i (VNodeConfig n) [("", VDockerComposeConfig c)].

Lemma iterate_deps deps j :
  iterate None "dep" [NText (newline +:+ "      - injectived"); NOut (OVar "dep" []); NText ""] vars j
    (map VInt deps)
  = Some (after_newline (map (fun d => "      - " +:+ service_name d) deps)).
Proof.
  revert j. induction deps as [|d deps IH]; intros j; [done|]. cbn [map iterate].
  rewrite IH, after_newline_cons. cbv -[String.append strconv_Itoa after_newline]. by rewrite ?append_assoc.
Qed.

Lemma walk_depends : walk depends_node vars (VNodeConfig n) = Some (after_newline (depends_lines (DependsOn n))).
Proof.
  unfold depends_node. rewrite walk_if.
  change (evalCond _ _ _) with (Some (isTrue (VList (map VInt (DependsOn n))))). cbn [mbind option_bind].
  pose proof (iterate_deps (DependsOn n) 0) as H. destruct (DependsOn n) as [|d l] eqn:E; [done|].
  cbn [map isTrue walks]. rewrite walk_range.
  change (evalOperand vars (VNodeConfig n) (OVar "node" ["DependsOn"]))
    with (Some (VList (map VInt (DependsOn n)))).
  rewrite E. cbn [mbind option_bind]. rewrite H. cbn [mbind option_bind walk depends_lines].
  by rewrite !append_nil_r, (after_newline_cons "    depends_on:"), append_assoc.
Qed.


Lemma walk_head :
  walks (take 13 service_nodes) vars (VNodeConfig n) = Some (after_newline (service_head c i n)).
Proof.
  let t := eval vm_compute in (take 13 service_nodes) in change (take 13 service_nodes) with t.
  unfold vars. destruct c as [im [] lf ch ns sub], n as [ho mo pe il ia po pp pi nk vk ti da pl ex de]; texts.
Qed.

Definition ports_node : node := nth 13 service_nodes (NText "").

Lemma walk_ports :
  walk ports_node vars (VNodeConfig n)
  = Some (after_newline (if nc_PortsExposed n then port_lines (nc_Ports n) else [])).
Proof.
  let t := eval vm_compute in ports_node in change ports_node with t.
  unfold vars. destruct n as [ho mo pe il ia po pp pi nk vk ti da pl [] de]; cbn [nc_PortsExposed nc_Ports];
    [|done].
  destruct po as [p1 p2 p3 p4 p5 p6 p7 p8 p9 p10]. unfold port_lines. cbn [EVMRPC Prometheus].
  destruct (p8 =? 0) eqn:E8, (p7 =? 0) eqn:E7.
  all: cbv -[String.append strconv_Itoa Z.eqb]; rewrite E7, E8. 
  all: texts.
Qed.

Lemma walk_volumes :
  walks (drop 14 (take 19 service_nodes)) vars (VNodeConfig n)
  = Some (after_newline (volume_lines n)).
Proof.
  let t := eval vm_compute in (drop 14 (take 19 service_nodes)) in
    change (drop 14 (take 19 service_nodes)) with t.
  unfold vars. destruct n as [ho mo pe il [|] po pp pi nk vk ti da pl ex de]; texts.
Qed.

Lemma service_nodes_parts :
  service_nodes = take 13 service_nodes ++ [ports_node] ++ drop 14 (take 19 service_nodes)
                  ++ [depends_node; NText command_text].
Proof. vm_compute. reflexivity. Qed.

(** What a service renders to. *)
Lemma walk_service :
  walks service_nodes vars (VNodeConfig n) = Some (after_newline (service_lines c i n)).
Proof.
  rewrite service_nodes_parts, !walks_app, walk_head, walk_volumes. cbn [walks].
  rewrite walk_ports, walk_depends. cbn [mbind option_bind walk].
  unfold service_lines. rewrite !after_newline_app, ?append_nil_r, ?append_assoc. reflexivity.
Qed.
End Service.

Lemma iterate_services c i nodes :
  iterate (Some "i") "node" service_nodes [("", VDockerComposeConfig c)] i (map VNodeConfig nodes)
  = Some (after_newline (services c i nodes)).
Proof.
  revert i. induction nodes as [|n nodes IH]; intros i; [done|]. cbn [map iterate services].
  rewrite walk_service, IH. cbn [mbind option_bind]. by rewrite after_newline_app.
Qed.

Theorem compose_rendered c : compose_text c = Ok (unlines (compose_lines c)).
Proof.
  unfold compose_text, render, Execute. rewrite parse_compose. cbn [orPanic go_bind walks].
  rewrite walk_range. change (evalOperand _ _ (ODot ["Nodes"])) with (Some (VList (map VNodeConfig (dc_Nodes c)))).
  cbn [mbind option_bind]. rewrite iterate_services. cbn [walk mbind option_bind].
  change (evalOperand _ _ (ODot ["Network"; "Subnet"])) with (Some (VString (dc_Subnet c))).
  cbn [mbind option_bind printValue]. unfold compose_lines. cbn [app]. 
  rewrite unlines_after, after_newline_app. f_equal. cbn [orPanic]. by rewrite !append_assoc.
Qed.

(** ** Settings of a TOML file

    A reader of the two configuration files: sections begin with a line [[name]],
    a setting is a line [key = value], and [""] is the part before the first
    section.  It reads characters or the fields a template leaves open. *)

Abbreviation piece := (ascii + list string)%type.

Definition chars (s : string) : list piece := map inl (list_ascii_of_string s).

(** The text after [p]; [None] when an open field is in the way. *)
Fixpoint match_prefix (p : list ascii) (l : list piece) : option (option (list piece)) :=
  match p, l with
  | [], _ => Some (Some l)
  | c :: p', [] => Some None
  | c :: p', inl d :: l' => if decide (c = d) then match_prefix p' l' else Some None
  | c :: p', inr _ :: l' => None
  end.

Fixpoint piece_lines (l : list piece) : list (list piece) :=
  match l with
  | [] => [[]]
  | x :: l' =>
      if decide (x = inl "010"%char) then [] :: piece_lines l'
      else match piece_lines l' with
           | w :: ws => (x :: w) :: ws
           | [] => [[x]]
           end
  end.

(** The value of [key] in section [sec]; [inside] says whether the line is in it. *)
Fixpoint find_setting (sec key : string) (inside : bool) (ls : list (list piece))
    : option (option (list piece)) :=
  match ls with
  | [] => Some None
  | l :: ls' =>
      bracket ← match_prefix ["["%char] l;
      match bracket with
      | Some _ =>
          header ← match_prefix (list_ascii_of_string ("[" +:+ sec +:+ "]")) l;
          find_setting sec key (bool_decide (is_Some header)) ls'
      | None =>
          if inside then
            v ← match_prefix (list_ascii_of_string (key +:+ " = ")) l;
            match v with Some v => Some (Some v) | None => find_setting sec key inside ls' end
          else find_setting sec key inside ls'
      end
  end.

Definition setting_pieces (l : list piece) (sec key : string) : option (option (list piece)) :=
  find_setting sec key (bool_decide (sec = "")) (piece_lines l).

(** The field's text in place of the field. *)
Definition subst (env : list string -> string) (l : list piece) : list piece :=
  x ← l; match x with inl c => [inl c] | inr f => chars (env f) end.

Fixpoint text_of (l : list piece) : string :=
  match l with
  | [] => ""
  | inl c :: l' => String c (text_of l')
  | inr _ :: l' => text_of l'
  end.

(** The value of a setting in a text. *)
Definition setting (text sec key : string) : option string :=
  match setting_pieces (chars text) sec key with
  | Some (Some v) => Some (text_of v)
  | _ => None
  end.

Section Substitution.
Context (env : list string -> string).

Lemma subst_cons x l :
  subst env (x :: l) = (match x with inl c => [inl c] | inr f => chars (env f) end) ++ subst env l.
Proof. reflexivity. Qed.

Lemma subst_app l1 l2 : subst env (l1 ++ l2) = subst env l1 ++ subst env l2.
Proof. unfold subst. by rewrite bind_app. Qed.

Lemma subst_chars s : subst env (chars s) = chars s.
Proof. unfold chars. induction (list_ascii_of_string s) as [|c l IH]; [done|]. cbn [map]. by rewrite subst_cons, IH. Qed.

Lemma match_prefix_subst p l r :
  match_prefix p l = Some r -> match_prefix p (subst env l) = Some (subst env <$> r).
Proof.
  revert l. induction p as [|c p IH]; intros l; [by intros [= <-]|].
  destruct l as [|[d|f] l]; [by intros [= <-]| |done]. rewrite subst_cons. cbn [match_prefix app].
  destruct (decide (c = d)); [apply IH|by intros [= <-]].
Qed.

(** The fields in use have no newline. *)
Definition one_line (l : list piece) : Prop :=
  Forall (fun x => match x with inl _ => True | inr f => lacks "010" (env f) = true end) l.

Lemma piece_lines_cons l : exists w ws, piece_lines l = w :: ws.
Proof. destruct l as [|x l]; cbn; [eauto|]. case_decide; [eauto|]. destruct (piece_lines l); eauto. Qed.

Lemma piece_lines_chars s l w ws :
  lacks "010" s = true -> piece_lines l = w :: ws -> piece_lines (chars s ++ l) = (chars s ++ w) :: ws.
Proof.
  intros Hs Hl. induction s as [|c s IH]; [done|]. cbn [lacks] in Hs. apply andb_true_iff in Hs as [Hc Hs].
  change (chars (String c s)) with (inl c :: chars s). cbn [app piece_lines].
  rewrite decide_False; [by rewrite IH|]. intros [= ->]. by rewrite bool_decide_eq_true_2 in Hc.
Qed.

Lemma piece_lines_subst l :
  one_line l -> piece_lines (subst env l) = map (subst env) (piece_lines l).
Proof.
  induction 1 as [|x l Hx _ IH]; [done|]. destruct (piece_lines_cons l) as (w & ws & E). rewrite E in IH.
  rewrite subst_cons. destruct x as [c|f].
  - cbn [app piece_lines]. rewrite IH, E. cbn [map]. by repeat case_decide.
  - cbn [piece_lines]. rewrite decide_False by done. rewrite E. cbn [map]. rewrite subst_cons.
    by apply piece_lines_chars.
Qed.

Lemma find_setting_subst sec key inside ls r :
  find_setting sec key inside ls = Some r ->
  find_setting sec key inside (map (subst env) ls) = Some (subst env <$> r).
Proof.
  revert inside. induction ls as [|l ls IH]; intros inside; cbn [find_setting map]; [by intros [= <-]|].
  destruct (match_prefix ["["%char] l) as [b|] eqn:Eb; [|done]. cbn [mbind option_bind].
  rewrite (match_prefix_subst _ _ _ Eb). destruct b as [b|]; cbn [mbind option_bind fmap option_fmap option_map].
  - destruct (match_prefix (list_ascii_of_string _) l) as [h|] eqn:Eh; [|done]. cbn [mbind option_bind].
    rewrite (match_prefix_subst _ _ _ Eh). cbn [mbind option_bind]. intros H. destruct h; by apply IH.
  - destruct inside; [|apply IH].
    destruct (match_prefix (list_ascii_of_string _) l) as [v|] eqn:Ev; [|done]. cbn [mbind option_bind].
    rewrite (match_prefix_subst _ _ _ Ev). destruct v as [v|]; [by intros [= <-]|apply IH].
Qed.

Lemma text_of_app l1 l2 : text_of (l1 ++ l2) = text_of l1 +:+ text_of l2.
Proof. induction l1 as [|[c|f] l1 IH]; [done| |done]. cbn [app text_of]. by rewrite IH. Qed.

Lemma text_of_chars s : text_of (chars s) = s.
Proof. unfold chars. induction s as [|c s IH]; [done|]. cbn. by f_equal. Qed.

End Substitution.

(** ** Settings of rendered templates *)

(** A template of text and fields of the data only. *)
Fixpoint pieces_of (nodes : list node) : option (list piece) :=
  match nodes with
  | [] => Some []
  | NText s :: l => app (chars s) <$> pieces_of l
  | NOut (ODot fs) :: l => cons (inr fs) <$> pieces_of l
  | _ => None
  end.

Definition field_text (v : value) (fs : list string) : string :=
  default "" (evalFields v fs ≫= printValue).

Definition template_pieces (text : string) : option (list piece) :=
  match Parse text with Ok nodes => pieces_of nodes | _ => None end.

Fixpoint open_fields (l : list piece) : list (list string) :=
  match l with
  | [] => []
  | inl _ :: l' => open_fields l'
  | inr f :: l' => f :: open_fields l'
  end.

Definition template_fields (text : string) : list (list string) :=
  match template_pieces text with Some l => open_fields l | None => [] end.

Definition template_setting (text sec key : string) : option (list piece) :=
  match template_pieces text with
  | Some l => match setting_pieces l sec key with Some r => r | None => None end
  | None => None
  end.

Lemma chars_app s1 s2 : chars (s1 +:+ s2) = chars s1 ++ chars s2.
Proof. unfold chars. induction s1 as [|c s1 IH]; [done|]. cbn. by f_equal. Qed.

Lemma flat_walks nodes l vars v s :
  pieces_of nodes = Some l -> walks nodes vars v = Some s -> chars s = subst (field_text v) l.
Proof.
  revert l s. induction nodes as [|n nodes IH]; intros l s; cbn [pieces_of walks]; [by intros [= <-] [= <-]|].
  destruct n as [t|[b|x fs|fs]| |]; try done; cbn [walk evalOperand mbind option_bind].
  - destruct (pieces_of nodes) as [l'|]; [|done]. intros [= <-].
    destruct (walks nodes vars v) as [r|]; [|done]. intros [= <-].
    rewrite subst_app, subst_chars, <- (IH l' r) by done. by rewrite chars_app.
  - destruct (pieces_of nodes) as [l'|]; [|done]. intros [= <-].
    destruct (evalFields v fs ≫= printValue) as [t|] eqn:E; [|done]. cbn [mbind option_bind].
    destruct (walks nodes vars v) as [r|]; [|done]. intros [= <-].
    rewrite subst_cons, <- (IH l' r) by done. unfold field_text. rewrite E.
    by rewrite chars_app.
Qed.

Lemma one_line_fields env l :
  Forall (fun f => lacks "010" (env f) = true) (open_fields l) -> one_line env l.
Proof.
  induction l as [|[c|f] l IH]; cbn [open_fields]; intros H; [constructor|constructor; [done|by apply IH]|].
  apply Forall_cons in H as [Hf Hl]. constructor; [done|by apply IH].
Qed.

(** A setting of the template, with its fields filled in, is a setting of the
    rendered text, when no field of the template has a newline. *)
Lemma template_setting_rendered text v s sec key r :
  render text v = Ok s ->
  Forall (fun f => lacks "010" (field_text v f) = true) (template_fields text) ->
  template_setting text sec key = Some r ->
  setting s sec key = Some (text_of (subst (field_text v) r)).
Proof.
  unfold render, template_fields, template_setting, template_pieces, Execute.
  destruct (Parse text) as [nodes| |]; try done. cbn [orPanic go_bind].
  destruct (pieces_of nodes) as [l|] eqn:El; [|done].
  destruct (walks nodes _ v) as [t|] eqn:Et; [|done]. cbn [orPanic]. intros [= <-] HF.
  destruct (setting_pieces l sec key) as [o|] eqn:Es; [|done]. intros ->.
  unfold setting, setting_pieces in *. rewrite (flat_walks _ _ _ _ _ El Et).
  rewrite piece_lines_subst by by apply one_line_fields.
  by rewrite (find_setting_subst _ _ _ _ _ _ Es).
Qed.

(** *** Texts without a newline *)

Lemma lacks_app c s1 s2 : lacks c (s1 +:+ s2) = lacks c s1 && lacks c s2.
Proof. induction s1 as [|d s1 IH]; [done|]. cbn [String.append lacks]. by rewrite IH, andb_assoc. Qed.

Lemma lacks_Join c l sep :
  lacks c sep = true -> Forall (fun s => lacks c s = true) l -> lacks c (strings_Join l sep) = true.
Proof.
  intros Hs. unfold strings_Join. induction 1 as [|s l Hx Hl IH]; [done|].
  destruct l as [|s' l]; [done|]. change (String.concat sep (s :: s' :: l))
    with (s +:+ sep +:+ String.concat sep (s' :: l)). by rewrite !lacks_app, Hx, Hs, IH.
Qed.

Lemma lacks_Itoa n : lacks "010" (strconv_Itoa n) = true.
Proof.
  assert (forall m, 0 <= m -> lacks "010" (itoa_nonneg m) = true) as H.
  { intros m Hm. apply digits_lack; [done|by apply itoa_nonneg_digits]. }
  unfold strconv_Itoa. destruct (n <? 0) eqn:E; bool_facts; [|by apply H].
  cbn [String.append lacks]. rewrite H by lia. done.
Qed.

Lemma lacks_ip ip : lacks "010" (ip_text ip) = true.
Proof.
  unfold ip_text, IP_String. case_decide; [done|]. apply lacks_Join; [done|].
  apply Forall_fmap, Forall_forall. intros n _. apply lacks_Itoa.
Qed.

(** *** The settings of the application and node configurations *)

(** What a setting is expected to hold: text, and fields of the data. *)
Inductive expected :=
| XText (s : string)
| XField (fs : list string).

Definition expected_pieces (l : list expected) : list piece :=
  x ← l; match x with XText s => chars s | XField fs => [inr fs] end.

Definition expected_text (v : value) (l : list expected) : string :=
  String.concat "" (map (fun x => match x with XText s => s | XField fs => field_text v fs end) l).

Lemma expected_text_ok v l : text_of (subst (field_text v) (expected_pieces l)) = expected_text v l.
Proof.
  unfold expected_text. induction l as [|x l IH]; [done|]. cbn [map]. rewrite concat_cons_empty, <- IH.
  unfold expected_pieces. cbn [mbind list_bind]. rewrite subst_app, text_of_app. f_equal.
  destruct x as [s|fs]; [by rewrite subst_chars, text_of_chars|].
  rewrite subst_cons, text_of_app, text_of_chars. apply append_nil_r.
Qed.

Definition quoted (l : list expected) : list expected := [XText (quotes "^")] ++ l ++ [XText (quotes "^")].
Definition listens (scheme port : string) : list expected :=
  quoted [XText scheme; XField ["IPListen"]; XText ":"; XField ["Ports"; port]].

Abbreviation Settings := (list (string * string * list expected)).

(** Section, key and value of what the templates fill in. *)
Definition app_settings (t : appTemplate) : Settings :=
  [("", "minimum-gas-prices", quoted [XField ["MinimumGasPrices"]]);
   ("api", "enable", [XText "true"]); ("api", "address", listens "tcp://" "API");
   ("grpc", "enable", [XText "true"]); ("grpc", "address", listens "" "GRPC")]
  ++ match t with
     | AppEvm => [("json-rpc", "enable", [XText "true"]); ("json-rpc", "address", listens "" "EVMRPC");
                  ("json-rpc", "ws-address", listens "" "EVMWSPort")]
     | _ => [("grpc-web", "enable", [XText "true"]); ("grpc-web", "address", listens "" "GRPCWeb")]
     end.

Definition node_settings : Settings :=
  [("", "proxy_app", quoted [XText "tcp://127.0.0.1:"; XField ["Ports"; "ProxyApp"]]);
   ("", "moniker", quoted [XField ["Moniker"]]); ("rpc", "laddr", listens "tcp://" "RPC");
   ("rpc", "pprof_laddr", listens "" "PProf"); ("p2p", "laddr", listens "tcp://" "P2P");
   ("p2p", "persistent_peers", quoted [XField ["PersistentPeers"]]);
   ("p2p", "private_peer_ids", quoted [XField ["PrivatePeerIds"]]);
   ("storage", "discard_abci_responses", [XField ["DiscardABCIResponses"]]);
   ("tx_index", "indexer", quoted [XField ["TxIndexer"]]);
   ("instrumentation", "prometheus", [XText "false"]);
   ("instrumentation", "prometheus_listen_addr", listens "" "Prometheus")].

(** The template has these settings, and no other fields than [fields]. *)
Definition has_settings (text : string) (fields : list (list string)) (l : Settings) : bool :=
  match template_pieces text with
  | Some ps =>
      forallb (fun f => bool_decide (f ∈ fields)) (open_fields ps)
      && forallb (fun '(sec, key, v) => bool_decide (setting_pieces ps sec key = Some (Some (expected_pieces v)))) l
  | None => false
  end.

Definition port_fields (l : list string) : list (list string) := map (fun p => ["Ports"; p]) l.

Definition app_fields : list (list string) :=
  [["MinimumGasPrices"]; ["IPListen"]] ++ port_fields ["API"; "GRPC"; "GRPCWeb"; "EVMRPC"; "EVMWSPort"].

Definition node_fields : list (list string) :=
  [["Moniker"]; ["IPListen"]; ["PersistentPeers"]; ["PrivatePeerIds"]; ["DiscardABCIResponses"]; ["TxIndexer"]]
  ++ port_fields ["ProxyApp"; "RPC"; "PProf"; "P2P"; "Prometheus"].

Lemma app_has_settings t : has_settings (app_template_text t) app_fields (app_settings t) = true.
Proof. destruct t; vm_compute; reflexivity. Qed.

Lemma node_has_settings : has_settings configProdTplTOML node_fields node_settings = true.
Proof. vm_compute. reflexivity. Qed.

(** The settings of a text, one by one. *)
Definition holds_settings (v : value) (text : string) (l : Settings) : Prop :=
  Forall (fun x => setting text x.1.1 x.1.2 = Some (expected_text v x.2)) l.

Lemma has_settings_rendered text fields l v s :
  has_settings text fields l = true -> render text v = Ok s ->
  Forall (fun f => lacks "010" (field_text v f) = true) fields -> holds_settings v s l.
Proof.
  unfold has_settings. destruct (template_pieces text) as [ps|] eqn:E; [|done].
  intros [H1 H2]%andb_true_iff Hr HF.
  apply Forall_forall. intros [[sec key] x] Hx. cbn [fst snd].
  rewrite forallb_forall in H2. specialize (H2 (sec, key, x)). rewrite <- list_elem_of_In in H2.
  specialize (H2 Hx). apply bool_decide_eq_true in H2.
  rewrite (template_setting_rendered text v s sec key (expected_pieces x) Hr).
  - by rewrite expected_text_ok.
  - unfold template_fields. rewrite E. apply Forall_forall. intros f Hf.
    rewrite Forall_forall in HF. apply HF. rewrite forallb_forall in H1.
    apply (bool_decide_eq_true_1 _), H1. by apply list_elem_of_In.
  - unfold template_setting. by rewrite E, H2.
Qed.

(** ** Theorems *)

(** C33. Rendering never panics: each of the eight templates parses, and executes on
    every configuration the program gives it, whatever its values. *)
Theorem templates_render :
  (forall t c, exists s, app_text t c = Ok s)
  /\ (forall n, exists s, config_prod_text n = Ok s)
  /\ (forall c, exists s, genesis_text c = Ok s)
  /\ (forall c, exists s, compose_text c = Ok s).
Proof.
  split_and!; intros; eapply template_ok_renders.
  - apply app_template_ok.
  - apply VAppConfig_typed.
  - apply node_template_ok.
  - apply VNodeConfig_typed.
  - apply genesis_template_ok.
  - apply VGenesisConfig_typed.
  - apply compose_template_ok.
  - apply VDockerComposeConfig_typed.
Qed.

Lemma app_fields_lack c :
  lacks "010" (MinimumGasPrices c) = true ->
  Forall (fun f => lacks "010" (field_text (VAppConfig c) f) = true) app_fields.
Proof. intros Hm. unfold app_fields. repeat constructor; first [exact Hm|apply lacks_ip|apply lacks_Itoa]. Qed.

Lemma node_fields_lack n :
  Forall (fun s => lacks "010" s = true) [Moniker n; PersistentPeers n; PrivatePeerIds n; TxIndexer n] ->
  Forall (fun f => lacks "010" (field_text (VNodeConfig n) f) = true) node_fields.
Proof.
  rewrite !Forall_cons. intros (? & ? & ? & ? & _). unfold node_fields.
  repeat constructor; try first [assumption|apply lacks_ip|apply lacks_Itoa].
  change (field_text _ _) with (if DiscardABCIResponses n then "true" else "false").
  by destruct (DiscardABCIResponses n).
Qed.

Lemma app_rendered t c :
  lacks "010" (MinimumGasPrices c) = true ->
  exists s, app_text t c = Ok s /\ holds_settings (VAppConfig c) s (app_settings t).
Proof.
  intros Hm. destruct (template_ok_renders _ _ _ (app_template_ok t) (VAppConfig_typed c)) as [s Hs].
  exists s. split; [exact Hs|].
  exact (has_settings_rendered _ _ _ _ _ (app_has_settings t) Hs (app_fields_lack c Hm)).
Qed.

Lemma node_rendered n :
  Forall (fun s => lacks "010" s = true) [Moniker n; PersistentPeers n; PrivatePeerIds n; TxIndexer n] ->
  exists s, config_prod_text n = Ok s /\ holds_settings (VNodeConfig n) s node_settings.
Proof.
  intros HF. destruct (template_ok_renders _ _ _ node_template_ok (VNodeConfig_typed n)) as [s Hs].
  exists s. split; [exact Hs|].
  exact (has_settings_rendered _ _ _ _ _ node_has_settings Hs (node_fields_lack n HF)).
Qed.
