(* ===== verification/Deployment.v ===== *)
(** * The deployment as docker-compose and the nodes read it

    The application configuration of every node of a generated network, and the
    ports the docker-compose file publishes against the addresses the published
    node listens on. *)

From Stdlib Require Import ZArith Lia Ascii String.
From stdpp Require Import base list strings numbers gmap.
From S2P Require Import Prelude GoStrings Float64 Sdk SdkModel Chain Genesis Generator.
From S2P Require Import Template TemplateTexts Rendering.

Open Scope string_scope.
Open Scope Z_scope.
Open Scope list_scope.

Section Deployment.
Context `{TC : TxConfig, CR : Crypto, SM : SdkMath, GL : GenesisLib, KG : KeyGen}.
Implicit Types env : GeneratorEnvironment.

(** ** The application configurations *)

Definition app_template env : appTemplate :=
  if EvmEnabled env then AppEvm else if ProdLike env then AppProd else AppDefault.

(** The file of node [k]. *)
Definition app_file env (ports : Ports) (exposed : bool) : File :=
  FApp (app_template env) (app_config env ports exposed).

Definition app_path (dir : string) : string := dir_file dir "config" "app.toml".

Lemma AppConfig_Save_eq fs env ports exposed dir :
  AppConfig_Save fs (app_config env ports exposed) dir = WriteFile fs (app_path dir) (app_file env ports exposed).
Proof. unfold app_path. rewrite <- dir_file_config. reflexivity. Qed.

(** The first [n] nodes of a kind have their application configuration. *)
Definition app_ok env (fs : FS) (kind : string) (n : Z) (file : Z -> File) : Prop :=
  forall k, 0 <= k < n -> fs !! in_dir env kind k ["config"; "app.toml"] = Some (file k).

Lemma app_ok_named env fs fs' kind n file :
  same_named "app.toml" fs fs' -> app_ok env fs kind n file -> app_ok env fs' kind n file.
Proof. intros Hs H k Hk. rewrite Hs; [by apply H|]. unfold named, in_dir. by rewrite last_app. Qed.

Lemma app_ok_write env fs kind j file dir :
  0 <= j -> (forall x, path_of (dir +:+ String "/" x) = in_dir env kind j (path_of x)) ->
  let fs' := WriteFile fs (app_path dir) (file j) in
  (app_ok env fs kind j file -> app_ok env fs' kind (j + 1) file)
  /\ (forall kind' n file', kind' <> kind -> app_ok env fs kind' n file' -> app_ok env fs' kind' n file').
Proof.
  intros Hj Hdir fs'. unfold fs'.
  assert (path_of (app_path dir) = in_dir env kind j ["config"; "app.toml"]) as Hp.
  { unfold app_path. rewrite <- dir_file_config. by rewrite Hdir. }
  split.
  - intros H k Hk. destruct (decide (k = j)) as [->|Hne]; [rewrite <- Hp; apply WriteFile_eq|].
    rewrite WriteFile_ne; [apply H; lia|]. rewrite Hp. intros (_ & ? & _)%in_dir_inj; lia.
  - intros kind' n file' Hne H k Hk. rewrite WriteFile_ne; [by apply H|]. rewrite Hp.
    intros (? & _)%in_dir_inj; [done|lia|lia].
Qed.

Definition validator_app env (k : Z) : File := app_file env (validator_ports env k) (validator_exposed env k).
Definition sentry_app env (k : Z) : File := app_file env DefaultPorts (k =? 0).

Lemma app_not_node : "app.toml" ∉ node_files.
Proof. refine (bool_decide_unpack _ _). by vm_compute. Qed.

Lemma validators_app env n st st' :
  for_loop n 0 (validator_step env) st = Ok st' ->
  app_ok env (gs_fs st') "validators" (Z.of_nat n) (validator_app env).
Proof.
  intros H. refine (_ (for_loop_inv (fun j s => app_ok env (gs_fs s) "validators" j (validator_app env))
    _ _ _ _ _ _ _ H)).
  - by rewrite Z.add_0_l.
  - intros j s s' Hj Hs (ip & _ & Hb)%go_bind_Ok.
    apply go_bind_Ok in Hb as (g1 & _ & Hb). apply go_bind_Ok in Hb as (g2 & _ & Hb). injection Hb as <-.
    cbn [gs_fs]. rewrite AppConfig_Save_eq.
    set (fs1 := NodeConfig_Save _ _ _). set (dir := rootOutDir env +:+ "/" +:+ validator_dir j).
    destruct (app_ok_write env fs1 "validators" j (validator_app env) dir) as [Hw _];
      [lia|intros x; apply path_validator; lia|].
    apply Hw. eapply app_ok_named; [apply NodeConfig_Save_named, app_not_node|exact Hs].
  - intros k. lia.
Qed.

(** The stages between leave the files as they are. *)
Lemma accounts_fs n i st accs r : for_loop n i account_step (st, accs) = Ok r -> gs_fs r.1 = gs_fs st.
Proof.
  intros H. refine (for_loop_inv (fun _ s => gs_fs s.1 = gs_fs st) account_step n i (st, accs) r _ eq_refl H).
  intros j [s a] s' _ Hs (g & _ & Hb)%go_bind_Ok. injection Hb as <-. exact Hs.
Qed.

Lemma instances_app env n st st' :
  for_loop n 0 (instance_step env) st = Ok st' -> same_named "app.toml" (gs_fs st) (gs_fs st').
Proof.
  intros H. refine (for_loop_inv (fun _ s => same_named "app.toml" (gs_fs st) (gs_fs s)) _ _ _ _ _ _
    (same_named_refl _ _) H).
  intros j s s' _ Hs. unfold instance_step. destruct (_ <? 0); [done|].
  intros ([s1 accs] & Hacc & Hb)%go_bind_Ok. injection Hb as <-. cbn [with_fs gs_fs].
  apply accounts_fs in Hacc. cbn [fst] in Hacc. rewrite Hacc.
  eapply same_named_trans; [exact Hs|]. by eapply (WriteFile_named "app.toml" "accounts.json").
Qed.

Lemma genesis_app env n st st' :
  for_loop n 0 (genesis_step env) st = Ok st' -> same_named "app.toml" (gs_fs st) (gs_fs st').
Proof.
  intros H. refine (for_loop_inv (fun _ s => same_named "app.toml" (gs_fs st) (gs_fs s)) _ _ _ _ _ _
    (same_named_refl _ _) H).
  intros j s s' _ Hs (g & doc & _ & ->)%save_genesis_Ok. cbn [with_fs gs_fs].
  eapply same_named_trans; [exact Hs|]. by eapply WriteFile_named.
Qed.

Lemma sentries_app env n st st' nv :
  app_ok env (gs_fs st) "validators" nv (validator_app env) ->
  for_loop n 0 (sentry_step env) st = Ok st' ->
  app_ok env (gs_fs st') "validators" nv (validator_app env)
  /\ app_ok env (gs_fs st') "sentry-nodes" (Z.of_nat n) (sentry_app env).
Proof.
  intros Hv H. refine (for_loop_inv (fun j s => app_ok env (gs_fs s) "validators" nv (validator_app env)
    /\ app_ok env (gs_fs s) "sentry-nodes" j (sentry_app env)) _ _ _ _ _ _ _ H).
  - intros j s s' Hj [Hs1 Hs2] (ip & fs & g & doc & _ & -> & _ & _ & -> & _)%sentry_step_Ok.
    rewrite AppConfig_Save_eq. set (dir := rootOutDir env +:+ "/" +:+ sentry_dir j).
    set (fs1 := NodeConfig_Save _ _ _).
    assert (same_named "app.toml" (gs_fs s) fs1) as Hn by apply NodeConfig_Save_named, app_not_node.
    destruct (app_ok_write env fs1 "sentry-nodes" j (sentry_app env) dir) as [Hw Hw'];
      [lia|intros x; apply path_sentry; lia|].
    split; (eapply app_ok_named; [by eapply (WriteFile_named "app.toml" "genesis.json")|]).
    + apply Hw'; [done|]. by eapply app_ok_named.
    + apply Hw. by eapply app_ok_named.
  - split; [done|]. intros k. lia.
Qed.

Lemma ids_named fs dir sub f :
  same_named "app.toml" fs (WriteFile fs (dir +:+ String "/" (sub +:+ String "/" "ids.json")) f).
Proof.
  intros q Hq. apply WriteFile_ne. intros ->. unfold named in Hq.
  rewrite !path_of_slash, app_assoc, last_app in Hq. discriminate Hq.
Qed.

(** Every node of the network has the application configuration of its ports. *)
Lemma generated_apps env st :
  GenerateConfigs env = Ok st -> 0 <= NumOfSentryNodes env ->
  app_ok env (gs_fs st) "validators" (NumOfValidators env) (validator_app env)
  /\ app_ok env (gs_fs st) "sentry-nodes" (NumOfSentryNodes env) (sentry_app env).
Proof.
  intros (HI & HV & g & s1 & s2 & s3 & s4 & s5 & _ & H1 & H2 & H3 & H4 & H5 & Hst)%GenerateConfigs_stages HS.
  apply validators_app in H1. rewrite Z2Nat.id in H1 by lia.
  apply instances_app in H2. apply genesis_app in H3. cbn [with_fs gs_fs] in H2.
  assert (app_ok env (gs_fs s3) "validators" (NumOfValidators env) (validator_app env)) as Hv3.
  { eapply app_ok_named; [exact H3|]. eapply app_ok_named; [exact H2|]. eapply app_ok_named; [|exact H1].
    exact (ids_named (gs_fs s1) (rootOutDir env) "validators" (FIds (validatorNodeIDs s1))). }
  assert (app_ok env (gs_fs s4) "validators" (NumOfValidators env) (validator_app env)
    /\ app_ok env (gs_fs s4) "sentry-nodes" (NumOfSentryNodes env) (sentry_app env)) as [Hv4 Hs4].
  { unfold sentry_nodes in H4. destruct (0 <? _) eqn:E; bool_facts.
    - apply go_bind_Ok in H4 as (s & Hs & H4). injection H4 as <-. cbn [with_fs gs_fs].
      destruct (sentries_app _ _ _ _ _ Hv3 Hs) as [Hv Hn]. rewrite Z2Nat.id in Hn by lia.
      pose proof (ids_named (gs_fs s) (rootOutDir env) "sentry-nodes" (FIds (sentryNodeIDs s))) as Hids.
      split; by (eapply app_ok_named; [exact Hids|]).
    - injection H4 as <-. split; [done|]. intros k. lia. }
  apply (peers_frame env _ _ _ _ "app.toml" app_not_node) in H5.
  assert (same_named "app.toml" (gs_fs s5) (gs_fs st)) as H6.
  { subst st. destruct (LocalNative env); [apply same_named_refl|by apply Compose_named]. }
  split; by (eapply app_ok_named; [exact H6|]; eapply app_ok_named; [exact H5|]).
Qed.
(** ** What docker-compose publishes *)

Definition compose_of env (nodes : list NodeConfig) : DockerComposeConfig :=
  {| dc_Image := DockerImage env; dc_Debug := env_Debug env; dc_LogFile := "injectived.log";
     dc_ChainID := env_ChainID env; dc_Nodes := nodes; dc_Subnet := DockerSubnet env |}.

Lemma generated_compose env st :
  GenerateConfigs env = Ok st -> LocalNative env = false ->
  gs_fs st !! (path_of (rootOutDir env) ++ ["docker-compose.yml"])
  = Some (FCompose (compose_of env (allNodeConfigs st))).
Proof.
  intros (_ & _ & g & s1 & s2 & s3 & s4 & s5 & _ & _ & _ & _ & _ & _ & ->)%GenerateConfigs_stages ->.
  cbn [with_fs gs_fs allNodeConfigs]. change ["docker-compose.yml"] with (path_of "docker-compose.yml").
  rewrite <- path_of_slash. apply WriteFile_eq.
Qed.

Lemma services_ports c i nodes n line :
  n ∈ nodes -> nc_PortsExposed n = true -> line ∈ port_lines (nc_Ports n) -> line ∈ services c i nodes.
Proof.
  intros Hn He Hl. revert i. induction Hn as [n nodes|n m nodes Hn IH]; intros i; cbn [services];
    apply elem_of_app; [left|right; by apply IH].
  unfold service_lines. rewrite He, !elem_of_app. tauto.
Qed.

(** The node whose ports are published, and its directory. *)
Definition exposed_node env : NodeConfig := if NumOfSentryNodes env =? 0 then vfinal env 0 else snode env 0.
Definition exposed_kind env : string := if NumOfSentryNodes env =? 0 then "validators" else "sentry-nodes".

Lemma exposed_in env st :
  GenerateConfigs env = Ok st -> 0 <= NumOfSentryNodes env -> exposed_node env ∈ allNodeConfigs st.
Proof.
  intros H HS. destruct (GenerateConfigs_nodes env st H HS) as (-> & _).
  apply GenerateConfigs_stages in H as (_ & HV & _).
  pose proof (exposed_one env HV HS) as Hf. fold (exposed_node env) in Hf.
  refine (proj2 (proj1 (list_elem_of_filter _ _ _) _)). rewrite Hf. apply list_elem_of_here.
Qed.

Lemma exposed_facts env :
  LocalNative env = false -> nc_PortsExposed (exposed_node env) = true
  /\ nc_Ports (exposed_node env) = DefaultPorts /\ nc_IPListen (exposed_node env) = IPv4zero
  /\ nc_ProdLike (exposed_node env) = ProdLike env.
Proof.
  intros HL. unfold exposed_node. destruct (NumOfSentryNodes env =? 0) eqn:E; [|done].
  cbn. unfold validator_exposed, validator_ports. by rewrite HL, E.
Qed.

(** A published port, and the setting of the application that serves it. *)
Definition app_published (t : appTemplate) : list (string * (string * string * string)) :=
  [(port_line "10337" "10337", ("api", "address", dq "tcp://0.0.0.0:10337"));
   (port_line "9900" "9900", ("grpc", "address", dq "0.0.0.0:9900"))]
  ++ match t with
     | AppEvm => [(port_line "8545-8546" "8545-8546", ("json-rpc", "address", dq "0.0.0.0:8545"));
                  (port_line "8545-8546" "8545-8546", ("json-rpc", "ws-address", dq "0.0.0.0:8546"))]
     | _ => [(port_line "9091" "9091", ("grpc-web", "address", dq "0.0.0.0:9091"))]
     end.

Lemma app_served env e :
  let c := app_config env DefaultPorts e in
  exists s, app_text (app_template env) c = Ok s
    /\ Forall (fun '(_, (sec, key, v)) => setting s sec key = Some v) (app_published (app_template env)).
Proof.
  intros c. destruct (app_rendered (app_template env) c eq_refl) as (s & Hs & Hh). exists s. split; [exact Hs|].
  unfold holds_settings in Hh. clear Hs. generalize dependent (app_template env). intros t Hh.
  destruct t; cbn [app_settings app] in Hh; rewrite !Forall_cons in Hh; cbn [fst snd] in Hh;
    destruct_and!; cbn [app_published app]; rewrite !Forall_cons; split_and!; done.
Qed.
End Deployment.

Lemma hex_lacks_newline b : Forall is_byte b -> lacks "010" (hex_EncodeToString b) = true.
Proof.
  induction 1 as [|x b Hx Hb IH]; [done|]. cbn [hex_EncodeToString lacks].
  assert (forall d, 0 <= d < 16 -> bool_decide (hex_char d = "010"%char) = false) as Hd.
  { intros d Hd. apply bool_decide_eq_false_2. intros He. pose proof (hex_value_char d Hd) as Hv.
    rewrite He in Hv. discriminate Hv. }
  rewrite !Hd, IH; [done|..]; unfold is_byte in Hx; Z.to_euclidean_division_equations; lia.
Qed.

Section Published.
Context `{TC : TxConfig, CR : Crypto, SM : SdkMath, GL : GenesisLib, KG : KeyGen, KL : !KeyGenLaws}.
Implicit Types env : GeneratorEnvironment.

Lemma ids_one_line l : lacks "010" (strings_Join (map vid l) ",") = true.
Proof.
  apply lacks_Join; [done|]. apply Forall_fmap, Forall_forall. intros k _.
  apply hex_lacks_newline, ed_Address_bytes.
Qed.

Lemma IP_one_line ip : lacks "010" (IP_String ip) = true.
Proof. apply lacks_Join; [done|]. apply Forall_fmap, Forall_forall. intros n _. apply lacks_Itoa. Qed.

Lemma vpeer_one_line env k : lacks "010" (vpeer env k) = true.
Proof.
  unfold vpeer, peerAddress. rewrite !lacks_app, IP_one_line, lacks_Itoa.
  unfold vid, NodeID. by rewrite hex_lacks_newline by apply ed_Address_bytes.
Qed.

Lemma peers_one_line l : Forall (fun s => lacks "010" s = true) l -> lacks "010" (strings_Join l ",") = true.
Proof. by apply lacks_Join. Qed.

(** The texts of the published node's configuration are single lines. *)
Lemma exposed_one_line env :
  Forall (fun s => lacks "010" s = true)
    [Moniker (exposed_node env); PersistentPeers (exposed_node env); PrivatePeerIds (exposed_node env);
     TxIndexer (exposed_node env)].
Proof.
  assert (Forall (fun s => lacks "010" s = true) (all_peers env)) as Hp.
  { apply Forall_fmap, Forall_forall. intros k _. apply vpeer_one_line. }
  unfold exposed_node. destruct (NumOfSentryNodes env =? 0).
  - rewrite !Forall_cons. cbn [vfinal with_peers vnode validator_node Moniker PersistentPeers PrivatePeerIds
      TxIndexer]. split_and!; [done| |apply ids_one_line|by destruct (ProdLike env)|constructor].
    apply peers_one_line. unfold filterStringValue. apply Forall_forall. intros x Hx.
    apply list_elem_of_filter in Hx as [_ Hx]. rewrite Forall_forall in Hp. by apply Hp.
  - rewrite !Forall_cons. cbn [snode sentry_node Moniker PersistentPeers PrivatePeerIds TxIndexer].
    split_and!; [done|by apply peers_one_line|apply ids_one_line|done|constructor].
Qed.

(** The addresses of the node's configuration file. *)
Definition node_listens (f : File) (p2p rpc : string) : Prop :=
  match f with
  | FConfig b => P2P_ListenAddress b = p2p /\ RPC_ListenAddress b = rpc
  | FConfigProd n => exists s, config_prod_text n = Ok s
      /\ setting s "p2p" "laddr" = Some (dq p2p) /\ setting s "rpc" "laddr" = Some (dq rpc)
  | _ => False
  end.

Lemma exposed_listens env :
  LocalNative env = false ->
  node_listens (config_file (exposed_node env)) "tcp://0.0.0.0:26656" "tcp://0.0.0.0:26657".
Proof.
  intros (_ & Hp & Hi & Hl)%exposed_facts. unfold config_file. destruct (nc_ProdLike _).
  - destruct (node_rendered _ (exposed_one_line env)) as (s & Hs & Hh). exists s. split; [exact Hs|].
    unfold holds_settings, node_settings in Hh. rewrite !Forall_cons in Hh. cbn [fst snd] in Hh.
    destruct Hh as (_ & _ & Hr & _ & Hq & _). rewrite Hr, Hq.
    unfold expected_text, listens, quoted. cbn [map app].
    change (field_text (VNodeConfig ?n) ["IPListen"]) with (ip_text (nc_IPListen n)).
    change (field_text (VNodeConfig ?n) ["Ports"; "P2P"]) with (strconv_Itoa (P2P (nc_Ports n))).
    change (field_text (VNodeConfig ?n) ["Ports"; "RPC"]) with (strconv_Itoa (RPC (nc_Ports n))).
    rewrite Hp, Hi. split; reflexivity.
  - cbn [node_listens bft_config P2P_ListenAddress RPC_ListenAddress]. rewrite Hp, Hi. split; reflexivity.
Qed.

(** C20. The published ports of a generated docker network lead to a server.  The
    docker-compose file is written and consists of the lines of its services, one
    per node.  For the one node whose ports it publishes, the published API, gRPC
    and (with the EVM) JSON-RPC and WebSocket ports, or else gRPC-Web, are the ports
    its application configuration text binds on all interfaces, and the two
    CometBFT ports are those of its node configuration. *)
Theorem published_ports_served env st :
  GenerateConfigs env = Ok st -> 0 <= NumOfSentryNodes env -> LocalNative env = false ->
  exists c app_cfg text,
    gs_fs st !! (path_of (rootOutDir env) ++ ["docker-compose.yml"]) = Some (FCompose c)
    /\ dc_Nodes c = allNodeConfigs st /\ exposed_node env ∈ dc_Nodes c
    /\ compose_text c = Ok (unlines (compose_lines c))
    /\ gs_fs st !! in_dir env (exposed_kind env) 0 ["config"; "app.toml"]
       = Some (FApp (app_template env) app_cfg)
    /\ app_text (app_template env) app_cfg = Ok text
    /\ Forall (fun '(line, (sec, key, v)) => line ∈ compose_lines c /\ setting text sec key = Some v)
         (app_published (app_template env))
    /\ port_line "26656-26657" "26656-26657" ∈ compose_lines c
    /\ exists f, gs_fs st !! in_dir env (exposed_kind env) 0 ["config"; "config.toml"] = Some f
         /\ node_listens f "tcp://0.0.0.0:26656" "tcp://0.0.0.0:26657".
Proof.
  intros H HS HL. pose proof (generated_compose env st H HL) as Hc.
  pose proof (exposed_in env st H HS) as Hin. destruct (exposed_facts env HL) as (He & Hp & _).
  destruct (generated_apps env st H HS) as [Hv Hs].
  destruct (GenerateConfigs_nodes env st H HS) as (_ & Hcv & Hcs).
  apply GenerateConfigs_stages in H as (_ & HV & _).
  set (c := compose_of env (allNodeConfigs st)).
  assert (forall line, line ∈ port_lines DefaultPorts -> line ∈ compose_lines c) as Hlines.
  { intros line Hl. unfold compose_lines. rewrite !elem_of_app. right; left.
    eapply services_ports; [exact Hin|exact He|by rewrite Hp]. }
  assert (exists e, gs_fs st !! in_dir env (exposed_kind env) 0 ["config"; "app.toml"]
    = Some (app_file env DefaultPorts e)) as [e Happ].
  { unfold exposed_kind. destruct (Z.eqb_spec (NumOfSentryNodes env) 0).
    - eexists. rewrite Hv by lia. unfold validator_app, validator_ports. by rewrite HL.
    - eexists. by rewrite Hs by lia. }
  destruct (app_served env e) as (text & Ht & Hset).
  exists c, (app_config env DefaultPorts e), text. split_and!; try done.
  - apply compose_rendered.
  - apply Forall_forall. intros [line [[sec key] v]] Hx. rewrite Forall_forall in Hset.
    split; [|exact (Hset _ Hx)]. apply Hlines. clear -Hx. revert Hx.
    destruct (app_template env); cbn [app_published app]; rewrite !elem_of_cons; intros Hx;
      repeat destruct Hx as [[= -> _ _ _]|Hx]; try (by apply not_elem_of_nil in Hx);
      apply list_elem_of_In; cbn; tauto.
  - apply Hlines. apply list_elem_of_In. cbn. tauto.
  - exists (config_file (exposed_node env)). split; [|by apply exposed_listens].
    unfold exposed_kind, exposed_node. destruct (Z.eqb_spec (NumOfSentryNodes env) 0).
    + apply (Hcv 0%nat). unfold nv. lia.
    + apply (Hcs 0%nat). unfold ns. lia.
Qed.

(** The published profiling port leads nowhere: docker-compose maps it to port 2345
    of the container, and the server listens on 6060. *)
Lemma pprof_port_unserved env st :
  GenerateConfigs env = Ok st -> 0 <= NumOfSentryNodes env -> LocalNative env = false ->
  port_line "6060" "2345" ∈ compose_lines (compose_of env (allNodeConfigs st))
  /\ exists s, config_prod_text (exposed_node env) = Ok s
       /\ setting s "rpc" "pprof_laddr" = Some (dq "0.0.0.0:6060").
Proof.
  intros H HS HL. destruct (exposed_facts env HL) as (He & Hp & Hi & _). split.
  - unfold compose_lines. rewrite !elem_of_app. right; left.
    eapply services_ports; [by apply exposed_in|exact He|]. rewrite Hp. apply list_elem_of_In. cbn. tauto.
  - destruct (node_rendered _ (exposed_one_line env)) as (s & Hs & Hh). exists s. split; [exact Hs|].
    unfold holds_settings, node_settings in Hh. rewrite !Forall_cons in Hh. cbn [fst snd] in Hh.
    destruct Hh as (_ & _ & _ & Hr & _). rewrite Hr. unfold expected_text, listens, quoted. cbn [map app].
    change (field_text (VNodeConfig ?n) ["IPListen"]) with (ip_text (nc_IPListen n)).
    change (field_text (VNodeConfig ?n) ["Ports"; "PProf"]) with (strconv_Itoa (PProf (nc_Ports n))).
    by rewrite Hp, Hi.
Qed.
End Published.

(** The ports in the docker-compose file; example/docker-compose.example.yaml has
    [9090-9091:9090-9091] in place of the gRPC and gRPC-Web lines. *)
Example default_port_lines :
  port_lines DefaultPorts =
  map quotes ["    ports:"; "      - ^26656-26657:26656-26657^"; "      - ^10337:10337^"; "      - ^9900:9900^";
              "      - ^9091:9091^"; "      - ^6060:2345^"; "      - ^8545-8546:8545-8546^";
              "      - ^26660:26660^"].
Proof. reflexivity. Qed.

(** The first service of the example file. *)
Example example_service :
  let env := {| env_ChainID := "stressinj-1337"; env_EthChainID := 1337; EvmEnabled := true;
                NumOfValidators := 4; NumOfSentryNodes := 2; NumOfInstances := 1;
                NumOfAccountsPerInstance := 1; DockerImage := "injectivelabs/injective-core:v1.16.0-beta.3";
                DockerSubnet := "172.127.0.0/16"; OutDirectory := "."; ProdLike := false;
                env_Debug := false; LocalNative := false |} in
  service_lines (compose_of env []) 0 (@vnode model_keygen env 0) =
  map quotes
    ["  injectived0:"; "    container_name: injstress-validator-0";
     "    image: ^injectivelabs/injective-core:v1.16.0-beta.3^"; "    environment:"; "      - DEBUG=0";
     "      - NODE_HOME=/root/.injectived"; "      - CHAIN_ID=stressinj-1337"; "      - MONIKER=validator-0";
     "    cap_add:"; "      - SYS_PTRACE"; "    security_opt:"; "      - seccomp:unconfined"; "    volumes:";
     "      - ./validators/0:/root/.injectived:Z"; "    networks:"; "      localnet:";
     "        ipv4_address: 172.127.0.2"; "    command: injectived --home=/root/.injectived start"].
Proof. reflexivity. Qed.

Local Notation demo_generate :=
  (@GenerateConfigs demo_txconfig model_crypto model_math model_genesis model_keygen demo_genenv).

Lemma published_ports_served_witness :
  exists st c app_cfg text, demo_generate = Ok st
    /\ compose_text c = Ok (unlines (compose_lines c)) /\ dc_Nodes c = allNodeConfigs st
    /\ gs_fs st !! in_dir demo_genenv "sentry-nodes" 0 ["config"; "app.toml"] = Some (FApp AppEvm app_cfg)
    /\ app_text AppEvm app_cfg = Ok text /\ setting text "json-rpc" "address" = Some (dq "0.0.0.0:8545").
Proof.
  destruct demo_generate_Ok as [st E].
  destruct (@published_ports_served demo_txconfig model_crypto model_math model_genesis model_keygen
    model_keygen_laws demo_genenv st E ltac:(discriminate) eq_refl)
    as (c & ac & text & _ & Hn & _ & Hc & Ha & Ht & HF & _).
  exists st, c, ac, text. split_and!; try assumption.
  change (app_published (app_template demo_genenv)) with (app_published AppEvm) in HF.
  cbn [app_published app] in HF. rewrite !Forall_cons in HF. by destruct HF as (_ & _ & [_ H] & _).
Defined.
