(* ===== verification/Cli.v ===== *)
(** * The command line (cmd/chain-stresser/main.go)

    The checks of the [generate] command in front of [GenerateConfigs], those of
    [tx-replay], the reading of the accounts file, and the precedence of flags
    over the YAML configuration.  The theorems connect the two halves of the
    program: the accounts a stress command reads are those the generator put
    into the genesis, and what [generate] accepts has distinct addresses. *)

From Stdlib Require Import ZArith Lia Ascii String.
From stdpp Require Import base list strings numbers gmap.
From S2P Require Import Prelude GoStrings Float64 Sdk SdkModel RateLimit Chain Fuzzer StressRun Genesis Generator.

Open Scope string_scope.
Open Scope Z_scope.
Open Scope list_scope.

(** ** Configuration *)

(** payload.StresserConfig, the part of the YAML file that concerns the stresser. *)
Record StresserConfig := {
  y_ChainID : string;
  y_EthChainID : Z;
  y_MinGasPrice : string;
  y_NodeAddress : string;
  y_GRPCAddress : string;
  y_AwaitTxConfirmation : option bool;
  y_NumOfTransactions : Z;
  y_RateTPS : float64;
  y_RateBytes : Z;
  y_RateGas : Z;
  y_RateBurstSize : Z
}.

(** A setting: the YAML value when it is set and the flag was not given. *)
Definition override {A} (is_set changed : bool) (yaml cur : A) : A :=
  if is_set && negb changed then yaml else cur.

Definition set_string (s : string) : bool := negb (bool_decide (s = "")).

(** [changed] tells which flags were given. *)
Definition applyStresserConfigFromYAML (stressCfg : StressConfig) (yamlCfg : option StresserConfig)
    (changed : string -> bool) : StressConfig :=
  match yamlCfg with
  | None => stressCfg
  | Some y =>
      {| sc_ChainID := override (set_string (y_ChainID y)) (changed "chain-id")
           (y_ChainID y) (sc_ChainID stressCfg);
         sc_EthChainID := override (negb (y_EthChainID y =? 0)) (changed "eth-chain-id")
           (y_EthChainID y) (sc_EthChainID stressCfg);
         sc_MinGasPrice := override (set_string (y_MinGasPrice y)) (changed "min-gas-price")
           (y_MinGasPrice y) (sc_MinGasPrice stressCfg);
         sc_NodeAddress := override (set_string (y_NodeAddress y)) (changed "node-addr")
           (y_NodeAddress y) (sc_NodeAddress stressCfg);
         sc_GRPCAddress := override (set_string (y_GRPCAddress y)) (changed "grpc-addr")
           (y_GRPCAddress y) (sc_GRPCAddress stressCfg);
         sc_Accounts := sc_Accounts stressCfg;
         sc_NumOfTransactions := override (negb (y_NumOfTransactions y =? 0)) (changed "transactions")
           (y_NumOfTransactions y) (sc_NumOfTransactions stressCfg);
         sc_AwaitTxConfirmation :=
           match y_AwaitTxConfirmation y with
           | Some b => override true (changed "await") b (sc_AwaitTxConfirmation stressCfg)
           | None => sc_AwaitTxConfirmation stressCfg
           end;
         sc_GasFuzzing := sc_GasFuzzing stressCfg;
         sc_RateLimit :=
           {| TxPerSecond := override (negb (f64_eqb (y_RateTPS y) f64_zero)) (changed "rate-tps")
                (y_RateTPS y) (TxPerSecond (sc_RateLimit stressCfg));
              BytesPerSecond := override (negb (y_RateBytes y =? 0)) (changed "rate-bytes")
                (y_RateBytes y) (BytesPerSecond (sc_RateLimit stressCfg));
              GasPerSecond := override (negb (y_RateGas y =? 0)) (changed "rate-gas")
                (y_RateGas y) (GasPerSecond (sc_RateLimit stressCfg));
              Burst :=
                {| Size := override (negb (y_RateBurstSize y =? 0)) (changed "rate-burst-size")
                     (y_RateBurstSize y) (Size (Burst (sc_RateLimit stressCfg))) |} |} |}
  end.

(** The YAML file never changes a setting whose flag was given, and reading it a
    second time changes nothing. *)
Lemma apply_flags_win cfg y changed :
  (forall f, changed f = true) -> applyStresserConfigFromYAML cfg y changed = cfg.
Proof.
  intros H. destruct y as [y|]; [|done]. unfold applyStresserConfigFromYAML, override. rewrite !H, !andb_false_r.
  destruct cfg as [? ? ? ? ? ? ? ? ? [? ? ? []]]; cbn. by destruct (y_AwaitTxConfirmation y).
Qed.

Lemma override_idem {A} s c (y x : A) : override s c y (override s c y x) = override s c y x.
Proof. unfold override. by destruct (s && negb c). Qed.

Lemma apply_idempotent cfg y changed :
  applyStresserConfigFromYAML (applyStresserConfigFromYAML cfg y changed) y changed
  = applyStresserConfigFromYAML cfg y changed.
Proof.
  destruct y as [y|]; [|done]. unfold applyStresserConfigFromYAML; cbn. rewrite !override_idem.
  destruct (y_AwaitTxConfirmation y); [by rewrite override_idem|done].
Qed.

Definition with_accounts (cfg : StressConfig) (keys : list Secp256k1PrivateKey) : StressConfig :=
  {| sc_ChainID := sc_ChainID cfg; sc_EthChainID := sc_EthChainID cfg;
     sc_MinGasPrice := sc_MinGasPrice cfg; sc_NodeAddress := sc_NodeAddress cfg;
     sc_GRPCAddress := sc_GRPCAddress cfg; sc_Accounts := keys;
     sc_NumOfTransactions := sc_NumOfTransactions cfg;
     sc_AwaitTxConfirmation := sc_AwaitTxConfirmation cfg; sc_GasFuzzing := sc_GasFuzzing cfg;
     sc_RateLimit := sc_RateLimit cfg |}.

(** The account file is read from a tree of files; [json.Unmarshal] gives back
    the keys that were marshalled, and fails on any other file. *)
Definition readAccounts (fs : FS) (cfg : StressConfig) (accountFile : string) (numOfAccounts : Z)
    : go StressConfig :=
  if numOfAccounts <=? 0 then Err (ENew "number of accounts must be greater than 0")
  else
    match fs !! path_of accountFile with
    | None => Err (EWrap "reading account file failed" (ENew "no such file or directory"))
    | Some (FAccounts keys) =>
        if Z.of_nat (length keys) <? numOfAccounts then
          Err (ENew "number of accounts is greater than the number of provided private keys")
        else Ok (with_accounts cfg (take (Z.to_nat numOfAccounts) keys))
    | Some _ => Err (EWrap "parsing account file failed" (ENew "json: cannot unmarshal"))
    end.

(** ** Commands *)

(** [tx-replay], [PreRunE]; the endpoint and the two heights. *)
Definition replay_PreRunE (cometRPC : string) (startHeight endHeight : Z) : option error :=
  if bool_decide (cometRPC = "") then Some (ENew "--sniffer-rpc is required for remote sniffing.")
  else if startHeight =? 0 then Some (ENew "--sniffer-start-height is required for remote sniffing.")
  else if (0 <? endHeight) && (endHeight <=? startHeight) then
    Some (ENew "--sniffer-start-height must be less than --sniffer-end-height")
  else None.

Section Generate.
Context `{TC : TxConfig, CR : Crypto, SM : SdkMath, GL : GenesisLib, KG : KeyGen}.

Definition generate_cmd (env : GeneratorEnvironment) : go GenState :=
  if LocalNative env && (4 <? NumOfValidators env) then
    Err (ENew "number of validators must be less than or equal to 4 when running natively")
  else if LocalNative env && (0 <? NumOfSentryNodes env) then
    Err (ENew "number of sentry nodes must be 0 when running natively")
  else GenerateConfigs env.

Lemma generate_cmd_Ok env st :
  generate_cmd env = Ok st ->
  GenerateConfigs env = Ok st
  /\ (LocalNative env = true -> NumOfValidators env <= 4 /\ NumOfSentryNodes env <= 0).
Proof.
  unfold generate_cmd. destruct (LocalNative env); cbn [andb]; [|done].
  destruct (4 <? _) eqn:E1; [done|]. destruct (0 <? _) eqn:E2; [done|]. bool_facts. done.
Qed.

End Generate.

(** The path of an instance's accounts file. *)
Definition instance_accounts (env : GeneratorEnvironment) (i : Z) : string :=
  (rootOutDir env +:+ "/instances/" +:+ strconv_Itoa i) +:+ "/accounts.json".

Section Stress.
Context `{TC : TxConfig, CR : Crypto, SM : SdkMath, GL : GenesisLib, LW : !GenesisLaws, KG : KeyGen}.
Implicit Types env : GeneratorEnvironment.

Lemma readAccounts_Ok fs cfg file n cfg' :
  readAccounts fs cfg file n = Ok cfg' <->
  exists keys, fs !! path_of file = Some (FAccounts keys) /\ 0 < n <= Z.of_nat (length keys)
    /\ cfg' = with_accounts cfg (take (Z.to_nat n) keys).
Proof.
  unfold readAccounts. split.
  - destruct (n <=? 0) eqn:E; [done|]. destruct (fs !! path_of file) as [[]|]; try done.
    destruct (_ <? n) eqn:E'; [done|]. bool_facts. intros [= <-]. eauto.
  - intros (keys & -> & Hn & ->). rewrite (proj2 (Z.leb_gt n 0)), (proj2 (Z.ltb_ge _ n)) by lia. done.
Qed.

Lemma generated_for_stress env st :
  generate_cmd env = Ok st ->
  exists doc,
    genesis_ok env (gs_fs st) "validators" (NumOfValidators env) doc
    /\ genesis_ok env (gs_fs st) "sentry-nodes" (NumOfSentryNodes env) doc
    /\ Z.of_nat (length (doc_gentxs doc)) = NumOfValidators env
    /\ (forall d, AmountOf d (doc_supply doc) = total d (doc_balances doc)
          /\ AmountOf d (doc_supply doc) =
             NumOfValidators env * AmountOf d (coins_of initialBalanceStaker)
             + NumOfInstances env * Z.max 0 (NumOfAccountsPerInstance env)
               * AmountOf d (coins_of initialBalanceAccount))
    /\ forall i cfg n, 0 <= i < NumOfInstances env ->
         (0 < n <= NumOfAccountsPerInstance env <->
          exists cfg', readAccounts (gs_fs st) cfg (instance_accounts env i) n = Ok cfg')
         /\ forall cfg', readAccounts (gs_fs st) cfg (instance_accounts env i) n = Ok cfg' ->
              Z.of_nat (length (sc_Accounts cfg')) = n
              /\ cfg' = with_accounts cfg (sc_Accounts cfg')
              /\ forall key, key ∈ sc_Accounts cfg' ->
                   Address key ∈ doc_accounts doc /\ account_balance key ∈ doc_balances doc.
Proof.
  intros [H _]%generate_cmd_Ok. destruct (generated_funds env st H) as (doc & Hv & Hs & Hi & Hg & Hd).
  exists doc. split_and!; try done. intros i cfg n Hrange.
  destruct (Hi i Hrange) as (keys & Hk & Hlen & Hfund).
  assert (gs_fs st !! path_of (instance_accounts env i) = Some (FAccounts keys)) as Hfile.
  { rewrite <- Hk. f_equal. apply (path_instance env i "accounts.json"). lia. }
  split; [split|].
  - intros Hn. eexists. apply readAccounts_Ok. exists keys. split_and!; [done|lia|lia|done].
  - intros (cfg' & (keys' & Hk' & Hn & _)%readAccounts_Ok). assert (keys' = keys) as -> by congruence. lia.
  - intros cfg' (keys' & Hk' & Hn & ->)%readAccounts_Ok. assert (keys' = keys) as -> by congruence.
    cbn [sc_Accounts with_accounts]. split_and!; [rewrite length_take; lia|done|].
    intros key (k & Hkey)%list_elem_of_lookup. apply lookup_take_Some in Hkey as [Hkey _].
    by eapply Hfund, list_elem_of_lookup_2.
Qed.

(** C19. From [generate] to a stress run.  After the command succeeds, all
    validators and sentry nodes have one and the same genesis document, with a
    genesis transaction per validator and a supply that is the sum of its
    balances: the staker balance per validator plus the account balance per
    account of every instance.  Reading an instance's accounts file for [n]
    accounts succeeds exactly for [0 < n <= accounts per instance]; it yields
    [n] keys, changes nothing else of the configuration, and the address of
    every one of these keys is an account of that genesis document with the
    initial balance. *)
Theorem generate_then_stress env st :
  generate_cmd env = Ok st ->
  exists doc,
    genesis_ok env (gs_fs st) "validators" (NumOfValidators env) doc
    /\ genesis_ok env (gs_fs st) "sentry-nodes" (NumOfSentryNodes env) doc
    /\ Z.of_nat (length (doc_gentxs doc)) = NumOfValidators env
    /\ (forall d, AmountOf d (doc_supply doc) = total d (doc_balances doc)
          /\ AmountOf d (doc_supply doc) =
             NumOfValidators env * AmountOf d (coins_of initialBalanceStaker)
             + NumOfInstances env * Z.max 0 (NumOfAccountsPerInstance env)
               * AmountOf d (coins_of initialBalanceAccount))
    /\ forall i cfg n, 0 <= i < NumOfInstances env ->
         (0 < n <= NumOfAccountsPerInstance env <->
          exists cfg', readAccounts (gs_fs st) cfg (instance_accounts env i) n = Ok cfg')
         /\ forall cfg', readAccounts (gs_fs st) cfg (instance_accounts env i) n = Ok cfg' ->
              Z.of_nat (length (sc_Accounts cfg')) = n
              /\ cfg' = with_accounts cfg (sc_Accounts cfg')
              /\ forall key, key ∈ sc_Accounts cfg' ->
                   Address key ∈ doc_accounts doc /\ account_balance key ∈ doc_balances doc.
Proof. apply generated_for_stress. Qed.

End Stress.

(** ** Addresses of what [generate] accepts *)

Lemma nodup_mod {A} (f : nat -> A) n :
  (forall a b, f a = f b <-> (Z.of_nat a - Z.of_nat b) mod 256 = 0) ->
  NoDup (map f (seq 0 n)) <-> (n <= 256)%nat.
Proof.
  intros Hf. split.
  - intros Hnd. destruct (decide (n <= 256)%nat) as [|Hn]; [done|]. exfalso.
    assert (0%nat = 256%nat) as ?; [|lia].
    eapply (NoDup_lookup (map f (seq 0 n)) 0 256); [done|rewrite list_lookup_fmap, lookup_seq_lt by lia; done|].
    rewrite list_lookup_fmap, lookup_seq_lt by lia. cbn [fmap option_fmap option_map Nat.add].
    f_equal. by apply Hf.
  - intros Hn. apply NoDup_fmap_2_strong; [|apply NoDup_seq].
    intros a b Ha%elem_of_seq Hb%elem_of_seq E. apply Hf in E.
    assert (Z.of_nat a - Z.of_nat b = 0) as ?; [|lia].
    destruct (Z.le_gt_cases 0 (Z.of_nat a - Z.of_nat b)).
    + rewrite Z.mod_small in E by lia. done.
    + exfalso. rewrite <- (Z.mod_add _ 1), Z.mod_small in E by lia. lia.
Qed.

Lemma ipInSubnet_any subnet o o' ip : ipInSubnet subnet o = Ok ip -> exists ip', ipInSubnet subnet o' = Ok ip'.
Proof. unfold ipInSubnet. destruct (ParseCIDR subnet) as [[|a [|b [|c [|d [|? ?]]]]]|]; try done. eauto. Qed.

Lemma map_seq_shift {A} (f : nat -> A) a n : map f (seq a n) = map (fun k => f (a + k)%nat) (seq 0 n).
Proof.
  revert a. induction n as [|n IH]; intros a; cbn [seq map]; [done|]. rewrite Nat.add_0_r. f_equal.
  rewrite (IH (S a)), <- seq_shift, map_map. apply map_ext. intros k. f_equal. lia.
Qed.

Section Addresses.
Context `{TC : TxConfig, CR : Crypto, SM : SdkMath, GL : GenesisLib, KG : KeyGen, KL : !KeyGenLaws}.
Implicit Types env : GeneratorEnvironment.

(** The address of the node at a position, validators first. *)
Definition node_ip env (k : nat) : IP :=
  match ipInSubnet (DockerSubnet env) (Z.of_nat k + 1) with Ok ip => ip | _ => [] end.

Lemma docker_ips env :
  LocalNative env = false -> 0 <= NumOfValidators env -> 0 <= NumOfSentryNodes env ->
  NumOfValidators env + NumOfSentryNodes env < 2 ^ 62 ->
  map IPAddr (map (vfinal env) (seq 0 (nv env)) ++ map (snode env) (seq 0 (ns env)))
  = map (node_ip env) (seq 0 (nv env + ns env)).
Proof.
  intros HL HV HS Hb. rewrite seq_app, !map_app, Nat.add_0_l. unfold nv, ns in *. f_equal.
  - rewrite map_map. apply map_ext_in. intros k Hk%in_seq.
    cbn [IPAddr vfinal with_peers vnode validator_node]. unfold vip, validator_ip, node_ip. rewrite HL.
    by rewrite i64_id by width.
  - rewrite map_map, (map_seq_shift (node_ip env)). apply map_ext_in. intros k Hk%in_seq.
    cbn [IPAddr snode sentry_node]. unfold sip, node_ip.
    rewrite (i64_id (NumOfValidators env + Z.of_nat k)), i64_id by width.
    by replace (Z.of_nat (Z.to_nat (NumOfValidators env) + k)) with (NumOfValidators env + Z.of_nat k) by lia.
Qed.

(** A run that succeeds in docker mode has parsed the subnet. *)
Lemma docker_subnet_ok env st :
  GenerateConfigs env = Ok st -> LocalNative env = false ->
  forall o, exists ip, ipInSubnet (DockerSubnet env) o = Ok ip.
Proof.
  intros (_ & HV & g & s1 & s2 & s3 & s4 & s5 & _ & H1 & _)%GenerateConfigs_stages HL o.
  destruct (Z.to_nat (NumOfValidators env)) as [|n] eqn:E; [lia|]. cbn [for_loop] in H1.
  apply go_bind_Ok in H1 as (s & Hs & _). apply go_bind_Ok in Hs as (ip & Hip & _).
  unfold validator_ip in Hip. rewrite HL in Hip. by eapply ipInSubnet_any.
Qed.

(** C40. Addresses of the deployments [generate] accepts.  On one machine it accepts
    at most four validators and no sentry nodes, and then no two listeners of
    any of the nodes share a port.  In a docker network, where only the last octet
    of the subnet's address is advanced and wraps around, the addresses of the
    nodes are pairwise distinct exactly up to 256 nodes. *)
Theorem generate_addresses_distinct env st :
  generate_cmd env = Ok st -> 0 <= NumOfSentryNodes env ->
  (LocalNative env = true ->
     NumOfValidators env <= 4 /\ NumOfSentryNodes env = 0
     /\ NoDup (concat (map (fun n => port_list (nc_Ports n)) (allNodeConfigs st))))
  /\ (LocalNative env = false -> NumOfValidators env + NumOfSentryNodes env < 2 ^ 62 ->
      NoDup (map IPAddr (allNodeConfigs st)) <-> NumOfValidators env + NumOfSentryNodes env <= 256).
Proof.
  intros [H Hguard]%generate_cmd_Ok HS. destruct (GenerateConfigs_nodes env st H HS) as (Hn & _ & _).
  pose proof H as (_ & HV & _)%GenerateConfigs_stages. rewrite Hn. split.
  - intros HL. destruct (Hguard HL) as [HV4 HS0]. split_and!; [done|lia|].
    assert (ns env = 0%nat) as -> by (unfold ns; lia). cbn [seq map]. rewrite app_nil_r, map_map.
    replace (concat _) with (local_ports (nv env)).
    + apply local_ports_nodup. unfold nv. lia.
    + unfold local_ports. f_equal. apply map_ext. intros k.
      cbn [nc_Ports vfinal with_peers vnode validator_node]. unfold validator_ports. by rewrite HL.
  - intros HL Hb. rewrite docker_ips by (done || lia). rewrite nodup_mod; [unfold nv, ns; lia|].
    intros a b. unfold node_ip.
    destruct (docker_subnet_ok env st H HL (Z.of_nat a + 1)) as [ipa Ha].
    destruct (docker_subnet_ok env st H HL (Z.of_nat b + 1)) as [ipb Hb'].
    rewrite Ha, Hb', (ipInSubnet_eq _ _ _ _ _ Ha Hb').
    by replace (Z.of_nat a + 1 - (Z.of_nat b + 1)) with (Z.of_nat a - Z.of_nat b) by lia.
Qed.

End Addresses.

(** ** The concrete deployment of [Generator.v], and one on a single machine *)

Definition demo_native : GeneratorEnvironment :=
  {| env_ChainID := ""; env_EthChainID := 0; EvmEnabled := false; NumOfValidators := 4;
     NumOfSentryNodes := 0; NumOfInstances := 1; NumOfAccountsPerInstance := 1;
     DockerImage := ""; DockerSubnet := ""; OutDirectory := "/tmp";
     ProdLike := true; env_Debug := false; LocalNative := true |}.

Local Notation demo_cmd env :=
  (@generate_cmd demo_txconfig model_crypto model_math model_genesis model_keygen env).

Lemma demo_cmd_Ok : exists st, demo_cmd demo_genenv = Ok st.
Proof.
  assert (is_Ok (demo_cmd demo_genenv) = true) as H by (vm_compute; reflexivity).
  revert H. generalize (demo_cmd demo_genenv). intros [st| |]; [eauto|discriminate..].
Qed.

Lemma demo_native_Ok : exists st, demo_cmd demo_native = Ok st.
Proof.
  assert (is_Ok (demo_cmd demo_native) = true) as H by (vm_compute; reflexivity).
  revert H. generalize (demo_cmd demo_native). intros [st| |]; [eauto|discriminate..].
Qed.

Definition demo_stress : StressConfig :=
  {| sc_ChainID := DefaultChainID; sc_EthChainID := 1337; sc_MinGasPrice := "1inj";
     sc_NodeAddress := "127.0.0.1:26657"; sc_GRPCAddress := "127.0.0.1:9900"; sc_Accounts := [];
     sc_NumOfTransactions := 100; sc_AwaitTxConfirmation := true;
     sc_GasFuzzing := {| Enabled := false; Strategy := ""; GasLimitMultiplierMin := f64_zero;
                         GasLimitMultiplierMax := f64_zero; FuzzPercentage := 0; Seed := 0; VerboseLogging := false |};
     sc_RateLimit := {| TxPerSecond := f64_zero; BytesPerSecond := 0; GasPerSecond := 0;
                        Burst := {| Size := 0 |} |} |}.

Lemma generate_then_stress_witness :
  exists st doc cfg, demo_cmd demo_genenv = Ok st
    /\ genesis_ok demo_genenv (gs_fs st) "sentry-nodes" 2 doc
    /\ AmountOf "inj" (doc_supply doc) = 3 * 10 ^ 23 + 4 * 10 ^ 24
    /\ readAccounts (gs_fs st) demo_stress "./out/chain-stresser-deploy/instances/1/accounts.json" 2 = Ok cfg
    /\ Z.of_nat (length (sc_Accounts cfg)) = 2.
Proof.
  destruct demo_cmd_Ok as [st E].
  destruct (@generate_then_stress demo_txconfig model_crypto model_math model_genesis model_genesis_laws
    model_keygen demo_genenv st E) as (doc & _ & Hs & _ & Hd & Hr).
  destruct (Hr 1 demo_stress 2) as [Hok Hread]; [split; [discriminate|reflexivity]|].
  destruct (proj1 Hok) as [cfg Hcfg]; [split; [reflexivity|discriminate]|].
  exists st, doc, cfg. split_and!; [exact E|exact Hs| |exact Hcfg|exact (proj1 (Hread cfg Hcfg))].
  refine (eq_trans (proj2 (Hd "inj")) _). vm_compute. reflexivity.
Defined.

Lemma generate_addresses_distinct_witness :
  (exists st, demo_cmd demo_native = Ok st
     /\ NoDup (concat (map (fun n => port_list (nc_Ports n)) (allNodeConfigs st))))
  /\ (exists st, demo_cmd demo_genenv = Ok st /\ NoDup (map IPAddr (allNodeConfigs st))).
Proof.
  split.
  - destruct demo_native_Ok as [st E]. exists st. split; [exact E|].
    refine (proj2 (proj2 (proj1 (@generate_addresses_distinct demo_txconfig model_crypto model_math
      model_genesis model_keygen demo_native st E _) _))); [discriminate|reflexivity].
  - destruct demo_cmd_Ok as [st E]. exists st. split; [exact E|].
    refine (proj2 (proj2 (@generate_addresses_distinct demo_txconfig model_crypto model_math
      model_genesis model_keygen demo_genenv st E _) _ _) _); [discriminate|reflexivity|reflexivity|discriminate].
Defined.
