(* ===== verification/Commands.v ===== *)
(** * The stress commands (cmd/chain-stresser/main.go)

    The command-line flags with their defaults, and the bodies of the commands:
    reading the accounts, making the provider, running [Stress] or
    [StressReplay], and how the process ends.  The theorems: a command is as good
    as its parts, up to the delivery of every prepared transaction; and a mixed
    payload with a single section is the command of that section. *)

From Stdlib Require Import ZArith Lia Ascii String.
From stdpp Require Import base list strings numbers gmap.
From S2P Require Import Prelude GoStrings Float64 Sdk SdkModel RateLimit Chain ClientSetup Payload EthPayload WasmPayload.
From S2P Require Import MixedPayload Pipeline Stresser Broadcasting InitialPool Fuzzer SeqChain StressRun.
From S2P Require Import InitialDelivery Delivery.
From S2P Require Import UserOp UserOpPayload EthClient Genesis Generator Cli.

Open Scope string_scope.
Open Scope Z_scope.
Open Scope list_scope.

(** ** Flags *)

Definition defaultChainID : string := "stressinj-1337".
Definition defaultEthChainID : Z := 1337.
Definition defaultMinGasPrice : string := "1inj".
Definition defaultNumOfAccounts : Z := 1000.
Definition defaultNumOfTx : Z := 100.

(** [stressCfg] when no flag is given. *)
Definition default_stressCfg : StressConfig :=
  {| sc_ChainID := defaultChainID; sc_EthChainID := defaultEthChainID;
     sc_MinGasPrice := defaultMinGasPrice; sc_NodeAddress := "127.0.0.1:26657";
     sc_GRPCAddress := "127.0.0.1:9900"; sc_Accounts := [];
     sc_NumOfTransactions := defaultNumOfTx; sc_AwaitTxConfirmation := true;
     sc_GasFuzzing :=
       {| Enabled := false; Strategy := "random"; GasLimitMultiplierMin := f64_of_ratio 1 100;
          GasLimitMultiplierMax := f64_of_Z 1; FuzzPercentage := 100; Seed := 0; VerboseLogging := false |};
     sc_RateLimit :=
       {| TxPerSecond := f64_zero; BytesPerSecond := 0; GasPerSecond := 0; Burst := {| Size := 0 |} |} |}.

Definition default_market : string := "0x1422a13427d5eabd4d8de7907c8340f7e58cb15553a9fd4ad5c90406561886f9".

(** The variables behind the other flags of the stress commands. *)
Record Flags := {
  fl_accountFile : string;
  fl_numOfAccounts : Z;
  fl_multiSendNumTargets : Z;
  fl_iterations : Z;
  fl_ethRPCURL : string;
  fl_entrypointAddress : string;
  fl_beneficiaryAddress : string;
  fl_accountFactoryAddress : string;
  fl_counterContractAddr : string;
  fl_spotMarketIDs : list string;
  fl_derivativeMarketIDs : list string;
  fl_mixedPayloadConfigPath : string
}.

Definition default_flags : Flags :=
  {| fl_accountFile := "accounts.json"; fl_numOfAccounts := defaultNumOfAccounts;
     fl_multiSendNumTargets := 50; fl_iterations := 10; fl_ethRPCURL := "http://127.0.0.1:8545";
     fl_entrypointAddress := "0x586AaA4d77955b36784cADf6D9D617b952d45DA1";
     fl_beneficiaryAddress := "0x0000000000000000000000000000000000000000";
     fl_accountFactoryAddress := "0x0B3809304F2bAad3E0d0810B98Cc7e505C06ce89";
     fl_counterContractAddr := "0x590d9D4654FC262BFE72d115355db2aEb7DB902f";
     fl_spotMarketIDs := [default_market]; fl_derivativeMarketIDs := [default_market];
     fl_mixedPayloadConfigPath := "" |}.

(** [genEnv] of the generate command when no flag is given; [wd] is the working
    directory. *)
Definition default_genEnv (wd : string) : GeneratorEnvironment :=
  {| env_ChainID := defaultChainID; env_EthChainID := defaultEthChainID; EvmEnabled := true;
     NumOfValidators := 1; NumOfSentryNodes := 0; NumOfInstances := 1;
     NumOfAccountsPerInstance := defaultNumOfAccounts;
     DockerImage := "injectivelabs/injective-core" +:+ ":" +:+ "v1.16.4"; DockerSubnet := "172.127.0.0/24";
     OutDirectory := wd; ProdLike := false; env_Debug := false; LocalNative := false |}.

(** The defaults of the two halves fit: the network [generate] makes has the chain
    identifiers the stress commands expect and as many accounts as they ask for, and
    the generator's checks accept it. *)
Lemma defaults_agree `{TC : TxConfig, CR : Crypto, SM : SdkMath, GL : GenesisLib, KG : KeyGen} wd :
  env_ChainID (default_genEnv wd) = sc_ChainID default_stressCfg /\
  env_EthChainID (default_genEnv wd) = sc_EthChainID default_stressCfg /\
  0 < fl_numOfAccounts default_flags <= NumOfAccountsPerInstance (default_genEnv wd) /\
  generate_cmd (default_genEnv wd) = GenerateConfigs (default_genEnv wd).
Proof. split_and!; done. Qed.

(** ** Providers behind the interface *)

Section Commands.
Context `{TC : TxConfig, CR : Crypto, SM : SdkMath, EL : EthLib, EBD : !EthBuild, WQ : WasmQuery}.
Context `{EBY : EthBytes, EN : EthNode, HU : HexUtil}.
Context (cw20ByteCode : bytes).
(** What [rand.Read] gives for a memo, the time, and the seeded source of a mixed
    provider. *)
Context (randRead : go bytes) (now : string) (seeded : nat -> float64).

#[export] Instance any_TxProvider : TxProvider AnyProvider := {|
  prov_Name := any_Name;
  GenerateInitialTx := any_GenerateInitialTx cw20ByteCode;
  GenerateTx := any_GenerateTx cw20ByteCode;
  BuildAndSignTx := any_BuildAndSignTx cw20ByteCode
|}.

#[local] Instance mixed_Provider : TxProvider MixedPayloadProvider := mixed_TxProvider cw20ByteCode.

(** The [TxProvider] a command passes to [Stress]. *)
Inductive CmdProvider :=
| CPAny (a : AnyProvider)
| CPInternalCall (p : ethInternalCallProvider)
| CPUserOp (p : ethUserOpProvider)
| CPMixed (p : MixedPayloadProvider).

#[export] Instance cmd_TxProvider : TxProvider CmdProvider := {|
  prov_Name c :=
    match c with
    | CPAny p => prov_Name p
    | CPInternalCall p => prov_Name p
    | CPUserOp p => prov_Name p
    | CPMixed p => prov_Name p
    end;
  GenerateInitialTx e c req :=
    match c with
    | CPAny p => on_fst CPAny (GenerateInitialTx e p req)
    | CPInternalCall p => on_fst CPInternalCall (GenerateInitialTx e p req)
    | CPUserOp p => on_fst CPUserOp (GenerateInitialTx e p req)
    | CPMixed p => on_fst CPMixed (GenerateInitialTx e p req)
    end;
  GenerateTx e c req :=
    match c with
    | CPAny p => on_fst CPAny (GenerateTx e p req)
    | CPInternalCall p => on_fst CPInternalCall (GenerateTx e p req)
    | CPUserOp p => on_fst CPUserOp (GenerateTx e p req)
    | CPMixed p => on_fst CPMixed (GenerateTx e p req)
    end;
  BuildAndSignTx c client t :=
    match c with
    | CPAny p => on_fst (on_fst CPAny) (BuildAndSignTx p client t)
    | CPInternalCall p => on_fst (on_fst CPInternalCall) (BuildAndSignTx p client t)
    | CPUserOp p => on_fst (on_fst CPUserOp) (BuildAndSignTx p client t)
    | CPMixed p => on_fst (on_fst CPMixed) (BuildAndSignTx p client t)
    end
|}.

(** ** Commands *)

(** The commands that run [Stress]; the mixed one with its loaded file. *)
Inductive StressCommand :=
| TxBankSend
| TxBankSendMany
| TxEthSend
| TxEthCall
| TxEthDeploy
| TxEthInternalCall
| TxEthUserOp
| TxExchangeBatchOrders
| TxWasmStoreCode
| TxWasmInitContract
| TxWasmExecContract
| TxMixedPayload (mixedCfg : MixedPayloadConfig).

Definition sendAmount : string := "1" +:+ DefaultBondDenom.

(** The provider of each command, with the message its failure is wrapped in. *)
Definition txBankSend_provider (cfg : StressConfig) : go CmdProvider :=
  go_wrap "failed to initate bank send stress provider"
    (go_map (fun p => CPAny (PBankSend p)) (NewBankSendProvider (sc_MinGasPrice cfg) sendAmount)).

Definition txBankSendMany_provider (fl : Flags) (cfg : StressConfig) : go CmdProvider :=
  go_wrap "failed to initate bank multi send stress provider"
    (go_map (fun p => CPAny (PBankMultiSend p))
       (NewBankMultiSendProvider randRead (sc_MinGasPrice cfg) sendAmount
          (fl_multiSendNumTargets fl))).

Definition txEthSend_provider (cfg : StressConfig) : go CmdProvider :=
  go_wrap "failed to initate eth value send stress provider"
    (go_map (fun p => CPAny (PEthSend p))
       (NewEthSendProvider (sc_EthChainID cfg) (sc_MinGasPrice cfg) sendAmount)).

Definition txEthCall_provider (cfg : StressConfig) : go CmdProvider :=
  go_wrap "failed to initate eth contract call stress provider"
    (go_map (fun p => CPAny (PEthCall p))
       (NewEthCallProvider (sc_EthChainID cfg) (sc_MinGasPrice cfg))).

Definition txEthDeploy_provider (cfg : StressConfig) : go CmdProvider :=
  go_wrap "failed to initate eth contract deploy stress provider"
    (go_map (fun p => CPAny (PEthDeploy p))
       (NewEthDeployProvider (sc_EthChainID cfg) (sc_MinGasPrice cfg))).

Definition txEthInternalCall_provider (fl : Flags) (cfg : StressConfig) : go CmdProvider :=
  go_wrap "failed to initate eth contract internal call stress provider"
    (go_map CPInternalCall
       (NewEthInternalCallProvider (sc_EthChainID cfg) (sc_MinGasPrice cfg) (fl_iterations fl))).

Definition txEthUserOp_provider (fl : Flags) (cfg : StressConfig) : go CmdProvider :=
  go_wrap "failed to initiate eth UserOp stress provider"
    (go_map CPUserOp
       (NewEthUserOpProvider (fl_ethRPCURL fl) (sc_EthChainID cfg) (sc_MinGasPrice cfg)
          (HexToAddress (fl_entrypointAddress fl)) (HexToAddress (fl_beneficiaryAddress fl))
          (HexToAddress (fl_accountFactoryAddress fl)) (HexToAddress (fl_counterContractAddr fl)))).

Definition txExchangeBatchOrders_provider (fl : Flags) (cfg : StressConfig) : go CmdProvider :=
  go_wrap "failed to initate exchange batch orders stress provider"
    (go_map (fun p => CPAny (PExchange p))
       (NewExchangeBatchOrdersProvider (sc_MinGasPrice cfg) (fl_spotMarketIDs fl)
          (fl_derivativeMarketIDs fl))).

Definition txWasmStoreCode_provider (cfg : StressConfig) : go CmdProvider :=
  go_wrap "failed to initiate wasm code store stress provider"
    (go_map (fun p => CPAny (PWasmStore p)) (NewWasmStoreCodeProvider (sc_MinGasPrice cfg))).

Definition txWasmInitContract_provider (cfg : StressConfig) : go CmdProvider :=
  go_wrap "failed to initiate wasm init contract stress provider"
    (go_map (fun p => CPAny (PWasmInit p)) (NewWasmInitContractProvider (sc_MinGasPrice cfg))).

Definition txWasmExecContract_provider (cfg : StressConfig) : go CmdProvider :=
  go_wrap "failed to initiate wasm exec stress provider"
    (go_map (fun p => CPAny (PWasmExec p))
       (NewWasmExecContractProvider cw20ByteCode now (sc_MinGasPrice cfg))).

Definition txMixedPayload_provider (mixedCfg : MixedPayloadConfig) (cfg : StressConfig) : go CmdProvider :=
  go_wrap "failed to create mixed payload provider"
    (go_map CPMixed
       (NewMixedPayloadProvider cw20ByteCode randRead now seeded mixedCfg (sc_MinGasPrice cfg)
          (sc_EthChainID cfg))).

Definition new_provider (cmd : StressCommand) (fl : Flags) (cfg : StressConfig) : go CmdProvider :=
  match cmd with
  | TxBankSend => txBankSend_provider cfg
  | TxBankSendMany => txBankSendMany_provider fl cfg
  | TxEthSend => txEthSend_provider cfg
  | TxEthCall => txEthCall_provider cfg
  | TxEthDeploy => txEthDeploy_provider cfg
  | TxEthInternalCall => txEthInternalCall_provider fl cfg
  | TxEthUserOp => txEthUserOp_provider fl cfg
  | TxExchangeBatchOrders => txExchangeBatchOrders_provider fl cfg
  | TxWasmStoreCode => txWasmStoreCode_provider cfg
  | TxWasmInitContract => txWasmInitContract_provider cfg
  | TxWasmExecContract => txWasmExecContract_provider cfg
  | TxMixedPayload mixedCfg => txMixedPayload_provider mixedCfg cfg
  end.

(** The settings a command runs with before the accounts are read: for the mixed
    command the file's are applied. *)
Definition effective (cmd : StressCommand) (yaml : option StresserConfig) (changed : string -> bool)
    (cfg : StressConfig) : StressConfig :=
  match cmd with TxMixedPayload _ => applyStresserConfigFromYAML cfg yaml changed | _ => cfg end.

(** What happens before the provider is made: the accounts are read ([orPanic]). *)
Definition command_config (cmd : StressCommand) (fs : FS) (fl : Flags) (yaml : option StresserConfig)
    (changed : string -> bool) (cfg : StressConfig) : go StressConfig :=
  orPanic (readAccounts fs (effective cmd yaml changed cfg) (fl_accountFile fl) (fl_numOfAccounts fl)).

(** The file of the mixed command; [load] is [LoadMixedPayloadConfig]. *)
Definition mixed_config {A} (load : string -> go A) (fl : Flags) : go A :=
  when bool_decide (fl_mixedPayloadConfigPath fl = "") raise ENew "--config is required";
  go_wrap "failed to load mixed payload config" (load (fl_mixedPayloadConfigPath fl)).

(** A command returns to cobra, ends the process with a status, or panics. *)
Inductive CmdOutcome :=
| CmdReturns (err : option error)
| CmdExits (code : Z)
| CmdPanics.

Context `{RL : RetryLib, SE : SdkErrors, RT : RateLib, FC : FloatConv, CL : ConnLib}.
Context {W : Type} {CW : ChainWorld W}.

(** The commands that make a client for their provider. *)
Definition queries (cmd : StressCommand) : bool :=
  match cmd with TxWasmInitContract | TxWasmExecContract | TxMixedPayload _ => true | _ => false end.

(** [chain.NewClient] returns. *)
Definition client_made (cfg : StressConfig) : bool :=
  is_Ok (NewClient (sc_ChainID cfg) (sc_NodeAddress cfg) (sc_GRPCAddress cfg)).

(** [Stress] makes its client after its checks. *)
Definition stress_makes_client (cfg : StressConfig) : Prop := sc_EthChainID cfg <> 0 /\ sc_ChainID cfg <> "".

Definition outcome_of (out : Outcome) : CmdOutcome :=
  match out with
  | Returns None => CmdReturns None
  | Returns (Some _) => CmdExits (-1)
  | Exits => CmdExits 1
  end.

(** [RunE] of a command, on [ncpu] CPUs. *)
Inductive run_command (cmd : StressCommand) (fs : FS) (fl : Flags) (yaml : option StresserConfig)
    (changed : string -> bool) (cfg : StressConfig) (ncpu : nat) (w : W) : CmdOutcome -> W -> Prop :=
| run_unread :
    is_Ok (command_config cmd fs fl yaml changed cfg) = false ->
    run_command cmd fs fl yaml changed cfg ncpu w CmdPanics w
| run_no_query_client cfg' :
    command_config cmd fs fl yaml changed cfg = Ok cfg' -> queries cmd = true -> client_made cfg' = false ->
    run_command cmd fs fl yaml changed cfg ncpu w CmdPanics w
| run_no_provider cfg' e :
    command_config cmd fs fl yaml changed cfg = Ok cfg' -> (queries cmd = true -> client_made cfg' = true) ->
    new_provider cmd fl cfg' = Err e ->
    run_command cmd fs fl yaml changed cfg ncpu w (CmdReturns (Some e)) w
| run_provider_panics cfg' m :
    command_config cmd fs fl yaml changed cfg = Ok cfg' -> (queries cmd = true -> client_made cfg' = true) ->
    new_provider cmd fl cfg' = Panic m ->
    run_command cmd fs fl yaml changed cfg ncpu w CmdPanics w
| run_no_client cfg' p :
    command_config cmd fs fl yaml changed cfg = Ok cfg' -> (queries cmd = true -> client_made cfg' = true) ->
    new_provider cmd fl cfg' = Ok p -> stress_makes_client cfg' -> client_made cfg' = false ->
    run_command cmd fs fl yaml changed cfg ncpu w CmdPanics w
| run_stress cfg' p out w' :
    command_config cmd fs fl yaml changed cfg = Ok cfg' -> (queries cmd = true -> client_made cfg' = true) ->
    new_provider cmd fl cfg' = Ok p -> (stress_makes_client cfg' -> client_made cfg' = true) ->
    Stress cfg' ncpu p w out w' ->
    run_command cmd fs fl yaml changed cfg ncpu w (outcome_of out) w'.

(** [RunE] of the mixed command: the file is loaded first. *)
Inductive run_mixed (load : string -> go (MixedPayloadConfig * option StresserConfig)) (fs : FS) (fl : Flags)
    (changed : string -> bool) (cfg : StressConfig) (ncpu : nat) (w : W) : CmdOutcome -> W -> Prop :=
| run_mixed_unloaded e :
    mixed_config load fl = Err e -> run_mixed load fs fl changed cfg ncpu w (CmdReturns (Some e)) w
| run_mixed_panics m :
    mixed_config load fl = Panic m -> run_mixed load fs fl changed cfg ncpu w CmdPanics w
| run_mixed_loaded mixedCfg yaml o w' :
    mixed_config load fl = Ok (mixedCfg, yaml) ->
    run_command (TxMixedPayload mixedCfg) fs fl yaml changed cfg ncpu w o w' ->
    run_mixed load fs fl changed cfg ncpu w o w'.

(** [main]: an error returned to cobra is a panic. *)
Definition main_outcome (o : CmdOutcome) : CmdOutcome :=
  match o with CmdReturns (Some _) => CmdPanics | o => o end.

(** ** A mixed payload with one section *)

Definition sections bs bm es ec ed xb ws wi we : MixedPayloadConfig :=
  {| BankSend := bs; BankMultiSend := bm; EthSend := es; EthCall := ec; EthDeploy := ed;
     ExchangeBatchOrders := xb; WasmStoreCode := ws; WasmInitContract := wi; WasmExecContract := we |}.

(** The file with the section of a command only, with its settings left out. *)
Definition single_section (cmd : StressCommand) (f : float64) : option MixedPayloadConfig :=
  match cmd with
  | TxBankSend => Some (sections (Some {| bsc_Frequency := f; bsc_SendAmount := "" |})
      None None None None None None None None)
  | TxBankSendMany => Some (sections None
      (Some {| bmc_Frequency := f; bmc_SendAmount := ""; bmc_NumTargets := 0 |})
      None None None None None None None)
  | TxEthSend => Some (sections None None (Some {| esc_Frequency := f; esc_SendAmount := "" |})
      None None None None None None)
  | TxEthCall => Some (sections None None None (Some f) None None None None None)
  | TxEthDeploy => Some (sections None None None None (Some f) None None None None)
  | TxExchangeBatchOrders => Some (sections None None None None None
      (Some {| xbc_Frequency := f; xbc_SpotMarketIDs := []; xbc_DerivativeMarketIDs := [] |})
      None None None)
  | TxWasmStoreCode => Some (sections None None None None None None (Some f) None None)
  | TxWasmInitContract => Some (sections None None None None None None None (Some f) None)
  | TxWasmExecContract => Some (sections None None None None None None None None (Some f))
  | _ => None
  end.

(** The mixed provider that holds [a] alone. *)
Definition holds_only (m : MixedPayloadProvider) (a : AnyProvider) : Prop :=
  providers m = [a] /\ length (frequencies m) = 1%nat.

Lemma holds_only_selects m a : holds_only m a -> providers m !! selectProvider m = Some a.
Proof.
  intros [Hp Hf]. assert (selectProvider m < length (providers m))%nat as H.
  { apply select_in_range; rewrite Hp; [by rewrite Hf|done]. }
  rewrite Hp in *. cbn in H. by replace (selectProvider m) with 0%nat by lia.
Qed.

Lemma holds_only_after m a a' : holds_only m a -> holds_only (after_call m (selectProvider m) a') a'.
Proof.
  intros H. pose proof (holds_only_selects m a H) as Hs. destruct H as [Hp Hf].
  rewrite Hp in Hs. destruct (selectProvider m) as [|i] eqn:E; [|by destruct i].
  unfold holds_only, after_call. cbn [providers frequencies]. by rewrite Hp.
Qed.

Lemma single_section_provider cmd f mc cfg :
  single_section cmd f = Some mc -> f64_gtb f f64_zero = true ->
  match new_provider cmd default_flags cfg with
  | Ok c => exists a m, c = CPAny a /\
      new_provider (TxMixedPayload mc) default_flags cfg = Ok (CPMixed m) /\ holds_only m a
  | _ => is_Ok (new_provider (TxMixedPayload mc) default_flags cfg) = false
  end.
Proof.
  intros Hs Hf. destruct cmd; try done; cbn in Hs; injection Hs as <-;
    unfold new_provider, txBankSend_provider, txBankSendMany_provider, txEthSend_provider,
      txEthCall_provider, txEthDeploy_provider,
      txEthInternalCall_provider, txEthUserOp_provider, txExchangeBatchOrders_provider,
      txWasmStoreCode_provider, txWasmInitContract_provider,
      txWasmExecContract_provider, txMixedPayload_provider,
      NewMixedPayloadProvider, mixed_section;
    cbn [BankSend BankMultiSend EthSend EthCall EthDeploy ExchangeBatchOrders WasmStoreCode
         WasmInitContract WasmExecContract sections go_bind bsc_Frequency bmc_Frequency esc_Frequency
         xbc_Frequency id bsc_SendAmount bmc_SendAmount bmc_NumTargets esc_SendAmount
         xbc_SpotMarketIDs xbc_DerivativeMarketIDs];
    unfold id; rewrite Hf;
    match goal with
    | |- context [go_map (fun p => CPAny _) ?new] => destruct new eqn:E
    end;
    change (default_amount "") with sendAmount; change (default_markets []) with [default_market];
    change (if 0 =? 0 then 50 else 0) with (fl_multiSendNumTargets default_flags);
    change [default_market] with (fl_spotMarketIDs default_flags) in *;
    change (fl_derivativeMarketIDs default_flags) with (fl_spotMarketIDs default_flags) in *;
    rewrite ?E; cbn; try done.
  all: eexists _, _; (split_and!; [reflexivity|reflexivity|]); split; [done|apply normalizeFrequencies_length].
Qed.

(** C23. A mixed payload with a single section is the command of that section.  For
    each of the nine commands the file has sections for, with the default flags, and
    any positive frequency: the mixed provider can be made exactly when the
    command's can, and holds it alone; and a mixed provider that holds one provider
    alone, whatever its random source draws, returns for every call what that
    provider returns, and goes on holding its successor. *)
Theorem mixed_single_equivalent cmd f mc cfg :
  single_section cmd f = Some mc -> f64_gtb f f64_zero = true ->
  is_Ok (new_provider (TxMixedPayload mc) default_flags cfg) = is_Ok (new_provider cmd default_flags cfg) /\
  (forall c, new_provider cmd default_flags cfg = Ok c ->
     exists a m, c = CPAny a /\ new_provider (TxMixedPayload mc) default_flags cfg = Ok (CPMixed m) /\
       holds_only m a) /\
  (forall m a, holds_only m a -> forall e req client t,
     (GenerateInitialTx e m req).2 = (GenerateInitialTx e a req).2 /\
     holds_only (GenerateInitialTx e m req).1 (GenerateInitialTx e a req).1 /\
     (GenerateTx e m req).2 = (GenerateTx e a req).2 /\
     holds_only (GenerateTx e m req).1 (GenerateTx e a req).1 /\
     (BuildAndSignTx m client t).1.2 = (BuildAndSignTx a client t).1.2 /\
     (BuildAndSignTx m client t).2 = (BuildAndSignTx a client t).2 /\
     holds_only (BuildAndSignTx m client t).1.1 (BuildAndSignTx a client t).1.1).
Proof.
  intros Hs Hf. pose proof (single_section_provider cmd f mc cfg Hs Hf) as H. split_and!.
  - destruct (new_provider cmd default_flags cfg) as [c|e|m]; [|done..].
    by destruct H as (a & m & _ & -> & _).
  - intros c Hc. rewrite Hc in H. exact H.
  - intros m a Hm e req client t. pose proof (holds_only_selects m a Hm) as Hsel.
    cbn [GenerateInitialTx GenerateTx BuildAndSignTx mixed_Provider mixed_TxProvider any_TxProvider].
    unfold mixed_GenerateInitialTx, mixed_GenerateTx, mixed_BuildAndSignTx. rewrite Hsel.
    split_and!; try done; by eapply holds_only_after.
Qed.

(** ** From [generate] to a delivered run *)

#[local] Instance cmd_laws : TxProviderLaws CmdProvider.
Proof.
  constructor.
  - intros e c req t H. destruct c as [a|p|p|m]; cbn in H.
    + apply any_GenerateTx_tags in H. exact H.
    + by apply (@GenerateTx_tags _ _ ethInternalCall_laws e p req t).
    + by apply (@GenerateTx_tags _ _ userop_laws e p req t).
    + by apply (@GenerateTx_tags _ _ (mixed_laws cw20ByteCode) e m req t).
  - intros c cl t t' H. destruct c as [a|p|p|m]; cbn in H.
    + apply any_BuildAndSignTx_tags in H. exact H.
    + by apply (@BuildAndSignTx_tags _ _ ethInternalCall_laws p cl t t').
    + by apply (@BuildAndSignTx_tags _ _ userop_laws p cl t t').
    + by apply (@BuildAndSignTx_tags _ _ (mixed_laws cw20ByteCode) m cl t t').
  - intros e c req t H. destruct c as [a|p|p|m]; cbn in H.
    + apply any_GenerateInitialTx_from in H. exact H.
    + by apply (@GenerateInitialTx_from _ _ ethInternalCall_laws e p req t).
    + by apply (@GenerateInitialTx_from _ _ userop_laws e p req t).
    + by apply (@GenerateInitialTx_from _ _ (mixed_laws cw20ByteCode) e m req t).
Qed.

(** A command that read its accounts and made its client and its provider ends as
    [Stress] does. *)
Lemma run_command_Stress cmd fs fl yaml changed cfg ncpu w cfg' p o w' :
  command_config cmd fs fl yaml changed cfg = Ok cfg' -> client_made cfg' = true ->
  new_provider cmd fl cfg' = Ok p ->
  run_command cmd fs fl yaml changed cfg ncpu w o w' <->
  exists out, Stress cfg' ncpu p w out w' /\ o = outcome_of out.
Proof.
  intros Hc Hm Hp. split.
  - destruct 1 as [H|c H1 _ H2|c e H1 _ H2|c m H1 _ H2|c q H1 _ _ _ H2|c q out w' H1 _ H2 _ Hs];
      [by rewrite Hc in H|congruence..|]. exists out. split; [congruence|done].
  - intros (out & Hs & ->). by eapply run_stress.
Qed.

Lemma command_config_Ok cmd fs fl yaml changed cfg cfg' :
  command_config cmd fs fl yaml changed cfg = Ok cfg' <->
  readAccounts fs (effective cmd yaml changed cfg) (fl_accountFile fl) (fl_numOfAccounts fl) = Ok cfg'.
Proof.
  unfold command_config. by destruct (readAccounts _ _ _ _).
Qed.

Context `{GL : GenesisLib, LW : !GenesisLaws, KG : KeyGen, RLL : !RetryLaws, RTL : !RateLaws}.
Context {SC : @SequencedChain SE W CW}.

(** C5. From [generate] to the last delivered transaction, for every stress command
    with the accounts file of a generated instance.  The number of accounts asked
    for decides: outside the range of the file the command panics before it
    touches the chain; within it, the command runs with so many keys, each of an
    account that every node's genesis document has with the initial balance, and,
    on a chain that enforces sequences, with a provider that succeeds (the
    conditions of [Stress]) and a client that can be made, the process can end and ends with success only, and
    then every account's initial and prepared transactions are on the chain, once
    each and in order. *)
Theorem generate_run_delivers env st cmd i fl yaml changed cfg ncpu I w :
  generate_cmd env = Ok st -> 0 <= i < NumOfInstances env -> fl_accountFile fl = instance_accounts env i ->
  (0 < ncpu)%nat -> gas_typed -> broadcasts_return (W := W) ->
  (forall cfg', command_config cmd (gs_fs st) fl yaml changed cfg = Ok cfg' -> client_made cfg' = true /\
     exists p, new_provider cmd fl cfg' = Ok p /\ chain_reads cfg' I /\ run_conditions cfg' I p w) ->
  (0 < fl_numOfAccounts fl <= NumOfAccountsPerInstance env -> exists cfg' p doc,
     command_config cmd (gs_fs st) fl yaml changed cfg = Ok cfg' /\
     new_provider cmd fl cfg' = Ok p /\ Z.of_nat (length (sc_Accounts cfg')) = fl_numOfAccounts fl /\
     genesis_ok env (gs_fs st) "validators" (NumOfValidators env) doc /\
     (forall key, key ∈ sc_Accounts cfg' ->
        Address key ∈ doc_accounts doc /\ account_balance key ∈ doc_balances doc) /\
     (exists w', run_command cmd (gs_fs st) fl yaml changed cfg ncpu w (CmdReturns None) w') /\
     forall o w', run_command cmd (gs_fs st) fl yaml changed cfg ncpu w o w' ->
       main_outcome o = CmdReturns None /\ run_delivers cfg' I p w w') /\
  (~ 0 < fl_numOfAccounts fl <= NumOfAccountsPerInstance env ->
     run_command cmd (gs_fs st) fl yaml changed cfg ncpu w CmdPanics w /\ forall o w',
     run_command cmd (gs_fs st) fl yaml changed cfg ncpu w o w' -> o = CmdPanics /\ w' = w).
Proof.
  intros Hgen Hi Hfile Hn Hgas Hret Hrun.
  destruct (generated_for_stress env st Hgen) as (doc & Hdoc & _ & _ & _ & Hread).
  destruct (Hread i (effective cmd yaml changed cfg) (fl_numOfAccounts fl) Hi) as [Hiff Hkeys].
  rewrite <- Hfile in Hiff, Hkeys. split.
  - intros (cfg' & Hc)%Hiff. destruct (Hkeys cfg' Hc) as (Hlen & _ & Hfund).
    apply command_config_Ok in Hc. destruct (Hrun cfg' Hc) as (Hm & p & Hp & Hrd & Hrc).
    destruct (Stress_total cfg' I ncpu p w Hn Hgas Hrd Hret Hrc) as [[w' Hs] Hall].
    exists cfg', p, doc. split_and!; try done.
    + exists w'. apply (run_command_Stress _ _ _ _ _ _ _ _ _ _ _ _ Hc Hm Hp). by exists (Returns None).
    + intros o w2 (out & Hs2 & ->)%(run_command_Stress _ _ _ _ _ _ _ _ _ _ _ _ Hc Hm Hp).
      by destruct (Hall out w2 Hs2) as [-> Hdel].
  - intros Hout. split.
    { apply run_unread. destruct (command_config _ _ _ _ _ _) as [c| |] eqn:E; [|done..].
      apply command_config_Ok in E. exfalso. apply Hout, Hiff. eauto. }
    intros o w'. destruct 1 as [H|c H1 _ _|c e H1 _ _|c m H1 _ _|c q H1 _ _ _ _|c q out w' H1 _ _ _ _]; [done|exfalso..];
      apply command_config_Ok in H1; apply Hout, Hiff; eauto.
Qed.

End Commands.

(** ** Instances *)

Lemma mixed_single_equivalent_witness :
  exists a m,
    @new_provider model_crypto model_math model_eth model_ethnode model_hex demo_wasm (Ok []) "now" demo_rng (TxMixedPayload
        (sections (Some {| bsc_Frequency := f64_of_Z 1; bsc_SendAmount := "" |})
           None None None None None None None None)) default_flags default_stressCfg = Ok (CPMixed m) /\
    holds_only m a /\ any_Name a = "bank_send_stress".
Proof.
  destruct (@mixed_single_equivalent model_txconfig model_crypto model_math model_eth model_ethbuild model_wasm
    model_ethnode model_hex demo_wasm (Ok []) "now" demo_rng TxBankSend (f64_of_Z 1) _ default_stressCfg
    eq_refl eq_refl) as (_ & H & _).
  destruct (@new_provider model_crypto model_math model_eth model_ethnode model_hex demo_wasm (Ok []) "now"
    demo_rng TxBankSend default_flags default_stressCfg)
    as [c| |] eqn:E; [|vm_compute in E; discriminate E..].
  destruct (H c eq_refl) as (a & m & -> & Hm & Ha). exists a, m. split_and!; [exact Hm|exact Ha|].
  vm_compute in E. injection E as <-. reflexivity.
Defined.

(** *** The deployment of [Generator.v], and [tx-bank-send] on its second instance *)

Section DemoCommand.
#[local] Existing Instances typed_txconfig typed_txconfig_laws model_crypto model_math model_eth
  model_wasm model_ethbytes model_ethnode model_hex model_retry model_retry_laws model_errors model_rate
  model_rate_laws amd64_FloatConv demo_world demo_chain model_genesis model_genesis_laws model_keygen.
Definition typed_ethbuild : @EthBuild typed_txconfig := {|
  EthExtensionAny := None;
  EthBuildTx := fun (b : @Builder typed_txconfig) m denom => Ok (with_msgs [m] (b : sdkTx))
|}.
#[local] Instance demo_cmd_TxProvider : TxProvider CmdProvider := 
  @cmd_TxProvider typed_txconfig model_crypto model_math model_eth typed_ethbuild model_wasm model_ethbytes
    model_ethnode demo_wasm.

Definition demo_flags : Flags :=
  {| fl_accountFile := instance_accounts demo_genenv 1; fl_numOfAccounts := 2;
     fl_multiSendNumTargets := 50; fl_iterations := 10; fl_ethRPCURL := ""; fl_entrypointAddress := "";
     fl_beneficiaryAddress := ""; fl_accountFactoryAddress := ""; fl_counterContractAddr := "";
     fl_spotMarketIDs := []; fl_derivativeMarketIDs := []; fl_mixedPayloadConfigPath := "" |}.

Definition demo_generated : go GenState := generate_cmd demo_genenv.

Definition demo_fs : FS := match demo_generated with Ok st => gs_fs st | _ => ∅ end.

Definition demo_command_config : go StressConfig :=
  command_config TxBankSend demo_fs demo_flags None (fun _ => false) default_stressCfg.

Definition demo_run_config : StressConfig :=
  match demo_command_config with Ok c => c | _ => default_stressCfg end.

Definition demo_new_provider : go CmdProvider :=
  new_provider demo_wasm (Ok []) "now" demo_rng TxBankSend demo_flags demo_run_config.


Definition demo_cmd_provider : CmdProvider :=
  CPAny (PBankSend {| bs_sendAmount := {| Denom := "inj"; Amount := 1 |};
    bs_minGasPrice := {| Denom := "inj"; Amount := 1 |}; bs_maxGasLimit := 150000; bs_memoAttach := "" |}).

Local Notation is_demo := (fun p => p = demo_cmd_provider).

Definition demo_cmd_inv : @ProviderInv CmdProvider := {| fresh := is_demo; ready := is_demo; initial _ := True |}.

Lemma demo_cmd_reads : chain_reads demo_run_config demo_cmd_inv.
Proof. intros p u sg -> _ H Hu. by apply (fee_reads _ _ _ _ _ _ H). Qed.

Lemma demo_cmd_conditions : run_conditions demo_run_config demo_cmd_inv demo_cmd_provider demo_ledgers.
Proof.
  assert (demo_run_config = with_accounts default_stressCfg [[5]; [6]]) as -> by (vm_compute; reflexivity).
  constructor; try done.
  - apply (bool_decide_unpack _). vm_compute. done.
  - constructor; [intros e p req ->; done|done| | |].
    + intros e p p1 txs Ho E. apply (create_initial_keeps is_demo) in E; [done| |done]. by intros q req ->.
    + intros p tx -> _. split_and!; [done|done|]. reflexivity.
    + intros p i tx -> (key & e & q & num & _ & -> & H). discriminate H.
  - constructor; [intros e p req ->; reflexivity|intros p tx ->; reflexivity].
  - intros p2 w1 _. constructor.
    + intros e p i key j -> Hi Hj. destruct i as [|[|i]]; [reflexivity..|done].
    + intros p i j tx -> Hg. reflexivity.
Qed.

Lemma demo_generated_Ok : exists st, generate_cmd demo_genenv = Ok st /\ demo_fs = gs_fs st.
Proof.
  assert (is_Ok demo_generated = true) as H by (vm_compute; reflexivity). revert H. unfold demo_fs, demo_generated.
  generalize (generate_cmd demo_genenv). intros [st| |]; [by exists st|discriminate..].
Qed.
End DemoCommand.

Lemma generate_run_delivers_witness :
  exists w', @run_command typed_txconfig model_crypto model_math model_eth typed_ethbuild model_wasm
    model_ethbytes model_ethnode model_hex demo_wasm (Ok []) "now" demo_rng model_retry model_errors model_rate
    amd64_FloatConv model_conn Ledgers demo_world TxBankSend demo_fs demo_flags None (fun _ => false) default_stressCfg 4
    demo_ledgers (CmdReturns None) w'.
Proof.
  destruct demo_generated_Ok as (st & E & Hfs).
  destruct (@generate_run_delivers typed_txconfig model_crypto model_math model_eth typed_ethbuild model_wasm
    model_ethbytes model_ethnode model_hex demo_wasm (Ok []) "now" demo_rng model_retry model_errors model_rate
    amd64_FloatConv model_conn Ledgers demo_world model_genesis model_genesis_laws model_keygen model_retry_laws
    model_rate_laws demo_chain demo_genenv st TxBankSend 1 demo_flags None (fun _ => false) default_stressCfg 4
    demo_cmd_inv demo_ledgers E) as [H _];
    [split; [discriminate|reflexivity]|reflexivity|lia|exact typed_gas|exact demo_returns| |].
  - rewrite <- Hfs. intros cfg' Hc.
    assert (demo_run_config = cfg') as <- by (unfold demo_run_config, demo_command_config; by rewrite Hc).
    split; [vm_compute; reflexivity|]. exists demo_cmd_provider.
    split_and!; [vm_compute; reflexivity|exact demo_cmd_reads|exact demo_cmd_conditions].
  - rewrite <- Hfs in H. destruct H as (cfg' & p & doc & _ & _ & _ & _ & _ & Hw & _); [|exact Hw].
    split; [reflexivity|discriminate].
Defined.
