(* ===== verification/NativeDelivery.v ===== *)
(** * What the native stress commands leave on the chain

    The commands of x/bank, x/exchange and the storing of wasm code, and mixed
    payloads of these: their providers meet the conditions of [Delivery], so that
    a run of such a command delivers, account by account and in order, exactly the
    messages its provider stands for, signed by the account and paid for. *)

From Stdlib Require Import ZArith Lia Ascii String.
From stdpp Require Import base list strings numbers gmap.
From S2P Require Import Prelude GoStrings Float64 Sdk SdkModel RateLimit Chain ClientSetup Payload EthPayload WasmPayload.
From S2P Require Import MixedPayload Pipeline Stresser Broadcasting InitialPool Fuzzer SeqChain StressRun.
From S2P Require Import InitialDelivery Delivery.
From S2P Require Import UserOp UserOpPayload EthClient Genesis Generator Cli Commands.

Open Scope string_scope.
Open Scope Z_scope.
Open Scope list_scope.

(** ** Signing *)

Section Signing.
Context `{TC : TxConfig, TCL : !TxConfigLaws, CR : Crypto}.

(** The SDK builds, signs and encodes transactions with a [uint64] gas limit. *)
Record signing_available : Prop := {
  sa_msgs b m : is_Ok (SetMsgs b m) = true;
  sa_signatures b l : is_Ok (SetSignatures b l) = true;
  sa_bytes d tx : is_Ok (GetSignBytes d tx) = true;
  sa_sign key b : is_Ok (privKey_Sign key b) = true;
  sa_encode b : (forall f, asFeeTx (GetTx b) = Some f -> is_u64 (GetGas f)) -> is_Ok (TxEncoder (GetTx b)) = true
}.

Lemma Ok_is {A} (m : go A) : is_Ok m = true -> exists a, m = Ok a.
Proof. destruct m; [eauto|done..]. Qed.

Lemma signing_works c acc tx :
  signing_available -> is_u64 (tx_GasLimit tx) ->
  exists stx enc, Client_BuildAndSignTx c acc tx = Ok stx /\ Client_Encode stx = Ok enc.
Proof.
  intros Ha Hg. assert (is_Ok (Client_BuildAndSignTx c acc tx) = true) as [stx E]%Ok_is.
  { unfold Client_BuildAndSignTx, buildAndSignTx, signTx. cbv zeta.
    repeat match goal with
    | |- context [SetMsgs ?b ?m] => destruct (Ok_is _ (sa_msgs Ha b m)) as [? ->]
    | |- context [SetSignatures ?b ?l] => destruct (Ok_is _ (sa_signatures Ha b l)) as [? ->]
    | |- context [GetSignBytes ?d ?t] => destruct (Ok_is _ (sa_bytes Ha d t)) as [? ->]
    | |- context [privKey_Sign ?k ?b] => destruct (Ok_is _ (sa_sign Ha k b)) as [? ->]
    | _ => progress cbn [go_wrap go_bind orPanic]
    end. done. }
  exists stx. destruct (Client_BuildAndSignTx_properly _ _ _ _ E) as ((_ & _ & [payer Hf] & _) & b & ->).
  destruct (Ok_is _ (sa_encode Ha b ltac:(intros f Hf'; rewrite Hf in Hf'; by injection Hf' as <-))) as [enc He].
  exists enc. unfold Client_Encode. by rewrite He.
Qed.
End Signing.

(** ** Providers without initial transactions *)

Section Native.
Context `{TC : TxConfig, TCL : !TxConfigLaws, CR : Crypto, SM : SdkMath, ML : !SdkMathLaws}.
Context `{EL : EthLib, EBD : !EthBuild, WQ : WasmQuery}.
Context `{EBY : EthBytes, EN : EthNode, HU : HexUtil}.
Context (cw20ByteCode : bytes).

#[local] Instance native_TxProvider : TxProvider CmdProvider := cmd_TxProvider cw20ByteCode.

(** What a provider pays for a transaction, and the memo it attaches. *)
Record FeeTerms := { ft_price : Coin; ft_gas : Z; ft_memo : string }.

Definition fee_terms (a : AnyProvider) : option FeeTerms :=
  match a with
  | PBankSend p => Some {| ft_price := bs_minGasPrice p; ft_gas := bs_maxGasLimit p; ft_memo := bs_memoAttach p |}
  | PBankMultiSend p => Some {| ft_price := bm_minGasPrice p; ft_gas := bm_maxGasLimit p; ft_memo := bm_memoAttach p |}
  | PExchange p => Some {| ft_price := ex_minGasPrice p; ft_gas := ex_maxGasLimit p; ft_memo := ex_memoAttach p |}
  | PWasmStore p => Some {| ft_price := ws_minGasPrice p; ft_gas := ws_maxGasLimit p; ft_memo := ws_memoAttach p |}
  | _ => None
  end.

(** Its amounts and numbers are in range, for [n] accounts. *)
Definition native_fits (n : nat) (a : AnyProvider) : Prop :=
  (exists ft, fee_terms a = Some ft /\ fee_fits (ft_price ft) (ft_gas ft)) /\
  match a with
  | PBankMultiSend p =>
      (exists s, ParseCoinNormalized s = Ok (bm_sendAmount p)) /\ 0 < bm_numTargets p /\
      Z.of_nat n + bm_numTargets p < maxInt /\ Amount (bm_sendAmount p) * bm_numTargets p < 2 ^ 256
  | PExchange p =>
      Z.of_nat (length (ex_derivativeMarketIDs p)) <= 10 ^ 6 /\ Z.of_nat (length (ex_spotMarketIDs p)) <= 10 ^ 6
  | _ => Z.of_nat n < maxInt
  end.

(** The messages a provider stands for. *)
Definition native_message (req : TxRequest) (a : AnyProvider) (m : list Msg) : Prop :=
  let key := Key (From req) in
  match a with
  | PBankSend p => exists to, receiver_key req 1 = Some to /\
      m = [MsgSend (Address key) (Address to) [bs_sendAmount p]]
  | PBankMultiSend p => exists total outs, m = [MsgMultiSend (Address key, [total]) outs] /\
      Z.of_nat (length outs) = bm_numTargets p /\
      Denom total = Denom (bm_sendAmount p) /\ Amount total = outputs_total outs /\
      forall k out, outs !! k = Some out -> exists to, receiver_key req (1 + Z.of_nat k) = Some to /\
        out = (Address to, [bm_sendAmount p])
  | PExchange p => exists sub derivs spots noderivs nospots,
      m = [MsgBatchUpdateOrders (AccAddress key) sub derivs spots noderivs nospots] /\
      map MarketId derivs = ex_derivativeMarketIDs p /\ map MarketId spots = ex_spotMarketIDs p
  | PWasmStore _ => m = [MsgStoreCode (AccAddress key) cw20ByteCode]
  | _ => False
  end.

Definition request_fits (n : nat) (req : TxRequest) : Prop :=
  length (Keys req) = n /\ 0 <= FromIdx req < Z.of_nat n.

Lemma map_lookup_eq {A B} (f : A -> B) l l' :
  length l = length l' -> (forall k m o, l' !! k = Some m -> l !! k = Some o -> f o = m) -> map f l = l'.
Proof.
  intros Hl H. apply list_eq_same_length with (n := length l'); [done|by rewrite length_map|].
  intros k x y _ Hx Hy. rewrite list_lookup_fmap in Hx. destruct (l !! k) as [o|] eqn:E; [|done].
  injection Hx as <-. by eapply H.
Qed.

Lemma native_idle n a e req :
  native_fits n a -> any_GenerateInitialTx cw20ByteCode e a req = (a, Ok None).
Proof. intros [(ft & H & _) _]. by destruct a. Qed.

Lemma native_state n a e req : native_fits n a -> (any_GenerateTx cw20ByteCode e a req).1 = a.
Proof. intros [(ft & H & _) _]. by destruct a. Qed.

Lemma native_generates n a e req :
  native_fits n a -> request_fits n req ->
  exists m, (any_GenerateTx cw20ByteCode e a req).2 = Ok (request_tx req m) /\ native_message req a m.
Proof.
  intros [(ft & Hft & _) Ha] [Hk Hf].
  assert (Hne : Keys req <> []) by (intros E; rewrite E in Hk; cbn in Hk; lia).
  destruct a as [p|p|p|p|p|p|p|p|p]; try done; cbn [any_GenerateTx on_fst snd GenerateTx native_message].
  - destruct (receiver_Ok req 1) as (to & Hto & Hr); [done|lia|lia|lia|].
    cbn. unfold bankSend_GenerateTx. rewrite Hr. cbn [go_bind]. eauto 6.
  - destruct Ha as (Hp & Hn & Hm & Hs). cbn.
    destruct (multiSend_generates p req Hp Hn Hne) as (total & outs & E & H); [lia..|].
    rewrite E. eexists. split; [done|]. eauto 6.
  - destruct Ha as [Hd Hs]. destruct (exchange_orders e p req Hd Hs) as (d & s & sub & E & Hld & Hls & Hod & Hos).
    cbn. rewrite E. eexists. split; [done|]. eexists _, d, s, _, _.
    split_and!; [done|apply map_lookup_eq; [done|]..]; intros k m o Hm Ho;
      [by destruct (Hod k m o Hm Ho)|by destruct (Hos k m o Hm Ho)].
  - cbn. eauto.
Qed.

Lemma native_signs n a cl t :
  native_fits n a -> exists ft, fee_terms a = Some ft /\ fee_fits (ft_price ft) (ft_gas ft) /\
    any_BuildAndSignTx cw20ByteCode a cl t = (a, t, feeBuildAndSignTx (ft_price ft) (ft_gas ft) (ft_memo ft) cl t).
Proof. intros [(ft & H & Hf) _]. exists ft. split_and!; [done..|]. by destruct a; simplify_eq/=. Qed.

(** ** Through the interface *)

(** The providers behind the one a command passes on. *)
Definition held (c : CmdProvider) : list AnyProvider :=
  match c with CPAny a => [a] | CPMixed m => providers m | _ => [] end.

Definition native (n : nat) (c : CmdProvider) : Prop :=
  Forall (native_fits n) (held c) /\
  match c with
  | CPAny _ => True
  | CPMixed m => length (providers m) = length (frequencies m) /\ providers m <> []
  | _ => False
  end.

(** A call goes to one of them. *)
Lemma native_selects n c :
  native n c -> exists a back, a ∈ held c /\ native_fits n a /\ native n (back a) /\ held (back a) = held c /\
    (forall e req, GenerateInitialTx e c req = on_fst back (any_GenerateInitialTx cw20ByteCode e a req)) /\
    (forall e req, GenerateTx e c req = on_fst back (any_GenerateTx cw20ByteCode e a req)) /\
    (forall cl t, BuildAndSignTx c cl t = on_fst (on_fst back) (any_BuildAndSignTx cw20ByteCode a cl t)).
Proof.
  intros [Hf Hc]. destruct c as [a|p|p|m]; try done; cbn [held] in *.
  - exists a, CPAny. pose proof (proj1 (Forall_singleton _ _) Hf) as Ha. split_and!; [by left|done|by split|done..].
  - destruct Hc as [Hl Hne]. pose proof (select_in_range m Hl Hne) as Hi.
    apply lookup_lt_is_Some in Hi as [a Ha]. exists a, (fun a => CPMixed (after_call m (selectProvider m) a)).
    assert (Hs : providers (after_call m (selectProvider m) a) = providers m) by (by apply list_insert_id).
    split_and!; [by eapply list_elem_of_lookup_2|by eapply Forall_lookup_1| |done|..].
    + unfold native. cbn [held]. by rewrite Hs.
    + intros e req. cbn. unfold mixed_GenerateInitialTx. by rewrite Ha.
    + intros e req. cbn. unfold mixed_GenerateTx. by rewrite Ha.
    + intros cl t. cbn. unfold mixed_BuildAndSignTx. by rewrite Ha.
Qed.

#[local] Instance native_laws : TxProviderLaws CmdProvider := cmd_laws cw20ByteCode.

(** [c] holds the providers of [c0]: what stays true of the provider of a run. *)
Definition holds_same (n : nat) (c0 c : CmdProvider) : Prop := native n c /\ held c = held c0.

Definition native_inv (n : nat) (c0 : CmdProvider) : @ProviderInv CmdProvider :=
  {| fresh := holds_same n c0; ready := holds_same n c0; initial _ := True |}.

Lemma same_initial n c0 c e req :
  holds_same n c0 c ->
  (GenerateInitialTx e c req).2 = Ok None /\ holds_same n c0 (GenerateInitialTx e c req).1.
Proof.
  intros [Hn Hh]. destruct (native_selects n c Hn) as (a & back & _ & Hf & Hn' & Hh' & -> & _ & _).
  rewrite (native_idle n a) by done. cbn [on_fst fst snd]. split; [done|]. split; [done|by rewrite Hh'].
Qed.

Lemma same_generates n c0 c e req : holds_same n c0 c -> holds_same n c0 (GenerateTx e c req).1.
Proof.
  intros [Hn Hh]. destruct (native_selects n c Hn) as (a & back & _ & Hf & Hn' & Hh' & _ & -> & _).
  unfold on_fst. cbn [fst]. rewrite (native_state n a) by done. split; [done|by rewrite Hh'].
Qed.

Lemma same_generated n c0 c e req :
  holds_same n c0 c -> request_fits n req ->
  exists a m, a ∈ held c0 /\ (GenerateTx e c req).2 = Ok (request_tx req m) /\ native_message req a m.
Proof.
  intros [Hn Hh] Hr. destruct (native_selects n c Hn) as (a & back & Ha & Hf & _ & _ & _ & -> & _).
  destruct (native_generates n a e req Hf Hr) as (m & E & Hm). exists a, m.
  rewrite <- Hh. by rewrite <- E.
Qed.

Lemma same_signs n c0 c cl t :
  holds_same n c0 c -> exists a ft, a ∈ held c0 /\ fee_terms a = Some ft /\ fee_fits (ft_price ft) (ft_gas ft) /\
    holds_same n c0 (BuildAndSignTx c cl t).1.1 /\
    (BuildAndSignTx c cl t).2 = feeBuildAndSignTx (ft_price ft) (ft_gas ft) (ft_memo ft) cl t.
Proof.
  intros [Hn Hh]. destruct (native_selects n c Hn) as (a & back & Ha & Hf & Hn' & Hh' & _ & _ & ->).
  destruct (native_signs n a cl t Hf) as (ft & Hft & Hfit & ->). exists a, ft.
  cbn [on_fst fst snd]. rewrite <- Hh. split_and!; try done. by split; [|rewrite Hh'].
Qed.

Lemma same_signed n c0 c cl t :
  signing_available -> holds_same n c0 c -> is_Ok (BuildAndSignTx c cl t).2 = true.
Proof.
  intros Hs H. destruct (same_signs n c0 c cl t H) as (a & ft & _ & _ & Hfit & _ & ->).
  apply feeBuildAndSignTx_succeeds; [done|]. intros acc tx Hg. apply signing_works; [done|].
  rewrite Hg. apply Hfit.
Qed.

(** ** A run *)

Context `{RL : RetryLib, RLL : !RetryLaws, SE : SdkErrors, RT : RateLib, RTL : !RateLaws, FC : FloatConv, CL : ConnLib}.
Context {W : Type} {CW : ChainWorld W} {SC : @SequencedChain SE W CW}.

(** The chain takes sender and sequence from the first signature. *)
Definition reads_signatures : Prop := forall b, tx_owner b = sdk_owner b /\ tx_seq b = sdk_seq b.

(** Settings [Stress] accepts, with accounts the chain has room for. *)
Record settings_ok (cfg : StressConfig) (w : W) : Prop := {
  so_eth : sc_EthChainID cfg <> 0;
  so_chain : sc_ChainID cfg <> "";
  so_accounts : sc_Accounts cfg <> [];
  so_positive : 0 < sc_NumOfTransactions cfg;
  so_rates : Config_typed (sc_RateLimit cfg);
  so_distinct : NoDup (AccAddress <$> sc_Accounts cfg);
  so_room key : key ∈ sc_Accounts cfg ->
    0 <= chain_seq w (AccAddress key) /\ chain_seq w (AccAddress key) + 1 + sc_NumOfTransactions cfg < 2 ^ 63
}.

Lemma same_reads cfg n c0 : reads_signatures -> chain_reads cfg (native_inv n c0).
Proof.
  intros Hr c u sg Hc _ Hs Hu. destruct (Hr (txBytes sg)) as [-> ->].
  destruct (same_signs n c0 c (stress_client cfg) u Hc) as (a & ft & _ & _ & _ & _ & E). rewrite E in Hs.
  by eapply fee_reads.
Qed.

Lemma native_conditions cfg c0 w :
  signing_available -> settings_ok cfg w -> native (length (sc_Accounts cfg)) c0 ->
  run_conditions cfg (native_inv (length (sc_Accounts cfg)) c0) c0 w.
Proof.
  intros Hs Hw Hn. set (n := length (sc_Accounts cfg)) in *.
  assert (Hsig : forall c t, holds_same n c0 c -> is_Ok (BuildAndSignTx c (stress_client cfg) t).2 = true)
    by (intros c t; by apply same_signed).
  constructor; try apply Hw; [done| | |].
  - constructor.
    + intros e c req Hc. by destruct (same_initial n c0 c e req Hc) as [-> ?].
    + done.
    + intros e c c1 txs Hc E. apply (create_initial_keeps (holds_same n c0)) in E; [done| |done].
      intros c' req Hc'. by destruct (same_initial n c0 c' e req Hc').
    + intros c t Hc _. split_and!;
        [by destruct (same_signs n c0 c (stress_client cfg) t Hc) as (? & ? & _ & _ & _ & ? & _)|done|].
      specialize (Hsig c t Hc). by destruct (BuildAndSignTx c (stress_client cfg) t).2.
    + intros c i tx Hc _. by apply Hsig.
  - constructor; [intros e c req; by apply same_generates|]. intros c t Hc.
    by destruct (same_signs n c0 c (stress_client cfg) t Hc) as (? & ? & _ & _ & _ & ? & _).
  - intros c2 w1 _. constructor.
    + intros e c i key j Hc Hi _. apply lookup_lt_Some in Hi.
      destruct (same_generated n c0 c e (txRequest (sc_Accounts cfg) i (account_at (fetched cfg w1) i key j) j))
        as (a & m & _ & -> & _); [done| |done]. split; cbn [Keys FromIdx txRequest]; [done|lia].
    + intros c i j tx Hc _. by apply Hsig.
Qed.

(** No initial transactions are made, and the chain is as it was. *)
Lemma pool_without_tasks cl p w n (s : @Pool CmdProvider W) :
  pool_steps cl n (pool_start p w []) s -> s = pool_start p w [].
Proof.
  intros H. remember (pool_start p w []) as s0 eqn:E0.
  induction H as [|n s1 s2 s3 _ IH Hs]; [done|]. specialize (IH E0). subst s2 s1. by inversion Hs.
Qed.

Lemma native_settled cfg c0 w c2 w1 :
  signing_available -> settings_ok cfg w -> native (length (sc_Accounts cfg)) c0 -> settled cfg c0 w c2 w1 -> w1 = w.
Proof.
  intros Hs Hw Hn (e & p1 & txs & n & s & E & Hst & _ & _ & <-).
  destruct (initial_made cfg (native_inv (length (sc_Accounts cfg)) c0) e c0 w
    (rc_starts _ _ _ _ (native_conditions cfg c0 w Hs Hw Hn))) as (p1' & txs' & E' & _ & _ & _ & Hm); [done|].
  rewrite E in E'. simplify_eq. destruct txs' as [|tx txs].
  - by rewrite (pool_without_tasks _ _ _ _ _ Hst).
  - destruct (Hm tx) as (j & key & e' & c & num & _ & Hc & Hg); [by left|].
    destruct (same_initial _ _ _ e' (initial_request (Z.of_nat j) key num (chain_seq w (AccAddress key))) Hc) as [H _].
    congruence.
Qed.

(** The coins a transaction of these terms pays. *)
Definition fee_of (ft : FeeTerms) : Coins :=
  if Amount (ft_price ft) * ft_gas ft =? 0 then []
  else [{| Denom := Denom (ft_price ft); Amount := Amount (ft_price ft) * ft_gas ft |}].

(** [tx] is the [j]-th transaction of account [i]: the messages of one of the
    providers, on the terms of one of them, signed by the account with the number
    the chain reports and the [j]-th sequence from where it stood. *)
Definition native_tx (cfg : StressConfig) (c0 : CmdProvider) (w : W) (i : nat) (key : Secp256k1PrivateKey)
    (j : nat) (tx : bytes) : Prop :=
  let acc := {| Name := sender_name i; Key := key; Number := (fetched cfg w i).1;
                acc_Sequence := chain_seq w (AccAddress key) + Z.of_nat j |} in
  exists a a' ft m stx,
    a ∈ held c0 /\ a' ∈ held c0 /\ fee_terms a' = Some ft /\
    native_message (txRequest (sc_Accounts cfg) i acc j) a m /\ TxDecoder tx = inl stx /\
    properly_signed (stress_client cfg) acc
      {| tx_Msgs := m; tx_Fee := fee_of ft; tx_GasLimit := ft_gas ft; tx_Memo := ft_memo ft |} stx.

Lemma prepared_native cfg c0 w i key j tx :
  signing_available -> settings_ok cfg w -> native (length (sc_Accounts cfg)) c0 ->
  sc_Accounts cfg !! i = Some key -> (j < num_txs cfg)%nat ->
  prepared_for cfg (native_inv (length (sc_Accounts cfg)) c0) w i j tx -> native_tx cfg c0 w i key j tx.
Proof.
  intros Hs Hw Hn Hi Hj (sg & -> & u & c & Hc & (_ & k & e & c' & Hc' & Hk & Hg) & Hb).
  rewrite Hi in Hk. injection Hk as <-.
  assert (Hq : account_at (fetched cfg w) i key j = {| Name := sender_name i; Key := key;
    Number := (fetched cfg w i).1; acc_Sequence := chain_seq w (AccAddress key) + Z.of_nat j |}).
  { unfold account_at. f_equal. rewrite (fetched_seq cfg w i key Hi). apply u64_id.
    destruct (so_room _ _ Hw key); [by eapply list_elem_of_lookup_2|]. unfold num_txs in Hj. width. }
  rewrite Hq in Hg. unfold native_tx. cbv zeta. set (acc := {| Name := sender_name i |}) in *.
  apply lookup_lt_Some in Hi.
  destruct (same_generated _ _ _ e (txRequest (sc_Accounts cfg) i acc j) Hc') as (a & m & Ha & E & Hm).
  { split; cbn [Keys FromIdx txRequest]; [done|lia]. }
  rewrite Hg in E. injection E as ->.
  destruct (same_signs _ _ _ (stress_client cfg) (request_tx (txRequest (sc_Accounts cfg) i acc j) m) Hc)
    as (a' & ft & Ha' & Hft & _ & _ & E). rewrite Hb in E. symmetry in E.
  apply feeBuildAndSignTx_Ok in E as (stx & enc & fee & -> & Hd & Hfee & Hp).
  apply NewCoins_single in Hfee. exists a, a', ft, m, stx. split_and!; try done. by rewrite Hfee in Hp.
Qed.

(** What a run leaves: per account the given number of such transactions, in
    order, and nothing else. *)
Definition native_outcome (cfg : StressConfig) (c0 : CmdProvider) (w w' : W) : Prop :=
  (forall i key, sc_Accounts cfg !! i = Some key -> exists row,
     Z.of_nat (length row) = sc_NumOfTransactions cfg /\
     ledger w' (AccAddress key) = ledger w (AccAddress key) ++ row /\
     chain_seq w' (AccAddress key) = chain_seq w (AccAddress key) + sc_NumOfTransactions cfg /\
     forall j tx, row !! j = Some tx -> native_tx cfg c0 w i key j tx) /\
  forall a, a ∉ AccAddress <$> sc_Accounts cfg -> ledger w' a = ledger w a.

Lemma delivers_native cfg c0 w w' :
  signing_available -> settings_ok cfg w -> native (length (sc_Accounts cfg)) c0 ->
  run_delivers cfg (native_inv (length (sc_Accounts cfg)) c0) c0 w w' -> native_outcome cfg c0 w w'.
Proof.
  intros Hs Hw Hn (c2 & w1 & rows & Hst & _ & Hro & Hall & Hoth).
  rewrite (native_settled cfg c0 w c2 w1 Hs Hw Hn Hst) in *. split; [|done].
  intros i key Hi. destruct (Hall i key Hi) as (row & Hr & Hl & Hled & Hseq). exists row.
  split_and!; [done..|]. intros j tx Hj. eapply prepared_native; [done..| |by eapply Hro].
  apply lookup_lt_Some in Hj. unfold num_txs. lia.
Qed.

(** ** The commands *)

(** The coins that text stands for are of moderate size. *)
Definition price_fits (s : string) : Prop := forall c, ParseCoinNormalized s = Ok c -> Amount c < 2 ^ 192.

Definition markets_fit (l : list string) : Prop := Z.of_nat (length l) <= 10 ^ 6.

(** The command's provider is one of those above, with settings in range for [n]
    accounts. *)
Definition native_command (n : nat) (fl : Flags) (cmd : StressCommand) : Prop :=
  match cmd with
  | TxBankSend | TxWasmStoreCode => True
  | TxBankSendMany => Z.of_nat n + fl_multiSendNumTargets fl < maxInt
  | TxExchangeBatchOrders => markets_fit (fl_derivativeMarketIDs fl) /\ markets_fit (fl_spotMarketIDs fl)
  | TxMixedPayload mc =>
      EthSend mc = None /\ EthCall mc = None /\ EthDeploy mc = None /\
      WasmInitContract mc = None /\ WasmExecContract mc = None /\
      (forall c, BankMultiSend mc = Some c ->
         price_fits (default_amount (bmc_SendAmount c)) /\
         Z.of_nat n + (if bmc_NumTargets c =? 0 then 50 else bmc_NumTargets c) < maxInt) /\
      (forall c, ExchangeBatchOrders mc = Some c ->
         markets_fit (default_markets (xbc_DerivativeMarketIDs c)) /\ markets_fit (default_markets (xbc_SpotMarketIDs c)))
  | _ => False
  end.

Context (randRead : go bytes) (now : string) (seeded : nat -> float64).

Lemma parsed_fits s c gas :
  ParseCoinNormalized s = Ok c -> price_fits s -> 0 <= gas < 2 ^ 63 -> fee_fits c gas.
Proof.
  intros Hc Hs Hg. pose proof (ParseCoin_nonneg _ _ Hc). specialize (Hs c Hc).
  split_and!; [eauto|width|]. apply Z.le_lt_trans with (2 ^ 192 * gas); [nia|lia].
Qed.

(** The four constructors. *)
Section Constructors.
Context (n : nat) (price : string).
Hypothesis n_fits : Z.of_nat n < maxInt.
Hypothesis price_ok : price_fits price.

Lemma bankSend_native amount p : NewBankSendProvider price amount = Ok p -> native_fits n (PBankSend p).
Proof.
  intros (amt & _ & H)%go_bind_Ok. apply go_bind_Ok in H as (c & Hc%go_wrap_Ok & [= <-]).
  split; [|done]. eexists. split; [done|]. by eapply parsed_fits.
Qed.

Lemma bankMultiSend_native amount targets p :
  price_fits amount -> Z.of_nat n + targets < maxInt ->
  NewBankMultiSendProvider randRead price amount targets = Ok p -> native_fits n (PBankMultiSend p).
Proof.
  unfold NewBankMultiSendProvider. intros Ha Ht H. destruct (targets <? 1) eqn:E; [done|]. bool_facts.
  apply go_bind_Ok in H as (amt & Hamt%go_wrap_Ok & H). apply go_bind_Ok in H as (c & Hc%go_wrap_Ok & H).
  apply go_bind_Ok in H as (memo & _ & [= <-]). split.
  - eexists. split; [done|]. by eapply parsed_fits.
  - cbn [bm_sendAmount bm_numTargets]. specialize (Ha _ Hamt). pose proof (ParseCoin_nonneg _ _ Hamt).
    split_and!; [eauto|lia|done|]. apply Z.le_lt_trans with (2 ^ 192 * targets); [nia|width].
Qed.

Lemma exchange_native spot deriv p :
  markets_fit deriv -> markets_fit spot ->
  NewExchangeBatchOrdersProvider price spot deriv = Ok p -> native_fits n (PExchange p).
Proof.
  intros Hd Hs (c & Hc%go_wrap_Ok & [= <-])%go_bind_Ok. split; [|done].
  eexists. split; [done|]. by eapply parsed_fits.
Qed.

Lemma wasmStore_native p : NewWasmStoreCodeProvider price = Ok p -> native_fits n (PWasmStore p).
Proof.
  intros (c & Hc%go_wrap_Ok & [= <-])%go_bind_Ok. split; [|done].
  eexists. split; [done|]. by eapply parsed_fits.
Qed.

Lemma section_native {C} (cfg : option C) freq mk msg acc l :
  mixed_section cfg freq mk msg acc = Ok l -> Forall (native_fits n) (map fst acc) ->
  (forall c a, cfg = Some c -> mk c = Ok a -> native_fits n a) -> Forall (native_fits n) (map fst l).
Proof.
  unfold mixed_section. intros H Hacc Hmk. destruct cfg as [c|]; [|by injection H as <-].
  destruct (f64_gtb _ _); [|by injection H as <-].
  apply go_bind_Ok in H as (a & Ha%go_wrap_Ok & [= <-]). rewrite map_app. apply Forall_app. split; [done|].
  apply Forall_singleton. eauto.
Qed.

Lemma mixed_native mc id m fl :
  native_command n fl (TxMixedPayload mc) ->
  NewMixedPayloadProvider cw20ByteCode randRead now seeded mc price id = Ok m -> native n (CPMixed m).
Proof.
  intros (E1 & E2 & E3 & E4 & E5 & Hmulti & Hex). unfold NewMixedPayloadProvider. rewrite E1, E2, E3, E4, E5.
  intros (l1 & H1 & H)%go_bind_Ok. apply go_bind_Ok in H as (l2 & H2 & H).
  cbn [mixed_section go_bind] in H. apply go_bind_Ok in H as (l3 & H3 & H).
  apply go_bind_Ok in H as (l4 & H4 & H).
  destruct (length l4 =? 0)%nat eqn:El; [done|]. injection H as <-. apply Nat.eqb_neq in El.
  split; cbn [held providers frequencies]; [|rewrite normalizeFrequencies_length, !length_map; split; [done|]; by destruct l4].
  apply (section_native _ _ _ _ _ _ H4).
  - apply (section_native _ _ _ _ _ _ H3).
    + apply (section_native _ _ _ _ _ _ H2).
      * apply (section_native _ _ _ _ _ _ H1); [constructor|].
        intros c a _ (p & Hp & [= <-])%go_bind_Ok. by eapply bankSend_native.
      * intros c a Hc (p & Hp & [= <-])%go_bind_Ok. destruct (Hmulti c Hc) as [Hc1 Hc2]. exact (bankMultiSend_native _ _ _ Hc1 Hc2 Hp).
    + intros c a Hc (p & Hp & [= <-])%go_bind_Ok. destruct (Hex c Hc) as [Hd Hsp]. exact (exchange_native _ _ _ Hd Hsp Hp).
  - intros c a _ (p & Hp & [= <-])%go_bind_Ok. by eapply wasmStore_native.
Qed.
End Constructors.

Lemma new_provider_native n cmd fl cfg p :
  Z.of_nat n < maxInt -> price_fits (sc_MinGasPrice cfg) -> price_fits sendAmount -> native_command n fl cmd ->
  new_provider cw20ByteCode randRead now seeded cmd fl cfg = Ok p -> native n p.
Proof.
  intros Hn Hp Ha Hc H. destruct cmd; try done; cbn [new_provider] in H;
    unfold txBankSend_provider, txBankSendMany_provider, txExchangeBatchOrders_provider, txWasmStoreCode_provider,
      txMixedPayload_provider in H; apply go_wrap_Ok in H; apply go_bind_Ok in H as (q & Hq & [= <-]);
    try (split; [|done]; cbn [held]; apply Forall_singleton).
  - exact (bankSend_native n _ Hn Hp _ _ Hq).
  - exact (bankMultiSend_native n _ Hp _ _ _ Ha Hc Hq).
  - destruct Hc as [Hd Hs]. exact (exchange_native n _ Hp _ _ _ Hd Hs Hq).
  - exact (wasmStore_native n _ Hn Hp _ Hq).
  - exact (mixed_native n _ Hn Hp _ _ _ _ Hc Hq).
Qed.

(** C2. A native stress command, from its accounts to the last block.  With settings
    [Stress] accepts and amounts in range, on a chain that takes sender and
    sequence from the signature and enforces sequences, and with signing
    available: tx-bank-send, tx-bank-send-many, tx-exchange-batch-orders,
    tx-wasm-store-code and mixed payloads of these end, and end with success only.
    The chain then has, for every account, exactly the number of transactions asked
    for on top of what it had, the [j]-th signed with the [j]-th sequence from
    where the account stood; each decodes to the messages the provider stands for
    (a transfer to the next account, a multi-send that conserves its amount, an
    order per market, the byte code) and pays gas limit times minimum gas price (in
    a mixed payload, perhaps on the terms of another of its providers); no other
    account's ledger has changed. *)
Theorem native_command_delivers cmd fs fl yaml changed cfg ncpu w cfg' p :
  command_config cmd fs fl yaml changed cfg = Ok cfg' -> client_made cfg' = true ->
  new_provider cw20ByteCode randRead now seeded cmd fl cfg' = Ok p ->
  native_command (length (sc_Accounts cfg')) fl cmd -> Z.of_nat (length (sc_Accounts cfg')) < maxInt ->
  price_fits (sc_MinGasPrice cfg') -> price_fits sendAmount ->
  (0 < ncpu)%nat -> settings_ok cfg' w ->
  gas_typed -> broadcasts_return (W := W) -> reads_signatures -> signing_available ->
  let runs o w' := run_command cw20ByteCode randRead now seeded cmd fs fl yaml changed cfg ncpu w o w' in
  (exists w', runs (CmdReturns None) w') /\
  forall o w', runs o w' -> main_outcome o = CmdReturns None /\ native_outcome cfg' p w w'.
Proof.
  intros Hc Hm Hp Hcmd Hn Hpr Hsa Hncpu Hw Hgas Hret Hrd Hs runs.
  pose proof (new_provider_native _ _ _ _ _ Hn Hpr Hsa Hcmd Hp) as Hnat.
  destruct (Stress_total cfg' _ ncpu p w Hncpu Hgas (same_reads cfg' _ p Hrd) Hret (native_conditions cfg' p w Hs Hw Hnat))
    as [[w' Hr] Hall]. unfold runs. split.
  - exists w'. apply (run_command_Stress _ _ _ _ _ _ _ _ _ _ _ _ _ _ _ _ Hc Hm Hp). by exists (Returns None).
  - intros o w2 (out & Hr2 & ->)%(run_command_Stress _ _ _ _ _ _ _ _ _ _ _ _ _ _ _ _ Hc Hm Hp).
    destruct (Hall out w2 Hr2) as [-> Hdel]. split; [done|]. by apply delivers_native.
Qed.
End Native.

(** ** Instance: a mixed payload on the second instance of the demonstration network *)

Section DemoNative.
#[local] Existing Instances typed_txconfig typed_txconfig_laws model_crypto model_math model_math_laws model_eth
  model_wasm model_ethbytes model_ethnode model_hex model_retry model_retry_laws model_errors model_rate
  model_rate_laws amd64_FloatConv demo_world demo_chain model_conn.

Lemma typed_signing : signing_available.
Proof.
  constructor; try done. intros b Hb. change (is_Ok (if gas_in_range (GetTx b) then Ok [Zpos (countable.encode (GetTx b))]
    else Err (ENew "gas limit")) = true).
  unfold gas_in_range. destruct (asFeeTx (GetTx b)) as [f|] eqn:E; [|done].
  specialize (Hb f eq_refl). unfold is_u64 in Hb.
  rewrite (proj2 (Z.leb_le _ _)), (proj2 (Z.ltb_lt _ _)) by lia. done.
Qed.

Definition demo_native_cmd : StressCommand :=
  TxMixedPayload (sections (Some {| bsc_Frequency := f64_of_Z 3; bsc_SendAmount := "" |}) None None None None
    (Some {| xbc_Frequency := f64_of_Z 1; xbc_SpotMarketIDs := []; xbc_DerivativeMarketIDs := [] |})
    (Some (f64_of_Z 1)) None None).

Local Notation demo_native_provider :=
  (new_provider demo_wasm (Ok []) "now" demo_rng demo_native_cmd demo_flags demo_run_config).

Lemma demo_native_config :
  command_config demo_native_cmd demo_fs demo_flags None (fun _ => false) default_stressCfg = Ok demo_run_config.
Proof. vm_compute. reflexivity. Qed.

Lemma demo_run_accounts : demo_run_config = with_accounts default_stressCfg [[5]; [6]].
Proof. vm_compute. reflexivity. Qed.

Lemma demo_settings : settings_ok demo_run_config demo_ledgers.
Proof.
  rewrite demo_run_accounts. constructor; try done. apply (bool_decide_unpack _). vm_compute. done.
Qed.

Lemma demo_native_made : exists p, demo_native_provider = Ok p /\
  map any_Name (held p) = ["bank_send_stress"; "exchange_batch_orders_stress"; "wasm_store_code_stress"].
Proof.
  assert (go_map (fun p => map any_Name (held p)) demo_native_provider =
    Ok ["bank_send_stress"; "exchange_batch_orders_stress"; "wasm_store_code_stress"]) as H by (vm_compute; reflexivity).
  revert H. generalize demo_native_provider. intros r (p & Hp & H)%go_bind_Ok. exists p. split; [done|congruence].
Qed.

Lemma demo_price_fits : price_fits "1inj".
Proof. intros c [= <-]. reflexivity. Qed.

Lemma demo_native_fits : native_command (length (sc_Accounts demo_run_config)) demo_flags demo_native_cmd /\
  Z.of_nat (length (sc_Accounts demo_run_config)) < maxInt /\ client_made demo_run_config = true /\
  sc_MinGasPrice demo_run_config = "1inj".
Proof.
  rewrite demo_run_accounts. split; [|split_and!; reflexivity]. unfold demo_native_cmd, native_command, sections.
  split_and!; try reflexivity; [discriminate|]. intros c [= <-]. split; discriminate.
Qed.

Lemma demo_reads_signatures : reads_signatures.
Proof. intros b. split; reflexivity. Qed.
End DemoNative.

Lemma native_command_delivers_witness :
  exists p, @new_provider model_crypto model_math model_eth model_ethnode model_hex demo_wasm (Ok []) "now" demo_rng
      demo_native_cmd demo_flags demo_run_config = Ok p /\
    map any_Name (held p) = ["bank_send_stress"; "exchange_batch_orders_stress"; "wasm_store_code_stress"] /\
    exists w', @native_outcome typed_txconfig model_crypto demo_wasm model_retry model_errors Ledgers demo_world
      demo_chain demo_run_config p demo_ledgers w'.
Proof.
  destruct demo_native_made as (p & Hp & Hnames). destruct demo_native_fits as (Hcmd & Hn & Hcl & Hprice).
  exists p. split; [exact Hp|]. split; [exact Hnames|].
  destruct (@native_command_delivers typed_txconfig typed_txconfig_laws model_crypto model_math model_math_laws
    model_eth typed_ethbuild model_wasm model_ethbytes model_ethnode model_hex demo_wasm model_retry model_retry_laws
    model_errors model_rate model_rate_laws amd64_FloatConv model_conn Ledgers demo_world demo_chain (Ok []) "now"
    demo_rng demo_native_cmd demo_fs demo_flags None (fun _ => false) default_stressCfg 4 demo_ledgers
    demo_run_config p demo_native_config Hcl Hp Hcmd Hn) as [[w' Hr] H].
  - rewrite Hprice. exact demo_price_fits.
  - exact demo_price_fits.
  - lia.
  - exact demo_settings.
  - exact typed_gas.
  - exact demo_returns.
  - exact demo_reads_signatures.
  - exact typed_signing.
  - exists w'. exact (proj2 (H _ _ Hr)).
Defined.
