(* ===== verification/EthDelivery.v ===== *)
(** * What the Ethereum stress commands leave on the chain

    tx-eth-send, tx-eth-call, tx-eth-deploy and tx-eth-internal-call: their
    providers meet the conditions of [Delivery].  A run of such a command delivers,
    account by account and in order of the nonces, signed Ethereum transactions of
    the kind the provider stands for; the calling commands first deploy the
    contract, once, and every later transaction calls the address it then has. *)

From Stdlib Require Import ZArith Lia Ascii String.
From stdpp Require Import base list strings numbers gmap.
From S2P Require Import Prelude GoStrings Float64 Sdk SdkModel RateLimit Chain ClientSetup Payload EthPayload WasmPayload.
From S2P Require Import MixedPayload Pipeline Stresser Broadcasting InitialPool Fuzzer SeqChain StressRun.
From S2P Require Import InitialDelivery Delivery FirstInitial.
From S2P Require Import UserOp UserOpPayload EthClient Genesis Generator Cli Commands NativeDelivery.

Open Scope string_scope.
Open Scope Z_scope.
Open Scope list_scope.

(** ** Signing *)

Section EthSigning.
Context `{TC : TxConfig, CR : Crypto, EL : EthLib, EBD : !EthBuild}.

(** go-ethereum signs, and the SDK wraps and encodes what it signed: the encoded
    transaction decodes to one that carries the message alone. *)
Record ethereum_available : Prop := {
  ea_sign h key : is_Ok (ecdsa_Sign h key) = true;
  ea_signature id tx h key sig : ecdsa_Sign h key = Ok sig -> eth_WithSignature id tx sig = None;
  ea_extension : EthExtensionAny = None;
  ea_builder : is_Ok (SetEthExtension NewTxBuilder) = true;
  ea_build b m denom : is_Ok (EthBuildTx b m denom) = true;
  ea_encode b m denom tx : SetEthExtension NewTxBuilder = Ok b -> EthBuildTx b m denom = Ok tx ->
    exists enc, TxEncoder tx = Ok enc /\ TxDecoder enc = inl tx /\ GetMsgs tx = [m]
}.

(** [b] decodes to the Ethereum transaction [tx], signed by [key] for chain [id]. *)
Definition signed_ethereum (id : Z) (key : Secp256k1PrivateKey) (tx : LegacyTx) (b : bytes) : Prop :=
  exists stx sig, TxDecoder b = inl stx /\ ecdsa_Sign (eth_SignerHash id tx) key = Ok sig /\
    GetMsgs stx = [MsgEthereumTx (Some tx) (Some sig) (Some (Address key))].

Lemma eth_signs s cl t tx sig0 from0 rest :
  ethereum_available -> msgs t = MsgEthereumTx (Some tx) sig0 from0 :: rest ->
  exists t1 t', eth_BuildAndSignTx s cl t = (t1, Ok t') /\ eth_signable t1 = true /\
    signed_ethereum (es_chainID s) (Key (from t)) tx (txBytes t').
Proof.
  intros Ha Hm. unfold eth_BuildAndSignTx. rewrite Hm, index_0.
  destruct (Ok_is _ (ea_sign Ha (eth_SignerHash (es_chainID s) tx) (Key (from t)))) as [sig Hsig]. rewrite Hsig.
  rewrite (ea_signature Ha _ _ _ _ _ Hsig). cbv zeta. set (m := MsgEthereumTx _ (Some sig) _).
  unfold eth_build. rewrite (ea_extension Ha), bool_decide_false by (by intros [? ?]).
  destruct (Ok_is _ (ea_builder Ha)) as [b Hx]. rewrite Hx. cbn [go_bind].
  destruct (Ok_is _ (ea_build Ha b m (feeDenom s))) as [stx Hb]. rewrite Hb. cbn [go_wrap go_bind].
  destruct (ea_encode Ha _ _ _ _ Hx Hb) as (enc & He & Hd & Hg). unfold Client_Encode. rewrite He. cbn [orPanic go_bind].
  eexists _, _. split_and!; [done|done|]. exists stx, sig. by rewrite Hg.
Qed.

(** The chain takes sender and nonce from such a message. *)
Definition reads_ethereum {SE : SdkErrors} {W} {CW : ChainWorld W} {SC : @SequencedChain SE W CW} : Prop :=
  forall b stx tx sig a, TxDecoder b = inl stx -> GetMsgs stx = [MsgEthereumTx (Some tx) (Some sig) (Some a)] ->
    tx_owner b = bech32_AccAddress a /\ tx_seq b = u64 (Nonce tx).
End EthSigning.

(** ** The four providers *)

Section Eth.
Context `{TC : TxConfig, CR : Crypto, SM : SdkMath}.
Context `{EL : EthLib, EBD : !EthBuild, WQ : WasmQuery}.
Context `{EBY : EthBytes, EN : EthNode, HU : HexUtil}.
Context (cw20ByteCode : bytes).

#[local] Instance eth_TxProvider : TxProvider CmdProvider := cmd_TxProvider cw20ByteCode.
#[local] Instance eth_laws : TxProviderLaws CmdProvider := cmd_laws cw20ByteCode.

Definition eth_signer (c : CmdProvider) : option ethTxBuilderAndSigner :=
  match c with
  | CPAny (PEthSend p) => Some (send_signer p)
  | CPAny (PEthCall p) => Some (call_signer p)
  | CPAny (PEthDeploy p) => Some (dep_signer p)
  | CPInternalCall p => Some (ic_signer p)
  | _ => None
  end.

(** The deployment a provider starts with: contract, gas limit and gas price. *)
Definition deployment (c : CmdProvider) : option (string * Z * Z) :=
  match c with
  | CPAny (PEthCall p) => Some ("Counter", call_maxGasLimitDeployment p, Amount (call_minGasPrice p))
  | CPInternalCall p => Some ("BenchmarkInternalCall", ic_maxGasLimitDeployment p, Amount (ic_minGasPrice p))
  | _ => None
  end.

(** The provider that calls the contract at [a]. *)
Definition at_contract (a : bytes) (c : CmdProvider) : CmdProvider :=
  match c with
  | CPAny (PEthCall p) => CPAny (PEthCall
      {| call_signer := call_signer p; call_minGasPrice := call_minGasPrice p;
         call_maxGasLimit := call_maxGasLimit p;
         call_maxGasLimitDeployment := call_maxGasLimitDeployment p; call_contractAddress := a |})
  | CPInternalCall p => CPInternalCall
      {| ic_signer := ic_signer p; ic_minGasPrice := ic_minGasPrice p; ic_maxGasLimit := ic_maxGasLimit p;
         ic_maxGasLimitDeployment := ic_maxGasLimitDeployment p; ic_iterations := ic_iterations p;
         ic_contractAddress := a |}
  | _ => c
  end.

(** The Ethereum transaction a provider that calls [contract] makes for a request. *)
Definition eth_call_of (contract : bytes) (c : CmdProvider) (req : TxRequest) (m : Msg) : Prop :=
  match c with
  | CPAny (PEthSend p) => exists to, receiver_key req 1 = Some to /\
      m = eth_msg req (Some (take 20 (Address to))) (Amount (send_sendAmount p)) (send_maxGasLimit p)
            (Amount (send_minGasPrice p)) []
  | CPAny (PEthCall p) => exists data, abi_Pack "Counter" "increase" [] = Ok data /\
      m = eth_msg req (Some contract) 0 (call_maxGasLimit p) (Amount (call_minGasPrice p)) data
  | CPAny (PEthDeploy p) =>
      m = eth_msg req None 0 (dep_maxGasLimit p) (Amount (dep_minGasPrice p)) (contract_Bin "Counter")
  | CPInternalCall p => exists data,
      abi_Pack "BenchmarkInternalCall" "benchmarkInternalCall" [i64 (ic_iterations p)] = Ok data /\
      m = eth_msg req (Some contract) 0 (ic_maxGasLimit p) (Amount (ic_minGasPrice p)) data
  | _ => False
  end.

(** What its generation needs: full-length addresses of the receivers, an ABI that
    packs the call, and a contract address that is not the zero address. *)
Definition eth_fits (contract : bytes) (keys : list Secp256k1PrivateKey) (c : CmdProvider) : Prop :=
  match c with
  | CPAny (PEthSend p) => Z.of_nat (length keys) < maxInt /\ forall key, key ∈ keys -> (20 <= length (Address key))%nat
  | CPAny (PEthCall p) => contract <> zero_address /\ is_Ok (abi_Pack "Counter" "increase" []) = true
  | CPAny (PEthDeploy p) => True
  | CPInternalCall p => contract <> zero_address /\
      is_Ok (abi_Pack "BenchmarkInternalCall" "benchmarkInternalCall" [i64 (ic_iterations p)]) = true
  | _ => False
  end.

Definition deploy_msg (d : string * Z * Z) (req : TxRequest) : Msg :=
  let '(name, gas, price) := d in eth_msg req None 0 gas price (contract_Bin name).

Definition is_eth (c : CmdProvider) : Prop := is_Some (eth_signer c).

(** *** Calls *)

Lemma eth_initial c e req :
  is_eth c ->
  GenerateInitialTx e c req =
    match deployment c with
    | Some d =>
        if (FromIdx req =? 0) && (TxIdx req =? 0)
        then (at_contract (deployed_address req) c, Ok (Some (request_tx req [deploy_msg d req])))
        else (c, Ok None)
    | None => (c, Ok None)
    end.
Proof.
  intros [s Hs]. destruct c as [[p|p|p|p|p|p|p|p|p]|p|p|m]; try done; cbn;
    unfold ethCall_GenerateInitialTx, ethInternalCall_GenerateInitialTx;
    by destruct (FromIdx req =? 0), (TxIdx req =? 0).
Qed.

Lemma eth_state c e req : is_eth c -> (GenerateTx e c req).1 = c.
Proof. intros [s Hs]. by destruct c as [[p|p|p|p|p|p|p|p|p]|p|p|m]. Qed.

Lemma eth_sign_call c cl t s :
  eth_signer c = Some s -> BuildAndSignTx c cl t = (c, (eth_BuildAndSignTx s cl t).1, (eth_BuildAndSignTx s cl t).2).
Proof. intros Hs. by destruct c as [[p|p|p|p|p|p|p|p|p]|p|p|m]; simplify_eq/=. Qed.

Lemma eth_generates contract c e req :
  eth_fits contract (Keys req) c -> 0 <= FromIdx req < Z.of_nat (length (Keys req)) ->
  exists m, (GenerateTx e (at_contract contract c) req).2 = Ok (request_tx req [m]) /\ eth_call_of contract c req m.
Proof.
  intros Hf Hi. assert (Hne : Keys req <> []) by (intros E; rewrite E in Hi; cbn in Hi; lia).
  destruct c as [[p|p|p|p|p|p|p|p|p]|p|p|m]; try done;
    cbn [at_contract GenerateTx eth_TxProvider cmd_TxProvider any_TxProvider any_GenerateTx on_fst fst snd];
    cbn [eth_fits] in Hf; cbn [eth_call_of].
  - destruct Hf as [Hmax Hlen]. destruct (receiver_Ok req 1 Hne) as (to & Hto & Hr); [lia..|].
    assert (Hin : to ∈ Keys req).
    { unfold receiver_key in Hto. destruct (_ <? _); by eapply list_elem_of_lookup_2. }
    cbn. unfold ethSend_GenerateTx. rewrite Hr. cbn [go_bind]. unfold Address_of_slice.
    rewrite (proj2 (Nat.ltb_ge _ _)) by (by apply Hlen). cbn [go_bind]. eauto 6.
  - destruct Hf as [Hc [data Hd]%Ok_is]. cbn. unfold ethCall_GenerateTx. cbn [call_contractAddress].
    rewrite bool_decide_false, Hd by done. cbn [go_wrap go_bind]. eauto 6.
  - cbn. eauto.
  - destruct Hf as [Hc [data Hd]%Ok_is]. cbn. unfold ethInternalCall_GenerateTx. cbn [ic_contractAddress ic_iterations].
    rewrite bool_decide_false, Hd by done. cbn [go_wrap go_bind]. eauto 6.
Qed.

(** *** The contract of a provider *)

Lemma at_contract_self c : exists a, c = at_contract a c.
Proof.
  destruct c as [[p|p|p|p|p|p|p|p|p]|p|p|m]; try (by exists []);
    [exists (call_contractAddress p)|exists (ic_contractAddress p)]; by destruct p.
Qed.

Lemma at_contract_again a b c : at_contract a (at_contract b c) = at_contract a c.
Proof. by destruct c as [[p|p|p|p|p|p|p|p|p]|p|p|m]. Qed.

Lemma at_contract_signer a c : eth_signer (at_contract a c) = eth_signer c.
Proof. by destruct c as [[p|p|p|p|p|p|p|p|p]|p|p|m]. Qed.

Lemma at_contract_deployment a c : deployment (at_contract a c) = deployment c.
Proof. by destruct c as [[p|p|p|p|p|p|p|p|p]|p|p|m]. Qed.

Lemma at_contract_none a c : deployment c = None -> at_contract a c = c.
Proof. by destruct c as [[p|p|p|p|p|p|p|p|p]|p|p|m]. Qed.

(** ** A run *)

Context `{RL : RetryLib, RLL : !RetryLaws, SE : SdkErrors, RT : RateLib, RTL : !RateLaws, FC : FloatConv, CL : ConnLib}.
Context {W : Type} {CW : ChainWorld W} {SC : @SequencedChain SE W CW}.
Context (cfg : StressConfig) (w : W) (c0 : CmdProvider) (s0 : ethTxBuilderAndSigner).
Hypothesis eth_c0 : eth_signer c0 = Some s0.
Hypothesis chain_c0 : es_chainID s0 = sc_EthChainID cfg.

(** Where the contract is after the deployment of the first account. *)
Definition contract_address : bytes :=
  match sc_Accounts cfg with
  | [] => zero_address
  | key :: _ => CreateAddress (BytesToAddress (Address key)) (chain_seq w (AccAddress key))
  end.

Definition eth_inv : @ProviderInv CmdProvider := {|
  fresh c := exists a, c = at_contract a c0;
  ready c := c = at_contract contract_address c0;
  initial t := eth_signable t = true
|}.

Lemma fresh_eth c : fresh eth_inv c -> eth_signer c = Some s0 /\ deployment c = deployment c0.
Proof. intros [a ->]. by rewrite at_contract_signer, at_contract_deployment. Qed.

Lemma ready_fresh c : ready eth_inv c -> fresh eth_inv c.
Proof. intros ->. by eexists. Qed.

(** The deployment, as it is requested for the first account. *)
Definition deploy_tx : option baseTx :=
  match deployment c0, sc_Accounts cfg with
  | Some d, key :: _ => Some (request_tx (first_request cfg w key) [deploy_msg d (first_request cfg w key)])
  | _, _ => None
  end.

Lemma eth_idle : idle_after_first eth_inv.
Proof.
  intros e c req Hc Hi. destruct (fresh_eth c Hc) as [Hs _]. rewrite eth_initial by (by exists s0).
  rewrite (proj2 (Z.eqb_neq _ _) Hi). by destruct (deployment c).
Qed.

Lemma eth_create_initial e c :
  sc_Accounts cfg <> [] -> fresh eth_inv c ->
  create_initial e c 0 (sc_Accounts cfg) (answers cfg w) =
    Some (at_contract contract_address c0, Ok (option_list deploy_tx)).
Proof.
  intros Hne Hc. destruct (sc_Accounts cfg) as [|key keys] eqn:Ek; [done|]. rewrite <- Ek.
  apply (create_initial_first cfg eth_inv w e c _ key keys); [done|exact eth_idle| |by eexists].
  destruct (fresh_eth c Hc) as [Hs Hd]. rewrite eth_initial by (by exists s0). rewrite Hd.
  unfold deploy_tx, contract_address. rewrite Ek. destruct Hc as [a ->].
  destruct (deployment c0) as [d|] eqn:Ed; [by rewrite at_contract_again|]. by rewrite !at_contract_none.
Qed.

(** *** What the provider makes *)

Definition eth_made (u : baseTx) (tx : LegacyTx) : Prop :=
  msgs u = [MsgEthereumTx (Some tx) None None] /\ Nonce tx = acc_Sequence (from u).

Lemma generated_eth c e req u :
  eth_signer c = Some s0 -> (GenerateTx e c req).2 = Ok u -> exists tx, eth_made u tx.
Proof.
  intros Hs H. destruct c as [[p|p|p|p|p|p|p|p|p]|p|p|m]; try done; cbn in H;
    unfold ethSend_GenerateTx, ethCall_GenerateTx, ethDeploy_GenerateTx, ethInternalCall_GenerateTx in H;
    try (destruct (bool_decide _); [done|]); repeat (apply go_bind_Ok in H as (? & _ & H));
    injection H as <-; by eexists.
Qed.

Lemma made_eth u : made eth_inv u -> exists tx, eth_made u tx.
Proof.
  intros [(e & c & req & Hc & H)|(e & c & req & Hc & H)].
  - destruct (fresh_eth c Hc) as [Hs _]. rewrite eth_initial in H by (by exists s0).
    destruct (deployment c) as [[[name gas] price]|]; [|done].
    destruct (_ && _); [|done]. injection H as <-. by eexists.
  - apply (generated_eth c e req); [|done]. apply fresh_eth. by apply ready_fresh.
Qed.

Section Available.
Hypothesis available : ethereum_available.

Lemma eth_signed c cl u tx :
  ready eth_inv c -> eth_made u tx -> exists t1 t', BuildAndSignTx c cl u = (c, t1, Ok t') /\
    signed_ethereum (sc_EthChainID cfg) (Key (from u)) tx (txBytes t').
Proof.
  rewrite <- chain_c0. intros Hc [Hm _]. destruct (fresh_eth c (ready_fresh c Hc)) as [Hs _]. rewrite (eth_sign_call _ _ _ _ Hs).
  destruct (eth_signs s0 cl u tx None None [] available Hm) as (t1 & t' & -> & _ & H). eauto.
Qed.

Lemma eth_reads : reads_ethereum -> chain_reads cfg eth_inv.
Proof.
  intros Hr c u sg Hc [tx Hu]%made_eth Hb Hq. pose proof (BuildAndSignTx_tags _ _ _ _ Hb) as (_ & _ & Hf).
  destruct (eth_signed c (stress_client cfg) u tx Hc Hu) as (t1 & t' & E & stx & sig & Hd & _ & Hg).
  rewrite E in Hb. injection Hb as <-. destruct (Hr _ _ _ _ _ Hd Hg) as [-> ->].
  destruct Hu as [_ Hn]. rewrite Hf in *. rewrite Hn, u64_id by done. done.
Qed.

Lemma eth_safe cl : signing_safe cl (ready eth_inv) (initial eth_inv).
Proof.
  intros c t Hc Ht. destruct (fresh_eth c (ready_fresh c Hc)) as [Hs _]. rewrite (eth_sign_call _ _ _ _ Hs).
  cbn [initial eth_inv] in Ht. unfold eth_signable in Ht.
  destruct (msgs t) as [|[| |[tx|] sig0 f0| | | | | |] rest] eqn:Em; try done.
  destruct (eth_signs s0 cl t tx sig0 f0 rest available Em) as (t1 & t' & -> & H1 & _). done.
Qed.

Lemma eth_starts : sc_Accounts cfg <> [] -> provider_starts cfg eth_inv w.
Proof.
  intros Hne. constructor.
  - intros e c req Hc. destruct (fresh_eth c Hc) as [Hs _]. rewrite eth_initial by (by exists s0).
    destruct (deployment c); [|done]. destruct (_ && _); [|done]. split; [done|].
    destruct Hc as [a ->]. exists (deployed_address req). apply at_contract_again.
  - intros e c req t Hc Ht. destruct (made_eth t) as (tx & Hm & _); [left; eauto|].
    cbn [initial eth_inv]. unfold eth_signable. by rewrite Hm.
  - intros e c c1 txs Hc E. rewrite eth_create_initial in E by done. by injection E as <- _.
  - apply eth_safe.
  - intros c i t Hc (key & e & c' & num & _ & Hc' & Hg).
    destruct (made_eth t) as (tx & Hm); [left; eauto|].
    by destruct (eth_signed c (stress_client cfg) t tx Hc Hm) as (t1 & t' & -> & _).
Qed.

Lemma eth_conditions :
  settings_ok cfg w -> eth_fits contract_address (sc_Accounts cfg) c0 -> run_conditions cfg eth_inv c0 w.
Proof.
  intros Hw Hf. pose proof (so_accounts _ _ Hw) as Hne.
  constructor; try apply Hw; [apply at_contract_self|by apply eth_starts| |].
  - constructor.
    + intros e c req Hc. destruct (fresh_eth c (ready_fresh c Hc)) as [Hs _]. rewrite eth_state; [done|]. by exists s0.
    + intros c t Hc. destruct (fresh_eth c (ready_fresh c Hc)) as [Hs _]. by rewrite (eth_sign_call _ _ _ _ Hs).
  - intros c2 w1 _. constructor.
    + intros e c i key j -> Hi _. apply lookup_lt_Some in Hi.
      destruct (eth_generates contract_address c0 e
        (txRequest (sc_Accounts cfg) i (account_at (fetched cfg w1) i key j) j)) as (m & -> & _); [done| |done].
      cbn [Keys FromIdx txRequest]. lia.
    + intros c i j t Hc (_ & key & e & c' & Hc' & _ & Hg).
      destruct (made_eth t) as (tx & Hm); [right; eauto|].
      by destruct (eth_signed c (stress_client cfg) t tx Hc Hm) as (t1 & t' & -> & _).
Qed.

(** *** What a run leaves *)

(** The number of deployments. *)
Definition deployments : nat := length (option_list deploy_tx).

(** [b] is the [j]-th transaction of account [i]: signed by its key for the
    configured chain, with the [j]-th nonce from where the account stood; the
    deployment, if there is one and this is it, and else a call of the provider's
    kind, to the deployed contract. *)
Definition eth_tx_at (i : nat) (key : Secp256k1PrivateKey) (j : nat) (b : bytes) : Prop :=
  exists t, signed_ethereum (sc_EthChainID cfg) key t b /\ Nonce t = chain_seq w (AccAddress key) + Z.of_nat j /\
    let m := MsgEthereumTx (Some t) None None in
    if (j <? extra deployments i)%nat
    then exists d, deployment c0 = Some d /\ m = deploy_msg d (first_request cfg w key)
    else exists acc, Key acc = key /\ acc_Sequence acc = Nonce t /\
      eth_call_of contract_address c0 (txRequest (sc_Accounts cfg) i acc (j - extra deployments i)) m.

Definition eth_outcome (w' : W) : Prop := rows_left cfg w deployments eth_tx_at w'.

Lemma deployment_tx key0 keys tx b :
  sc_Accounts cfg = key0 :: keys -> deploy_tx = Some tx -> initial_signed cfg eth_inv tx b -> eth_tx_at 0 key0 0 b.
Proof.
  intros Ek Htx (c & sg & Hc & Hb & ->). unfold eth_tx_at, extra, deployments. rewrite Htx. unfold deploy_tx in Htx.
  rewrite Ek in Htx. destruct (deployment c0) as [[[name gas] price]|]; [|done]. injection Htx as Htx.
  edestruct (eth_signed c (stress_client cfg) tx) as (t1 & t' & Eb & Hsig); [done|rewrite <- Htx; by split|].
  rewrite Eb in Hb. injection Hb as <-. rewrite <- Htx in Hsig.
  eexists. split_and!; [exact Hsig|cbn; lia|]. cbn. by eexists.
Qed.

Lemma extra_one i : (extra deployments i <= 1)%nat.
Proof. unfold extra, deployments. destruct (i =? 0)%nat, deploy_tx; cbn; lia. Qed.

Lemma prepared_eth w1 i key j b :
  settings_ok cfg w -> eth_fits contract_address (sc_Accounts cfg) c0 -> sc_Accounts cfg !! i = Some key ->
  (j < num_txs cfg)%nat ->
  chain_seq w1 (AccAddress key) = chain_seq w (AccAddress key) + Z.of_nat (extra deployments i) ->
  prepared_for cfg eth_inv w1 i j b -> eth_tx_at i key (extra deployments i + j) b.
Proof.
  intros Hw Hf Hi Hj Hseq (sg & -> & u & c & Hc & (_ & k & e & c' & -> & Hk & Hg) & Hb).
  rewrite Hi in Hk. injection Hk as <-. apply lookup_lt_Some in Hi as Hlt. pose proof (extra_one i) as Hx.
  destruct (so_room _ _ Hw key) as [H0 H1]; [by eapply list_elem_of_lookup_2|].
  pose proof (account_sequence cfg w w1 i key j (extra deployments i) Hi Hx Hj H0 H1 Hseq) as Hacc.
  set (acc := account_at (fetched cfg w1) i key j) in *.
  destruct (eth_generates contract_address c0 e (txRequest (sc_Accounts cfg) i acc j)) as (m & E & Hm);
    [done|cbn [Keys FromIdx txRequest]; lia|].
  rewrite Hg in E. injection E as ->. apply generated_eth in Hg as [tx [Htx Hn]]; [|by rewrite at_contract_signer].
  injection Htx as ->.
  destruct (eth_signed c (stress_client cfg) (request_tx (txRequest (sc_Accounts cfg) i acc j)
    [MsgEthereumTx (Some tx) None None]) tx Hc) as (t1 & t' & Eb & Hsig); [by split|]. rewrite Eb in Hb.
  injection Hb as <-. exists tx. cbn [from request_tx From txRequest] in Hn, Hsig.
  split_and!; [done|by rewrite Hn|]. cbv zeta. rewrite (proj2 (Nat.ltb_ge _ _)) by lia. exists acc.
  split_and!; [done|done|]. by replace (extra deployments i + j - extra deployments i)%nat with j by lia.
Qed.

Lemma delivers_eth w' :
  settings_ok cfg w -> eth_fits contract_address (sc_Accounts cfg) c0 ->
  run_delivers cfg eth_inv c0 w w' -> eth_outcome w'.
Proof.
  intros Hw Hf. destruct (sc_Accounts cfg) as [|key0 keys] eqn:Ek; [by destruct (so_accounts _ _ Hw)|].
  rewrite <- Ek in Hf. apply (run_rows cfg eth_inv w (fun _ => deploy_tx) deployments c0 w' key0 keys);
    [done|apply Hw|done| | | |].
  - intros _ tx. unfold deploy_tx. rewrite Ek. destruct (deployment c0); [|done]. by intros [= <-].
  - intros e. eexists. apply eth_create_initial; [by rewrite Ek|apply at_contract_self].
  - intros _ tx b. by eapply deployment_tx.
  - intros w1 i key j b Hi Hj Hseq. by apply prepared_eth.
Qed.
End Available.
End Eth.

(** ** The commands *)

Section EthCommands.
Context `{TC : TxConfig, CR : Crypto, SM : SdkMath}.
Context `{EL : EthLib, EBD : !EthBuild, WQ : WasmQuery}.
Context `{EBY : EthBytes, EN : EthNode, HU : HexUtil}.
Context (cw20ByteCode : bytes) (randRead : go bytes) (now : string) (seeded : nat -> float64).

(** One of the four commands, with what it needs to make its transactions. *)
Definition eth_command (contract : bytes) (keys : list Secp256k1PrivateKey) (fl : Flags) (cmd : StressCommand) : Prop :=
  match cmd with
  | TxEthSend => Z.of_nat (length keys) < maxInt /\ forall key, key ∈ keys -> (20 <= length (Address key))%nat
  | TxEthCall => contract <> zero_address /\ is_Ok (abi_Pack "Counter" "increase" []) = true
  | TxEthDeploy => True
  | TxEthInternalCall => contract <> zero_address /\
      let iterations := if fl_iterations fl =? 0 then defaultEthInternalCallIterations else fl_iterations fl in
      is_Ok (abi_Pack "BenchmarkInternalCall" "benchmarkInternalCall" [i64 iterations]) = true
  | _ => False
  end.

Lemma new_provider_eth contract keys cmd fl cfg p :
  eth_command contract keys fl cmd -> new_provider cw20ByteCode randRead now seeded cmd fl cfg = Ok p ->
  eth_fits contract keys p /\ exists s, eth_signer p = Some s /\ es_chainID s = sc_EthChainID cfg.
Proof.
  intros Hc H. destruct cmd; try done; cbn [new_provider] in H;
    unfold txEthSend_provider, txEthCall_provider, txEthDeploy_provider, txEthInternalCall_provider in H;
    apply go_wrap_Ok in H; apply go_bind_Ok in H as (q & Hq & [= <-]);
    unfold NewEthSendProvider, NewEthCallProvider, NewEthDeployProvider, NewEthInternalCallProvider in Hq; cbv zeta in Hq;
    repeat (apply go_bind_Ok in Hq as (? & _ & Hq)); try (destruct (abi_Get _); [done|]); injection Hq as <-;
    (split; [exact Hc|by eexists]).
Qed.

Context `{RL : RetryLib, RLL : !RetryLaws, SE : SdkErrors, RT : RateLib, RTL : !RateLaws, FC : FloatConv, CL : ConnLib}.
Context {W : Type} {CW : ChainWorld W} {SC : @SequencedChain SE W CW}.

(** C3. An Ethereum stress command, from its accounts to the last block.  With
    settings [Stress] accepts, on a chain that takes sender and nonce from the
    Ethereum message and enforces nonces, and with signing available: tx-eth-send,
    tx-eth-call, tx-eth-deploy and tx-eth-internal-call end, and end with success
    only.  The chain then has, for every account, exactly the number of
    transactions asked for on top of what it had, and for the first account of the
    two calling commands the deployment of the contract before them; the [j]-th
    carries the [j]-th nonce from where the account stood and the account's
    signature for the configured chain, and is what the command stands for: a
    transfer to the next account, a deployment, or a call of the contract at the
    address that the first account's deployment creates at the nonce it was
    delivered with.  No other account's ledger has changed. *)
Theorem eth_command_delivers cmd fs fl yaml changed cfg ncpu w cfg' p :
  command_config cmd fs fl yaml changed cfg = Ok cfg' -> client_made cfg' = true ->
  new_provider cw20ByteCode randRead now seeded cmd fl cfg' = Ok p ->
  eth_command (contract_address cfg' w) (sc_Accounts cfg') fl cmd ->
  (0 < ncpu)%nat -> settings_ok cfg' w ->
  gas_typed -> broadcasts_return (W := W) -> reads_ethereum -> ethereum_available ->
  let runs o w' := run_command cw20ByteCode randRead now seeded cmd fs fl yaml changed cfg ncpu w o w' in
  (exists w', runs (CmdReturns None) w') /\
  forall o w', runs o w' -> main_outcome o = CmdReturns None /\ eth_outcome cfg' w p w'.
Proof.
  intros Hc Hm Hp Hcmd Hn Hw Hgas Hret Hrd Ha runs.
  destruct (new_provider_eth _ _ _ _ _ _ Hcmd Hp) as (Hf & s & Hs & Hid).
  destruct (Stress_total (TL := cmd_laws cw20ByteCode) cfg' (eth_inv cfg' w p) ncpu p w Hn Hgas) as [[w' Hr] Hall];
    [by eapply eth_reads|done|by eapply eth_conditions|]. unfold runs. split.
  - exists w'. apply (run_command_Stress _ _ _ _ _ _ _ _ _ _ _ _ _ _ _ _ Hc Hm Hp). by exists (Returns None).
  - intros o w2 (out & Hr2 & ->)%(run_command_Stress _ _ _ _ _ _ _ _ _ _ _ _ _ _ _ _ Hc Hm Hp).
    destruct (Hall out w2 Hr2) as [-> Hdel]. split; [done|]. by eapply delivers_eth.
Qed.
End EthCommands.

(** ** Instance: contract calls on the second instance of the demonstration network *)

Section DemoEth.
#[local] Existing Instances typed_txconfig typed_txconfig_laws model_crypto model_math model_eth typed_ethbuild
  model_wasm model_ethbytes model_ethnode model_hex model_retry model_retry_laws model_errors model_rate
  model_rate_laws amd64_FloatConv model_conn.

(** Sender and nonce of the Ethereum message, or else those of the signature. *)
Definition ethereum_of (b : bytes) : option (LegacyTx * bytes) :=
  match TxDecoder b with
  | inl stx =>
      match GetMsgs stx with [MsgEthereumTx (Some tx) (Some _) (Some a)] => Some (tx, a) | _ => None end
  | inr _ => None
  end.

Definition evm_owner (b : bytes) : string :=
  match ethereum_of b with Some (_, a) => bech32_AccAddress a | None => sdk_owner b end.

Definition evm_seq (b : bytes) : Z := match ethereum_of b with Some (tx, _) => u64 (Nonce tx) | None => sdk_seq b end.

Lemma evm_seq_nonneg b : 0 <= evm_seq b.
Proof.
  unfold evm_seq. destruct (ethereum_of b) as [[tx a]|]; [|apply sdk_seq_nonneg].
  pose proof (u64_range (Nonce tx)). width.
Qed.

Definition evm_world : ChainWorld Ledgers := reading_world evm_owner evm_seq.
#[local] Existing Instance evm_world.
Definition evm_chain : SequencedChain := reading_chain evm_owner evm_seq evm_seq_nonneg.
#[local] Existing Instance evm_chain.

Lemma evm_reads : reads_ethereum.
Proof.
  intros b stx tx sig a Hd Hg. change (evm_owner b = bech32_AccAddress a /\ evm_seq b = u64 (Nonce tx)).
  unfold evm_owner, evm_seq, ethereum_of. by rewrite Hd, Hg.
Qed.

Lemma typed_ethereum : ethereum_available.
Proof.
  constructor; try done.
  - intros id tx h key sig [= <-]. reflexivity.
  - intros b m denom tx [= <-] [= <-].
    set (stx := with_msgs [m] (with_extensions ([[1]], []) empty_tx)).
    destruct (TxEncoder stx) as [enc| |] eqn:E; [|discriminate E..].
    exists enc. split_and!; [done| |done]. exact (Encode_Decode stx enc E).
Qed.

Local Notation demo_eth_provider :=
  (new_provider demo_wasm (Ok []) "now" demo_rng TxEthCall demo_flags demo_run_config).

Lemma demo_eth_made : exists p, demo_eth_provider = Ok p.
Proof. apply Ok_is. vm_compute. reflexivity. Qed.

Lemma demo_eth_config :
  command_config TxEthCall demo_fs demo_flags None (fun _ => false) default_stressCfg = Ok demo_run_config /\
  client_made demo_run_config = true.
Proof. split; vm_compute; reflexivity. Qed.

Lemma demo_eth_settings : settings_ok demo_run_config demo_ledgers.
Proof.
  rewrite demo_run_accounts. constructor; try done. apply (bool_decide_unpack _). vm_compute. done.
Qed.

Lemma demo_eth_fits :
  eth_command (contract_address demo_run_config demo_ledgers) (sc_Accounts demo_run_config) demo_flags TxEthCall.
Proof. rewrite demo_run_accounts. split; [discriminate|reflexivity]. Qed.
End DemoEth.

Lemma eth_command_delivers_witness :
  exists p w', @new_provider model_crypto model_math model_eth model_ethnode model_hex demo_wasm (Ok []) "now" demo_rng
      TxEthCall demo_flags demo_run_config = Ok p /\
    @eth_outcome typed_txconfig model_crypto model_eth model_retry model_errors Ledgers evm_world evm_chain
      demo_run_config demo_ledgers p w'.
Proof.
  destruct demo_eth_made as (p & Hp). destruct demo_eth_config as [Hc Hcl]. exists p.
  destruct (@eth_command_delivers typed_txconfig model_crypto model_math model_eth typed_ethbuild model_wasm
    model_ethbytes model_ethnode model_hex demo_wasm (Ok []) "now" demo_rng model_retry model_retry_laws model_errors
    model_rate model_rate_laws amd64_FloatConv model_conn Ledgers evm_world evm_chain TxEthCall demo_fs demo_flags None
    (fun _ => false) default_stressCfg 4 demo_ledgers demo_run_config p Hc Hcl Hp demo_eth_fits) as [[w' Hr] H].
  - lia.
  - exact demo_eth_settings.
  - exact typed_gas.
  - exact (reading_returns evm_owner evm_seq).
  - exact evm_reads.
  - exact typed_ethereum.
  - exists w'. split; [exact Hp|]. exact (proj2 (H _ _ Hr)).
Defined.
