(* ===== verification/WasmDelivery.v ===== *)
(** * What the CosmWasm stress commands leave on the chain

    tx-wasm-init-contract and tx-wasm-exec-contract: the first account stores the
    code (and, for the second, instantiates it) in one initial transaction; every
    other transaction instantiates the stored code, or calls the contract.  Their
    providers meet the conditions of [Delivery]. *)

From Stdlib Require Import ZArith Lia Ascii String.
From stdpp Require Import base list strings numbers gmap.
From S2P Require Import Prelude GoStrings Float64 Sdk SdkModel RateLimit Chain ClientSetup Payload EthPayload WasmPayload.
From S2P Require Import MixedPayload Pipeline Stresser Broadcasting InitialPool Fuzzer SeqChain StressRun.
From S2P Require Import InitialDelivery Delivery FirstInitial.
From S2P Require Import UserOp UserOpPayload EthClient Genesis Generator Cli Commands NativeDelivery.

Open Scope string_scope.
Open Scope Z_scope.
Open Scope list_scope.

Section Wasm.
Context `{TC : TxConfig, TCL : !TxConfigLaws, CR : Crypto, SM : SdkMath, ML : !SdkMathLaws}.
Context `{EL : EthLib, EBD : !EthBuild, WQ : WasmQuery}.
Context `{EBY : EthBytes, EN : EthNode, HU : HexUtil}.
Context (cw20ByteCode : bytes).

#[local] Instance wasm_TxProvider : TxProvider CmdProvider := cmd_TxProvider cw20ByteCode.
#[local] Instance wasm_laws : TxProviderLaws CmdProvider := cmd_laws cw20ByteCode.

(** ** The two providers *)

Definition wasm_terms (c : CmdProvider) : option FeeTerms :=
  match c with
  | CPAny (PWasmInit p) =>
      Some {| ft_price := wi_minGasPrice p; ft_gas := wi_maxGasLimit p; ft_memo := wi_memoAttach p |}
  | CPAny (PWasmExec p) =>
      Some {| ft_price := we_minGasPrice p; ft_gas := we_maxGasLimit p; ft_memo := we_memoAttach p |}
  | _ => None
  end.

(** The provider that uses code [id] and the contract at [addr]. *)
Definition provisioned (id : Z) (addr : string) (c : CmdProvider) : CmdProvider :=
  match c with
  | CPAny (PWasmInit p) => CPAny (PWasmInit
      {| wi_minGasPrice := wi_minGasPrice p; wi_maxGasLimit := wi_maxGasLimit p;
         wi_memoAttach := wi_memoAttach p; wi_contractCodeID := id |})
  | CPAny (PWasmExec p) => CPAny (PWasmExec (with_contract p id addr))
  | _ => c
  end.

(** The address the node predicts for the contract of [key]. *)
Definition predicted (c : CmdProvider) (key : Secp256k1PrivateKey) : string :=
  match c with
  | CPAny (PWasmExec p) =>
      let sender := AccAddress key in
      match queryBuildAddress p sender (we_contractCodeHash p) (initMsg sender sender) with
      | Ok addr => addr
      | _ => ""
      end
  | _ => ""
  end.

(** The messages of the initial transaction: [now] is the clock's reading. *)
Definition provisioning_msgs (id : Z) (c : CmdProvider) (now : string) (req : TxRequest) : list Msg :=
  let sender := AccAddress (Key (From req)) in
  match c with
  | CPAny (PWasmInit p) => [MsgStoreCode sender cw20ByteCode]
  | CPAny (PWasmExec p) =>
      [MsgStoreCode sender cw20ByteCode;
       MsgInstantiateContract2 sender id now (initMsg sender sender) one_inj (we_init2Salt p) true]
  | _ => []
  end.

(** The messages of the other transactions. *)
Definition wasm_message (id : Z) (addr : string) (c : CmdProvider) (req : TxRequest) (m : list Msg) : Prop :=
  let sender := AccAddress (Key (From req)) in
  match c with
  | CPAny (PWasmInit p) => exists now, m = [MsgInstantiateContract sender sender id now (initMsg sender sender) one_inj]
  | CPAny (PWasmExec p) => exists to, receiver_key req 1 = Some to /\
      m = [MsgExecuteContract sender addr (transferMsg (AccAddress to) 0) one_inj]
  | _ => False
  end.

(** ** Calls *)

Section Codes.
(** The last code on the chain, and a node that predicts addresses. *)
Context (lastID : Z).
Hypothesis codes : queryLastWasmContractID = Ok lastID.
Hypothesis predicts : forall hash sender salt args, is_Ok (wq_BuildAddress hash sender salt args) = true.

Let id := u64 (lastID + 1).

Lemma wasm_initial ft c0 n a e req :
  wasm_terms c0 = Some ft ->
  GenerateInitialTx e (provisioned n a c0) req =
    if (FromIdx req =? 0) && (TxIdx req =? 0)
    then (provisioned id (predicted c0 (Key (From req))) c0,
          Ok (Some (request_tx req (provisioning_msgs id c0 (clock e 0) req))))
    else (provisioned n a c0, Ok None).
Proof.
  intros Hf. destruct c0 as [[p|p|p|p|p|p|p|p|p]|p|p|m]; try done;
    cbn [provisioned GenerateInitialTx wasm_TxProvider cmd_TxProvider any_TxProvider any_GenerateInitialTx
         wasmInit_TxProvider wasmExec_TxProvider predicted provisioning_msgs];
    unfold wasmInit_GenerateInitialTx, wasmExec_GenerateInitialTx;
    rewrite codes; destruct (FromIdx req =? 0), (TxIdx req =? 0); try done.
  cbn [negb orb andb on_fst fst snd]. unfold queryBuildAddress. cbn [with_contract we_init2Salt we_contractCodeHash].
  match goal with |- context [wq_BuildAddress ?h ?s ?x ?y] => destruct (Ok_is _ (predicts h s x y)) as [addr ->] end.
  done.
Qed.

Lemma wasm_state ft c e req : wasm_terms c = Some ft -> (GenerateTx e c req).1 = c.
Proof. intros Hf. by destruct c as [[p|p|p|p|p|p|p|p|p]|p|p|m]. Qed.

Lemma wasm_sign_call ft c cl t :
  wasm_terms c = Some ft ->
  BuildAndSignTx c cl t = (c, t, feeBuildAndSignTx (ft_price ft) (ft_gas ft) (ft_memo ft) cl t).
Proof. intros Hf. by destruct c as [[p|p|p|p|p|p|p|p|p]|p|p|m]; simplify_eq/=. Qed.

Lemma provisioned_terms n a c : wasm_terms (provisioned n a c) = wasm_terms c.
Proof. by destruct c as [[p|p|p|p|p|p|p|p|p]|p|p|m]. Qed.

Lemma provisioned_self c : exists n a, c = provisioned n a c.
Proof.
  destruct c as [[p|p|p|p|p|p|p|p|p]|p|p|m]; try (by exists 0, "");
    [exists (wi_contractCodeID p), ""|exists (we_contractCodeID p), (we_contractAddress p)]; by destruct p.
Qed.

Lemma wasm_generates ft c0 addr e req :
  wasm_terms c0 = Some ft -> 0 <= FromIdx req < Z.of_nat (length (Keys req)) -> Z.of_nat (length (Keys req)) < maxInt ->
  exists m, (GenerateTx e (provisioned id addr c0) req).2 = Ok (request_tx req m) /\ wasm_message id addr c0 req m.
Proof.
  intros Hf Hi Hmax. assert (Hne : Keys req <> []) by (intros E; rewrite E in Hi; cbn in Hi; lia).
  destruct c0 as [[p|p|p|p|p|p|p|p|p]|p|p|m]; try done; cbn [provisioned wasm_message].
  - eexists. split; [reflexivity|]. by eexists.
  - destruct (receiver_index req 1 Hne) as (to & Hto & Hr); [lia..|].
    cbn. unfold wasmExec_GenerateTx. rewrite Hr. cbn [go_bind]. eauto 6.
Qed.

(** ** A run *)

Context `{RL : RetryLib, RLL : !RetryLaws, SE : SdkErrors, RT : RateLib, RTL : !RateLaws, FC : FloatConv, CL : ConnLib}.
Context {W : Type} {CW : ChainWorld W} {SC : @SequencedChain SE W CW}.
Context (cfg : StressConfig) (w : W) (c0 : CmdProvider) (ft : FeeTerms).
Hypothesis wasm_c0 : wasm_terms c0 = Some ft.

Definition contract_of : string :=
  match sc_Accounts cfg with [] => "" | key :: _ => predicted c0 key end.

Definition wasm_inv : @ProviderInv CmdProvider := {|
  fresh c := exists n a, c = provisioned n a c0;
  ready c := c = provisioned id contract_of c0;
  initial _ := True
|}.

Lemma ready_terms c : ready wasm_inv c -> wasm_terms c = Some ft.
Proof. intros ->. by rewrite provisioned_terms. Qed.

Definition provisioning_tx (e : Env) : option baseTx :=
  match sc_Accounts cfg with
  | key :: _ => Some (request_tx (first_request cfg w key) (provisioning_msgs id c0 (clock e 0) (first_request cfg w key)))
  | [] => None
  end.

Lemma wasm_create_initial e c :
  sc_Accounts cfg <> [] -> fresh wasm_inv c ->
  create_initial e c 0 (sc_Accounts cfg) (answers cfg w) =
    Some (provisioned id contract_of c0, Ok (option_list (provisioning_tx e))).
Proof.
  intros Hne Hc. destruct (sc_Accounts cfg) as [|key keys] eqn:Ek; [done|]. rewrite <- Ek.
  apply (create_initial_first cfg wasm_inv w e c _ key keys); [done| | |by eexists _, _].
  - intros e' c' req (n & a & ->) Hi. rewrite (wasm_initial ft) by done. by rewrite (proj2 (Z.eqb_neq _ _) Hi).
  - destruct Hc as (n & a & ->). rewrite (wasm_initial ft) by done. unfold contract_of, provisioning_tx. by rewrite Ek.
Qed.

Section Available.
Hypothesis available : signing_available.
Hypothesis fits : fee_fits (ft_price ft) (ft_gas ft).

Lemma wasm_signed c cl t : ready wasm_inv c -> is_Ok (BuildAndSignTx c cl t).2 = true.
Proof.
  intros Hc%ready_terms. rewrite (wasm_sign_call ft) by done. apply feeBuildAndSignTx_succeeds; [done|].
  intros acc tx Hg. apply signing_works; [done|]. rewrite Hg. apply fits.
Qed.

Lemma wasm_reads : reads_signatures -> chain_reads cfg wasm_inv.
Proof.
  intros Hr c u sg Hc%ready_terms _ Hs Hu. destruct (Hr (txBytes sg)) as [-> ->].
  rewrite (wasm_sign_call ft) in Hs by done. by eapply fee_reads.
Qed.

Lemma wasm_conditions :
  settings_ok cfg w -> Z.of_nat (length (sc_Accounts cfg)) < maxInt -> run_conditions cfg wasm_inv c0 w.
Proof.
  intros Hw Hmax. pose proof (so_accounts _ _ Hw) as Hne.
  assert (Hkeep : forall c t, ready wasm_inv c -> ready wasm_inv (BuildAndSignTx c (stress_client cfg) t).1.1).
  { intros c t Hc. by rewrite (wasm_sign_call ft) by (by apply ready_terms). }
  constructor; try apply Hw; [apply provisioned_self| | |].
  - constructor.
    + intros e c req (n & a & ->). rewrite (wasm_initial ft) by done. destruct (_ && _); (split; [done|by eexists _, _]).
    + done.
    + intros e c c1 txs Hc E. rewrite wasm_create_initial in E by done. by injection E as <- _.
    + intros c t Hc _. split_and!; [by apply Hkeep|done|]. pose proof (wasm_signed c (stress_client cfg) t Hc) as H.
      by destruct (BuildAndSignTx c (stress_client cfg) t).2.
    + intros c i t Hc _. by apply wasm_signed.
  - constructor; [|done]. intros e c req Hc. by rewrite (wasm_state ft) by (by apply ready_terms).
  - intros c2 w1 _. constructor.
    + intros e c i key j -> Hi _. apply lookup_lt_Some in Hi.
      destruct (wasm_generates ft c0 contract_of e (txRequest (sc_Accounts cfg) i (account_at (fetched cfg w1) i key j) j))
        as (m & -> & _); [done|cbn [Keys FromIdx txRequest]; lia|done|done].
    + intros c i j t Hc _. by apply wasm_signed.
Qed.

(** [b] is the [j]-th transaction of account [i]: signed by it at the [j]-th
    sequence from where it stood, and paid for; the provisioning transaction, if
    this is the first account's first, and else one that uses the stored code. *)
Definition wasm_tx_at (i : nat) (key : Secp256k1PrivateKey) (j : nat) (b : bytes) : Prop :=
  exists acc m stx, Key acc = key /\ acc_Sequence acc = chain_seq w (AccAddress key) + Z.of_nat j /\
    TxDecoder b = inl stx /\ properly_signed (stress_client cfg) acc
      {| tx_Msgs := m; tx_Fee := fee_of ft; tx_GasLimit := ft_gas ft; tx_Memo := ft_memo ft |} stx /\
    if (j <? extra 1 i)%nat
    then exists now, m = provisioning_msgs id c0 now (first_request cfg w key)
    else wasm_message id contract_of c0 (txRequest (sc_Accounts cfg) i acc (j - extra 1 i)) m.

Definition wasm_outcome (w' : W) : Prop := rows_left cfg w 1 wasm_tx_at w'.

Lemma signed_at c u sg :
  ready wasm_inv c -> (BuildAndSignTx c (stress_client cfg) u).2 = Ok sg ->
  exists stx, TxDecoder (txBytes sg) = inl stx /\ properly_signed (stress_client cfg) (from u)
    {| tx_Msgs := msgs u; tx_Fee := fee_of ft; tx_GasLimit := ft_gas ft; tx_Memo := ft_memo ft |} stx.
Proof.
  intros Hc%ready_terms H. rewrite (wasm_sign_call ft) in H by done.
  apply feeBuildAndSignTx_Ok in H as (stx & enc & fee & -> & Hd & Hfee & Hp). apply NewCoins_single in Hfee.
  exists stx. rewrite Hfee in Hp. done.
Qed.

Lemma provisioning_at key0 keys e tx b :
  sc_Accounts cfg = key0 :: keys -> provisioning_tx e = Some tx -> initial_signed cfg wasm_inv tx b ->
  wasm_tx_at 0 key0 0 b.
Proof.
  intros Ek Htx (c & sg & Hc & Hb & ->). destruct (signed_at c tx sg Hc Hb) as (stx & Hd & Hp).
  unfold provisioning_tx in Htx. rewrite Ek in Htx. injection Htx as <-.
  eexists (From (first_request cfg w key0)), _, stx. split_and!; [done|cbn; lia|exact Hd|exact Hp|]. cbn. by eexists.
Qed.

Lemma prepared_wasm w1 i key j b :
  settings_ok cfg w -> Z.of_nat (length (sc_Accounts cfg)) < maxInt -> sc_Accounts cfg !! i = Some key ->
  (j < num_txs cfg)%nat -> chain_seq w1 (AccAddress key) = chain_seq w (AccAddress key) + Z.of_nat (extra 1 i) ->
  prepared_for cfg wasm_inv w1 i j b -> wasm_tx_at i key (extra 1 i + j) b.
Proof.
  intros Hw Hmax Hi Hj Hseq (sg & -> & u & c & Hc & (_ & k & e & c' & -> & Hk & Hg) & Hb).
  rewrite Hi in Hk. injection Hk as <-. apply lookup_lt_Some in Hi as Hlt.
  destruct (so_room _ _ Hw key) as [H0 H1]; [by eapply list_elem_of_lookup_2|].
  pose proof (account_sequence cfg w w1 i key j (extra 1 i) Hi (extra_le 1 i) Hj H0 H1 Hseq) as Hacc.
  set (acc := account_at (fetched cfg w1) i key j) in *.
  destruct (wasm_generates ft c0 contract_of e (txRequest (sc_Accounts cfg) i acc j)) as (m & E & Hm);
    [done|cbn [Keys FromIdx txRequest]; lia|done|]. rewrite Hg in E. injection E as ->.
  destruct (signed_at c _ sg Hc Hb) as (stx & Hd & Hp). exists acc, m, stx. split_and!; try done.
  rewrite (proj2 (Nat.ltb_ge _ _)) by lia. by replace (extra 1 i + j - extra 1 i)%nat with j by lia.
Qed.

Lemma delivers_wasm w' :
  settings_ok cfg w -> Z.of_nat (length (sc_Accounts cfg)) < maxInt ->
  run_delivers cfg wasm_inv c0 w w' -> wasm_outcome w'.
Proof.
  intros Hw Hmax. destruct (sc_Accounts cfg) as [|key0 keys] eqn:Ek; [by destruct (so_accounts _ _ Hw)|].
  rewrite <- Ek in Hmax. apply (run_rows cfg wasm_inv w provisioning_tx 1 c0 w' key0 keys); [done|apply Hw| | | | |].
  - intros e. unfold provisioning_tx. by rewrite Ek.
  - intros e tx. unfold provisioning_tx. rewrite Ek. by intros [= <-].
  - intros e. eexists. apply wasm_create_initial; [by rewrite Ek|apply provisioned_self].
  - intros e tx b. by eapply provisioning_at.
  - intros w1 i key j b Hi Hj Hseq. by apply prepared_wasm.
Qed.
End Available.
End Codes.
End Wasm.

(** ** The commands *)

Section WasmCommands.
Context `{TC : TxConfig, TCL : !TxConfigLaws, CR : Crypto, SM : SdkMath, ML : !SdkMathLaws}.
Context `{EL : EthLib, EBD : !EthBuild, WQ : WasmQuery, WL : !WasmQueryLaws}.
Context `{EBY : EthBytes, EN : EthNode, HU : HexUtil}.
Context (cw20ByteCode : bytes) (randRead : go bytes) (now : string) (seeded : nat -> float64).

Definition wasm_command (cmd : StressCommand) : bool :=
  match cmd with TxWasmInitContract | TxWasmExecContract => true | _ => false end.

Lemma new_provider_wasm cmd fl cfg p :
  wasm_command cmd = true -> price_fits (sc_MinGasPrice cfg) ->
  new_provider cw20ByteCode randRead now seeded cmd fl cfg = Ok p ->
  exists ft, wasm_terms p = Some ft /\ fee_fits (ft_price ft) (ft_gas ft).
Proof.
  intros Hc Hp H. destruct cmd; try done; cbn [new_provider] in H;
    unfold txWasmInitContract_provider, txWasmExecContract_provider in H;
    apply go_wrap_Ok in H; apply go_bind_Ok in H as (q & Hq & [= <-]).
  - apply go_bind_Ok in Hq as (c & Hcoin%go_wrap_Ok & [= <-]). eexists. split; [done|]. by eapply parsed_fits.
  - apply go_bind_Ok in Hq as (c & Hcoin%go_wrap_Ok & Hq). apply go_bind_Ok in Hq as (h & _ & [= <-]).
    eexists. split; [done|]. by eapply parsed_fits.
Qed.

Context `{RL : RetryLib, RLL : !RetryLaws, SE : SdkErrors, RT : RateLib, RTL : !RateLaws, FC : FloatConv, CL : ConnLib}.
Context {W : Type} {CW : ChainWorld W} {SC : @SequencedChain SE W CW}.

(** C4. A CosmWasm stress command, from its accounts to the last block.  With
    settings [Stress] accepts and amounts in range, on a chain that takes sender and
    sequence from the signature and enforces sequences, whose node lists its codes
    page by page and predicts contract addresses, and with signing available:
    tx-wasm-init-contract and tx-wasm-exec-contract end, and end with success only.
    The first account's first transaction stores the code, and for the second
    command also instantiates it, under the number after all the codes the node
    lists; then every account has exactly the number of transactions asked for,
    signed at consecutive sequences from where it stood and paid for, each of which
    instantiates the code of that number, or executes a transfer on the contract at
    the address the node predicted for the first account.  No other account's ledger
    has changed. *)
Theorem wasm_command_delivers cmd fs fl yaml changed cfg ncpu w cfg' p counts :
  command_config cmd fs fl yaml changed cfg = Ok cfg' -> client_made cfg' = true ->
  wasm_command cmd = true -> new_provider cw20ByteCode randRead now seeded cmd fl cfg' = Ok p ->
  Z.of_nat (length (sc_Accounts cfg')) < maxInt -> price_fits (sc_MinGasPrice cfg') ->
  pages [] counts -> zsum counts < maxInt -> (forall k m, wq_Codes k <> Panic m) ->
  (forall hash sender salt args, is_Ok (wq_BuildAddress hash sender salt args) = true) ->
  (0 < ncpu)%nat -> settings_ok cfg' w ->
  gas_typed -> broadcasts_return (W := W) -> reads_signatures -> signing_available ->
  let runs o w' := run_command cw20ByteCode randRead now seeded cmd fs fl yaml changed cfg ncpu w o w' in
  (exists w', runs (CmdReturns None) w') /\
  exists ft, wasm_terms p = Some ft /\ forall o w', runs o w' ->
    main_outcome o = CmdReturns None /\ wasm_outcome cw20ByteCode (zsum counts) cfg' w p ft w'.
Proof.
  intros Hc Hm Hcmd Hp Hmax Hpr Hpg Hsum Hnp Hpre Hn Hw Hgas Hret Hrd Ha runs.
  destruct (new_provider_wasm cmd fl cfg' p Hcmd Hpr Hp) as (ft & Hft & Hfit).
  destruct (queryLast_pages counts Hpg Hsum Hnp) as [_ Hlast].
  destruct (Stress_total (TL := cmd_laws cw20ByteCode) cfg' (wasm_inv (zsum counts) cfg' p) ncpu p w Hn Hgas)
    as [[w' Hr] Hall]; [by eapply wasm_reads|done|by eapply wasm_conditions|]. unfold runs. split.
  - exists w'. apply (run_command_Stress _ _ _ _ _ _ _ _ _ _ _ _ _ _ _ _ Hc Hm Hp). by exists (Returns None).
  - exists ft. split; [done|].
    intros o w2 (out & Hr2 & ->)%(run_command_Stress _ _ _ _ _ _ _ _ _ _ _ _ _ _ _ _ Hc Hm Hp).
    destruct (Hall out w2 Hr2) as [-> Hdel]. split; [done|]. by eapply delivers_wasm.
Qed.
End WasmCommands.

(** ** Instance: contract execution on the second instance of the demonstration network *)

Section DemoWasm.
#[local] Existing Instances typed_txconfig typed_txconfig_laws model_crypto model_math model_math_laws model_eth
  typed_ethbuild model_wasm model_ethbytes model_ethnode model_hex model_retry model_retry_laws model_errors model_rate
  model_rate_laws amd64_FloatConv demo_world demo_chain model_conn.

Lemma demo_wasm_made :
  exists p, new_provider demo_wasm (Ok []) "now" demo_rng TxWasmExecContract demo_flags demo_run_config = Ok p.
Proof. apply Ok_is. vm_compute. reflexivity. Qed.

Lemma demo_wasm_config :
  command_config TxWasmExecContract demo_fs demo_flags None (fun _ => false) default_stressCfg = Ok demo_run_config.
Proof. vm_compute. reflexivity. Qed.
End DemoWasm.

Lemma wasm_command_delivers_witness :
  exists p ft w', @new_provider model_crypto model_math model_eth model_ethnode model_hex demo_wasm (Ok []) "now" demo_rng
      TxWasmExecContract demo_flags demo_run_config = Ok p /\
    @wasm_outcome typed_txconfig model_crypto model_wasm demo_wasm 250 model_retry model_errors Ledgers demo_world
      demo_chain demo_run_config demo_ledgers p ft w'.
Proof.
  destruct demo_wasm_made as (p & Hp). destruct demo_native_fits as (_ & Hn & Hcl & Hprice). exists p.
  destruct (@wasm_command_delivers typed_txconfig typed_txconfig_laws model_crypto model_math model_math_laws model_eth
    typed_ethbuild model_wasm model_wasm_laws model_ethbytes model_ethnode model_hex demo_wasm (Ok []) "now" demo_rng
    model_retry model_retry_laws model_errors model_rate model_rate_laws amd64_FloatConv model_conn Ledgers demo_world
    demo_chain TxWasmExecContract demo_fs demo_flags None (fun _ => false) default_stressCfg 4 demo_ledgers
    demo_run_config p [100; 100; 50] demo_wasm_config Hcl eq_refl Hp Hn) as [[w' Hr] (ft & _ & H)].
  - rewrite Hprice. exact demo_price_fits.
  - exact model_pages.
  - reflexivity.
  - intros k m. cbn. repeat case_match; discriminate.
  - intros. reflexivity.
  - lia.
  - exact demo_settings.
  - exact typed_gas.
  - exact demo_returns.
  - exact demo_reads_signatures.
  - exact typed_signing.
  - exists ft, w'. split; [exact Hp|]. exact (proj2 (H _ _ Hr)).
Defined.
