(* ===== verification/ReplayRun.v ===== *)
(** * The tx-replay command (cmd/chain-stresser/main.go, stresser.go)

    [tx-replay] from its checks to the end of the process: the sniffer of the source
    chain, the rate-limited broadcast function, and [StressReplay] between them.
    The theorem says what a replay makes of a target chain that enforces account
    sequences: every account of the target goes through the source's transactions
    of that account, in chain order. *)

From Stdlib Require Import ZArith Lia Ascii String.
From stdpp Require Import base list strings numbers gmap.
From S2P Require Import Prelude GoStrings Float64 Sdk SdkModel RateLimit Chain ClientSetup Payload Stresser.
From S2P Require Import InitialPool TxInfo Fuzzer SeqChain StressRun Delivery Replay RateAccount Cli Commands.

Open Scope string_scope.
Open Scope Z_scope.
Open Scope list_scope.

(** ** What the target makes of a sequence of transactions *)

Section Target.
Context `{SE : SdkErrors} {W : Type} {CW : ChainWorld W} {SC : @SequencedChain SE W CW}.

Definition chain_account (w : W) (a : string) : Z * list bytes := (chain_seq w a, ledger w a).

(** An account takes those of its transactions that carry its next sequence. *)
Definition account_takes (l : Z * list bytes) (txs : list bytes) : Z * list bytes :=
  foldl (fun l tx => (chain_act l tx).1) l txs.

Definition of_account (a : string) (txs : list bytes) : list bytes := filter (fun tx => tx_owner tx = a) txs.

Lemma after_all w txs a :
  chain_account (foldl after w txs) a = account_takes (chain_account w a) (of_account a txs).
Proof.
  revert w. induction txs as [|tx txs IH]; intros w; [done|]. cbn [foldl]. rewrite IH. unfold of_account.
  rewrite filter_cons. destruct (decide (tx_owner tx = a)) as [<-|Hne].
  - unfold account_takes. cbn [foldl]. f_equal. unfold chain_account, chain_act. cbn [fst snd].
    destruct (tx_seq tx =? chain_seq w (tx_owner tx)) eqn:E; bool_facts.
    + destruct (chain_accepts w tx E) as (_ & -> & ->). done.
    + destruct (chain_rejects w tx E) as (_ & -> & ->). done.
  - f_equal. unfold chain_account. destruct (chain_isolated w tx a) as [-> ->]; [congruence|done].
Qed.

(** The transactions carry consecutive sequences from [n] on. *)
Definition consecutive (n : Z) (txs : list bytes) : Prop :=
  forall k tx, txs !! k = Some tx -> tx_seq tx = n + Z.of_nat k.

Lemma account_takes_all n l txs :
  consecutive n txs -> account_takes (n, l) txs = (n + Z.of_nat (length txs), l ++ txs).
Proof.
  revert n l. induction txs as [|tx txs IH]; intros n l Hc.
  { cbn. by rewrite Z.add_0_r, app_nil_r. }
  unfold account_takes in *. cbn [foldl]. unfold chain_act at 2. cbn [fst snd].
  rewrite (Hc 0%nat tx eq_refl), Z.add_0_r, Z.eqb_refl. cbn [fst]. rewrite IH.
  - cbn [length]. rewrite <- app_assoc. cbn [app]. f_equal. lia.
  - intros k tx' Hk. rewrite (Hc (S k) tx' Hk). lia.
Qed.
End Target.

(** ** The command *)

(** The flags of tx-replay. *)
Record ReplayFlags := {
  rf_CometRPC : string;
  rf_StartHeight : Z;
  rf_EndHeight : Z
}.

Definition replay_config (fl : ReplayFlags) : TxReplayConfig :=
  {| StartHeight := rf_StartHeight fl; EndHeight := rf_EndHeight fl |}.

(** [stressCfg.AwaitTxConfirmation = false] *)
Definition without_await (cfg : StressConfig) : StressConfig :=
  {| sc_ChainID := sc_ChainID cfg; sc_EthChainID := sc_EthChainID cfg;
     sc_MinGasPrice := sc_MinGasPrice cfg; sc_NodeAddress := sc_NodeAddress cfg;
     sc_GRPCAddress := sc_GRPCAddress cfg; sc_Accounts := sc_Accounts cfg;
     sc_NumOfTransactions := sc_NumOfTransactions cfg; sc_AwaitTxConfirmation := false;
     sc_GasFuzzing := sc_GasFuzzing cfg; sc_RateLimit := sc_RateLimit cfg |}.

Section ReplayCommand.
Context `{RL : RetryLib, SE : SdkErrors, RT : RateLib, RD : Rand, FC : FloatConv, TC : TxConfig, CR : Crypto, TI : TxInfoLib}.
Context `{CL : ConnLib}.
Context {W : Type} {CW : ChainWorld W}.
(** [rpchttp.New], and the blocks of the source chain by height. *)
Context (rpchttp_New : string -> go unit) (chain_block : Z -> Block).

Definition NewSniffer (cometRPC : string) : go unit :=
  go_wrap "sniffer error: can't create rpc client" (rpchttp_New cometRPC).

(** What the command does before it reads a block: the checks, the client, the
    sniffer and the broadcast function. *)
Definition replay_setup (cfg : StressConfig) (fl : ReplayFlags) : CmdOutcome + option MultiLimiter :=
  match replay_PreRunE (rf_CometRPC fl) (rf_StartHeight fl) (rf_EndHeight fl) with
  | Some e => inl (CmdReturns (Some e))
  | None =>
      match NewClient (sc_ChainID cfg) (sc_NodeAddress cfg) (sc_GRPCAddress cfg) with
      | Panic _ => inl CmdPanics
      | Err e => inl (CmdReturns (Some e))
      | Ok _ =>
          match go_wrap "failed to initiate txns sniffer" (NewSniffer (rf_CometRPC fl)) with
          | Panic _ => inl CmdPanics
          | Err e => inl (CmdReturns (Some e))
          | Ok _ =>
              match buildBroadcastClient (sc_RateLimit cfg) with
              | Panic _ => inl CmdPanics
              | Err e => inl (CmdExits (-1))
              | Ok lim => inr lim
              end
          end
      end
  end.

(** [StressReplay] over the shared broadcast function. *)
Definition replaying (cfg : StressConfig) (fl : ReplayFlags) (lim : option MultiLimiter) (w : W)
    : Sniff -> option MultiLimiter * W -> option GasFuzzer -> bool -> Prop :=
  StressReplay (shared_bcast (without_await cfg)) (replay_config fl) chain_block
    (sc_GasFuzzing cfg) (lim, w).

(** How the process ends, and the target chain then; without an end height a replay
    need not end.  A panic while a block is replayed leaves the transactions
    before the one that caused it broadcast. *)
Inductive run_replay (cfg : StressConfig) (fl : ReplayFlags) (w : W) : CmdOutcome -> W -> Prop :=
| replay_not_set_up o : replay_setup cfg fl = inl o -> run_replay cfg fl w o w
| replay_returns lim s st fz :
    replay_setup cfg fl = inr lim -> replaying cfg fl lim w s st fz true ->
    run_replay cfg fl w (CmdReturns None) st.2
| replay_panics lim s st fz pre tx post s' st' fz' c m :
    replay_setup cfg fl = inr lim -> replaying cfg fl lim w s st fz false ->
    next_step s (BlockTxs (pre ++ tx :: post)) s' ->
    replay_block (shared_bcast (without_await cfg)) st fz no_counts pre = Some (Ok (st', fz', c)) ->
    replay_tx (shared_bcast (without_await cfg)) st' fz' c tx = Some (Panic m) ->
    run_replay cfg fl w CmdPanics st'.2.

(** ** What it does to the target *)

Context `{RLL : !RetryLaws, RTL : !RateLaws}.

Lemma setup_limiter cfg fl lim :
  Config_typed (sc_RateLimit cfg) -> replay_setup cfg fl = inr lim -> limiter_wf lim.
Proof.
  intros Hc. unfold replay_setup. destruct (buildBroadcastClient_Ok (sc_RateLimit cfg) Hc) as (l & -> & _ & Hwf).
  repeat case_match; intros; simplify_eq. exact Hwf.
Qed.

(** The broadcasts of a run of the command, of the first transactions of the
    source chain from the start height on. *)
Lemma run_replay_broadcasts cfg fl w o w' :
  gas_typed -> Config_typed (sc_RateLimit cfg) -> run_replay cfg fl w o w' ->
  exists n txs ls,
    txs `prefix_of` concat (block_txs <$> blocks_from chain_block (rf_StartHeight fl) n) /\
    Forall2 broadcasts_of txs ls /\ w' = foldl after w (concat ls) /\
    (NewGasFuzzer (sc_GasFuzzing cfg) = None -> concat ls = txs).
Proof.
  intros Hgas Hc Hr. destruct Hr as [o _|lim s st fz Hs Hrun|lim s st fz pre tx post s' st' fz' c m Hs Hrun Hn Hb _].
  - exists 0%nat, [], []. split_and!; [done|constructor|done|done].
  - pose proof (setup_limiter _ _ _ Hc Hs) as Hwf.
    destruct (StressReplay_sent _ _ _ _ _ _ _ _ _ Hrun) as (ls & Hls & Hf & Hnone).
    apply StressReplay_run in Hrun. destruct (received_blocks _ _ _ _ Hrun) as [n En].
    exists n, (replayed s), ls. unfold replayed in *. cbn [StartHeight replay_config] in En.
    rewrite <- En. split_and!; [done|done|by apply (shared_bcasts_charge (without_await cfg) lim)|by apply Hnone].
  - pose proof (setup_limiter _ _ _ Hc Hs) as Hwf.
    destruct (StressReplay_sent _ _ _ _ _ _ _ _ _ Hrun) as (ls & Hls & Hf & Hnone).
    destruct (replay_block_sent _ _ _ _ _ _ _ _ Hb) as (ls' & Hls' & Hf' & Hnone').
    apply StressReplay_run in Hrun as Hrun'.
    pose proof (replay_next _ _ s (BlockTxs (pre ++ tx :: post)) s' Hrun' Hn) as Hrun2.
    destruct (received_blocks _ _ _ _ Hrun2) as [n En]. cbn [StartHeight replay_config] in En.
    assert (exists blk, pre ++ tx :: post = block_txs blk /\ sn_received s' = sn_received s ++ [blk])
      as (blk & Eb & Es) by (inversion Hn; subst; eauto).
    exists n, (replayed s ++ pre), (ls ++ ls'). rewrite <- En, Es, fmap_app, concat_app, concat_app.
    cbn [fmap list_fmap concat]. rewrite app_nil_r, <- Eb. split_and!.
    + unfold replayed. apply prefix_app. by apply prefix_app_r.
    + by apply Forall2_app.
    + apply (shared_bcasts_charge (without_await cfg) lim); [done|done|]. by eapply bcasts_app.
    + intros Hg. destruct (Hnone Hg) as [-> ->]. by destruct (Hnone' eq_refl) as [_ ->].
Qed.

Context {SC : @SequencedChain SE W CW}.

(** Broadcasts return, also with a limiter. *)
Lemma shared_bcast_returns cfg :
  gas_typed ->
  (forall (w : W) b, is_Some (Broadcast (sync_of w) (poll_of w) b (sc_AwaitTxConfirmation cfg))) ->
  returns_within (shared_bcast cfg) (fun st : option MultiLimiter * W => limiter_wf st.1).
Proof.
  intros Hgas Hret [lim w] tx Hwf. cbn [fst] in Hwf. assert (Hs : is_Some (shared_bcast cfg (lim, w) tx)).
  { unfold shared_bcast. destruct (Hret w tx) as [r Er]. destruct lim as [l|].
    - destruct (broadcastFunc_live (sync_of w) (poll_of w) (sc_AwaitTxConfirmation cfg) live l tx
        Hgas (Hwf l eq_refl) eq_refl) as (l' & g & _ & _ & _ & _ & E). rewrite E, Er. cbn. eauto.
    - rewrite broadcastFunc_unlimited, Er. cbn. eauto. }
  destruct Hs as [[st' r] E]. exists st', r. split; [done|]. by eapply shared_bcast_charges.
Qed.

(** What every account of the target has gone through. *)
Lemma run_replay_accounts cfg fl w o w' :
  gas_typed -> Config_typed (sc_RateLimit cfg) -> run_replay cfg fl w o w' ->
  exists n txs ls,
    txs `prefix_of` concat (block_txs <$> blocks_from chain_block (rf_StartHeight fl) n) /\
    Forall2 broadcasts_of txs ls /\
    (forall a, chain_account w' a = account_takes (chain_account w a) (of_account a (concat ls))) /\
    (NewGasFuzzer (sc_GasFuzzing cfg) = None -> concat ls = txs /\
     forall a, consecutive (chain_seq w a) (of_account a txs) ->
       chain_seq w' a = chain_seq w a + Z.of_nat (length (of_account a txs)) /\
       ledger w' a = ledger w a ++ of_account a txs).
Proof.
  intros Hgas Hc Hr. destruct (run_replay_broadcasts _ _ _ _ _ Hgas Hc Hr) as (n & txs & ls & Hp & Hf & -> & Hn).
  exists n, txs, ls. split_and!; [done|done|intros a; apply after_all|].
  intros Hg. rewrite (Hn Hg). split; [done|]. intros a Ha. pose proof (after_all w txs a) as E.
  unfold chain_account in E. rewrite (account_takes_all _ _ _ Ha) in E. by injection E.
Qed.

(** A replay with an end height can return after the last block. *)
Lemma run_replay_returns cfg fl w lim :
  gas_typed -> Config_typed (sc_RateLimit cfg) -> NewGasFuzzer (sc_GasFuzzing cfg) = None ->
  (forall (w : W) b, is_Some (Broadcast (sync_of w) (poll_of w) b false)) ->
  replay_setup cfg fl = inr lim -> rf_EndHeight fl <> 0 -> rf_StartHeight fl <= rf_EndHeight fl ->
  let txs := concat (block_txs <$> blocks_from chain_block (rf_StartHeight fl)
    (Z.to_nat (rf_EndHeight fl - rf_StartHeight fl))) in
  exists w', run_replay cfg fl w (CmdReturns None) w' /\
    forall a, chain_account w' a = account_takes (chain_account w a) (of_account a txs).
Proof.
  intros Hgas Hc Hf Hret Hs He Hle txs. pose proof (setup_limiter _ _ _ Hc Hs) as Hwf.
  destruct (StressReplay_completes (shared_bcast (without_await cfg)) (replay_config fl) chain_block
    (sc_GasFuzzing cfg) (lim, w) _ (shared_bcast_returns (without_await cfg) Hgas Hret) Hwf Hf He Hle)
    as (s & st & Hrun & Hrec).
  exists st.2. split; [by eapply replay_returns|]. intros a.
  destruct (StressReplay_sent _ _ _ _ _ _ _ _ _ Hrun) as (ls & Hls & _ & Hnone).
  destruct (Hnone Hf) as [_ El]. rewrite El in Hls. unfold replayed in Hls. rewrite Hrec in Hls.
  destruct (shared_bcasts_charge _ _ _ _ _ Hgas Hwf Hls) as (_ & -> & _). apply after_all.
Qed.

(** C6. [tx-replay], end to end, against a target chain that enforces account
    sequences.  However the command ends, the transactions it broadcast are, in
    order, the first ones of the source chain's blocks from the start height on
    (each as itself, or fuzzed with the original as a fallback), and every account
    of the target has taken exactly those of its own that carried its next
    sequence; without fuzzing, an account whose transactions carry consecutive
    sequences from the target's on has taken them all, in the source's order.
    Without fuzzing, with an end height that is not below the start height, and as
    long as broadcasts return, the command, once it is set up, can return with
    every block below the end height replayed. *)
Theorem replay_reproduces cfg fl w :
  gas_typed -> Config_typed (sc_RateLimit cfg) ->
  (forall o w', run_replay cfg fl w o w' -> exists n txs ls,
     txs `prefix_of` concat (block_txs <$> blocks_from chain_block (rf_StartHeight fl) n) /\
     Forall2 broadcasts_of txs ls /\
     (forall a, chain_account w' a = account_takes (chain_account w a) (of_account a (concat ls))) /\
     (NewGasFuzzer (sc_GasFuzzing cfg) = None -> concat ls = txs /\
      forall a, consecutive (chain_seq w a) (of_account a txs) ->
        chain_seq w' a = chain_seq w a + Z.of_nat (length (of_account a txs)) /\
        ledger w' a = ledger w a ++ of_account a txs)) /\
  (forall lim, replay_setup cfg fl = inr lim -> NewGasFuzzer (sc_GasFuzzing cfg) = None ->
     (forall (w : W) b, is_Some (Broadcast (sync_of w) (poll_of w) b false)) ->
     rf_EndHeight fl <> 0 -> rf_StartHeight fl <= rf_EndHeight fl ->
     exists w', run_replay cfg fl w (CmdReturns None) w' /\
       forall a, chain_account w' a = account_takes (chain_account w a)
         (of_account a (concat (block_txs <$> blocks_from chain_block (rf_StartHeight fl)
            (Z.to_nat (rf_EndHeight fl - rf_StartHeight fl)))))).
Proof.
  intros Hgas Hc. split; [intros o w'; by apply run_replay_accounts|].
  intros lim Hs Hf Hret He Hle. by eapply run_replay_returns.
Qed.
End ReplayCommand.

(** ** Witness *)

Section DemoReplay.
#[local] Existing Instances typed_txconfig typed_txconfig_laws model_crypto model_errors model_math
  model_retry model_retry_laws model_rate model_rate_laws model_rand amd64_FloatConv demo_world demo_chain model_conn.

(** A source chain with one transfer of the account [[7]] a block. *)
Definition demo_transfer (seq : Z) : bytes :=
  match feeBuildAndSignTx {| Denom := "inj"; Amount := 1 |} 150000 "" {| ChainID := "c" |}
    {| from := {| Name := "a"; Key := [7]; Number := 3; acc_Sequence := seq |}; msgs := []; txBytes := [];
       fromIdx := 0; txIdx := 0 |} with
  | Ok sg => txBytes sg
  | _ => []
  end.

Definition demo_source (h : Z) : Block := {| Height := h; Txs := [demo_transfer (h - 59); []] |}.

Definition demo_replay_flags : ReplayFlags :=
  {| rf_CometRPC := "http://127.0.0.1:26657"; rf_StartHeight := 100; rf_EndHeight := 102 |}.

Definition demo_replay_config : StressConfig :=
  {| sc_ChainID := "stressinj-1337"; sc_EthChainID := 1337; sc_MinGasPrice := "1inj";
     sc_NodeAddress := "127.0.0.1:26657"; sc_GRPCAddress := "127.0.0.1:9900"; sc_Accounts := [];
     sc_NumOfTransactions := 100; sc_AwaitTxConfirmation := true; sc_GasFuzzing := demo_no_fuzzing;
     sc_RateLimit := demo_config |}.

Definition demo_limiter : option MultiLimiter :=
  match buildBroadcastClient demo_config with Ok lim => lim | _ => None end.

Lemma demo_returns_unconfirmed (w : Ledgers) b : is_Some (Broadcast (sync_of w) (poll_of w) b false).
Proof.
  unfold Broadcast, sync_of, poll_of, demo_world, reading_world. cbv beta.
  destruct (sdk_seq b =? (w (sdk_owner b)).1); rewrite (@Until_cons _ model_retry_laws);
    cbn [broadcast_attempt negb Z.eqb IsRecoverable]; eexists; reflexivity.
Qed.

(** The transfers are the account's, at their sequences. *)
Lemma demo_transfer_reads seq :
  is_u64 seq -> sdk_owner (demo_transfer seq) = AccAddress [7] /\ sdk_seq (demo_transfer seq) = seq.
Proof.
  intros Hu. unfold demo_transfer. set (u := {| from := _ |}).
  assert (Hok : is_Ok (feeBuildAndSignTx {| Denom := "inj"; Amount := 1 |} 150000 "" {| ChainID := "c" |} u) = true)
    by reflexivity.
  destruct (feeBuildAndSignTx _ _ _ _ u) as [sg| |] eqn:E; [|done..].
  assert (Hf : from sg = from u) by (by destruct (feeBuildAndSignTx_WithBytes _ _ _ _ _ _ E) as [enc ->]).
  destruct (fee_reads _ _ _ _ _ _ E) as [Ho Hs]; rewrite Hf in *; [done|]. by rewrite Ho, Hs.
Qed.

Lemma demo_source_txs :
  concat (block_txs <$> blocks_from demo_source 100 2) = [demo_transfer 41; demo_transfer 42].
Proof.
  assert (Hne : forall seq, is_u64 seq -> demo_transfer seq <> []).
  { intros seq Hu E. destruct (demo_transfer_reads seq Hu) as [Ho _]. rewrite E in Ho. vm_compute in Ho.
    discriminate Ho. }
  cbn [blocks_from fmap list_fmap]. unfold block_txs, demo_source. cbn [Txs Z.sub Z.add Z.opp Z.pos_sub].
  rewrite !filter_cons_True by (apply Hne; vm_compute; split; [discriminate|reflexivity]).
  reflexivity.
Qed.

Lemma demo_source_taken :
  account_takes (41, []) (of_account (AccAddress [7]) [demo_transfer 41; demo_transfer 42])
  = (43, [demo_transfer 41; demo_transfer 42]).
Proof.
  destruct (demo_transfer_reads 41) as [Ho1 Hs1]; [vm_compute; split; [discriminate|reflexivity]|].
  destruct (demo_transfer_reads 42) as [Ho2 Hs2]; [vm_compute; split; [discriminate|reflexivity]|].
  revert Ho1 Hs1 Ho2 Hs2. generalize (demo_transfer 41) (demo_transfer 42) (AccAddress [7]).
  intros t1 t2 a Ho1 Hs1 Ho2 Hs2. unfold of_account. rewrite !filter_cons_True by done.
  apply (account_takes_all 41 []). intros [|[|k]] tx Hk; simplify_eq/=; [exact Hs1|exact Hs2].
Qed.
End DemoReplay.

(** The target, which has the account at sequence 41, ends with both transfers. *)
Lemma replay_reproduces_witness :
  exists w', @run_replay model_retry model_errors model_rate model_rand amd64_FloatConv typed_txconfig
    model_crypto model_txinfo model_conn
    Ledgers demo_world (fun _ => Ok tt) demo_source demo_replay_config demo_replay_flags demo_ledgers
    (CmdReturns None) w' /\
    w' (@AccAddress model_crypto [7]) = (43, [demo_transfer 41; demo_transfer 42]).
Proof.
  destruct (@replay_reproduces model_retry model_errors model_rate model_rand amd64_FloatConv typed_txconfig
    model_crypto model_txinfo model_conn Ledgers demo_world (fun _ => Ok tt) demo_source model_rate_laws demo_chain
    demo_replay_config demo_replay_flags demo_ledgers typed_gas) as [_ H]; [done|].
  destruct (H demo_limiter) as (w' & Hr & Ha);
    [reflexivity|reflexivity|exact demo_returns_unconfirmed|discriminate|discriminate|].
  exists w'. split; [exact Hr|]. specialize (Ha (@AccAddress model_crypto [7])).
  unfold chain_account in Ha. unfold demo_chain, reading_chain in Ha; cbn [chain_seq ledger] in Ha.
  rewrite <- surjective_pairing in Ha. rewrite Ha.
  change (Z.to_nat _) with 2%nat. change (rf_StartHeight _) with 100. rewrite demo_source_txs.
  exact demo_source_taken.
Defined.
