(* ===== verification/CommandLine.v ===== *)
(** * Flags and commands (cmd/chain-stresser/main.go)

    The command line of the stress commands: every flag is bound to a variable,
    flags are set in the order they are given (a list of markets grows), the mixed payload's file fills in
    what was not given, and the chosen command runs.  pflag's reading of the
    text of a value is left out: a flag is given with a value of its type. *)

From Stdlib Require Import ZArith Lia Ascii String.
From stdpp Require Import base list strings numbers gmap.
From S2P Require Import Prelude GoStrings Float64 Sdk SdkModel RateLimit Chain ClientSetup Payload EthPayload.
From S2P Require Import WasmPayload MixedPayload Stresser InitialPool TxInfo Fuzzer SeqChain StressRun Replay.
From S2P Require Import UserOp UserOpPayload EthClient Genesis Generator Cli Commands ReplayRun.

Open Scope string_scope.
Open Scope Z_scope.
Open Scope list_scope.

(** ** The variables behind the flags *)

Inductive Setting :=
| SChainID | SEthChainID | SMinGasPrice | SNodeAddr | SGrpcAddr | SAwait | SVerbose | SAccounts
| SAccountsNum | STransactions | SRateTPS | SRateBytes | SRateGas | SRateBurstSize
| STargets | SIterations | SEthRPCURL | SEntrypoint | SBeneficiary | SFactory | SCounter
| SSpotMarketIDs | SDerivativeMarketIDs | SConfig
| SSnifferRPC | SStartHeight | SEndHeight
| SGasFuzz | SFuzzStrategy | SFuzzPercentage | SGasLimitMin | SGasLimitMax | SFuzzSeed | SFuzzVerbose.

#[export] Instance Setting_eq_dec : EqDecision Setting.
Proof. solve_decision. Defined.

Definition ty (s : Setting) : Type :=
  match s with
  | SChainID | SMinGasPrice | SNodeAddr | SGrpcAddr | SAccounts | SEthRPCURL | SEntrypoint | SBeneficiary
  | SFactory | SCounter | SConfig | SSnifferRPC | SFuzzStrategy => string
  | SAwait | SVerbose | SGasFuzz | SFuzzVerbose => bool
  | SRateTPS | SGasLimitMin | SGasLimitMax => float64
  | SSpotMarketIDs | SDerivativeMarketIDs => list string
  | SEthChainID | SAccountsNum | STransactions | SRateBytes | SRateGas | SRateBurstSize | STargets
  | SIterations | SStartHeight | SEndHeight | SFuzzPercentage | SFuzzSeed => Z
  end.

Definition setting_name (s : Setting) : string :=
  match s with
  | SChainID => "chain-id" | SEthChainID => "eth-chain-id" | SMinGasPrice => "min-gas-price"
  | SNodeAddr => "node-addr" | SGrpcAddr => "grpc-addr" | SAwait => "await" | SVerbose => "verbose"
  | SAccounts => "accounts" | SAccountsNum => "accounts-num" | STransactions => "transactions"
  | SRateTPS => "rate-tps" | SRateBytes => "rate-bytes" | SRateGas => "rate-gas"
  | SRateBurstSize => "rate-burst-size" | STargets => "targets" | SIterations => "iterations"
  | SEthRPCURL => "eth-rpc-url" | SEntrypoint => "entrypoint-address" | SBeneficiary => "beneficiary-address"
  | SFactory => "factory-address" | SCounter => "counter-address" | SSpotMarketIDs => "spot-market-ids"
  | SDerivativeMarketIDs => "derivative-market-ids" | SConfig => "config" | SSnifferRPC => "sniffer-rpc"
  | SStartHeight => "sniffer-start-height" | SEndHeight => "sniffer-end-height" | SGasFuzz => "gas-fuzz"
  | SFuzzStrategy => "gas-fuzz-strategy" | SFuzzPercentage => "gas-fuzz-percentage"
  | SGasLimitMin => "gas-limit-min" | SGasLimitMax => "gas-limit-max" | SFuzzSeed => "gas-fuzz-seed"
  | SFuzzVerbose => "gas-fuzz-verbose"
  end.

(** The variables. *)
Definition Values : Type := forall s : Setting, ty s.

(** A flag with its value. *)
Record Flag := given { flag : Setting; value : ty flag }.

Definition default_values : Values := fun s =>
  match s with
  | SChainID => defaultChainID
  | SEthChainID => defaultEthChainID
  | SMinGasPrice => defaultMinGasPrice
  | SNodeAddr => "127.0.0.1:26657"
  | SGrpcAddr => "127.0.0.1:9900"
  | SAwait => true
  | SVerbose => false
  | SAccounts => "accounts.json"
  | SAccountsNum => defaultNumOfAccounts
  | STransactions => defaultNumOfTx
  | SRateTPS => f64_zero
  | SRateBytes => 0
  | SRateGas => 0
  | SRateBurstSize => 0
  | STargets => 50
  | SIterations => 10
  | SEthRPCURL => "http://127.0.0.1:8545"
  | SEntrypoint => "0x586AaA4d77955b36784cADf6D9D617b952d45DA1"
  | SBeneficiary => "0x0000000000000000000000000000000000000000"
  | SFactory => "0x0B3809304F2bAad3E0d0810B98Cc7e505C06ce89"
  | SCounter => "0x590d9D4654FC262BFE72d115355db2aEb7DB902f"
  | SSpotMarketIDs => [default_market]
  | SDerivativeMarketIDs => [default_market]
  | SConfig => ""
  | SSnifferRPC => "http://127.0.0.1:26657"
  | SStartHeight => 0
  | SEndHeight => 0
  | SGasFuzz => false
  | SFuzzStrategy => "random"
  | SFuzzPercentage => 100
  | SGasLimitMin => f64_of_ratio 1 100
  | SGasLimitMax => f64_of_Z 1
  | SFuzzSeed => 0
  | SFuzzVerbose => false
  end.

(** pflag's [StringSliceVar]: what a slice becomes, when its flag was or was not given
    before, from its old value and the values of this occurrence.  Documented: the
    first occurrence replaces the default, the later ones append. *)
Class FlagLib := { slice_Set : bool -> list string -> list string -> list string }.

Class FlagLaws `{FlagLib} := {
  slice_Set_first old new : slice_Set false old new = new;
  slice_Set_again old new : slice_Set true old new = old ++ new
}.

Section Parsing.
Context `{FLB : FlagLib}.

(** Every other variable is overwritten. *)
Definition set_value (s : Setting) : bool -> ty s -> ty s -> ty s :=
  match s with
  | SSpotMarketIDs | SDerivativeMarketIDs => slice_Set
  | _ => fun _ _ new => new
  end.

(** [cmd.Flags().Changed] *)
Definition changed (flags : list Flag) (name : string) : bool :=
  existsb (fun f => bool_decide (setting_name (flag f) = name)) flags.

(** Setting a variable, after the flags [before]. *)
Definition assign (before : list Flag) (v : Values) (f : Flag) : Values := fun s =>
  match decide (flag f = s) with
  | left e => set_value s (changed before (setting_name s)) (v s) (eq_rect (flag f) ty (value f) s e)
  | right _ => v s
  end.

(** The variables after the flags, in the order they are given. *)
Fixpoint parse_from (before : list Flag) (v : Values) (flags : list Flag) : Values :=
  match flags with
  | [] => v
  | f :: rest => parse_from (before ++ [f]) (assign before v f) rest
  end.

Definition parse (flags : list Flag) : Values := parse_from [] default_values flags.
End Parsing.

(** [stressCfg], the other variables of the stress commands, and [replayCfg]. *)
Definition stressCfg_of (v : Values) : StressConfig :=
  {| sc_ChainID := v SChainID; sc_EthChainID := v SEthChainID; sc_MinGasPrice := v SMinGasPrice;
     sc_NodeAddress := v SNodeAddr; sc_GRPCAddress := v SGrpcAddr; sc_Accounts := [];
     sc_NumOfTransactions := v STransactions; sc_AwaitTxConfirmation := v SAwait;
     sc_GasFuzzing :=
       {| Enabled := v SGasFuzz; Strategy := v SFuzzStrategy; GasLimitMultiplierMin := v SGasLimitMin;
          GasLimitMultiplierMax := v SGasLimitMax; Seed := v SFuzzSeed; FuzzPercentage := v SFuzzPercentage;
          VerboseLogging := v SFuzzVerbose |};
     sc_RateLimit :=
       {| TxPerSecond := v SRateTPS; BytesPerSecond := v SRateBytes; GasPerSecond := v SRateGas;
          Burst := {| Size := v SRateBurstSize |} |} |}.

Definition flags_of (v : Values) : Flags :=
  {| fl_accountFile := v SAccounts; fl_numOfAccounts := v SAccountsNum;
     fl_multiSendNumTargets := v STargets; fl_iterations := v SIterations; fl_ethRPCURL := v SEthRPCURL;
     fl_entrypointAddress := v SEntrypoint; fl_beneficiaryAddress := v SBeneficiary;
     fl_accountFactoryAddress := v SFactory; fl_counterContractAddr := v SCounter;
     fl_spotMarketIDs := v SSpotMarketIDs; fl_derivativeMarketIDs := v SDerivativeMarketIDs;
     fl_mixedPayloadConfigPath := v SConfig |}.

Definition replay_of (v : Values) : ReplayFlags :=
  {| rf_CometRPC := v SSnifferRPC; rf_StartHeight := v SStartHeight; rf_EndHeight := v SEndHeight |}.

Lemma defaults_of_flags :
  stressCfg_of default_values = default_stressCfg /\ flags_of default_values = default_flags.
Proof. done. Qed.

(** ** Precedence *)

(** The values given for a setting, in order. *)
Fixpoint all_given (s : Setting) (flags : list Flag) : list (ty s) :=
  match flags with
  | [] => []
  | f :: rest =>
      match decide (flag f = s) with
      | left e => eq_rect (flag f) ty (value f) s e :: all_given s rest
      | right _ => all_given s rest
      end
  end.

(** What they amount to: for a list of markets, all of them; else the last one. *)
Definition flag_value (s : Setting) : list (ty s) -> option (ty s) :=
  match s with
  | SSpotMarketIDs | SDerivativeMarketIDs => fun l => match l with [] => None | _ => Some (concat l) end
  | _ => last
  end.

Definition given_value (s : Setting) (flags : list Flag) : option (ty s) := flag_value s (all_given s flags).

(** What the YAML file says of a setting; the zero value says nothing. *)
Definition yaml_value (y : StresserConfig) (s : Setting) : option (ty s) :=
  let if_set {A} (b : bool) (x : A) := if b then Some x else None in
  match s with
  | SChainID => if_set (set_string (y_ChainID y)) (y_ChainID y)
  | SEthChainID => if_set (negb (y_EthChainID y =? 0)) (y_EthChainID y)
  | SMinGasPrice => if_set (set_string (y_MinGasPrice y)) (y_MinGasPrice y)
  | SNodeAddr => if_set (set_string (y_NodeAddress y)) (y_NodeAddress y)
  | SGrpcAddr => if_set (set_string (y_GRPCAddress y)) (y_GRPCAddress y)
  | SAwait => y_AwaitTxConfirmation y
  | STransactions => if_set (negb (y_NumOfTransactions y =? 0)) (y_NumOfTransactions y)
  | SRateTPS => if_set (negb (f64_eqb (y_RateTPS y) f64_zero)) (y_RateTPS y)
  | SRateBytes => if_set (negb (y_RateBytes y =? 0)) (y_RateBytes y)
  | SRateGas => if_set (negb (y_RateGas y =? 0)) (y_RateGas y)
  | SRateBurstSize => if_set (negb (y_RateBurstSize y =? 0)) (y_RateBurstSize y)
  | _ => None
  end.

(** The specification: the flags, else the file, else the default. *)
Definition resolved (flags : list Flag) (yaml : option StresserConfig) : Values := fun s =>
  match given_value s flags with
  | Some v => v
  | None =>
      match yaml with
      | Some y => default (default_values s) (yaml_value y s)
      | None => default_values s
      end
  end.

Lemma setting_name_inj s1 s2 : setting_name s1 = setting_name s2 -> s1 = s2.
Proof. destruct s1, s2; intros H; try reflexivity; discriminate H. Qed.

Lemma all_given_app s flags1 flags2 : all_given s (flags1 ++ flags2) = all_given s flags1 ++ all_given s flags2.
Proof.
  induction flags1 as [|f flags1 IH]; [done|]. cbn [app all_given]. destruct (decide (flag f = s)); [|done].
  cbn [app]. by rewrite IH.
Qed.

Lemma changed_all (flags : list Flag) (s : Setting) :
  changed flags (setting_name s) = match all_given s flags with [] => false | _ => true end.
Proof.
  induction flags as [|f flags IH]; [done|]. unfold changed in *. cbn [existsb all_given]. rewrite IH.
  destruct (decide (flag f = s)) as [<-|Hne].
  - by rewrite (bool_decide_eq_true_2 _ eq_refl).
  - rewrite bool_decide_eq_false_2; [done|]. intros H%setting_name_inj. done.
Qed.

Lemma flag_value_is_Some s l : bool_decide (is_Some (flag_value s l)) = match l with [] => false | _ => true end.
Proof.
  destruct l as [|x l]; [by destruct s|]. apply bool_decide_eq_true_2.
  assert (Hl : is_Some (last (x :: l))) by (by apply last_is_Some). destruct s; cbn [flag_value]; by eauto.
Qed.

Lemma changed_given (flags : list Flag) (s : Setting) :
  changed flags (setting_name s) = bool_decide (is_Some (given_value s flags)).
Proof. unfold given_value. by rewrite flag_value_is_Some, changed_all. Qed.

Section Precedence.
Context `{FLB : FlagLib, FLL : !FlagLaws}.

Lemma set_value_given s (l : list (ty s)) (d x : ty s) :
  set_value s (match l with [] => false | _ => true end) (default d (flag_value s l)) x =
  default d (flag_value s (l ++ [x])).
Proof.
  destruct s; cbn [set_value flag_value]; try (by rewrite last_snoc).
  all: destruct l as [|y l]; rewrite ?slice_Set_first, ?slice_Set_again; cbn [app default concat];
    [by rewrite app_nil_r|].
  all: by rewrite concat_app; cbn [concat]; rewrite app_nil_r, app_assoc.
Qed.

Lemma parse_from_given before v flags s :
  v s = default (default_values s) (given_value s before) ->
  parse_from before v flags s = default (default_values s) (given_value s (before ++ flags)).
Proof.
  revert before v. induction flags as [|f flags IH]; intros before v Hv; cbn [parse_from]; [by rewrite app_nil_r|].
  replace (before ++ f :: flags) with ((before ++ [f]) ++ flags) by (by rewrite <- app_assoc).
  apply IH. unfold assign, given_value in *. rewrite all_given_app. cbn [all_given].
  destruct (decide (flag f = s)) as [e|]; [|by rewrite app_nil_r].
  by rewrite Hv, changed_all, set_value_given.
Qed.

Lemma parse_given flags s : parse flags s = default (default_values s) (given_value s flags).
Proof. apply (parse_from_given [] default_values flags s). by destruct s. Qed.

(** Without a file, what a setting resolves to. *)
Lemma parse_resolved (flags : list Flag) (s : Setting) : parse flags s = resolved flags None s.
Proof. unfold resolved. rewrite parse_given. by destruct (given_value s flags). Qed.

(** One setting of the file. *)
Lemma override_resolved flags y (s : Setting) (b : bool) (x : ty s) :
  yaml_value y s = (if b then Some x else None) ->
  override b (changed flags (setting_name s)) x (parse flags s) = resolved flags (Some y) s.
Proof.
  intros E. unfold override, resolved. rewrite changed_given, parse_given, E.
  destruct (given_value s flags) as [v|], b; done.
Qed.

Lemma await_resolved flags y :
  match y_AwaitTxConfirmation y with
  | Some b => override true (changed flags "await") b (parse flags SAwait)
  | None => parse flags SAwait
  end = resolved flags (Some y) SAwait.
Proof.
  destruct (y_AwaitTxConfirmation y) as [b|] eqn:E.
  - by apply (override_resolved flags y SAwait true b).
  - rewrite parse_resolved. unfold resolved. cbn [yaml_value]. by rewrite E.
Qed.

Lemma resolve_settings flags yaml :
  applyStresserConfigFromYAML (stressCfg_of (parse flags)) yaml (changed flags)
    = stressCfg_of (resolved flags yaml) /\
  stressCfg_of (parse flags) = stressCfg_of (resolved flags None) /\
  flags_of (parse flags) = flags_of (resolved flags yaml) /\
  replay_of (parse flags) = replay_of (resolved flags yaml).
Proof.
  assert (Hnone : forall s, (forall y, yaml_value y s = None) -> parse flags s = resolved flags yaml s).
  { intros s Hs. rewrite parse_resolved. unfold resolved. destruct (given_value s flags); [done|].
    destruct yaml as [y|]; [by rewrite Hs|done]. }
  split_and!.
  - destruct yaml as [y|].
    + assert (Ho := override_resolved flags y). unfold applyStresserConfigFromYAML, stressCfg_of.
      f_equal; [exact (Ho SChainID _ _ eq_refl)|exact (Ho SEthChainID _ _ eq_refl)
        |exact (Ho SMinGasPrice _ _ eq_refl)|exact (Ho SNodeAddr _ _ eq_refl)|exact (Ho SGrpcAddr _ _ eq_refl)
        |exact (Ho STransactions _ _ eq_refl)| | |].
      * by apply await_resolved.
      * cbn [sc_GasFuzzing]. by rewrite !Hnone.
      * cbn [sc_RateLimit TxPerSecond BytesPerSecond GasPerSecond Burst Size].
        f_equal; [exact (Ho SRateTPS _ _ eq_refl)|exact (Ho SRateBytes _ _ eq_refl)
          |exact (Ho SRateGas _ _ eq_refl)|f_equal; exact (Ho SRateBurstSize _ _ eq_refl)].
    + unfold stressCfg_of. cbn [applyStresserConfigFromYAML]. by rewrite !parse_resolved.
  - unfold stressCfg_of. by rewrite !parse_resolved.
  - unfold flags_of. by rewrite !Hnone.
  - unfold replay_of. by rewrite !Hnone.
Qed.

(** C21. Where the settings of a run come from.  Whatever flags are given, repeated
    ones included, and whatever the mixed payload's file says: each setting
    [Stress] runs with is the last value given for its flag, and for the two lists
    of markets the values of all its occurrences in order; when the flag was not
    given, the file's, unless that is the zero value; and else the default. *)
Theorem settings_precedence flags yaml :
  applyStresserConfigFromYAML (stressCfg_of (parse flags)) yaml (changed flags)
    = stressCfg_of (resolved flags yaml) /\
  stressCfg_of (parse flags) = stressCfg_of (resolved flags None) /\
  flags_of (parse flags) = flags_of (resolved flags yaml) /\
  replay_of (parse flags) = replay_of (resolved flags yaml).
Proof. apply resolve_settings. Qed.
End Precedence.

Definition model_flags : FlagLib := {| slice_Set isChanged old new := if isChanged then old ++ new else new |}.

Lemma model_flag_laws : @FlagLaws model_flags.
Proof. by constructor. Qed.

(** Markets given twice, and a number of transactions given twice. *)
Definition demo_repeated : list Flag :=
  [given SSpotMarketIDs ["0x01"]; given STransactions 7; given SSpotMarketIDs ["0x02"; "0x03"];
   given STransactions 8].

Lemma settings_precedence_witness :
  fl_spotMarketIDs (flags_of (@parse model_flags demo_repeated)) = ["0x01"; "0x02"; "0x03"] /\
  sc_NumOfTransactions (stressCfg_of (@parse model_flags demo_repeated)) = 8.
Proof.
  destruct (@settings_precedence model_flags model_flag_laws demo_repeated None) as (_ & Hs & Hf & _).
  rewrite Hs, Hf. split; reflexivity.
Defined.

(** ** Commands *)

Inductive Command :=
| CStress (c : StressCommand)
| CMixed
| CReplay.

(** The flags of the root command, which every command has. *)
Definition persistent (s : Setting) : bool :=
  match s with
  | SChainID | SEthChainID | SMinGasPrice | SNodeAddr | SGrpcAddr | SAwait | SVerbose | SAccounts
  | SAccountsNum | STransactions | SRateTPS | SRateBytes | SRateGas | SRateBurstSize => true
  | _ => false
  end.

(** The flags of one command. *)
Definition own_flag (cmd : Command) (s : Setting) : bool :=
  match cmd, s with
  | CStress TxBankSendMany, STargets => true
  | CStress TxEthInternalCall, SIterations => true
  | CStress TxEthUserOp, (SEthRPCURL | SEntrypoint | SBeneficiary | SFactory | SCounter) => true
  | CStress TxExchangeBatchOrders, (SSpotMarketIDs | SDerivativeMarketIDs) => true
  | CMixed, SConfig => true
  | CReplay, (SSnifferRPC | SStartHeight | SEndHeight | SGasFuzz | SFuzzStrategy | SFuzzPercentage
      | SGasLimitMin | SGasLimitMax | SFuzzSeed | SFuzzVerbose) => true
  | _, _ => false
  end.

(** What cobra refuses before the command runs: an unknown flag, or the lack of the
    flag marked as required. *)
Definition flag_error (cmd : Command) (flags : list Flag) : option error :=
  match List.find (fun f => negb (persistent (flag f) || own_flag cmd (flag f))) flags with
  | Some f => Some (ENew ("unknown flag: --" +:+ setting_name (flag f)))
  | None =>
      match cmd with
      | CMixed =>
          if changed flags "config" then None else Some (ENew (dquotes "required flag(s) 'config' not set"))
      | _ => None
      end
  end.

Section Main.
Context `{TC : TxConfig, CR : Crypto, SM : SdkMath, EL : EthLib, EBD : !EthBuild, WQ : WasmQuery}.
Context `{EBY : EthBytes, EN : EthNode, HU : HexUtil}.
Context (cw20ByteCode : bytes) (randRead : go bytes) (now : string) (seeded : nat -> float64).
Context `{RL : RetryLib, SE : SdkErrors, RT : RateLib, FC : FloatConv, RD : Rand, TI : TxInfoLib, CL : ConnLib, FLB : FlagLib}.
Context {W : Type} {CW : ChainWorld W}.
(** [os.ReadFile] and [yaml.Unmarshal]; [rpchttp.New] and the source chain of a
    replay. *)
Context (ReadFile : string -> go bytes).
Context (yaml_Unmarshal : bytes -> go (MixedPayloadConfig * option StresserConfig)).
Context (rpchttp_New : string -> go unit) (chain_block : Z -> Block).

(** payload.LoadMixedPayloadConfig *)
Definition LoadMixedPayloadConfig (path : string) : go (MixedPayloadConfig * option StresserConfig) :=
  let! data := go_wrap "failed to read config file" (ReadFile path) in
  go_wrap "failed to parse config file" (yaml_Unmarshal data).

(** [main] with a command and its flags, on a machine with [ncpu] CPUs and the
    files [fs]. *)
Inductive run_cli (fs : FS) (ncpu : nat) (cmd : Command) (flags : list Flag) (w : W) : CmdOutcome -> W -> Prop :=
| cli_refused e :
    flag_error cmd flags = Some e -> run_cli fs ncpu cmd flags w (main_outcome (CmdReturns (Some e))) w
| cli_stress c o w' :
    cmd = CStress c -> flag_error cmd flags = None -> (forall m, c <> TxMixedPayload m) ->
    run_command cw20ByteCode randRead now seeded c fs (flags_of (parse flags)) None (changed flags)
      (stressCfg_of (parse flags)) ncpu w o w' ->
    run_cli fs ncpu cmd flags w (main_outcome o) w'
| cli_mixed o w' :
    cmd = CMixed -> flag_error cmd flags = None ->
    run_mixed cw20ByteCode randRead now seeded LoadMixedPayloadConfig fs (flags_of (parse flags)) (changed flags)
      (stressCfg_of (parse flags)) ncpu w o w' ->
    run_cli fs ncpu cmd flags w (main_outcome o) w'
| cli_replay o w' :
    cmd = CReplay -> flag_error cmd flags = None ->
    run_replay rpchttp_New chain_block (stressCfg_of (parse flags)) (replay_of (parse flags)) w o w' ->
    run_cli fs ncpu cmd flags w (main_outcome o) w'.

(** A command with flags and a file does what it does with the resolved settings
    alone. *)
Lemma run_command_resolved `{FLL : !FlagLaws} c fs flags yaml ncpu w o w' :
  (exists m, c = TxMixedPayload m) \/ yaml = None ->
  run_command cw20ByteCode randRead now seeded c fs (flags_of (parse flags)) yaml (changed flags)
    (stressCfg_of (parse flags)) ncpu w o w' <->
  run_command cw20ByteCode randRead now seeded c fs (flags_of (resolved flags yaml)) None (fun _ => false)
    (stressCfg_of (resolved flags yaml)) ncpu w o w'.
Proof.
  intros Hc. destruct (resolve_settings flags yaml) as (Hy & Hn & Hf & _).
  assert (E : command_config c fs (flags_of (parse flags)) yaml (changed flags) (stressCfg_of (parse flags))
    = command_config c fs (flags_of (resolved flags yaml)) None (fun _ => false)
        (stressCfg_of (resolved flags yaml))).
  { unfold command_config, effective. rewrite Hf. destruct Hc as [[m ->]| ->]; [by rewrite Hy|].
    rewrite Hn. by destruct c. }
  rewrite Hf in *.
  split; (intros H; destruct H as [H|c1 H1 ? ?|c1 e1 H1 ? ?|c1 m1 H1 ? ?|c1 p1 H1 ? ? ? ?|c1 p1 out1 w1 H1 ? ? ? ?];
    first [rewrite E in H|rewrite E in H1|rewrite <- E in H|rewrite <- E in H1];
    [by eapply run_unread|by eapply run_no_query_client|by eapply run_no_provider|by eapply run_provider_panics
    |by eapply run_no_client|by eapply run_stress]).
Qed.
End Main.
