(* ===== verification/Binding.v ===== *)
(** * Generated contract bindings (eth/solidity)

    The six files under eth/solidity are the output of one generator for
    different contracts.  This file models what they have in common, with
    Counter/Counter.go as the instance its definitions are read against: the
    metadata, deploying and binding, the read-only and the paid methods with
    their sessions, and the filtering, watching and parsing of events.
    [Contracts] holds what differs: a [Contract] per binding with its ABI, its
    [Method]s and its [Event]s.

    go-ethereum's accounts/abi and bind packages are the class [BindLib]. *)

From Stdlib Require Import ZArith Lia Ascii String.
From stdpp Require Import base list strings numbers.
From S2P Require Import Prelude GoStrings.

Open Scope string_scope.
Open Scope Z_scope.
Open Scope list_scope.

(** ** Types and interfaces *)

(** The types of Solidity in the ABIs; a tuple has its internal type. *)
Inductive abiType :=
| AbiAddress
| AbiBool
| AbiString
| AbiBytes
| AbiUint (bits : Z)
| AbiFixedBytes (size : Z)
| AbiSlice (t : abiType)
| AbiTuple (internal : string) (fields : list (string * abiType)).

(** The Go types of the bindings. *)
Inductive goType :=
| GAddress
| GBool
| GString
| GBytes
| GUint (bits : Z)
| GBigInt
| GFixedBytes (size : Z)
| GSlice (t : goType)
| GStruct (name : string) (fields : list (string * goType)).

Inductive Mutability := View | Pure | NonPayable | Payable.

Record EventArg := { ea_name : string; ea_type : abiType; ea_indexed : bool }.

(** An entry of [MetaData.ABI]. *)
Inductive AbiEntry :=
| AbiConstructor (inputs : list (string * abiType)) (m : Mutability)
| AbiFunction (name : string) (inputs outputs : list (string * abiType)) (m : Mutability)
| AbiEvent (name : string) (inputs : list EventArg)
| AbiError (name : string) (inputs : list (string * abiType))
| AbiReceive.

(** A method of a binding: its Go name, the name it passes to the bound contract,
    whether it is a method of the caller or of the transactor, and the types of
    its arguments and results. *)
Inductive MethodKind := Reads | Pays.

Record Method := {
  mt_name : string;
  mt_abi : string;
  mt_kind : MethodKind;
  mt_params : list goType;
  mt_results : list goType
}.

(** An event of a binding: its Go name, the name it passes on, the fields of its
    struct before [Raw], and the types of the filter's rules. *)
Record Event := {
  ev_name : string;
  ev_abi : string;
  ev_fields : list (string * goType);
  ev_rules : list goType
}.

Record Contract := {
  ct_name : string;
  ct_ABI : list AbiEntry;
  ct_Bin : option string;
  ct_methods : list Method;
  ct_receive : bool;
  ct_events : list Event
}.

(** ** go-ethereum *)

Class BindLib := {
  World : Type;
  GoValue : Type;
  CallOpts : Type;
  TransactOpts : Type;
  FilterOpts : Type;
  WatchOpts : Type;
  Transaction : Type;
  Log : Type;
  Backend : Type;
  BoundContract : Type;
  (** [MetaData.GetAbi]: the parsed ABI; [None] is nil *)
  GetAbi : list AbiEntry -> go (option (list AbiEntry));
  FromHex : string -> list Z;
  (** the address, the ABI, and the backends for calls, transactions and logs *)
  NewBoundContract : list Z -> list AbiEntry -> option Backend -> option Backend -> option Backend -> BoundContract;
  DeployContract : TransactOpts -> list AbiEntry -> list Z -> Backend -> World ->
                   go (list Z * Transaction * BoundContract) * World;
  bc_Call : BoundContract -> CallOpts -> string -> list GoValue -> World -> go (list GoValue);
  bc_Transact : BoundContract -> TransactOpts -> string -> list GoValue -> World -> go Transaction * World;
  bc_RawTransact : BoundContract -> TransactOpts -> list Z -> World -> go Transaction * World;
  bc_Transfer : BoundContract -> TransactOpts -> World -> go Transaction * World;
  (** the logs that a subscription will deliver *)
  bc_FilterLogs : BoundContract -> FilterOpts -> string -> list (list GoValue) -> World -> go (list Log);
  (** the error, if any, of subscribing *)
  bc_WatchLogs : BoundContract -> WatchOpts -> string -> list (list GoValue) -> World -> go unit;
  (** the event's fields, as far as they were unpacked, and the error *)
  bc_UnpackLog : BoundContract -> string -> Log -> list GoValue * option error;
  (** [abi.ConvertType] with the type assertion; [None] is a panic *)
  ConvertType : goType -> GoValue -> option GoValue
}.

Section Bindings.
Context `{BL : BindLib} (c : Contract).

(** ** Binding and deploying *)

(** The generated struct: its three parts are bound to one contract. *)
Record Bound := {
  b_caller : BoundContract;
  b_transactor : BoundContract;
  b_filterer : BoundContract
}.

Definition bound (contract : BoundContract) : Bound :=
  {| b_caller := contract; b_transactor := contract; b_filterer := contract |}.

Definition bindContract (address : list Z) (caller transactor filterer : option Backend) : go BoundContract :=
  let! parsed := GetAbi (ct_ABI c) in
  match parsed with
  | Some abi => Ok (NewBoundContract address abi caller transactor filterer)
  | None => Panic "invalid memory address or nil pointer dereference"
  end.

Definition New (address : list Z) (backend : Backend) : go Bound :=
  let! contract := bindContract address (Some backend) (Some backend) (Some backend) in Ok (bound contract).

Definition NewCaller (address : list Z) (caller : Backend) : go BoundContract :=
  bindContract address (Some caller) None None.

Definition NewTransactor (address : list Z) (transactor : Backend) : go BoundContract :=
  bindContract address None (Some transactor) None.

Definition NewFilterer (address : list Z) (filterer : Backend) : go BoundContract :=
  bindContract address None None (Some filterer).

(** Only generated for a contract with creation code. *)
Definition Deploy (bin : string) (auth : TransactOpts) (backend : Backend) (w : World)
    : go (list Z * Transaction * Bound) * World :=
  match GetAbi (ct_ABI c) with
  | Ok (Some abi) =>
      let '(r, w') := DeployContract auth abi (FromHex bin) backend w in
      (let! x := r in let '(address, tx, contract) := x in Ok (address, tx, bound contract), w')
  | Ok None => (Err (ENew "GetABI returned nil"), w)
  | Err e => (Err e, w)
  | Panic m => (Panic m, w)
  end.

(** The raw bindings pass everything on. *)
Definition Raw_Call (b : Bound) := bc_Call (b_caller b).
Definition Raw_Transfer (b : Bound) := bc_Transfer (b_transactor b).
Definition Raw_Transact (b : Bound) := bc_Transact (b_transactor b).

(** ** Methods *)

(** Each result is taken from its place in [out] by [abi.ConvertType] and a type
    assertion. *)
Fixpoint convert (i : nat) (results : list goType) (out : list GoValue) : go (list GoValue) :=
  match results with
  | [] => Ok []
  | t :: ts =>
      match out !! i with
      | None => Panic "index out of range"
      | Some v =>
          match ConvertType t v with
          | None => Panic "interface conversion"
          | Some v' => let! vs := convert (S i) ts out in Ok (v' :: vs)
          end
      end
  end.

Definition Caller_method (contract : BoundContract) (m : Method) (opts : CallOpts) (args : list GoValue)
    (w : World) : go (list GoValue) :=
  let! out := bc_Call contract opts (mt_abi m) args w in
  convert 0 (mt_results m) out.

Definition Transactor_method (contract : BoundContract) (m : Method) (opts : TransactOpts)
    (args : list GoValue) (w : World) : go Transaction * World :=
  bc_Transact contract opts (mt_abi m) args w.

(** [Receive] sends no call data. *)
Definition Transactor_Receive (contract : BoundContract) (opts : TransactOpts) (w : World)
    : go Transaction * World :=
  bc_RawTransact contract opts [] w.

Record Session := {
  ses_Contract : Bound;
  ses_CallOpts : CallOpts;
  ses_TransactOpts : TransactOpts
}.

Record CallerSession := { cs_Contract : BoundContract; cs_CallOpts : CallOpts }.
Record TransactorSession := { ts_Contract : BoundContract; ts_TransactOpts : TransactOpts }.

Definition Session_call (s : Session) (m : Method) := Caller_method (b_caller (ses_Contract s)) m (ses_CallOpts s).
Definition Session_transact (s : Session) (m : Method) :=
  Transactor_method (b_transactor (ses_Contract s)) m (ses_TransactOpts s).
Definition CallerSession_call (s : CallerSession) (m : Method) := Caller_method (cs_Contract s) m (cs_CallOpts s).
Definition TransactorSession_transact (s : TransactorSession) (m : Method) :=
  Transactor_method (ts_Contract s) m (ts_TransactOpts s).

(** ** Events *)

(** A value of the event's struct. *)
Record EventValue := { ev_values : list GoValue; ev_Raw : Log }.

Definition Parse_event (contract : BoundContract) (e : Event) (log : Log) : go EventValue :=
  let '(vs, err) := bc_UnpackLog contract (ev_abi e) log in
  match err with
  | Some err => Err err
  | None => Ok {| ev_values := vs; ev_Raw := log |}
  end.

(** The channel of the subscription's errors: not ready, or ready with an error;
    a closed channel is ready with nil. *)
Inductive errChan := NotReady | Ready (e : option error).

Record Iterator := {
  it_Event : option (list GoValue * option Log);
  it_contract : BoundContract;
  it_event : string;
  it_logs : list Log;
  it_sub : errChan;
  it_done : bool;
  it_fail : option error
}.

Definition Filter_event (contract : BoundContract) (e : Event) (opts : FilterOpts)
    (rules : list (list GoValue)) (w : World) : go (Iterator * list Log) :=
  let! logs := bc_FilterLogs contract opts (ev_abi e) rules w in
  Ok ({| it_Event := None; it_contract := contract; it_event := ev_abi e; it_logs := []; it_sub := NotReady;
         it_done := false; it_fail := None |}, logs).

(** The branch of a received log. *)
Definition receive (it : Iterator) (log : Log) (rest : list Log) : Iterator * bool :=
  let '(vs, err) := bc_UnpackLog (it_contract it) (it_event it) log in
  match err with
  | Some err =>
      ({| it_Event := Some (vs, None); it_contract := it_contract it; it_event := it_event it;
          it_logs := rest; it_sub := it_sub it; it_done := it_done it; it_fail := Some err |}, false)
  | None =>
      ({| it_Event := Some (vs, Some log); it_contract := it_contract it; it_event := it_event it;
          it_logs := rest; it_sub := it_sub it; it_done := it_done it; it_fail := it_fail it |}, true)
  end.

(** [Next] once the subscription has ended. *)
Definition Next_completed (it : Iterator) : Iterator * bool :=
  match it_fail it with
  | Some _ => (it, false)
  | None => match it_logs it with log :: rest => receive it log rest | [] => (it, false) end
  end.

(** [it.done = true; it.fail = err] *)
Definition completed (it : Iterator) (err : option error) : Iterator :=
  {| it_Event := it_Event it; it_contract := it_contract it; it_event := it_event it; it_logs := it_logs it;
     it_sub := Ready None; it_done := true; it_fail := err |}.

(** [Next]; [pick] resolves the [select] when both of its channels are ready, and
    [None] means that it waits.  The recursive call finds [done] set. *)
Definition Next (pick : bool) (it : Iterator) : option (Iterator * bool) :=
  match it_fail it with
  | Some _ => Some (it, false)
  | None =>
      if it_done it then Some (Next_completed it)
      else
        match it_logs it, it_sub it with
        | [], NotReady => None
        | log :: rest, NotReady => Some (receive it log rest)
        | [], Ready err => Some (Next_completed (completed it err))
        | log :: rest, Ready err =>
            Some (if pick then Next_completed (completed it err) else receive it log rest)
        end
  end.

Definition Iterator_Error (it : Iterator) : option error := it_fail it.

(** ** An iteration

    [for it.Next() { use(it.Event) }] beside the goroutine of [FilterLogs]: that
    one sends the logs it found into a channel of 128 places and then returns
    [sy_end], which makes the subscription's error channel ready. *)

Record System := {
  sy_it : Iterator;
  sy_pending : list Log;
  sy_end : option error;
  sy_seen : list (list GoValue * option Log);
  sy_stopped : bool
}.

Definition chan_size : nat := 128.

Definition with_logs (it : Iterator) (logs : list Log) : Iterator :=
  {| it_Event := it_Event it; it_contract := it_contract it; it_event := it_event it; it_logs := logs;
     it_sub := it_sub it; it_done := it_done it; it_fail := it_fail it |}.

Definition with_sub (it : Iterator) (sub : errChan) : Iterator :=
  {| it_Event := it_Event it; it_contract := it_contract it; it_event := it_event it; it_logs := it_logs it;
     it_sub := sub; it_done := it_done it; it_fail := it_fail it |}.

Definition with_it (s : System) (it : Iterator) (pending : list Log) : System :=
  {| sy_it := it; sy_pending := pending; sy_end := sy_end s; sy_seen := sy_seen s; sy_stopped := sy_stopped s |}.

(** One turn of the loop. *)
Definition turn (s : System) (r : Iterator * bool) : System :=
  let '(it, more) := r in
  {| sy_it := it; sy_pending := sy_pending s; sy_end := sy_end s;
     sy_seen := if more : bool then sy_seen s ++ option_list (it_Event it) else sy_seen s;
     sy_stopped := negb more |}.

Inductive step : System -> System -> Prop :=
| step_send s log rest :
    sy_pending s = log :: rest -> (length (it_logs (sy_it s)) < chan_size)%nat ->
    step s (with_it s (with_logs (sy_it s) (it_logs (sy_it s) ++ [log])) rest)
| step_end s :
    sy_pending s = [] -> it_sub (sy_it s) = NotReady -> it_done (sy_it s) = false ->
    step s (with_it s (with_sub (sy_it s) (Ready (sy_end s))) [])
| step_next s pick r :
    sy_stopped s = false -> Next pick (sy_it s) = Some r -> step s (turn s r).

(** [Close] unsubscribes: the goroutine returns, and the error channel is closed. *)
Definition Iterator_Close (s : System) : System :=
  with_it s (with_sub (sy_it s) (Ready None)) [].

Definition start (it : Iterator) (logs : list Log) (end_ : option error) : System :=
  {| sy_it := it; sy_pending := logs; sy_end := end_; sy_seen := []; sy_stopped := false |}.

(** What the loop should see: the events in order, up to the first log that does
    not unpack. *)
Fixpoint delivered (contract : BoundContract) (event : string) (logs : list Log)
    : list (list GoValue * option Log) * option error :=
  match logs with
  | [] => ([], None)
  | log :: rest =>
      let '(vs, err) := bc_UnpackLog contract event log in
      match err with
      | Some e => ([], Some e)
      | None => let '(l, e) := delivered contract event rest in ((vs, Some log) :: l, e)
      end
  end.

(** Steps counted, so that runs can be bounded. *)
Inductive steps : nat -> System -> System -> Prop :=
| steps_refl s : steps 0 s s
| steps_snoc n s s' s'' : steps n s s' -> step s' s'' -> steps (S n) s s''.

(** *** The invariant *)

Section Iteration.
Context (contract : BoundContract) (event : string) (logs : list Log).

Record iterating (s : System) : Prop := {
  in_contract : it_contract (sy_it s) = contract;
  in_event : it_event (sy_it s) = event;
  in_end : sy_end s = None;
  in_taken : exists taken, logs = taken ++ it_logs (sy_it s) ++ sy_pending s
    /\ delivered contract event taken = (sy_seen s, it_fail (sy_it s));
  in_sub : match it_sub (sy_it s) with
           | NotReady => it_done (sy_it s) = false
           | Ready e => e = None /\ sy_pending s = []
           end;
  in_stopped : sy_stopped s = true ->
    it_fail (sy_it s) <> None \/ (it_logs (sy_it s) = [] /\ sy_pending s = [])
}.

Lemma delivered_snoc taken seen log :
  delivered contract event taken = (seen, None) ->
  delivered contract event (taken ++ [log]) =
  let '(vs, err) := bc_UnpackLog contract event log in
  match err with Some e => (seen, Some e) | None => (seen ++ [(vs, Some log)], None) end.
Proof.
  revert seen. induction taken as [|x taken IH]; intros seen; cbn [delivered app].
  - intros [= <-]. destruct (bc_UnpackLog contract event log) as [vs [e|]]; done.
  - destruct (bc_UnpackLog contract event x) as [vs [e|]]; [done|].
    destruct (delivered contract event taken) as [l e] eqn:E. intros [= <- ->].
    rewrite (IH l eq_refl). destruct (bc_UnpackLog contract event log) as [vs' [e'|]]; done.
Qed.

Lemma delivered_failed taken rest seen e :
  delivered contract event taken = (seen, Some e) -> delivered contract event (taken ++ rest) = (seen, Some e).
Proof.
  revert seen. induction taken as [|x taken IH]; intros seen; cbn [delivered app]; [done|].
  destruct (bc_UnpackLog contract event x) as [vs [e'|]]; [done|].
  destruct (delivered contract event taken) as [l e'] eqn:E. intros [= <- ->]. by rewrite (IH l eq_refl).
Qed.

(** What a call of [Next] does, when the subscription ends without an error: it
    stays after a failure, takes the next log, or finds none left. *)
Lemma Next_cases pick it it' more :
  (forall e, it_sub it = Ready e -> e = None) -> Next pick it = Some (it', more) ->
  (it_fail it <> None /\ it' = it /\ more = false)
  \/ exists it0, it_fail it = None /\ (it0 = it \/ (it_sub it = Ready None /\ it0 = completed it None))
     /\ ((exists log rest, it_logs it = log :: rest /\ (it', more) = receive it0 log rest)
         \/ (it_logs it = [] /\ it' = it0 /\ more = false /\ it_done it0 = true)).
Proof.
  intros Hsub. unfold Next. destruct (it_fail it) as [e|] eqn:Ef; [intros [= <- <-]; by left|]. intros H. right.
  assert (forall it0, it_fail it0 = None -> it_logs it0 = it_logs it -> it_done it0 = true ->
    Next_completed it0 = (it', more) ->
    (exists log rest, it_logs it = log :: rest /\ (it', more) = receive it0 log rest)
    \/ (it_logs it = [] /\ it' = it0 /\ more = false /\ it_done it0 = true)) as Hc.
  { intros it0 Hf Hl Hd. unfold Next_completed. rewrite Hf, Hl.
    destruct (it_logs it) as [|log rest]; [intros [= <- <-]; by right|intros <-; left; eauto]. }
  destruct (it_done it) eqn:Ed; [exists it; split_and!; [done|by left|apply Hc; congruence]|].
  destruct (it_logs it) as [|log rest] eqn:El, (it_sub it) as [|err] eqn:Es; try done.
  - pose proof (Hsub err eq_refl) as ->. exists (completed it None).
    split_and!; [done|by right|]. apply Hc; [done|by cbn|done|congruence].
  - exists it. split_and!; [done|by left|left; eauto with congruence].
  - pose proof (Hsub err eq_refl) as ->. destruct pick.
    + exists (completed it None). split_and!; [done|by right|]. apply Hc; [done|by cbn|done|congruence].
    + exists it. split_and!; [done|by left|left; eauto with congruence].
Qed.

Lemma iterating_send s log rest :
  iterating s -> sy_pending s = log :: rest ->
  iterating (with_it s (with_logs (sy_it s) (it_logs (sy_it s) ++ [log])) rest).
Proof.
  intros [Hk He Hend (taken & Hl & Hd) Hsub Hst] Hp. rewrite Hp in *.
  constructor; cbn [with_it with_logs sy_it sy_pending sy_end sy_seen sy_stopped it_contract it_event it_logs
    it_fail it_sub it_done]; try done.
  - exists taken. split; [|done]. by rewrite Hl, <- app_assoc.
  - destruct (it_sub (sy_it s)); [done|by destruct Hsub].
  - intros H. destruct (Hst H) as [?|[_ ?]]; [by left|done].
Qed.

Lemma iterating_end s :
  iterating s -> sy_pending s = [] -> iterating (with_it s (with_sub (sy_it s) (Ready (sy_end s))) []).
Proof.
  intros [Hk He Hend (taken & Hl & Hd) Hsub Hst] Hp. rewrite Hp in *.
  constructor; cbn [with_it with_sub sy_it sy_pending sy_end sy_seen sy_stopped it_contract it_event it_logs
    it_fail it_sub it_done]; try done; eauto.
Qed.

(** A received log, by an iterator that waited or by one that has just completed. *)
Lemma iterating_receive s it0 log rest :
  iterating s -> sy_stopped s = false -> it_fail (sy_it s) = None -> it_logs (sy_it s) = log :: rest ->
  it0 = sy_it s \/ (it_sub (sy_it s) = Ready None /\ it0 = completed (sy_it s) None) ->
  iterating (turn s (receive it0 log rest)).
Proof.
  intros [Hk He Hend (taken & Hl & Hd) Hsub Hst] Hs Hf Hlogs Hit.
  assert (it_contract it0 = contract /\ it_event it0 = event /\ it_fail it0 = None
    /\ match it_sub it0 with NotReady => it_done it0 = false | Ready e => e = None /\ sy_pending s = [] end)
    as (Hk0 & He0 & Hf0 & Hs0).
  { destruct Hit as [->|[Hr ->]]; [done|]. cbn. split_and!; try done. rewrite Hr in Hsub. by destruct Hsub. }
  rewrite Hf in Hd. pose proof (delivered_snoc _ _ log Hd) as Hd'.
  unfold receive. rewrite Hk0, He0. destruct (bc_UnpackLog contract event log) as [vs [e|]].
  all: constructor; cbn [turn sy_it sy_pending sy_end sy_seen sy_stopped it_contract it_event it_logs
    it_fail it_sub it_done it_Event option_list negb]; try done.
  1, 3: exists (taken ++ [log]); rewrite ?Hf0; split; [by rewrite Hl, Hlogs, <- app_assoc|done].
  by left.
Qed.

Lemma step_iterating s s' : iterating s -> step s s' -> iterating s'.
Proof.
  intros Hi Hs. destruct Hs as [s log rest Hp _|s Hp _ _|s pick [it' more] Hst Hn];
    [by apply iterating_send|by apply iterating_end|].
  pose proof Hi as [Hk He Hend (taken & Hl & Hd) Hsub _].
  apply Next_cases in Hn as [(Hf & -> & ->)|(it0 & Hf & Hit & [(log & rest & Hlogs & ->)|(Hlogs & -> & -> & Hdone)])].
  - constructor; cbn; eauto.
  - by eapply iterating_receive.
  - destruct Hit as [->|[Hr ->]].
    + constructor; cbn [turn sy_it sy_pending sy_end sy_seen sy_stopped negb]; eauto.
      intros _. right. split; [done|]. destruct (it_sub (sy_it s)); [congruence|by destruct Hsub].
    + rewrite Hr in Hsub. destruct Hsub as [_ Hp]. rewrite Hf in Hd.
      constructor; cbn [turn completed sy_it sy_pending sy_end sy_seen sy_stopped negb it_contract it_event
        it_logs it_fail it_sub it_done]; eauto.
  - intros e Hr. rewrite Hr in Hsub. by destruct Hsub.
Qed.

(** Every step uses up a log to send, a log to receive, the end of the
    subscription or the loop itself. *)
Definition work (s : System) : nat :=
  2 * length (sy_pending s) + length (it_logs (sy_it s))
  + (match it_sub (sy_it s) with NotReady => 1 | Ready _ => 0 end) + (if sy_stopped s then 0 else 1).

Lemma receive_logs it log rest it' more :
  receive it log rest = (it', more) -> it_logs it' = rest /\ it_sub it' = it_sub it.
Proof. unfold receive. destruct (bc_UnpackLog _ _ _) as [vs [e|]]; by intros [= <- <-]. Qed.

Lemma step_work s s' : iterating s -> step s s' -> (work s' < work s)%nat.
Proof.
  intros Hi Hs. unfold work.
  destruct Hs as [s log rest Hp _|s Hp Hsub _|s pick [it' more] Hst Hn];
    cbn [with_it with_logs with_sub turn sy_it sy_pending sy_stopped it_logs it_sub].
  - rewrite Hp, length_app. cbn [length]. lia.
  - rewrite Hp, Hsub. cbn [length]. lia.
  - rewrite Hst. pose proof (in_sub s Hi) as Hsub.
    apply Next_cases in Hn as [(_ & -> & ->)|(it0 & _ & Hit & [(log & rest & Hl & Hr)|(Hl & -> & -> & _)])].
    + cbn [negb]. lia.
    + symmetry in Hr. apply receive_logs in Hr as [-> ->]. rewrite Hl. cbn [length].
      destruct Hit as [->|[E ->]]; cbn [completed it_sub]; destruct more; cbn [negb]; destruct (it_sub _); lia.
    + rewrite Hl. destruct Hit as [->|[E ->]]; cbn [completed it_sub it_logs negb]; rewrite Hl; cbn [length];
        destruct (it_sub (sy_it s)); lia.
    + intros e Hr. rewrite Hr in Hsub. by destruct Hsub.
Qed.

Lemma progress s : iterating s -> sy_stopped s = true \/ exists s', step s s'.
Proof.
  intros Hi. destruct (sy_stopped s) eqn:Hst; [by left|right].
  destruct (Next true (sy_it s)) as [r|] eqn:Hn; [eexists; by eapply step_next|].
  assert (it_logs (sy_it s) = [] /\ it_sub (sy_it s) = NotReady /\ it_done (sy_it s) = false) as (Hl & Hs & Hd).
  { unfold Next in Hn. destruct (it_fail _); [done|]. destruct (it_done _); [done|].
    by destruct (it_logs _), (it_sub _). }
  destruct (sy_pending s) as [|log rest] eqn:Hp; [eexists; by apply step_end|].
  eexists. eapply step_send; [done|]. rewrite Hl. cbn. unfold chan_size. lia.
Qed.

Lemma steps_iterating n s s' :
  iterating s -> steps n s s' -> iterating s' /\ (n + work s' <= work s)%nat.
Proof.
  intros Hi Hr. induction Hr as [s|n s s1 s2 Hr IH Hs]; [split; [done|lia]|].
  destruct (IH Hi) as [H1 Hw]. split; [by eapply step_iterating|]. pose proof (step_work _ _ H1 Hs). lia.
Qed.

End Iteration.

(** After [Close] the iteration is one over the logs delivered before it. *)
Lemma close_iterating contract event logs s :
  iterating contract event logs s ->
  exists logs', logs = logs' ++ sy_pending s /\ iterating contract event logs' (Iterator_Close s).
Proof.
  intros [Hk He Hend (taken & Hl & Hd) _ Hst]. exists (taken ++ it_logs (sy_it s)).
  split; [by rewrite <- app_assoc|]. constructor; cbn; try done.
  - exists taken. by rewrite app_nil_r.
  - intros H. destruct (Hst H) as [?|[? _]]; auto.
Qed.

(** ** Watching

    The goroutine of a subscription: it takes a log, unpacks it, and waits until
    the sink takes the event; the subscription's error and [quit] end it in either
    place.  [wa_taken] are the logs it has received. *)

Inductive WatchState :=
| Waiting
| Sending (e : EventValue)
| Returned (err : option error).

Record Watch := {
  wa_state : WatchState;
  wa_taken : list Log;
  wa_sunk : list EventValue
}.

Section Watching.
Context (contract : BoundContract) (event : string).

Inductive watch_step : Watch -> Watch -> Prop :=
| ws_log w log :
    wa_state w = Waiting ->
    watch_step w
      {| wa_state := let '(vs, err) := bc_UnpackLog contract event log in
                     match err with
                     | Some _ => Returned err
                     | None => Sending {| ev_values := vs; ev_Raw := log |}
                     end;
         wa_taken := wa_taken w ++ [log]; wa_sunk := wa_sunk w |}
| ws_sink w e :
    wa_state w = Sending e ->
    watch_step w {| wa_state := Waiting; wa_taken := wa_taken w; wa_sunk := wa_sunk w ++ [e] |}
| ws_err w err :
    (forall r, wa_state w <> Returned r) ->
    watch_step w {| wa_state := Returned err; wa_taken := wa_taken w; wa_sunk := wa_sunk w |}
| ws_quit w :
    (forall r, wa_state w <> Returned r) ->
    watch_step w {| wa_state := Returned None; wa_taken := wa_taken w; wa_sunk := wa_sunk w |}.

Definition watch_start : Watch := {| wa_state := Waiting; wa_taken := []; wa_sunk := [] |}.

(** [WatchX]: the goroutine starts when the subscription does. *)
Definition Watch_event (e : Event) (opts : WatchOpts) (rules : list (list GoValue)) (w : World) : go Watch :=
  let! _ := bc_WatchLogs contract opts (ev_abi e) rules w in Ok watch_start.

Definition as_seen (e : EventValue) : list GoValue * option Log := (ev_values e, Some (ev_Raw e)).

(** The events in the sink, and the one on its way, against the logs taken. *)
Definition watching (w : Watch) : Prop :=
  let sunk := map as_seen (wa_sunk w) in
  let due := delivered contract event (wa_taken w) in
  match wa_state w with
  | Waiting => due = (sunk, None)
  | Sending e => due = (sunk ++ [as_seen e], None)
  | Returned err => due.1 = sunk \/ exists e, due = (sunk ++ [as_seen e], None)
  end.

Lemma watch_watching w w' : watching w -> watch_step w w' -> watching w'.
Proof.
  unfold watching. intros Hw Hs. destruct Hs as [w log E|w e E|w err E|w E]; cbn [wa_state wa_taken wa_sunk].
  - rewrite E in Hw. rewrite (delivered_snoc _ _ _ _ log Hw).
    destruct (bc_UnpackLog contract event log) as [vs [e|]]; [by left|done].
  - rewrite E in Hw. by rewrite map_app.
  - destruct (wa_state w) as [|e|r] eqn:Es; [left; by rewrite Hw|eauto|by destruct (E r)].
  - destruct (wa_state w) as [|e|r] eqn:Es; [left; by rewrite Hw|eauto|by destruct (E r)].
Qed.

End Watching.

End Bindings.

(** ** What the generator makes of an ABI

    The rules of abigen for names and types, as far as the contracts use them. *)

Definition upper_char (c : ascii) : ascii :=
  if (97 <=? char_code c) && (char_code c <=? 122) then ascii_of_nat (nat_of_ascii c - 32) else c.

(** [abi.ToCamelCase]: the parts between underscores, each with its first letter in
    upper case. *)
Fixpoint camel (up : bool) (s : string) : string :=
  match s with
  | EmptyString => ""
  | String c s' => if Ascii.eqb c "_" then camel true s' else String (if up then upper_char c else c) (camel false s')
  end.

Definition ToCamelCase (s : string) : string := camel true s.

(** An unnamed argument [i] is called [arg<i>]. *)
Definition arg_name (i : Z) (name : string) : string :=
  if decide (name = "") then "arg" +:+ strconv_Itoa i else name.

Fixpoint remove_dots (s : string) : string :=
  match s with
  | EmptyString => ""
  | String c s' => if Ascii.eqb c "." then remove_dots s' else String c (remove_dots s')
  end.

(** The Go name of a tuple with internal type [struct<path>]. *)
Definition struct_name (internal : string) : string := remove_dots (strings_TrimPrefix internal "struct").

(** Integers of a width that Go has, and [*big.Int] for the others. *)
Fixpoint bindType (t : abiType) : goType :=
  match t with
  | AbiAddress => GAddress
  | AbiBool => GBool
  | AbiString => GString
  | AbiBytes => GBytes
  | AbiUint n => if bool_decide (n ∈ [8; 16; 32; 64]) then GUint n else GBigInt
  | AbiFixedBytes n => GFixedBytes n
  | AbiSlice t => GSlice (bindType t)
  | AbiTuple name fields =>
      GStruct (struct_name name) ((fix go l := match l with
                                 | [] => []
                                 | (f, t) :: l' => (ToCamelCase f, bindType t) :: go l'
                                 end) fields)
  end.

(** [abi.ResolveNameConflict]: a name that is taken gets the first free number. *)
Fixpoint free_name (fuel : nat) (i : Z) (used : list string) (name : string) : string :=
  match fuel with
  | O => name
  | S fuel' =>
      let n := name +:+ strconv_Itoa i in
      if bool_decide (n ∈ used) then free_name fuel' (i + 1) used name else n
  end.

Definition resolve (used : list string) (name : string) : string :=
  if bool_decide (name ∈ used) then free_name (S (length used)) 0 used name else name.

Record AbiMethod := {
  am_name : string;
  am_inputs : list abiType;
  am_outputs : list abiType;
  am_mutability : Mutability
}.

(** The methods of the parsed ABI, under their resolved names. *)
Fixpoint abi_methods (used : list string) (l : list AbiEntry) : list AbiMethod :=
  match l with
  | [] => []
  | AbiFunction name ins outs m :: l' =>
      let n := resolve used name in
      {| am_name := n; am_inputs := map snd ins; am_outputs := map snd outs; am_mutability := m |}
        :: abi_methods (n :: used) l'
  | _ :: l' => abi_methods used l'
  end.

Definition constant (m : AbiMethod) : bool :=
  match am_mutability m with View | Pure => true | NonPayable | Payable => false end.

(** A paid method returns the transaction, whatever its outputs. *)
Definition method_of (m : AbiMethod) : Method :=
  {| mt_name := ToCamelCase (am_name m); mt_abi := am_name m; mt_kind := if constant m then Reads else Pays;
     mt_params := map bindType (am_inputs m);
     mt_results := if constant m then map bindType (am_outputs m) else [] |}.

(** First the methods that read, then those that pay. *)
Definition methods_of (abi : list AbiEntry) : list Method :=
  let ms := abi_methods [] abi in
  map method_of (List.filter constant ms ++ List.filter (fun m => negb (constant m)) ms).

Fixpoint event_fields (i : Z) (l : list EventArg) : list (string * goType) :=
  match l with
  | [] => []
  | a :: l' => (ToCamelCase (arg_name i (ea_name a)), bindType (ea_type a)) :: event_fields (i + 1) l'
  end.

Definition event_of (name : string) (inputs : list EventArg) : Event :=
  {| ev_name := ToCamelCase name; ev_abi := name; ev_fields := event_fields 0 inputs;
     ev_rules := map (fun a => bindType (ea_type a)) (List.filter ea_indexed inputs) |}.

Fixpoint events_of (l : list AbiEntry) : list Event :=
  match l with
  | [] => []
  | AbiEvent name ins :: l' => event_of name ins :: events_of l'
  | _ :: l' => events_of l'
  end.

Definition receives (l : list AbiEntry) : bool :=
  existsb (fun e => match e with AbiReceive => true | _ => false end) l.

(** The binding has a method per function, an event per event, and [Receive] when
    the contract can receive. *)
Definition generated (c : Contract) : Prop :=
  ct_methods c = methods_of (ct_ABI c) /\ ct_events c = events_of (ct_ABI c)
  /\ ct_receive c = receives (ct_ABI c).
