(* ===== verification/ContractAbis.v ===== *)
(** * The ABIs of the contracts (eth/solidity)

    The field [ABI] of each [MetaData] value, entry by entry in its order, and the
    creation code [Bin] of those that have it. *)

From Stdlib Require Import ZArith String.
From stdpp Require Import base list strings.
From S2P Require Import Prelude Binding.

Open Scope string_scope.
Open Scope Z_scope.
Open Scope list_scope.

(** [CounterMetaData.ABI] *)
Definition Counter_ABI : list AbiEntry :=
  [AbiConstructor [] NonPayable;
   AbiEvent "Decreased" [{| ea_name := "sender"; ea_type := AbiAddress; ea_indexed := true |};
     {| ea_name := "newValue"; ea_type := AbiUint 256; ea_indexed := false |}];
   AbiEvent "Increased" [{| ea_name := "sender"; ea_type := AbiAddress; ea_indexed := true |};
     {| ea_name := "newValue"; ea_type := AbiUint 256; ea_indexed := false |}];
   AbiFunction "decrease" [] [] NonPayable;
   AbiFunction "getCount" [] [("", AbiUint 256)] View;
   AbiFunction "increase" [] [] NonPayable].

(** [CounterMetaData.Bin] *)
Definition Counter_Bin : string :=
  "0x608060405234801561000f575f80fd5b505f80556101cd806100205f395ff3fe608060405234801561000f575f80fd" +:+
  "5b506004361061003f575f3560e01c8063a87d942c14610043578063d732d95514610057578063e8927fbc1461006157" +:+
  "5b5f80fd5b5f5460405190815260200160405180910390f35b61005f610069565b005b61005f610126565b5f80541161" +:+
  "00d7576040517f08c379a000000000000000000000000000000000000000000000000000000000815260206004820152" +:+
  "601860248201527f436f756e742063616e6e6f74206265206e6567617469766500000000000000006044820152606401" +:+
  "60405180910390fd5b60015f808282546100e8919061016b565b90915550505f5460405190815233907f4ba55dd84e65" +:+
  "5ba313508593f2799ef522dc77c7e8c3cd83a198fb9709ee415c9060200160405180910390a2565b60015f8082825461" +:+
  "01379190610184565b9091555050565b7f4e487b71000000000000000000000000000000000000000000000000000000" +:+
  "005f52601160045260245ffd5b8181038181111561017e5761017e61013e565b92915050565b8082018082111561017e" +:+
  "5761017e61013e56fea26469706673582212209f4c245d30d6e370608928cd01ee6d7a332ee0950d0d1b0fa8887bb3cd" +:+
  "21592864736f6c63430008170033".

(** [BenchmarkInternalCallMetaData.ABI] *)
Definition BenchmarkInternalCall_ABI : list AbiEntry :=
  [AbiConstructor [] NonPayable;
   AbiFunction "benchmarkInternalCall" [("iterations", AbiUint 256)] [("", AbiUint 256)] NonPayable].

(** [BenchmarkInternalCallMetaData.Bin] *)
Definition BenchmarkInternalCall_Bin : string :=
  "0x608060405234801561000f575f80fd5b5060405161001c9061005a565b604051809103905ff080158015610035573d" +:+
  "5f803e3d5ffd5b505f80546001600160a01b0319166001600160a01b0392909216919091179055610066565b60d48061" +:+
  "021b83390190565b6101a8806100735f395ff3fe608060405234801561000f575f80fd5b5060043610610029575f3560" +:+
  "e01c8063ff04d8061461002d575b5f80fd5b61004061003b366004610106565b610052565b6040519081526020016040" +:+
  "5180910390f35b5f80805b838110156100ff575f8054906101000a900473ffffffffffffffffffffffffffffffffffff" +:+
  "ffff1673ffffffffffffffffffffffffffffffffffffffff1663f8a8fd6d6040518163ffffffff1660e01b8152600401" +:+
  "6020604051808303815f875af11580156100c7573d5f803e3d5ffd5b505050506040513d601f19601f82011682018060" +:+
  "4052508101906100eb919061011d565b6100f59083610134565b9150600101610056565b5092915050565b5f60208284" +:+
  "031215610116575f80fd5b5035919050565b5f6020828403121561012d575f80fd5b5051919050565b80820180821115" +:+
  "61016c577f4e487b71000000000000000000000000000000000000000000000000000000005f52601160045260245ffd" +:+
  "5b9291505056fea26469706673582212200a948c146a4a71a1358978b29421a804a22a49807e9b27f36c7bcd90f1868a" +:+
  "b064736f6c63430008170033608060405234801561000f575f80fd5b5060b88061001c5f395ff3fe6080604052348015" +:+
  "600e575f80fd5b50600436106026575f3560e01c8063f8a8fd6d14602a575b5f80fd5b60306042565b60405190815260" +:+
  "200160405180910390f35b5f7f1440c4dd67b4344ea1905ec0318995133b550f168b4ee959a0da6b503d7d2414602a60" +:+
  "4051607491815260200190565b60405180910390a150602a9056fea264697066735822122069b5123c635adafc8d2ff9" +:+
  "742374307e345a89a93484467e96b0e12d9d93ad3a64736f6c63430008170033".

(** [InnerMetaData.ABI] *)
Definition Inner_ABI : list AbiEntry :=
  [AbiEvent "TestEvent" [{| ea_name := ""; ea_type := AbiUint 256; ea_indexed := false |}];
   AbiFunction "test" [] [("", AbiUint 256)] NonPayable].

(** [InnerMetaData.Bin] *)
Definition Inner_Bin : string :=
  "0x608060405234801561000f575f80fd5b5060b88061001c5f395ff3fe6080604052348015600e575f80fd5b50600436" +:+
  "106026575f3560e01c8063f8a8fd6d14602a575b5f80fd5b60306042565b60405190815260200160405180910390f35b" +:+
  "5f7f1440c4dd67b4344ea1905ec0318995133b550f168b4ee959a0da6b503d7d2414602a604051607491815260200190" +:+
  "565b60405180910390a150602a9056fea264697066735822122069b5123c635adafc8d2ff9742374307e345a89a93484" +:+
  "467e96b0e12d9d93ad3a64736f6c63430008170033".

(** [LightAccountFactoryMetaData.ABI] *)
Definition LightAccountFactory_ABI : list AbiEntry :=
  [AbiConstructor [("owner", AbiAddress); ("entryPoint", AbiAddress)] NonPayable;
   AbiReceive;
   AbiFunction "ACCOUNT_IMPLEMENTATION" [] [("", AbiAddress)] View;
   AbiFunction "ENTRY_POINT" [] [("", AbiAddress)] View;
   AbiFunction "acceptOwnership" [] [] NonPayable;
   AbiFunction "addStake" [("unstakeDelay", AbiUint 32); ("amount", AbiUint 256)] [] Payable;
   AbiFunction "createAccount" [("owner", AbiAddress); ("salt", AbiUint 256)]
     [("account", AbiAddress)] NonPayable;
   AbiFunction "getAddress" [("owner", AbiAddress); ("salt", AbiUint 256)] [("", AbiAddress)] View;
   AbiFunction "owner" [] [("", AbiAddress)] View;
   AbiFunction "pendingOwner" [] [("", AbiAddress)] View;
   AbiFunction "renounceOwnership" [] [] View;
   AbiFunction "transferOwnership" [("newOwner", AbiAddress)] [] NonPayable;
   AbiFunction "unlockStake" [] [] NonPayable;
   AbiFunction "withdraw" [("to", AbiAddress); ("token", AbiAddress); ("amount", AbiUint 256)] [] NonPayable;
   AbiFunction "withdrawStake" [("to", AbiAddress)] [] NonPayable;
   AbiEvent "OwnershipTransferStarted" [{| ea_name := "previousOwner"; ea_type := AbiAddress;
     ea_indexed := true |}; {| ea_name := "newOwner"; ea_type := AbiAddress; ea_indexed := true |}];
   AbiEvent "OwnershipTransferred" [{| ea_name := "previousOwner"; ea_type := AbiAddress;
     ea_indexed := true |}; {| ea_name := "newOwner"; ea_type := AbiAddress; ea_indexed := true |}];
   AbiError "AddressEmptyCode" [("target", AbiAddress)];
   AbiError "AddressInsufficientBalance" [("account", AbiAddress)];
   AbiError "FailedInnerCall" [];
   AbiError "InvalidAction" [];
   AbiError "InvalidEntryPoint" [("entryPoint", AbiAddress)];
   AbiError "OwnableInvalidOwner" [("owner", AbiAddress)];
   AbiError "OwnableUnauthorizedAccount" [("account", AbiAddress)];
   AbiError "SafeERC20FailedOperation" [("token", AbiAddress)];
   AbiError "TransferFailed" [];
   AbiError "ZeroAddressNotAllowed" []].

(** The tuple [PackedUserOperation] of the account and entry point ABIs. *)
Definition abi_PackedUserOperation : abiType :=
  AbiTuple "structPackedUserOperation" [("sender", AbiAddress);
     ("nonce", AbiUint 256); ("initCode", AbiBytes); ("callData", AbiBytes);
     ("accountGasLimits", AbiFixedBytes 32); ("preVerificationGas", AbiUint 256);
     ("gasFees", AbiFixedBytes 32); ("paymasterAndData", AbiBytes); ("signature", AbiBytes)].

(** [LightAccountMetaData.ABI] *)
Definition LightAccount_ABI : list AbiEntry :=
  [AbiConstructor [("entryPoint_", AbiAddress)] NonPayable;
   AbiReceive;
   AbiFunction "addDeposit" [] [] Payable;
   AbiFunction "eip712Domain" [] [("fields", AbiFixedBytes 1); ("name", AbiString);
     ("version", AbiString); ("chainId", AbiUint 256); ("verifyingContract", AbiAddress);
     ("salt", AbiFixedBytes 32); ("extensions", AbiSlice (AbiUint 256))] View;
   AbiFunction "entryPoint" [] [("", AbiAddress)] View;
   AbiFunction "execute" [("dest", AbiAddress); ("value", AbiUint 256); ("func", AbiBytes)] [] NonPayable;
   AbiFunction "executeBatch" [("dest", AbiSlice AbiAddress); ("func", AbiSlice AbiBytes)] [] NonPayable;
   AbiFunction "executeBatch" [("dest", AbiSlice AbiAddress); ("value", AbiSlice (AbiUint 256));
     ("func", AbiSlice AbiBytes)] [] NonPayable;
   AbiFunction "getDeposit" [] [("", AbiUint 256)] View;
   AbiFunction "getMessageHash" [("message", AbiBytes)] [("", AbiFixedBytes 32)] View;
   AbiFunction "getNonce" [] [("", AbiUint 256)] View;
   AbiFunction "initialize" [("owner_", AbiAddress)] [] NonPayable;
   AbiFunction "isValidSignature" [("hash", AbiFixedBytes 32); ("signature", AbiBytes)]
     [("", AbiFixedBytes 4)] View;
   AbiFunction "onERC1155BatchReceived" [("", AbiAddress); ("", AbiAddress); ("", AbiSlice (AbiUint 256));
     ("", AbiSlice (AbiUint 256)); ("", AbiBytes)] [("", AbiFixedBytes 4)] Pure;
   AbiFunction "onERC1155Received" [("", AbiAddress); ("", AbiAddress); ("", AbiUint 256);
     ("", AbiUint 256); ("", AbiBytes)] [("", AbiFixedBytes 4)] Pure;
   AbiFunction "onERC721Received" [("", AbiAddress); ("", AbiAddress); ("", AbiUint 256); ("", AbiBytes)]
     [("", AbiFixedBytes 4)] Pure;
   AbiFunction "owner" [] [("", AbiAddress)] View;
   AbiFunction "performCreate" [("value", AbiUint 256); ("initCode", AbiBytes)]
     [("createdAddr", AbiAddress)] Payable;
   AbiFunction "performCreate2" [("value", AbiUint 256); ("initCode", AbiBytes);
     ("salt", AbiFixedBytes 32)] [("createdAddr", AbiAddress)] Payable;
   AbiFunction "proxiableUUID" [] [("", AbiFixedBytes 32)] View;
   AbiFunction "supportsInterface" [("interfaceId", AbiFixedBytes 4)] [("", AbiBool)] View;
   AbiFunction "transferOwnership" [("newOwner", AbiAddress)] [] NonPayable;
   AbiFunction "upgradeToAndCall" [("newImplementation", AbiAddress); ("data", AbiBytes)] [] Payable;
   AbiFunction "validateUserOp" [("userOp", abi_PackedUserOperation); ("userOpHash", AbiFixedBytes 32);
     ("missingAccountFunds", AbiUint 256)] [("validationData", AbiUint 256)] NonPayable;
   AbiFunction "withdrawDepositTo" [("withdrawAddress", AbiAddress); ("amount", AbiUint 256)] [] NonPayable;
   AbiEvent "Initialized" [{| ea_name := "version"; ea_type := AbiUint 64; ea_indexed := false |}];
   AbiEvent "LightAccountInitialized" [{| ea_name := "entryPoint"; ea_type := AbiAddress;
     ea_indexed := true |}; {| ea_name := "owner"; ea_type := AbiAddress; ea_indexed := true |}];
   AbiEvent "OwnershipTransferred" [{| ea_name := "previousOwner"; ea_type := AbiAddress;
     ea_indexed := true |}; {| ea_name := "newOwner"; ea_type := AbiAddress; ea_indexed := true |}];
   AbiEvent "Upgraded" [{| ea_name := "implementation"; ea_type := AbiAddress; ea_indexed := true |}];
   AbiError "ArrayLengthMismatch" [];
   AbiError "CreateFailed" [];
   AbiError "ECDSAInvalidSignature" [];
   AbiError "ECDSAInvalidSignatureLength" [("length", AbiUint 256)];
   AbiError "ECDSAInvalidSignatureS" [("s", AbiFixedBytes 32)];
   AbiError "InvalidInitialization" [];
   AbiError "InvalidOwner" [("owner", AbiAddress)];
   AbiError "InvalidSignatureType" [];
   AbiError "NotAuthorized" [("caller", AbiAddress)];
   AbiError "NotInitializing" [];
   AbiError "UnauthorizedCallContext" [];
   AbiError "UpgradeFailed" [];
   AbiError "ZeroAddressNotAllowed" []].

(** [BaseLightAccountMetaData.ABI] *)
Definition BaseLightAccount_ABI : list AbiEntry :=
  [AbiReceive;
   AbiFunction "addDeposit" [] [] Payable;
   AbiFunction "eip712Domain" [] [("fields", AbiFixedBytes 1); ("name", AbiString);
     ("version", AbiString); ("chainId", AbiUint 256); ("verifyingContract", AbiAddress);
     ("salt", AbiFixedBytes 32); ("extensions", AbiSlice (AbiUint 256))] View;
   AbiFunction "entryPoint" [] [("", AbiAddress)] View;
   AbiFunction "execute" [("dest", AbiAddress); ("value", AbiUint 256); ("func", AbiBytes)] [] NonPayable;
   AbiFunction "executeBatch" [("dest", AbiSlice AbiAddress); ("func", AbiSlice AbiBytes)] [] NonPayable;
   AbiFunction "executeBatch" [("dest", AbiSlice AbiAddress); ("value", AbiSlice (AbiUint 256));
     ("func", AbiSlice AbiBytes)] [] NonPayable;
   AbiFunction "getDeposit" [] [("", AbiUint 256)] View;
   AbiFunction "getMessageHash" [("message", AbiBytes)] [("", AbiFixedBytes 32)] View;
   AbiFunction "getNonce" [] [("", AbiUint 256)] View;
   AbiFunction "isValidSignature" [("hash", AbiFixedBytes 32); ("signature", AbiBytes)]
     [("", AbiFixedBytes 4)] View;
   AbiFunction "onERC1155BatchReceived" [("", AbiAddress); ("", AbiAddress); ("", AbiSlice (AbiUint 256));
     ("", AbiSlice (AbiUint 256)); ("", AbiBytes)] [("", AbiFixedBytes 4)] Pure;
   AbiFunction "onERC1155Received" [("", AbiAddress); ("", AbiAddress); ("", AbiUint 256);
     ("", AbiUint 256); ("", AbiBytes)] [("", AbiFixedBytes 4)] Pure;
   AbiFunction "onERC721Received" [("", AbiAddress); ("", AbiAddress); ("", AbiUint 256); ("", AbiBytes)]
     [("", AbiFixedBytes 4)] Pure;
   AbiFunction "performCreate" [("value", AbiUint 256); ("initCode", AbiBytes)]
     [("createdAddr", AbiAddress)] Payable;
   AbiFunction "performCreate2" [("value", AbiUint 256); ("initCode", AbiBytes);
     ("salt", AbiFixedBytes 32)] [("createdAddr", AbiAddress)] Payable;
   AbiFunction "proxiableUUID" [] [("", AbiFixedBytes 32)] View;
   AbiFunction "supportsInterface" [("interfaceId", AbiFixedBytes 4)] [("", AbiBool)] View;
   AbiFunction "upgradeToAndCall" [("newImplementation", AbiAddress); ("data", AbiBytes)] [] Payable;
   AbiFunction "validateUserOp" [("userOp", abi_PackedUserOperation); ("userOpHash", AbiFixedBytes 32);
     ("missingAccountFunds", AbiUint 256)] [("validationData", AbiUint 256)] NonPayable;
   AbiFunction "withdrawDepositTo" [("withdrawAddress", AbiAddress); ("amount", AbiUint 256)] [] NonPayable;
   AbiEvent "Upgraded" [{| ea_name := "implementation"; ea_type := AbiAddress; ea_indexed := true |}];
   AbiError "ArrayLengthMismatch" [];
   AbiError "CreateFailed" [];
   AbiError "InvalidSignatureType" [];
   AbiError "NotAuthorized" [("caller", AbiAddress)];
   AbiError "UnauthorizedCallContext" [];
   AbiError "UpgradeFailed" [];
   AbiError "ZeroAddressNotAllowed" []].

(** [IEntryPointMetaData.ABI] *)
Definition IEntryPoint_ABI : list AbiEntry :=
  [AbiFunction "addStake" [("_unstakeDelaySec", AbiUint 32)] [] Payable;
   AbiFunction "balanceOf" [("account", AbiAddress)] [("", AbiUint 256)] View;
   AbiFunction "delegateAndRevert" [("target", AbiAddress); ("data", AbiBytes)] [] NonPayable;
   AbiFunction "depositTo" [("account", AbiAddress)] [] Payable;
   AbiFunction "getDepositInfo" [("account", AbiAddress)]
     [("info", AbiTuple "structIStakeManager.DepositInfo" [("deposit", AbiUint 256); ("staked", AbiBool);
     ("stake", AbiUint 112); ("unstakeDelaySec", AbiUint 32); ("withdrawTime", AbiUint 48)])] View;
   AbiFunction "getNonce" [("sender", AbiAddress); ("key", AbiUint 192)] [("nonce", AbiUint 256)] View;
   AbiFunction "getSenderAddress" [("initCode", AbiBytes)] [] NonPayable;
   AbiFunction "getUserOpHash" [("userOp", abi_PackedUserOperation)] [("", AbiFixedBytes 32)] View;
   AbiFunction "handleAggregatedOps" [("opsPerAggregator", AbiSlice (AbiTuple "structIEntryPoint.UserOpsPerAggregator" [("userOps", AbiSlice abi_PackedUserOperation);
     ("aggregator", AbiAddress); ("signature", AbiBytes)])); ("beneficiary", AbiAddress)] [] NonPayable;
   AbiFunction "handleOps" [("ops", AbiSlice abi_PackedUserOperation); ("beneficiary", AbiAddress)] [] NonPayable;
   AbiFunction "incrementNonce" [("key", AbiUint 192)] [] NonPayable;
   AbiFunction "unlockStake" [] [] NonPayable;
   AbiFunction "withdrawStake" [("withdrawAddress", AbiAddress)] [] NonPayable;
   AbiFunction "withdrawTo" [("withdrawAddress", AbiAddress); ("withdrawAmount", AbiUint 256)] [] NonPayable;
   AbiEvent "AccountDeployed" [{| ea_name := "userOpHash"; ea_type := AbiFixedBytes 32;
     ea_indexed := true |}; {| ea_name := "sender"; ea_type := AbiAddress; ea_indexed := true |};
     {| ea_name := "factory"; ea_type := AbiAddress; ea_indexed := false |}; {| ea_name := "paymaster";
     ea_type := AbiAddress; ea_indexed := false |}];
   AbiEvent "BeforeExecution" [];
   AbiEvent "Deposited" [{| ea_name := "account"; ea_type := AbiAddress; ea_indexed := true |};
     {| ea_name := "totalDeposit"; ea_type := AbiUint 256; ea_indexed := false |}];
   AbiEvent "PostOpRevertReason" [{| ea_name := "userOpHash"; ea_type := AbiFixedBytes 32;
     ea_indexed := true |}; {| ea_name := "sender"; ea_type := AbiAddress; ea_indexed := true |};
     {| ea_name := "nonce"; ea_type := AbiUint 256; ea_indexed := false |}; {| ea_name := "revertReason";
     ea_type := AbiBytes; ea_indexed := false |}];
   AbiEvent "SignatureAggregatorChanged" [{| ea_name := "aggregator"; ea_type := AbiAddress;
     ea_indexed := true |}];
   AbiEvent "StakeLocked" [{| ea_name := "account"; ea_type := AbiAddress; ea_indexed := true |};
     {| ea_name := "totalStaked"; ea_type := AbiUint 256; ea_indexed := false |};
     {| ea_name := "unstakeDelaySec"; ea_type := AbiUint 256; ea_indexed := false |}];
   AbiEvent "StakeUnlocked" [{| ea_name := "account"; ea_type := AbiAddress; ea_indexed := true |};
     {| ea_name := "withdrawTime"; ea_type := AbiUint 256; ea_indexed := false |}];
   AbiEvent "StakeWithdrawn" [{| ea_name := "account"; ea_type := AbiAddress; ea_indexed := true |};
     {| ea_name := "withdrawAddress"; ea_type := AbiAddress; ea_indexed := false |}; {| ea_name := "amount";
     ea_type := AbiUint 256; ea_indexed := false |}];
   AbiEvent "UserOperationEvent" [{| ea_name := "userOpHash"; ea_type := AbiFixedBytes 32;
     ea_indexed := true |}; {| ea_name := "sender"; ea_type := AbiAddress; ea_indexed := true |};
     {| ea_name := "paymaster"; ea_type := AbiAddress; ea_indexed := true |}; {| ea_name := "nonce";
     ea_type := AbiUint 256; ea_indexed := false |}; {| ea_name := "success"; ea_type := AbiBool;
     ea_indexed := false |}; {| ea_name := "actualGasCost"; ea_type := AbiUint 256; ea_indexed := false |};
     {| ea_name := "actualGasUsed"; ea_type := AbiUint 256; ea_indexed := false |}];
   AbiEvent "UserOperationPrefundTooLow" [{| ea_name := "userOpHash"; ea_type := AbiFixedBytes 32;
     ea_indexed := true |}; {| ea_name := "sender"; ea_type := AbiAddress; ea_indexed := true |};
     {| ea_name := "nonce"; ea_type := AbiUint 256; ea_indexed := false |}];
   AbiEvent "UserOperationRevertReason" [{| ea_name := "userOpHash"; ea_type := AbiFixedBytes 32;
     ea_indexed := true |}; {| ea_name := "sender"; ea_type := AbiAddress; ea_indexed := true |};
     {| ea_name := "nonce"; ea_type := AbiUint 256; ea_indexed := false |}; {| ea_name := "revertReason";
     ea_type := AbiBytes; ea_indexed := false |}];
   AbiEvent "Withdrawn" [{| ea_name := "account"; ea_type := AbiAddress; ea_indexed := true |};
     {| ea_name := "withdrawAddress"; ea_type := AbiAddress; ea_indexed := false |}; {| ea_name := "amount";
     ea_type := AbiUint 256; ea_indexed := false |}];
   AbiError "DelegateAndRevert" [("success", AbiBool); ("ret", AbiBytes)];
   AbiError "FailedOp" [("opIndex", AbiUint 256); ("reason", AbiString)];
   AbiError "FailedOpWithRevert" [("opIndex", AbiUint 256); ("reason", AbiString); ("inner", AbiBytes)];
   AbiError "PostOpReverted" [("returnData", AbiBytes)];
   AbiError "SenderAddressResult" [("sender", AbiAddress)];
   AbiError "SignatureValidationFailed" [("aggregator", AbiAddress)]].
