(* ===== verification/Contracts.v ===== *)
(** * The bindings of the contracts (eth/solidity)

    One [Contract] per generated binding: the methods and events of the Go files,
    read off their code (the name of each function, the types of its arguments and
    results, and the name it passes to the bound contract), beside the ABI of the
    metadata.  A [Method] stands for the function of the caller or transactor and its
    two session functions ([Caller_method] or [Transactor_method] and the sessions at
    it), an [Event] for its struct and its filter, watch and parse functions
    ([Filter_event], [Watch_event], [Parse_event] at it; its iterator is the code of
    [Next]), and a [Contract] for the types, constructors and raw functions around
    them. *)

From Stdlib Require Import ZArith String.
From stdpp Require Import base list strings.
From S2P Require Import Prelude Binding ContractAbis.

Open Scope string_scope.
Open Scope Z_scope.
Open Scope list_scope.

Definition Counter_GetCount : Method :=
  {| mt_name := "GetCount"; mt_abi := "getCount"; mt_kind := Reads; mt_params := []; mt_results := [GBigInt] |}.

Definition Counter_Decrease : Method :=
  {| mt_name := "Decrease"; mt_abi := "decrease"; mt_kind := Pays; mt_params := []; mt_results := [] |}.

Definition Counter_Increase : Method :=
  {| mt_name := "Increase"; mt_abi := "increase"; mt_kind := Pays; mt_params := []; mt_results := [] |}.

Definition Counter_Decreased : Event :=
  {| ev_name := "Decreased"; ev_abi := "Decreased"; ev_fields := [("Sender", GAddress); ("NewValue", GBigInt)];
     ev_rules := [GAddress] |}.

Definition Counter_Increased : Event :=
  {| ev_name := "Increased"; ev_abi := "Increased"; ev_fields := [("Sender", GAddress); ("NewValue", GBigInt)];
     ev_rules := [GAddress] |}.

(** The binding of Counter. *)
Definition Counter_binding : Contract :=
  {| ct_name := "Counter"; ct_ABI := Counter_ABI; ct_Bin := Some Counter_Bin;
     ct_methods := [Counter_GetCount; Counter_Decrease; Counter_Increase];
     ct_receive := false;
     ct_events := [Counter_Decreased; Counter_Increased] |}.

Definition BenchmarkInternalCall_BenchmarkInternalCall : Method :=
  {| mt_name := "BenchmarkInternalCall"; mt_abi := "benchmarkInternalCall"; mt_kind := Pays;
     mt_params := [GBigInt]; mt_results := [] |}.

(** The binding of BenchmarkInternalCall. *)
Definition BenchmarkInternalCall_binding : Contract :=
  {| ct_name := "BenchmarkInternalCall"; ct_ABI := BenchmarkInternalCall_ABI;
     ct_Bin := Some BenchmarkInternalCall_Bin;
     ct_methods := [BenchmarkInternalCall_BenchmarkInternalCall];
     ct_receive := false;
     ct_events := [] |}.

Definition Inner_Test : Method :=
  {| mt_name := "Test"; mt_abi := "test"; mt_kind := Pays; mt_params := []; mt_results := [] |}.

Definition Inner_TestEvent : Event :=
  {| ev_name := "TestEvent"; ev_abi := "TestEvent"; ev_fields := [("Arg0", GBigInt)]; ev_rules := [] |}.

(** The binding of Inner. *)
Definition Inner_binding : Contract :=
  {| ct_name := "Inner"; ct_ABI := Inner_ABI; ct_Bin := Some Inner_Bin;
     ct_methods := [Inner_Test];
     ct_receive := false;
     ct_events := [Inner_TestEvent] |}.

Definition LightAccountFactory_ACCOUNTIMPLEMENTATION : Method :=
  {| mt_name := "ACCOUNTIMPLEMENTATION"; mt_abi := "ACCOUNT_IMPLEMENTATION"; mt_kind := Reads; mt_params := [];
     mt_results := [GAddress] |}.

Definition LightAccountFactory_ENTRYPOINT : Method :=
  {| mt_name := "ENTRYPOINT"; mt_abi := "ENTRY_POINT"; mt_kind := Reads; mt_params := [];
     mt_results := [GAddress] |}.

Definition LightAccountFactory_GetAddress : Method :=
  {| mt_name := "GetAddress"; mt_abi := "getAddress"; mt_kind := Reads; mt_params := [GAddress; GBigInt];
     mt_results := [GAddress] |}.

Definition LightAccountFactory_Owner : Method :=
  {| mt_name := "Owner"; mt_abi := "owner"; mt_kind := Reads; mt_params := []; mt_results := [GAddress] |}.

Definition LightAccountFactory_PendingOwner : Method :=
  {| mt_name := "PendingOwner"; mt_abi := "pendingOwner"; mt_kind := Reads; mt_params := [];
     mt_results := [GAddress] |}.

Definition LightAccountFactory_RenounceOwnership : Method :=
  {| mt_name := "RenounceOwnership"; mt_abi := "renounceOwnership"; mt_kind := Reads; mt_params := [];
     mt_results := [] |}.

Definition LightAccountFactory_AcceptOwnership : Method :=
  {| mt_name := "AcceptOwnership"; mt_abi := "acceptOwnership"; mt_kind := Pays; mt_params := [];
     mt_results := [] |}.

Definition LightAccountFactory_AddStake : Method :=
  {| mt_name := "AddStake"; mt_abi := "addStake"; mt_kind := Pays; mt_params := [GUint 32; GBigInt];
     mt_results := [] |}.

Definition LightAccountFactory_CreateAccount : Method :=
  {| mt_name := "CreateAccount"; mt_abi := "createAccount"; mt_kind := Pays; mt_params := [GAddress; GBigInt];
     mt_results := [] |}.

Definition LightAccountFactory_TransferOwnership : Method :=
  {| mt_name := "TransferOwnership"; mt_abi := "transferOwnership"; mt_kind := Pays; mt_params := [GAddress];
     mt_results := [] |}.

Definition LightAccountFactory_UnlockStake : Method :=
  {| mt_name := "UnlockStake"; mt_abi := "unlockStake"; mt_kind := Pays; mt_params := []; mt_results := [] |}.

Definition LightAccountFactory_Withdraw : Method :=
  {| mt_name := "Withdraw"; mt_abi := "withdraw"; mt_kind := Pays; mt_params := [GAddress; GAddress; GBigInt];
     mt_results := [] |}.

Definition LightAccountFactory_WithdrawStake : Method :=
  {| mt_name := "WithdrawStake"; mt_abi := "withdrawStake"; mt_kind := Pays; mt_params := [GAddress];
     mt_results := [] |}.

Definition LightAccountFactory_OwnershipTransferStarted : Event :=
  {| ev_name := "OwnershipTransferStarted"; ev_abi := "OwnershipTransferStarted";
     ev_fields := [("PreviousOwner", GAddress); ("NewOwner", GAddress)]; ev_rules := [GAddress; GAddress] |}.

Definition LightAccountFactory_OwnershipTransferred : Event :=
  {| ev_name := "OwnershipTransferred"; ev_abi := "OwnershipTransferred";
     ev_fields := [("PreviousOwner", GAddress); ("NewOwner", GAddress)]; ev_rules := [GAddress; GAddress] |}.

(** The binding of LightAccountFactory. *)
Definition LightAccountFactory_binding : Contract :=
  {| ct_name := "LightAccountFactory"; ct_ABI := LightAccountFactory_ABI; ct_Bin := None;
     ct_methods := [LightAccountFactory_ACCOUNTIMPLEMENTATION; LightAccountFactory_ENTRYPOINT;
        LightAccountFactory_GetAddress; LightAccountFactory_Owner; LightAccountFactory_PendingOwner;
        LightAccountFactory_RenounceOwnership; LightAccountFactory_AcceptOwnership;
        LightAccountFactory_AddStake; LightAccountFactory_CreateAccount; LightAccountFactory_TransferOwnership;
        LightAccountFactory_UnlockStake; LightAccountFactory_Withdraw; LightAccountFactory_WithdrawStake];
     ct_receive := true;
     ct_events := [LightAccountFactory_OwnershipTransferStarted; LightAccountFactory_OwnershipTransferred] |}.

(** The struct [PackedUserOperation]. *)
Definition go_PackedUserOperation : goType :=
  GStruct "PackedUserOperation" [("Sender", GAddress);
     ("Nonce", GBigInt); ("InitCode", GBytes); ("CallData", GBytes); ("AccountGasLimits", GFixedBytes 32);
     ("PreVerificationGas", GBigInt); ("GasFees", GFixedBytes 32); ("PaymasterAndData", GBytes);
     ("Signature", GBytes)].

Definition LightAccount_Eip712Domain : Method :=
  {| mt_name := "Eip712Domain"; mt_abi := "eip712Domain"; mt_kind := Reads; mt_params := [];
     mt_results := [GFixedBytes 1; GString; GString; GBigInt; GAddress; GFixedBytes 32; GSlice GBigInt] |}.

Definition LightAccount_EntryPoint : Method :=
  {| mt_name := "EntryPoint"; mt_abi := "entryPoint"; mt_kind := Reads; mt_params := [];
     mt_results := [GAddress] |}.

Definition LightAccount_GetDeposit : Method :=
  {| mt_name := "GetDeposit"; mt_abi := "getDeposit"; mt_kind := Reads; mt_params := []; mt_results := [GBigInt] |}.

Definition LightAccount_GetMessageHash : Method :=
  {| mt_name := "GetMessageHash"; mt_abi := "getMessageHash"; mt_kind := Reads; mt_params := [GBytes];
     mt_results := [GFixedBytes 32] |}.

Definition LightAccount_GetNonce : Method :=
  {| mt_name := "GetNonce"; mt_abi := "getNonce"; mt_kind := Reads; mt_params := []; mt_results := [GBigInt] |}.

Definition LightAccount_IsValidSignature : Method :=
  {| mt_name := "IsValidSignature"; mt_abi := "isValidSignature"; mt_kind := Reads;
     mt_params := [GFixedBytes 32; GBytes]; mt_results := [GFixedBytes 4] |}.

Definition LightAccount_OnERC1155BatchReceived : Method :=
  {| mt_name := "OnERC1155BatchReceived"; mt_abi := "onERC1155BatchReceived"; mt_kind := Reads;
     mt_params := [GAddress; GAddress; GSlice GBigInt; GSlice GBigInt; GBytes]; mt_results := [GFixedBytes 4] |}.

Definition LightAccount_OnERC1155Received : Method :=
  {| mt_name := "OnERC1155Received"; mt_abi := "onERC1155Received"; mt_kind := Reads;
     mt_params := [GAddress; GAddress; GBigInt; GBigInt; GBytes]; mt_results := [GFixedBytes 4] |}.

Definition LightAccount_OnERC721Received : Method :=
  {| mt_name := "OnERC721Received"; mt_abi := "onERC721Received"; mt_kind := Reads;
     mt_params := [GAddress; GAddress; GBigInt; GBytes]; mt_results := [GFixedBytes 4] |}.

Definition LightAccount_Owner : Method :=
  {| mt_name := "Owner"; mt_abi := "owner"; mt_kind := Reads; mt_params := []; mt_results := [GAddress] |}.

Definition LightAccount_ProxiableUUID : Method :=
  {| mt_name := "ProxiableUUID"; mt_abi := "proxiableUUID"; mt_kind := Reads; mt_params := [];
     mt_results := [GFixedBytes 32] |}.

Definition LightAccount_SupportsInterface : Method :=
  {| mt_name := "SupportsInterface"; mt_abi := "supportsInterface"; mt_kind := Reads;
     mt_params := [GFixedBytes 4]; mt_results := [GBool] |}.

Definition LightAccount_AddDeposit : Method :=
  {| mt_name := "AddDeposit"; mt_abi := "addDeposit"; mt_kind := Pays; mt_params := []; mt_results := [] |}.

Definition LightAccount_Execute : Method :=
  {| mt_name := "Execute"; mt_abi := "execute"; mt_kind := Pays; mt_params := [GAddress; GBigInt; GBytes];
     mt_results := [] |}.

Definition LightAccount_ExecuteBatch : Method :=
  {| mt_name := "ExecuteBatch"; mt_abi := "executeBatch"; mt_kind := Pays;
     mt_params := [GSlice GAddress; GSlice GBytes]; mt_results := [] |}.

Definition LightAccount_ExecuteBatch0 : Method :=
  {| mt_name := "ExecuteBatch0"; mt_abi := "executeBatch0"; mt_kind := Pays;
     mt_params := [GSlice GAddress; GSlice GBigInt; GSlice GBytes]; mt_results := [] |}.

Definition LightAccount_Initialize : Method :=
  {| mt_name := "Initialize"; mt_abi := "initialize"; mt_kind := Pays; mt_params := [GAddress]; mt_results := [] |}.

Definition LightAccount_PerformCreate : Method :=
  {| mt_name := "PerformCreate"; mt_abi := "performCreate"; mt_kind := Pays; mt_params := [GBigInt; GBytes];
     mt_results := [] |}.

Definition LightAccount_PerformCreate2 : Method :=
  {| mt_name := "PerformCreate2"; mt_abi := "performCreate2"; mt_kind := Pays;
     mt_params := [GBigInt; GBytes; GFixedBytes 32]; mt_results := [] |}.

Definition LightAccount_TransferOwnership : Method :=
  {| mt_name := "TransferOwnership"; mt_abi := "transferOwnership"; mt_kind := Pays; mt_params := [GAddress];
     mt_results := [] |}.

Definition LightAccount_UpgradeToAndCall : Method :=
  {| mt_name := "UpgradeToAndCall"; mt_abi := "upgradeToAndCall"; mt_kind := Pays;
     mt_params := [GAddress; GBytes]; mt_results := [] |}.

Definition LightAccount_ValidateUserOp : Method :=
  {| mt_name := "ValidateUserOp"; mt_abi := "validateUserOp"; mt_kind := Pays;
     mt_params := [go_PackedUserOperation; GFixedBytes 32; GBigInt]; mt_results := [] |}.

Definition LightAccount_WithdrawDepositTo : Method :=
  {| mt_name := "WithdrawDepositTo"; mt_abi := "withdrawDepositTo"; mt_kind := Pays;
     mt_params := [GAddress; GBigInt]; mt_results := [] |}.

Definition LightAccount_Initialized : Event :=
  {| ev_name := "Initialized"; ev_abi := "Initialized"; ev_fields := [("Version", GUint 64)]; ev_rules := [] |}.

Definition LightAccount_LightAccountInitialized : Event :=
  {| ev_name := "LightAccountInitialized"; ev_abi := "LightAccountInitialized";
     ev_fields := [("EntryPoint", GAddress); ("Owner", GAddress)]; ev_rules := [GAddress; GAddress] |}.

Definition LightAccount_OwnershipTransferred : Event :=
  {| ev_name := "OwnershipTransferred"; ev_abi := "OwnershipTransferred";
     ev_fields := [("PreviousOwner", GAddress); ("NewOwner", GAddress)]; ev_rules := [GAddress; GAddress] |}.

Definition LightAccount_Upgraded : Event :=
  {| ev_name := "Upgraded"; ev_abi := "Upgraded"; ev_fields := [("Implementation", GAddress)];
     ev_rules := [GAddress] |}.

(** The binding of LightAccount. *)
Definition LightAccount_binding : Contract :=
  {| ct_name := "LightAccount"; ct_ABI := LightAccount_ABI; ct_Bin := None;
     ct_methods := [LightAccount_Eip712Domain; LightAccount_EntryPoint; LightAccount_GetDeposit;
        LightAccount_GetMessageHash; LightAccount_GetNonce; LightAccount_IsValidSignature;
        LightAccount_OnERC1155BatchReceived; LightAccount_OnERC1155Received; LightAccount_OnERC721Received;
        LightAccount_Owner; LightAccount_ProxiableUUID; LightAccount_SupportsInterface;
        LightAccount_AddDeposit; LightAccount_Execute; LightAccount_ExecuteBatch; LightAccount_ExecuteBatch0;
        LightAccount_Initialize; LightAccount_PerformCreate; LightAccount_PerformCreate2;
        LightAccount_TransferOwnership; LightAccount_UpgradeToAndCall; LightAccount_ValidateUserOp;
        LightAccount_WithdrawDepositTo];
     ct_receive := true;
     ct_events := [LightAccount_Initialized; LightAccount_LightAccountInitialized;
        LightAccount_OwnershipTransferred; LightAccount_Upgraded] |}.

Definition BaseLightAccount_Eip712Domain : Method :=
  {| mt_name := "Eip712Domain"; mt_abi := "eip712Domain"; mt_kind := Reads; mt_params := [];
     mt_results := [GFixedBytes 1; GString; GString; GBigInt; GAddress; GFixedBytes 32; GSlice GBigInt] |}.

Definition BaseLightAccount_EntryPoint : Method :=
  {| mt_name := "EntryPoint"; mt_abi := "entryPoint"; mt_kind := Reads; mt_params := [];
     mt_results := [GAddress] |}.

Definition BaseLightAccount_GetDeposit : Method :=
  {| mt_name := "GetDeposit"; mt_abi := "getDeposit"; mt_kind := Reads; mt_params := []; mt_results := [GBigInt] |}.

Definition BaseLightAccount_GetMessageHash : Method :=
  {| mt_name := "GetMessageHash"; mt_abi := "getMessageHash"; mt_kind := Reads; mt_params := [GBytes];
     mt_results := [GFixedBytes 32] |}.

Definition BaseLightAccount_GetNonce : Method :=
  {| mt_name := "GetNonce"; mt_abi := "getNonce"; mt_kind := Reads; mt_params := []; mt_results := [GBigInt] |}.

Definition BaseLightAccount_IsValidSignature : Method :=
  {| mt_name := "IsValidSignature"; mt_abi := "isValidSignature"; mt_kind := Reads;
     mt_params := [GFixedBytes 32; GBytes]; mt_results := [GFixedBytes 4] |}.

Definition BaseLightAccount_OnERC1155BatchReceived : Method :=
  {| mt_name := "OnERC1155BatchReceived"; mt_abi := "onERC1155BatchReceived"; mt_kind := Reads;
     mt_params := [GAddress; GAddress; GSlice GBigInt; GSlice GBigInt; GBytes]; mt_results := [GFixedBytes 4] |}.

Definition BaseLightAccount_OnERC1155Received : Method :=
  {| mt_name := "OnERC1155Received"; mt_abi := "onERC1155Received"; mt_kind := Reads;
     mt_params := [GAddress; GAddress; GBigInt; GBigInt; GBytes]; mt_results := [GFixedBytes 4] |}.

Definition BaseLightAccount_OnERC721Received : Method :=
  {| mt_name := "OnERC721Received"; mt_abi := "onERC721Received"; mt_kind := Reads;
     mt_params := [GAddress; GAddress; GBigInt; GBytes]; mt_results := [GFixedBytes 4] |}.

Definition BaseLightAccount_ProxiableUUID : Method :=
  {| mt_name := "ProxiableUUID"; mt_abi := "proxiableUUID"; mt_kind := Reads; mt_params := [];
     mt_results := [GFixedBytes 32] |}.

Definition BaseLightAccount_SupportsInterface : Method :=
  {| mt_name := "SupportsInterface"; mt_abi := "supportsInterface"; mt_kind := Reads;
     mt_params := [GFixedBytes 4]; mt_results := [GBool] |}.

Definition BaseLightAccount_AddDeposit : Method :=
  {| mt_name := "AddDeposit"; mt_abi := "addDeposit"; mt_kind := Pays; mt_params := []; mt_results := [] |}.

Definition BaseLightAccount_Execute : Method :=
  {| mt_name := "Execute"; mt_abi := "execute"; mt_kind := Pays; mt_params := [GAddress; GBigInt; GBytes];
     mt_results := [] |}.

Definition BaseLightAccount_ExecuteBatch : Method :=
  {| mt_name := "ExecuteBatch"; mt_abi := "executeBatch"; mt_kind := Pays;
     mt_params := [GSlice GAddress; GSlice GBytes]; mt_results := [] |}.

Definition BaseLightAccount_ExecuteBatch0 : Method :=
  {| mt_name := "ExecuteBatch0"; mt_abi := "executeBatch0"; mt_kind := Pays;
     mt_params := [GSlice GAddress; GSlice GBigInt; GSlice GBytes]; mt_results := [] |}.

Definition BaseLightAccount_PerformCreate : Method :=
  {| mt_name := "PerformCreate"; mt_abi := "performCreate"; mt_kind := Pays; mt_params := [GBigInt; GBytes];
     mt_results := [] |}.

Definition BaseLightAccount_PerformCreate2 : Method :=
  {| mt_name := "PerformCreate2"; mt_abi := "performCreate2"; mt_kind := Pays;
     mt_params := [GBigInt; GBytes; GFixedBytes 32]; mt_results := [] |}.

Definition BaseLightAccount_UpgradeToAndCall : Method :=
  {| mt_name := "UpgradeToAndCall"; mt_abi := "upgradeToAndCall"; mt_kind := Pays;
     mt_params := [GAddress; GBytes]; mt_results := [] |}.

Definition BaseLightAccount_ValidateUserOp : Method :=
  {| mt_name := "ValidateUserOp"; mt_abi := "validateUserOp"; mt_kind := Pays;
     mt_params := [go_PackedUserOperation; GFixedBytes 32; GBigInt]; mt_results := [] |}.

Definition BaseLightAccount_WithdrawDepositTo : Method :=
  {| mt_name := "WithdrawDepositTo"; mt_abi := "withdrawDepositTo"; mt_kind := Pays;
     mt_params := [GAddress; GBigInt]; mt_results := [] |}.

Definition BaseLightAccount_Upgraded : Event :=
  {| ev_name := "Upgraded"; ev_abi := "Upgraded"; ev_fields := [("Implementation", GAddress)];
     ev_rules := [GAddress] |}.

(** The binding of BaseLightAccount. *)
Definition BaseLightAccount_binding : Contract :=
  {| ct_name := "BaseLightAccount"; ct_ABI := BaseLightAccount_ABI; ct_Bin := None;
     ct_methods := [BaseLightAccount_Eip712Domain; BaseLightAccount_EntryPoint; BaseLightAccount_GetDeposit;
        BaseLightAccount_GetMessageHash; BaseLightAccount_GetNonce; BaseLightAccount_IsValidSignature;
        BaseLightAccount_OnERC1155BatchReceived; BaseLightAccount_OnERC1155Received;
        BaseLightAccount_OnERC721Received; BaseLightAccount_ProxiableUUID; BaseLightAccount_SupportsInterface;
        BaseLightAccount_AddDeposit; BaseLightAccount_Execute; BaseLightAccount_ExecuteBatch;
        BaseLightAccount_ExecuteBatch0; BaseLightAccount_PerformCreate; BaseLightAccount_PerformCreate2;
        BaseLightAccount_UpgradeToAndCall; BaseLightAccount_ValidateUserOp; BaseLightAccount_WithdrawDepositTo];
     ct_receive := true;
     ct_events := [BaseLightAccount_Upgraded] |}.

(** The struct [IEntryPointUserOpsPerAggregator]. *)
Definition go_IEntryPointUserOpsPerAggregator : goType :=
  GStruct "IEntryPointUserOpsPerAggregator" [
     ("UserOps", GSlice go_PackedUserOperation); ("Aggregator", GAddress); ("Signature", GBytes)].

(** The struct [IStakeManagerDepositInfo]. *)
Definition go_IStakeManagerDepositInfo : goType :=
  GStruct "IStakeManagerDepositInfo" [("Deposit", GBigInt);
     ("Staked", GBool); ("Stake", GBigInt); ("UnstakeDelaySec", GUint 32); ("WithdrawTime", GBigInt)].

Definition IEntryPoint_BalanceOf : Method :=
  {| mt_name := "BalanceOf"; mt_abi := "balanceOf"; mt_kind := Reads; mt_params := [GAddress];
     mt_results := [GBigInt] |}.

Definition IEntryPoint_GetDepositInfo : Method :=
  {| mt_name := "GetDepositInfo"; mt_abi := "getDepositInfo"; mt_kind := Reads; mt_params := [GAddress];
     mt_results := [go_IStakeManagerDepositInfo] |}.

Definition IEntryPoint_GetNonce : Method :=
  {| mt_name := "GetNonce"; mt_abi := "getNonce"; mt_kind := Reads; mt_params := [GAddress; GBigInt];
     mt_results := [GBigInt] |}.

Definition IEntryPoint_GetUserOpHash : Method :=
  {| mt_name := "GetUserOpHash"; mt_abi := "getUserOpHash"; mt_kind := Reads;
     mt_params := [go_PackedUserOperation]; mt_results := [GFixedBytes 32] |}.

Definition IEntryPoint_AddStake : Method :=
  {| mt_name := "AddStake"; mt_abi := "addStake"; mt_kind := Pays; mt_params := [GUint 32]; mt_results := [] |}.

Definition IEntryPoint_DelegateAndRevert : Method :=
  {| mt_name := "DelegateAndRevert"; mt_abi := "delegateAndRevert"; mt_kind := Pays;
     mt_params := [GAddress; GBytes]; mt_results := [] |}.

Definition IEntryPoint_DepositTo : Method :=
  {| mt_name := "DepositTo"; mt_abi := "depositTo"; mt_kind := Pays; mt_params := [GAddress]; mt_results := [] |}.

Definition IEntryPoint_GetSenderAddress : Method :=
  {| mt_name := "GetSenderAddress"; mt_abi := "getSenderAddress"; mt_kind := Pays; mt_params := [GBytes];
     mt_results := [] |}.

Definition IEntryPoint_HandleAggregatedOps : Method :=
  {| mt_name := "HandleAggregatedOps"; mt_abi := "handleAggregatedOps"; mt_kind := Pays;
     mt_params := [GSlice go_IEntryPointUserOpsPerAggregator; GAddress]; mt_results := [] |}.

Definition IEntryPoint_HandleOps : Method :=
  {| mt_name := "HandleOps"; mt_abi := "handleOps"; mt_kind := Pays;
     mt_params := [GSlice go_PackedUserOperation; GAddress]; mt_results := [] |}.

Definition IEntryPoint_IncrementNonce : Method :=
  {| mt_name := "IncrementNonce"; mt_abi := "incrementNonce"; mt_kind := Pays; mt_params := [GBigInt];
     mt_results := [] |}.

Definition IEntryPoint_UnlockStake : Method :=
  {| mt_name := "UnlockStake"; mt_abi := "unlockStake"; mt_kind := Pays; mt_params := []; mt_results := [] |}.

Definition IEntryPoint_WithdrawStake : Method :=
  {| mt_name := "WithdrawStake"; mt_abi := "withdrawStake"; mt_kind := Pays; mt_params := [GAddress];
     mt_results := [] |}.

Definition IEntryPoint_WithdrawTo : Method :=
  {| mt_name := "WithdrawTo"; mt_abi := "withdrawTo"; mt_kind := Pays; mt_params := [GAddress; GBigInt];
     mt_results := [] |}.

Definition IEntryPoint_AccountDeployed : Event :=
  {| ev_name := "AccountDeployed"; ev_abi := "AccountDeployed"; ev_fields := [("UserOpHash", GFixedBytes 32);
     ("Sender", GAddress); ("Factory", GAddress); ("Paymaster", GAddress)];
     ev_rules := [GFixedBytes 32; GAddress] |}.

Definition IEntryPoint_BeforeExecution : Event :=
  {| ev_name := "BeforeExecution"; ev_abi := "BeforeExecution"; ev_fields := []; ev_rules := [] |}.

Definition IEntryPoint_Deposited : Event :=
  {| ev_name := "Deposited"; ev_abi := "Deposited"; ev_fields := [("Account", GAddress);
     ("TotalDeposit", GBigInt)]; ev_rules := [GAddress] |}.

Definition IEntryPoint_PostOpRevertReason : Event :=
  {| ev_name := "PostOpRevertReason"; ev_abi := "PostOpRevertReason";
     ev_fields := [("UserOpHash", GFixedBytes 32); ("Sender", GAddress); ("Nonce", GBigInt);
     ("RevertReason", GBytes)]; ev_rules := [GFixedBytes 32; GAddress] |}.

Definition IEntryPoint_SignatureAggregatorChanged : Event :=
  {| ev_name := "SignatureAggregatorChanged"; ev_abi := "SignatureAggregatorChanged";
     ev_fields := [("Aggregator", GAddress)]; ev_rules := [GAddress] |}.

Definition IEntryPoint_StakeLocked : Event :=
  {| ev_name := "StakeLocked"; ev_abi := "StakeLocked"; ev_fields := [("Account", GAddress);
     ("TotalStaked", GBigInt); ("UnstakeDelaySec", GBigInt)]; ev_rules := [GAddress] |}.

Definition IEntryPoint_StakeUnlocked : Event :=
  {| ev_name := "StakeUnlocked"; ev_abi := "StakeUnlocked"; ev_fields := [("Account", GAddress);
     ("WithdrawTime", GBigInt)]; ev_rules := [GAddress] |}.

Definition IEntryPoint_StakeWithdrawn : Event :=
  {| ev_name := "StakeWithdrawn"; ev_abi := "StakeWithdrawn"; ev_fields := [("Account", GAddress);
     ("WithdrawAddress", GAddress); ("Amount", GBigInt)]; ev_rules := [GAddress] |}.

Definition IEntryPoint_UserOperationEvent : Event :=
  {| ev_name := "UserOperationEvent"; ev_abi := "UserOperationEvent";
     ev_fields := [("UserOpHash", GFixedBytes 32); ("Sender", GAddress); ("Paymaster", GAddress);
     ("Nonce", GBigInt); ("Success", GBool); ("ActualGasCost", GBigInt); ("ActualGasUsed", GBigInt)];
     ev_rules := [GFixedBytes 32; GAddress; GAddress] |}.

Definition IEntryPoint_UserOperationPrefundTooLow : Event :=
  {| ev_name := "UserOperationPrefundTooLow"; ev_abi := "UserOperationPrefundTooLow";
     ev_fields := [("UserOpHash", GFixedBytes 32); ("Sender", GAddress); ("Nonce", GBigInt)];
     ev_rules := [GFixedBytes 32; GAddress] |}.

Definition IEntryPoint_UserOperationRevertReason : Event :=
  {| ev_name := "UserOperationRevertReason"; ev_abi := "UserOperationRevertReason";
     ev_fields := [("UserOpHash", GFixedBytes 32); ("Sender", GAddress); ("Nonce", GBigInt);
     ("RevertReason", GBytes)]; ev_rules := [GFixedBytes 32; GAddress] |}.

Definition IEntryPoint_Withdrawn : Event :=
  {| ev_name := "Withdrawn"; ev_abi := "Withdrawn"; ev_fields := [("Account", GAddress);
     ("WithdrawAddress", GAddress); ("Amount", GBigInt)]; ev_rules := [GAddress] |}.

(** The binding of IEntryPoint. *)
Definition IEntryPoint_binding : Contract :=
  {| ct_name := "IEntryPoint"; ct_ABI := IEntryPoint_ABI; ct_Bin := None;
     ct_methods := [IEntryPoint_BalanceOf; IEntryPoint_GetDepositInfo; IEntryPoint_GetNonce;
        IEntryPoint_GetUserOpHash; IEntryPoint_AddStake; IEntryPoint_DelegateAndRevert; IEntryPoint_DepositTo;
        IEntryPoint_GetSenderAddress; IEntryPoint_HandleAggregatedOps; IEntryPoint_HandleOps;
        IEntryPoint_IncrementNonce; IEntryPoint_UnlockStake; IEntryPoint_WithdrawStake; IEntryPoint_WithdrawTo];
     ct_receive := false;
     ct_events := [IEntryPoint_AccountDeployed; IEntryPoint_BeforeExecution; IEntryPoint_Deposited;
        IEntryPoint_PostOpRevertReason; IEntryPoint_SignatureAggregatorChanged; IEntryPoint_StakeLocked;
        IEntryPoint_StakeUnlocked; IEntryPoint_StakeWithdrawn; IEntryPoint_UserOperationEvent;
        IEntryPoint_UserOperationPrefundTooLow; IEntryPoint_UserOperationRevertReason; IEntryPoint_Withdrawn] |}.

Definition bindings : list Contract :=
  [Counter_binding; BenchmarkInternalCall_binding; Inner_binding; LightAccountFactory_binding; 
   LightAccount_binding; BaseLightAccount_binding; IEntryPoint_binding].
