(* ===== verification/ContractCalls.v ===== *)
(** * What the contract bindings do

    The bindings of [Contracts] against their ABIs; their reading methods,
    iterators and watchers; and the calls the program packs against the ABIs. *)

From Stdlib Require Import ZArith Lia Ascii String.
From stdpp Require Import base list strings numbers gmap.
From S2P Require Import Prelude GoStrings Float64 Sdk SdkModel Chain Payload EthPayload UserOp UserOpPayload Commands.
From S2P Require Import EthDelivery Binding ContractAbis Contracts.

Open Scope string_scope.
Open Scope Z_scope.
Open Scope list_scope.

(** ** The bindings and their ABIs *)

Definition find_method (abi : list AbiEntry) (name : string) : option AbiMethod :=
  head (List.filter (fun m => bool_decide (am_name m = name)) (abi_methods [] abi)).

Lemma generated_all : Forall generated bindings.
Proof. repeat constructor; vm_compute; reflexivity. Qed.

(** No two methods of a binding have one name, neither in the ABI nor in Go. *)
Lemma names_unique :
  Forall (fun c => NoDup (map am_name (abi_methods [] (ct_ABI c))) /\
                   NoDup (map (fun am => ToCamelCase (am_name am)) (abi_methods [] (ct_ABI c)))) bindings.
Proof.
  assert (forallb (fun c => bool_decide (NoDup (map am_name (abi_methods [] (ct_ABI c)))) &&
      bool_decide (NoDup (map (fun am => ToCamelCase (am_name am)) (abi_methods [] (ct_ABI c))))) bindings = true)
    as H by (vm_compute; reflexivity).
  apply Forall_forall. intros c Hc. rewrite forallb_forall in H.
  specialize (H c (proj1 (list_elem_of_In _ _) Hc)). apply andb_true_iff in H as [H1 H2].
  exact (conj (bool_decide_eq_true_1 _ H1) (bool_decide_eq_true_1 _ H2)).
Qed.

Lemma find_method_unique l m :
  NoDup (map am_name l) -> m ∈ l -> head (List.filter (fun x => bool_decide (am_name x = am_name m)) l) = Some m.
Proof.
  induction l as [|x l IH]; intros Hnd Hm; [by apply not_elem_of_nil in Hm|].
  cbn [map] in Hnd. apply NoDup_cons in Hnd as [Hx Hnd]. cbn [List.filter].
  apply elem_of_cons in Hm as [->|Hm]; [by rewrite bool_decide_eq_true_2|].
  rewrite bool_decide_eq_false_2; [by apply IH|]. intros E. apply Hx. rewrite E.
  by apply list_elem_of_fmap_2.
Qed.

Lemma NoDup_map_inj {A B} (f : A -> B) l x y : NoDup (map f l) -> x ∈ l -> y ∈ l -> f x = f y -> x = y.
Proof.
  induction l as [|z l IH]; intros Hnd Hx Hy E; [by apply not_elem_of_nil in Hx|].
  cbn [map] in Hnd. apply NoDup_cons in Hnd as [Hz Hnd].
  apply elem_of_cons in Hx as [->|Hx], Hy as [->|Hy]; [done| | |by apply IH].
  all: exfalso; apply Hz; first [rewrite E|rewrite <- E]; by apply list_elem_of_fmap_2.
Qed.

(** A reading method of a binding stands for the one function of the ABI that has its
    name in Go, and has its types. *)
Lemma reading_method c m :
  c ∈ bindings -> m ∈ ct_methods c -> mt_kind m = Reads ->
  exists am, am ∈ abi_methods [] (ct_ABI c) /\ ToCamelCase (am_name am) = mt_name m /\
    find_method (ct_ABI c) (mt_abi m) = Some am /\ mt_abi m = am_name am /\
    mt_params m = map bindType (am_inputs am) /\ mt_results m = map bindType (am_outputs am).
Proof.
  intros Hc Hm Hk. pose proof generated_all as Hg. rewrite Forall_forall in Hg.
  destruct (Hg c Hc) as (Hms & _). rewrite Hms in Hm. unfold methods_of in Hm.
  apply list_elem_of_fmap in Hm as (am & -> & Ham). exists am.
  assert (am ∈ abi_methods [] (ct_ABI c)) as Hin.
  { apply list_elem_of_In. apply list_elem_of_In, in_app_or in Ham as [H|H]; by apply filter_In in H as [H _]. }
  unfold method_of in *. cbn [mt_kind mt_abi mt_results mt_name mt_params] in *.
  split_and!; [done|done| |done|done|by destruct (constant am)].
  pose proof names_unique as Hn. rewrite Forall_forall in Hn. by apply find_method_unique; [apply Hn|].
Qed.

(** ** Reading methods *)

(** Documented: [GetAbi] gives the ABI of the metadata; a call of a method of the bound ABI returns values of the types of
    its outputs, and [ConvertType] leaves a value of the wanted type alone. *)
Class BindLaws `{BindLib} := {
  typed : goType -> GoValue -> Prop;
  GetAbi_same abi parsed : GetAbi abi = Ok (Some parsed) -> parsed = abi;
  Call_outputs address abi caller transactor filterer opts name args w out am :
    find_method abi name = Some am ->
    bc_Call (NewBoundContract address abi caller transactor filterer) opts name args w = Ok out ->
    Forall2 typed (map bindType (am_outputs am)) out;
  ConvertType_typed t v : typed t v -> ConvertType t v = Some v
}.

Section Reading.
Context `{BL : BindLib, BLL : !BindLaws}.

Lemma convert_typed i ts out :
  Forall2 typed ts (drop i out) -> convert i ts out = Ok (drop i out).
Proof.
  revert i. induction ts as [|t ts IH]; intros i HF; cbn [convert].
  - by inversion HF.
  - apply Forall2_cons_inv_l in HF as (v & vs & Hv & HF & Hd).
    assert (out !! i = Some v) as -> by (rewrite <- (Nat.add_0_r i), <- lookup_drop, Hd; done).
    assert (drop (S i) out = vs) as Hs by (replace (S i) with (i + 1)%nat by lia; by rewrite <- drop_drop, Hd).
    rewrite (ConvertType_typed _ _ Hv), IH by by rewrite Hs. cbn. by rewrite Hd, Hs.
Qed.

(** C32. A reading method of any of the bindings (such as the [GetNonce] and [BalanceOf]
    of the entry point that a light account reads) calls the function of the ABI that
    has its name: there is exactly one function of the contract's ABI whose name in
    Go is the method's, the method takes arguments of that function's types, and
    through a binding, a caller or a session it gives exactly the outputs or the
    error of the bound contract's call of that function: converting the outputs to
    the result types of the method, which are the function's, loses nothing and
    never panics. *)
Theorem reads_transparent c m address caller transactor filterer k opts args w :
  c ∈ bindings -> m ∈ ct_methods c -> mt_kind m = Reads ->
  bindContract c address caller transactor filterer = Ok k ->
  (exists am, am ∈ abi_methods [] (ct_ABI c) /\ ToCamelCase (am_name am) = mt_name m) /\
  forall am, am ∈ abi_methods [] (ct_ABI c) -> ToCamelCase (am_name am) = mt_name m ->
    mt_params m = map bindType (am_inputs am) /\
    Caller_method k m opts args w = bc_Call k opts (am_name am) args w /\
    (forall topts, Session_call {| ses_Contract := bound k; ses_CallOpts := opts; ses_TransactOpts := topts |}
        m args w = bc_Call k opts (am_name am) args w) /\
    forall out, bc_Call k opts (am_name am) args w = Ok out ->
      mt_results m = map bindType (am_outputs am) /\ Forall2 typed (mt_results m) out.
Proof.
  intros Hc Hm Hk Hb. destruct (reading_method c m Hc Hm Hk) as (am & Hin & Hname & Hf & Habi & Hps & Hr).
  split; [eauto|]. intros am' Hin' Hname'.
  assert (am' = am) as ->.
  { pose proof names_unique as Hn. rewrite Forall_forall in Hn. destruct (Hn c Hc) as [_ Hnd].
    apply (NoDup_map_inj _ _ _ _ Hnd); [done|done|]. by rewrite Hname, Hname'. }
  rewrite <- Habi. apply go_bind_Ok in Hb as ([abi|] & Hg & [= <-]). apply GetAbi_same in Hg as ->.
  set (k := NewBoundContract _ _ _ _ _).
  assert (forall out, bc_Call k opts (mt_abi m) args w = Ok out -> Forall2 typed (mt_results m) out) as Ht
    by (intros out; rewrite Hr; by apply Call_outputs).
  assert (Caller_method k m opts args w = bc_Call k opts (mt_abi m) args w) as Hcm.
  { unfold Caller_method. destruct (bc_Call k opts (mt_abi m) args w) as [out| |]; [|done|done]. cbn [go_bind].
    by apply (convert_typed 0), Ht. }
  split_and!; [exact Hps|exact Hcm|intros topts; exact Hcm|]. intros out Ho. split; [exact Hr|by apply Ht].
Qed.

End Reading.

(** ** Events *)

Section Events.
Context `{BL : BindLib}.

(** At its end the loop has seen what it should. *)
Lemma iterating_stopped contract event logs s :
  iterating contract event logs s -> sy_stopped s = true ->
  (sy_seen s, Iterator_Error (sy_it s)) = delivered contract event logs.
Proof.
  intros Hi Hs. destruct (in_taken _ _ _ _ Hi) as (taken & Hl & Hd). unfold Iterator_Error.
  destruct (in_stopped _ _ _ _ Hi Hs) as [Hf|[Hl1 Hl2]].
  - destruct (it_fail (sy_it s)) as [err|] eqn:Ef; [|done]. rewrite Hl. symmetry. by apply delivered_failed.
  - rewrite Hl1, Hl2, app_nil_r in Hl. by rewrite Hl.
Qed.

(** C31. Iterating over the events of a filter sees all of them.  The loop over [Next]
    runs beside the goroutine that delivers the logs found, through a channel of
    bounded size, and [Next] chooses freely between a log and the end of the
    subscription when both are ready.  Whatever the interleaving: no run gets
    stuck before the loop ends, every run ends within twice the number of logs and
    two more steps, and at the end the loop has seen the events of the logs in
    order, all of them, or those before the first one that does not unpack, whose
    error [Error] then returns. *)
Theorem iteration_complete contract e opts rules w it logs :
  Filter_event contract e opts rules w = Ok (it, logs) ->
  let run n s := steps n (start it logs None) s in
  (forall n s, run n s ->
     (n <= 2 * length logs + 2)%nat
     /\ (sy_stopped s = false -> exists s', step s s')
     /\ (sy_stopped s = true -> (sy_seen s, Iterator_Error (sy_it s)) = delivered contract (ev_abi e) logs))
  /\ exists n s, run n s /\ sy_stopped s = true.
Proof.
  intros (l & _ & [= <- <-])%go_bind_Ok run.
  set (s0 := start _ l None) in run.
  assert (iterating contract (ev_abi e) l s0) as H0 by (constructor; try done; by exists []).
  assert (work s0 = 2 * length l + 2)%nat as Hw0 by (unfold work; cbn; lia).
  assert (forall n s, run n s -> iterating contract (ev_abi e) l s /\ (n <= 2 * length l + 2)%nat) as Hr.
  { intros n s H. destruct (steps_iterating _ _ _ _ _ _ H0 H). split; [done|lia]. }
  split.
  - intros n s H. destruct (Hr n s H) as [Hi Hn]. split_and!; [done| |].
    + intros Hs. destruct (progress _ _ _ _ Hi) as [Hs'|]; [congruence|done].
    + by apply iterating_stopped.
  - eapply (run_to_end run step (fun s => sy_stopped s = true) s0 (2 * length l + 2)); [constructor| | |].
    + intros n s s' H Hs. by eapply steps_snoc.
    + intros n s H. exact (proj2 (Hr n s H)).
    + intros n s H. exact (progress contract (ev_abi e) l s (proj1 (Hr n s H))).
Qed.

(** Closing an iterator loses only what was not delivered yet: from then on too the
    loop runs to its end, and sees the events of the logs delivered before. *)
Lemma close_ends contract event logs s n s' :
  iterating contract event logs s -> steps n (Iterator_Close s) s' -> sy_stopped s' = true ->
  exists logs', logs = logs' ++ sy_pending s /\ (sy_seen s', Iterator_Error (sy_it s')) = delivered contract event logs'.
Proof.
  intros Hi Hr Hs. destruct (close_iterating _ _ _ _ Hi) as (logs' & Hl & Hc). exists logs'. split; [done|].
  destruct (steps_iterating _ _ _ _ _ _ Hc Hr) as [Hi' _]. by apply iterating_stopped.
Qed.

Inductive watch_run (contract : BoundContract) (event : string) : Watch -> Prop :=
| wr_start : watch_run contract event watch_start
| wr_step w w' : watch_run contract event w -> watch_step contract event w w' -> watch_run contract event w'.

(** A watcher forwards the events of the logs it took, in order and once each; at
    most the last one is missing, when it was ended while the sink was not ready.
    It returns when a log does not unpack, on the subscription's error, or quietly
    when it is told to quit. *)
Lemma watch_forwards contract event w :
  watch_run contract event w ->
  let due := (delivered contract event (wa_taken w)).1 in
  let sunk := map as_seen (wa_sunk w) in
  sunk = due \/ exists e, due = sunk ++ [e].
Proof.
  intros Hr. assert (watching contract event w) as Hw.
  { induction Hr as [|w w' _ IH Hs]; [done|by eapply watch_watching]. }
  unfold watching in Hw. destruct (wa_state w) as [|e|r]; [rewrite Hw; by left|rewrite Hw; eauto|].
  destruct Hw as [->|[e ->]]; eauto.
Qed.

End Events.

(** ** The calls of the program *)

Definition find_binding (name : string) : option Contract :=
  head (List.filter (fun c => bool_decide (ct_name c = name)) bindings).

(** The parameter types of a method, by the name given to [Pack]. *)
Definition pack_params (contract method : string) : option (list goType) :=
  c ← find_binding contract; m ← find_method (ct_ABI c) method; Some (map bindType (am_inputs m)).

(** The Go type of an argument given to [Pack]. *)
Definition arg_type (v : AbiValue) : goType :=
  match v with
  | AAddress _ => GAddress
  | AUint256 _ => GBigInt
  | ABytes32 _ => GFixedBytes 32
  | ABytes _ => GBytes
  end.

(** Documented: [Pack] succeeds when the ABI has a method of that name and the
    arguments have the types of its inputs (the arguments of [abi_Pack] are big
    integers). *)
Class PackLaws `{EL : EthLib, EB : EthBytes} := {
  Pack_ok contract method args :
    pack_params contract method = Some (map (fun _ => GBigInt) args) ->
    is_Ok (abi_Pack contract method args) = true;
  Method_Pack_ok contract method args :
    pack_params contract method = Some (map arg_type args) ->
    is_Ok (abi_Method_Pack contract method args) = true
}.

Section Packing.
Context `{CR : Crypto, EL : EthLib, EB : EthBytes, PL : !PackLaws, EN : EthNode}.

Lemma executeCallData_packs la addr data : is_Ok (executeCallData la addr data) = true.
Proof.
  unfold executeCallData. pose proof (Method_Pack_ok "LightAccount" "execute"
    [AAddress addr; AUint256 0; ABytes data] eq_refl) as H. by destruct (abi_Method_Pack _ _ _).
Qed.

Lemma createAccountCallData_packs la : is_Ok (createAccountCallData la) = true.
Proof.
  unfold createAccountCallData. cbv zeta. set (salt := if la_salt la =? 0 then _ else _).
  pose proof (Method_Pack_ok "LightAccountFactory" "createAccount"
    [AAddress (la_eoaOwner la); AUint256 salt] eq_refl) as H. by destruct (abi_Method_Pack _ _ _).
Qed.

Lemma newUserOperation_packs la addr data nonce g gs :
  exists op, newUserOperation la addr data nonce (g :: gs) = Ok op /\
    CallGasLimit op = ge_CallGasLimit g /\ VerificationGasLimit op = ge_VerificationGasLimit g /\
    MaxFeePerGas op = ge_MaxFeePerGas g /\ MaxPriorityFeePerGas op = ge_MaxPriorityFeePerGas g.
Proof.
  unfold newUserOperation, la_initCode. pose proof (executeCallData_packs la addr data) as H1.
  pose proof (createAccountCallData_packs la) as H2.
  destruct (executeCallData la addr data); [|done..]. destruct (createAccountCallData la); [|done..].
  cbn [go_bind]. destruct (negb (la_isDeployed la) && (nonce =? 0)); eauto 10.
Qed.

(** The signer signs every operation with the payload's gas estimates. *)
Definition signs_operations (p : ethUserOpProvider) (req : TxRequest) : Prop :=
  forall op, CallGasLimit op = 22000 -> VerificationGasLimit op = 75000 -> MaxFeePerGas op = 0 ->
    MaxPriorityFeePerGas op = 0 -> is_Ok (SignUserOperation (userop_signer p req) op) = true.

Lemma userop_loop_succeeds p req la callData n nonces :
  signs_operations p req -> is_Ok (userop_loop p req la callData n nonces).2 = true.
Proof.
  intros Hsig. revert nonces. induction n as [|n IH]; intros nonces; [done|]. cbn [userop_loop].
  destruct (newUserOperation_packs la (up_counterContractAddress p) callData
    (default 0 (nonces !! FromIdx req)) userop_gas []) as (op & -> & H1 & H2 & H3 & H4).
  pose proof (Hsig op H1 H2 H3 H4) as Hs. destruct (SignUserOperation _ op) as [[pk h]| |]; [|done..].
  set (nonces1 := <[FromIdx req := _]> nonces). specialize (IH nonces1).
  destruct (userop_loop p req la callData n nonces1) as [nonces2 [rest| |]]; done.
Qed.

(** C30. The calls the program packs are calls its contracts have.  Each names a function
    of the ABI in the binding of its contract, with arguments of the types of its
    inputs, so that packing it succeeds whatever the values are: a light account can
    always make a user operation (with its creation code, when it has to be created)
    and the deposit to the entry point, and asking the factory for its address does
    not panic; the two contract-calling payloads generate a transaction exactly when
    the address of their contract is set; and the user-operation payload generates
    one whenever the counter's address is set, the sender has a light account, the
    signer signs and the batch can be packed. *)
Theorem call_data_packs :
  (forall la addr data nonce g gs, is_Ok (newUserOperation la addr data nonce (g :: gs)) = true) /\
  (forall la, is_Ok (DepositToEntrypointCallData la) = true) /\
  (forall la call, (forall to data, is_Panic (call to data) = false) -> is_Panic (la_Address call la).2 = false) /\
  (forall p req, is_Ok (ethCall_GenerateTx p req) = true <-> call_contractAddress p <> zero_address) /\
  (forall p req, is_Ok (ethInternalCall_GenerateTx p req) = true <-> ic_contractAddress p <> zero_address) /\
  (forall p req, signs_operations p req -> (forall ops b, is_Ok (abi_handleOps ops b) = true) ->
     is_Ok (userop_GenerateTx p req).2 = true <->
     up_counterContractAddress p <> zero_address /\ is_Some (lightAccounts p !! FromIdx req)).
Proof.
  split_and!.
  - intros la addr data nonce g gs. by destruct (newUserOperation_packs la addr data nonce g gs) as (op & -> & _).
  - intros la. unfold DepositToEntrypointCallData.
    pose proof (Method_Pack_ok "IEntryPoint" "depositTo" [AAddress (la_eoaOwner la)] eq_refl) as H.
    by destruct (abi_Method_Pack _ _ _).
  - intros la call Hc. unfold la_Address. destruct (negb _); [done|].
    pose proof (createAccountCallData_packs la) as H. destruct (createAccountCallData la) as [data| |]; [|done..].
    cbn [go_bind]. specialize (Hc (la_accountFactoryAddress la) data). by destruct (call _ data).
  - intros p req. unfold ethCall_GenerateTx. destruct (bool_decide_reflect (call_contractAddress p = zero_address));
      [done|]. pose proof (Pack_ok "Counter" "increase" [] eq_refl) as H. by destruct (abi_Pack _ _ _).
  - intros p req. unfold ethInternalCall_GenerateTx.
    destruct (bool_decide_reflect (ic_contractAddress p = zero_address)); [done|].
    pose proof (Pack_ok "BenchmarkInternalCall" "benchmarkInternalCall" [i64 (ic_iterations p)] eq_refl) as H.
    by destruct (abi_Pack _ _ _).
  - intros p req Hsig Hops. unfold userop_GenerateTx.
    destruct (bool_decide_reflect (up_counterContractAddress p = zero_address)); [naive_solver|].
    pose proof (Method_Pack_ok "Counter" "increase" [] eq_refl) as H.
    destruct (abi_Method_Pack _ _ _) as [callData| |]; [|done..]. cbn [go_wrap].
    destruct (lightAccounts p !! FromIdx req) as [la|]; [|split; [done|by intros [_ []]]].
    pose proof (userop_loop_succeeds p req la callData opsPerTx (lightAccountNonces p) Hsig) as Hl.
    destruct (userop_loop _ _ _ _ _ _) as [nonces [ops| |]]; [|done..]. cbn [snd go_bind].
    unfold HandleOpsCallData. specialize (Hops ops (EthAddress BytesToAddress (From req))).
    destruct (abi_handleOps ops _); [|done..]. cbn. split; [eauto|done].
Qed.

(** With these laws the Ethereum commands need nothing of the ABI: a run only needs
    receivers with full addresses, or a contract address that is not zero. *)
Lemma eth_command_packed contract keys fl cmd :
  eth_command contract keys fl cmd <->
  match cmd with
  | TxEthSend => Z.of_nat (length keys) < maxInt /\ forall key, key ∈ keys -> (20 <= length (Address key))%nat
  | TxEthCall | TxEthInternalCall => contract <> zero_address
  | TxEthDeploy => True
  | _ => False
  end.
Proof.
  destruct cmd; cbn [eth_command]; try done; split; try (by intros [? _]); intros Hc; (split; [exact Hc|]);
    by apply Pack_ok.
Qed.
End Packing.

(** ** Concrete instances *)

(** Packing that refuses what the ABI does not have. *)
Definition checked_eth : EthLib := {|
  eth_SignerHash := @eth_SignerHash model_eth;
  eth_WithSignature := @eth_WithSignature model_eth;
  abi_Get := @abi_Get model_eth;
  abi_Pack c m args :=
    if decide (is_Some (pack_params c m) /\ (length <$> pack_params c m) = Some (length args))
    then @abi_Pack model_eth c m args else Err (ENew "method not found");
  contract_Bin := @contract_Bin model_eth;
  BytesToAddress := @BytesToAddress model_eth;
  Address_String := @Address_String model_eth;
  HexToHash := @HexToHash model_eth;
  Hash_Hex := @Hash_Hex model_eth
|}.

Definition checked_bytes : EthBytes := {|
  LeftPadBytes := @LeftPadBytes model_ethbytes;
  BytesToHash := @BytesToHash model_ethbytes;
  Keccak256Hash := @Keccak256Hash model_ethbytes;
  abi_Arguments_Pack := @abi_Arguments_Pack model_ethbytes;
  abi_Method_Pack c m args :=
    match pack_params c m with
    | None => Err (ENew "method not found")
    | Some params =>
        if (length params =? length args)%nat then @abi_Method_Pack model_ethbytes c m args
        else Err (ENew "argument count mismatch")
    end
|}.

Lemma checked_pack : @PackLaws checked_eth checked_bytes.
Proof.
  constructor; cbn; intros c m args H; rewrite H.
  - rewrite decide_True; [done|]. split; [eauto|]. cbn. by rewrite length_map.
  - by rewrite length_map, Nat.eqb_refl.
Qed.

Lemma call_data_packs_witness :
  is_Ok (@newUserOperation checked_bytes demo_la (repeat 3 20) [232; 146; 127; 188] 0 [userop_gas]) = true /\
  is_Ok (@abi_Method_Pack checked_bytes "LightAccount" "executes" [ABytes []]) = false.
Proof.
  split; [|vm_compute; reflexivity].
  apply (@call_data_packs model_crypto checked_eth checked_bytes checked_pack model_ethnode).
Defined.

(** A node that answers every call with zeros; a log unpacks to itself, unless it
    is negative. *)
Definition model_bind : BindLib := {|
  World := Z; GoValue := Z; CallOpts := unit; TransactOpts := unit; FilterOpts := unit;
  WatchOpts := unit; Transaction := Z;
  Log := Z; Backend := unit; BoundContract := list AbiEntry;
  GetAbi abi := Ok (Some abi);
  FromHex _ := [];
  NewBoundContract _ abi _ _ _ := abi;
  DeployContract _ abi _ _ w := (Ok ([], w, abi), w + 1);
  bc_Call abi _ name _ _ :=
    match find_method abi name with
    | Some am => Ok (map (fun _ => 0) (am_outputs am))
    | None => Err (ENew "method not found")
    end;
  bc_Transact _ _ _ _ w := (Ok w, w + 1);
  bc_RawTransact _ _ _ w := (Ok w, w + 1);
  bc_Transfer _ _ w := (Ok w, w + 1);
  bc_FilterLogs _ _ _ _ _ := Ok [5; 6; -1; 7];
  bc_WatchLogs _ _ _ _ _ := Ok ();
  bc_UnpackLog _ _ log := ([log], if log <? 0 then Some (ENew "abi: cannot unmarshal") else None);
  ConvertType _ v := Some v
|}.

Lemma model_bind_laws : @BindLaws model_bind.
Proof.
  refine {| typed := fun _ _ => True |}; [by intros abi parsed [= ->]| |done].
  intros address abi a b d opts name args w out am Hf. cbn. rewrite Hf. intros [= <-].
  induction (am_outputs am); constructor; done.
Qed.

Lemma reads_transparent_witness :
  @Caller_method model_bind IEntryPoint_ABI IEntryPoint_GetNonce tt [1; 2] 0
  = @bc_Call model_bind IEntryPoint_ABI tt "getNonce" [1; 2] 0.
Proof.
  destruct (@reads_transparent model_bind model_bind_laws IEntryPoint_binding IEntryPoint_GetNonce [] None None
    None IEntryPoint_ABI tt [1; 2] 0 ltac:(by repeat constructor) ltac:(by repeat constructor) eq_refl eq_refl)
    as [(am & Hin & Hname) H].
  destruct (H am Hin Hname) as (_ & Hc & _). rewrite Hc.
  assert (Ham : Forall (fun a => ToCamelCase (am_name a) = "GetNonce" -> am_name a = "getNonce")
    (abi_methods [] IEntryPoint_ABI)) by (vm_compute; repeat constructor; discriminate).
  rewrite Forall_forall in Ham. by rewrite (Ham am Hin Hname).
Defined.

Lemma iteration_complete_witness :
  exists it logs n s, @Filter_event model_bind Counter_ABI Counter_Increased tt [] 0 = Ok (it, logs)
    /\ @steps model_bind n (@start model_bind it logs None) s
    /\ sy_seen s = [([5], Some 5); ([6], Some 6)] /\ it_fail (sy_it s) = Some (ENew "abi: cannot unmarshal").
Proof.
  destruct (@Filter_event model_bind Counter_ABI Counter_Increased tt [] 0) as [[it logs]| |] eqn:E; try done.
  destruct (@iteration_complete model_bind Counter_ABI Counter_Increased tt [] 0 it logs E) as [Hall (n & s & Hr & Hs)].
  exists it, logs, n, s. destruct (Hall n s Hr) as (_ & _ & Hd). specialize (Hd Hs). injection E as <- <-.
  cbn in Hd. injection Hd as H1 H2. done.
Defined.
